(* ===== verification/_CoqProject ===== *)
-Q . S2P
Prelude.v
JsString.v
Types.v
Schema.v
Database.v
Seed.v
Data.v
DataInvariant.v
GroupMembership.v
Groups.v
AccessRules.v
Networks.v
Base64.v
Json.v
JsonRoundtrip.v
Jwt.v
Slug.v
Uri.v
Storage.v
ResourcePolicies.v
Browser.v
Guards.v
Signup.v
Toast.v
Proxy.v
Routes.v
UserRoutes.v
WorkspaceRoutes.v
Server.v
ServerProps.v
Membership.v
Client.v
ClientProps.v
Discovery.v
Ui.v
Async.v
GroupForms.v
UserForms.v
NetworkForms.v
Picker.v
ResourceForms.v
ConnectorForms.v
AgentForms.v
Pages.v
DetailPages.v
Shell.v
DiagnosticsPages.v
Forms.v
Loading.v
PickerProps.v
Numerals.v
FormValues.v
Races.v
Links.v
Dynamic.v
SettingsPages.v
UserPages.v
SettingsProps.v
AccountPages.v
AccountProps.v
DeviceProfiles.v
SignInPolicy.v
Settings.v
Migration.v
MigrationProps.v
PolicyPages.v
PolicyProps.v
DiscoveryView.v
Controller.v
ControllerProps.v
Contract.v
Answers.v
MembersPage.v
Jsx.v
KitBasic.v
KitOverlays.v
KitWidgets.v
KitSidebar.v
KitProps.v
KitBehaviour.v
