(* ===== verification/Prelude.v ===== *)
(** * Verification of the zero-trust management front end

    The repository is a zero-trust network access system.  Its TypeScript program,
    [apps/frontend], is the management front end: a React application in the browser
    and an Express server behind it, which forwards the requests of the application to
    the controller (a Go program).  This library models that program and proves what
    makes its parts correct.  File names below are relative to [apps/frontend].

    ** The parts of the program and how they interact

<<
  browser                                          server             controller (Go)
  pages ---> lib/mock-api.ts ---> /api/... ---> server/index.ts       (its routes)
  App.tsx    (API client)                       server/routes/*  --->  lib/proxy.ts ---> HTTP
    |  guards, TokenCapture, Login, sign-up
    v
  localStorage: token, lib/resource-policies.ts, lib/device-profiles.ts,
                lib/sign-in-policy.ts       sessionStorage: SignupContext.tsx

  lib/data.ts ---> lib/db.ts ---> SQLite file
>>

    The local data layer ([lib/data.ts] on [lib/db.ts]) keeps users, groups, networks,
    connectors, resources and access rules in SQLite.  It is complete and self-contained,
    but no route of the server imports it: the routes forward to the controller.  What
    is proved of it holds of these two files, and is not a statement about the data the
    controller keeps.

    ** Files and what they model

    Foundations.  [Prelude]: errors, the state and exception monad [M], Hoare-style
    [preserves], lemmas on lists.  [JsString]: the string operations of the language.
    [Json]: values, truthiness, property access, [Number], [JSON.parse] and
    [JSON.stringify].  [JsonRoundtrip]: parsing what was printed, and the fuel
    of the parser.  [Numerals]: what [Number] makes of digits.  [Base64]: [atob].  [Uri]:
    [encodeURIComponent] and its inverse, and [URLSearchParams], which reads back what it has
    written.

    Data layer.  [Types]: the interfaces of [lib/types.ts].  [Schema], [Database]: the
    tables of [initSchema] and the meaning of the SQL statements, constraints, cascades
    and transactions included.  [Seed]: [seedIfNeeded].  [Data]: every function of
    [lib/data.ts], under its name.  [Migration]: [getDb] and the [ensure*] functions,
    over stores whose schema is data.  The theorems are in [DataInvariant],
    [GroupMembership], [Groups], [AccessRules], [Networks] and [MigrationProps].

    Settings in the browser.  [Storage]: [localStorage] and the interface [KeyLocal]
    that a settings module offers to those it shares the storage with.
    [ResourcePolicies], [DeviceProfiles], [SignInPolicy]: the three modules with the
    handlers of their pages.  [Settings]: their calls, interleaved.

    Sessions.  [Jwt]: [lib/jwt.ts].  [Browser]: the part of the page the sign-in code
    works on.  [Guards]: [AuthGuard] and [UserAuthGuard] of [src/App.tsx], [Login.tsx]
    and [WorkspaceSelectorPage.tsx].  [Slug]: [nameToSlug] and the form fields of
    [SignupCustomizePage.tsx] and [WorkspaceCreatePage.tsx], with the check of the
    controller.  [Signup]: [SignupContext.tsx], [TokenCapture] and the sign-up pages.
    [Toast]: [hooks/use-toast.ts].

    Server and client.  [Proxy]: [lib/proxy.ts].  [Routes], [UserRoutes],
    [WorkspaceRoutes]: one definition per handler of [server/routes/*.ts].  [Server]:
    the route table and the dispatch of [server/index.ts].  [Client]: every function of
    [lib/mock-api.ts].  [Controller]: the routes of the controller ([services/controller/admin]),
    up to the handler that a request reaches, and what they ask of the caller.  The theorems
    are in [ServerProps], [Membership], [ClientProps] and [ControllerProps].

    Components and pages.  [Ui]: what a component shows, a tree of texts, links and
    controls, and which events it offers ([offered]).  [Async]: a component as a
    transition system.  Its handlers are programs ([prog]) that change the state, call
    props and await calls; [exec] runs one up to its first [await]; [step] is an event of
    the user on a control that is shown, a reply, or a rendering by the parent;
    [reachable] is what follows from mounting.  [Async] also holds the principles the
    theorems share: [invariant] (of the state), [orderly] and [SubmitForm] (one submission at a
    time) and [reachable_asks] (what a component can ask for).
    One Module per component, in the file of its part of the dashboard:
    [GroupForms], [UserForms], [NetworkForms], [ResourceForms], [ConnectorForms],
    [AgentForms] ([components/dashboard]), [Picker] ([components/subjects] and the two
    dialogs that use it, over the interface of [SubjectPicker] towards its parents),
    [Pages] (lists) and [DetailPages] (one entity), [Shell] (the routes of [App.tsx], the
    sidebar, the header, the checklist, the policy menu), [DiagnosticsPages].
    [Dynamic]: rendering that may throw, for the pages that cast what [fetch] returns:
    [SettingsPages] (workspace switcher and settings, sessions, identity providers, audit
    log), [UserPages] (the pages of members) and [AccountPages] (signing in, choosing and
    creating a workspace, the four pages of the sign-up; where a token leads is in [Guards],
    what the sign-up becomes in [Signup]).  [Discovery]: [NetworkDiscoveryPage.tsx] as a
    state machine; [DiscoveryView]: what it shows, and the reports of the controller
    ([state/discovery.go]) it is shown on.  [PolicyPages]: the pages of [src/pages/policy],
    which work on local storage at once; each is a [local_page], a transition system on its
    state and the storage ([local_reachable]) over the modules of the settings.
    The theorems are in [Forms], [Loading], [PickerProps], [FormValues], [Races], [Links],
    [SettingsProps], [AccountProps], [PolicyProps] and [DiscoveryView].

    Types of the answers.  [Contract]: types of dynamic values and assignability, the
    interfaces of [lib/types.ts], the structs of the controller by their JSON tags, and
    what every function of the client declares.  [Answers]: what the mappers of the server
    make of such values and what each route answers; [MembersPage]: the settings page of a
    workspace on the members the controller reports.

    The UI kit ([components/ui]).  [Jsx]: values of properties, elements, spreads and class
    names.  A Module per file (with [-] written [_]), a definition per component, from its properties (and
    the context it reads) to the element it returns: [KitBasic] (controls and layout),
    [KitOverlays] (dialogs, menus, messages), [KitWidgets] (forms, the carousel, charts, the
    calendar), [KitSidebar] (with [hooks/use-mobile.ts]).  Those that keep a
    state ([SidebarProvider], [Carousel], [useIsMobile]) have it as a record, with a
    definition per callback and effect.  [KitProps]: the table of the components that wrap
    one element, and what all of them promise; [KitBehaviour]: the stateful components over
    all sequences of events, the fields of forms, and smaller points.

    ** What the theorems show

    - Data layer.  [reachable_integrity]: the integrity of the database on every reachable
      state.  The writers are atomic and do what their names say, every branch included
      ([updateGroupMembers_replaces], [createAccessRule_grants],
      [addGroupResources_grants]); counts that two readers compute by different queries
      agree ([group_views_agree]).  Opening a current or a new file gives the current
      schema and nothing else ([migrations_idempotent]); two migrations of older files
      fail ([old_users_table_stuck], [migration_loses_groups]).
    - Settings.  The policies page implements an abstract list of policies, whose invariant
      no sequence of operations breaks ([policies_refine], a simulation, and
      [policies_invariant]); the three modules are isolated from each other and from the
      rest of the storage ([settings_isolated], from the interface alone).  On top of them,
      each policy page shows what is stored in every reachable state, and its events do to
      the storage and to the page what they say ([policies_page], [policy_detail],
      [profiles_page], [signin_page], with [local_invariant] for all four).
    - Sessions.  Reading a token inverts issuing it ([token_claims]); the guards terminate,
      decide who may stay on the dashboard, and agree with the landing pages
      ([guards_settle], [landing_agrees]).  Sign-up sends at most one creation request at
      a time and none after success, in any interleaving of mounts and replies
      ([at_most_one_creation]), and for exactly what was typed, through the context, the
      query sent to the identity provider and its answer ([signup_carries]); derived slugs
      ([derived_slug]).  The sign-in page ignores the network that was chosen
      ([login_networks]); its forms and those of workspaces have one request at a time in
      flight and do not hang ([account_forms]).  Toasts: the limit, the
      timers and the listeners ([toasts_invariant], [dismissed_goes_away]).
    - Server and client.  Every request is answered ([every_route_answers]), with the
      credentials the route is meant to use ([route_credentials]); what becomes of
      refusals ([refusals_become_500]) and of replies in any order ([users_list_groups]);
      every function of the client reaches its route ([client_server_agree]), and every
      request of a route the handler of the controller it is meant for, the path for service
      accounts excepted ([server_controller_agree]); outside the routes of workspaces who
      calls makes no difference ([callers_indistinguishable]).
    - Dialogs and lists.  Whoever submits has exactly one submission in flight while it is
      busy, in any order of events and replies ([single_submission], one theorem for all
      the dialogs by the interface [SubmitForm]), but for the invitations
      ([invite_any_number]).  The picker keeps what its parents are promised, and the
      dialog that adds members sends exactly the union ([picker_refines], [add_members]).
      What the forms of resources and networks accept, keep and send ([forms_typed],
      [edit_unchanged], [edit_ports_unchecked], [add_resource_request]).
    - Pages.  A spinner always ends with the replies in flight ([pages_never_stuck]); what
      overlapping calls do ([overlapping_deletions], [wrong_connector_deleted]); every
      link leads to the page it is meant for ([links_lead_home]); what a network scan sends
      and the phases of its polling ([scan_request], [scan_phases]), and that what the page
      shows of a report offers exactly the resources found and the steps of that machine
      ([scan_results_shown]).
    - Settings pages.  Which handlers of the server they reach and which paths nobody
      serves ([settings_requests]); what they show of refused changes
      ([refused_changes_shown]), of sessions ([sessions_partition]) and of an invitation
      ([welcome_needs_reload]).
    - Types.  On a controller that reports values of its own types each route answers what
      the function of the client declares, up to literals and null; users by themselves and
      the members of workspaces never do ([server_types]), so that no member can be changed
      ([members_unidentified]).
    - UI kit.  Wrappers hand on the properties of the caller and carry their names
      ([kit_hands_on]); the sidebar and its cookie ([sidebar_states]); whom the carousel
      listens to ([carousel_listens]); the identifiers of a field of a form
      ([form_wiring]).

    ** Conventions, bounds and fuel

    - Strings are sequences of code units below 256; on these the string operations are
      those of ECMAScript.  [encodeURIComponent] uses the two-byte UTF-8 form from 128.
      The dash and the dots of a few labels are written with characters of ASCII.
    - Numbers of dynamic values are exact decimals with NaN and the infinities.  The
      program copies, compares and prints them but does no arithmetic on them beyond
      powers of ten; on decimals of at most 15 digits this is what a double does.  Times
      and identifiers made from them are [Z].
    - The JSON parser recurses on a fuel of one more than the length of the text: every
      nested call has read at least a character, and [JsonRoundtrip.parse_fuel] proves that
      more fuel gives the same answer on any text.  [settle] follows at most the given
      number of redirects: [guards_settle] shows that three are enough.  Everything else
      is structural.
    - An exception keeps the store reached so far, as in JavaScript; SQL statements are
      atomic and [transaction] rolls back.
    - Asynchronous code is a sequence of steps.  Replies arrive in any order and with any
      content of their type; a continuation knows the props and the state its handler was
      made with.  An effect whose dependencies include the state is a step that is
      possible at any time, and a component inside another one may call its props at any
      time with any value of their type: both only add behaviours.  Setting the state of a
      component that is gone does nothing and is not a step.
    - A rendering that throws shows nothing, since there is no error boundary.  Length
      limits of input fields are left out: a user can type any string.

    ** Parameters

    The handlers of the controller and the network are functions from the requests so far and the new
    one to a reply (any deterministic behaviour, refusals and broken replies included);
    the query parser of Express, the messages of engine errors, how dates and times read,
    the clock, the host name, the random generator and the order in which replies arrive
    are arguments as well.  What the controller reads from a token is a parameter too: of
    it, [callers_indistinguishable] uses that a JSON web token has three parts; and
    [server_types] supposes that the replies have the types of the structs.  In the UI kit
    the functions that join class names ([clsx], [tailwind-merge],
    [class-variance-authority]) are the class [Styling]; components of libraries are names
    that are not interpreted; what React, embla, react-hook-form and the
    locale give (an identifier, the answers of a carousel, the state of a field, a printed number)
    are arguments.

    ** Not modelled

    What the libraries under the UI kit do with the elements they get (Radix, recharts,
    embla, react-day-picker): focus, positions, drawing.  [components/ui/use-toast.ts] and
    [use-mobile.tsx] are copies of the files in [hooks]; [theme-provider.tsx] hands its
    properties to a library.  Icons, style sheets, [src/main.tsx] and the build files: they
    hold nothing that the state or the requests of the program depend on.  The controller,
    the connectors, agents and clients are other programs (Go and Rust): the controller
    is a parameter, but for its routes, its check of slugs, the types of its answers and the
    form of its scan reports.  Left
    out of the pages are placeholders, tooltips, titles of icons and the order in which
    React batches several updates of one handler.  Text is limited to characters of one
    byte. *)
From stdpp Require Export base tactics list option strings pretty sets.
From stdpp Require Export sorting.

(** ** Errors and outcomes

    JavaScript code either returns a value or throws.  The thrown values of
    the program are [Error] objects; only their [message] is ever read. *)
Inductive js_error :=
  | JsError (msg : string)       (* new Error(msg) *)
  | SqliteError (code : string)  (* thrown by a prepared statement *)
  | SyntaxError                  (* thrown by JSON.parse and atob *)
  | TypeError.                   (* property access or call on undefined/null *)

Inductive outcome (A : Type) :=
  | Ok (a : A)
  | Throw (e : js_error).
Arguments Ok {_} _.
Arguments Throw {_} _.

#[global] Instance js_error_eq_dec : EqDecision js_error.
Proof. solve_decision. Defined.

#[global] Instance outcome_eq_dec {A} `{EqDecision A} : EqDecision (outcome A).
Proof. solve_decision. Defined.

(** ** Stateful code that may throw

    [M S A] threads a store [S]; an exception keeps the store reached so far,
    which is how partially executed JavaScript behaves. *)
Definition M (S A : Type) : Type := S → S * outcome A.

#[global] Instance M_ret {S} : MRet (M S) := λ A a s, (s, Ok a).
#[global] Instance M_bind {S} : MBind (M S) := λ A B f m s,
  match m s with
  | (s', Ok a) => f a s'
  | (s', Throw e) => (s', Throw e)
  end.

Definition throw {S A} (e : js_error) : M S A := λ s, (s, Throw e).
Definition get {S} : M S S := λ s, (s, Ok s).
Definition gets {S A} (f : S → A) : M S A := λ s, (s, Ok (f s)).
Definition modify {S} (f : S → S) : M S unit := λ s, (f s, Ok tt).

(** [try { m } catch (e) { h e }] *)
Definition try_catch {S A} (m : M S A) (h : js_error → M S A) : M S A := λ s,
  match m s with
  | (s', Ok a) => (s', Ok a)
  | (s', Throw e) => h e s'
  end.

(** [l.forEach(f)]: left to right, an exception stops the iteration. *)
Fixpoint forEach {S A} (f : A → M S unit) (l : list A) : M S unit :=
  match l with
  | [] => mret tt
  | x :: l' => f x ;; forEach f l'
  end.

(** [l.map(f)] with an effectful callback. *)
Fixpoint mapEach {S A B} (f : A → M S B) (l : list A) : M S (list B) :=
  match l with
  | [] => mret []
  | x :: l' => y ← f x; ys ← mapEach f l'; mret (y :: ys)
  end.

(** What a caller sees of a run. *)
Definition result_of {S A} (m : M S A) (s : S) : outcome A := (m s).2.
Definition state_of {S A} (m : M S A) (s : S) : S := (m s).1.

(** A sequence succeeds when both parts do, one after the other. *)
Lemma bind_Ok {S A B : Type} (m : M S A) (f : A → M S B) s s' b :
  (m ≫= f) s = (s', Ok b) ↔ ∃ s1 a, m s = (s1, Ok a) ∧ f a s1 = (s', Ok b).
Proof.
  unfold mbind, M_bind. destruct (m s) as [s1 [a|e]]; split.
  - eauto.
  - intros (s2 & a' & ? & H). by simplify_eq.
  - by intros.
  - intros (s2 & a' & ? & H). by simplify_eq.
Qed.

(** A bind whose first part succeeds. *)
Lemma bind_run {S A B} (m : M S A) (f : A → M S B) s s1 a :
  m s = (s1, Ok a) → (m ≫= f) s = f a s1.
Proof. intros H. unfold mbind, M_bind. by rewrite H. Qed.

Lemma ret_Ok {S A} (a b : A) (s s' : S) : (mret a : M S A) s = (s', Ok b) ↔ s' = s ∧ b = a.
Proof. unfold mret, M_ret. naive_solver. Qed.

Lemma gets_Ok {S A} (f : S → A) s s' a : gets f s = (s', Ok a) ↔ s' = s ∧ a = f s.
Proof. unfold gets. naive_solver. Qed.

Lemma forEach_one {S A} (f : A → M S unit) x s : forEach f [x] s = f x s.
Proof. simpl. unfold mbind, M_bind. by destruct (f x s) as [s' [[]|e]]. Qed.

(** ** Hoare-style reasoning

    [preserves P m]: whatever happens, exceptions included, [P] is kept. *)
Definition preserves {S A} (P : S → Prop) (m : M S A) : Prop :=
  ∀ s, P s → P (state_of m s).

Create HintDb js.
Create Rewrite HintDb js_str.

Lemma preserves_ret {S A} (P : S → Prop) (a : A) : preserves P (mret a).
Proof. by intros s. Qed.

Lemma preserves_throw {S A} (P : S → Prop) e : preserves P (throw (A:=A) e).
Proof. by intros s. Qed.

Lemma preserves_gets {S A} (P : S → Prop) (f : S → A) : preserves P (gets f).
Proof. by intros s. Qed.

Lemma preserves_get {S} (P : S → Prop) : preserves P (get (S:=S)).
Proof. by intros s. Qed.

Lemma preserves_bind {S A B} (P : S → Prop) (m : M S A) (f : A → M S B) :
  preserves P m → (∀ a, preserves P (f a)) → preserves P (m ≫= f).
Proof.
  intros Hm Hf s Hs. specialize (Hm s Hs). unfold state_of in *.
  unfold mbind, M_bind. destruct (m s) as [s' [a|e]]; simpl in *; [|done].
  by apply Hf.
Qed.

Lemma preserves_try {S A} (P : S → Prop) (m : M S A) h :
  preserves P m → (∀ e, preserves P (h e)) → preserves P (try_catch m h).
Proof.
  intros Hm Hh s Hs. specialize (Hm s Hs). unfold state_of, try_catch in *.
  destruct (m s) as [s' [a|e]]; simpl in *; [done|]. by apply Hh.
Qed.

Lemma preserves_forEach {S A} (P : S → Prop) (f : A → M S unit) l :
  (∀ x, preserves P (f x)) → preserves P (forEach f l).
Proof.
  intros Hf. induction l as [|x l IH]; simpl; [apply preserves_ret|].
  apply preserves_bind; auto.
Qed.

#[export] Hint Resolve preserves_ret preserves_throw preserves_gets preserves_get
  preserves_bind preserves_try preserves_forEach : js.

(** ** Lists *)

(** The [find] of JavaScript arrays. *)
Definition find_row {A} (p : A → bool) (l : list A) : option A :=
  head (filter (λ x, p x = true) l).

Lemma find_row_Some {A} (p : A → bool) l x :
  find_row p l = Some x → x ∈ l ∧ p x = true.
Proof.
  unfold find_row. intros H.
  destruct (filter _ l) as [|y l'] eqn:E; simplify_eq/=.
  assert (x ∈ filter (λ x, p x = true) l) as Hx by (rewrite E; left).
  apply list_elem_of_filter in Hx. tauto.
Qed.

Lemma find_row_None {A} (p : A → bool) l x :
  find_row p l = None → x ∈ l → p x = false.
Proof.
  unfold find_row. intros H Hx.
  destruct (filter _ l) as [|y l'] eqn:E; [|done].
  destruct (p x) eqn:Ep; [|done].
  assert (x ∈ filter (λ x, p x = true) l) as Hin by (by apply list_elem_of_filter).
  rewrite E in Hin. by apply not_elem_of_nil in Hin.
Qed.

Lemma find_row_is_Some {A} (p : A → bool) l x :
  x ∈ l → p x = true → is_Some (find_row p l).
Proof.
  intros Hx Hp. destruct (find_row p l) eqn:E; [eauto|].
  by rewrite (find_row_None p l x E Hx) in Hp.
Qed.

(** A filter of a list without duplicate keys has no duplicate keys. *)
Lemma NoDup_map_filter {A B} (f : A → B) (P : A → Prop) `{∀ x, Decision (P x)} l :
  NoDup (f <$> l) → NoDup (f <$> filter P l).
Proof.
  induction l as [|x l IH]; [done|]. rewrite fmap_cons, NoDup_cons. intros [Hx Hl].
  rewrite filter_cons. case_decide; [|by apply IH].
  rewrite fmap_cons, NoDup_cons. split; [|by apply IH].
  intros (y & Hy & Hin)%list_elem_of_fmap. apply list_elem_of_filter in Hin as [_ Hin].
  apply Hx. rewrite Hy. by apply list_elem_of_fmap_2.
Qed.

Lemma NoDup_fmap_inj {A B} (f : A → B) l x y :
  NoDup (f <$> l) → x ∈ l → y ∈ l → f x = f y → x = y.
Proof.
  induction l as [|z l IH]; [intros _ H; by apply not_elem_of_nil in H|].
  rewrite fmap_cons, NoDup_cons. intros [Hz Hl] Hx Hy E.
  apply elem_of_cons in Hx as [->|Hx]; apply elem_of_cons in Hy as [->|Hy]; try done.
  - destruct Hz. rewrite E. by apply list_elem_of_fmap_2.
  - destruct Hz. rewrite <- E. by apply list_elem_of_fmap_2.
  - by apply IH.
Qed.

(** Filters that keep everything, or nothing. *)
Lemma filter_all {A} (P : A → Prop) `{∀ x, Decision (P x)} (l : list A) :
  (∀ x, x ∈ l → P x) → filter P l = l.
Proof.
  induction l as [|x l IH]; intros Hl; [done|].
  rewrite filter_cons_True by (apply Hl; left). f_equal. apply IH. intros y Hy.
  apply Hl. by right.
Qed.

Lemma filter_none {A} (P : A → Prop) `{∀ x, Decision (P x)} (l : list A) :
  (∀ x, x ∈ l → ¬ P x) → filter P l = [].
Proof.
  induction l as [|x l IH]; intros Hl; [done|].
  rewrite filter_cons_False by (apply Hl; left). apply IH. intros y Hy.
  apply Hl. by right.
Qed.

(** Filtering on a column before or after projecting it. *)
Lemma fmap_filter_filter {A B} (key : A → B) (P Q : A → Prop) (R : B → Prop)
  `{∀ x, Decision (P x), ∀ x, Decision (Q x), ∀ y, Decision (R y)} (t : list A) :
  (∀ x, P x → Q x ↔ R (key x)) →
  key <$> filter P (filter Q t) = filter R (key <$> filter P t).
Proof.
  intros HQR. induction t as [|x t IH]; [done|].
  destruct (decide (P x)) as [HP|HP], (decide (Q x)) as [HQ|HQ].
  - rewrite (filter_cons_True Q), !(filter_cons_True P), !fmap_cons by done.
    rewrite filter_cons_True by (by apply HQR). by rewrite IH.
  - rewrite (filter_cons_False Q), (filter_cons_True P), fmap_cons by done.
    rewrite filter_cons_False by (by rewrite <- HQR). done.
  - by rewrite (filter_cons_True Q), !(filter_cons_False P) by done.
  - by rewrite (filter_cons_False Q), (filter_cons_False P) by done.
Qed.

(** ** Automation *)

(** Run the monadic operations of a goal on their arguments. *)
Ltac m_unfold :=
  unfold mbind, M_bind, mret, M_ret, throw, get, gets, modify, try_catch,
    result_of, state_of in *; simpl in *.

Ltac m_cases :=
  repeat (case_match || case_decide); simplify_eq/=.
