(* ===== verification/JsString.v ===== *)
(** * JavaScript strings

    The string operations of the language that the program calls.  A string is
    a sequence of code units below 256 (Latin-1); on these the operations are
    those of ECMAScript. *)
From S2P Require Import Prelude.
From Stdlib Require Import Ascii NArith ZArith Lia.

Definition code (c : ascii) : N := N_of_ascii c.

Fixpoint to_list (s : string) : list ascii :=
  match s with EmptyString => [] | String c s' => c :: to_list s' end.

Fixpoint of_list (l : list ascii) : string :=
  match l with [] => EmptyString | c :: l' => String c (of_list l') end.

Lemma to_of_list l : to_list (of_list l) = l.
Proof. induction l; simpl; congruence. Qed.
Lemma of_to_list s : of_list (to_list s) = s.
Proof. induction s; simpl; congruence. Qed.

Lemma to_list_app s t : to_list (s +:+ t) = to_list s ++ to_list t.
Proof. induction s as [|c s IH]; simpl; [done|]. by rewrite <- IH. Qed.

Lemma of_list_app l k : of_list (l ++ k) = of_list l +:+ of_list k.
Proof. induction l as [|c l IH]; simpl; [done|]. by rewrite IH. Qed.

#[export] Hint Rewrite to_of_list of_to_list to_list_app of_list_app : js_str.

Definition map_chars (f : ascii → ascii) (s : string) : string :=
  of_list (f <$> to_list s).

(** [s.toLowerCase()]: A-Z and the Latin-1 capitals. *)
Definition lower_char (c : ascii) : ascii :=
  let n := code c in
  if ((65 <=? n) && (n <=? 90) || (192 <=? n) && (n <=? 222) && negb (n =? 215))%N
  then ascii_of_N (n + 32) else c.
Definition toLowerCase : string → string := map_chars lower_char.

(** The white space removed by [trim] and matched by [\s]. *)
Definition is_space (c : ascii) : bool :=
  let n := code c in ((9 <=? n) && (n <=? 13) || (n =? 32) || (n =? 160))%N.

Fixpoint drop_space (l : list ascii) : list ascii :=
  match l with
  | c :: l' => if is_space c then drop_space l' else l
  | [] => []
  end.
Definition trim (s : string) : string :=
  of_list (reverse (drop_space (reverse (drop_space (to_list s))))).

(** [s.startsWith(p)] *)
Definition startsWith (s p : string) : bool := String.prefix p s.

(** [s.slice(n)] for a non-negative [n]. *)
Definition slice_from (n : nat) (s : string) : string := of_list (drop n (to_list s)).
(** [s.slice(0, n)] *)
Definition slice_to (n : nat) (s : string) : string := of_list (take n (to_list s)).

(** [s.indexOf(c)] for a one-character needle, [None] for -1. *)
Fixpoint index_of (c : ascii) (l : list ascii) : option nat :=
  match l with
  | [] => None
  | d :: l' => if decide (d = c) then Some 0 else S <$> index_of c l'
  end.
Definition indexOf (c : ascii) (s : string) : option nat := index_of c (to_list s).

(** [s.includes(t)] *)
Fixpoint includes_list (l t : list ascii) : bool :=
  bool_decide (t `prefix_of` l) || match l with [] => false | _ :: l' => includes_list l' t end.
Definition includes (s t : string) : bool := includes_list (to_list s) (to_list t).

(** [s.replace(t, u)]: the first occurrence. *)
Fixpoint replace_list (t u l : list ascii) : list ascii :=
  if bool_decide (t `prefix_of` l) then u ++ drop (length t) l
  else match l with [] => [] | c :: l' => c :: replace_list t u l' end.
Definition replace (t u s : string) : string :=
  of_list (replace_list (to_list t) (to_list u) (to_list s)).

(** [s.replace(/[...]/g, '')]: without the characters of a class. *)
Definition without (f : ascii → bool) (s : string) : string :=
  of_list (filter (λ c, f c = false) (to_list s)).
Definition is_digit (c : ascii) : bool := ((48 <=? code c) && (code c <=? 57))%N.

(** [l.join(t)] *)
Fixpoint join_with (t : string) (l : list string) : string :=
  match l with
  | [] => ""
  | [s] => s
  | s :: l' => s +:+ t +:+ join_with t l'
  end.

(** [s.split(c)] for a one-character separator. *)
Fixpoint split_list (c : ascii) (l : list ascii) : list (list ascii) :=
  match l with
  | [] => [[]]
  | d :: l' =>
      if decide (d = c) then [] :: split_list c l'
      else match split_list c l' with
           | w :: ws => (d :: w) :: ws
           | [] => [[d]]
           end
  end.
Definition split (c : ascii) (s : string) : list string :=
  of_list <$> split_list c (to_list s).

(** [s.replace(/c/g, d)] *)
Definition replace_all (c d : ascii) : string → string :=
  map_chars (λ x, if decide (x = c) then d else x).

(** [s.replace(/\s/g, d)] *)
Definition replace_space (d : ascii) : string → string :=
  map_chars (λ x, if is_space x then d else x).

(** [String(n)] for an integral number in the safe range. *)
Definition string_of_Z (z : Z) : string := pretty z.

(** [a || b] on strings: the empty string is falsy. *)
Definition or_else (a b : string) : string := if decide (a = "") then b else a.

(** ** Lemmas *)

Lemma split_list_no_sep c l : c ∉ l → split_list c l = [l].
Proof.
  induction l as [|d l IH]; simpl; [done|]. rewrite not_elem_of_cons. intros [Hd Hl].
  rewrite decide_False by done. by rewrite IH.
Qed.

Lemma split_list_app c l k :
  c ∉ l → split_list c (l ++ c :: k) = l :: split_list c k.
Proof.
  induction l as [|d l IH]; simpl.
  - by rewrite decide_True.
  - rewrite not_elem_of_cons. intros [Hd Hl].
    rewrite decide_False by done. by rewrite IH.
Qed.

Lemma split_list_nonempty c l : split_list c l ≠ [].
Proof. destruct l; simpl; [done|]. case_decide; [done|]. by case_match. Qed.

(** Joining the pieces with the separator gives the string back. *)
Fixpoint join_list (c : ascii) (ws : list (list ascii)) : list ascii :=
  match ws with
  | [] => []
  | [w] => w
  | w :: ws' => w ++ c :: join_list c ws'
  end.

Lemma join_split_list c l : join_list c (split_list c l) = l.
Proof.
  induction l as [|d l IH]; [done|]. simpl. case_decide; subst.
  - destruct (split_list c l) eqn:E; [by apply split_list_nonempty in E|].
    cbn [join_list app]. by rewrite <- IH.
  - destruct (split_list c l) as [|w ws] eqn:E; [by apply split_list_nonempty in E|].
    rewrite <- IH. by destruct ws.
Qed.

Lemma lower_char_idemp c : lower_char (lower_char c) = lower_char c.
Proof. by destruct c as [[] [] [] [] [] [] [] []]. Qed.

Lemma toLowerCase_idemp s : toLowerCase (toLowerCase s) = toLowerCase s.
Proof.
  unfold toLowerCase, map_chars. rewrite to_of_list. f_equal.
  rewrite <- list_fmap_compose. apply list_fmap_ext. intros i c _. apply lower_char_idemp.
Qed.

Lemma drop_space_idemp l : drop_space (drop_space l) = drop_space l.
Proof.
  induction l as [|c l IH]; simpl; [done|].
  destruct (is_space c) eqn:E; [done|]. simpl. by rewrite E.
Qed.

