(* ===== verification/Types.v ===== *)
(** * The objects the data layer returns ([lib/types.ts], [lib/data.ts])

    One record per interface, one field per property, named
    [<Interface>_<property>].  A property declared optional, or one the mappers
    of [lib/data.ts] leave out, has an [option] type; [None] stands for
    [undefined] (or [null], which the readers treat alike).  Properties whose
    declared type is a union of string literals are plain strings: the mappers
    copy them from the database unchecked. *)
From S2P Require Import Prelude.
From Stdlib Require Import ZArith.

(** [type SubjectType] *)
Inductive SubjectType := USER | GROUP | SERVICE.
#[global] Instance SubjectType_eq_dec : EqDecision SubjectType.
Proof. solve_decision. Defined.

(** [type ResourceType] *)
Inductive ResourceType := STANDARD | BROWSER | BACKGROUND.
#[global] Instance ResourceType_eq_dec : EqDecision ResourceType.
Proof. solve_decision. Defined.

Definition string_of_SubjectType (t : SubjectType) : string :=
  match t with USER => "USER" | GROUP => "GROUP" | SERVICE => "SERVICE" end.

Definition string_of_ResourceType (t : ResourceType) : string :=
  match t with
  | STANDARD => "STANDARD" | BROWSER => "BROWSER" | BACKGROUND => "BACKGROUND"
  end.

(** [protocol: 'TCP' | 'UDP'] *)
Inductive Protocol := TCP | UDP.
Definition string_of_Protocol (p : Protocol) : string :=
  match p with TCP => "TCP" | UDP => "UDP" end.

(** [status: 'active' | 'inactive'] *)
Inductive UserStatus := active | inactive.
Definition string_of_UserStatus (s : UserStatus) : string :=
  match s with active => "active" | inactive => "inactive" end.

Record Subject := mkSubject {
  Subject_id : string;
  Subject_name : string;
  Subject_type : SubjectType;
  Subject_displayLabel : string
}.

Record User := mkUser {
  User_id : string;
  User_name : string;
  User_type : SubjectType;
  User_displayLabel : string;
  User_email : string;
  User_status : string;
  User_role : option string;
  User_groups : list string;
  User_certificateIdentity : option string;
  User_createdAt : string
}.

Record Group := mkGroup {
  Group_id : string;
  Group_name : string;
  Group_type : SubjectType;
  Group_displayLabel : string;
  Group_description : string;
  Group_memberCount : nat;
  Group_resourceCount : nat;
  Group_createdAt : string;
  Group_updatedAt : option string
}.

Record ServiceAccount := mkServiceAccount {
  ServiceAccount_id : string;
  ServiceAccount_name : string;
  ServiceAccount_type : SubjectType;
  ServiceAccount_displayLabel : string;
  ServiceAccount_status : string;
  ServiceAccount_associatedResourceCount : Z;
  ServiceAccount_createdAt : string
}.

Record GroupMember := mkGroupMember {
  GroupMember_userId : string;
  GroupMember_userName : string;
  GroupMember_email : string
}.

Record Resource := mkResource {
  Resource_id : string;
  Resource_name : string;
  Resource_type : string;
  Resource_address : string;
  Resource_protocol : string;
  Resource_portFrom : option Z;
  Resource_portTo : option Z;
  Resource_alias : option string;
  Resource_description : string;
  Resource_remoteNetworkId : option string;
  Resource_firewallStatus : option string
}.

Record Connector := mkConnector {
  Connector_id : string;
  Connector_name : string;
  Connector_status : string;
  Connector_version : string;
  Connector_hostname : string;
  Connector_remoteNetworkId : string;
  Connector_lastSeen : string;
  Connector_installed : bool;
  Connector_lastPolicyVersion : Z;
  Connector_lastSeenAt : option string;
  Connector_privateIp : option string;
  Connector_revoked : option bool
}.

Record RemoteNetwork := mkRemoteNetwork {
  RemoteNetwork_id : string;
  RemoteNetwork_name : string;
  RemoteNetwork_location : string;
  RemoteNetwork_connectorCount : nat;
  RemoteNetwork_onlineConnectorCount : nat;
  RemoteNetwork_resourceCount : nat;
  RemoteNetwork_createdAt : string;
  RemoteNetwork_updatedAt : option string
}.

Record Agent := mkAgent {
  Agent_id : string;
  Agent_name : string;
  Agent_status : string;
  Agent_version : string;
  Agent_hostname : string;
  Agent_remoteNetworkId : string;
  Agent_connectorId : option string;
  Agent_revoked : option bool;
  Agent_installed : option bool;
  Agent_lastSeen : option string;
  Agent_lastSeenAt : option string
}.

Record AccessRule := mkAccessRule {
  AccessRule_id : string;
  AccessRule_name : string;
  AccessRule_resourceId : string;
  AccessRule_allowedGroups : list string;
  AccessRule_enabled : bool;
  AccessRule_createdAt : string;
  AccessRule_updatedAt : string
}.

(** [interface ConnectorLog] of [lib/data.ts]. *)
Record ConnectorLog := mkConnectorLog {
  ConnectorLog_id : Z;
  ConnectorLog_timestamp : string;
  ConnectorLog_message : string
}.

(** The part of a subject that the picker remembers. *)
Record SelectedSubject := mkSelected {
  Selected_id : string;
  Selected_type : SubjectType;
  Selected_label : string
}.

(** Diagnostics. *)
Record ConnectorDiagnostic := mkConnectorDiagnostic {
  ConnectorDiagnostic_id : string;
  ConnectorDiagnostic_name : string;
  ConnectorDiagnostic_status : string;
  ConnectorDiagnostic_streamActive : bool;
  ConnectorDiagnostic_stalenessSeconds : Z;
  ConnectorDiagnostic_lastSeenAt : option string;
  ConnectorDiagnostic_remoteNetworkId : string
}.

Record TunnelerDiagnostic := mkTunnelerDiagnostic {
  TunnelerDiagnostic_id : string;
  TunnelerDiagnostic_name : string;
  TunnelerDiagnostic_status : string;
  TunnelerDiagnostic_lastSeenAt : option string
}.

Record DiagnosticsData := mkDiagnosticsData {
  DiagnosticsData_connectors : list ConnectorDiagnostic;
  DiagnosticsData_tunnelers : list TunnelerDiagnostic
}.

Record PingResult := mkPingResult {
  PingResult_connectorId : string;
  PingResult_streamActive : bool;
  PingResult_stalenessSeconds : Z;
  PingResult_lastSeenAt : option string;
  PingResult_message : string
}.

Record TraceHop := mkTraceHop {
  TraceHop_type : string;
  TraceHop_id : string;
  TraceHop_name : string;
  TraceHop_status : string;
  TraceHop_healthy : bool
}.

Record AccessTrace := mkAccessTrace {
  AccessTrace_allowed : bool;
  AccessTrace_reason : string;
  AccessTrace_path : list TraceHop;
  AccessTrace_userGroups : list (string * string);
  AccessTrace_matchedRules : list (string * string * bool)
}.
