(* ===== verification/Schema.v ===== *)
(** * The SQLite schema ([initSchema] of [lib/db.ts])

    One record per table, one field per column, named [<table>_<column>]; a
    nullable column is an [option].  [db] is the content of the database: every
    table is the list of its rows in insertion (rowid) order. *)
From S2P Require Import Prelude.
From Stdlib Require Import ZArith.

Record meta_row := mkMeta { meta_key : string; meta_value : string }.

Record users_row := mkUsers {
  users_id : string;
  users_name : string;
  users_email : string;
  users_certificate_identity : option string;
  users_status : string;
  users_created_at : string
}.

Record groups_row := mkGroups {
  groups_id : string;
  groups_name : string;
  groups_description : string;
  groups_created_at : string
}.

Record group_members_row := mkGroupMembers {
  group_members_group_id : string;
  group_members_user_id : string
}.

Record service_accounts_row := mkServiceAccounts {
  service_accounts_id : string;
  service_accounts_name : string;
  service_accounts_status : string;
  service_accounts_associated_resource_count : Z;
  service_accounts_created_at : string
}.

Record remote_networks_row := mkRemoteNetworks {
  remote_networks_id : string;
  remote_networks_name : string;
  remote_networks_location : string;
  remote_networks_created_at : string
}.

Record connectors_row := mkConnectors {
  connectors_id : string;
  connectors_name : string;
  connectors_status : string;
  connectors_version : string;
  connectors_hostname : string;
  connectors_remote_network_id : string;
  connectors_last_seen : string;
  connectors_last_policy_version : Z;
  connectors_last_seen_at : option string;
  connectors_installed : Z
}.

Record agents_row := mkAgents {
  agents_id : string;
  agents_name : string;
  agents_status : string;
  agents_version : string;
  agents_hostname : string;
  agents_remote_network_id : string
}.

Record resources_row := mkResources {
  resources_id : string;
  resources_name : string;
  resources_type : string;
  resources_address : string;
  resources_ports : string;
  resources_protocol : string;
  resources_port_from : option Z;
  resources_port_to : option Z;
  resources_alias : option string;
  resources_description : string;
  resources_remote_network_id : option string;
  resources_firewall_status : string
}.

Record access_rules_row := mkAccessRules {
  access_rules_id : string;
  access_rules_name : string;
  access_rules_resource_id : string;
  access_rules_enabled : Z;
  access_rules_created_at : string;
  access_rules_updated_at : string
}.

Record access_rule_groups_row := mkAccessRuleGroups {
  access_rule_groups_rule_id : string;
  access_rule_groups_group_id : string
}.

Record connector_logs_row := mkConnectorLogs {
  connector_logs_id : Z;
  connector_logs_connector_id : string;
  connector_logs_timestamp : string;
  connector_logs_message : string
}.

Record connector_policy_versions_row := mkConnectorPolicyVersions {
  connector_policy_versions_connector_id : string;
  connector_policy_versions_version : Z;
  connector_policy_versions_compiled_at : string;
  connector_policy_versions_policy_hash : option string
}.

#[global] Instance group_members_row_eq_dec : EqDecision group_members_row.
Proof. solve_decision. Defined.
#[global] Instance access_rule_groups_row_eq_dec : EqDecision access_rule_groups_row.
Proof. solve_decision. Defined.

Record db := mkDb {
  meta : list meta_row;
  users : list users_row;
  groups : list groups_row;
  group_members : list group_members_row;
  service_accounts : list service_accounts_row;
  remote_networks : list remote_networks_row;
  connectors : list connectors_row;
  agents : list agents_row;
  resources : list resources_row;
  access_rules : list access_rules_row;
  access_rule_groups : list access_rule_groups_row;
  connector_logs : list connector_logs_row;
  connector_logs_seq : Z;  (* sqlite_sequence of the AUTOINCREMENT key *)
  connector_policy_versions : list connector_policy_versions_row
}.

(** The database right after [initSchema] has created the tables. *)
Definition empty_db : db :=
  mkDb [] [] [] [] [] [] [] [] [] [] [] [] 0 [].

(** Functional update of one table. *)
Definition set_meta f d := mkDb (f (meta d)) (users d) (groups d) (group_members d)
  (service_accounts d) (remote_networks d) (connectors d) (agents d) (resources d)
  (access_rules d) (access_rule_groups d) (connector_logs d) (connector_logs_seq d)
  (connector_policy_versions d).
Definition set_users f d := mkDb (meta d) (f (users d)) (groups d) (group_members d)
  (service_accounts d) (remote_networks d) (connectors d) (agents d) (resources d)
  (access_rules d) (access_rule_groups d) (connector_logs d) (connector_logs_seq d)
  (connector_policy_versions d).
Definition set_groups f d := mkDb (meta d) (users d) (f (groups d)) (group_members d)
  (service_accounts d) (remote_networks d) (connectors d) (agents d) (resources d)
  (access_rules d) (access_rule_groups d) (connector_logs d) (connector_logs_seq d)
  (connector_policy_versions d).
Definition set_group_members f d := mkDb (meta d) (users d) (groups d)
  (f (group_members d))
  (service_accounts d) (remote_networks d) (connectors d) (agents d) (resources d)
  (access_rules d) (access_rule_groups d) (connector_logs d) (connector_logs_seq d)
  (connector_policy_versions d).
Definition set_service_accounts f d := mkDb (meta d) (users d) (groups d)
  (group_members d)
  (f (service_accounts d)) (remote_networks d) (connectors d) (agents d) (resources d)
  (access_rules d) (access_rule_groups d) (connector_logs d) (connector_logs_seq d)
  (connector_policy_versions d).
Definition set_remote_networks f d := mkDb (meta d) (users d) (groups d)
  (group_members d)
  (service_accounts d) (f (remote_networks d)) (connectors d) (agents d) (resources d)
  (access_rules d) (access_rule_groups d) (connector_logs d) (connector_logs_seq d)
  (connector_policy_versions d).
Definition set_connectors f d := mkDb (meta d) (users d) (groups d) (group_members d)
  (service_accounts d) (remote_networks d) (f (connectors d)) (agents d) (resources d)
  (access_rules d) (access_rule_groups d) (connector_logs d) (connector_logs_seq d)
  (connector_policy_versions d).
Definition set_agents f d := mkDb (meta d) (users d) (groups d) (group_members d)
  (service_accounts d) (remote_networks d) (connectors d) (f (agents d)) (resources d)
  (access_rules d) (access_rule_groups d) (connector_logs d) (connector_logs_seq d)
  (connector_policy_versions d).
Definition set_resources f d := mkDb (meta d) (users d) (groups d) (group_members d)
  (service_accounts d) (remote_networks d) (connectors d) (agents d) (f (resources d))
  (access_rules d) (access_rule_groups d) (connector_logs d) (connector_logs_seq d)
  (connector_policy_versions d).
Definition set_access_rules f d := mkDb (meta d) (users d) (groups d) (group_members d)
  (service_accounts d) (remote_networks d) (connectors d) (agents d) (resources d)
  (f (access_rules d)) (access_rule_groups d) (connector_logs d) (connector_logs_seq d)
  (connector_policy_versions d).
Definition set_access_rule_groups f d := mkDb (meta d) (users d) (groups d)
  (group_members d)
  (service_accounts d) (remote_networks d) (connectors d) (agents d) (resources d)
  (access_rules d) (f (access_rule_groups d)) (connector_logs d) (connector_logs_seq d)
  (connector_policy_versions d).
Definition set_connector_logs f n d := mkDb (meta d) (users d) (groups d)
  (group_members d)
  (service_accounts d) (remote_networks d) (connectors d) (agents d) (resources d)
  (access_rules d) (access_rule_groups d) (f (connector_logs d)) n
  (connector_policy_versions d).
