(* ===== verification/Database.v ===== *)
(** * SQL statements and the integrity of the database

    The meaning of the SQL statements prepared by [lib/db.ts] and
    [lib/data.ts]: an INSERT or UPDATE checks the constraints declared by
    [initSchema] (PRIMARY KEY, UNIQUE, FOREIGN KEY, with
    [PRAGMA foreign_keys = ON]) and either changes the table or throws a
    [SqliteError] and changes nothing; a DELETE follows ON DELETE CASCADE;
    [db.transaction] rolls back when its body throws; ORDER BY sorts by the
    byte order of the column.

    [db_ok] is the integrity of the whole database: keys are unique and every
    foreign key refers to a row. *)
From S2P Require Import Prelude JsString Types Schema.
From Stdlib Require Import ZArith Lia.

(** ** Statements *)

Definition pk_error := SqliteError "SQLITE_CONSTRAINT_PRIMARYKEY".
Definition unique_error := SqliteError "SQLITE_CONSTRAINT_UNIQUE".
Definition fk_error := SqliteError "SQLITE_CONSTRAINT_FOREIGNKEY".

Definition check : Type := (db → bool) * js_error.

(** A statement is atomic: all checks pass and the change is made, or the
    first failing check throws and the database is left as it was. *)
Fixpoint statement (cs : list check) (f : db → db) : M db unit := λ d,
  match cs with
  | [] => (f d, Ok tt)
  | (b, e) :: cs' => if b d then statement cs' f d else (d, Throw e)
  end.

(** The key [k] is not used yet in the column [key] of [table]. *)
Definition fresh {R K} `{EqDecision K} (key : R → K) (table : db → list R) (k : K)
  : db → bool := λ d, bool_decide (k ∉ key <$> table d).

(** The foreign key [k] refers to a row of [table]. *)
Definition refers {R K} `{EqDecision K} (key : R → K) (table : db → list R) (k : K)
  : db → bool := λ d, bool_decide (k ∈ key <$> table d).

(** A nullable foreign key: NULL refers to nothing and is always accepted. *)
Definition refers_opt {R K} `{EqDecision K} (key : R → K) (table : db → list R)
  (k : option K) : db → bool := λ d,
  match k with Some k => refers key table k d | None => true end.

(** [db.transaction(fn)()] of better-sqlite3: BEGIN, run, COMMIT; ROLLBACK and
    rethrow when [fn] throws. *)
Definition transaction {A} (m : M db A) : M db A := λ d,
  match m d with
  | (d', Ok a) => (d', Ok a)
  | (_, Throw e) => (d, Throw e)
  end.

(** ** The INSERT, DELETE and UPDATE statements of the program *)

Definition insert_users (r : users_row) : M db unit :=
  statement
    [(fresh users_id users (users_id r), pk_error);
     (λ d, match users_certificate_identity r with
           | Some c => bool_decide (c ∉ omap users_certificate_identity (users d))
           | None => true
           end, unique_error)]
    (set_users (λ t, t ++ [r])).

Definition insert_groups (r : groups_row) : M db unit :=
  statement [(fresh groups_id groups (groups_id r), pk_error)]
    (set_groups (λ t, t ++ [r])).

Definition insert_group_members (r : group_members_row) : M db unit :=
  statement
    [(fresh id group_members r, pk_error);
     (refers groups_id groups (group_members_group_id r), fk_error);
     (refers users_id users (group_members_user_id r), fk_error)]
    (set_group_members (λ t, t ++ [r])).

Definition insert_service_accounts (r : service_accounts_row) : M db unit :=
  statement
    [(fresh service_accounts_id service_accounts (service_accounts_id r), pk_error)]
    (set_service_accounts (λ t, t ++ [r])).

Definition insert_remote_networks (r : remote_networks_row) : M db unit :=
  statement
    [(fresh remote_networks_id remote_networks (remote_networks_id r), pk_error)]
    (set_remote_networks (λ t, t ++ [r])).

Definition insert_connectors (r : connectors_row) : M db unit :=
  statement
    [(fresh connectors_id connectors (connectors_id r), pk_error);
     (refers remote_networks_id remote_networks (connectors_remote_network_id r),
       fk_error)]
    (set_connectors (λ t, t ++ [r])).

Definition insert_agents (r : agents_row) : M db unit :=
  statement
    [(fresh agents_id agents (agents_id r), pk_error);
     (refers remote_networks_id remote_networks (agents_remote_network_id r), fk_error)]
    (set_agents (λ t, t ++ [r])).

Definition insert_resources (r : resources_row) : M db unit :=
  statement
    [(fresh resources_id resources (resources_id r), pk_error);
     (refers_opt remote_networks_id remote_networks (resources_remote_network_id r),
       fk_error)]
    (set_resources (λ t, t ++ [r])).

Definition insert_access_rules (r : access_rules_row) : M db unit :=
  statement
    [(fresh access_rules_id access_rules (access_rules_id r), pk_error);
     (refers resources_id resources (access_rules_resource_id r), fk_error)]
    (set_access_rules (λ t, t ++ [r])).

Definition insert_access_rule_groups (r : access_rule_groups_row) : M db unit :=
  statement
    [(fresh id access_rule_groups r, pk_error);
     (refers access_rules_id access_rules (access_rule_groups_rule_id r), fk_error);
     (refers groups_id groups (access_rule_groups_group_id r), fk_error)]
    (set_access_rule_groups (λ t, t ++ [r])).

(** [id INTEGER PRIMARY KEY AUTOINCREMENT]: one more than any key used before. *)
Definition insert_connector_logs (connector_id timestamp message : string)
  : M db unit :=
  statement [(refers connectors_id connectors connector_id, fk_error)]
    (λ d, let n := (connector_logs_seq d + 1)%Z in
          set_connector_logs
            (λ t, t ++ [mkConnectorLogs n connector_id timestamp message]) n d).

(** [INSERT INTO meta ... ON CONFLICT(key) DO UPDATE SET value = excluded.value] *)
Definition upsert_meta (k v : string) : M db unit :=
  statement []
    (set_meta (λ t,
       if bool_decide (k ∈ meta_key <$> t)
       then (λ r, if decide (meta_key r = k) then mkMeta k v else r) <$> t
       else t ++ [mkMeta k v])).

(** [DELETE FROM group_members WHERE ...]; no table refers to it. *)
Definition delete_group_members (p : group_members_row → bool) : M db unit :=
  statement [] (set_group_members (filter (λ r, p r = false))).

(** [DELETE FROM access_rules WHERE id = ?], with its
    [ON DELETE CASCADE] on [access_rule_groups]. *)
Definition delete_access_rules (rule_id : string) : M db unit :=
  statement []
    (λ d, set_access_rule_groups (filter (λ r, access_rule_groups_rule_id r ≠ rule_id))
          (set_access_rules (filter (λ r, access_rules_id r ≠ rule_id)) d)).

(** [UPDATE connectors SET ... WHERE id = ?] with columns that are not keys. *)
Definition update_connectors (cid : string) (f : connectors_row → connectors_row)
  : M db unit :=
  statement []
    (set_connectors (fmap (λ r, if decide (connectors_id r = cid) then f r else r))).

(** [UPDATE resources SET ..., remote_network_id = ? WHERE id = ?]: the foreign
    key is only checked when a row is updated. *)
Definition update_resources (rid : string) (net : option string)
  (f : resources_row → resources_row) : M db unit :=
  statement
    [(λ d, negb (bool_decide (rid ∈ resources_id <$> resources d)) ||
           refers_opt remote_networks_id remote_networks net d, fk_error)]
    (set_resources (fmap (λ r, if decide (resources_id r = rid) then f r else r))).

(** ** Queries *)

Definition key_le {R} (key : R → string) (x y : R) : Prop := String.le (key x) (key y).

#[global] Instance key_le_dec {R} (key : R → string) : RelDecision (key_le key).
Proof. intros x y. unfold key_le. apply _. Defined.

#[global] Instance key_le_trans {R} (key : R → string) : Transitive (key_le key).
Proof. intros x y z. unfold key_le. apply transitivity. Qed.

#[global] Instance key_le_total {R} (key : R → string) : Total (key_le key).
Proof. intros x y. unfold key_le. apply total, _. Qed.

(** [ORDER BY key ASC] *)
Definition order_by {R} (key : R → string) (l : list R) : list R :=
  merge_sort (key_le key) l.

Lemma order_by_Permutation {R} (key : R → string) l : order_by key l ≡ₚ l.
Proof. apply merge_sort_Permutation. Qed.

Lemma order_by_sorted {R} (key : R → string) l :
  StronglySorted (key_le key) (order_by key l).
Proof. apply StronglySorted_merge_sort; apply _. Qed.

Lemma elem_of_order_by {R} (key : R → string) l x : x ∈ order_by key l ↔ x ∈ l.
Proof. by rewrite order_by_Permutation. Qed.

Lemma length_order_by {R} (key : R → string) l : length (order_by key l) = length l.
Proof. by rewrite order_by_Permutation. Qed.

(** [ORDER BY id ASC] on an integer column. *)
Definition keyZ_le {R} (key : R → Z) (x y : R) : Prop := (key x ≤ key y)%Z.

#[global] Instance keyZ_le_dec {R} (key : R → Z) : RelDecision (keyZ_le key).
Proof. intros x y. unfold keyZ_le. apply _. Defined.

Definition order_by_Z {R} (key : R → Z) (l : list R) : list R :=
  merge_sort (keyZ_le key) l.

(** [stmt.get(id)] on a primary key. *)
Definition get_by {R} (key : R → string) (k : string) (t : list R) : option R :=
  find_row (λ r, bool_decide (key r = k)) t.

Lemma get_by_Some {R} (key : R → string) k t r :
  get_by key k t = Some r → r ∈ t ∧ key r = k.
Proof.
  unfold get_by. intros [Hr Hk]%find_row_Some. split; [done|].
  by apply bool_decide_eq_true in Hk.
Qed.

Lemma get_by_None {R} (key : R → string) k t :
  get_by key k t = None ↔ k ∉ key <$> t.
Proof.
  split.
  - unfold get_by. intros H (r & -> & Hr)%list_elem_of_fmap.
    apply (find_row_None _ _ r) in H; [|done]. by apply bool_decide_eq_false in H.
  - intros H. destruct (get_by key k t) as [r|] eqn:E; [|done].
    apply get_by_Some in E as [Hr <-]. destruct H. by apply list_elem_of_fmap_2.
Qed.

Lemma get_by_unique {R} (key : R → string) t r :
  NoDup (key <$> t) → r ∈ t → get_by key (key r) t = Some r.
Proof.
  intros Hnd Hr. destruct (get_by key (key r) t) as [r'|] eqn:E.
  - apply get_by_Some in E as [Hr' Hk]. f_equal.
    by apply (NoDup_fmap_inj key t).
  - apply get_by_None in E. destruct E. by apply list_elem_of_fmap_2.
Qed.

(** ** Integrity *)

(** Every value of the column [key] in [t] occurs in the column [key'] of [t']. *)
Definition fk {R R' K} (key : R → K) (t : list R) (key' : R' → K) (t' : list R')
  : Prop := ∀ r, r ∈ t → key r ∈ key' <$> t'.

Definition fk_opt {R R' K} (key : R → option K) (t : list R) (key' : R' → K)
  (t' : list R') : Prop := ∀ r k, r ∈ t → key r = Some k → k ∈ key' <$> t'.

Record db_ok (d : db) : Prop := mk_db_ok {
  ok_meta : NoDup (meta_key <$> meta d);
  ok_users : NoDup (users_id <$> users d);
  ok_users_cert : NoDup (omap users_certificate_identity (users d));
  ok_groups : NoDup (groups_id <$> groups d);
  ok_members : NoDup (group_members d);
  ok_service_accounts : NoDup (service_accounts_id <$> service_accounts d);
  ok_networks : NoDup (remote_networks_id <$> remote_networks d);
  ok_connectors : NoDup (connectors_id <$> connectors d);
  ok_agents : NoDup (agents_id <$> agents d);
  ok_resources : NoDup (resources_id <$> resources d);
  ok_rules : NoDup (access_rules_id <$> access_rules d);
  ok_rule_groups : NoDup (access_rule_groups d);
  ok_logs : NoDup (connector_logs_id <$> connector_logs d);
  ok_logs_seq : ∀ r, r ∈ connector_logs d → (connector_logs_id r ≤ connector_logs_seq d)%Z;
  ok_members_group : fk group_members_group_id (group_members d) groups_id (groups d);
  ok_members_user : fk group_members_user_id (group_members d) users_id (users d);
  ok_connectors_network :
    fk connectors_remote_network_id (connectors d) remote_networks_id (remote_networks d);
  ok_agents_network :
    fk agents_remote_network_id (agents d) remote_networks_id (remote_networks d);
  ok_resources_network :
    fk_opt resources_remote_network_id (resources d)
      remote_networks_id (remote_networks d);
  ok_rules_resource :
    fk access_rules_resource_id (access_rules d) resources_id (resources d);
  ok_rule_groups_rule :
    fk access_rule_groups_rule_id (access_rule_groups d) access_rules_id (access_rules d);
  ok_rule_groups_group :
    fk access_rule_groups_group_id (access_rule_groups d) groups_id (groups d);
  ok_logs_connector :
    fk connector_logs_connector_id (connector_logs d) connectors_id (connectors d)
}.

(** *** Statements *)

Lemma statement_cases cs f d :
  (statement cs f d = (f d, Ok tt) ∧ Forall (λ c, c.1 d = true) cs) ∨
  ∃ b e, (b, e) ∈ cs ∧ b d = false ∧ statement cs f d = (d, Throw e).
Proof.
  induction cs as [|[b e] cs IH]; simpl; [by left|].
  destruct (b d) eqn:E.
  - destruct IH as [[H1 H2]|(b' & e' & Hin & Hb & H)].
    + left. by split; [|constructor].
    + right. exists b', e'. by split; [right|].
  - right. exists b, e. by split; [left|].
Qed.

Lemma statement_ok cs f d :
  Forall (λ c, c.1 d = true) cs → statement cs f d = (f d, Ok tt).
Proof. induction 1 as [|[b e] cs H _ IH]; simpl in *; [done|]. by rewrite H. Qed.

(** A statement succeeds exactly when its checks pass. *)
Lemma statement_Ok cs f d d' :
  statement cs f d = (d', Ok tt) ↔ Forall (λ c, c.1 d = true) cs ∧ d' = f d.
Proof.
  split.
  - intros H. destruct (statement_cases cs f d) as [[H1 H2]|(b & e & _ & _ & H1)];
      rewrite H1 in H; by simplify_eq.
  - intros [H ->]. by apply statement_ok.
Qed.

(** Whatever happens, a statement either succeeds or leaves the database alone. *)
Lemma statement_Throw cs f d d' e : statement cs f d = (d', Throw e) → d' = d.
Proof.
  intros H. destruct (statement_cases cs f d) as [[H1 H2]|(b & e' & _ & _ & H1)];
    rewrite H1 in H; by simplify_eq.
Qed.

Lemma statement_preserves (P : db → Prop) cs f :
  (∀ d, P d → Forall (λ c, c.1 d = true) cs → P (f d)) → preserves P (statement cs f).
Proof.
  intros H d Hd. unfold state_of.
  destruct (statement_cases cs f d) as [[-> Hcs]|(b & e & _ & _ & ->)]; simpl; auto.
Qed.

Lemma transaction_preserves {A} (P : db → Prop) (m : M db A) :
  preserves P m → preserves P (transaction m).
Proof.
  intros Hm d Hd. specialize (Hm d Hd). unfold state_of, transaction in *.
  by destruct (m d) as [d' [a|e]].
Qed.

Lemma transaction_Ok {A} (m : M db A) d d' a :
  transaction m d = (d', Ok a) ↔ m d = (d', Ok a).
Proof. unfold transaction. destruct (m d) as [? []]; split; intros; by simplify_eq. Qed.

Lemma transaction_Throw {A} (m : M db A) d d' e :
  transaction m d = (d', Throw e) → d' = d.
Proof. unfold transaction. destruct (m d) as [? []]; intros; by simplify_eq. Qed.

(** A transaction that throws has changed nothing. *)
Lemma transaction_rollback {A} (m : M db A) d e :
  result_of (transaction m) d = Throw e → state_of (transaction m) d = d.
Proof.
  unfold result_of, state_of, transaction. by destruct (m d) as [d' [a|e']].
Qed.

Lemma fresh_true {R K} `{EqDecision K} (key : R → K) table k d :
  fresh key table k d = true ↔ k ∉ key <$> table d.
Proof. apply bool_decide_eq_true. Qed.

Lemma refers_true {R K} `{EqDecision K} (key : R → K) table k d :
  refers key table k d = true ↔ k ∈ key <$> table d.
Proof. apply bool_decide_eq_true. Qed.

Lemma refers_opt_true {R K} `{EqDecision K} (key : R → K) table ko d :
  refers_opt key table ko d = true ↔ ∀ k, ko = Some k → k ∈ key <$> table d.
Proof.
  destruct ko as [k|]; simpl; [|naive_solver].
  rewrite refers_true. naive_solver.
Qed.

(** *** How keys behave under the table operations *)

Lemma NoDup_key_snoc {R K} (key : R → K) t r :
  NoDup (key <$> t) → key r ∉ key <$> t → NoDup (key <$> (t ++ [r])).
Proof.
  intros Ht Hr. rewrite fmap_app, NoDup_app. simpl. split_and!; [done| |].
  - intros k Hk Hin. by apply list_elem_of_singleton in Hin as ->.
  - apply NoDup_singleton.
Qed.

Lemma NoDup_snoc {R} (t : list R) r : NoDup t → r ∉ t → NoDup (t ++ [r]).
Proof.
  intros Ht Hr. pose proof (NoDup_key_snoc id t r) as H.
  rewrite !list_fmap_id in H. by apply H.
Qed.

Lemma fk_snoc {R R' K} (key : R → K) t r (key' : R' → K) t' :
  fk key t key' t' → key r ∈ key' <$> t' → fk key (t ++ [r]) key' t'.
Proof. intros H Hr x [Hx| ->%list_elem_of_singleton]%elem_of_app; auto. Qed.

Lemma fk_opt_snoc {R R' K} (key : R → option K) t r (key' : R' → K) t' :
  fk_opt key t key' t' → (∀ k, key r = Some k → k ∈ key' <$> t') →
  fk_opt key (t ++ [r]) key' t'.
Proof. intros H Hr x k [Hx| ->%list_elem_of_singleton]%elem_of_app; eauto. Qed.

Lemma fk_target_snoc {R R' K} (key : R → K) t (key' : R' → K) t' r :
  fk key t key' t' → fk key t key' (t' ++ [r]).
Proof. intros H x Hx. rewrite fmap_app. apply elem_of_app. left. auto. Qed.

Lemma fk_opt_target_snoc {R R' K} (key : R → option K) t (key' : R' → K) t' r :
  fk_opt key t key' t' → fk_opt key t key' (t' ++ [r]).
Proof. intros H x k Hx Hk. rewrite fmap_app. apply elem_of_app. left. eauto. Qed.

Lemma fk_filter {R R' K} (key : R → K) t (key' : R' → K) t'
  (P : R → Prop) `{∀ x, Decision (P x)} :
  fk key t key' t' → fk key (filter P t) key' t'.
Proof. intros H' x [_ Hx]%list_elem_of_filter. auto. Qed.

Create HintDb integrity.
#[export] Hint Resolve NoDup_key_snoc NoDup_snoc fk_snoc fk_opt_snoc
  fk_target_snoc fk_opt_target_snoc fk_filter NoDup_map_filter NoDup_filter : integrity.

(** Rebuild [db_ok] after a change of one or two tables. *)
Ltac db_ok_auto :=
  match goal with H : db_ok _ |- db_ok _ => destruct H end;
  constructor; simpl; eauto with integrity.

(** Start the proof that one statement keeps the integrity. *)
Ltac statement_start :=
  apply statement_preserves; intros d Hok Hcs;
  rewrite ?Forall_cons in Hcs; simpl in Hcs; destruct_and? Hcs;
  repeat match goal with
    | H : fresh _ _ _ _ = true |- _ => apply fresh_true in H
    | H : refers _ _ _ _ = true |- _ => apply refers_true in H
    | H : refers_opt _ _ _ _ = true |- _ => rewrite refers_opt_true in H
    end;
  rewrite ?list_fmap_id in *.

Lemma insert_users_ok r : preserves db_ok (insert_users r).
Proof.
  statement_start. db_ok_auto.
  rewrite omap_app. simpl. destruct (users_certificate_identity r) as [c|]; simpl.
  - apply NoDup_snoc; [done|]. by case_bool_decide.
  - by rewrite app_nil_r.
Qed.

Lemma insert_groups_ok r : preserves db_ok (insert_groups r).
Proof. statement_start. db_ok_auto. Qed.

Lemma insert_group_members_ok r : preserves db_ok (insert_group_members r).
Proof. statement_start. db_ok_auto. Qed.

Lemma insert_service_accounts_ok r : preserves db_ok (insert_service_accounts r).
Proof. statement_start. db_ok_auto. Qed.

Lemma insert_remote_networks_ok r : preserves db_ok (insert_remote_networks r).
Proof. statement_start. db_ok_auto. Qed.

Lemma insert_connectors_ok r : preserves db_ok (insert_connectors r).
Proof. statement_start. db_ok_auto. Qed.

Lemma insert_agents_ok r : preserves db_ok (insert_agents r).
Proof. statement_start. db_ok_auto. Qed.

Lemma insert_resources_ok r : preserves db_ok (insert_resources r).
Proof. statement_start. db_ok_auto. Qed.

Lemma insert_access_rules_ok r : preserves db_ok (insert_access_rules r).
Proof. statement_start. db_ok_auto. Qed.

Lemma insert_access_rule_groups_ok r : preserves db_ok (insert_access_rule_groups r).
Proof. statement_start. db_ok_auto. Qed.

Lemma insert_connector_logs_ok c t m : preserves db_ok (insert_connector_logs c t m).
Proof.
  statement_start. db_ok_auto.
  - apply NoDup_key_snoc; [done|]. simpl. intros (r & Hr & Hin)%list_elem_of_fmap.
    apply ok_logs_seq0 in Hin. lia.
  - intros r [Hr| ->%list_elem_of_singleton]%elem_of_app; simpl; [|lia].
    apply ok_logs_seq0 in Hr. lia.
Qed.

Lemma upsert_meta_ok k v : preserves db_ok (upsert_meta k v).
Proof.
  statement_start. db_ok_auto. case_bool_decide as Hk.
  - rewrite <- list_fmap_compose. erewrite list_fmap_ext; [done|].
    intros i r _. simpl. case_decide; by simplify_eq/=.
  - by apply NoDup_key_snoc.
Qed.

Lemma delete_group_members_ok p : preserves db_ok (delete_group_members p).
Proof. statement_start. db_ok_auto. Qed.

(** The cascade is what keeps [access_rule_groups] free of dangling rules. *)
Lemma delete_access_rules_ok rid : preserves db_ok (delete_access_rules rid).
Proof.
  statement_start. db_ok_auto.
  intros r [Hne Hr]%list_elem_of_filter. apply ok_rule_groups_rule0 in Hr.
  apply list_elem_of_fmap in Hr as (x & Hx & Hin). rewrite Hx.
  apply list_elem_of_fmap_2, list_elem_of_filter. by rewrite <- Hx.
Qed.

(** An update that keeps the key column keeps the list of keys. *)
Lemma fmap_update_key {R K} (key : R → K) (P : R → Prop) `{∀ x, Decision (P x)}
  (f : R → R) (t : list R) :
  (∀ r, key (f r) = key r) →
  key <$> ((λ r, if decide (P r) then f r else r) <$> t) = key <$> t.
Proof.
  intros Hf. rewrite <- list_fmap_compose. apply list_fmap_ext.
  intros i r _. simpl. case_decide; [apply Hf|done].
Qed.

Lemma update_connectors_ok cid f :
  (∀ r, connectors_id (f r) = connectors_id r) →
  (∀ r, connectors_remote_network_id (f r) = connectors_remote_network_id r) →
  preserves db_ok (update_connectors cid f).
Proof.
  intros Hid Hnet. statement_start. db_ok_auto.
  - by rewrite (fmap_update_key connectors_id (λ r, connectors_id r = cid)).
  - intros r (r' & -> & Hr)%list_elem_of_fmap.
    case_decide; [rewrite Hnet|]; by apply ok_connectors_network0.
  - intros r Hr. rewrite (fmap_update_key connectors_id (λ r, connectors_id r = cid));
      auto.
Qed.

Lemma update_resources_ok rid net f :
  (∀ r, resources_id (f r) = resources_id r) →
  (∀ r, resources_remote_network_id (f r) = net) →
  preserves db_ok (update_resources rid net f).
Proof.
  intros Hid Hnet. statement_start. db_ok_auto.
  - by rewrite (fmap_update_key resources_id (λ r, resources_id r = rid)).
  - intros r k (r' & -> & Hr)%list_elem_of_fmap. destruct (decide (resources_id r' = rid)) as [Hd|]; [|eauto].
    rewrite Hnet. intros ->. simpl in *. apply orb_true_iff in H as [H|H].
    + apply negb_true_iff, bool_decide_eq_false in H. destruct H.
      rewrite <- Hd. by apply list_elem_of_fmap_2.
    + by apply refers_true in H.
  - intros r Hr. rewrite (fmap_update_key resources_id (λ r, resources_id r = rid));
      auto.
Qed.

#[export] Hint Resolve insert_users_ok insert_groups_ok insert_group_members_ok
  insert_service_accounts_ok insert_remote_networks_ok insert_connectors_ok
  insert_agents_ok insert_resources_ok insert_access_rules_ok
  insert_access_rule_groups_ok insert_connector_logs_ok upsert_meta_ok
  delete_group_members_ok delete_access_rules_ok update_connectors_ok
  update_resources_ok transaction_preserves : js.

(** The freshly created database is sound. *)
Lemma empty_db_ok : db_ok empty_db.
Proof.
  constructor; simpl; try apply NoDup_nil_2;
    first [by intros ? ?%not_elem_of_nil|by intros ? ? ?%not_elem_of_nil].
Qed.

(** A primary-key lookup commutes with an update that keeps the keys. *)
Lemma get_by_fmap {R} (key : R → string) (f : R → R) k (t : list R) :
  (∀ r, key (f r) = key r) → get_by key k (f <$> t) = f <$> get_by key k t.
Proof.
  intros Hf. unfold get_by, find_row. induction t as [|r t IH]; [done|].
  rewrite fmap_cons, !filter_cons, Hf. case_decide; [done|exact IH].
Qed.

(** The row just appended under a fresh key is the one found. *)
Lemma get_by_snoc {R} (key : R → string) (t : list R) r :
  key r ∉ (key <$> t) → get_by key (key r) (t ++ [r]) = Some r.
Proof.
  intros Hr. unfold get_by, find_row. rewrite filter_app, filter_none.
  - simpl. rewrite filter_cons_True; [done|]. by apply bool_decide_eq_true.
  - intros x Hx E%bool_decide_eq_true. destruct Hr. rewrite <- E.
    by apply list_elem_of_fmap_2.
Qed.

(** An update by key does not touch the rows with other keys. *)
Lemma fmap_update_fresh {R K} `{EqDecision K} (key : R → K) (f : R → R) k (t : list R) :
  k ∉ (key <$> t) → (λ r, if decide (key r = k) then f r else r) <$> t = t.
Proof.
  intros Hk. transitivity (id <$> t); [|apply list_fmap_id].
  apply list_fmap_ext. intros i r Hi. rewrite decide_False; [done|].
  intros <-. destruct Hk. apply list_elem_of_fmap_2. by eapply list_elem_of_lookup_2.
Qed.

(** ** Inserting a list of rows

    [rows.forEach(x => stmt.run(mk x))] for a table whose whole row is its key:
    it succeeds exactly when the new rows are distinct, absent and refer to
    existing rows, and then appends them all. *)
Section InsertAll.
  Context {R A : Type} (ins : R → M db unit) (table : db → list R)
    (put : list R → db → db) (valid : R → db → Prop) (mk : A → R) `{!Inj (=) (=) mk}.
  Hypothesis ins_Ok : ∀ r d d',
    ins r d = (d', Ok tt) ↔ (r ∉ table d ∧ valid r d) ∧ d' = put (table d ++ [r]) d.
  Hypothesis table_put : ∀ t d, table (put t d) = t.
  Hypothesis put_put : ∀ t t' d, put t (put t' d) = put t d.
  Hypothesis put_table : ∀ d, put (table d) d = d.
  Hypothesis valid_put : ∀ r t d, valid r (put t d) ↔ valid r d.

Lemma insert_all_Ok (xs : list A) d d' :
  forEach (λ x, ins (mk x)) xs d = (d', Ok tt) ↔
  (NoDup xs ∧ ∀ x, x ∈ xs → mk x ∉ table d ∧ valid (mk x) d) ∧
  d' = put (table d ++ (mk <$> xs)) d.
Proof.
  revert d. induction xs as [|x xs IH]; intros d; simpl.
  - rewrite ret_Ok, app_nil_r, put_table. split; [|naive_solver].
    intros [-> _]. repeat split; [constructor| |]; by apply not_elem_of_nil in H.
  - rewrite bind_Ok, NoDup_cons. split.
    + intros (s1 & [] & [[H1 H2] ->]%ins_Ok & [[H3 H4] ->]%IH).
      rewrite table_put, put_put, <- app_assoc. split; [|done]. split.
      * split; [|done]. intros Hx. destruct (H4 x Hx) as [H5 _].
        rewrite table_put in H5. set_solver.
      * intros y [->|Hy]%elem_of_cons; [done|]. destruct (H4 y Hy) as [H5 H6].
        rewrite table_put in H5. rewrite valid_put in H6. set_solver.
    + intros [[[H1 H2] H3] ->]. exists (put (table d ++ [mk x]) d), tt. split.
      * apply ins_Ok. split; [|done]. apply H3. by left.
      * apply IH. rewrite table_put, put_put, <- app_assoc. split; [|done].
        split; [done|]. intros y Hy. rewrite valid_put.
        destruct (H3 y) as [H4 H5]; [by right|]. split; [|done].
        intros [Hin|Hin]%elem_of_app; [done|].
        apply list_elem_of_singleton, (inj mk) in Hin. by subst.
Qed.
End InsertAll.
