(* ===== verification/Seed.v ===== *)
(** * The seed data ([seedIfNeeded] of [lib/db.ts])

    The rows the first start of the program inserts, table by table, in one
    transaction guarded by the mark [seeded] of the table [meta]. *)
From S2P Require Import Prelude JsString Types Schema Database.
From Stdlib Require Import ZArith.

Local Open Scope Z_scope.

(** Remote Networks *)
Definition seed_remote_networks : M db unit :=
  insert_remote_networks (mkRemoteNetworks "net_1" "Production AWS" "AWS"
      "2026-01-05") ;;
  insert_remote_networks (mkRemoteNetworks "net_2" "Office LAN" "ON_PREM"
      "2026-01-08") ;;
  insert_remote_networks (mkRemoteNetworks "net_3" "Staging GCP" "GCP" "2026-01-15").

(** Connectors *)
Definition seed_connectors : M db unit :=
  insert_connectors (mkConnectors "con_1" "AWS-Prod-Connector-1" "online" "1.2.0"
      "ip-172-31-0-1.ec2.internal" "net_1" "2026-02-20T10:30:00Z" 0 (Some
      "2026-02-20T10:30:00Z") 1) ;;
  insert_connectors (mkConnectors "con_2" "AWS-Prod-Connector-2" "online" "1.2.0"
      "ip-172-31-0-2.ec2.internal" "net_1" "2026-02-20T10:25:00Z" 0 (Some
      "2026-02-20T10:25:00Z") 1) ;;
  insert_connectors (mkConnectors "con_3" "Office-Connector-1" "online" "1.1.5"
      "office-server.local" "net_2" "2026-02-20T10:15:00Z" 0 (Some
      "2026-02-20T10:15:00Z") 1) ;;
  insert_connectors (mkConnectors "con_4" "GCP-Staging-Connector-1" "online" "1.2.0"
      "gcp-staging-vm-1" "net_3" "2026-02-20T10:05:00Z" 0 (Some
      "2026-02-20T10:05:00Z") 1) ;;
  insert_connectors (mkConnectors "con_5" "GCP-Staging-Connector-2" "offline"
      "1.2.0" "gcp-staging-vm-2" "net_3" "2026-02-19T14:00:00Z" 0 (Some
      "2026-02-19T14:00:00Z") 1).

(** Agents *)
Definition seed_agents : M db unit :=
  insert_agents (mkAgents "tun_1" "AWS-Prod-Agent-1" "online" "1.0.0"
      "tun-172-31-0-10.ec2.internal" "net_1") ;;
  insert_agents (mkAgents "tun_2" "AWS-Prod-Agent-2" "offline" "1.0.0"
      "tun-172-31-0-11.ec2.internal" "net_1") ;;
  insert_agents (mkAgents "tun_3" "Office-Agent-1" "online" "1.0.1"
      "tun-office-server.local" "net_2").

(** Users *)
Definition seed_users : M db unit :=
  insert_users (mkUsers "usr_1" "Alice Johnson" "alice@company.com" (Some
      "identity-usr_1") "active" "2026-01-10") ;;
  insert_users (mkUsers "usr_2" "Bob Smith" "bob@company.com" (Some
      "identity-usr_2") "active" "2026-01-12") ;;
  insert_users (mkUsers "usr_3" "Charlie Davis" "charlie@company.com" (Some
      "identity-usr_3") "active" "2026-01-15") ;;
  insert_users (mkUsers "usr_4" "Diana Wilson" "diana@company.com" (Some
      "identity-usr_4") "inactive" "2026-02-01").

(** Groups *)
Definition seed_groups : M db unit :=
  insert_groups (mkGroups "grp_1" "Engineering"
      "Engineering team with database and API access" "2026-01-15") ;;
  insert_groups (mkGroups "grp_2" "Marketing" "Marketing department" "2026-01-20") ;;
  insert_groups (mkGroups "grp_3" "Admin" "System administrators" "2026-01-25").

(** Group Members *)
Definition seed_group_members : M db unit :=
  insert_group_members (mkGroupMembers "grp_1" "usr_1") ;;
  insert_group_members (mkGroupMembers "grp_1" "usr_3") ;;
  insert_group_members (mkGroupMembers "grp_2" "usr_2") ;;
  insert_group_members (mkGroupMembers "grp_3" "usr_1").

(** Service Accounts *)
Definition seed_service_accounts : M db unit :=
  insert_service_accounts (mkServiceAccounts "svc_1" "CI/CD Pipeline" "active" 2
      "2026-01-01") ;;
  insert_service_accounts (mkServiceAccounts "svc_2" "Analytics Sync" "active" 1
      "2026-01-10").

(** Resources *)
Definition seed_resources : M db unit :=
  insert_resources (mkResources "res_1" "Database Server" "STANDARD"
      "db.internal.company.com:5432" "5432" "TCP" (Some 5432) (Some 5432) None
      "Production PostgreSQL database for main application" (Some "net_1")
      "unprotected") ;;
  insert_resources (mkResources "res_2" "API Gateway" "BROWSER" "api.company.com"
      "443" "TCP" (Some 443) (Some 443) None
      "Main API endpoint for frontend applications" (Some "net_1") "unprotected") ;;
  insert_resources (mkResources "res_3" "S3 Bucket" "BACKGROUND"
      "company-assets.s3.amazonaws.com" "443" "TCP" (Some 443) (Some 443) None
      "Asset storage bucket" (Some "net_1") "unprotected") ;;
  insert_resources (mkResources "res_4" "Internal Wiki" "BROWSER"
      "wiki.internal.company.com" "80,443" "TCP" None None None
      "Internal Confluence Wiki" (Some "net_2") "unprotected").

(** Access Rules (group-based) *)
Definition seed_access_rules : M db unit :=
  insert_access_rules (mkAccessRules "rule_1" "Engineering DB Access" "res_1" 1
      "2026-01-20" "2026-01-20") ;;
  insert_access_rule_groups (mkAccessRuleGroups "rule_1" "grp_1") ;;
  insert_access_rules (mkAccessRules "rule_2" "Engineering API Access" "res_2" 1
      "2026-01-20" "2026-01-20") ;;
  insert_access_rule_groups (mkAccessRuleGroups "rule_2" "grp_1").

(** Connector Logs *)
Definition seed_connector_logs : M db unit :=
  insert_connector_logs "con_1" "2026-02-20 10:00:00" "Connector service started" ;;
  insert_connector_logs "con_1" "2026-02-20 10:00:05"
      "Successfully connected to the Twingate network" ;;
  insert_connector_logs "con_1" "2026-02-20 10:02:10"
      "Authenticated with controller".

(** the seeded mark *)
Definition seed_meta : M db unit :=
  upsert_meta "seeded" "1".

(** The body of [seedTransaction]. *)
Definition seed_body : M db unit :=
  seed_remote_networks ;;
  seed_connectors ;;
  seed_agents ;;
  seed_users ;;
  seed_groups ;;
  seed_group_members ;;
  seed_service_accounts ;;
  seed_resources ;;
  seed_access_rules ;;
  seed_connector_logs ;;
  seed_meta.

(** [if (seeded?.value === '1') return; ...; seedTransaction()] *)
Definition seedIfNeeded : M db unit :=
  row ← gets (λ d, get_by meta_key "seeded" (meta d));
  if bool_decide ((meta_value <$> row) = Some "1") then mret tt
  else transaction seed_body.

(** The database of a first start. *)
Definition seeded_db : db := state_of seedIfNeeded empty_db.

(** The seed runs to its end on an empty database, so that a first start never
    throws. *)
Lemma seed_runs : result_of seedIfNeeded empty_db = Ok tt.
Proof. vm_compute. reflexivity. Qed.

Lemma seedIfNeeded_ok : preserves db_ok seedIfNeeded.
Proof.
  unfold seedIfNeeded. apply preserves_bind; [auto with js|]. intros row.
  case_bool_decide; [auto with js|]. apply transaction_preserves.
  unfold seed_body, seed_remote_networks, seed_connectors, seed_agents, seed_users,
    seed_groups, seed_group_members, seed_service_accounts, seed_resources,
    seed_access_rules, seed_connector_logs, seed_meta.
  repeat (apply preserves_bind; [|intros _]); auto with js.
Qed.

Lemma seeded_db_ok : db_ok seeded_db.
Proof. apply seedIfNeeded_ok, empty_db_ok. Qed.

