(* ===== verification/Data.v ===== *)
(** * The data layer ([lib/data.ts])

    One definition per function of [lib/data.ts], under its name.  The readers
    are functions of the database content; the writers are programs of the
    monad [M db].  Every function starts with [getDb()], which
    [Migration.getDb] models; here the handle is open.  The clock and the
    random generator are arguments. *)
From S2P Require Import Prelude JsString Types Schema Database.
From Stdlib Require Import Ascii ZArith.

(** What one call reads from the outside: [Date.now()],
    [new Date().toISOString()] and [crypto.randomUUID()]. *)
Record env := mkEnv { date_now : Z; iso_now : string; random_uuid : string }.

(** [new Date().toISOString().split('T')[0]] *)
Definition today (e : env) : string :=
  match JsString.split "T"%char (iso_now e) with s :: _ => s | [] => "" end.

(** [!!n] on a number *)
Definition truthy_Z (n : Z) : bool := negb (Z.eqb n 0).

(** ** Row mappers *)

Definition mapUser (row : users_row) : User :=
  mkUser (users_id row) (users_name row) USER ("User: " +:+ users_name row)
    (users_email row) (users_status row) None []
    (users_certificate_identity row) (users_created_at row).

Definition mapGroup (row : groups_row) (memberCount resourceCount : nat) : Group :=
  mkGroup (groups_id row) (groups_name row) GROUP ("Group: " +:+ groups_name row)
    (groups_description row) memberCount resourceCount (groups_created_at row)
    (Some (groups_created_at row)).

Definition mapServiceAccount (row : service_accounts_row) : ServiceAccount :=
  mkServiceAccount (service_accounts_id row) (service_accounts_name row) SERVICE
    ("Service: " +:+ service_accounts_name row) (service_accounts_status row)
    (service_accounts_associated_resource_count row) (service_accounts_created_at row).

Definition mapResource (row : resources_row) : Resource :=
  mkResource (resources_id row) (resources_name row) (resources_type row)
    (resources_address row) (resources_protocol row) (resources_port_from row)
    (resources_port_to row) (resources_alias row) (resources_description row)
    (resources_remote_network_id row) None.

Definition mapConnector (row : connectors_row) : Connector :=
  mkConnector (connectors_id row) (connectors_name row) (connectors_status row)
    (connectors_version row) (connectors_hostname row) (connectors_remote_network_id row)
    (connectors_last_seen row) (truthy_Z (connectors_installed row))
    (connectors_last_policy_version row) (connectors_last_seen_at row) None None.

(** The row of the network queries: the columns and the three counts. *)
Record network_counts := mkCounts {
  connector_count : nat; online_connector_count : nat; resource_count : nat }.

Definition mapRemoteNetwork (row : remote_networks_row) (c : network_counts)
  : RemoteNetwork :=
  mkRemoteNetwork (remote_networks_id row) (remote_networks_name row)
    (remote_networks_location row) (connector_count c) (online_connector_count c)
    (resource_count c) (remote_networks_created_at row) None.

Definition mapAccessRule (row : access_rules_row) (allowed_groups : list string)
  : AccessRule :=
  mkAccessRule (access_rules_id row) (access_rules_name row)
    (access_rules_resource_id row) allowed_groups (truthy_Z (access_rules_enabled row))
    (access_rules_created_at row) (access_rules_updated_at row).

(** ** Remote networks *)

(** The three [(SELECT COUNT( * ) ...)] subqueries. *)
Definition network_counts_of (d : db) (nid : string) : network_counts :=
  let cs := filter (λ c, connectors_remote_network_id c = nid) (connectors d) in
  mkCounts (length cs)
    (length (filter (λ c, connectors_status c = "online") cs))
    (length (filter (λ r, resources_remote_network_id r = Some nid) (resources d))).

Definition network_of_row (d : db) (n : remote_networks_row) : RemoteNetwork :=
  mapRemoteNetwork n (network_counts_of d (remote_networks_id n)).

Definition listRemoteNetworks (d : db) : list RemoteNetwork :=
  network_of_row d <$> order_by remote_networks_created_at (remote_networks d).

Definition addRemoteNetwork (e : env) (name location : string) : M db unit :=
  insert_remote_networks
    (mkRemoteNetworks ("net_" +:+ JsString.string_of_Z (date_now e)) name location
       (today e)).

Definition getRemoteNetworkDetail (d : db) (networkId : string)
  : option RemoteNetwork * list Connector * list Resource :=
  (network_of_row d <$> get_by remote_networks_id networkId (remote_networks d),
   mapConnector <$> order_by connectors_name
     (filter (λ c, connectors_remote_network_id c = networkId) (connectors d)),
   mapResource <$> order_by resources_name
     (filter (λ r, resources_remote_network_id r = Some networkId) (resources d))).

(** ** Connectors *)

Definition listConnectors (d : db) : list Connector :=
  mapConnector <$> order_by connectors_name (connectors d).

Definition logs_of (d : db) (connectorId : string) : list ConnectorLog :=
  (λ l, mkConnectorLog (connector_logs_id l) (connector_logs_timestamp l)
          (connector_logs_message l)) <$>
  order_by_Z connector_logs_id
    (filter (λ l, connector_logs_connector_id l = connectorId) (connector_logs d)).

Definition getConnectorDetail (d : db) (connectorId : string)
  : option Connector * option RemoteNetwork * list ConnectorLog :=
  match get_by connectors_id connectorId (connectors d) with
  | None => (None, None, [])
  | Some row =>
      (Some (mapConnector row),
       network_of_row d <$>
         get_by remote_networks_id (connectors_remote_network_id row) (remote_networks d),
       logs_of d connectorId)
  end.

Definition hostname_of (name : string) : string :=
  JsString.replace_space "-"%char (JsString.toLowerCase name) +:+ ".local".

Definition addConnector (e : env) (name remoteNetworkId : string) : M db unit :=
  insert_connectors
    (mkConnectors ("con_" +:+ JsString.string_of_Z (date_now e)) name "offline" "1.0.0"
       (hostname_of name) remoteNetworkId (iso_now e) 0 (Some (iso_now e)) 0).

Definition simulateConnectorHeartbeat (e : env) (connectorId : string) : M db unit :=
  update_connectors connectorId (λ r,
    mkConnectors (connectors_id r) (connectors_name r) "online" (connectors_version r)
      (connectors_hostname r) (connectors_remote_network_id r) (iso_now e)
      (connectors_last_policy_version r) (Some (iso_now e)) 1).

Record heartbeat_result := mkHeartbeat { updateAvailable : bool; currentVersion : Z }.

Definition updateConnectorHeartbeat (e : env) (connectorId : string)
  (lastPolicyVersion : Z) : M db heartbeat_result :=
  update_connectors connectorId (λ r,
    mkConnectors (connectors_id r) (connectors_name r) (connectors_status r)
      (connectors_version r) (connectors_hostname r) (connectors_remote_network_id r)
      (connectors_last_seen r) lastPolicyVersion (Some (iso_now e))
      (connectors_installed r)) ;;
  row ← gets (λ d, get_by connector_policy_versions_connector_id connectorId
                     (connector_policy_versions d));
  let current := default 0%Z (connector_policy_versions_version <$> row) in
  mret (mkHeartbeat (lastPolicyVersion <? current)%Z current).

(** ** Agents *)

Definition agent_of_row (row : agents_row) : Agent :=
  mkAgent (agents_id row) (agents_name row) (agents_status row) (agents_version row)
    (agents_hostname row) (agents_remote_network_id row) None None None None None.

Definition listAgents (d : db) : list Agent :=
  agent_of_row <$> order_by agents_name (agents d).

(** ** Users and service accounts *)

Definition groups_of_user (d : db) (uid : string) : list string :=
  group_members_group_id <$> filter (λ m, group_members_user_id m = uid) (group_members d).

(** [{ ...mapUser(row), groups }] *)
Definition with_groups (u : User) (gs : list string) : User :=
  mkUser (User_id u) (User_name u) (User_type u) (User_displayLabel u) (User_email u)
    (User_status u) (User_role u) gs (User_certificateIdentity u) (User_createdAt u).

Definition listUsers (d : db) : list User :=
  (λ row, with_groups (mapUser row) (groups_of_user d (users_id row))) <$>
  order_by users_name (users d).

Definition addUser (e : env) (name email : string) (status : UserStatus) : M db User :=
  let uid := "usr_" +:+ JsString.string_of_Z (date_now e) in
  let certificateIdentity := "identity-" +:+ random_uuid e in
  let createdAt := today e in
  insert_users (mkUsers uid name email (Some certificateIdentity)
    (string_of_UserStatus status) createdAt) ;;
  mret (mkUser uid name USER ("User: " +:+ name) email (string_of_UserStatus status)
    None [] (Some certificateIdentity) createdAt).

Definition listServiceAccounts (d : db) : list ServiceAccount :=
  mapServiceAccount <$> order_by service_accounts_name (service_accounts d).

(** ** Groups *)

Definition member_rows (d : db) (gid : string) : list group_members_row :=
  filter (λ m, group_members_group_id m = gid) (group_members d).

(** [access_rules ar JOIN access_rule_groups arg ON arg.rule_id = ar.id
     WHERE arg.group_id = ?] *)
Definition rules_of_group (d : db) (gid : string) : list access_rules_row :=
  ar ← access_rules d;
  arg ← filter (λ g, access_rule_groups_rule_id g = access_rules_id ar ∧
                     access_rule_groups_group_id g = gid) (access_rule_groups d);
  [ar].

(** [SELECT COUNT(DISTINCT ar.resource_id)] *)
Definition resource_count_of_group (d : db) (gid : string) : nat :=
  length (remove_dups (access_rules_resource_id <$> rules_of_group d gid)).

Definition listGroups (d : db) : list Group :=
  (λ row, mapGroup row (length (member_rows d (groups_id row)))
            (resource_count_of_group d (groups_id row))) <$>
  order_by groups_name (groups d).

(** [group_members gm JOIN users u ON u.id = gm.user_id WHERE gm.group_id = ?] *)
Definition users_of_group (d : db) (gid : string) : list users_row :=
  gm ← member_rows d gid;
  filter (λ u, users_id u = group_members_user_id gm) (users d).

(** [GROUP BY r.id]: one row per identifier. *)
Fixpoint group_by_id (l : list resources_row) : list resources_row :=
  match l with
  | [] => []
  | r :: l' => r :: filter (λ x, resources_id x ≠ resources_id r) (group_by_id l')
  end.

(** [... JOIN resources r ON r.id = ar.resource_id ... GROUP BY r.id] *)
Definition resources_of_group (d : db) (gid : string) : list resources_row :=
  group_by_id
    (ar ← rules_of_group d gid;
     filter (λ r, resources_id r = access_rules_resource_id ar) (resources d)).

Definition member_of_row (u : users_row) : GroupMember :=
  mkGroupMember (users_id u) (users_name u) (users_email u).

Definition getGroupDetail (d : db) (groupId : string)
  : option Group * list GroupMember * list Resource :=
  match get_by groups_id groupId (groups d) with
  | None => (None, [], [])
  | Some groupRow =>
      let memberRows := member_of_row <$> order_by users_name (users_of_group d groupId) in
      let resourceRows := order_by resources_name (resources_of_group d groupId) in
      (Some (mapGroup groupRow (length memberRows) (length resourceRows)),
       memberRows, mapResource <$> resourceRows)
  end.

Definition addGroup (e : env) (name description : string) : M db unit :=
  insert_groups
    (mkGroups ("grp_" +:+ JsString.string_of_Z (date_now e)) name description (today e)).

Definition updateGroupMembers (groupId : string) (memberIds : list string) : M db unit :=
  transaction
    (delete_group_members (λ m, bool_decide (group_members_group_id m = groupId)) ;;
     forEach (λ uid, insert_group_members (mkGroupMembers groupId uid)) memberIds).

Definition removeGroupMember (groupId userId : string) : M db unit :=
  delete_group_members (λ m, bool_decide (m = mkGroupMembers groupId userId)).

(** [existingStmt.get(resourceId, groupId)] *)
Definition rule_exists (d : db) (resourceId groupId : string) : bool :=
  existsb (λ ar, bool_decide (access_rules_resource_id ar = resourceId))
    (rules_of_group d groupId).

(** [tick i] is what [Date.now()] returns in the [i]-th iteration. *)
Definition addGroupResource (groupId groupName now : string) (tick : nat → Z)
  (p : nat * string) : M db unit :=
  let '(i, resourceId) := p in
  existing ← gets (λ d, rule_exists d resourceId groupId);
  if existing : bool then mret tt
  else
    let ruleId := "rule_" +:+ JsString.string_of_Z (tick i) +:+ "_" +:+ groupId
                    +:+ "_" +:+ resourceId in
    insert_access_rules
      (mkAccessRules ruleId (groupName +:+ " access") resourceId 1 now now) ;;
    insert_access_rule_groups (mkAccessRuleGroups ruleId groupId).

Definition addGroupResources (e : env) (tick : nat → Z) (groupId : string)
  (resourceIds : list string) : M db unit :=
  if bool_decide (resourceIds = []) then mret tt
  else
    row ← gets (λ d, get_by groups_id groupId (groups d));
    let groupName := default "Unknown Group" (groups_name <$> row) in
    transaction
      (forEach (addGroupResource groupId groupName (today e) tick)
         (imap pair resourceIds)).

(** ** Resources *)

Definition listResources (d : db) : list Resource :=
  mapResource <$> order_by resources_name (resources d).

Definition groups_of_rule (d : db) (ruleId : string) : list string :=
  order_by id (access_rule_groups_group_id <$>
    filter (λ g, access_rule_groups_rule_id g = ruleId) (access_rule_groups d)).

Definition getResourceDetail (d : db) (resourceId : string)
  : option Resource * list AccessRule :=
  (mapResource <$> get_by resources_id resourceId (resources d),
   (λ row, mapAccessRule row (groups_of_rule d (access_rules_id row))) <$>
   order_by access_rules_created_at
     (filter (λ a, access_rules_resource_id a = resourceId) (access_rules d))).

(** The [data] argument of [addResource] and [updateResource]; [None] stands for
    [undefined] or [null]. *)
Record resource_input := mkResourceInput {
  in_network_id : string;
  in_name : string;
  in_type : ResourceType;
  in_address : string;
  in_protocol : Protocol;
  in_port_from : option Z;
  in_port_to : option Z;
  in_alias : option string
}.

(** [port_from && port_to ? `${port_from}-${port_to}` : port_from ? ... : ''] *)
Definition ports_of (port_from port_to : option Z) : string :=
  match port_from with
  | None => ""
  | Some f =>
      if negb (truthy_Z f) then ""
      else match port_to with
           | Some t =>
               if truthy_Z t
               then JsString.string_of_Z f +:+ "-" +:+ JsString.string_of_Z t
               else JsString.string_of_Z f
           | None => JsString.string_of_Z f
           end
  end.

Definition addResource (e : env) (x : resource_input) : M db unit :=
  insert_resources
    (mkResources ("res_" +:+ JsString.string_of_Z (date_now e)) (in_name x)
       (string_of_ResourceType (in_type x)) (in_address x)
       (ports_of (in_port_from x) (in_port_to x)) (string_of_Protocol (in_protocol x))
       (in_port_from x) (in_port_to x) (in_alias x)
       ("A new " +:+ JsString.toLowerCase (string_of_ResourceType (in_type x)) +:+ " resource")
       (Some (in_network_id x)) "unprotected").

Definition updateResource (resourceId : string) (x : resource_input) : M db unit :=
  update_resources resourceId (Some (in_network_id x)) (λ r,
    mkResources (resources_id r) (in_name x) (string_of_ResourceType (in_type x))
      (in_address x) (ports_of (in_port_from x) (in_port_to x))
      (string_of_Protocol (in_protocol x)) (in_port_from x) (in_port_to x) (in_alias x)
      (resources_description r) (Some (in_network_id x)) (resources_firewall_status r)).

(** ** Access rules *)

Definition createAccessRule (e : env) (resourceId name : string)
  (groupIds : list string) (enabled : bool) : M db AccessRule :=
  let ruleId := "rule_" +:+ JsString.string_of_Z (date_now e) in
  let now := today e in
  transaction
    (insert_access_rules
       (mkAccessRules ruleId name resourceId (if enabled then 1 else 0)%Z now now) ;;
     forEach (λ g, insert_access_rule_groups (mkAccessRuleGroups ruleId g)) groupIds) ;;
  mret (mkAccessRule ruleId name resourceId groupIds enabled now now).

Definition deleteAccessRule (ruleId : string) : M db unit := delete_access_rules ruleId.

(** ** Subjects *)

Definition subject_of_user (row : users_row) : Subject :=
  mkSubject (users_id row) (users_name row) USER ("User: " +:+ users_name row).
Definition subject_of_group (row : groups_row) : Subject :=
  mkSubject (groups_id row) (groups_name row) GROUP ("Group: " +:+ groups_name row).
Definition subject_of_service (row : service_accounts_row) : Subject :=
  mkSubject (service_accounts_id row) (service_accounts_name row) SERVICE
    ("Service: " +:+ service_accounts_name row).

(** [!type || type === t] *)
Definition wants (type : option SubjectType) (t : SubjectType) : bool :=
  match type with None => true | Some t' => bool_decide (t' = t) end.

Definition listSubjects (d : db) (type : option SubjectType) : list Subject :=
  (if wants type USER then subject_of_user <$> order_by users_name (users d) else []) ++
  (if wants type GROUP then subject_of_group <$> order_by groups_name (groups d) else []) ++
  (if wants type SERVICE
   then subject_of_service <$> order_by service_accounts_name (service_accounts d)
   else []).

