(* ===== verification/DataInvariant.v ===== *)
(** * Integrity of every reachable database

    The writers of [lib/data.ts] as the steps of a transition system that
    starts from the seeded database; every step, whether it succeeds or throws,
    keeps keys unique and foreign keys valid. *)
From S2P Require Import Prelude JsString Types Schema Database Seed Data.
From Stdlib Require Import ZArith.

(** A call of one of the exported writers with its arguments. *)
Inductive op :=
  | AddRemoteNetwork (e : env) (name location : string)
  | AddConnector (e : env) (name remoteNetworkId : string)
  | SimulateConnectorHeartbeat (e : env) (connectorId : string)
  | UpdateConnectorHeartbeat (e : env) (connectorId : string) (version : Z)
  | AddUser (e : env) (name email : string) (status : UserStatus)
  | AddGroup (e : env) (name description : string)
  | UpdateGroupMembers (groupId : string) (memberIds : list string)
  | RemoveGroupMember (groupId userId : string)
  | AddGroupResources (e : env) (tick : nat → Z) (groupId : string)
      (resourceIds : list string)
  | AddResource (e : env) (x : resource_input)
  | UpdateResource (resourceId : string) (x : resource_input)
  | CreateAccessRule (e : env) (resourceId name : string) (groupIds : list string)
      (enabled : bool)
  | DeleteAccessRule (ruleId : string).

(** The effect of a call on the database; what it returns is dropped. *)
Definition exec (o : op) (d : db) : db :=
  match o with
  | AddRemoteNetwork e n l => state_of (addRemoteNetwork e n l) d
  | AddConnector e n r => state_of (addConnector e n r) d
  | SimulateConnectorHeartbeat e c => state_of (simulateConnectorHeartbeat e c) d
  | UpdateConnectorHeartbeat e c v => state_of (updateConnectorHeartbeat e c v) d
  | AddUser e n m s => state_of (addUser e n m s) d
  | AddGroup e n x => state_of (addGroup e n x) d
  | UpdateGroupMembers g ms => state_of (updateGroupMembers g ms) d
  | RemoveGroupMember g u => state_of (removeGroupMember g u) d
  | AddGroupResources e t g rs => state_of (addGroupResources e t g rs) d
  | AddResource e x => state_of (addResource e x) d
  | UpdateResource r x => state_of (updateResource r x) d
  | CreateAccessRule e r n gs b => state_of (createAccessRule e r n gs b) d
  | DeleteAccessRule r => state_of (deleteAccessRule r) d
  end.

(** The databases the program can produce. *)
Inductive reachable : db → Prop :=
  | reachable_start : reachable Seed.seeded_db
  | reachable_step d o : reachable d → reachable (exec o d).

Lemma updateGroupMembers_ok g ms : preserves db_ok (updateGroupMembers g ms).
Proof. apply transaction_preserves; eauto with js. Qed.

Lemma addGroupResource_ok g n now tick p :
  preserves db_ok (addGroupResource g n now tick p).
Proof.
  destruct p as [i r]. apply preserves_bind; [auto with js|].
  intros []; [auto with js|]. apply preserves_bind; auto with js.
Qed.

Lemma addGroupResources_ok e tick g rs : preserves db_ok (addGroupResources e tick g rs).
Proof.
  unfold addGroupResources. case_bool_decide; [auto with js|].
  apply preserves_bind; [auto with js|]. intros row.
  apply transaction_preserves, preserves_forEach. intros p. apply addGroupResource_ok.
Qed.

Lemma createAccessRule_ok e r n gs b : preserves db_ok (createAccessRule e r n gs b).
Proof.
  apply preserves_bind; [|auto with js].
  apply transaction_preserves, preserves_bind; auto with js.
Qed.

Lemma updateConnectorHeartbeat_ok e c v :
  preserves db_ok (updateConnectorHeartbeat e c v).
Proof.
  apply preserves_bind; [by apply update_connectors_ok|]. intros _.
  apply preserves_bind; auto with js.
Qed.

Lemma addUser_ok e n m s : preserves db_ok (addUser e n m s).
Proof. apply preserves_bind; auto with js. Qed.

Lemma exec_ok o d : db_ok d → db_ok (exec o d).
Proof.
  intros Hd. destruct o; simpl.
  - by apply insert_remote_networks_ok.
  - by apply insert_connectors_ok.
  - by apply update_connectors_ok.
  - by apply updateConnectorHeartbeat_ok.
  - by apply addUser_ok.
  - by apply insert_groups_ok.
  - by apply updateGroupMembers_ok.
  - by apply delete_group_members_ok.
  - by apply addGroupResources_ok.
  - by apply insert_resources_ok.
  - by apply update_resources_ok.
  - by apply createAccessRule_ok.
  - by apply delete_access_rules_ok.
Qed.

(** The seeded database and the databases of witnesses. *)
Lemma reachable_db_ok d : reachable d → db_ok d.
Proof. induction 1; [apply Seed.seeded_db_ok|by apply exec_ok]. Qed.

(** C1: after any sequence of calls of the data layer, in any order and with any
    arguments, primary and unique keys are unique and every foreign key of the
    schema refers to an existing row: no membership of a deleted group, no grant
    of a deleted rule. *)
Theorem reachable_integrity : ∀ os : list op,
  db_ok (foldl (λ d o, exec o d) Seed.seeded_db os).
Proof.
  intros os. apply reachable_db_ok.
  induction os as [|o os IH] using rev_ind; [constructor|].
  rewrite foldl_app. by constructor.
Qed.

