(* ===== verification/GroupMembership.v ===== *)
(** * Group membership

    [updateGroupMembers], [removeGroupMember] and the group readers of
    [lib/data.ts], against the membership relation they implement. *)
From S2P Require Import Prelude JsString Types Schema Database Seed Data.
From S2P Require Import DataInvariant.
From Stdlib Require Import ZArith Lia.

(** ** The abstract contract *)

(** What the database says of membership: the users of a group. *)
Definition members (d : db) (gid : string) : list string :=
  group_members_user_id <$> member_rows d gid.

(** The new member list can be stored: no duplicates, and everybody exists. *)
Definition acceptable (d : db) (gid : string) (ms : list string) : Prop :=
  NoDup ms ∧ (ms = [] ∨ gid ∈ (groups_id <$> groups d)) ∧
  Forall (λ u, u ∈ (users_id <$> users d)) ms.

#[export] Instance acceptable_dec d gid ms : Decision (acceptable d gid ms).
Proof. unfold acceptable. apply _. Defined.

(** ** The insertions *)

Lemma insert_group_members_Ok r d d' :
  insert_group_members r d = (d', Ok tt) ↔
  (r ∉ group_members d ∧ group_members_group_id r ∈ (groups_id <$> groups d) ∧
   group_members_user_id r ∈ (users_id <$> users d)) ∧
  d' = set_group_members (λ t, t ++ [r]) d.
Proof.
  unfold insert_group_members. rewrite statement_Ok, !Forall_cons. simpl.
  rewrite fresh_true, !refers_true, list_fmap_id. naive_solver.
Qed.

(** A member list that can be appended to the memberships. *)
Lemma insert_members_Ok gid ms d d' :
  forEach (λ u, insert_group_members (mkGroupMembers gid u)) ms d = (d', Ok tt) ↔
  (NoDup ms ∧ ∀ u, u ∈ ms → mkGroupMembers gid u ∉ group_members d ∧
     gid ∈ (groups_id <$> groups d) ∧ u ∈ (users_id <$> users d)) ∧
  d' = set_group_members (λ _, group_members d ++ (mkGroupMembers gid <$> ms)) d.
Proof.
  assert (Inj (=) (=) (mkGroupMembers gid)) by (by intros u v [=]).
  apply (insert_all_Ok insert_group_members group_members
    (λ t, set_group_members (λ _, t))
    (λ r x, group_members_group_id r ∈ (groups_id <$> groups x) ∧
            group_members_user_id r ∈ (users_id <$> users x)) (mkGroupMembers gid)).
  - intros r x x'. rewrite insert_group_members_Ok. tauto.
  - done.
  - done.
  - by intros [].
  - done.
Qed.

Lemma acceptable_iff gid ms d :
  acceptable d gid ms ↔
  NoDup ms ∧ ∀ u, u ∈ ms → gid ∈ (groups_id <$> groups d) ∧ u ∈ (users_id <$> users d).
Proof.
  unfold acceptable. rewrite Forall_forall. split.
  - intros (H1 & [->|H2] & H3); split; auto. by intros u ?%not_elem_of_nil.
  - intros [H1 H2]. split; [done|]. split; [|intros u Hu; by apply H2].
    destruct ms as [|u ms]; [by left|]. right. apply (H2 u). by left.
Qed.

(** ** The operations *)

Lemma delete_group_run gid d :
  delete_group_members (λ m, bool_decide (group_members_group_id m = gid)) d =
  (set_group_members (filter (λ m, group_members_group_id m ≠ gid)) d, Ok tt).
Proof.
  unfold delete_group_members, statement, set_group_members. do 2 f_equal.
  apply list_filter_iff. intros m. by rewrite bool_decide_eq_false.
Qed.

Lemma members_set d gid (t : list group_members_row) :
  members (set_group_members (λ _, t) d) gid =
  group_members_user_id <$> filter (λ m, group_members_group_id m = gid) t.
Proof. done. Qed.

(** The rows written for a new member list are the members read back. *)
Lemma members_replaced d gid ms :
  members (set_group_members (λ t,
    filter (λ m, group_members_group_id m ≠ gid) t ++ (mkGroupMembers gid <$> ms)) d) gid
  = ms.
Proof.
  unfold members, member_rows. simpl. rewrite filter_app, list_filter_filter.
  rewrite (filter_none (λ m, _ ∧ _)) by (intros m _; tauto).
  rewrite (filter_all _ (mkGroupMembers gid <$> ms)) by (by intros m (u & -> & _)%list_elem_of_fmap).
  cbn [app]. rewrite <- list_fmap_compose. apply list_fmap_id.
Qed.

(** [updateGroupMembers(g, ms)] succeeds exactly when [ms] has no duplicates
    and names existing users (and the group exists, unless [ms] is empty); it
    then replaces the members of [g] by [ms], in order, and touches nothing
    else.  In every other case it throws and the database is unchanged, the
    removal of the old members included. *)
Theorem updateGroupMembers_replaces : ∀ (gid : string) (ms : list string) (d : db),
  match updateGroupMembers gid ms d with
  | (d', Ok _) =>
      acceptable d gid ms ∧ members d' gid = ms ∧
      d' = set_group_members (λ t,
             filter (λ m, group_members_group_id m ≠ gid) t ++
             (mkGroupMembers gid <$> ms)) d
  | (d', Throw _) => ¬ acceptable d gid ms ∧ d' = d
  end.
Proof.
  intros gid ms d.
  destruct (updateGroupMembers gid ms d) as [d' [[]|e]] eqn:E.
  - apply transaction_Ok, bind_Ok in E as (d1 & [] & H1 & H2).
    rewrite delete_group_run in H1. simplify_eq.
    apply insert_members_Ok in H2 as [[Hnd Hall] ->].
    split; [apply acceptable_iff; split; [done|]; intros u Hu; apply (Hall u Hu)|].
    split; [exact (members_replaced d gid ms)|done].
  - split; [|by eapply transaction_Throw]. intros [Hnd Hall]%acceptable_iff.
    unfold updateGroupMembers, transaction, mbind, M_bind in E.
    rewrite delete_group_run in E.
    erewrite (proj2 (insert_members_Ok gid ms _ _)) in E; [done|].
    split; [|reflexivity]. split; [done|]. intros u Hu. split; [|by apply Hall].
    intros [Hne _]%list_elem_of_filter. by apply Hne.
Qed.

(** Removing a member removes exactly that membership, never throws, and a
    second removal is a no-op. *)
Theorem removeGroupMember_exact : ∀ (gid uid : string) (d : db),
  removeGroupMember gid uid d =
    (set_group_members (filter (λ m, m ≠ mkGroupMembers gid uid)) d, Ok tt) ∧
  members (state_of (removeGroupMember gid uid) d) gid =
    filter (λ u, u ≠ uid) (members d gid) ∧
  (∀ g, g ≠ gid → members (state_of (removeGroupMember gid uid) d) g = members d g) ∧
  state_of (removeGroupMember gid uid) (state_of (removeGroupMember gid uid) d) =
    state_of (removeGroupMember gid uid) d.
Proof.
  intros gid uid d.
  assert (∀ x, removeGroupMember gid uid x =
    (set_group_members (filter (λ m, m ≠ mkGroupMembers gid uid)) x, Ok tt)) as Hrun.
  { intros x. unfold removeGroupMember, delete_group_members, statement, set_group_members.
    do 2 f_equal. apply list_filter_iff. intros m. by rewrite bool_decide_eq_false. }
  unfold state_of. rewrite !Hrun. simpl.
  unfold members, member_rows, set_group_members. simpl. split_and!; [done| | |].
  - apply fmap_filter_filter. intros [g u]; simpl. naive_solver.
  - intros g Hg. f_equal. rewrite list_filter_filter. apply list_filter_iff.
    intros [g' u]. naive_solver.
  - f_equal. rewrite list_filter_filter. apply list_filter_iff. tauto.
Qed.

