(* ===== verification/Groups.v ===== *)
(** * The group readers

    [listGroups] and [getGroupDetail] of [lib/data.ts] compute the same counts
    by different queries; on a sound database they agree, and the detail view
    lists exactly the members and the resources granted to the group. *)
From S2P Require Import Prelude JsString Types Schema Database Seed Data.
From S2P Require Import DataInvariant GroupMembership.
From Stdlib Require Import ZArith Lia.

(** ** Grants

    Group [gid] may use resource [rid]: some rule on [rid] lists the group. *)
Definition granted (d : db) (gid rid : string) : Prop :=
  ∃ ar, ar ∈ access_rules d ∧ access_rules_resource_id ar = rid ∧
        mkAccessRuleGroups (access_rules_id ar) gid ∈ access_rule_groups d.

Lemma elem_of_rules_of_group d gid ar :
  ar ∈ rules_of_group d gid ↔
  ar ∈ access_rules d ∧ mkAccessRuleGroups (access_rules_id ar) gid ∈ access_rule_groups d.
Proof.
  unfold rules_of_group. rewrite list_elem_of_bind. split.
  - intros (ar' & Hin & Har). apply list_elem_of_bind in Hin as (g & Hin & Hg).
    apply list_elem_of_singleton in Hin as ->.
    apply list_elem_of_filter in Hg as [[H1 H2] Hg]. split; [done|].
    destruct g as [r g]; simpl in *. by subst.
  - intros [Har Hg]. exists ar. split; [|done]. apply list_elem_of_bind.
    exists (mkAccessRuleGroups (access_rules_id ar) gid).
    split; [by apply list_elem_of_singleton|]. by apply list_elem_of_filter.
Qed.

Lemma granted_iff d gid rid :
  granted d gid rid ↔ rid ∈ (access_rules_resource_id <$> rules_of_group d gid).
Proof.
  rewrite list_elem_of_fmap. unfold granted. setoid_rewrite elem_of_rules_of_group.
  naive_solver.
Qed.

#[export] Instance granted_dec d gid rid : Decision (granted d gid rid).
Proof. refine (cast_if (decide (rid ∈ (access_rules_resource_id <$> rules_of_group d gid))));
  by rewrite granted_iff. Defined.

(** ** Joins on a key *)

(** A join on a unique key finds the one row the foreign key refers to. *)
Lemma join_unique {R} (key : R → string) (t : list R) k :
  NoDup (key <$> t) → k ∈ (key <$> t) →
  ∃ r, filter (λ r, key r = k) t = [r] ∧ r ∈ t ∧ key r = k.
Proof.
  intros Hnd (r & -> & Hr)%list_elem_of_fmap. exists r. split; [|done].
  assert (∀ x, x ∈ filter (λ x, key x = key r) t → x = r) as Hall.
  { intros x [Hx Hin]%list_elem_of_filter. by apply (NoDup_fmap_inj key t). }
  assert (r ∈ filter (λ x, key x = key r) t) as Hr' by (by apply list_elem_of_filter).
  pose proof (NoDup_map_filter key (λ x, key x = key r) t Hnd) as Hnd'.
  destruct (filter _ t) as [|x [|y l]]; [by apply not_elem_of_nil in Hr'| |].
  - f_equal. apply Hall. by left.
  - exfalso. rewrite !fmap_cons, !NoDup_cons in Hnd'. destruct Hnd' as [Hx _].
    apply Hx. rewrite (Hall x), (Hall y) by (set_solver). by left.
Qed.

(** Joining every row of [l] by a foreign key into [t] keeps the keys, in order. *)
Lemma join_keys {R R'} (fkey : R → string) (key : R' → string) (l : list R) (t : list R') :
  NoDup (key <$> t) → (∀ x, x ∈ l → fkey x ∈ (key <$> t)) →
  key <$> (x ← l; filter (λ r, key r = fkey x) t) = fkey <$> l.
Proof.
  intros Hnd. induction l as [|x l IH]; intros Hfk; [done|].
  destruct (join_unique key t (fkey x)) as (r & Hr & _ & Hk); [done|apply Hfk; by left|].
  rewrite bind_cons, Hr, fmap_app, fmap_cons, IH; [simpl; by rewrite Hk|].
  intros y Hy. apply Hfk. by right.
Qed.

(** ** [GROUP BY r.id] *)

Lemma elem_of_group_by_id l k :
  k ∈ (resources_id <$> group_by_id l) ↔ k ∈ (resources_id <$> l).
Proof.
  induction l as [|r l IH]; [done|]. simpl. rewrite !elem_of_cons, <- IH.
  rewrite !list_elem_of_fmap. setoid_rewrite list_elem_of_filter. split.
  - naive_solver.
  - intros [->|(x & -> & Hx)]; [by left|].
    destruct (decide (resources_id x = resources_id r)) as [E|E]; [by left|].
    right. by exists x.
Qed.

Lemma group_by_id_NoDup l : NoDup (resources_id <$> group_by_id l).
Proof.
  induction l as [|r l IH]; simpl; [apply NoDup_nil_2|].
  rewrite NoDup_cons. split; [|by apply NoDup_map_filter].
  intros (x & E & [Hne _]%list_elem_of_filter)%list_elem_of_fmap. by destruct Hne.
Qed.

(** [COUNT(DISTINCT k)] of the keys is the number of groups of [GROUP BY k]. *)
Lemma group_by_id_length l :
  length (group_by_id l) = length (remove_dups (resources_id <$> l)).
Proof.
  rewrite <- (length_fmap resources_id). apply Permutation_length, NoDup_Permutation.
  - apply group_by_id_NoDup.
  - apply NoDup_remove_dups.
  - intros k. by rewrite elem_of_group_by_id, elem_of_remove_dups.
Qed.

(** ** The two views *)

Lemma users_of_group_keys d gid :
  db_ok d → users_id <$> users_of_group d gid = members d gid.
Proof.
  intros Hd. unfold users_of_group, members.
  apply (join_keys group_members_user_id users_id); [apply Hd|].
  intros m [_ Hm]%list_elem_of_filter. by apply (ok_members_user d Hd).
Qed.

Lemma resources_of_group_keys d gid rid :
  db_ok d →
  rid ∈ (resources_id <$> resources_of_group d gid) ↔ granted d gid rid.
Proof.
  intros Hd. unfold resources_of_group. rewrite elem_of_group_by_id, granted_iff.
  rewrite (join_keys access_rules_resource_id resources_id); [done|apply Hd|].
  intros ar [Har _]%elem_of_rules_of_group. by apply (ok_rules_resource d Hd).
Qed.

Lemma resource_count_agrees d gid :
  db_ok d → length (resources_of_group d gid) = resource_count_of_group d gid.
Proof.
  intros Hd. unfold resources_of_group, resource_count_of_group.
  rewrite group_by_id_length.
  rewrite (join_keys access_rules_resource_id resources_id); [done|apply Hd|].
  intros ar [Har _]%elem_of_rules_of_group. by apply (ok_rules_resource d Hd).
Qed.

(** C14: every group listed by [listGroups] is found by [getGroupDetail] with the
    same counts, although the two functions count by different queries; the
    detail lists exactly the members of the group and, once each, exactly the
    resources granted to it. *)
Theorem group_views_agree : ∀ (d : db) (g : Group),
  db_ok d → g ∈ listGroups d →
  ∃ ms rs, getGroupDetail d (Group_id g) = (Some g, ms, rs) ∧
    length ms = Group_memberCount g ∧ length rs = Group_resourceCount g ∧
    (GroupMember_userId <$> ms) ≡ₚ members d (Group_id g) ∧
    NoDup (Resource_id <$> rs) ∧
    (∀ rid, rid ∈ (Resource_id <$> rs) ↔ granted d (Group_id g) rid).
Proof.
  intros d g Hd (row & -> & Hrow)%list_elem_of_fmap. apply elem_of_order_by in Hrow.
  unfold getGroupDetail. cbn [Group_id mapGroup].
  rewrite (get_by_unique groups_id (groups d) row (ok_groups d Hd) Hrow).
  set (gid := groups_id row).
  exists (member_of_row <$> order_by users_name (users_of_group d gid)),
    (mapResource <$> order_by resources_name (resources_of_group d gid)).
  assert (length (users_of_group d gid) = length (member_rows d gid)) as Hm.
  { by rewrite <- (length_fmap users_id), (users_of_group_keys d gid Hd),
      <- (length_fmap group_members_user_id). }
  pose proof (resource_count_agrees d gid Hd) as Hr.
  cbn [Group_memberCount Group_resourceCount mapGroup].
  rewrite !length_fmap, !length_order_by, Hm, Hr. split_and!; [done|done|done|..].
  - rewrite <- list_fmap_compose, order_by_Permutation.
    by rewrite <- (users_of_group_keys d gid Hd).
  - rewrite <- list_fmap_compose, order_by_Permutation. apply group_by_id_NoDup.
  - intros rid. rewrite <- list_fmap_compose, order_by_Permutation.
    apply (resources_of_group_keys d gid rid Hd).
Qed.

(** Concrete instance: the group Engineering of the seeded database. *)
Lemma group_views_agree_witness :
  ∃ ms rs, getGroupDetail Seed.seeded_db "grp_1" =
    (Some (mkGroup "grp_1" "Engineering" GROUP "Group: Engineering"
       "Engineering team with database and API access" 2 2 "2026-01-15"
       (Some "2026-01-15")), ms, rs) ∧ length ms = 2 ∧ length rs = 2.
Proof.
  destruct (group_views_agree Seed.seeded_db
    (mkGroup "grp_1" "Engineering" GROUP "Group: Engineering"
       "Engineering team with database and API access" 2 2 "2026-01-15"
       (Some "2026-01-15")) Seed.seeded_db_ok) as (ms & rs & H1 & H2 & H3 & _).
  - assert (listGroups Seed.seeded_db !! 1 = Some (mkGroup "grp_1" "Engineering" GROUP
      "Group: Engineering" "Engineering team with database and API access" 2 2
      "2026-01-15" (Some "2026-01-15"))) as H by (vm_compute; reflexivity).
    apply list_elem_of_lookup. by exists 1.
  - exists ms, rs. exact (conj H1 (conj H2 H3)).
Defined.

