(* ===== verification/AccessRules.v ===== *)
(** * Access rules and grants

    The writers of [lib/data.ts] that decide who may use what:
    [addGroupResources], [createAccessRule] and [deleteAccessRule], against the
    relation [granted] (group, resource) of [Groups.v]. *)
From S2P Require Import Prelude JsString Types Schema Database Seed Data.
From S2P Require Import DataInvariant GroupMembership Groups.
From Stdlib Require Import ZArith Lia.

(** ** Adding one rule with its groups *)

Definition add_rule (ar : access_rules_row) (gs : list string) (d : db) : db :=
  set_access_rule_groups
    (λ _, access_rule_groups d ++ (mkAccessRuleGroups (access_rules_id ar) <$> gs))
    (set_access_rules (λ t, t ++ [ar]) d).

(** A new rule grants its resource to its groups and nothing else: its fresh
    identifier occurs in no older link. *)
Lemma granted_add_rule d ar gs g rid :
  db_ok d → access_rules_id ar ∉ (access_rules_id <$> access_rules d) →
  granted (add_rule ar gs d) g rid ↔
  granted d g rid ∨ (rid = access_rules_resource_id ar ∧ g ∈ gs).
Proof.
  intros Hd Hfresh. unfold granted, add_rule; simpl. split.
  - intros (a & [Ha|Ha]%elem_of_app & <- & [Hl|Hl]%elem_of_app).
    + left. by exists a.
    + apply list_elem_of_fmap in Hl as (g' & [= E ->] & Hg). destruct Hfresh.
      rewrite <- E. by apply list_elem_of_fmap_2.
    + apply list_elem_of_singleton in Ha as ->. destruct Hfresh.
      by apply (ok_rule_groups_rule d Hd) in Hl.
    + apply list_elem_of_singleton in Ha as ->. right. split; [done|].
      by apply list_elem_of_fmap in Hl as (g' & [= ->] & Hg).
  - intros [(a & Ha & <- & Hl)|[-> Hg]].
    + exists a. rewrite !elem_of_app. auto.
    + exists ar. rewrite !elem_of_app, list_elem_of_singleton.
      split_and!; [by right|done|right]. by apply list_elem_of_fmap_2.
Qed.

Lemma insert_access_rules_Ok ar d d' :
  insert_access_rules ar d = (d', Ok tt) ↔
  (access_rules_id ar ∉ (access_rules_id <$> access_rules d) ∧
   access_rules_resource_id ar ∈ (resources_id <$> resources d)) ∧
  d' = set_access_rules (λ t, t ++ [ar]) d.
Proof.
  unfold insert_access_rules. rewrite statement_Ok, !Forall_cons. simpl.
  rewrite fresh_true, refers_true. naive_solver.
Qed.

Lemma insert_access_rule_groups_Ok r d d' :
  insert_access_rule_groups r d = (d', Ok tt) ↔
  (r ∉ access_rule_groups d ∧
   access_rule_groups_rule_id r ∈ (access_rules_id <$> access_rules d) ∧
   access_rule_groups_group_id r ∈ (groups_id <$> groups d)) ∧
  d' = set_access_rule_groups (λ _, access_rule_groups d ++ [r]) d.
Proof.
  unfold insert_access_rule_groups. rewrite statement_Ok, !Forall_cons. simpl.
  rewrite fresh_true, !refers_true, list_fmap_id. naive_solver.
Qed.

Lemma insert_links_Ok rule gs d d' :
  forEach (λ g, insert_access_rule_groups (mkAccessRuleGroups rule g)) gs d = (d', Ok tt) ↔
  (NoDup gs ∧ ∀ g, g ∈ gs → mkAccessRuleGroups rule g ∉ access_rule_groups d ∧
     rule ∈ (access_rules_id <$> access_rules d) ∧ g ∈ (groups_id <$> groups d)) ∧
  d' = set_access_rule_groups (λ _, access_rule_groups d ++
         (mkAccessRuleGroups rule <$> gs)) d.
Proof.
  assert (Inj (=) (=) (mkAccessRuleGroups rule)) by (by intros u v [=]).
  apply (insert_all_Ok insert_access_rule_groups access_rule_groups
    (λ t, set_access_rule_groups (λ _, t))
    (λ r x, access_rule_groups_rule_id r ∈ (access_rules_id <$> access_rules x) ∧
            access_rule_groups_group_id r ∈ (groups_id <$> groups x))
    (mkAccessRuleGroups rule)).
  - intros r x x'. apply insert_access_rule_groups_Ok.
  - done.
  - done.
  - by intros [].
  - done.
Qed.

(** A rule and its links are stored when the identifier is fresh, the resource
    and the groups exist and no group is repeated. *)
Definition storable (d : db) (ar : access_rules_row) (gs : list string) : Prop :=
  access_rules_id ar ∉ (access_rules_id <$> access_rules d) ∧
  access_rules_resource_id ar ∈ (resources_id <$> resources d) ∧
  NoDup gs ∧ Forall (λ g, g ∈ (groups_id <$> groups d)) gs.

#[export] Instance storable_dec d ar gs : Decision (storable d ar gs).
Proof. unfold storable. apply _. Defined.

Lemma add_rule_Ok d d' ar gs :
  db_ok d →
  (insert_access_rules ar ;;
   forEach (λ g, insert_access_rule_groups (mkAccessRuleGroups (access_rules_id ar) g)) gs)
    d = (d', Ok tt) ↔ storable d ar gs ∧ d' = add_rule ar gs d.
Proof.
  intros Hd. rewrite bind_Ok. unfold storable. rewrite Forall_forall. split.
  - intros (d1 & [] & [[H1 H2] ->]%insert_access_rules_Ok & [[H3 H4] ->]%insert_links_Ok).
    split; [|done]. split_and!; auto. intros g Hg. by apply (H4 g).
  - intros [(H1 & H2 & H3 & H4) ->].
    exists (set_access_rules (λ t, t ++ [ar]) d), tt. rewrite insert_access_rules_Ok.
    split; [done|]. apply insert_links_Ok. simpl. split; [|done]. split; [done|].
    intros g Hg. split_and!; [|rewrite fmap_app; set_solver|by apply H4].
    intros Hin. apply H1. by apply (ok_rule_groups_rule d Hd) in Hin.
Qed.

(** ** [createAccessRule] and [deleteAccessRule] *)

Definition created_rule (e : env) (resourceId name : string) (enabled : bool)
  : access_rules_row :=
  mkAccessRules ("rule_" +:+ JsString.string_of_Z (date_now e)) name resourceId
    (if enabled then 1 else 0)%Z (today e) (today e).

Lemma createAccessRule_Ok e rid name gs enabled d d' r :
  db_ok d →
  createAccessRule e rid name gs enabled d = (d', Ok r) ↔
  storable d (created_rule e rid name enabled) gs ∧
  d' = add_rule (created_rule e rid name enabled) gs d ∧
  r = mapAccessRule (created_rule e rid name enabled) gs.
Proof.
  intros Hd. pose proof (λ x, add_rule_Ok d x (created_rule e rid name enabled) gs Hd) as Ha.
  unfold createAccessRule. rewrite bind_Ok. setoid_rewrite ret_Ok. split.
  - intros (d1 & [] & E & -> & ->). apply (proj1 (transaction_Ok _ _ _ _)) in E.
    apply Ha in E as [Hst ->]. split_and!; [apply Hst..|done|by destruct enabled].
  - intros (Hst & -> & ->). eexists _, tt. split_and!; [|done|by destruct enabled].
    apply (proj2 (transaction_Ok _ _ _ _)). by apply Ha.
Qed.

Lemma createAccessRule_Throw e rid name gs enabled d d' x :
  createAccessRule e rid name gs enabled d = (d', Throw x) → d' = d.
Proof.
  unfold createAccessRule. unfold mbind at 1, M_bind.
  destruct (transaction _ d) as [d1 [a|y]] eqn:E; [done|]. intros [= -> ->].
  by eapply transaction_Throw.
Qed.

(** C6: on a sound database [createAccessRule] either stores the rule with all
    its groups, which grants the resource to exactly these groups besides the
    grants there were, and returns the stored rule; or it throws (identifier in
    use, unknown resource or group, repeated group) and stores nothing. *)
Theorem createAccessRule_grants : ∀ (e : env) (rid name : string) (gs : list string)
  (enabled : bool) (d : db), db_ok d →
  match createAccessRule e rid name gs enabled d with
  | (d', Ok r) =>
      storable d (created_rule e rid name enabled) gs ∧
      d' = add_rule (created_rule e rid name enabled) gs d ∧
      r = mapAccessRule (created_rule e rid name enabled) gs ∧
      ∀ g k, granted d' g k ↔ granted d g k ∨ (k = rid ∧ g ∈ gs)
  | (d', Throw _) => ¬ storable d (created_rule e rid name enabled) gs ∧ d' = d
  end.
Proof.
  intros e rid name gs enabled d Hd.
  destruct (createAccessRule e rid name gs enabled d) as [d' [r|x]] eqn:E.
  - apply createAccessRule_Ok in E as (Hst & -> & ->); [|done].
    split; [done|]. split; [done|]. split; [done|]. intros g k.
    apply (granted_add_rule d (created_rule e rid name enabled)); [done|apply Hst].
  - split; [|by eapply createAccessRule_Throw]. intros Hst.
    rewrite (proj2 (createAccessRule_Ok e rid name gs enabled d _ _ Hd)
      (conj Hst (conj eq_refl eq_refl))) in E. discriminate E.
Qed.

(** The seeded rule 1 covers res_1; a new rule opens it to Marketing. *)
Lemma createAccessRule_grants_witness :
  let e := mkEnv 1767225600000 "2026-01-01T00:00:00.000Z" "u" in
  let d' := state_of (createAccessRule e "res_1" "Marketing DB" ["grp_2"] true)
              Seed.seeded_db in
  granted d' "grp_2" "res_1" ∧ ¬ granted Seed.seeded_db "grp_2" "res_1".
Proof.
  intros e d'.
  pose proof (createAccessRule_grants e "res_1" "Marketing DB" ["grp_2"] true
    Seed.seeded_db Seed.seeded_db_ok) as H.
  assert (result_of (createAccessRule e "res_1" "Marketing DB" ["grp_2"] true)
    Seed.seeded_db = Ok (mapAccessRule (created_rule e "res_1" "Marketing DB" true)
      ["grp_2"])) as Hr by (vm_compute; reflexivity).
  unfold d', state_of, result_of in *.
  destruct (createAccessRule _ _ _ _ _ _) as [d1 [r|x]]; [|discriminate Hr].
  destruct H as (_ & _ & _ & H). split.
  - apply H. right. split; [done|]. by apply list_elem_of_singleton.
  - apply (bool_decide_unpack (¬ granted Seed.seeded_db "grp_2" "res_1")).
    vm_compute. exact I.
Defined.

(** ** Deleting a rule *)

Lemma deleteAccessRule_run rid d :
  deleteAccessRule rid d =
  (set_access_rule_groups (filter (λ r, access_rule_groups_rule_id r ≠ rid))
     (set_access_rules (filter (λ r, access_rules_id r ≠ rid)) d), Ok tt).
Proof. done. Qed.

Lemma delete_add_rule d ar gs :
  db_ok d → access_rules_id ar ∉ (access_rules_id <$> access_rules d) →
  deleteAccessRule (access_rules_id ar) (add_rule ar gs d) = (d, Ok tt).
Proof.
  intros Hd Hfresh. rewrite deleteAccessRule_run. unfold add_rule.
  unfold set_access_rule_groups, set_access_rules; simpl. rewrite !filter_app.
  rewrite (filter_all _ (access_rules d)), (filter_all _ (access_rule_groups d)).
  - rewrite (filter_none _ [ar]), (filter_none _ (_ <$> gs)), !app_nil_r.
    + by destruct d.
    + intros x (g & -> & _)%list_elem_of_fmap. naive_solver.
    + intros x ->%list_elem_of_singleton. naive_solver.
  - intros l Hl E. destruct Hfresh. rewrite <- E. by apply (ok_rule_groups_rule d Hd).
  - intros a Ha E. destruct Hfresh. rewrite <- E. by apply list_elem_of_fmap_2.
Qed.

(** Deleting the rule just created gives the database back, links included. *)
Theorem create_delete_roundtrip : ∀ (e : env) (rid name : string) (gs : list string)
  (enabled : bool) (d d' : db) (r : AccessRule),
  db_ok d → createAccessRule e rid name gs enabled d = (d', Ok r) →
  deleteAccessRule (AccessRule_id r) d' = (d, Ok tt).
Proof.
  intros e rid name gs enabled d d' r Hd (Hst & -> & ->)%createAccessRule_Ok; [|done].
  apply (delete_add_rule d (created_rule e rid name enabled)); [done|apply Hst].
Qed.

Lemma create_delete_roundtrip_witness :
  let e := mkEnv 1767225600000 "2026-01-01T00:00:00.000Z" "u" in
  ∃ d' r, createAccessRule e "res_4" "Wiki" ["grp_1"; "grp_2"] false Seed.seeded_db
    = (d', Ok r) ∧ deleteAccessRule (AccessRule_id r) d' = (Seed.seeded_db, Ok tt).
Proof.
  intros e.
  pose (d' := state_of (createAccessRule e "res_4" "Wiki" ["grp_1"; "grp_2"] false)
    Seed.seeded_db).
  pose (r := mapAccessRule (created_rule e "res_4" "Wiki" false) ["grp_1"; "grp_2"]).
  assert (createAccessRule e "res_4" "Wiki" ["grp_1"; "grp_2"] false Seed.seeded_db
    = (d', Ok r)) as Hrun by (vm_compute; reflexivity).
  exists d', r. split; [exact Hrun|].
  exact (create_delete_roundtrip e "res_4" "Wiki" ["grp_1"; "grp_2"] false
    Seed.seeded_db d' r Seed.seeded_db_ok Hrun).
Defined.

(** ** Giving a group access to resources *)

Lemma rule_exists_iff d rid gid : rule_exists d rid gid = true ↔ granted d gid rid.
Proof.
  unfold rule_exists. rewrite existsb_exists, granted_iff, list_elem_of_fmap.
  setoid_rewrite list_elem_of_In. split.
  - intros (ar & Har & E%bool_decide_eq_true). by exists ar.
  - intros (ar & -> & Har). exists ar. by rewrite bool_decide_eq_true.
Qed.

(** The rule one iteration adds. *)
Definition group_rule (gid gname now : string) (t : Z) (rid : string) : access_rules_row :=
  mkAccessRules ("rule_" +:+ JsString.string_of_Z t +:+ "_" +:+ gid +:+ "_" +:+ rid)
    (gname +:+ " access") rid 1 now now.

Lemma addGroupResource_Ok gid gname now tick i rid d d' :
  db_ok d →
  addGroupResource gid gname now tick (i, rid) d = (d', Ok tt) ↔
  (granted d gid rid ∧ d' = d) ∨
  (¬ granted d gid rid ∧ storable d (group_rule gid gname now (tick i) rid) [gid] ∧
   d' = add_rule (group_rule gid gname now (tick i) rid) [gid] d).
Proof.
  intros Hd. pose proof (rule_exists_iff d rid gid) as Hex.
  pose proof (add_rule_Ok d d' (group_rule gid gname now (tick i) rid) [gid] Hd) as Hadd.
  rewrite bind_Ok in Hadd. setoid_rewrite forEach_one in Hadd. rewrite <- bind_Ok in Hadd.
  unfold addGroupResource, gets. unfold mbind at 1, M_bind.
  destruct (rule_exists d rid gid).
  - rewrite ret_Ok. split.
    + intros [-> _]. left. split; [by apply Hex|done].
    + intros [[_ ->]|[Hn _]]; [done|]. destruct Hn. by apply Hex.
  - assert (¬ granted d gid rid) as Hn by (by intros ?%Hex). split.
    + intros H. right. split; [done|]. by apply Hadd.
    + intros [[H _]|[_ H]]; [done|]. by apply Hadd.
Qed.

(** The loop over the resources: on success exactly the requested grants are
    added, and the older rules are kept in front. *)
Lemma addGroupResource_loop gid gname now tick (ps : list (nat * string)) d d' :
  db_ok d →
  forEach (addGroupResource gid gname now tick) ps d = (d', Ok tt) →
  db_ok d' ∧
  (∀ g k, granted d' g k ↔ granted d g k ∨ (g = gid ∧ k ∈ (snd <$> ps))) ∧
  access_rules d `prefix_of` access_rules d'.
Proof.
  revert d. induction ps as [|[i rid] ps IH]; intros d Hd; simpl.
  - intros [-> _]%ret_Ok. split_and!; [done| |done]. intros g k.
    split; [by left|]. intros [?|[_ []%not_elem_of_nil]]. done.
  - rewrite bind_Ok. intros (d1 & [] & H1 & H2).
    change (addGroupResource gid gname now tick (i, rid) d = (d1, Ok tt)) in H1.
    assert (db_ok d1) as Hd1.
    { pose proof (DataInvariant.addGroupResource_ok gid gname now tick (i, rid) d Hd) as Hp.
      unfold state_of in Hp. by rewrite H1 in Hp. }
    apply IH in H2 as (Hd' & Hg & Hpre); [|done].
    apply addGroupResource_Ok in H1; [|done]. split; [done|].
    assert ((∀ g k, granted d1 g k ↔ granted d g k ∨ (g = gid ∧ k = rid)) ∧
      access_rules d `prefix_of` access_rules d1) as [Hstep Hpre1].
    { destruct H1 as [[H1 ->]|(H1 & (Hf & Hst) & ->)].
      - split; [|done]. intros g k. split; [by left|]. by intros [?|[-> ->]].
      - split; [|by eexists].
        intros g k. rewrite (granted_add_rule d _ [gid] g k Hd Hf).
        rewrite list_elem_of_singleton. simpl. tauto. }
    split; [|by etrans]. intros g k. rewrite Hg, Hstep, elem_of_cons. tauto.
Qed.



