(* ===== verification/Networks.v ===== *)
(** * Remote networks, connectors and subjects

    The remaining readers and writers of [lib/data.ts]: what the network
    overview counts, what a heartbeat changes, how creation identifiers behave,
    and what the subject list contains. *)
From S2P Require Import Prelude JsString Types Schema Database Seed Data.
From S2P Require Import DataInvariant.
From Stdlib Require Import ZArith Lia.

(** ** Counting by a foreign key *)

Definition count_by {R} (key : R → string) (l : list R) (k : string) : nat :=
  length (filter (λ r, key r = k) l).

Lemma sum_indicator (k0 : string) ks :
  NoDup ks → k0 ∈ ks → sum_list ((λ k, if decide (k0 = k) then 1 else 0) <$> ks) = 1.
Proof.
  induction 1 as [|k ks Hk _ IH]; [by intros ?%not_elem_of_nil|].
  intros [->|Hin]%elem_of_cons; simpl.
  - rewrite decide_True by done. f_equal.
    assert (∀ x, x ∈ ks → (if decide (k = x) then 1 else 0) = 0) as Hz.
    { intros x Hx. rewrite decide_False; [done|]. by intros ->. }
    clear IH Hk. induction ks as [|x ks IH]; [done|]. simpl.
    rewrite Hz by (by left). simpl. apply IH. intros y Hy. apply Hz. by right.
  - rewrite decide_False by (by intros ->). simpl. by apply IH.
Qed.

Lemma count_by_cons {R} (key : R → string) r l k :
  count_by key (r :: l) k = (if decide (key r = k) then 1 else 0) + count_by key l k.
Proof. unfold count_by. rewrite filter_cons. by case_decide. Qed.

(** Rows grouped by a valid foreign key are each counted once. *)
Lemma count_by_partition {R} (key : R → string) (l : list R) ks :
  NoDup ks → (∀ r, r ∈ l → key r ∈ ks) → sum_list (count_by key l <$> ks) = length l.
Proof.
  intros Hks. induction l as [|r l IH]; intros Hl.
  - unfold count_by. simpl. clear. induction ks; [done|]. by simpl.
  - assert (∀ ks', sum_list (count_by key (r :: l) <$> ks') =
      sum_list ((λ k, if decide (key r = k) then 1 else 0) <$> ks') +
      sum_list (count_by key l <$> ks')) as ->.
    { induction ks' as [|k ks' IH']; [done|]. rewrite !fmap_cons. cbn [sum_list].
      rewrite IH', count_by_cons. unfold id. lia. }
    rewrite sum_indicator, IH; [done| |done|].
    + intros x Hx. apply Hl. by right.
    + apply Hl. by left.
Qed.

(** ** Networks *)

Lemma sum_list_Permutation (l k : list nat) : l ≡ₚ k → sum_list l = sum_list k.
Proof. induction 1; simpl; lia. Qed.

Lemma length_filter_le {A} (P : A → Prop) `{∀ x, Decision (P x)} (l : list A) :
  length (filter P l) ≤ length l.
Proof. induction l; simpl; [done|]. rewrite filter_cons. case_decide; simpl; lia. Qed.

(** On a sound database the network overview counts every connector in
    exactly one network, never shows more online connectors than connectors,
    and agrees with the detail page of each network. *)
Theorem network_counts : ∀ (d : db), db_ok d →
  sum_list (RemoteNetwork_connectorCount <$> listRemoteNetworks d) = length (connectors d) ∧
  ∀ n, n ∈ listRemoteNetworks d →
    RemoteNetwork_onlineConnectorCount n ≤ RemoteNetwork_connectorCount n ∧
    ∃ cs rs, getRemoteNetworkDetail d (RemoteNetwork_id n) = (Some n, cs, rs) ∧
      length cs = RemoteNetwork_connectorCount n ∧
      length rs = RemoteNetwork_resourceCount n.
Proof.
  intros d Hd. split.
  - rewrite <- (count_by_partition connectors_remote_network_id (connectors d)
      (remote_networks_id <$> remote_networks d)); [|apply Hd..].
    unfold listRemoteNetworks. rewrite <- !list_fmap_compose.
    apply sum_list_Permutation. by rewrite order_by_Permutation.
  - intros n (row & -> & Hrow)%list_elem_of_fmap. apply elem_of_order_by in Hrow.
    split; [apply length_filter_le|].
    unfold getRemoteNetworkDetail. cbn [RemoteNetwork_id network_of_row mapRemoteNetwork].
    rewrite (get_by_unique remote_networks_id (remote_networks d) row
      (ok_networks d Hd) Hrow).
    eexists _, _. split; [done|]. by rewrite !length_fmap, !length_order_by.
Qed.

Lemma network_counts_witness :
  sum_list (RemoteNetwork_connectorCount <$> listRemoteNetworks Seed.seeded_db) = 5 ∧
  (RemoteNetwork_connectorCount <$> listRemoteNetworks Seed.seeded_db) = [2; 1; 2].
Proof.
  split; [|vm_compute; reflexivity].
  rewrite (proj1 (network_counts Seed.seeded_db Seed.seeded_db_ok)).
  vm_compute. reflexivity.
Defined.

(** ** Heartbeats *)

Definition status_of (d : db) (cid : string) : option string :=
  Connector_status <$> (getConnectorDetail d cid).1.1.

Lemma status_of_get d cid :
  status_of d cid = connectors_status <$> get_by connectors_id cid (connectors d).
Proof. unfold status_of, getConnectorDetail. by destruct (get_by _ _ _). Qed.

(** A heartbeat never throws; it reports an update exactly when the
    connector runs an older policy than the compiled one (none compiled counts
    as 0); it stores the version and the time of the connector it names and
    changes no other connector and no other table; in particular it marks no
    connector online. *)
Theorem heartbeat_effect : ∀ (e : env) (cid : string) (v : Z) (d : db),
  let current := default 0%Z (connector_policy_versions_version <$>
    get_by connector_policy_versions_connector_id cid (connector_policy_versions d)) in
  let d' := state_of (updateConnectorHeartbeat e cid v) d in
  result_of (updateConnectorHeartbeat e cid v) d =
    Ok (mkHeartbeat (v <? current)%Z current) ∧
  d' = set_connectors (λ _, connectors d') d ∧
  (∀ c, status_of d' c = status_of d c) ∧
  (∀ c, c ≠ cid →
     get_by connectors_id c (connectors d') = get_by connectors_id c (connectors d)) ∧
  (∀ r, get_by connectors_id cid (connectors d) = Some r →
     connectors_last_policy_version <$> get_by connectors_id cid (connectors d') = Some v ∧
     connectors_last_seen_at <$> get_by connectors_id cid (connectors d') =
       Some (Some (iso_now e))).
Proof.
  intros e cid v d current d'. split_and!; [done|done| | |].
  - intros c. rewrite !status_of_get. unfold d', state_of. simpl.
    rewrite (get_by_fmap connectors_id) by (intros r; by case_decide).
    destruct (get_by connectors_id c (connectors d)); simpl; [|done]. by case_decide.
  - intros c Hc. unfold d', state_of. simpl.
    rewrite (get_by_fmap connectors_id) by (intros r; by case_decide).
    destruct (get_by connectors_id c (connectors d)) as [r|] eqn:E; simpl; [|done].
    apply get_by_Some in E as [_ <-]. by rewrite decide_False.
  - intros r Hr. unfold d', state_of. simpl.
    rewrite (get_by_fmap connectors_id) by (intros x; by case_decide).
    rewrite Hr. simpl. apply get_by_Some in Hr as [_ <-]. by rewrite decide_True.
Qed.

(** ** A new connector *)

(** A connector added to an existing network is found offline, not
    installed and never heard of, under the host name made of its name; the
    first simulated heartbeat brings it online and installed, and only then does
    the network count it as online. *)
Theorem connector_life_cycle : ∀ (e e' : env) (name nid : string) (d d1 : db),
  db_ok d → addConnector e name nid d = (d1, Ok tt) →
  let cid := "con_" +:+ JsString.string_of_Z (date_now e) in
  let d2 := state_of (simulateConnectorHeartbeat e' cid) d1 in
  (∃ net, getConnectorDetail d1 cid =
     (Some (mkConnector cid name "offline" "1.0.0" (hostname_of name) nid (iso_now e)
        false 0 (Some (iso_now e)) None None), Some net, [])) ∧
  status_of d2 cid = Some "online" ∧
  connector_count (network_counts_of d1 nid) = S (connector_count (network_counts_of d nid)) ∧
  online_connector_count (network_counts_of d1 nid) =
    online_connector_count (network_counts_of d nid) ∧
  online_connector_count (network_counts_of d2 nid) =
    S (online_connector_count (network_counts_of d nid)).
Proof.
  intros e e' name nid d d1 Hd Hrun cid d2.
  pose (r0 := mkConnectors cid name "offline" "1.0.0" (hostname_of name) nid (iso_now e)
    0 (Some (iso_now e)) 0).
  apply (proj1 (statement_Ok _ _ _ _)) in Hrun as [Hcs ->].
  rewrite !Forall_cons in Hcs. destruct Hcs as (Hf & Hr & _).
  apply fresh_true in Hf. apply refers_true in Hr. cbn in Hf, Hr.
  change (set_connectors _ d) with (set_connectors (λ t, t ++ [r0]) d) in *.
  set (d1 := set_connectors (λ t, t ++ [r0]) d) in *.
  assert (get_by connectors_id cid (connectors d1) = Some r0) as Hget
    by (exact (get_by_snoc connectors_id (connectors d) r0 Hf)).
  assert (connectors d2 = connectors d ++
    [mkConnectors cid name "online" "1.0.0" (hostname_of name) nid (iso_now e') 0
       (Some (iso_now e')) 1]) as Hd2.
  { unfold d2, state_of. simpl. rewrite fmap_app, fmap_update_fresh by done.
    simpl. by rewrite decide_True. }
  split; [|split_and!].
  - unfold getConnectorDetail. rewrite Hget.
    destruct (get_by remote_networks_id nid (remote_networks d)) as [n|] eqn:En;
      [|by apply get_by_None in En].
    exists (network_of_row d1 n). cbn [connectors_remote_network_id r0].
    change (remote_networks d1) with (remote_networks d). rewrite En. simpl.
    f_equal. unfold logs_of. rewrite filter_none; [done|].
    intros l Hl E. apply Hf. pose proof (ok_logs_connector d Hd l Hl) as Hin.
    rewrite E in Hin. exact Hin.
  - rewrite status_of_get, Hd2.
    by rewrite (get_by_snoc connectors_id (connectors d) (mkConnectors cid _ _ _ _ _ _ _ _ _)).
  - unfold network_counts_of. simpl. rewrite filter_app, length_app.
    rewrite (filter_cons_True _ r0) by done. simpl. lia.
  - unfold network_counts_of. simpl. rewrite filter_app, filter_app, length_app.
    rewrite (filter_cons_True _ r0) by done. simpl. lia.
  - unfold network_counts_of. rewrite Hd2. simpl.
    rewrite filter_app, filter_app, length_app.
    rewrite (filter_cons_True _ (mkConnectors _ _ _ _ _ _ _ _ _ _)) by done. simpl. lia.
Qed.

Lemma connector_life_cycle_witness :
  let e := mkEnv 1767225600000 "2026-01-01T00:00:00.000Z" "u" in
  let d1 := state_of (addConnector e "Edge Box 7" "net_2") Seed.seeded_db in
  status_of (state_of (simulateConnectorHeartbeat e "con_1767225600000") d1)
    "con_1767225600000" = Some "online" ∧
  hostname_of "Edge Box 7" = "edge-box-7.local".
Proof.
  intros e d1. split; [|vm_compute; reflexivity].
  assert (addConnector e "Edge Box 7" "net_2" Seed.seeded_db = (d1, Ok tt)) as Hrun
    by (vm_compute; reflexivity).
  exact (proj1 (proj2 (connector_life_cycle e e "Edge Box 7" "net_2" Seed.seeded_db d1
    Seed.seeded_db_ok Hrun))).
Defined.

(** ** Identifiers from the clock *)

(** Identifiers are the creation time in milliseconds, so of two creations
    of the same kind within one millisecond the second one always throws and
    stores nothing. *)
Theorem same_millisecond_collides : ∀ (e e' : env) (n x n' x' : string) (d d1 : db),
  date_now e' = date_now e →
  (addGroup e n x d = (d1, Ok tt) → addGroup e' n' x' d1 = (d1, Throw pk_error)) ∧
  (addRemoteNetwork e n x d = (d1, Ok tt) →
     addRemoteNetwork e' n' x' d1 = (d1, Throw pk_error)) ∧
  (addConnector e n x d = (d1, Ok tt) →
     addConnector e' n' x' d1 = (d1, Throw pk_error)).
Proof.
  intros e e' n x n' x' d d1 Ht.
  unfold addGroup, addRemoteNetwork, addConnector, insert_groups,
    insert_remote_networks, insert_connectors. rewrite Ht.
  split_and!; intros [_ ->]%statement_Ok; simpl; unfold fresh; simpl;
    rewrite bool_decide_eq_false_2; try done;
    rewrite fmap_app; intros Hn; apply Hn, elem_of_app; right; by left.
Qed.

Lemma same_millisecond_collides_witness :
  let e := mkEnv 1767225600000 "2026-01-01T00:00:00.000Z" "u" in
  let d1 := state_of (addGroup e "Sales" "") Seed.seeded_db in
  addGroup e "Legal" "" d1 = (d1, Throw pk_error).
Proof.
  intros e d1.
  assert (addGroup e "Sales" "" Seed.seeded_db = (d1, Ok tt)) as Hrun
    by (vm_compute; reflexivity).
  exact (proj1 (same_millisecond_collides e e "Sales" "" "Legal" "" Seed.seeded_db d1
    eq_refl) Hrun).
Defined.

(** ** Subjects *)

Lemma filter_subjects_all {R} (f : R → Subject) t (l : list R) :
  (∀ r, Subject_type (f r) = t) → filter (λ s, Subject_type s = t) (f <$> l) = f <$> l.
Proof. intros Hf. apply filter_all. by intros s (r & -> & _)%list_elem_of_fmap. Qed.

Lemma filter_subjects_none {R} (f : R → Subject) t (l : list R) :
  (∀ r, Subject_type (f r) ≠ t) → filter (λ s, Subject_type s = t) (f <$> l) = [].
Proof. intros Hf. apply filter_none. by intros s (r & -> & _)%list_elem_of_fmap. Qed.

(** [listSubjects()] lists every user, group and service account once;
    [listSubjects(t)] is its restriction to type [t], in the same order. *)
Theorem listSubjects_filter : ∀ (d : db) (t : SubjectType),
  listSubjects d (Some t) = filter (λ s, Subject_type s = t) (listSubjects d None) ∧
  (Subject_id <$> listSubjects d None) ≡ₚ
    (users_id <$> users d) ++ (groups_id <$> groups d) ++
    (service_accounts_id <$> service_accounts d) ∧
  StronglySorted (key_le Subject_name) (listSubjects d (Some t)).
Proof.
  intros d t. split_and!.
  - unfold listSubjects. simpl. rewrite !filter_app.
    destruct t; simpl;
      rewrite ?(filter_subjects_all subject_of_user), ?(filter_subjects_all subject_of_group),
        ?(filter_subjects_all subject_of_service), ?(filter_subjects_none subject_of_user),
        ?(filter_subjects_none subject_of_group),
        ?(filter_subjects_none subject_of_service), ?app_nil_r by done; done.
  - unfold listSubjects. simpl. rewrite !fmap_app, <- !list_fmap_compose.
    by rewrite !order_by_Permutation.
  - unfold listSubjects.
    destruct t; simpl; rewrite ?app_nil_r;
      (eapply (StronglySorted_fmap _ _); [|apply order_by_sorted]); by intros x y.
Qed.

