(* ===== verification/Base64.v ===== *)
(** * Base64

    [atob] of the browser (the forgiving decoder) and, for the round trip of
    tokens, the unpadded base64url encoder their issuers use.  Bytes and characters
    are both Latin-1 code units. *)
From S2P Require Import Prelude JsString.
From Stdlib Require Import Ascii NArith ZArith Lia.

(** The value of a character of the alphabet, and its inverse. *)
Definition sextet (c : ascii) : option N :=
  let n := code c in
  if ((65 <=? n) && (n <=? 90))%N then Some (n - 65)%N
  else if ((97 <=? n) && (n <=? 122))%N then Some (n - 71)%N
  else if ((48 <=? n) && (n <=? 57))%N then Some (n + 4)%N
  else if (n =? 43)%N then Some 62%N
  else if (n =? 47)%N then Some 63%N
  else None.

Definition sextet_char (n : N) : ascii :=
  ascii_of_N (if (n <? 26)%N then n + 65
              else if (n <? 52)%N then n + 71
              else if (n <? 62)%N then n - 4
              else if (n =? 62)%N then 43 else 47)%N.

(** ASCII white space, which [atob] removes. *)
Definition ascii_space (c : ascii) : bool :=
  let n := code c in ((n =? 9) || (n =? 10) || (n =? 12) || (n =? 13) || (n =? 32))%N.

(** At most two '=' at the end of a string whose length is a multiple of 4. *)
Definition strip_padding (l : list ascii) : list ascii :=
  if (length l mod 4 =? 0)%nat then
    match reverse l with
    | "="%char :: "="%char :: r => reverse r
    | "="%char :: r => reverse r
    | _ => l
    end
  else l.

(** Four sextets are three bytes; two and three leave bits over, which are
    dropped; one alone is an error. *)
Fixpoint unsextets (l : list N) : option (list N) :=
  match l with
  | a :: b :: c :: d :: l' =>
      app [a * 4 + b / 16; (b mod 16) * 16 + c / 4; (c mod 4) * 64 + d]%N <$> unsextets l'
  | [a; b; c] => Some [a * 4 + b / 16; (b mod 16) * 16 + c / 4]%N
  | [a; b] => Some [a * 4 + b / 16]%N
  | [_] => None
  | [] => Some []
  end.

Definition atob (s : string) : outcome string :=
  let l := strip_padding (filter (λ c, ascii_space c = false) (to_list s)) in
  match mapM sextet l with
  | Some ns =>
      match unsextets ns with
      | Some bytes => Ok (of_list (ascii_of_N <$> bytes))
      | None => Throw SyntaxError
      end
  | None => Throw SyntaxError
  end.

(** ** The encoder of token issuers *)

Fixpoint sextets (l : list N) : list N :=
  match l with
  | x :: y :: z :: l' =>
      [x / 4; (x mod 4) * 16 + y / 16; (y mod 16) * 4 + z / 64; z mod 64]%N ++ sextets l'
  | [x; y] => [x / 4; (x mod 4) * 16 + y / 16; (y mod 16) * 4]%N
  | [x] => [x / 4; (x mod 4) * 16]%N
  | [] => []
  end.

Definition url_char (c : ascii) : ascii :=
  if decide (c = "+"%char) then "-"%char else if decide (c = "/"%char) then "_"%char else c.

Definition base64url (s : string) : string :=
  of_list ((λ n, url_char (sextet_char n)) <$> sextets (code <$> to_list s)).

(** ** The decoder inverts the encoder *)

Lemma length_ind3 {A} (P : list A → Prop) :
  P [] → (∀ x, P [x]) → (∀ x y, P [x; y]) → (∀ x y z l, P l → P (x :: y :: z :: l)) →
  ∀ l, P l.
Proof.
  intros H0 H1 H2 H3. fix IH 1. intros [|x [|y [|z l]]].
  - exact H0.
  - exact (H1 x).
  - exact (H2 x y).
  - exact (H3 x y z l (IH l)).
Qed.

Lemma code_lt c : (code c < 256)%N.
Proof. apply N_ascii_bounded. Qed.

Lemma div_mul_add (a b r : N) : (r < b)%N → ((a * b + r) / b = a)%N.
Proof. intros H. symmetry. apply (N.div_unique _ _ _ r); lia. Qed.

Lemma mod_mul_add (a b r : N) : (r < b)%N → ((a * b + r) mod b = r)%N.
Proof. intros H. symmetry. apply (N.mod_unique _ _ a r); lia. Qed.

Lemma byte1 x y : (y < 256)%N → (x / 4 * 4 + (x mod 4 * 16 + y / 16) / 16 = x)%N.
Proof.
  intros Hy. rewrite div_mul_add by (apply N.Div0.div_lt_upper_bound; lia).
  pose proof (N.div_mod x 4 ltac:(done)). lia.
Qed.

Lemma byte2 x y z : (y < 256)%N → (z < 256)%N →
  ((x mod 4 * 16 + y / 16) mod 16 * 16 + (y mod 16 * 4 + z / 64) / 4 = y)%N.
Proof.
  intros Hy Hz. rewrite mod_mul_add by (apply N.Div0.div_lt_upper_bound; lia).
  rewrite div_mul_add by (apply N.Div0.div_lt_upper_bound; lia).
  pose proof (N.div_mod y 16 ltac:(done)). lia.
Qed.

Lemma byte3 y z : (z < 256)%N → ((y mod 16 * 4 + z / 64) mod 4 * 64 + z mod 64 = z)%N.
Proof.
  intros Hz. rewrite mod_mul_add by (apply N.Div0.div_lt_upper_bound; lia).
  pose proof (N.div_mod z 64 ltac:(done)). lia.
Qed.

Lemma unsextets_sextets l : Forall (λ x, x < 256)%N l → unsextets (sextets l) = Some l.
Proof.
  induction l as [|x|x y|x y z l IH] using length_ind3; intros Hl; [done| | |].
  - cbn [sextets unsextets]. pose proof (byte1 x 0 ltac:(done)) as H1.
    change (0 / 16)%N with 0%N in H1. rewrite N.add_0_r in H1. by rewrite H1.
  - cbn [sextets unsextets]. inversion_clear Hl as [|? ? Hx Hl']. inversion_clear Hl' as [|? ? Hy _].
    rewrite byte1 by done. pose proof (byte2 x y 0 Hy ltac:(done)) as H2.
    change (0 / 64)%N with 0%N in H2. rewrite N.add_0_r in H2. by rewrite H2.
  - inversion_clear Hl as [|? ? Hx Hl']. inversion_clear Hl' as [|? ? Hy Hl''].
    inversion_clear Hl'' as [|? ? Hz Hl3].
    cbn [sextets app unsextets]. rewrite IH by done. cbn [fmap option_fmap option_map app].
    by rewrite byte1, byte2, byte3.
Qed.

Lemma sextets_bound l : Forall (λ x, x < 256)%N l → Forall (λ n, n < 64)%N (sextets l).
Proof.
  assert (∀ a, a mod 4 < 4)%N by (intros; by apply N.mod_lt).
  assert (∀ a, a mod 16 < 16)%N by (intros; by apply N.mod_lt).
  assert (∀ a, a mod 64 < 64)%N by (intros; by apply N.mod_lt).
  assert (∀ a, a < 256 → a / 4 < 64)%N by (intros; apply N.Div0.div_lt_upper_bound; lia).
  assert (∀ a, a < 256 → a / 16 < 16)%N by (intros; apply N.Div0.div_lt_upper_bound; lia).
  assert (∀ a, a < 256 → a / 64 < 4)%N by (intros; apply N.Div0.div_lt_upper_bound; lia).
  assert (∀ a b, a < 4 → b < 16 → a * 16 + b < 64)%N by lia.
  assert (∀ a b, a < 16 → b < 4 → a * 4 + b < 64)%N by lia.
  induction l as [|x|x y|x y z l IH] using length_ind3; intros Hl; cbn [sextets app];
    rewrite ?Forall_cons in *; [done| | |]; destruct_and?.
  - split_and!; auto. specialize (H x). lia.
  - split_and!; auto. specialize (H0 y). lia.
  - split_and!; auto.
Qed.

(** Facts about the 64 characters of the alphabet, by inspection. *)
Lemma sextet_cases (P : N → bool) : forallb P (N.of_nat <$> seq 0 64) = true →
  ∀ n, (n < 64)%N → P n = true.
Proof.
  intros H n Hn. rewrite forallb_forall in H. apply H. apply list_elem_of_In.
  apply list_elem_of_fmap. exists (N.to_nat n). split; [lia|]. apply elem_of_seq. lia.
Qed.

(** [payload.replace(/-/g, '+').replace(/_/g, '/')] on a character. *)
Definition from_url (c : ascii) : ascii :=
  let c1 := if decide (c = "-"%char) then "+"%char else c in
  if decide (c1 = "_"%char) then "/"%char else c1.

Lemma sextet_char_facts n : (n < 64)%N →
  from_url (url_char (sextet_char n)) = sextet_char n ∧ sextet (sextet_char n) = Some n ∧
  ascii_space (sextet_char n) = false ∧ sextet_char n ≠ "="%char ∧
  url_char (sextet_char n) ≠ "."%char.
Proof.
  intros Hn. apply (proj1 (bool_decide_eq_true _)).
  revert n Hn. apply sextet_cases. vm_compute. reflexivity.
Qed.

Lemma strip_padding_none l : (∀ c, c ∈ l → c ≠ "="%char) → strip_padding l = l.
Proof.
  intros Hl. unfold strip_padding. destruct (_ =? _)%nat; [|done].
  destruct (reverse l) as [|c r] eqn:E; [done|].
  assert (c ≠ "="%char) as Hc.
  { apply Hl, elem_of_reverse. rewrite E. by left. }
  destruct c as [[] [] [] [] [] [] [] []]; try done; by destruct Hc.
Qed.

Lemma base64url_sextets s : Forall (λ n, n < 64)%N (sextets (code <$> to_list s)).
Proof. apply sextets_bound, Forall_fmap, Forall_forall. intros c _. apply code_lt. Qed.

(** The alphabet avoids the separator of tokens. *)
Lemma base64url_no_dot s : "."%char ∉ to_list (base64url s).
Proof.
  unfold base64url. rewrite to_of_list. intros (n & E & Hn)%list_elem_of_fmap.
  pose proof (base64url_sextets s) as H. rewrite Forall_forall in H.
  destruct (sextet_char_facts n (H n Hn)) as (_ & _ & _ & _ & Hd). by rewrite <- E in Hd.
Qed.

Lemma atob_base64url s :
  atob (replace_all "_" "/" (replace_all "-" "+" (base64url s))) = Ok s.
Proof.
  pose proof (base64url_sextets s) as Hb. rewrite Forall_forall in Hb.
  set (ns := sextets (code <$> to_list s)) in *.
  unfold replace_all, map_chars, base64url. rewrite !to_of_list. fold ns.
  rewrite <- !list_fmap_compose.
  assert (∀ f : N → ascii, (∀ n, n ∈ ns → f n = sextet_char n) → f <$> ns = sextet_char <$> ns)
    as Hf.
  { intros f Hf. apply list_fmap_ext. intros i n Hn%list_elem_of_lookup_2. by apply Hf. }
  rewrite Hf by (intros n Hn; apply (sextet_char_facts n (Hb n Hn))). clear Hf.
  unfold atob. rewrite to_of_list.
  rewrite filter_all by (intros c (n & -> & Hn)%list_elem_of_fmap; by apply sextet_char_facts, Hb).
  rewrite strip_padding_none by
    (intros c (n & -> & Hn)%list_elem_of_fmap; by apply sextet_char_facts, Hb).
  assert (mapM sextet (sextet_char <$> ns) = Some ns) as ->.
  { apply mapM_Some, Forall2_fmap_l, Forall_Forall2_diag, Forall_forall.
    intros n Hn. by apply sextet_char_facts, Hb. }
  unfold ns. rewrite unsextets_sextets.
  - f_equal. rewrite <- list_fmap_compose.
    rewrite <- (of_to_list s) at 2. f_equal.
    rewrite <- (list_fmap_id (to_list s)) at 2. apply list_fmap_ext. intros i c _.
    apply ascii_N_embedding.
  - apply Forall_fmap, Forall_forall. intros c _. apply code_lt.
Qed.
