(* ===== verification/Json.v ===== *)
(** * JavaScript values and JSON

    The dynamically typed part of the program: values, truthiness, property
    access, [Number(v)], and [JSON.parse] / [JSON.stringify].  Numbers are exact
    decimals [m * 10^-e] in lowest terms, with NaN and the infinities: the
    program compares, prints and copies numbers but does no arithmetic on them,
    and on decimals of at most 15 digits this is what a double does. *)
From S2P Require Import Prelude JsString.
From Stdlib Require Import Ascii ZArith NArith Lia.

(** ** Values *)

Inductive jsnum := NaN | Infinity (negative : bool) | Dec (m : Z) (e : nat).

Inductive jsv :=
  | JUndef
  | JNull
  | JBool (b : bool)
  | JNum (n : jsnum)
  | JStr (s : string)
  | JArr (l : list jsv)
  | JObj (fields : list (string * jsv)).

Definition JInt (z : Z) : jsv := JNum (Dec z 0).

#[global] Instance jsnum_eq_dec : EqDecision jsnum.
Proof. solve_decision. Defined.

(** Induction with the hypothesis for the elements of arrays and objects. *)
Section JsvInd.
  Variable P : jsv → Prop.
  Hypothesis HUndef : P JUndef.
  Hypothesis HNull : P JNull.
  Hypothesis HBool : ∀ b, P (JBool b).
  Hypothesis HNum : ∀ n, P (JNum n).
  Hypothesis HStr : ∀ s, P (JStr s).
  Hypothesis HArr : ∀ l, Forall P l → P (JArr l).
  Hypothesis HObj : ∀ l, Forall (λ f, P f.2) l → P (JObj l).

Fixpoint jsv_deep_ind (v : jsv) : P v :=
  match v with
  | JUndef => HUndef
  | JNull => HNull
  | JBool b => HBool b
  | JNum n => HNum n
  | JStr s => HStr s
  | JArr l => HArr l ((fix go l : Forall P l :=
      match l with [] => Forall_nil_2 _ | x :: l' => Forall_cons_2 _ _ _ (jsv_deep_ind x) (go l') end) l)
  | JObj l => HObj l ((fix go l : Forall (λ f, P f.2) l :=
      match l with
      | [] => Forall_nil_2 _
      | f :: l' => Forall_cons_2 _ _ _ (jsv_deep_ind f.2) (go l')
      end) l)
  end.
End JsvInd.

(** [Boolean(v)] *)
Definition truthy (v : jsv) : bool :=
  match v with
  | JUndef | JNull => false
  | JBool b => b
  | JNum NaN => false
  | JNum (Infinity _) => true
  | JNum (Dec m _) => negb (Z.eqb m 0)
  | JStr s => negb (bool_decide (s = ""))
  | JArr _ | JObj _ => true
  end.

Definition is_nullish (v : jsv) : bool :=
  match v with JUndef | JNull => true | _ => false end.

(** [a ?? b] and [a || b] *)
Definition nullish_or (a b : jsv) : jsv := if is_nullish a then b else a.
Definition falsy_or (a b : jsv) : jsv := if truthy a then a else b.

Fixpoint assoc (k : string) (l : list (string * jsv)) : option jsv :=
  match l with
  | [] => None
  | (k', v) :: l' => if bool_decide (k' = k) then Some v else assoc k l'
  end.

(** [o[k] = v] keeps the position of an existing key. *)
Fixpoint assoc_set (k : string) (v : jsv) (l : list (string * jsv))
  : list (string * jsv) :=
  match l with
  | [] => [(k, v)]
  | (k', v') :: l' =>
      if bool_decide (k' = k) then (k, v) :: l' else (k', v') :: assoc_set k v l'
  end.

(** [v?.k] for the keys the program uses, none of which is a property of the
    built-in prototypes. *)
Definition opt_field (v : jsv) (k : string) : jsv :=
  match v with JObj l => default JUndef (assoc k l) | _ => JUndef end.

(** [v.k] throws on undefined and null. *)
Definition field (v : jsv) (k : string) : outcome jsv :=
  if is_nullish v then Throw TypeError else Ok (opt_field v k).

(** [v === 's'] *)
Definition is_str (v : jsv) (s : string) : bool :=
  match v with JStr t => bool_decide (t = s) | _ => false end.

Definition is_array (v : jsv) : bool := match v with JArr _ => true | _ => false end.

(** ** Numbers *)

Definition pow10 (e : nat) : Z := (10 ^ Z.of_nat e)%Z.

(** [m * 10^-e] in lowest terms. *)
Fixpoint normalize (m : Z) (e : nat) : jsnum :=
  match e with
  | O => Dec m 0
  | S e' => if (m mod 10 =? 0)%Z then normalize (m / 10) e' else Dec m e
  end.

Definition isFinite (n : jsnum) : bool := match n with Dec _ _ => true | _ => false end.

(** [n >= 0] *)
Definition ge0 (n : jsnum) : bool :=
  match n with NaN => false | Infinity b => negb b | Dec m _ => (0 <=? m)%Z end.

(** Digits. *)
Definition digit_val (c : ascii) : option Z :=
  let n := Z.of_N (JsString.code c) in
  if (48 <=? n)%Z && (n <=? 57)%Z then Some (n - 48)%Z else None.

(** The longest run of digits at the front, its value on top of [acc] and the
    number of digits read. *)
Fixpoint read_digits (acc : Z) (count : nat) (l : list ascii) : Z * nat * list ascii :=
  match l with
  | c :: l' =>
      match digit_val c with
      | Some d => read_digits (10 * acc + d) (S count) l'
      | None => (acc, count, l)
      end
  | [] => (acc, count, [])
  end.

(** The fraction and the exponent of a number literal whose integer part has the
    value [m]; [None] when a '.' or 'e' is not followed by a digit. *)
Definition read_fraction (m : Z) (l : list ascii) : option (Z * nat * list ascii) :=
  match l with
  | "."%char :: l' =>
      match read_digits m 0 l' with
      | (_, O, _) => None
      | (m', n, l'') => Some (m', n, l'')
      end
  | _ => Some (m, O, l)
  end.

Definition read_exponent (l : list ascii) : option (Z * list ascii) :=
  let unsigned sgn l' :=
    match read_digits 0 0 l' with
    | (_, O, _) => None
    | (x, _, l'') => Some (sgn * x, l'')%Z
    end in
  match l with
  | c :: l' =>
      if bool_decide (c = "e"%char) || bool_decide (c = "E"%char) then
        match l' with
        | "-"%char :: l'' => unsigned (-1)%Z l''
        | "+"%char :: l'' => unsigned 1%Z l''
        | _ => unsigned 1%Z l'
        end
      else Some (0%Z, l)
  | [] => Some (0%Z, l)
  end.

(** [sign * m * 10^(x - e)] *)
Definition make_number (negative : bool) (m : Z) (e : nat) (x : Z) : jsnum :=
  let m := (if negative then - m else m)%Z in
  let k := (Z.of_nat e - x)%Z in
  if (k <=? 0)%Z then Dec (m * 10 ^ (- k)) 0 else normalize m (Z.to_nat k).

Definition read_tail (negative : bool) (m : Z) (l : list ascii)
  : option (jsnum * list ascii) :=
  match read_fraction m l with
  | None => None
  | Some (m', e, l1) =>
      match read_exponent l1 with
      | None => None
      | Some (x, l2) => Some (make_number negative m' e x, l2)
      end
  end.

(** A JSON number: no leading zeros, no leading '+' or '.'. *)
Definition read_number (l : list ascii) : option (jsnum * list ascii) :=
  let unsigned neg l :=
    match l with
    | "0"%char :: l' => read_tail neg 0 l'
    | _ =>
        match read_digits 0 0 l with
        | (_, O, _) => None
        | (m, _, l') => read_tail neg m l'
        end
    end in
  match l with
  | "-"%char :: l' => unsigned true l'
  | _ => unsigned false l
  end.

(** ** [JSON.stringify] *)

Definition hex_digit (n : N) : ascii :=
  ascii_of_N (if (n <? 10)%N then n + 48 else n + 87)%N.

(** A character of a string literal. *)
Definition escape_char (c : ascii) : list ascii :=
  let n := JsString.code c in
  if (n =? 34)%N then ["\"%char; c]
  else if (n =? 92)%N then ["\"%char; c]
  else if (n =? 8)%N then ["\"%char; "b"%char]
  else if (n =? 9)%N then ["\"%char; "t"%char]
  else if (n =? 10)%N then ["\"%char; "n"%char]
  else if (n =? 12)%N then ["\"%char; "f"%char]
  else if (n =? 13)%N then ["\"%char; "r"%char]
  else if (n <? 32)%N then
    ["\"%char; "u"%char; "0"%char; "0"%char; hex_digit (n / 16); hex_digit (n mod 16)]
  else [c].

Definition quote : ascii := ascii_of_N 34.

Definition print_string (s : string) : list ascii :=
  quote :: (JsString.to_list s ≫= escape_char) ++ [quote].

Definition print_Z (z : Z) : list ascii := JsString.to_list (pretty z).

(** The digits of the fraction, padded with zeros on the left. *)
Fixpoint frac_digits (n : nat) (m : Z) : list ascii :=
  match n with
  | O => []
  | S n' => frac_digits n' (m / 10) ++ [ascii_of_N (Z.to_N (m mod 10) + 48)]
  end.

Definition print_number (n : jsnum) : list ascii :=
  match n with
  | NaN | Infinity _ => JsString.to_list "null"
  | Dec m O => print_Z m
  | Dec m e =>
      let a := Z.abs m in
      (if (m <? 0)%Z then ["-"%char] else []) ++ print_Z (a / pow10 e) ++
      "."%char :: frac_digits e a
  end.

Fixpoint join (ws : list (list ascii)) : list ascii :=
  match ws with
  | [] => []
  | [w] => w
  | w :: ws' => w ++ ","%char :: join ws'
  end.

(** [JSON.stringify(v)] as characters; [None] for undefined, which an object
    drops and an array prints as null. *)
Fixpoint print (v : jsv) : option (list ascii) :=
  match v with
  | JUndef => None
  | JNull => Some (JsString.to_list "null")
  | JBool true => Some (JsString.to_list "true")
  | JBool false => Some (JsString.to_list "false")
  | JNum n => Some (print_number n)
  | JStr s => Some (print_string s)
  | JArr l =>
      Some ("["%char ::
        join (map (λ x, default (JsString.to_list "null") (print x)) l) ++ ["]"%char])
  | JObj l =>
      Some ("{"%char ::
        join (omap (λ f, match print f.2 with
                         | None => None
                         | Some w => Some (print_string f.1 ++ ":"%char :: w)
                         end) l) ++ ["}"%char])
  end.

Definition stringify (v : jsv) : option string := JsString.of_list <$> print v.

(** ** [JSON.parse] *)

Definition is_ws (c : ascii) : bool :=
  let n := JsString.code c in ((n =? 32) || (n =? 9) || (n =? 10) || (n =? 13))%N.

Fixpoint skip_ws (l : list ascii) : list ascii :=
  match l with
  | c :: l' => if is_ws c then skip_ws l' else l
  | [] => []
  end.

Definition hex_val (c : ascii) : option N :=
  let n := JsString.code c in
  if ((48 <=? n) && (n <=? 57))%N then Some (n - 48)%N
  else if ((97 <=? n) && (n <=? 102))%N then Some (n - 87)%N
  else if ((65 <=? n) && (n <=? 70))%N then Some (n - 55)%N
  else None.

(** The character of a one-letter escape. *)
Definition simple_escape (c : ascii) : option ascii :=
  let n := JsString.code c in
  if ((n =? 34) || (n =? 92) || (n =? 47))%N then Some c
  else if (n =? 98)%N then Some (ascii_of_N 8)
  else if (n =? 116)%N then Some (ascii_of_N 9)
  else if (n =? 110)%N then Some (ascii_of_N 10)
  else if (n =? 102)%N then Some (ascii_of_N 12)
  else if (n =? 114)%N then Some (ascii_of_N 13)
  else None.

(** The code unit of [\u0000], within Latin-1. *)
Definition unicode_escape (a b c d : ascii) : option ascii :=
  match hex_val a, hex_val b, hex_val c, hex_val d with
  | Some 0%N, Some 0%N, Some x, Some y => Some (ascii_of_N (16 * x + y))
  | _, _, _, _ => None
  end.

(** The rest of a string literal after its opening quote. *)
Fixpoint read_string (l : list ascii) : option (list ascii * list ascii) :=
  let cons c r := match r with Some (w, l') => Some (c :: w, l') | None => None end in
  match l with
  | [] => None
  | c :: l1 =>
      let n := JsString.code c in
      if (n =? 34)%N then Some ([], l1)
      else if (n =? 92)%N then
        match l1 with
        | e :: l2 =>
            if (JsString.code e =? 117)%N then
              match l2 with
              | a :: b :: x :: y :: l3 =>
                  match unicode_escape a b x y with
                  | Some u => cons u (read_string l3)
                  | None => None
                  end
              | _ => None
              end
            else match simple_escape e with
                 | Some u => cons u (read_string l2)
                 | None => None
                 end
        | [] => None
        end
      else if (n <? 32)%N then None
      else cons c (read_string l1)
  end.

(** Strip a literal such as [null] off the front. *)
Fixpoint strip (w l : list ascii) : option (list ascii) :=
  match w, l with
  | [], _ => Some l
  | c :: w', d :: l' => if bool_decide (c = d) then strip w' l' else None
  | _, [] => None
  end.

(** Items [p item] separated by commas up to the closing bracket [close]; one
    item has been announced. *)
Fixpoint read_items {A} (p : list ascii → option (A * list ascii)) (close : ascii)
  (fuel : nat) (l : list ascii) : option (list A * list ascii) :=
  match fuel with
  | O => None
  | S fuel' =>
      match p l with
      | None => None
      | Some (v, l1) =>
          match skip_ws l1 with
          | c :: l2 =>
              if bool_decide (c = ","%char) then
                match read_items p close fuel' l2 with
                | Some (vs, l3) => Some (v :: vs, l3)
                | None => None
                end
              else if bool_decide (c = close) then Some ([v], l2)
              else None
          | [] => None
          end
      end
  end.

(** A member of an object. *)
Definition read_member (p : list ascii → option (jsv * list ascii)) (l : list ascii)
  : option ((string * jsv) * list ascii) :=
  match skip_ws l with
  | c :: l1 =>
      if bool_decide (c = quote) then
        match read_string l1 with
        | Some (k, l2) =>
            match skip_ws l2 with
            | d :: l3 =>
                if bool_decide (d = ":"%char) then
                  match p l3 with
                  | Some (v, l4) => Some ((JsString.of_list k, v), l4)
                  | None => None
                  end
                else None
            | [] => None
            end
        | None => None
        end
      else None
  | [] => None
  end.

(** Of two members with the same name the last value wins, in the place of the
    first. *)
Definition make_object (fs : list (string * jsv)) : jsv :=
  JObj (foldl (λ o f, assoc_set f.1 f.2 o) [] fs).

Fixpoint read_value (fuel : nat) (l : list ascii) : option (jsv * list ascii) :=
  match fuel with
  | O => None
  | S fuel' =>
      match skip_ws l with
      | [] => None
      | c :: l1 =>
          if bool_decide (c = quote) then
            match read_string l1 with
            | Some (w, l2) => Some (JStr (JsString.of_list w), l2)
            | None => None
            end
          else if bool_decide (c = "["%char) then
            match skip_ws l1 with
            | d :: l2 =>
                if bool_decide (d = "]"%char) then Some (JArr [], l2)
                else match read_items (read_value fuel') "]"%char fuel' l1 with
                     | Some (vs, l3) => Some (JArr vs, l3)
                     | None => None
                     end
            | [] => None
            end
          else if bool_decide (c = "{"%char) then
            match skip_ws l1 with
            | d :: l2 =>
                if bool_decide (d = "}"%char) then Some (JObj [], l2)
                else match read_items (read_member (read_value fuel')) "}"%char fuel' l1 with
                     | Some (fs, l3) => Some (make_object fs, l3)
                     | None => None
                     end
            | [] => None
            end
          else if bool_decide (c = "n"%char) then
            (λ l', (JNull, l')) <$> strip (JsString.to_list "ull") l1
          else if bool_decide (c = "t"%char) then
            (λ l', (JBool true, l')) <$> strip (JsString.to_list "rue") l1
          else if bool_decide (c = "f"%char) then
            (λ l', (JBool false, l')) <$> strip (JsString.to_list "alse") l1
          else match read_number (c :: l1) with
               | Some (n, l2) => Some (JNum n, l2)
               | None => None
               end
      end
  end.

(** [JSON.parse(s)]: one value with nothing but white space around it.  Every
    nested value takes at least one character, so the length is enough fuel
    ([JsonRoundtrip.parse_fuel]). *)
Definition parse (s : string) : outcome jsv :=
  let l := JsString.to_list s in
  match read_value (S (length l)) l with
  | Some (v, l') => match skip_ws l' with [] => Ok v | _ => Throw SyntaxError end
  | None => Throw SyntaxError
  end.

(** ** [Number(v)] *)

(** A decimal literal filling the whole list. *)
Definition whole (r : option (jsnum * list ascii)) : jsnum :=
  match r with Some (n, []) => n | _ => NaN end.

(** [StrUnsignedDecimalLiteral]: unlike JSON it allows leading zeros, a leading
    or a trailing '.'. *)
Definition unsigned_decimal (neg : bool) (l : list ascii) : jsnum :=
  if bool_decide (l = JsString.to_list "Infinity") then Infinity neg
  else
    match read_digits 0 0 l with
    | (_, O, "."%char :: l') => whole (read_tail neg 0 ("."%char :: l'))
    | (_, O, _) => NaN
    | (m, _, ["."%char]) => make_number neg m 0 0
    | (m, _, l') => whole (read_tail neg m l')
    end.

(** [Number(s)] on a string: trimmed, empty is 0; hexadecimal, octal and binary
    literals are read digit by digit. *)
Fixpoint read_radix (radix acc : Z) (l : list ascii) : jsnum :=
  match l with
  | [] => Dec acc 0
  | c :: l' =>
      match hex_val c with
      | Some d => if (Z.of_N d <? radix)%Z then read_radix radix (radix * acc + Z.of_N d) l'
                  else NaN
      | None => NaN
      end
  end.

Definition string_to_number (s : string) : jsnum :=
  match JsString.to_list (JsString.trim s) with
  | [] => Dec 0 0
  | ("0"%char :: c :: _ :: _) as l0 =>
      let l := drop 2 l0 in
      if bool_decide (c = "x"%char ∨ c = "X"%char) then read_radix 16 0 l
      else if bool_decide (c = "o"%char ∨ c = "O"%char) then read_radix 8 0 l
      else if bool_decide (c = "b"%char ∨ c = "B"%char) then read_radix 2 0 l
      else unsigned_decimal false l0
  | "-"%char :: l => unsigned_decimal true l
  | "+"%char :: l => unsigned_decimal false l
  | l => unsigned_decimal false l
  end.

Definition string_of_num (n : jsnum) : string :=
  match n with
  | NaN => "NaN"
  | Infinity false => "Infinity"
  | Infinity true => "-Infinity"
  | Dec _ _ => JsString.of_list (print_number n)
  end.

(** [String(v)]; a plain object prints as [object Object]. *)
Fixpoint to_string (v : jsv) : string :=
  match v with
  | JUndef => "undefined"
  | JNull => "null"
  | JBool true => "true"
  | JBool false => "false"
  | JNum n => string_of_num n
  | JStr s => s
  | JArr l =>
      JsString.of_list (join
        (map (λ x, if is_nullish x then [] else JsString.to_list (to_string x)) l))
  | JObj _ => "[object Object]"
  end.

Definition Number (v : jsv) : jsnum :=
  match v with
  | JUndef => NaN
  | JNull => Dec 0 0
  | JBool true => Dec 1 0
  | JBool false => Dec 0 0
  | JNum n => n
  | JStr s => string_to_number s
  | JArr _ => string_to_number (to_string v)
  | JObj _ => NaN
  end.
