(* ===== verification/JsonRoundtrip.v ===== *)
(** * JSON round trip

    [JSON.parse(JSON.stringify(v))] is [v] on the values the program stores:
    no undefined, integral numbers, objects without repeated names. *)
From S2P Require Import Prelude JsString Json.
From Stdlib Require Import Ascii ZArith NArith Lia.

(** ** The values that survive *)

Fixpoint plain (v : jsv) : bool :=
  match v with
  | JUndef => false
  | JNum (Dec _ 0) => true
  | JNum _ => false
  | JArr l => forallb plain l
  | JObj l => bool_decide (NoDup l.*1) && forallb (λ f, plain f.2) l
  | _ => true
  end.

(** The characters of [v], for a plain value. *)
Definition print_raw (v : jsv) : list ascii := default [] (print v).

Definition print_member (f : string * jsv) : list ascii :=
  print_string f.1 ++ ":"%char :: print_raw f.2.

Lemma forallb_In {A} (p : A → bool) (l : list A) x : forallb p l = true → x ∈ l → p x = true.
Proof. rewrite forallb_forall. intros H Hx. apply H. by apply list_elem_of_In. Qed.

Lemma print_plain v : plain v = true → print v = Some (print_raw v).
Proof. unfold print_raw. by destruct v as [| |[]| | | |]. Qed.

Lemma print_raw_arr l : forallb plain l = true →
  print_raw (JArr l) = "["%char :: join (print_raw <$> l) ++ ["]"%char].
Proof.
  intros Hl. unfold print_raw at 1. unfold default, from_option, id. cbn [print].
  f_equal. f_equal. f_equal. apply list_fmap_ext. intros i x Hi.
  by rewrite print_plain by eauto using forallb_In, list_elem_of_lookup_2.
Qed.

Lemma print_raw_obj l : forallb (λ f : string * jsv, plain f.2) l = true →
  print_raw (JObj l) = "{"%char :: join (print_member <$> l) ++ ["}"%char].
Proof.
  intros Hl. unfold print_raw. unfold default, from_option, id. cbn [print].
  f_equal. f_equal. f_equal. induction l as [|x l IH]; [done|]. cbn [forallb] in Hl.
  apply andb_true_iff in Hl as [Hx Hl]. rewrite fmap_cons. cbn [omap list_omap].
  rewrite (print_plain _ Hx). f_equal. by apply IH.
Qed.

(** ** Strings *)

Lemma read_escaped c k :
  read_string (escape_char c ++ k) =
  match read_string k with Some (w, l') => Some (c :: w, l') | None => None end.
Proof. by destruct c as [[] [] [] [] [] [] [] []]. Qed.

Lemma read_string_print (w r : list ascii) :
  read_string ((w ≫= escape_char) ++ quote :: r) = Some (w, r).
Proof.
  induction w as [|c w IH]; [done|].
  rewrite bind_cons, <- app_assoc, read_escaped. by rewrite IH.
Qed.

(** ** Numbers *)

Lemma digit_char (d : N) : (d < 10)%N →
  ∃ c, pretty_N_char d = c ∧ digit_val c = Some (Z.of_N d) ∧
    (d ≠ 0%N → c ≠ "0"%char) ∧ c ≠ "-"%char ∧ c ≠ "]"%char ∧ is_ws c = false ∧
    c ≠ quote ∧ c ≠ "["%char ∧ c ≠ "{"%char ∧ c ≠ "n"%char ∧ c ≠ "t"%char ∧ c ≠ "f"%char.
Proof.
  intros Hd. eexists. split; [reflexivity|].
  assert (d = 0 ∨ d = 1 ∨ d = 2 ∨ d = 3 ∨ d = 4 ∨ d = 5 ∨ d = 6 ∨ d = 7 ∨ d = 8 ∨ d = 9)%N
    as H by lia.
  by destruct_or! H; subst d; cbn; split_and!.
Qed.

Lemma read_pretty_N_go (x : N) : (0 < x)%N → ∀ s acc n r, ∃ k, (0 < k)%nat ∧
  read_digits acc n (to_list (pretty_N_go x s) ++ r) =
  read_digits (acc * 10 ^ Z.of_nat k + Z.of_N x)%Z (n + k) (to_list s ++ r).
Proof.
  induction x as [x IH] using (well_founded_induction N.lt_wf_0). intros Hx s acc n r.
  rewrite pretty_N_go_step by done.
  assert (x mod 10 < 10)%N as Hm by (apply N.mod_lt; lia).
  destruct (digit_char _ Hm) as (c & Ec & Hc & _). rewrite Ec.
  pose proof (N.div_mod x 10 ltac:(lia)) as Hdm.
  destruct (decide (x / 10 = 0)%N) as [Hz|Hz].
  - exists 1%nat. rewrite Hz, pretty_N_go_0. split; [lia|]. cbn [to_list app read_digits].
    rewrite Hc. f_equal; [|lia]. change (10 ^ Z.of_nat 1)%Z with 10%Z. lia.
  - destruct (IH (x / 10)%N ltac:(apply N.div_lt; lia) ltac:(lia) (String c s) acc n r)
      as (k & Hk & E).
    exists (S k). split; [lia|]. rewrite E. cbn [to_list app read_digits]. rewrite Hc.
    f_equal; [|lia]. rewrite Nat2Z.inj_succ, Z.pow_succ_r by lia. lia.
Qed.

Lemma pretty_N_go_head (x : N) : (0 < x)%N → ∀ s, ∃ d w, (0 < d < 10)%N ∧
  to_list (pretty_N_go x s) = pretty_N_char d :: w.
Proof.
  induction x as [x IH] using (well_founded_induction N.lt_wf_0). intros Hx s.
  rewrite pretty_N_go_step by done.
  assert (x mod 10 < 10)%N as Hm by (apply N.mod_lt; lia).
  pose proof (N.div_mod x 10 ltac:(lia)) as Hdm.
  destruct (decide (x / 10 = 0)%N) as [Hz|Hz].
  - rewrite Hz, pretty_N_go_0. exists (x mod 10)%N. eexists. split; [|reflexivity]. lia.
  - by apply IH; [apply N.div_lt; lia|lia].
Qed.

(** What may follow a number: no digit, '.', 'e' or 'E'. *)
Definition ends_number (r : list ascii) : Prop :=
  match r with
  | [] => True
  | c :: _ => digit_val c = None ∧ c ≠ "."%char ∧ c ≠ "e"%char ∧ c ≠ "E"%char
  end.

Lemma read_digits_end acc n r : ends_number r → read_digits acc n r = (acc, n, r).
Proof. destruct r as [|c r]; [done|]. cbn. by intros [-> _]. Qed.

Lemma match_char {A} (c d : ascii) (a b : A) : c ≠ d → (if bool_decide (c = d) then a else b) = b.
Proof. intros H. by rewrite bool_decide_false. Qed.

Lemma read_fraction_other m c r : c ≠ "."%char → read_fraction m (c :: r) = Some (m, O, c :: r).
Proof. intros H. destruct c as [[] [] [] [] [] [] [] []]; first [done|by destruct H]. Qed.

Lemma read_tail_end neg m r : ends_number r →
  read_tail neg m r = Some (Dec (if neg then - m else m) 0, r).
Proof.
  intros Hr. unfold read_tail.
  assert (read_fraction m r = Some (m, O, r)) as ->.
  { destruct r as [|c r]; [done|]. apply read_fraction_other. apply Hr. }
  cbv beta iota.
  assert (read_exponent r = Some (0%Z, r)) as ->.
  { destruct r as [|c r]; [done|]. destruct Hr as (_ & _ & He & HE).
    unfold read_exponent. by rewrite !bool_decide_false by done. }
  cbv beta iota. unfold make_number. cbn [Z.of_nat Z.sub Z.opp Z.add Z.leb Z.compare Z.pow].
  by rewrite Z.mul_1_r.
Qed.

(** The branch of [read_number] after the sign, on digits without leading zero. *)
Lemma read_digits_N (x : N) (r : list ascii) : (0 < x)%N → ends_number r → ∃ k, (0 < k)%nat ∧
  read_digits 0 0 (to_list (pretty_N_go x "") ++ r) = (Z.of_N x, k, r).
Proof.
  intros Hx Hr. destruct (read_pretty_N_go x Hx "" 0%Z 0%nat r) as (k & Hk & E).
  exists k. split; [done|]. by rewrite E, read_digits_end.
Qed.

Lemma not_zero_char {A} (c : ascii) (a b : A) : c ≠ "0"%char →
  match c with "0"%char => a | _ => b end = b.
Proof. intros H. destruct c as [[] [] [] [] [] [] [] []]; first [done|by destruct H]. Qed.

Lemma not_minus_char {A} (c : ascii) (a b : A) : c ≠ "-"%char →
  match c with "-"%char => a | _ => b end = b.
Proof. intros H. destruct c as [[] [] [] [] [] [] [] []]; first [done|by destruct H]. Qed.

Lemma read_number_N (x : N) (r : list ascii) : ends_number r →
  read_number (to_list (pretty x) ++ r) = Some (Dec (Z.of_N x) 0, r) ∧
  read_number ("-"%char :: to_list (pretty x) ++ r) = Some (Dec (- Z.of_N x) 0, r).
Proof.
  intros Hr. destruct (decide (x = 0%N)) as [->|Hx].
  { change (read_tail false 0 r = Some (Dec 0 0, r) ∧ read_tail true 0 r = Some (Dec 0 0, r)).
    by rewrite !read_tail_end by done. }
  assert (pretty x = pretty_N_go x "") as ->.
  { unfold pretty, pretty_N. by rewrite decide_False by done. }
  destruct (read_digits_N x r ltac:(lia) Hr) as (k & Hk & E).
  destruct (pretty_N_go_head x ltac:(lia) "") as (d & w & Hd & Ew).
  destruct (digit_char d ltac:(lia)) as (c & Ec & _ & Hc0 & Hcm & _).
  rewrite Ew, Ec in *. cbn [app] in *. specialize (Hc0 ltac:(lia)).
  destruct k as [|k]; [lia|].
  split; unfold read_number; cbv beta.
  - rewrite not_minus_char, not_zero_char by done. rewrite E. cbv beta iota.
    by rewrite read_tail_end.
  - rewrite not_zero_char by done. rewrite E. cbv beta iota. by rewrite read_tail_end.
Qed.

Lemma read_number_Z (z : Z) (r : list ascii) : ends_number r →
  read_number (print_Z z ++ r) = Some (Dec z 0, r).
Proof.
  intros Hr. unfold print_Z. destruct z as [|p|p].
  - change (read_tail false 0 r = Some (Dec 0 0, r)). by rewrite read_tail_end.
  - destruct (read_number_N (N.pos p) r Hr) as [E _]. exact E.
  - destruct (read_number_N (N.pos p) r Hr) as [_ E]. exact E.
Qed.

(** ** Heads *)

(** The first character decides which branch of the reader is taken. *)
Definition starts_number (c : ascii) : Prop :=
  is_ws c = false ∧ c ≠ quote ∧ c ≠ "["%char ∧ c ≠ "]"%char ∧ c ≠ "{"%char ∧
  c ≠ "n"%char ∧ c ≠ "t"%char ∧ c ≠ "f"%char.

Lemma print_Z_head (z : Z) : ∃ c w, print_Z z = c :: w ∧ starts_number c.
Proof.
  assert (∀ p, ∃ c w, to_list (pretty (N.pos p)) = c :: w ∧ starts_number c) as H.
  { intros p. destruct (pretty_N_go_head (N.pos p) ltac:(lia) "") as (d & w & Hd & Ew).
    destruct (digit_char d ltac:(lia)) as (c & Ec & _ & _ & _ & ?).
    exists c, w. rewrite <- Ec. split; [exact Ew|]. rewrite Ec. unfold starts_number. tauto. }
  unfold print_Z. destruct z as [|p|p].
  - exists "0"%char, []. by split.
  - apply H.
  - exists "-"%char. eexists. by split; [reflexivity|].
Qed.

Lemma print_raw_head v : plain v = true →
  ∃ c w, print_raw v = c :: w ∧ is_ws c = false ∧ c ≠ "]"%char.
Proof.
  destruct v as [| |[]|[| |z [|]]|s|l|l]; intros Hv; try done;
    try (by eexists _, _; split; [reflexivity|]).
  destruct (print_Z_head z) as (c & w & E & ? & ? & ? & ? & _).
  exists c, w. split; [exact E|done].
Qed.

(** ** Arrays, objects, values *)

(** What follows an item of an array or object. *)
Definition after_item (close : ascii) (r : list ascii) : Prop :=
  ∃ c r', r = c :: r' ∧ (c = ","%char ∨ c = close).

Lemma read_items_join {A} (p : list ascii → option (A * list ascii)) (pr : A → list ascii)
  (close : ascii) (l : list A) (r : list ascii) :
  is_ws close = false → close ≠ ","%char →
  (∀ x k, x ∈ l → after_item close k → p (pr x ++ k) = Some (x, k)) →
  l ≠ [] → ∀ fuel, (length l ≤ fuel)%nat →
  read_items p close fuel (join (pr <$> l) ++ close :: r) = Some (l, r).
Proof.
  intros Hws Hcl Hp. induction l as [|x l IH]; [done|]. intros _ [|fuel] Hf; [cbn in Hf; lia|].
  destruct l as [|y l].
  - cbn [fmap list_fmap join read_items].
    rewrite Hp by (first [by left|by exists close, r; auto]). cbn [skip_ws]. rewrite Hws.
    rewrite (bool_decide_false (close = ",")%char) by done. by rewrite bool_decide_true.
  - change (join (pr <$> x :: y :: l)) with (pr x ++ ","%char :: join (pr <$> y :: l)).
    rewrite <- app_assoc. cbn [app]. cbn [read_items].
    rewrite Hp by (first [by left|eexists _, _; split; [reflexivity|by left]]).
    cbn [skip_ws]. change (is_ws ","%char) with false. cbv beta iota.
    rewrite bool_decide_true by done.
    rewrite IH; [done|intros; apply Hp; [by right|done]|done|cbn in Hf |- *; lia].
Qed.

Lemma skip_ws_head c l : is_ws c = false → skip_ws (c :: l) = c :: l.
Proof. intros H. cbn. by rewrite H. Qed.

Lemma length_join ws w : w ∈ ws → (length w ≤ length (join ws))%nat.
Proof.
  induction ws as [|w0 ws IH]; intros Hw; [by apply not_elem_of_nil in Hw|].
  destruct ws as [|w1 ws].
  - apply list_elem_of_singleton in Hw as ->. done.
  - change (join (w0 :: w1 :: ws)) with (w0 ++ ","%char :: join (w1 :: ws)).
    rewrite length_app. cbn [length]. apply elem_of_cons in Hw as [->|Hw]; [lia|].
    specialize (IH Hw). lia.
Qed.

Lemma length_join_count ws : (∀ w, w ∈ ws → w ≠ []) → (length ws ≤ length (join ws))%nat.
Proof.
  induction ws as [|w0 ws IH]; intros Hw; [done|].
  assert (0 < length w0)%nat by (destruct w0; [by destruct (Hw []); [left|]|cbn; lia]).
  destruct ws as [|w1 ws]; [cbn; lia|].
  change (join (w0 :: w1 :: ws)) with (w0 ++ ","%char :: join (w1 :: ws)).
  rewrite length_app. cbn [length].
  assert (length (w1 :: ws) ≤ length (join (w1 :: ws)))%nat by (apply IH; intros; apply Hw; by right).
  cbn [length] in *. lia.
Qed.

(** Setting fresh names one after the other appends them. *)
Lemma assoc_set_fresh k v l : k ∉ l.*1 → assoc_set k v l = l ++ [(k, v)].
Proof.
  induction l as [|[k' v'] l IH]; [done|]. rewrite fmap_cons, not_elem_of_cons. intros [Hk Hl].
  cbn [assoc_set app]. cbn [fst] in Hk. rewrite bool_decide_false by congruence. by rewrite IH.
Qed.

Lemma make_object_NoDup (l : list (string * jsv)) : NoDup l.*1 → make_object l = JObj l.
Proof.
  intros Hl. unfold make_object. f_equal.
  assert (∀ o, NoDup (o ++ l).*1 → foldl (λ o f, assoc_set f.1 f.2 o) o l = o ++ l) as H.
  { clear Hl. induction l as [|[k v] l IH]; intros o Ho; cbn [foldl]; [by rewrite app_nil_r|].
    rewrite assoc_set_fresh.
    - rewrite IH; by rewrite <- app_assoc.
    - rewrite fmap_app, fmap_cons in Ho. cbn [fst] in *.
      apply NoDup_app in Ho as (_ & Ho & _). intros Hk. by destruct (Ho k Hk); left. }
  by rewrite H.
Qed.

(** A context in which a value may end. *)
Lemma after_item_ends close k : after_item close k → close = "]"%char ∨ close = "}"%char →
  ends_number k.
Proof. intros (c & r & -> & [-> | ->]) [-> | ->]; by cbn. Qed.

Lemma read_value_head fuel c l : is_ws c = false →
  read_value (S fuel) (c :: l) =
  if bool_decide (c = quote) then
    match read_string l with
    | Some (w, l2) => Some (JStr (of_list w), l2)
    | None => None
    end
  else if bool_decide (c = "["%char) then
    match skip_ws l with
    | d :: l2 =>
        if bool_decide (d = "]"%char) then Some (JArr [], l2)
        else match read_items (read_value fuel) "]"%char fuel l with
             | Some (vs, l3) => Some (JArr vs, l3)
             | None => None
             end
    | [] => None
    end
  else if bool_decide (c = "{"%char) then
    match skip_ws l with
    | d :: l2 =>
        if bool_decide (d = "}"%char) then Some (JObj [], l2)
        else match read_items (read_member (read_value fuel)) "}"%char fuel l with
             | Some (fs, l3) => Some (make_object fs, l3)
             | None => None
             end
    | [] => None
    end
  else if bool_decide (c = "n"%char) then
    (λ l', (JNull, l')) <$> strip (to_list "ull") l
  else if bool_decide (c = "t"%char) then
    (λ l', (JBool true, l')) <$> strip (to_list "rue") l
  else if bool_decide (c = "f"%char) then
    (λ l', (JBool false, l')) <$> strip (to_list "alse") l
  else match read_number (c :: l) with
       | Some (n, l2) => Some (JNum n, l2)
       | None => None
       end.
Proof. intros Hc. cbn [read_value]. by rewrite skip_ws_head. Qed.

Lemma read_value_number fuel z k : ends_number k →
  read_value (S fuel) (print_Z z ++ k) = Some (JNum (Dec z 0), k).
Proof.
  intros Hk. destruct (print_Z_head z) as (c & w & E & Hc).
  pose proof (read_number_Z z k Hk) as HN. rewrite E in *. cbn [app] in *.
  destruct Hc as (Hws & ? & ? & ? & ? & ? & ? & ?). rewrite read_value_head by done.
  rewrite !bool_decide_false by done. by rewrite HN.
Qed.

Lemma read_value_string fuel s k :
  read_value (S fuel) (print_string s ++ k) = Some (JStr s, k).
Proof.
  unfold print_string. cbn [app]. rewrite read_value_head by done.
  rewrite bool_decide_true by done. rewrite <- app_assoc. cbn [app].
  rewrite read_string_print. by rewrite of_to_list.
Qed.

Lemma read_member_print p (f : string * jsv) k :
  p (print_raw f.2 ++ k) = Some (f.2, k) →
  read_member p (print_member f ++ k) = Some (f, k).
Proof.
  intros Hp. unfold read_member, print_member, print_string. cbn [app].
  rewrite skip_ws_head by done. rewrite bool_decide_true by done.
  rewrite <- !app_assoc. cbn [app]. rewrite read_string_print.
  rewrite skip_ws_head by done. rewrite bool_decide_true by done.
  rewrite Hp, of_to_list. by destruct f.
Qed.

(** The reader inverts the printer in any context where a value may end, with
    fuel for every character. *)
Definition value_ends (k : list ascii) : Prop :=
  k = [] ∨ after_item "]"%char k ∨ after_item "}"%char k.

Lemma value_ends_number k : value_ends k → ends_number k.
Proof. intros [-> |[H|H]]; [done| |]; by eapply after_item_ends; eauto. Qed.

Definition reads_back (v : jsv) : Prop :=
  plain v = true → ∀ fuel k, (length (print_raw v) < fuel)%nat → value_ends k →
  read_value fuel (print_raw v ++ k) = Some (v, k).

Lemma reads_back_arr l : Forall reads_back l → reads_back (JArr l).
Proof.
  intros HP Hv [|fuel] k Hf Hk; [lia|]. cbn [plain] in Hv.
  rewrite print_raw_arr in * by done. cbn [app].
  rewrite read_value_head, bool_decide_false, bool_decide_true by done.
  destruct l as [|x l]; [done|].
  assert (∃ c w, print_raw x = c :: w ∧ is_ws c = false ∧ c ≠ "]"%char) as (c & w & E & Hc & Hc').
  { apply print_raw_head. eapply forallb_In; [done|]. by left. }
  assert (∃ w', join (print_raw <$> x :: l) = c :: w') as [w' Ew'].
  { rewrite fmap_cons, E. destruct l; cbn; eauto. }
  rewrite Ew' at 1. cbn [app]. rewrite skip_ws_head, bool_decide_false by done.
  rewrite <- app_assoc. cbn [app]. cbn [length] in Hf. rewrite length_app in Hf. cbn [length] in Hf.
  rewrite read_items_join; try done.
  - intros y k' Hy Hk'. rewrite Forall_forall in HP. apply HP; [done| | |by right; left].
    + by eapply forallb_In.
    + assert (length (print_raw y) ≤ length (join (print_raw <$> x :: l)))%nat; [|lia].
      apply length_join. by apply list_elem_of_fmap_2.
  - assert (length (print_raw <$> x :: l) ≤ length (join (print_raw <$> x :: l)))%nat as Hlen.
    { apply length_join_count. intros w0 (y & -> & Hy)%list_elem_of_fmap.
      destruct (print_raw_head y) as (? & ? & -> & _); [|done]. by eapply forallb_In. }
    rewrite length_fmap in Hlen. lia.
Qed.

Lemma reads_back_obj l : Forall (λ f, reads_back f.2) l → reads_back (JObj l).
Proof.
  intros HP Hv [|fuel] k Hf Hk; [lia|]. cbn [plain] in Hv.
  apply andb_true_iff in Hv as [Hnd%bool_decide_eq_true Hv].
  rewrite print_raw_obj in * by done. cbn [app].
  rewrite read_value_head, !bool_decide_false, bool_decide_true by done.
  destruct l as [|x l]; [done|].
  assert (∃ w', join (print_member <$> x :: l) = quote :: w') as [w' Ew'].
  { rewrite fmap_cons. unfold print_member at 1, print_string. destruct l; cbn; eauto. }
  rewrite Ew' at 1. cbn [app]. rewrite skip_ws_head, bool_decide_false by done.
  rewrite <- app_assoc. cbn [app]. cbn [length] in Hf. rewrite length_app in Hf. cbn [length] in Hf.
  rewrite read_items_join; try done.
  - by rewrite make_object_NoDup.
  - intros y k' Hy Hk'. apply read_member_print. rewrite Forall_forall in HP.
    apply HP; [done| | |by right; right].
    + by eapply (forallb_In (λ f : string * jsv, plain f.2)).
    + assert (length (print_member y) ≤ length (join (print_member <$> x :: l)))%nat as Hlen.
      { apply length_join. by apply list_elem_of_fmap_2. }
      unfold print_member in Hlen at 1. rewrite length_app in Hlen. cbn [length] in Hlen. lia.
  - assert (length (print_member <$> x :: l) ≤ length (join (print_member <$> x :: l)))%nat as Hlen.
    { apply length_join_count. by intros w0 (y & -> & Hy)%list_elem_of_fmap. }
    rewrite length_fmap in Hlen. lia.
Qed.

Lemma read_value_print v : reads_back v.
Proof.
  induction v as [| |b|n|s|l HP|l HP] using jsv_deep_ind;
    [done| | | | |by apply reads_back_arr|by apply reads_back_obj];
    intros Hv [|fuel] k Hf Hk; try lia.
  - done.
  - by destruct b.
  - destruct n as [| |z [|]]; try done. apply read_value_number. by apply value_ends_number.
  - apply read_value_string.
Qed.

(** [JSON.parse(JSON.stringify(v)) = v]; the helper the round trips of the stored
    settings share. *)
Lemma parse_print v : plain v = true → parse (of_list (print_raw v)) = Ok v.
Proof.
  intros Hv. unfold parse. rewrite to_of_list.
  rewrite <- (app_nil_r (print_raw v)) at 2.
  rewrite read_value_print; [done|done| |by left]. lia.
Qed.

Lemma stringify_plain v : plain v = true → stringify v = Some (of_list (print_raw v)).
Proof. intros Hv. unfold stringify. by rewrite print_plain. Qed.

#[export] Hint Rewrite parse_print stringify_plain using done : js_str.

(** ** The fuel of the JSON parser

    [parse] gives the parser one more unit of fuel than the text has characters.  More
    fuel never changes what is read, on any text, so that the bound hides nothing. *)

(** A reader never gives back more than it got. *)
Definition shrinks {A} (p : list ascii → option (A * list ascii)) : Prop :=
  ∀ l v r, p l = Some (v, r) → length r ≤ length l.

Lemma skip_ws_length l : length (skip_ws l) ≤ length l.
Proof. induction l as [|c l IH]; [done|]. cbn [skip_ws]. destruct (is_ws c); cbn; lia. Qed.

Lemma read_string_length n : ∀ l w r, length l ≤ n → read_string l = Some (w, r) →
  length r ≤ length l.
Proof.
  induction n as [|n IH]; intros l w r Hn H; (destruct l as [|c l]; [done|]); [cbn in Hn; lia|].
  cbn in Hn. cbn [read_string] in H. cbv zeta in H. cbn [length].
  destruct (_ =? 34)%N; [injection H as <- <-; lia|].
  assert (∀ u l1, length l1 ≤ n → match read_string l1 with
      | Some (w0, l') => Some (u :: w0, l') | None => None end = Some (w, r) →
      length r ≤ length l1) as Hrec.
  { intros u l1 Hl1 H1. destruct (read_string l1) as [[w1 r1]|] eqn:E; [|done].
    injection H1 as <- <-. by apply (IH l1 w1). }
  destruct (_ =? 92)%N.
  - destruct l as [|e l]; [done|]. cbn [length] in *.
    destruct (_ =? 117)%N.
    + destruct l as [|? [|? [|? [|? l]]]]; try done. cbn [length] in *.
      destruct (unicode_escape _ _ _ _); [|done]. apply Hrec in H; lia.
    + destruct (simple_escape e); [|done]. apply Hrec in H; lia.
  - destruct (_ <? 32)%N; [done|]. apply Hrec in H; lia.
Qed.

Lemma strip_length w : ∀ l r, strip w l = Some r → length r ≤ length l.
Proof.
  induction w as [|c w IH]; intros [|d l] r H; try done; try (injection H as <-; done).
  cbn [strip] in H. case_bool_decide; [|done]. apply IH in H. cbn. lia.
Qed.

Lemma read_digits_length l : ∀ acc k, length (read_digits acc k l).2 ≤ length l.
Proof.
  induction l as [|c l IH]; intros acc k; [done|]. cbn [read_digits].
  destruct (digit_val c); [|done]. specialize (IH (10 * acc + z)%Z (S k)). cbn [length]. lia.
Qed.

Lemma read_fraction_length m l v r : read_fraction m l = Some (v, r) → length r ≤ length l.
Proof.
  intros H. destruct l as [|c l]; [by injection H as <- <-|].
  destruct (decide (c = "."%char)) as [->|Hc].
  - cbn [read_fraction] in H. pose proof (read_digits_length l m 0) as Hl.
    destruct (read_digits m 0 l) as [[? []] ?]; [done|]. injection H as <- <-. cbn in *. lia.
  - rewrite read_fraction_other in H by done. by injection H as <- <-.
Qed.

Lemma read_exponent_length l v r : read_exponent l = Some (v, r) → length r ≤ length l.
Proof.
  assert (∀ sgn l1, match read_digits 0 0 l1 with
      | (_, O, _) => None | (x, S _, l2) => Some (sgn * x, l2)%Z end = Some (v, r) →
      length r ≤ length l1) as Hu.
  { intros sgn l1 H. pose proof (read_digits_length l1 0 0) as Hl.
    destruct (read_digits 0 0 l1) as [[? []] ?]; [done|]. by injection H as <- <-. }
  unfold read_exponent. destruct l as [|c l]; [by intros [= <- <-]|].
  destruct (_ || _); [|by intros [= <- <-]].
  intros H. cbn [length]. apply le_S. destruct l as [|d l]; [by apply Hu in H|].
  destruct (decide (d = "-"%char)) as [->|]; [apply Hu in H; cbn; lia|].
  destruct (decide (d = "+"%char)) as [->|]; [apply Hu in H; cbn; lia|].
  apply (Hu 1%Z). destruct d as [[] [] [] [] [] [] [] []]; first [exact H|done].
Qed.

Lemma read_tail_length neg m : shrinks (read_tail neg m).
Proof.
  intros l v r H. unfold read_tail in H.
  destruct (read_fraction m l) as [[[m' e] l1]|] eqn:E1; [|done].
  destruct (read_exponent l1) as [[x l2]|] eqn:E2; [|done]. injection H as <- <-.
  apply read_fraction_length in E1. apply read_exponent_length in E2. lia.
Qed.

Lemma read_number_length : shrinks read_number.
Proof.
  assert (∀ neg l v r, match l with
      | "0"%char :: l' => read_tail neg 0 l'
      | _ => match read_digits 0 0 l with
             | (_, O, _) => None | (m, S _, l') => read_tail neg m l' end
      end = Some (v, r) → length r ≤ length l) as Hu.
  { intros neg l v r H.
    assert (match read_digits 0 0 l with
      | (_, O, _) => None | (m, S _, l') => read_tail neg m l' end = Some (v, r) →
      length r ≤ length l) as Hd.
    { pose proof (read_digits_length l 0 0) as Hl.
      destruct (read_digits 0 0 l) as [[? []] ?]; [done|]. intros ?%read_tail_length. cbn in *. lia. }
    destruct l as [|c l]; [by apply Hd|].
    destruct (decide (c = "0"%char)) as [->|Hc]; [apply read_tail_length in H; cbn; lia|].
    apply Hd. by rewrite not_zero_char in H by done. }
  intros l v r H. unfold read_number in H. destruct l as [|c l]; [discriminate H|].
  destruct (decide (c = "-"%char)) as [->|Hc]; [apply Hu in H; cbn; lia|].
  rewrite not_minus_char in H by done. by apply (Hu false (c :: l)) in H.
Qed.

Lemma read_items_length {A} (p : list ascii → option (A * list ascii)) close fuel :
  shrinks p → shrinks (read_items p close fuel).
Proof.
  intros Hp. induction fuel as [|fuel IH]; intros l v r H; [done|]. cbn [read_items] in H.
  destruct (p l) as [[w l1]|] eqn:E; [|done]. apply Hp in E.
  pose proof (skip_ws_length l1) as Hs. destruct (skip_ws l1) as [|c l2]; [done|].
  cbn [length] in Hs. case_bool_decide.
  - destruct (read_items p close fuel l2) as [[ws l3]|] eqn:E'; [|done].
    injection H as <- <-. apply IH in E'. lia.
  - case_bool_decide; [|done]. injection H as <- <-. lia.
Qed.

Lemma read_member_length p : shrinks p → shrinks (read_member p).
Proof.
  intros Hp l v r H. unfold read_member in H. pose proof (skip_ws_length l) as Hs.
  destruct (skip_ws l) as [|c l1]; [done|]. cbn [length] in Hs. case_bool_decide; [|done].
  destruct (read_string l1) as [[k l2]|] eqn:E; [|done].
  apply (read_string_length (length l1)) in E; [|done]. pose proof (skip_ws_length l2) as Hs2.
  destruct (skip_ws l2) as [|d l3]; [done|]. cbn [length] in Hs2. case_bool_decide; [|done].
  destruct (p l3) as [[w l4]|] eqn:E'; [|done]. injection H as <- <-. apply Hp in E'. lia.
Qed.

Lemma read_value_length fuel : shrinks (read_value fuel).
Proof.
  induction fuel as [|fuel IH]; intros l v r H; [done|]. cbn [read_value] in H.
  pose proof (skip_ws_length l) as Hs. destruct (skip_ws l) as [|c l1]; [done|].
  cbn [length] in Hs.
  assert (∀ w w', strip w l1 = Some w' → length w' ≤ length l1) as Hstrip by eauto using strip_length.
  destruct (bool_decide (c = quote)).
  { destruct (read_string l1) as [[w l2]|] eqn:E; [|done]. injection H as <- <-.
    apply (read_string_length (length l1)) in E; [|done]. lia. }
  pose proof (skip_ws_length l1) as Hs1.
  destruct (bool_decide (c = "["%char)).
  { destruct (skip_ws l1) as [|d l2]; [done|]. cbn [length] in Hs1.
    case_bool_decide; [injection H as <- <-; lia|].
    destruct (read_items _ _ _ l1) as [[vs l3]|] eqn:E; [|done]. injection H as <- <-.
    apply (read_items_length _ _ _ IH) in E. lia. }
  destruct (bool_decide (c = "{"%char)).
  { destruct (skip_ws l1) as [|d l2]; [done|]. cbn [length] in Hs1.
    case_bool_decide; [injection H as <- <-; lia|].
    destruct (read_items _ _ _ l1) as [[vs l3]|] eqn:E; [|done]. injection H as <- <-.
    apply (read_items_length _ _ _ (read_member_length _ IH)) in E. lia. }
  do 3 (destruct (bool_decide (c = _));
    [apply fmap_Some in H as (w & Hw%Hstrip & [= -> ->]); lia|]).
  destruct (read_number (c :: l1)) as [[n l2]|] eqn:E; [|done]. injection H as <- <-.
  apply read_number_length in E. cbn in E. lia.
Qed.

(** ** Any sufficient fuel gives the same answer *)

Lemma read_items_fuel {A} (p q : list ascii → option (A * list ascii)) close n :
  shrinks p → (∀ l, length l ≤ n → p l = q l) → ∀ f g l, length l ≤ n →
  length l < f → length l < g → read_items p close f l = read_items q close g l.
Proof.
  intros Hp Hpq f. induction f as [|f IH]; intros g l Hn Hf Hg; [lia|].
  destruct g as [|g]; [lia|]. cbn [read_items]. rewrite <- Hpq by done.
  destruct (p l) as [[w l1]|] eqn:E; [|done]. apply Hp in E.
  pose proof (skip_ws_length l1) as Hs. destruct (skip_ws l1) as [|c l2]; [done|].
  cbn [length] in Hs. by rewrite (IH g l2) by lia.
Qed.

Lemma read_member_fuel p q n : (∀ l, length l ≤ n → p l = q l) →
  ∀ l, length l ≤ n → read_member p l = read_member q l.
Proof.
  intros Hpq l Hl. unfold read_member. pose proof (skip_ws_length l) as Hs.
  destruct (skip_ws l) as [|c l1]; [done|]. cbn [length] in Hs. case_bool_decide; [|done].
  destruct (read_string l1) as [[k l2]|] eqn:E; [|done].
  apply (read_string_length (length l1)) in E; [|done]. pose proof (skip_ws_length l2) as Hs2.
  destruct (skip_ws l2) as [|d l3]; [done|]. cbn [length] in Hs2. by rewrite Hpq by lia.
Qed.

Lemma read_value_fuel f : ∀ g l, length l < f → length l < g → read_value f l = read_value g l.
Proof.
  induction f as [|f IH]; intros g l Hf Hg; [lia|]. destruct g as [|g]; [lia|].
  cbn [read_value]. pose proof (skip_ws_length l) as Hs.
  destruct (skip_ws l) as [|c l1]; [done|]. cbn [length] in Hs.
  assert (∀ l, length l ≤ length l1 → read_value f l = read_value g l) as Hv
    by (intros; apply IH; lia).
  rewrite (read_items_fuel _ (read_value g) "]"%char (length l1)
    (read_value_length f) Hv f g l1) by lia.
  by rewrite (read_items_fuel _ (read_member (read_value g)) "}"%char (length l1)
    (read_member_length _ (read_value_length f)) (read_member_fuel _ _ _ Hv) f g l1) by lia.
Qed.

(** [JSON.parse] is the parser with any fuel above the length of the text. *)
Lemma parse_fuel s fuel : length (to_list s) < fuel →
  parse s = match read_value fuel (to_list s) with
            | Some (v, l') => match skip_ws l' with [] => Ok v | _ => Throw SyntaxError end
            | None => Throw SyntaxError
            end.
Proof. intros Hf. unfold parse. by rewrite (read_value_fuel _ fuel) by lia. Qed.
