(* ===== verification/Jwt.v ===== *)
(** * Tokens ([lib/jwt.ts])

    The claims of a token are read without verifying its signature, which is the
    controller's task; the client uses them to choose a page. *)
From S2P Require Import Prelude JsString Base64 Json JsonRoundtrip.
From Stdlib Require Import Ascii.

(** The payload, or null for anything that is not a token. *)
Definition decodeJWTPayload (token : string) : jsv :=
  match split "." token with
  | [_; payload; _] =>
      match atob (replace_all "_" "/" (replace_all "-" "+" payload)) with
      | Ok decoded => match parse decoded with Ok v => v | Throw _ => JNull end
      | Throw _ => JNull
      end
  | _ => JNull
  end.

(** The claims are cast to strings without a check. *)
Record workspace_claims := mkClaims { wid : jsv; wslug : jsv; wrole : jsv }.

(** A missing token is null; the empty string is falsy as well. *)
Definition getWorkspaceClaims (token : option string) : option workspace_claims :=
  match token with
  | None => None
  | Some t =>
      if bool_decide (t = "") then None
      else
        let payload := decodeJWTPayload t in
        if negb (truthy payload) then None
        else
          let w := opt_field payload "wid" in
          if negb (truthy w) then None
          else Some (mkClaims w (nullish_or (opt_field payload "wslug") (JStr ""))
                       (nullish_or (opt_field payload "wrole") (JStr "member")))
  end.

Definition isAdminRole (token : option string) : bool :=
  match getWorkspaceClaims token with
  | None => false
  | Some claims => is_str (wrole claims) "admin" || is_str (wrole claims) "owner"
  end.

Definition getAudience (token : option string) : jsv :=
  match token with
  | None => JNull
  | Some t =>
      if bool_decide (t = "") then JNull
      else
        let payload := decodeJWTPayload t in
        if negb (truthy payload) then JNull
        else nullish_or (opt_field payload "aud") JNull
  end.

Definition isDeviceToken (token : option string) : bool := is_str (getAudience token) "device".
Definition isAdminToken (token : option string) : bool := is_str (getAudience token) "admin".

(** ** Tokens as their issuer makes them *)

(** header.payload.signature, the payload in base64url without padding. *)
Definition encode_token (header : string) (claims : jsv) (signature : string) : string :=
  header +:+ "." +:+ base64url (of_list (print_raw claims)) +:+ "." +:+ signature.

Definition no_dot (s : string) : Prop := "."%char ∉ to_list s.
#[global] Instance no_dot_dec s : Decision (no_dot s).
Proof. unfold no_dot. apply _. Defined.

Lemma split_three a b c : no_dot a → no_dot b → no_dot c →
  split "." (a +:+ "." +:+ b +:+ "." +:+ c) = [a; b; c].
Proof.
  intros Ha Hb Hc. unfold split. rewrite !to_list_app. cbn [to_list app].
  rewrite split_list_app by done. rewrite split_list_app by done.
  rewrite split_list_no_sep by done. cbn. by rewrite !of_to_list.
Qed.

Lemma decode_encode header claims signature :
  no_dot header → no_dot signature → plain claims = true →
  decodeJWTPayload (encode_token header claims signature) = claims.
Proof.
  intros Hh Hs Hp. unfold decodeJWTPayload, encode_token.
  rewrite split_three by (try done; apply base64url_no_dot).
  rewrite atob_base64url. cbv beta iota. by rewrite parse_print.
Qed.

Lemma encode_token_nonempty header claims signature : encode_token header claims signature ≠ "".
Proof. unfold encode_token. by destruct header. Qed.

(** The number of separators decides whether there is a payload at all. *)
Lemma decode_two_dots token :
  length (split "." token) ≠ 3 → decodeJWTPayload token = JNull.
Proof.
  unfold decodeJWTPayload. by destruct (split "." token) as [|? [|? [|? [|]]]].
Qed.

(** C34: reading a token gives back the claims it was issued with, whatever the
    header and signature; so the workspace, the role and the audience the client
    works with are those of the token, with the default role 'member', and a token
    without a workspace has no claims. *)
Theorem token_claims : ∀ header signature (fs : list (string * jsv)),
  no_dot header → no_dot signature → plain (JObj fs) = true →
  let token := Some (encode_token header (JObj fs) signature) in
  let claim k := default JUndef (assoc k fs) in
  decodeJWTPayload (encode_token header (JObj fs) signature) = JObj fs ∧
  getAudience token = nullish_or (claim "aud") JNull ∧
  getWorkspaceClaims token =
    (if truthy (claim "wid")
     then Some (mkClaims (claim "wid") (nullish_or (claim "wslug") (JStr ""))
                  (nullish_or (claim "wrole") (JStr "member")))
     else None) ∧
  isAdminRole token =
    truthy (claim "wid") && (is_str (claim "wrole") "admin" || is_str (claim "wrole") "owner") ∧
  isDeviceToken token = is_str (claim "aud") "device" ∧
  isAdminToken token = is_str (claim "aud") "admin".
Proof.
  intros header signature fs Hh Hs Hp token claim.
  pose proof (decode_encode header (JObj fs) signature Hh Hs Hp) as E.
  assert (getAudience token = nullish_or (claim "aud") JNull) as Ea.
  { unfold token, getAudience. rewrite bool_decide_false by apply encode_token_nonempty.
    by rewrite E. }
  assert (∀ s v, is_str (nullish_or v JNull) s = is_str v s) as Hstr by (by intros s []).
  split_and!; [exact E|exact Ea| | |unfold isDeviceToken; by rewrite Ea|
    unfold isAdminToken; by rewrite Ea].
  - unfold token, getWorkspaceClaims. rewrite bool_decide_false by apply encode_token_nonempty.
    rewrite E. cbn [truthy negb opt_field]. fold (claim "wid"). by destruct (truthy (claim "wid")).
  - unfold isAdminRole, token, getWorkspaceClaims.
    rewrite bool_decide_false by apply encode_token_nonempty.
    rewrite E. cbn [truthy negb opt_field]. fold (claim "wid") (claim "wrole").
    destruct (truthy (claim "wid")); [|done]. cbn [negb wrole].
    by destruct (claim "wrole") as [| | | | | |].
Qed.

Lemma token_claims_witness : isAdminRole (Some (encode_token "e30"
    (JObj [("aud", JStr "admin"); ("wid", JStr "w1"); ("wrole", JStr "owner")]) "sig")) = true.
Proof.
  destruct (token_claims "e30" "sig"
    [("aud", JStr "admin"); ("wid", JStr "w1"); ("wrole", JStr "owner")]) as (_ & _ & _ & H & _).
  - apply (bool_decide_unpack (no_dot _)). vm_compute. exact I.
  - apply (bool_decide_unpack (no_dot _)). vm_compute. exact I.
  - vm_compute. reflexivity.
  - exact H.
Defined.

(** A string that is not of the form a.b.c, or whose payload is not base64 of
    a JSON text, gives neither claims nor an audience: no role, no device or admin
    token; nothing throws, whatever the string. *)
Theorem bad_token_has_no_rights : ∀ token : string,
  (length (split "." token) ≠ 3 ∨
   (∃ h p s, split "." token = [h; p; s] ∧
      ∀ text, atob (replace_all "_" "/" (replace_all "-" "+" p)) = Ok text →
        ∃ e, parse text = Throw e)) →
  decodeJWTPayload token = JNull ∧ getWorkspaceClaims (Some token) = None ∧
  getAudience (Some token) = JNull ∧ isAdminRole (Some token) = false ∧
  isDeviceToken (Some token) = false ∧ isAdminToken (Some token) = false.
Proof.
  intros token Hbad. assert (decodeJWTPayload token = JNull) as E.
  { destruct Hbad as [H|(h & p & s & Hsplit & H)]; [by apply decode_two_dots|].
    unfold decodeJWTPayload. rewrite Hsplit.
    destruct (atob _) as [text|]; [|done]. by destruct (H text eq_refl) as [e ->]. }
  assert (getWorkspaceClaims (Some token) = None) as Ec.
  { unfold getWorkspaceClaims. rewrite E. by case_bool_decide. }
  assert (getAudience (Some token) = JNull) as Ea.
  { unfold getAudience. rewrite E. by case_bool_decide. }
  split_and!; [done|done|done| | |].
  - unfold isAdminRole. by rewrite Ec.
  - unfold isDeviceToken. by rewrite Ea.
  - unfold isAdminToken. by rewrite Ea.
Qed.

Lemma bad_token_has_no_rights_witness : isAdminRole (Some "admin") = false.
Proof.
  apply (bad_token_has_no_rights "admin"). left.
  apply (bool_decide_unpack (_ ≠ _)). vm_compute. exact I.
Defined.
