(* ===== verification/Slug.v ===== *)
(** * Network slugs ([nameToSlug] and [handleSlugChange] of the sign-up and the
    workspace pages)

    The form derives the network's URL from its name; the controller accepts
    [^[a-z0-9][a-z0-9-]{1,61}[a-z0-9]$] only, and refuses some reserved names. *)
From S2P Require Import Prelude JsString.
From Stdlib Require Import Ascii NArith Lia.

Definition dash : ascii := "-"%char.

(** [a-z0-9] and [a-z0-9-] *)
Definition alnum (c : ascii) : bool :=
  let n := code c in ((97 <=? n) && (n <=? 122) || (48 <=? n) && (n <=? 57))%N.
Definition slug_char (c : ascii) : bool := alnum c || bool_decide (c = dash).

(** [.replace(/[^a-z0-9]+/g, '-')]: one dash for a run of other characters; [run] is
    set inside a run. *)
Fixpoint dash_runs (run : bool) (l : list ascii) : list ascii :=
  match l with
  | [] => []
  | c :: l' =>
      if alnum c then c :: dash_runs false l'
      else if run then dash_runs true l' else dash :: dash_runs true l'
  end.

Fixpoint drop_dashes (l : list ascii) : list ascii :=
  match l with
  | c :: l' => if bool_decide (c = dash) then drop_dashes l' else l
  | [] => []
  end.

(** [.replace(/^-+|-+$/g, '')] *)
Definition trim_dashes (l : list ascii) : list ascii :=
  reverse (drop_dashes (reverse (drop_dashes l))).

Definition full_slug (name : string) : list ascii :=
  trim_dashes (dash_runs false (to_list (toLowerCase name))).

Definition nameToSlug (name : string) : string :=
  slice_to 63 (of_list (full_slug name)).

(** [val.toLowerCase().replace(/[^a-z0-9-]/g, '')] *)
Definition clean_slug (val : string) : string :=
  of_list (filter (λ c, slug_char c = true) (to_list (toLowerCase val))).

(** The part of a form that both pages share. *)
Record slug_form := mkForm { form_name : string; form_slug : string; slugEdited : bool }.

Definition handleNameChange (val : string) (f : slug_form) : slug_form :=
  mkForm val (if slugEdited f then form_slug f else nameToSlug val) (slugEdited f).

Definition handleSlugChange (val : string) (f : slug_form) : slug_form :=
  mkForm (form_name f) (clean_slug val) true.

(** The controller's check ([validateSlug], in Go): the length, the pattern (which
    bounds the length itself) and the reserved names. *)
Definition slugRegexp (l : list ascii) : bool :=
  (3 <=? length l) && (length l <=? 63) && forallb slug_char l &&
  match head l, last l with Some c, Some d => alnum c && alnum d | _, _ => false end.

Definition reservedSlugs : list string :=
  ["www"; "api"; "admin"; "app"; "mail"; "ftp"; "localhost"].

Definition controller_accepts (slug : string) : bool :=
  let l := to_list slug in
  if (length l <? 3) || (63 <? length l) then false
  else if negb (slugRegexp l) then false
  else negb (bool_decide (slug ∈ reservedSlugs)).

(** ** Lemmas *)

(** No two dashes in a row. *)
Fixpoint no_double (l : list ascii) : Prop :=
  match l with
  | c :: ((d :: _) as l') => ¬ (c = dash ∧ d = dash) ∧ no_double l'
  | _ => True
  end.

Lemma alnum_not_dash c : alnum c = true → c ≠ dash.
Proof. by intros H ->. Qed.

Lemma slug_char_not_dash c : slug_char c = true → c ≠ dash → alnum c = true.
Proof. unfold slug_char. intros H Hc. rewrite bool_decide_false in H by done. by rewrite orb_false_r in H. Qed.

Lemma dash_runs_chars run l : Forall (λ c, slug_char c = true) (dash_runs run l).
Proof.
  revert run. induction l as [|c l IH]; intros run; [constructor|]. cbn [dash_runs].
  destruct (alnum c) eqn:E; [|destruct run]; try constructor; auto.
  unfold slug_char. by rewrite E.
Qed.

Lemma dash_runs_head l : head (dash_runs true l) ≠ Some dash.
Proof.
  induction l as [|c l IH]; [done|]. cbn [dash_runs].
  destruct (alnum c) eqn:E; [|done]. cbn. intros [= ->]. done.
Qed.

Lemma no_double_cons c l : no_double l → (c = dash → head l ≠ Some dash) → no_double (c :: l).
Proof.
  intros Hl Hc. destruct l as [|d l]; [done|]. split; [|done].
  intros [-> ->]. by apply Hc.
Qed.

Lemma dash_runs_no_double run l : no_double (dash_runs run l).
Proof.
  revert run. induction l as [|c l IH]; intros run; [done|]. cbn [dash_runs].
  destruct (alnum c) eqn:E.
  - apply no_double_cons; [done|]. intros ->. done.
  - destruct run; [done|]. apply no_double_cons; [done|]. intros _. apply dash_runs_head.
Qed.

Lemma drop_dashes_suffix l : ∃ k, l = replicate k dash ++ drop_dashes l.
Proof.
  induction l as [|c l [k IH]]; [by exists 0|]. cbn [drop_dashes].
  case_bool_decide as E; [|by exists 0]. subst c. exists (S k). cbn. by f_equal.
Qed.

Lemma drop_dashes_head l : head (drop_dashes l) ≠ Some dash.
Proof.
  induction l as [|c l IH]; [done|]. cbn [drop_dashes]. case_bool_decide as E; [done|].
  cbn. by intros [= ->].
Qed.

Lemma drop_dashes_id l : head l ≠ Some dash → drop_dashes l = l.
Proof.
  destruct l as [|c l]; [done|]. cbn. intros H. by rewrite bool_decide_false by congruence.
Qed.

(** The trimmed list is a middle part of the list without dashes at its ends. *)
Lemma trim_dashes_spec l : ∃ a b, l = a ++ trim_dashes l ++ b.
Proof.
  destruct (drop_dashes_suffix l) as [k E1].
  destruct (drop_dashes_suffix (reverse (drop_dashes l))) as [j E2].
  exists (replicate k dash), (reverse (replicate j dash)). unfold trim_dashes.
  rewrite <- reverse_app, <- E2, reverse_involutive. done.
Qed.

Lemma last_reverse_head {A} (l : list A) : last (reverse l) = head l.
Proof. by rewrite last_reverse. Qed.

Lemma trim_dashes_ends l :
  head (trim_dashes l) ≠ Some dash ∧ last (trim_dashes l) ≠ Some dash.
Proof.
  unfold trim_dashes. split.
  - rewrite head_reverse.
    destruct (drop_dashes_suffix (reverse (drop_dashes l))) as [k E].
    set (r := drop_dashes (reverse (drop_dashes l))) in *.
    destruct (last r) as [x|] eqn:El; [|done].
    assert (head (drop_dashes l) = Some x) as Hh.
    { rewrite <- (reverse_involutive (drop_dashes l)), E, head_reverse, last_app, El. done. }
    rewrite <- Hh. apply drop_dashes_head.
  - rewrite last_reverse. apply drop_dashes_head.
Qed.

Lemma no_double_middle a l b : no_double (a ++ l ++ b) → no_double l.
Proof.
  induction a as [|c a IH]; cbn [app].
  - induction l as [|c l IH]; [done|]. intros H. apply no_double_cons.
    + apply IH. destruct (l ++ b) eqn:E; [done|]. cbn [app] in H. rewrite E in H. apply H.
    + intros -> Hd. destruct l as [|d l]; [done|]. injection Hd as ->. cbn in H. by destruct H as [[] _].
  - intros H. apply IH. destruct (a ++ l ++ b) as [|d k] eqn:E; [done|].
    apply H.
Qed.

Lemma full_slug_facts name :
  Forall (λ c, slug_char c = true) (full_slug name) ∧ no_double (full_slug name) ∧
  head (full_slug name) ≠ Some dash ∧ last (full_slug name) ≠ Some dash.
Proof.
  unfold full_slug. set (l := dash_runs false _).
  destruct (trim_dashes_spec l) as (a & b & E).
  pose proof (dash_runs_chars false (to_list (toLowerCase name))) as Hc.
  pose proof (dash_runs_no_double false (to_list (toLowerCase name))) as Hd.
  fold l in Hc, Hd. split_and!.
  - rewrite E in Hc. rewrite !Forall_app in Hc. tauto.
  - rewrite E in Hd. by apply no_double_middle in Hd.
  - apply trim_dashes_ends.
  - apply trim_dashes_ends.
Qed.

Lemma take_facts n (l : list ascii) :
  Forall (λ c, slug_char c = true) l → no_double l → head l ≠ Some dash →
  Forall (λ c, slug_char c = true) (take n l) ∧ no_double (take n l) ∧
  head (take n l) ≠ Some dash.
Proof.
  intros Hc Hd Hh. split_and!.
  - by apply Forall_take.
  - rewrite <- (take_drop n l) in Hd. by apply (no_double_middle [] _ (drop n l)).
  - destruct n; [done|]. by destruct l.
Qed.

Lemma slug_list name : to_list (nameToSlug name) = take 63 (full_slug name).
Proof. unfold nameToSlug, slice_to. by rewrite !to_of_list. Qed.

(** The length check is part of the pattern. *)
Lemma accepts_pattern (s : string) :
  controller_accepts s = true ↔ slugRegexp (to_list s) = true ∧ s ∉ reservedSlugs.
Proof.
  unfold controller_accepts. generalize (to_list s). intros l.
  destruct (slugRegexp l) eqn:E; cbn [negb].
  - assert (3 ≤ length l ∧ length l ≤ 63) as [H1 H2].
    { unfold slugRegexp in E. repeat apply andb_true_iff in E as [E ?].
      split; by apply Nat.leb_le. }
    rewrite (proj2 (Nat.ltb_ge _ 3)), (proj2 (Nat.ltb_ge 63 _)) by done. cbn [orb].
    rewrite negb_true_iff, bool_decide_eq_false. naive_solver.
  - destruct (_ || _); naive_solver.
Qed.

(** A list of slug characters that starts well fits the pattern unless it is too short
    or ends in a dash. *)
Lemma accepts_iff (s : string) :
  Forall (λ c, slug_char c = true) (to_list s) → head (to_list s) ≠ Some dash →
  length (to_list s) ≤ 63 →
  controller_accepts s = true ↔
  3 ≤ length (to_list s) ∧ last (to_list s) ≠ Some dash ∧ s ∉ reservedSlugs.
Proof.
  rewrite accepts_pattern, (assoc (∧)). intros Hc0 Hh0 Hlen0.
  apply and_iff_compat_r. revert Hc0 Hh0 Hlen0.
  unfold slugRegexp. generalize (to_list s). intros l Hc Hh Hlen.
  assert (forallb slug_char l = true) as ->.
  { apply forallb_forall. intros c Hin. rewrite Forall_forall in Hc.
    apply Hc. by apply list_elem_of_In. }
  rewrite (proj2 (Nat.leb_le _ 63)) by done. rewrite andb_true_r.
  rewrite andb_true_iff, andb_true_r, Nat.leb_le.
  split; intros [H1 H2]; (split; [done|]).
  - destruct (head l), (last l) as [d|]; try done.
    apply andb_true_iff in H2 as [_ H2]. intros [= ->]. done.
  - destruct l as [|c l]; [cbn in H1; lia|]. cbn [head] in *.
    destruct (last (c :: l)) as [d|] eqn:Ed; [|by apply last_None in Ed].
    rewrite Forall_forall in Hc. apply andb_true_iff. split.
    + apply slug_char_not_dash; [apply Hc; by left|congruence].
    + apply slug_char_not_dash; [apply Hc; by apply last_Some_elem_of|congruence].
Qed.

(** The slug derived from a name has only the characters a-z, 0-9 and dashes,
    never two dashes in a row nor one at the start, and at most 63 characters.  The
    controller accepts it exactly when it has three characters, does not end in a
    dash and is not a reserved name; it ends in a dash only when the 63-character cut falls there, which trimming
    before cutting allows. *)
Theorem derived_slug : ∀ name : string,
  let l := to_list (nameToSlug name) in
  Forall (λ c, slug_char c = true) l ∧ no_double l ∧ head l ≠ Some dash ∧ length l ≤ 63 ∧
  (controller_accepts (nameToSlug name) = true ↔
     3 ≤ length l ∧ last l ≠ Some dash ∧ nameToSlug name ∉ reservedSlugs) ∧
  (last l = Some dash → length l = 63 ∧ 63 < length (full_slug name)).
Proof.
  intros name l. unfold l. destruct (full_slug_facts name) as (Hc & Hd & Hh & Hl).
  destruct (take_facts 63 _ Hc Hd Hh) as (Hc' & Hd' & Hh'). rewrite <- !slug_list in *.
  assert (length (to_list (nameToSlug name)) ≤ 63) as Hlen.
  { rewrite slug_list, length_take. lia. }
  split_and!; try done.
  - by apply accepts_iff.
  - intros Hlast. rewrite slug_list in *.
    destruct (decide (length (full_slug name) ≤ 63)) as [Hle|Hgt].
    + by rewrite take_ge in Hlast by done.
    + rewrite length_take. lia.
Qed.

(** The case is real: a name of 64 characters whose slug the controller refuses. *)
Example cut_at_dash :
  let name := of_list (replicate 62 "a"%char ++ [" "%char; "b"%char]) in
  last (to_list (nameToSlug name)) = Some dash ∧ controller_accepts (nameToSlug name) = false.
Proof. vm_compute. split; reflexivity. Qed.

Lemma dash_runs_id run l :
  Forall (λ c, slug_char c = true) l → no_double l → (run = true → head l ≠ Some dash) →
  dash_runs run l = l.
Proof.
  revert run. induction l as [|c l IH]; intros run Hc Hd Hrun; [done|].
  apply Forall_cons in Hc as [Hc Hcl].
  assert (no_double l) as Hdl by (by apply (no_double_middle [c] l []); rewrite app_nil_r).
  cbn [dash_runs]. destruct (alnum c) eqn:E; [f_equal; by apply IH|].
  assert (c = dash) as ->.
  { destruct (decide (c = dash)); [done|]. by rewrite slug_char_not_dash in E. }
  destruct run; [by destruct Hrun|]. f_equal. apply IH; [done|done|].
  intros _ Hh. destruct l as [|d l]; [done|]. injection Hh as ->. by destruct Hd as [[] _].
Qed.

Lemma slug_char_lower c : slug_char c = true → lower_char c = c.
Proof. by destruct c as [[] [] [] [] [] [] [] []]. Qed.

Lemma slug_lower s : Forall (λ c, slug_char c = true) (to_list s) → toLowerCase s = s.
Proof.
  intros Hs. unfold toLowerCase, map_chars. rewrite <- (of_to_list s) at 2. f_equal.
  rewrite <- (list_fmap_id (to_list s)) at 2. apply list_fmap_ext.
  intros i c Hi%list_elem_of_lookup_2. rewrite Forall_forall in Hs. by apply slug_char_lower, Hs.
Qed.

(** An accepted slug without double dashes is its own slug, as a name and as
    typed text; typing text into the slug field keeps only slug characters, stops the
    name from changing the slug afterwards, and typing the result again changes
    nothing. *)
Theorem slug_form_behaviour : ∀ (f : slug_form) (s val name : string),
  (controller_accepts s = true → no_double (to_list s) →
   nameToSlug s = s ∧ clean_slug s = s) ∧
  form_slug (handleNameChange name (handleSlugChange val f)) = clean_slug val ∧
  Forall (λ c, slug_char c = true) (to_list (clean_slug val)) ∧
  clean_slug (clean_slug val) = clean_slug val ∧
  (slugEdited f = false → form_slug (handleNameChange name f) = nameToSlug name).
Proof.
  intros f s val name.
  assert (∀ v, Forall (λ c, slug_char c = true) (to_list v) → clean_slug v = v) as Hclean.
  { intros v Hv. unfold clean_slug. rewrite slug_lower by done.
    rewrite filter_all by (by apply Forall_forall). apply of_to_list. }
  assert (Forall (λ c, slug_char c = true) (to_list (clean_slug val))) as Hval.
  { unfold clean_slug. rewrite to_of_list. apply Forall_forall.
    by intros c [Hc _]%list_elem_of_filter. }
  split_and!; [|done|done|by apply Hclean|].
  - intros [Ha _]%accepts_pattern Hd. unfold slugRegexp in Ha. set (l := to_list s) in *.
    apply andb_true_iff in Ha as [Ha Hends].
    apply andb_true_iff in Ha as [Ha Hc]. apply andb_true_iff in Ha as [_ Hlen].
    apply Nat.leb_le in Hlen.
    assert (Forall (λ c, slug_char c = true) l) as Hcl.
    { apply Forall_forall. intros c Hin. eapply forallb_forall in Hc; [done|].
      by apply list_elem_of_In. }
    split; [|by apply Hclean].
    destruct (head l) as [c|] eqn:Eh, (last l) as [d|] eqn:El; try done.
    apply andb_true_iff in Hends as [Hac Had].
    assert (head l ≠ Some dash) as Hh by (rewrite Eh; by intros [= ->]).
    assert (last l ≠ Some dash) as Hl by (rewrite El; by intros [= ->]).
    unfold nameToSlug, slice_to, full_slug. rewrite to_of_list, slug_lower by done. fold l.
    rewrite dash_runs_id by done. unfold trim_dashes.
    rewrite (drop_dashes_id l) by done.
    rewrite drop_dashes_id by (by rewrite head_reverse). rewrite reverse_involutive.
    rewrite take_ge by done. apply of_to_list.
  - intros Hf. unfold handleNameChange. cbn [form_slug]. by rewrite Hf.
Qed.

Lemma slug_form_behaviour_witness : nameToSlug "my-net" = "my-net" ∧ clean_slug "my-net" = "my-net".
Proof.
  apply (slug_form_behaviour (mkForm "" "" false) "my-net" "" "").
  - vm_compute. reflexivity.
  - vm_compute. repeat split; intros [? ?]; discriminate.
Defined.
