(* ===== verification/Uri.v ===== *)
(** * encodeURIComponent and decodeURIComponent

    On strings of Latin-1 code units: an unreserved character stands for itself, any
    other ASCII character is %XX, and the characters from 128 to 255 are the two UTF-8
    bytes %C2%XX or %C3%XX. *)
From S2P Require Import Prelude JsString Json.
From Stdlib Require Import Ascii NArith.

(** A-Z a-z 0-9 - _ . ! ~ * ' ( ) *)
Definition unreserved (c : ascii) : bool :=
  let n := JsString.code c in
  ((65 <=? n) && (n <=? 90) || (97 <=? n) && (n <=? 122) || (48 <=? n) && (n <=? 57) ||
   (n =? 45) || (n =? 95) || (n =? 46) || (n =? 33) || (n =? 126) || (39 <=? n) && (n <=? 42))%N.

Definition upper_hex (n : N) : ascii :=
  ascii_of_N (if (n <? 10)%N then n + 48 else n + 55)%N.

Definition percent (n : N) : list ascii := ["%"%char; upper_hex (n / 16); upper_hex (n mod 16)].

Definition encode_char (c : ascii) : list ascii :=
  let n := JsString.code c in
  if unreserved c then [c]
  else if (n <? 128)%N then percent n
  else percent (192 + n / 64) ++ percent (128 + n mod 64).

Definition encodeURIComponent (s : string) : string := of_list (to_list s ≫= encode_char).

(** The byte of [%XX] at the front of a list. *)
Definition percent_byte (l : list ascii) : option (N * list ascii) :=
  match l with
  | p :: a :: b :: l' =>
      if bool_decide (p = "%"%char) then
        match hex_val a, hex_val b with
        | Some x, Some y => Some (16 * x + y, l')%N
        | _, _ => None
        end
      else None
  | _ => None
  end.

(** [None] is a URIError, or a character beyond Latin-1. *)
Fixpoint decode_list (fuel : nat) (l : list ascii) : option (list ascii) :=
  match fuel with
  | O => None
  | S fuel' =>
      match l with
      | [] => Some []
      | c :: l' =>
          if bool_decide (c = "%"%char) then
            match percent_byte l with
            | None => None
            | Some (n, l1) =>
                if (n <? 128)%N then cons (ascii_of_N n) <$> decode_list fuel' l1
                else if ((n =? 194) || (n =? 195))%N then
                  match percent_byte l1 with
                  | Some (m, l2) =>
                      if ((128 <=? m) && (m <? 192))%N
                      then cons (ascii_of_N ((n - 192) * 64 + (m - 128))%N) <$> decode_list fuel' l2
                      else None
                  | None => None
                  end
                else None
            end
          else cons c <$> decode_list fuel' l'
      end
  end.

(** Every character decoded takes at least one of the encoding: the length is enough
    fuel. *)
Definition decodeURIComponent (s : string) : option string :=
  of_list <$> decode_list (S (length (to_list s))) (to_list s).

Lemma decode_encode_char fuel c k :
  decode_list (S fuel) (encode_char c ++ k) = cons c <$> decode_list fuel k.
Proof. by destruct c as [[] [] [] [] [] [] [] []]. Qed.

Lemma encode_char_nonempty c : (1 ≤ length (encode_char c))%nat.
Proof.
  unfold encode_char. destruct (unreserved c); [done|]. destruct (_ <? _)%N; cbn; lia.
Qed.

Lemma decode_list_encode l : ∀ fuel, (length l < fuel)%nat →
  decode_list fuel (l ≫= encode_char) = Some l.
Proof.
  induction l as [|c l IH]; intros [|fuel] Hf; cbn in Hf; try lia; [done|].
  rewrite bind_cons, decode_encode_char, IH by lia. done.
Qed.

Lemma length_encode l : (length l ≤ length (l ≫= encode_char))%nat.
Proof.
  induction l as [|c l IH]; [done|]. rewrite bind_cons, length_app. cbn.
  pose proof (encode_char_nonempty c). lia.
Qed.

Lemma decode_encode_component s : decodeURIComponent (encodeURIComponent s) = Some s.
Proof.
  unfold decodeURIComponent, encodeURIComponent. rewrite to_of_list.
  rewrite decode_list_encode.
  - cbn. by rewrite of_to_list.
  - pose proof (length_encode (to_list s)). lia.
Qed.

(** Encoded text has none of the characters that structure a URL. *)
Lemma encode_char_safe c d : d ∈ encode_char c → d ≠ "/"%char ∧ d ≠ "?"%char ∧ d ≠ "#"%char.
Proof.
  intros Hd. apply (bool_decide_unpack _). apply list_elem_of_In in Hd.
  assert (∀ c, forallb (λ d, bool_decide (d ≠ "/"%char ∧ d ≠ "?"%char ∧ d ≠ "#"%char))
    (encode_char c) = true) as H by (by intros [[] [] [] [] [] [] [] []]).
  pose proof (proj1 (forallb_forall _ _) (H c) d Hd) as Hb. cbv beta in Hb.
  by rewrite Hb.
Qed.

Lemma encode_safe s d : d ∈ to_list (encodeURIComponent s) →
  d ≠ "/"%char ∧ d ≠ "?"%char ∧ d ≠ "#"%char.
Proof.
  unfold encodeURIComponent. rewrite to_of_list.
  intros (c & Hd & _)%list_elem_of_bind. by eapply encode_char_safe.
Qed.

(** An identifier of unreserved characters is its own encoding. *)
Definition plain_id (s : string) : bool := forallb unreserved (to_list s).

Lemma encode_plain s : plain_id s = true → encodeURIComponent s = s.
Proof.
  intros Hs. unfold encodeURIComponent. rewrite <- (of_to_list s) at 2. f_equal.
  unfold plain_id in Hs. induction (to_list s) as [|c l IH]; [done|].
  cbn [forallb] in Hs. apply andb_true_iff in Hs as [Hc Hl].
  rewrite bind_cons, IH by done. unfold encode_char. by rewrite Hc.
Qed.

Lemma encode_nonempty s : s ≠ "" → encodeURIComponent s ≠ "".
Proof.
  intros Hs E. assert (Some s = Some "") as H.
  { rewrite <- (decode_encode_component s), E. done. }
  by injection H.
Qed.

(** ** The query of an address ([URLSearchParams])

    The form encoding: an unreserved character stands for itself, a space is a plus, any
    other character is %XX for each of its UTF-8 bytes. *)

(** A-Z a-z 0-9 * - . _ *)
Definition form_plain (c : ascii) : bool :=
  let n := JsString.code c in
  ((65 <=? n) && (n <=? 90) || (97 <=? n) && (n <=? 122) || (48 <=? n) && (n <=? 57) ||
   (n =? 42) || (n =? 45) || (n =? 46) || (n =? 95))%N.

Definition form_char (c : ascii) : list ascii :=
  let n := JsString.code c in
  if form_plain c then [c]
  else if bool_decide (c = " "%char) then ["+"%char]
  else if (n <? 128)%N then percent n
  else percent (192 + n / 64) ++ percent (128 + n mod 64).

Definition form_encode (s : string) : string := of_list (to_list s ≫= form_char).

Definition pair_text (kv : string * string) : string := form_encode kv.1 +:+ "=" +:+ form_encode kv.2.

(** [new URLSearchParams(params).toString()] *)
Fixpoint serialize (params : list (string * string)) : string :=
  match params with
  | [] => ""
  | [kv] => pair_text kv
  | kv :: l => pair_text kv +:+ "&" +:+ serialize l
  end.

(** The value of a name or a value in a query; [None] for escapes that are no Latin-1
    text. *)
Definition form_decode (s : string) : option string := decodeURIComponent (replace_all "+" " " s).

(** The name ends at the first equals sign. *)
Definition pair_of (s : string) : option (string * string) :=
  match indexOf "=" s with
  | Some i => k ← form_decode (slice_to i s); v ← form_decode (slice_from (S i) s); Some (k, v)
  | None => k ← form_decode s; Some (k, "")
  end.

(** [new URLSearchParams(s)]; empty pieces are left out. *)
Definition parse_query (s : string) : option (list (string * string)) :=
  mapM pair_of (filter (λ t, t ≠ "") (split "&" s)).

(** ** What is written is read back *)

Definition space_of_plus (c : ascii) : ascii := if decide (c = "+"%char) then " "%char else c.

Lemma decode_form_char fuel c k :
  decode_list (S fuel) ((space_of_plus <$> form_char c) ++ k) = cons c <$> decode_list fuel k.
Proof. by destruct c as [[] [] [] [] [] [] [] []]. Qed.

Lemma length_form_char c : (1 ≤ length (form_char c))%nat.
Proof. unfold form_char. repeat case_match; cbn; lia. Qed.

Lemma decode_form_list l : ∀ fuel, (length l < fuel)%nat →
  decode_list fuel (space_of_plus <$> (l ≫= form_char)) = Some l.
Proof.
  induction l as [|c l IH]; intros [|fuel] Hf; cbn in Hf; try lia; [done|].
  rewrite bind_cons, fmap_app, decode_form_char, IH by lia. done.
Qed.

Lemma length_form_list l : (length l ≤ length (l ≫= form_char))%nat.
Proof.
  induction l as [|c l IH]; [done|]. rewrite bind_cons, length_app. cbn.
  pose proof (length_form_char c). lia.
Qed.

Lemma form_decode_encode s : form_decode (form_encode s) = Some s.
Proof.
  unfold form_decode, form_encode, replace_all, map_chars, decodeURIComponent.
  rewrite !to_of_list. change (λ x, if decide (x = "+"%char) then " "%char else x) with space_of_plus.
  rewrite decode_form_list.
  - cbn. by rewrite of_to_list.
  - rewrite length_fmap. pose proof (length_form_list (to_list s)). lia.
Qed.

(** Encoded text has neither of the separators. *)
Lemma form_char_safe c : "&"%char ∉ form_char c ∧ "="%char ∉ form_char c.
Proof.
  split; apply (bool_decide_unpack (_ ∉ _));
    destruct c as [[] [] [] [] [] [] [] []]; vm_compute; exact I.
Qed.

Lemma form_encode_safe d s : (∀ c, d ∉ form_char c) → d ∉ to_list (form_encode s).
Proof.
  intros Hd. unfold form_encode. rewrite to_of_list. intros (c & H & _)%list_elem_of_bind.
  by apply (Hd c).
Qed.

Lemma index_of_app c l k : c ∉ l → index_of c (l ++ c :: k) = Some (length l).
Proof.
  induction l as [|d l IH]; intros Hc; cbn; [by rewrite decide_True|].
  apply not_elem_of_cons in Hc as [Hd Hc]. by rewrite decide_False, IH by done.
Qed.

Lemma pair_of_text kv : pair_of (pair_text kv) = Some kv.
Proof.
  destruct kv as [k v]. unfold pair_of, pair_text, indexOf. cbn [fst snd].
  assert (to_list (form_encode k +:+ "=" +:+ form_encode v) =
    to_list (form_encode k) ++ "="%char :: to_list (form_encode v)) as E by by rewrite to_list_app.
  unfold slice_to, slice_from. rewrite !E.
  rewrite index_of_app by apply form_encode_safe, form_char_safe.
  rewrite take_app_length. rewrite (cons_middle _ (to_list (form_encode k))), app_assoc.
  rewrite (drop_app_length' _ _ (S _)) by (rewrite length_app; cbn; lia).
  by rewrite !of_to_list, !form_decode_encode.
Qed.

Lemma pair_text_safe kv : "&"%char ∉ to_list (pair_text kv).
Proof.
  unfold pair_text. rewrite !to_list_app, !not_elem_of_app.
  split_and!; [apply form_encode_safe, form_char_safe| |apply form_encode_safe, form_char_safe].
  apply (bool_decide_unpack (_ ∉ _)). vm_compute. exact I.
Qed.

Lemma pair_text_nonempty kv : pair_text kv ≠ "".
Proof. unfold pair_text. intros E. apply (f_equal to_list) in E. rewrite !to_list_app in E.
  by destruct (to_list (form_encode kv.1)). Qed.

Lemma pieces_serialize l :
  filter (λ t, t ≠ "") (split "&" (serialize l)) = pair_text <$> l.
Proof.
  induction l as [|kv l IH]; [done|]. destruct l as [|kv' l].
  - cbn [serialize fmap list_fmap]. unfold split. rewrite split_list_no_sep by apply pair_text_safe.
    cbn [fmap list_fmap]. rewrite of_to_list, filter_cons_True by apply pair_text_nonempty. done.
  - change (serialize (kv :: kv' :: l)) with (pair_text kv +:+ "&" +:+ serialize (kv' :: l)).
    unfold split. rewrite !to_list_app. change (to_list "&") with ["&"%char]. cbn [app].
    rewrite split_list_app by apply pair_text_safe. rewrite fmap_cons, of_to_list.
    rewrite filter_cons_True by apply pair_text_nonempty. by rewrite fmap_cons, <- IH.
Qed.

Lemma parse_serialize l : parse_query (serialize l) = Some l.
Proof.
  unfold parse_query. rewrite pieces_serialize. apply mapM_Some.
  induction l as [|kv l IH]; [by apply Forall2_nil_2|]. rewrite fmap_cons.
  apply Forall2_cons_2; [apply pair_of_text|done].
Qed.
