(* ===== verification/Storage.v ===== *)
(** * The browser's local storage

    The settings of the policy pages, the bearer token and the invitation token
    are kept in [window.localStorage]: a map from strings to strings.  [None] is a
    program run without a [window] object, which the settings modules test with
    [typeof window === 'undefined']. *)
From S2P Require Import Prelude JsString Json JsonRoundtrip.
From stdpp Require Import gmap.
From Stdlib Require Import ZArith.

Abbreviation items := (gmap string string).
Abbreviation storage := (option items).

Definition no_window : M storage bool := gets (λ s, bool_decide (s = None)).

(** Without a window the global name is undefined and using it throws. *)
Definition getItem (key : string) : M storage (option string) := λ s,
  match s with
  | Some m => (s, Ok (m !! key))
  | None => (s, Throw TypeError)
  end.

Definition setItem (key value : string) : M storage unit := λ s,
  match s with
  | Some m => (Some (<[key := value]> m), Ok tt)
  | None => (s, Throw TypeError)
  end.

Definition removeItem (key : string) : M storage unit := λ s,
  match s with
  | Some m => (Some (delete key m), Ok tt)
  | None => (s, Throw TypeError)
  end.

(** [setItem(key, JSON.stringify(v))]; undefined is stored as its name. *)
Definition set_json (key : string) (v : jsv) : M storage unit :=
  setItem key (default "undefined" (stringify v)).

(** A value computed without touching the store, which may throw. *)
Definition lift {S A} (o : outcome A) : M S A := λ s, (s, o).

(** [l.some(f)], [l.find(f)] and [l.filter(f)] with a callback that may throw. *)
Fixpoint someEach {S A} (f : A → M S bool) (l : list A) : M S bool :=
  match l with
  | [] => mret false
  | x :: l' => b ← f x; if b : bool then mret true else someEach f l'
  end.

Fixpoint findEach {S A} (f : A → M S bool) (l : list A) : M S (option A) :=
  match l with
  | [] => mret None
  | x :: l' => b ← f x; if b : bool then mret (Some x) else findEach f l'
  end.

Fixpoint filterEach {S A} (f : A → M S bool) (l : list A) : M S (list A) :=
  match l with
  | [] => mret []
  | x :: l' => b ← f x; ys ← filterEach f l'; mret (if b : bool then x :: ys else ys)
  end.

(** [a === b] on values of which at most one comes from the caller: two distinct
    objects are never equal. *)
Definition strict_eq (a b : jsv) : bool :=
  match a, b with
  | JUndef, JUndef | JNull, JNull => true
  | JBool x, JBool y => Bool.eqb x y
  | JNum (Dec m e), JNum (Dec m' e') => bool_decide (m = m' ∧ e = e')
  | JNum (Infinity x), JNum (Infinity y) => Bool.eqb x y
  | JStr x, JStr y => bool_decide (x = y)
  | _, _ => false
  end.

(** ** Lemmas *)

(** When the callback does not throw on any element these are the pure
    operations. *)
Section Pure.
  Context {S A : Type} (f : A → M S bool) (p : A → bool).

Lemma someEach_pure l s :
  (∀ x, x ∈ l → f x s = (s, Ok (p x))) → someEach f l s = (s, Ok (existsb p l)).
Proof.
  induction l as [|x l IH]; intros Hf; [done|]. cbn [someEach existsb].
  unfold mbind, M_bind. rewrite Hf by (by left). destruct (p x); [done|].
  apply IH. intros y Hy. apply Hf. by right.
Qed.

Lemma findEach_pure l s :
  (∀ x, x ∈ l → f x s = (s, Ok (p x))) → findEach f l s = (s, Ok (find_row p l)).
Proof.
  induction l as [|x l IH]; intros Hf; [done|]. cbn [findEach].
  unfold mbind, M_bind, find_row. rewrite Hf by (by left). rewrite filter_cons.
  destruct (p x); [done|]. case_decide as H; [done|]. apply IH. intros y Hy. apply Hf. by right.
Qed.

Lemma filterEach_pure l s :
  (∀ x, x ∈ l → f x s = (s, Ok (p x))) →
  filterEach f l s = (s, Ok (filter (λ x, p x = true) l)).
Proof.
  induction l as [|x l IH]; intros Hf; [done|]. cbn [filterEach].
  unfold mbind, M_bind. rewrite Hf by (by left).
  rewrite IH by (intros y Hy; apply Hf; by right).
  rewrite filter_cons. by destruct (p x).
Qed.
End Pure.

Lemma mapEach_pure {S A B} (f : A → M S B) (g : A → B) l s :
  (∀ x, x ∈ l → f x s = (s, Ok (g x))) → mapEach f l s = (s, Ok (g <$> l)).
Proof.
  induction l as [|x l IH]; intros Hf; [done|]. cbn [mapEach].
  unfold mbind, M_bind. rewrite Hf by (by left).
  rewrite IH by (intros y Hy; apply Hf; by right). done.
Qed.

Lemma set_json_plain key v (m : items) : plain v = true →
  set_json key v (Some m) = (Some (<[key := of_list (print_raw v)]> m), Ok tt).
Proof. intros Hv. unfold set_json. by rewrite stringify_plain. Qed.

Lemma print_raw_nonempty v : plain v = true → of_list (print_raw v) ≠ "".
Proof. intros Hv. destruct (print_raw_head v Hv) as (c & w & -> & _). done. Qed.

(** ** Operations that own a key

    What a settings module promises to the others that share the storage: its
    operations look at one key and change no other, whatever they find there, and
    whether they return or throw. *)
Class KeyLocal (key : string) {A} (op : M storage A) : Prop :=
  key_local m1 m2 : m1 !! key = m2 !! key → ∃ m1' m2' r,
    op (Some m1) = (Some m1', r) ∧ op (Some m2) = (Some m2', r) ∧
    m1' !! key = m2' !! key ∧
    (∀ k, k ≠ key → m1' !! k = m1 !! k) ∧ (∀ k, k ≠ key → m2' !! k = m2 !! k).

#[export] Instance lift_local key {A} (o : outcome A) : KeyLocal key (lift o).
Proof. intros m1 m2 Hk. by exists m1, m2, o. Qed.

#[export] Instance ret_local key {A} (a : A) : KeyLocal key (mret a).
Proof. exact (lift_local key (Ok a)). Qed.

#[export] Instance throw_local key {A} e : KeyLocal key (throw (A:=A) e).
Proof. exact (lift_local key (Throw e)). Qed.

#[export] Instance no_window_local key : KeyLocal key no_window.
Proof. exact (lift_local key (Ok false)). Qed.

#[export] Instance getItem_local key : KeyLocal key (getItem key).
Proof. intros m1 m2 Hk. exists m1, m2, (Ok (m1 !! key)). cbn. by rewrite Hk. Qed.

#[export] Instance setItem_local key v : KeyLocal key (setItem key v).
Proof.
  intros m1 m2 Hk. eexists _, _, _. split_and!; [done|done| | |];
    [by rewrite !lookup_insert_eq|by intros; rewrite lookup_insert_ne..].
Qed.

#[export] Instance set_json_local key v : KeyLocal key (set_json key v).
Proof. apply setItem_local. Qed.

(** Sequencing and handling, by the two ways a run of the first part can end. *)
Lemma after_local key {A B} (m : M storage A) (k : outcome A → M storage B) :
  KeyLocal key m → (∀ r, KeyLocal key (k r)) →
  KeyLocal key (λ s, let '(s', r) := m s in k r s').
Proof.
  intros Hm Hk m1 m2 H0. destruct (Hm m1 m2 H0) as (m1' & m2' & r & E1 & E2 & H1 & F1 & F2).
  destruct (Hk r m1' m2' H1) as (n1 & n2 & q & G1 & G2 & H2 & F3 & F4).
  exists n1, n2, q. rewrite E1, E2. split_and!; [done|done|done|..];
    intros k' Hne; [by rewrite F3, F1|by rewrite F4, F2].
Qed.

#[export] Instance bind_local key {A B} (m : M storage A) (f : A → M storage B) :
  KeyLocal key m → (∀ a, KeyLocal key (f a)) → KeyLocal key (m ≫= f).
Proof.
  intros Hm Hf m1 m2 H0.
  destruct (after_local key m (λ r, match r with Ok a => f a | Throw e => throw e end) Hm
    ltac:(by intros [a|e]; [apply Hf|apply throw_local]) m1 m2 H0) as (n1 & n2 & q & G).
  exists n1, n2, q. revert G. unfold mbind, M_bind.
  by destruct (m (Some m1)) as [? [?|?]], (m (Some m2)) as [? [?|?]].
Qed.

#[export] Instance try_local key {A} (m : M storage A) h :
  KeyLocal key m → (∀ e, KeyLocal key (h e)) → KeyLocal key (try_catch m h).
Proof.
  intros Hm Hh m1 m2 H0.
  destruct (after_local key m (λ r, match r with Ok a => mret a | Throw e => h e end) Hm
    ltac:(by intros [a|e]; [apply ret_local|apply Hh]) m1 m2 H0) as (n1 & n2 & q & G).
  exists n1, n2, q. revert G. unfold try_catch.
  by destruct (m (Some m1)) as [? [?|?]], (m (Some m2)) as [? [?|?]].
Qed.

#[export] Hint Extern 5 (KeyLocal _ (match ?x with _ => _ end)) => destruct x
  : typeclass_instances.

Section Each.
  Context (key : string) {A B : Type}.

#[export] Instance someEach_local (f : A → M storage bool) l :
  (∀ x, KeyLocal key (f x)) → KeyLocal key (someEach f l).
Proof. intros Hf. induction l; cbn [someEach]; apply _. Qed.

#[export] Instance findEach_local (f : A → M storage bool) l :
  (∀ x, KeyLocal key (f x)) → KeyLocal key (findEach f l).
Proof. intros Hf. induction l; cbn [findEach]; apply _. Qed.

#[export] Instance filterEach_local (f : A → M storage bool) l :
  (∀ x, KeyLocal key (f x)) → KeyLocal key (filterEach f l).
Proof. intros Hf. induction l; cbn [filterEach]; apply _. Qed.

#[export] Instance mapEach_local (f : A → M storage B) l :
  (∀ x, KeyLocal key (f x)) → KeyLocal key (mapEach f l).
Proof. intros Hf. induction l; cbn [mapEach]; apply _. Qed.
End Each.
