(* ===== verification/ResourcePolicies.v ===== *)
(** * Resource policies ([lib/resource-policies.ts])

    A list of policies in local storage.  What is read back is unchecked JSON, so
    the operations work on dynamic values; on well-formed content they refine
    operations on a list of records, and the invariant of the list (a default
    policy, distinct names and identifiers) is proved for these. *)
From S2P Require Import Prelude JsString Json JsonRoundtrip Storage.
From stdpp Require Import gmap.
From Stdlib Require Import ZArith.

Inductive DeviceSecurityMode := any_mode | trusted_mode | custom_mode.

Definition mode_name (m : DeviceSecurityMode) : string :=
  match m with any_mode => "any" | trusted_mode => "trusted" | custom_mode => "custom" end.

Record ResourcePolicy := mkPolicy {
  policy_id : string; policy_name : string; isDefault : bool;
  deviceSecurity : DeviceSecurityMode }.

Definition policy_js (p : ResourcePolicy) : jsv :=
  JObj [("id", JStr (policy_id p)); ("name", JStr (policy_name p));
        ("isDefault", JBool (isDefault p));
        ("deviceSecurity", JObj [("mode", JStr (mode_name (deviceSecurity p)))])].

Definition STORAGE_KEY : string := "gm_resource_policies_v1".
Definition DEFAULT_ID : string := "default".

Definition safeParse (json : option string) : list jsv :=
  match json with
  | None => []
  | Some s =>
      if bool_decide (s = "") then []
      else match parse s with Ok (JArr l) => l | _ => [] end
  end.

Definition readAll : M storage (list jsv) :=
  undef ← no_window;
  if undef : bool then mret [] else json ← getItem STORAGE_KEY; mret (safeParse json).

Definition writeAll (policies : list jsv) : M storage unit :=
  undef ← no_window;
  if undef : bool then mret tt else set_json STORAGE_KEY (JArr policies).

(** The sources of fresh names: [crypto.randomUUID()] where the browser has it,
    [Date.now()] and the digits of [Math.random().toString(16).slice(2)]. *)
Record id_source := mkIds { randomUUID : option string; now : Z; random_hex : string }.

Definition newId (ids : id_source) (prefix : string) : string :=
  match randomUUID ids with
  | Some u => prefix +:+ "_" +:+ u
  | None => prefix +:+ "_" +:+ string_of_Z (now ids) +:+ "_" +:+ random_hex ids
  end.

Definition default_policy : ResourcePolicy :=
  mkPolicy DEFAULT_ID "Default Policy" true any_mode.

(** [p.id === id] *)
Definition id_is (id : jsv) (p : jsv) : M storage bool :=
  v ← lift (field p "id"); mret (strict_eq v id).

Definition ensureDefaultResourcePolicy : M storage unit :=
  policies ← readAll;
  hasDefault ← someEach (id_is (JStr DEFAULT_ID)) policies;
  if hasDefault : bool then mret tt else writeAll (policy_js default_policy :: policies).

Definition listResourcePolicies : M storage (list jsv) :=
  ensureDefaultResourcePolicy ;; readAll.

(** [... ?? null] *)
Definition getResourcePolicy (id : string) : M storage jsv :=
  policies ← listResourcePolicies;
  found ← findEach (id_is (JStr id)) policies;
  mret (nullish_or (default JUndef found) JNull).

(** [p.name.toLowerCase() === name] *)
Definition name_is (name : string) (p : jsv) : M storage bool :=
  v ← lift (field p "name");
  match v with
  | JStr s => mret (bool_decide (toLowerCase s = name))
  | _ => throw TypeError
  end.

Definition createResourcePolicy (ids : id_source) (name : string) : M storage jsv :=
  let trimmed := trim name in
  if bool_decide (trimmed = "") then throw (JsError "Policy name is required.")
  else
    policies ← listResourcePolicies;
    exists_ ← someEach (name_is (toLowerCase trimmed)) policies;
    if exists_ : bool then throw (JsError "A policy with this name already exists.")
    else
      let policy := policy_js (mkPolicy (newId ids "pol") trimmed false any_mode) in
      writeAll (policy :: policies) ;;
      mret policy.

Definition saveResourcePolicy (policy : jsv) : M storage unit :=
  policies ← listResourcePolicies;
  next ← mapEach (λ p,
    v ← lift (field p "id"); w ← lift (field policy "id");
    mret (if strict_eq v w then policy else p)) policies;
  writeAll next.

(** The identifier the pages pass is the one of a listed policy: dynamic. *)
Definition deleteResourcePolicy (id : jsv) : M storage unit :=
  if is_str id DEFAULT_ID then mret tt
  else
    policies ← listResourcePolicies;
    kept ← filterEach (λ p, v ← lift (field p "id"); mret (negb (strict_eq v id))) policies;
    writeAll kept.

(** [setDeviceMode] of the detail page, on the policy it has loaded. *)
Definition setDeviceMode (policy : jsv) (mode : DeviceSecurityMode) : M storage unit :=
  match policy with
  | JObj fs =>
      saveResourcePolicy
        (JObj (assoc_set "deviceSecurity" (JObj [("mode", JStr (mode_name mode))]) fs))
  | _ => mret tt
  end.

(** [useEffect] of the detail page followed by [setDeviceMode]. *)
Definition openAndSetMode (id : string) (mode : DeviceSecurityMode) : M storage unit :=
  ensureDefaultResourcePolicy ;;
  policy ← getResourcePolicy id;
  setDeviceMode policy mode.

(** [handleDelete] of the list page, when the user confirms. *)
Definition handleDelete (policy : jsv) : M storage unit :=
  def ← lift (field policy "isDefault");
  if truthy def then mret tt
  else id ← lift (field policy "id"); deleteResourcePolicy id.

(** ** Specification on lists of records *)

Definition is_id (id : string) (p : ResourcePolicy) : bool := bool_decide (policy_id p = id).

Definition with_default (ps : list ResourcePolicy) : list ResourcePolicy :=
  if existsb (is_id DEFAULT_ID) ps then ps else default_policy :: ps.

Definition name_taken (name : string) (ps : list ResourcePolicy) : bool :=
  existsb (λ p, bool_decide (toLowerCase (policy_name p) = toLowerCase name)) ps.

Definition set_mode (mode : DeviceSecurityMode) (p : ResourcePolicy) : ResourcePolicy :=
  mkPolicy (policy_id p) (policy_name p) (isDefault p) mode.

Definition replace_policy (q : ResourcePolicy) (ps : list ResourcePolicy) : list ResourcePolicy :=
  (λ p, if is_id (policy_id q) p then q else p) <$> ps.

Definition remove_policy (id : string) (ps : list ResourcePolicy) : list ResourcePolicy :=
  if bool_decide (id = DEFAULT_ID) then ps
  else filter (λ p, policy_id p ≠ id) (with_default ps).

(** The storage holds exactly [ps]. *)
Definition holds (s : storage) (ps : list ResourcePolicy) : Prop :=
  is_Some s ∧ readAll s = (s, Ok (policy_js <$> ps)).

(** ** Lemmas *)

Lemma policy_plain p : plain (policy_js p) = true.
Proof. by destruct p as [? ? [] []]. Qed.

Lemma policies_plain ps : plain (JArr (policy_js <$> ps)) = true.
Proof. induction ps as [|p ps IH]; [done|]. cbn [plain fmap list_fmap forallb] in *.
  by rewrite policy_plain, IH. Qed.

Lemma readAll_Some m : readAll (Some m) = (Some m, Ok (safeParse (m !! STORAGE_KEY))).
Proof. done. Qed.

Lemma holds_Some m ps :
  holds (Some m) ps ↔ safeParse (m !! STORAGE_KEY) = policy_js <$> ps.
Proof.
  unfold holds. rewrite readAll_Some. split; [intros [_ H]; by injection H|].
  intros ->. split; [by eexists|done].
Qed.

(** Writing a list of policies makes the storage hold it, and touches no other
    key. *)
Lemma writeAll_policies m ps :
  writeAll (policy_js <$> ps) (Some m) =
    (Some (<[STORAGE_KEY := of_list (print_raw (JArr (policy_js <$> ps)))]> m), Ok tt) ∧
  holds (Some (<[STORAGE_KEY := of_list (print_raw (JArr (policy_js <$> ps)))]> m)) ps.
Proof.
  pose proof (policies_plain ps) as Hp. split.
  - change (set_json STORAGE_KEY (JArr (policy_js <$> ps)) (Some m) =
      (Some (<[STORAGE_KEY := of_list (print_raw (JArr (policy_js <$> ps)))]> m), Ok tt)).
    by apply set_json_plain.
  - apply holds_Some. rewrite lookup_insert_eq. unfold safeParse.
    rewrite bool_decide_false by (by apply print_raw_nonempty). by rewrite parse_print.
Qed.

(** The storage after the run holds [ps]; every other key is as before. *)
Definition now_holds (m : items) (s : storage) (ps : list ResourcePolicy) : Prop :=
  holds s ps ∧ ∃ m', s = Some m' ∧ ∀ k, k ≠ STORAGE_KEY → m' !! k = m !! k.

Lemma now_holds_refl m ps : holds (Some m) ps → now_holds m (Some m) ps.
Proof. intros H. split; [done|]. by exists m. Qed.

Lemma now_holds_trans m m1 s ps1 ps2 :
  now_holds m (Some m1) ps1 → now_holds m1 s ps2 → now_holds m s ps2.
Proof.
  intros [_ (m1' & [= <-] & H1)] [H2 (m2 & -> & H3)]. split; [done|].
  exists m2. split; [done|]. intros k Hk. by rewrite H3, H1.
Qed.

Lemma writeAll_now_holds m ps : ∃ s,
  writeAll (policy_js <$> ps) (Some m) = (s, Ok tt) ∧ now_holds m s ps.
Proof.
  destruct (writeAll_policies m ps) as [H1 H2]. eexists. split; [exact H1|].
  split; [exact H2|]. eexists. split; [done|]. intros k Hk. by rewrite lookup_insert_ne.
Qed.

Lemma id_is_policy id p s : id_is (JStr id) (policy_js p) s = (s, Ok (is_id id p)).
Proof. done. Qed.

Lemma someEach_policies (f : jsv → M storage bool) (p : ResourcePolicy → bool) ps s :
  (∀ q, f (policy_js q) s = (s, Ok (p q))) →
  someEach f (policy_js <$> ps) s = (s, Ok (existsb p ps)).
Proof.
  intros Hf. induction ps as [|q ps IH]; [done|]. rewrite fmap_cons. cbn [someEach existsb].
  unfold mbind, M_bind. rewrite Hf. by destruct (p q).
Qed.

Lemma findEach_policies (f : jsv → M storage bool) (p : ResourcePolicy → bool) ps s :
  (∀ q, f (policy_js q) s = (s, Ok (p q))) →
  findEach f (policy_js <$> ps) s = (s, Ok (policy_js <$> find_row p ps)).
Proof.
  intros Hf. induction ps as [|q ps IH]; [done|]. rewrite fmap_cons. cbn [findEach].
  unfold mbind, M_bind, find_row. rewrite Hf, filter_cons. destruct (p q); [done|].
  case_decide; [done|]. apply IH.
Qed.

Lemma filterEach_policies (f : jsv → M storage bool) (p : ResourcePolicy → bool) ps s :
  (∀ q, f (policy_js q) s = (s, Ok (p q))) →
  filterEach f (policy_js <$> ps) s = (s, Ok (policy_js <$> filter (λ q, p q = true) ps)).
Proof.
  intros Hf. induction ps as [|q ps IH]; [done|]. rewrite fmap_cons. cbn [filterEach].
  unfold mbind, M_bind. rewrite Hf, IH, filter_cons. by destruct (p q).
Qed.

Lemma mapEach_policies (f : jsv → M storage jsv) (g : ResourcePolicy → ResourcePolicy) ps s :
  (∀ q, f (policy_js q) s = (s, Ok (policy_js (g q)))) →
  mapEach f (policy_js <$> ps) s = (s, Ok (policy_js <$> (g <$> ps))).
Proof.
  intros Hf. induction ps as [|q ps IH]; [done|]. rewrite !fmap_cons. cbn [mapEach].
  unfold mbind, M_bind. by rewrite Hf, IH.
Qed.

Lemma ensure_run m ps : holds (Some m) ps → ∃ m',
  ensureDefaultResourcePolicy (Some m) = (Some m', Ok tt) ∧
  now_holds m (Some m') (with_default ps).
Proof.
  intros Hm. unfold ensureDefaultResourcePolicy.
  rewrite (bind_run _ _ _ _ _ (proj2 Hm)).
  rewrite (bind_run _ _ _ (Some m) (existsb (is_id DEFAULT_ID) ps)) by
    (by apply someEach_policies).
  unfold with_default. destruct (existsb _ _).
  - exists m. split; [done|]. by apply now_holds_refl.
  - destruct (writeAll_now_holds m (default_policy :: ps)) as (s & E & H).
    destruct (proj2 H) as (m' & -> & _). by exists m'.
Qed.

Lemma list_run m ps : holds (Some m) ps → ∃ m',
  listResourcePolicies (Some m) = (Some m', Ok (policy_js <$> with_default ps)) ∧
  now_holds m (Some m') (with_default ps).
Proof.
  intros Hm. destruct (ensure_run m ps Hm) as (m' & E & H).
  exists m'. split; [|done]. unfold listResourcePolicies.
  rewrite (bind_run _ _ _ _ _ E). apply H.
Qed.

Lemma with_default_idemp ps : with_default (with_default ps) = with_default ps.
Proof.
  unfold with_default. destruct (existsb (is_id DEFAULT_ID) ps) eqn:E; [by rewrite E|done].
Qed.

Lemma get_run m ps id : holds (Some m) ps → ∃ m',
  getResourcePolicy id (Some m) =
    (Some m', Ok (from_option policy_js JNull (find_row (is_id id) (with_default ps)))) ∧
  now_holds m (Some m') (with_default ps).
Proof.
  intros Hm. destruct (list_run m ps Hm) as (m' & E & H). exists m'. split; [|done].
  unfold getResourcePolicy. rewrite (bind_run _ _ _ _ _ E).
  rewrite (bind_run _ _ _ (Some m') (policy_js <$> find_row (is_id id) (with_default ps))) by
    (by apply findEach_policies).
  by destruct (find_row _ _).
Qed.

Lemma create_run m ps ids name : holds (Some m) ps → ∃ m',
  createResourcePolicy ids name (Some m) =
    (if decide (trim name = "") then (Some m', Throw (JsError "Policy name is required."))
     else if name_taken (trim name) (with_default ps)
     then (Some m', Throw (JsError "A policy with this name already exists."))
     else (Some m', Ok (policy_js (mkPolicy (newId ids "pol") (trim name) false any_mode)))) ∧
  now_holds m (Some m')
    (if decide (trim name = "") then ps
     else if name_taken (trim name) (with_default ps) then with_default ps
     else mkPolicy (newId ids "pol") (trim name) false any_mode :: with_default ps).
Proof.
  intros Hm. unfold createResourcePolicy. cbv zeta.
  destruct (decide (trim name = "")) as [Ht|Ht].
  { rewrite bool_decide_true by done. exists m. split; [done|]. by apply now_holds_refl. }
  rewrite bool_decide_false by done. destruct (list_run m ps Hm) as (m1 & E & H1).
  rewrite (bind_run _ _ _ _ _ E).
  rewrite (bind_run _ _ _ (Some m1) (name_taken (trim name) (with_default ps))) by
    (by apply someEach_policies).
  destruct (name_taken _ _).
  - by exists m1.
  - set (p := mkPolicy _ _ _ _).
    destruct (writeAll_now_holds m1 (p :: with_default ps)) as (s & E2 & H2).
    destruct (proj2 H2) as (m2 & -> & _). exists m2. split; [|by eapply now_holds_trans].
    rewrite fmap_cons in E2. by rewrite (bind_run _ _ _ _ _ E2).
Qed.

Lemma save_run m ps q : holds (Some m) ps → ∃ m',
  saveResourcePolicy (policy_js q) (Some m) = (Some m', Ok tt) ∧
  now_holds m (Some m') (replace_policy q (with_default ps)).
Proof.
  intros Hm. destruct (list_run m ps Hm) as (m1 & E & H1). unfold saveResourcePolicy.
  rewrite (bind_run _ _ _ _ _ E).
  rewrite (bind_run _ _ _ (Some m1) (policy_js <$> replace_policy q (with_default ps))).
  - destruct (writeAll_now_holds m1 (replace_policy q (with_default ps))) as (s & E2 & H2).
    destruct (proj2 H2) as (m2 & -> & _). exists m2. split; [done|by eapply now_holds_trans].
  - apply mapEach_policies. intros p.
    transitivity (Some m1, Ok (if is_id (policy_id q) p then policy_js q else policy_js p));
      [done|by destruct (is_id _ _)].
Qed.

Lemma delete_run m ps id : holds (Some m) ps → ∃ m',
  deleteResourcePolicy (JStr id) (Some m) = (Some m', Ok tt) ∧
  now_holds m (Some m') (remove_policy id ps).
Proof.
  intros Hm. unfold deleteResourcePolicy, remove_policy. cbn [is_str].
  destruct (decide (id = DEFAULT_ID)) as [->|Hid].
  { exists m. split; [done|]. by apply now_holds_refl. }
  rewrite !bool_decide_false by done. destruct (list_run m ps Hm) as (m1 & E & H1).
  rewrite (bind_run _ _ _ _ _ E).
  set (kept := filter (λ p, policy_id p ≠ id) (with_default ps)).
  rewrite (bind_run _ _ _ (Some m1) (policy_js <$> kept)).
  - destruct (writeAll_now_holds m1 kept) as (s & E2 & H2).
    destruct (proj2 H2) as (m2 & -> & _). exists m2. split; [done|by eapply now_holds_trans].
  - rewrite (filterEach_policies _ (λ p, negb (is_id id p))) by done.
    do 3 f_equal. subst kept. apply list_filter_iff. intros p. unfold is_id.
    case_bool_decide; naive_solver.
Qed.

Lemma setDeviceMode_policy p mode :
  setDeviceMode (policy_js p) mode = saveResourcePolicy (policy_js (set_mode mode p)).
Proof. done. Qed.

(** What opening the detail page of [id] and choosing [mode] does to the list. *)
Definition mode_set (id : string) (mode : DeviceSecurityMode) (ps : list ResourcePolicy) :
  list ResourcePolicy :=
  match find_row (is_id id) (with_default ps) with
  | Some p => replace_policy (set_mode mode p) (with_default ps)
  | None => with_default ps
  end.

Lemma open_run m ps id mode : holds (Some m) ps → ∃ m',
  openAndSetMode id mode (Some m) = (Some m', Ok tt) ∧
  now_holds m (Some m') (mode_set id mode ps).
Proof.
  intros Hm. destruct (ensure_run m ps Hm) as (m1 & E1 & H1). unfold openAndSetMode, mode_set.
  rewrite (bind_run _ _ _ _ _ E1).
  destruct (get_run m1 _ id (proj1 H1)) as (m2 & E2 & H2).
  rewrite (bind_run _ _ _ _ _ E2). rewrite with_default_idemp in *.
  pose proof (now_holds_trans _ _ _ _ _ H1 H2) as H12.
  destruct (find_row _ _) as [p|]; [|by exists m2]. cbn [from_option].
  rewrite setDeviceMode_policy.
  destruct (save_run m2 _ (set_mode mode p) (proj1 H2)) as (m3 & E3 & H3).
  rewrite with_default_idemp in *. exists m3. split; [done|by eapply now_holds_trans].
Qed.

Lemma handleDelete_run m ps p : holds (Some m) ps → ∃ m',
  handleDelete (policy_js p) (Some m) = (Some m', Ok tt) ∧
  now_holds m (Some m') (if isDefault p then ps else remove_policy (policy_id p) ps).
Proof.
  intros Hm. destruct (isDefault p) eqn:E.
  - exists m. split; [|by apply now_holds_refl]. destruct p; cbn in E; subst; done.
  - destruct (delete_run m ps (policy_id p) Hm) as (m' & H). exists m'.
    replace (handleDelete (policy_js p)) with (deleteResourcePolicy (JStr (policy_id p)));
      [done|]. destruct p; cbn in E; subst; done.
Qed.

(** ** Sequences of operations *)

Inductive policy_op :=
  | Create (ids : id_source) (name : string)
  | SetMode (id : string) (mode : DeviceSecurityMode)
  | Remove (p : ResourcePolicy)
  | Delete (id : string).

(** The create dialog catches the error and shows it. *)
Definition run_op (op : policy_op) : M storage unit :=
  match op with
  | Create ids name => try_catch (createResourcePolicy ids name ;; mret tt) (λ _, mret tt)
  | SetMode id mode => openAndSetMode id mode
  | Remove p => handleDelete (policy_js p)
  | Delete id => deleteResourcePolicy (JStr id)
  end.

Definition spec_op (op : policy_op) (ps : list ResourcePolicy) : list ResourcePolicy :=
  match op with
  | Create ids name =>
      if decide (trim name = "") then ps
      else if name_taken (trim name) (with_default ps) then with_default ps
      else mkPolicy (newId ids "pol") (trim name) false any_mode :: with_default ps
  | SetMode id mode => mode_set id mode ps
  | Remove p => if isDefault p then ps else remove_policy (policy_id p) ps
  | Delete id => remove_policy id ps
  end.

(** One simulation step, and a run. *)
Lemma op_simulation op m ps : holds (Some m) ps → ∃ m',
  run_op op (Some m) = (Some m', Ok tt) ∧ now_holds m (Some m') (spec_op op ps).
Proof.
  intros Hm. destruct op as [ids name|id mode|p|id]; cbn [run_op spec_op].
  - destruct (create_run m ps ids name Hm) as (m' & E & H). exists m'. split; [|done].
    unfold try_catch, mbind, M_bind. rewrite E.
    by destruct (decide (trim name = "")); [|destruct (name_taken _ _)].
  - by apply open_run.
  - by apply handleDelete_run.
  - by apply delete_run.
Qed.

Lemma ops_simulation ops : ∀ m ps, holds (Some m) ps → ∃ m',
  forEach run_op ops (Some m) = (Some m', Ok tt) ∧
  now_holds m (Some m') (foldl (λ l op, spec_op op l) ps ops).
Proof.
  induction ops as [|op ops IH]; intros m ps Hm; cbn [forEach foldl].
  - exists m. split; [done|]. by apply now_holds_refl.
  - destruct (op_simulation op m ps Hm) as (m1 & E1 & H1).
    destruct (IH m1 _ (proj1 H1)) as (m2 & E2 & H2). exists m2.
    rewrite (bind_run _ _ _ _ _ E1). split; [done|by eapply now_holds_trans].
Qed.

(** ** The invariant of the list *)

Definition lower_name (p : ResourcePolicy) : string := toLowerCase (policy_name p).

Record policies_ok (ps : list ResourcePolicy) : Prop := {
  ok_ids : NoDup (policy_id <$> ps);
  ok_names : NoDup (lower_name <$> ps);
  ok_default : ∀ p, p ∈ ps → isDefault p = true ↔ policy_id p = DEFAULT_ID;
  ok_present : DEFAULT_ID ∈ policy_id <$> ps }.

(** The identifiers a list of operations hands out. *)
Definition created (ops : list policy_op) : list string :=
  omap (λ op, match op with Create ids _ => Some (newId ids "pol") | _ => None end) ops.

Lemma newId_not_default ids : newId ids "pol" ≠ DEFAULT_ID.
Proof. unfold newId. by destruct (randomUUID ids). Qed.

Lemma with_default_ok ps : policies_ok ps → with_default ps = ps.
Proof.
  intros H. unfold with_default.
  destruct (existsb (is_id DEFAULT_ID) ps) eqn:E; [done|]. exfalso.
  pose proof (ok_present _ H) as Hin. apply list_elem_of_fmap in Hin as (p & Hp & Hin).
  assert (existsb (is_id DEFAULT_ID) ps = true); [|congruence].
  apply existsb_exists. exists p. split; [by apply list_elem_of_In|].
  by apply bool_decide_eq_true.
Qed.

Lemma default_ok : policies_ok [default_policy].
Proof.
  split; cbn.
  - apply NoDup_singleton.
  - apply NoDup_singleton.
  - by intros p ->%list_elem_of_singleton.
  - by left.
Qed.

(** The operations keep the invariant when the new identifiers are fresh. *)
Lemma create_ok ids name ps : policies_ok ps → newId ids "pol" ∉ policy_id <$> ps →
  policies_ok (spec_op (Create ids name) ps).
Proof.
  intros H Hfresh. cbn [spec_op]. rewrite with_default_ok by done.
  case_decide; [done|]. destruct (name_taken _ _) eqn:E; [done|].
  split; rewrite ?fmap_cons.
  - apply NoDup_cons. split; [done|apply H].
  - apply NoDup_cons. split; [|apply H]. intros (q & Hq & Hin)%list_elem_of_fmap.
    assert (name_taken (trim name) ps = true); [|congruence].
    apply existsb_exists. exists q. split; [by apply list_elem_of_In|].
    by apply bool_decide_eq_true.
  - intros p [->|Hp]%elem_of_cons; [|by apply H]. cbn. split; [done|].
    intros Heq. by destruct (newId_not_default ids).
  - right. apply H.
Qed.

Lemma mode_set_fmap id mode ps p0 : find_row (is_id id) ps = Some p0 →
  NoDup (policy_id <$> ps) →
  replace_policy (set_mode mode p0) ps =
    (λ p, if is_id id p then set_mode mode p else p) <$> ps.
Proof.
  intros [Hin0 Hp0]%find_row_Some Hnd. unfold is_id in Hp0. apply bool_decide_eq_true in Hp0.
  apply list_fmap_ext. intros i p Hp%list_elem_of_lookup_2.
  unfold is_id. cbn [set_mode policy_id]. rewrite Hp0.
  case_bool_decide as Heq; [|done]. f_equal.
  eapply NoDup_fmap_inj; eauto. by rewrite Heq.
Qed.

Lemma mode_set_ok id mode ps : policies_ok ps → policies_ok (mode_set id mode ps).
Proof.
  intros H. unfold mode_set. rewrite with_default_ok by done.
  destruct (find_row _ _) as [p0|] eqn:E; [|done].
  rewrite (mode_set_fmap _ _ _ _ E) by apply H.
  assert (∀ {B} (f : ResourcePolicy → B), (∀ p, f (set_mode mode p) = f p) →
    f <$> ((λ p, if is_id id p then set_mode mode p else p) <$> ps) = f <$> ps) as Hf.
  { intros B f Hmode. rewrite <- list_fmap_compose. apply list_fmap_ext. intros i p _.
    unfold compose. by destruct (is_id id p). }
  split; rewrite ?Hf by done; try apply H.
  intros p (q & -> & Hq)%list_elem_of_fmap. destruct (is_id id q); by apply H in Hq.
Qed.

Lemma remove_ok id ps : policies_ok ps → policies_ok (remove_policy id ps).
Proof.
  intros H. unfold remove_policy. case_bool_decide as Hid; [done|].
  rewrite with_default_ok by done. split.
  - apply NoDup_map_filter, H.
  - apply NoDup_map_filter, H.
  - intros p [_ Hp]%list_elem_of_filter. by apply H.
  - pose proof (ok_present _ H) as (p & Hp & Hin)%list_elem_of_fmap.
    rewrite Hp. apply list_elem_of_fmap_2, list_elem_of_filter. split; [congruence|done].
Qed.

Lemma spec_op_ok op ps : policies_ok ps →
  (∀ ids name, op = Create ids name → newId ids "pol" ∉ policy_id <$> ps) →
  policies_ok (spec_op op ps).
Proof.
  intros H Hfresh. destruct op as [ids name|id mode|p|id].
  - apply create_ok; [done|by eapply Hfresh].
  - by apply mode_set_ok.
  - cbn. destruct (isDefault p); [done|by apply remove_ok].
  - by apply remove_ok.
Qed.

Lemma remove_ids id id' ps : policies_ok ps →
  id ∈ policy_id <$> remove_policy id' ps → id ∈ policy_id <$> ps.
Proof.
  intros H. unfold remove_policy. destruct (bool_decide _); [done|].
  rewrite with_default_ok by done.
  intros (q & -> & [_ Hq]%list_elem_of_filter)%list_elem_of_fmap.
  by apply list_elem_of_fmap_2.
Qed.

(** An operation adds no identifier but the one it creates. *)
Lemma spec_op_ids op ps id : policies_ok ps → id ∈ policy_id <$> spec_op op ps →
  id ∈ policy_id <$> ps ∨ id ∈ created [op].
Proof.
  intros H. destruct op as [ids name|id' mode|p|id']; cbn [spec_op].
  - rewrite with_default_ok by done. case_decide; [by left|].
    destruct (name_taken _ _); [by left|]. rewrite fmap_cons. cbn.
    intros [->|?]%elem_of_cons; [right; by left|by left].
  - unfold mode_set. rewrite with_default_ok by done.
    destruct (find_row _ _) as [p0|] eqn:E; [|by left].
    rewrite (mode_set_fmap _ _ _ _ E) by apply H. intros Hid. left.
    apply list_elem_of_fmap in Hid as (p & -> & (q & -> & Hq)%list_elem_of_fmap).
    apply list_elem_of_fmap. exists q. split; [by destruct (is_id id' q)|done].
  - destruct (isDefault p); [by left|]. intros ?%remove_ids; auto.
  - intros ?%remove_ids; auto.
Qed.

(** From any list that satisfies the invariant, fresh identifiers keep it. *)
Lemma ops_ok ops : ∀ ps, policies_ok ps → NoDup (created ops) →
  (∀ id, id ∈ created ops → id ∉ policy_id <$> ps) →
  policies_ok (foldl (λ l op, spec_op op l) ps ops).
Proof.
  induction ops as [|op ops IH]; intros ps H Hnd Hfresh; [done|]. cbn [foldl].
  assert (created (op :: ops) = created [op] ++ created ops) as Ec.
  { unfold created. cbn. by destruct op. }
  rewrite Ec in Hnd, Hfresh. apply NoDup_app in Hnd as (_ & Hdisj & Hnd).
  apply IH; [|done|].
  - apply spec_op_ok; [done|]. intros ids name ->. apply Hfresh, elem_of_app. left. by left.
  - intros id Hid Hin. apply spec_op_ids in Hin as [Hin|Hin]; [| |done].
    + by apply (Hfresh id); [apply elem_of_app; right|].
    + by apply (Hdisj id).
Qed.

(** Reading the policies back. *)
Lemma listed m ps : holds (Some m) ps → policies_ok ps →
  listResourcePolicies (Some m) = (Some m, Ok (policy_js <$> ps)).
Proof.
  intros Hm H. unfold listResourcePolicies, ensureDefaultResourcePolicy.
  rewrite (bind_run _ _ _ (Some m) tt); [apply Hm|].
  rewrite (bind_run _ _ _ _ _ (proj2 Hm)).
  rewrite (bind_run _ _ _ (Some m) (existsb (is_id DEFAULT_ID) ps)) by
    (by apply someEach_policies).
  pose proof (with_default_ok ps H) as Hd. unfold with_default in Hd.
  destruct (existsb _ _); [done|]. apply (f_equal length) in Hd. cbn in Hd. lia.
Qed.

(** C30: on a storage that holds a list of well-formed policies every operation
    succeeds as the operation on lists does, touches no other key, and throws
    exactly when the name of a new policy is blank or taken up to case. *)
Theorem policies_refine : ∀ (m : items) (ps : list ResourcePolicy),
  holds (Some m) ps →
  (∃ m', listResourcePolicies (Some m) = (Some m', Ok (policy_js <$> with_default ps)) ∧
    now_holds m (Some m') (with_default ps)) ∧
  (∀ id, ∃ m', getResourcePolicy id (Some m) =
      (Some m', Ok (from_option policy_js JNull (find_row (is_id id) (with_default ps)))) ∧
    now_holds m (Some m') (with_default ps)) ∧
  (∀ ids name, ∃ m', createResourcePolicy ids name (Some m) =
      (if decide (trim name = "") then (Some m', Throw (JsError "Policy name is required."))
       else if name_taken (trim name) (with_default ps)
       then (Some m', Throw (JsError "A policy with this name already exists."))
       else (Some m', Ok (policy_js (mkPolicy (newId ids "pol") (trim name) false any_mode)))) ∧
    now_holds m (Some m') (spec_op (Create ids name) ps)) ∧
  (∀ q, ∃ m', saveResourcePolicy (policy_js q) (Some m) = (Some m', Ok tt) ∧
    now_holds m (Some m') (replace_policy q (with_default ps))) ∧
  (∀ id, ∃ m', deleteResourcePolicy (JStr id) (Some m) = (Some m', Ok tt) ∧
    now_holds m (Some m') (remove_policy id ps)).
Proof.
  intros m ps Hm. split_and!; intros.
  - by apply list_run.
  - by apply get_run.
  - by apply create_run.
  - by apply save_run.
  - by apply delete_run.
Qed.

Lemma policies_refine_witness : holds (Some ∅) [] ∧
  (∃ m', deleteResourcePolicy (JStr "default") (Some ∅) = (Some m', Ok tt)).
Proof.
  assert (holds (Some ∅) []) as H by (by apply holds_Some).
  split; [done|].
  destruct (policies_refine ∅ [] H) as (_ & _ & _ & _ & Hd).
  destruct (Hd "default") as (m' & E & _). by exists m'.
Defined.

(** Once the list page has loaded, whatever sequence of creations, mode
    changes and deletions follows (with fresh identifiers), no operation throws and
    the page lists a set of policies with distinct identifiers, names distinct up to
    case and the default policy among them, the only one marked as default. *)
Theorem policies_invariant : ∀ (m : items) (ps : list ResourcePolicy) (ops : list policy_op),
  holds (Some m) ps → policies_ok (with_default ps) →
  NoDup (created ops) → (∀ id, id ∈ created ops → id ∉ policy_id <$> with_default ps) →
  ∃ m' ps', (listResourcePolicies ;; forEach run_op ops ;; listResourcePolicies) (Some m) =
      (Some m', Ok (policy_js <$> ps')) ∧ policies_ok ps'.
Proof.
  intros m ps ops Hm Hok Hnd Hfresh. destruct (list_run m ps Hm) as (m1 & E1 & H1).
  destruct (ops_simulation ops m1 _ (proj1 H1)) as (m2 & E2 & H2).
  pose proof (ops_ok ops _ Hok Hnd Hfresh) as Hok2.
  exists m2, (foldl (λ l op, spec_op op l) (with_default ps) ops). split; [|done].
  rewrite (bind_run _ _ _ _ _ E1), (bind_run _ _ _ _ _ E2). apply listed; [apply H2|done].
Qed.

Lemma policies_invariant_witness :
  ∃ m' ps', (listResourcePolicies ;;
      forEach run_op [Create (mkIds (Some "1") 0 "") " Staff "; Create (mkIds (Some "2") 0 "") "staff";
                      SetMode "pol_1" trusted_mode; Delete "default"] ;;
      listResourcePolicies) (Some ∅) = (Some m', Ok (policy_js <$> ps')) ∧ policies_ok ps'.
Proof.
  apply (policies_invariant ∅ []).
  - by apply holds_Some.
  - apply default_ok.
  - apply (bool_decide_unpack (NoDup _)). vm_compute. exact I.
  - intros id Hid Hin. apply list_elem_of_singleton in Hin as ->.
    revert Hid. apply (bool_decide_unpack (¬ _)). vm_compute. exact I.
Defined.
