(* ===== verification/Browser.v ===== *)
(** * The browser page

    The part of the browser the sign-in code works on: the two storages, the
    navigations of the router (newest first) and, for the components that create a
    workspace, their visible state and the requests in flight. *)
From S2P Require Import Prelude JsString Json Storage.
From stdpp Require Import gmap.
From Stdlib Require Import ZArith.

(** A workspace creation request: the bearer token, the body and the key under
    which the page remembers the attempt. *)
Record request := mkRequest {
  bearer : string; request_name : jsv; request_slug : jsv; request_key : string }.

Record page := mkPage {
  localStorage : items;
  sessionStorage : items;
  navigated : list string;
  requests : list request;
  processing : bool;
  page_error : string }.

Definition set_local (f : items → items) (p : page) : page :=
  mkPage (f (localStorage p)) (sessionStorage p) (navigated p) (requests p) (processing p)
    (page_error p).
Definition set_session (f : items → items) (p : page) : page :=
  mkPage (localStorage p) (f (sessionStorage p)) (navigated p) (requests p) (processing p)
    (page_error p).
Definition set_requests (f : list request → list request) (p : page) : page :=
  mkPage (localStorage p) (sessionStorage p) (navigated p) (f (requests p)) (processing p)
    (page_error p).

Definition local_get (k : string) : M page (option string) := gets (λ p, localStorage p !! k).
Definition local_set (k v : string) : M page unit := modify (set_local (insert k v)).
Definition session_get (k : string) : M page (option string) := gets (λ p, sessionStorage p !! k).
Definition session_set (k v : string) : M page unit := modify (set_session (insert k v)).
Definition session_remove (k : string) : M page unit := modify (set_session (delete k)).

(** [navigate(path, { replace: true })] *)
Definition navigate (path : string) : M page unit :=
  modify (λ p, mkPage (localStorage p) (sessionStorage p) (path :: navigated p) (requests p)
                 (processing p) (page_error p)).

Definition setProcessing (b : bool) : M page unit :=
  modify (λ p, mkPage (localStorage p) (sessionStorage p) (navigated p) (requests p) b
                 (page_error p)).
Definition setError (e : string) : M page unit :=
  modify (λ p, mkPage (localStorage p) (sessionStorage p) (navigated p) (requests p)
                 (processing p) e).
Definition fetch (r : request) : M page unit := modify (set_requests (λ l, l ++ [r])).

(** [!token]: no token, or the empty one. *)
Definition falsy_string (t : option string) : bool :=
  match t with None => true | Some s => bool_decide (s = "") end.
