(* ===== verification/Guards.v ===== *)
(** * Route guards and landing pages ([src/App.tsx], [src/pages/Login.tsx],
    [src/pages/workspaces/WorkspaceSelectorPage.tsx])

    Which page a token leads to, and which pages it may stay on. *)
From S2P Require Import Prelude JsString Base64 Json JsonRoundtrip Jwt Browser.
From stdpp Require Import gmap.
From Stdlib Require Import Ascii Lia.

(** ** The guards *)

Definition AuthGuard (pathname : string) : M page unit :=
  token ← local_get "authToken";
  if falsy_string token then navigate "/login"
  else if isDeviceToken token && startsWith pathname "/dashboard" then navigate "/app"
  else
    match getWorkspaceClaims token with
    | None => if startsWith pathname "/dashboard" then navigate "/workspaces" else mret tt
    | Some claims =>
        if is_str (wrole claims) "member" && startsWith pathname "/dashboard"
        then navigate "/app" else mret tt
    end.

Definition UserAuthGuard : M page unit :=
  token ← local_get "authToken";
  if falsy_string token then navigate "/login"
  else match getWorkspaceClaims token with
       | None => navigate "/workspaces"
       | Some _ => mret tt
       end.

(** The effect of the workspace selector; the list it fetches is not needed. *)
Definition selector_guard : M page unit :=
  token ← local_get "authToken";
  if falsy_string token then navigate "/login" else mret tt.

(** ** The landing pages *)

(** The effect of the login page, for the [token] parameter of its address. *)
Definition login_landing (token : option string) : M page unit :=
  match token with
  | None => mret tt
  | Some t =>
      if bool_decide (t = "") then mret tt
      else
        local_set "authToken" t ;;
        match getWorkspaceClaims (Some t) with
        | None => navigate "/workspaces"
        | Some claims =>
            if is_str (wrole claims) "member" then navigate "/app"
            else navigate "/dashboard/groups"
        end
  end.

(** [selectWorkspace] once the reply has been decoded: [data.token] is undefined,
    null, or a string. *)
Definition selectWorkspace (data_token : option string) : M page unit :=
  token ← local_get "authToken";
  if falsy_string token then mret tt
  else
    match data_token with
    | None => mret tt
    | Some t =>
        if bool_decide (t = "") then mret tt
        else
          local_set "authToken" t ;;
          match getWorkspaceClaims (Some t) with
          | Some claims =>
              if is_str (wrole claims) "member" then navigate "/app" else navigate "/dashboard"
          | None => navigate "/dashboard"
          end
    end.

(** ** Following the redirects *)

(** The guard a route is wrapped in: the routes of [App] by their first segment. *)
Definition route_guard (pathname : string) : M page unit :=
  match JsString.split "/" pathname with
  | _ :: "dashboard" :: _ => AuthGuard pathname
  | _ :: "app" :: _ => UserAuthGuard
  | [_; "workspaces"] => selector_guard
  | _ => mret tt
  end.

(** Where a page sends the user with this token, if anywhere. *)
Definition redirect (token : option string) (pathname : string) : option string :=
  let p := mkPage (match token with Some t => {["authToken" := t]} | None => ∅ end) ∅ [] []
             false "" in
  head (navigated (state_of (route_guard pathname) p)).

(** At most [fuel] redirects from [pathname]. *)
Fixpoint settle (fuel : nat) (token : option string) (pathname : string) : string :=
  match fuel with
  | O => pathname
  | S fuel' =>
      match redirect token pathname with
      | Some next => settle fuel' token next
      | None => pathname
      end
  end.

(** ** Lemmas *)

Lemma local_get_run k p : local_get k p = (p, Ok (localStorage p !! k)).
Proof. done. Qed.

(** What AuthGuard decides about a dashboard page. *)
Definition dashboard_target (token : option string) : option string :=
  if falsy_string token then Some "/login"
  else if isDeviceToken token then Some "/app"
  else match getWorkspaceClaims token with
       | None => Some "/workspaces"
       | Some claims => if is_str (wrole claims) "member" then Some "/app" else None
       end.

Definition app_target (token : option string) : option string :=
  if falsy_string token then Some "/login"
  else match getWorkspaceClaims token with None => Some "/workspaces" | Some _ => None end.

Definition visit (p : page) (target : option string) : page :=
  match target with
  | None => p
  | Some t => mkPage (localStorage p) (sessionStorage p) (t :: navigated p) (requests p)
                (processing p) (page_error p)
  end.

Lemma AuthGuard_run p pathname : startsWith pathname "/dashboard" = true →
  AuthGuard pathname p = (visit p (dashboard_target (localStorage p !! "authToken")), Ok tt).
Proof.
  intros Hp. unfold AuthGuard, dashboard_target, mbind, M_bind. rewrite local_get_run, Hp.
  destruct (falsy_string _); [done|]. rewrite andb_true_r. destruct (isDeviceToken _); [done|].
  destruct (getWorkspaceClaims _) as [c|]; [|done]. rewrite andb_true_r.
  by destruct (is_str (wrole c) "member").
Qed.

Lemma UserAuthGuard_run p :
  UserAuthGuard p = (visit p (app_target (localStorage p !! "authToken")), Ok tt).
Proof.
  unfold UserAuthGuard, app_target, mbind, M_bind. rewrite local_get_run.
  destruct (falsy_string _); [done|]. by destruct (getWorkspaceClaims _).
Qed.

(** The pages below /dashboard. *)
Definition is_dashboard (pathname : string) : Prop :=
  pathname = "/dashboard" ∨ ∃ rest, pathname = "/dashboard/" +:+ rest.

Lemma prefix_app s t : String.prefix s (s +:+ t) = true.
Proof.
  induction s as [|c s IH]; [by destruct t|]. unfold String.prefix. fold String.prefix. simpl.
  by destruct (ascii_dec c c).
Qed.

Lemma dashboard_prefix pathname : is_dashboard pathname →
  startsWith pathname "/dashboard" = true.
Proof. intros [->|[rest ->]]; [done|]. apply (prefix_app "/dashboard" ("/" +:+ rest)). Qed.

Lemma dashboard_segment pathname : is_dashboard pathname →
  ∃ ws, JsString.split "/" pathname = "" :: "dashboard" :: ws.
Proof.
  intros [->|[rest ->]]; [by eexists|]. unfold JsString.split.
  eexists. change (to_list ("/dashboard/" +:+ rest))
    with ([] ++ "/"%char :: to_list "dashboard" ++ "/"%char :: to_list rest).
  rewrite split_list_app by apply not_elem_of_nil.
  rewrite split_list_app; [by rewrite !fmap_cons|].
  apply (bool_decide_unpack (_ ∉ _)). vm_compute. exact I.
Qed.

Lemma redirect_dashboard token pathname : is_dashboard pathname →
  redirect token pathname = dashboard_target token.
Proof.
  intros Hp. destruct (dashboard_segment _ Hp) as [ws Hw]. unfold redirect, route_guard.
  rewrite Hw. unfold state_of. rewrite AuthGuard_run by (by apply dashboard_prefix).
  cbn [fst localStorage].
  destruct token as [t|]; [rewrite lookup_singleton_eq|rewrite lookup_empty];
    by destruct (dashboard_target _).
Qed.

Lemma redirect_app token : redirect token "/app" = app_target token.
Proof.
  unfold redirect, state_of. change (route_guard "/app") with UserAuthGuard.
  rewrite UserAuthGuard_run. cbn [fst localStorage].
  destruct token as [t|]; [rewrite lookup_singleton_eq|rewrite lookup_empty];
    by destruct (app_target _).
Qed.

Lemma redirect_workspaces token :
  redirect token "/workspaces" = if falsy_string token then Some "/login" else None.
Proof.
  unfold redirect, state_of. change (route_guard "/workspaces") with selector_guard.
  unfold selector_guard, mbind, M_bind. rewrite local_get_run. cbn [localStorage].
  destruct token as [t|]; [rewrite lookup_singleton_eq|rewrite lookup_empty];
    by destruct (falsy_string _).
Qed.

Lemma redirect_login token : redirect token "/login" = None.
Proof. done. Qed.

(** Whatever the page, a redirect goes to one of three pages. *)
Lemma redirect_pages token pathname next : redirect token pathname = Some next →
  next = "/login" ∨ next = "/workspaces" ∨ next = "/app".
Proof.
  unfold redirect, state_of. set (p := mkPage _ _ _ _ _ _). unfold route_guard.
  assert (∀ m : M page unit,
    (∀ q, (m q).1 = q ∨ (m q).1 = visit q (Some "/login") ∨
          (m q).1 = visit q (Some "/workspaces") ∨ (m q).1 = visit q (Some "/app")) →
    head (navigated (m p).1) = Some next →
    next = "/login" ∨ next = "/workspaces" ∨ next = "/app") as Hm.
  { intros m Hm Hn. destruct (Hm p) as [E|[E|[E|E]]]; rewrite E in Hn; cbn in Hn; naive_solver. }
  assert (∀ q, (AuthGuard pathname q).1 = q ∨ (AuthGuard pathname q).1 = visit q (Some "/login") ∨
    (AuthGuard pathname q).1 = visit q (Some "/workspaces") ∨
    (AuthGuard pathname q).1 = visit q (Some "/app")) as H1.
  { intros q. unfold AuthGuard, mbind, M_bind. rewrite local_get_run.
    destruct (falsy_string _); [by auto|]. destruct (_ && _); [by auto|].
    destruct (getWorkspaceClaims _); [destruct (_ && _)|destruct (startsWith _ _)]; by auto. }
  assert (∀ q, (UserAuthGuard q).1 = q ∨ (UserAuthGuard q).1 = visit q (Some "/login") ∨
    (UserAuthGuard q).1 = visit q (Some "/workspaces") ∨
    (UserAuthGuard q).1 = visit q (Some "/app")) as H2.
  { intros q. rewrite UserAuthGuard_run. unfold app_target.
    destruct (falsy_string _); [by auto|]. destruct (getWorkspaceClaims _); by auto. }
  assert (∀ q, (selector_guard q).1 = q ∨ (selector_guard q).1 = visit q (Some "/login") ∨
    (selector_guard q).1 = visit q (Some "/workspaces") ∨
    (selector_guard q).1 = visit q (Some "/app")) as H3.
  { intros q. unfold selector_guard, mbind, M_bind. rewrite local_get_run.
    destruct (falsy_string _); by auto. }
  intros Hn. repeat case_match; try (by eapply Hm; [|exact Hn]); done.
Qed.

Lemma no_token_no_claims token : falsy_string token = true → getWorkspaceClaims token = None.
Proof.
  destruct token as [t|]; [|done]. cbn. intros Ht. by rewrite Ht.
Qed.

Lemma settle_S n token pathname : settle (S n) token pathname =
  match redirect token pathname with
  | Some next => settle n token next
  | None => pathname
  end.
Proof. done. Qed.

(** Pages where the redirects end. *)
Lemma settle_login n token : settle n token "/login" = "/login".
Proof. destruct n; [done|]. by rewrite settle_S, redirect_login. Qed.

Lemma settle_workspaces n token : settle (S n) token "/workspaces" =
  if falsy_string token then "/login" else "/workspaces".
Proof.
  cbn [settle]. rewrite redirect_workspaces. destruct (falsy_string token); [|done].
  apply settle_login.
Qed.

Lemma settle_app n token : settle (S (S n)) token "/app" =
  if falsy_string token then "/login"
  else match getWorkspaceClaims token with None => "/workspaces" | Some _ => "/app" end.
Proof.
  rewrite settle_S, redirect_app. unfold app_target.
  destruct (falsy_string token) eqn:E; [apply settle_login|].
  destruct (getWorkspaceClaims token); [done|]. rewrite settle_workspaces. by rewrite E.
Qed.

(** Where a dashboard page ends up, by the token alone. *)
Definition final_page (token : option string) (pathname : string) : string :=
  if falsy_string token then "/login"
  else match getWorkspaceClaims token with
       | None => "/workspaces"
       | Some claims =>
           if isDeviceToken token || is_str (wrole claims) "member" then "/app" else pathname
       end.

Lemma settle_dashboard n token pathname : is_dashboard pathname →
  settle (S (S (S n))) token pathname = final_page token pathname.
Proof.
  intros Hp. rewrite settle_S, redirect_dashboard by done. unfold dashboard_target, final_page.
  destruct (falsy_string token) eqn:Ef; [apply settle_login|].
  destruct (isDeviceToken token) eqn:Ed.
  - rewrite settle_app, Ef. by destruct (getWorkspaceClaims token).
  - destruct (getWorkspaceClaims token) as [c|] eqn:Ec.
    + cbn [orb]. destruct (is_str (wrole c) "member"); [|done]. by rewrite settle_app, Ef, Ec.
    + by rewrite settle_workspaces, Ef.
Qed.



(** The landing page agrees with the guards: signing in with a token, or
    selecting a workspace while signed in, stores the token, sends the user somewhere,
    and after the guards' redirects the user is where the guards send this token from
    the dashboard. *)
Theorem landing_agrees : ∀ (p : page) (t : string), t ≠ "" →
  (∃ home, login_landing (Some t) p =
       (visit (set_local (insert "authToken" t) p) (Some home), Ok tt) ∧
     settle 3 (Some t) home = settle 3 (Some t) "/dashboard/groups") ∧
  (falsy_string (localStorage p !! "authToken") = false →
   ∃ home, selectWorkspace (Some t) p =
       (visit (set_local (insert "authToken" t) p) (Some home), Ok tt) ∧
     settle 3 (Some t) home = final_page (Some t) "/dashboard").
Proof.
  intros p t Ht.
  assert (falsy_string (Some t) = false) as Ef by (cbn; by rewrite bool_decide_false).
  assert (∀ d, is_dashboard d → settle 3 (Some t) d = final_page (Some t) d) as Hd
    by (intros; by apply settle_dashboard).
  assert (is_dashboard "/dashboard/groups") as Hg by (right; by exists "groups").
  split.
  - unfold login_landing. rewrite bool_decide_false by done. unfold mbind, M_bind.
    cbn -[settle is_dashboard getWorkspaceClaims]. rewrite Hd by done. unfold final_page. rewrite Ef.
    destruct (getWorkspaceClaims (Some t)) as [c|] eqn:Ec.
    + destruct (is_str (wrole c) "member") eqn:Em; eexists; (split; [reflexivity|]).
      * rewrite settle_app, Ef, Ec. by rewrite orb_true_r.
      * rewrite Hd by done. unfold final_page. by rewrite Ef, Ec, Em.
    + eexists; (split; [reflexivity|]). by rewrite settle_workspaces, Ef.
  - intros Hold. unfold selectWorkspace, mbind, M_bind. rewrite local_get_run, Hold.
    rewrite bool_decide_false by done. cbn -[settle is_dashboard getWorkspaceClaims].
    unfold final_page. rewrite Ef.
    destruct (getWorkspaceClaims (Some t)) as [c|] eqn:Ec.
    + destruct (is_str (wrole c) "member") eqn:Em; eexists; (split; [reflexivity|]).
      * rewrite settle_app, Ef, Ec. by rewrite orb_true_r.
      * rewrite Hd by (by left). unfold final_page. by rewrite Ef, Ec, Em.
    + eexists; (split; [reflexivity|]). rewrite Hd by (by left). unfold final_page.
      by rewrite Ef, Ec.
Qed.

Lemma landing_agrees_witness : ∃ home,
  (login_landing (Some "x.y.z") (mkPage ∅ ∅ [] [] false "")).1 =
    visit (set_local (insert "authToken" "x.y.z") (mkPage ∅ ∅ [] [] false "")) (Some home).
Proof.
  destruct (landing_agrees (mkPage ∅ ∅ [] [] false "") "x.y.z" ltac:(discriminate))
    as [(home & E & _) _].
  exists home. by rewrite E.
Defined.

(** An administrator is let into the dashboard unless the token is a device
    token; but the guard only excludes the role 'member', so that a token for any
    role that is none of admin, owner and member is let in although it is not an
    administrator's. *)
Theorem dashboard_roles : ∀ header signature (fs : list (string * jsv)) pathname,
  no_dot header → no_dot signature → plain (JObj fs) = true → is_dashboard pathname →
  let token := Some (encode_token header (JObj fs) signature) in
  let role := nullish_or (default JUndef (Json.assoc "wrole" fs)) (JStr "member") in
  (isAdminRole token = true → isDeviceToken token = false →
   settle 3 token pathname = pathname) ∧
  (truthy (default JUndef (Json.assoc "wid" fs)) = true → isDeviceToken token = false →
   is_str role "member" = false → is_str role "admin" = false → is_str role "owner" = false →
   isAdminRole token = false ∧ settle 3 token pathname = pathname).
Proof.
  intros header signature fs pathname Hh Hs Hp Hd token role.
  pose proof (Jwt.decode_encode header (JObj fs) signature Hh Hs Hp) as E.
  assert (falsy_string token = false) as Ef.
  { cbn. by rewrite bool_decide_false by apply encode_token_nonempty. }
  assert (truthy (default JUndef (Json.assoc "wid" fs)) = true → getWorkspaceClaims token =
    Some (mkClaims (default JUndef (Json.assoc "wid" fs))
            (nullish_or (default JUndef (Json.assoc "wslug" fs)) (JStr "")) role)) as Ec.
  { intros Hw. unfold token, getWorkspaceClaims.
    rewrite bool_decide_false by apply encode_token_nonempty. rewrite E.
    cbn [truthy negb opt_field]. by rewrite Hw. }
  split.
  - intros Ha Hdev. rewrite settle_dashboard by done. unfold final_page. rewrite Ef.
    unfold isAdminRole in Ha. destruct (getWorkspaceClaims token) as [c|]; [|done].
    rewrite Hdev. cbn [orb]. destruct (wrole c) as [| | | |s| |]; try done.
    cbn [is_str] in *. destruct (decide (s = "member")) as [->|Hm]; [done|].
    by rewrite (bool_decide_false (s = "member")) by done.
  - intros Hw Hdev Hm H1 H2. specialize (Ec Hw). split.
    + unfold isAdminRole. rewrite Ec. cbn [wrole]. by rewrite H1, H2.
    + rewrite settle_dashboard by done. unfold final_page. rewrite Ef, Ec, Hdev. cbn [wrole orb].
      by rewrite Hm.
Qed.

Lemma dashboard_roles_witness :
  let token := Some (encode_token "e30" (JObj [("wid", JStr "w"); ("wrole", JStr "viewer")]) "s") in
  isAdminRole token = false ∧ settle 3 token "/dashboard/users" = "/dashboard/users".
Proof.
  destruct (dashboard_roles "e30" "s" [("wid", JStr "w"); ("wrole", JStr "viewer")]
    "/dashboard/users") as [_ H].
  - apply (bool_decide_unpack (no_dot _)). vm_compute. exact I.
  - apply (bool_decide_unpack (no_dot _)). vm_compute. exact I.
  - vm_compute. reflexivity.
  - right. exists "users". reflexivity.
  - apply H; vm_compute; reflexivity.
Defined.
