(* ===== verification/Signup.v ===== *)
(** * Signing up: [TokenCapture] of [src/App.tsx], [src/contexts/SignupContext.tsx]
    and the pages that fill it in

    The sign-up form lives in sessionStorage while the user is away at the identity
    provider; on return [TokenCapture] stores the token and creates the workspace.
    The creation request is asynchronous: the effect sends it and a reply arrives
    later, so the component is a state machine whose steps are runs of the effect and
    replies. *)
From S2P Require Import Prelude JsString Slug Base64 Json JsonRoundtrip Jwt Storage Browser Guards.
From stdpp Require Import gmap.
From Stdlib Require Import ZArith Lia.

Definition SIGNUP_STORAGE_KEY : string := "ztna_signup_state".
Definition SIGNUP_PROCESS_PREFIX : string := "ztna_signup_processed:".

(** ** The sign-up state *)

Abbreviation fields := (list (string * jsv)).

Definition defaultState : fields :=
  [("email", JStr ""); ("useCase", JStr ""); ("networkName", JStr "");
   ("networkSlug", JStr ""); ("attemptId", JStr ""); ("teamSize", JStr "")].

(** [...v] in an object literal: the members of an object, the indexed elements of
    an array or a string, nothing for other values. *)
Definition spread (v : jsv) : fields :=
  match v with
  | JObj fs => fs
  | JArr l => imap (λ i x, (pretty i, x)) l
  | JStr s => imap (λ i c, (pretty i, JStr (String c ""))) (to_list s)
  | _ => []
  end.

(** [{ ...a, ...b }] *)
Definition merge (a b : fields) : fields := foldl (λ o f, assoc_set f.1 f.2 o) a b.

Definition loadState : M page fields :=
  raw ← session_get SIGNUP_STORAGE_KEY;
  match raw with
  | None => mret defaultState
  | Some s =>
      if bool_decide (s = "") then mret defaultState
      else match parse s with
           | Ok v => mret (merge defaultState (spread v))
           | Throw _ => mret defaultState
           end
  end.

(** The effect of the provider, run after every change of the state. *)
Definition saveState (state : fields) : M page unit :=
  session_set SIGNUP_STORAGE_KEY (default "undefined" (stringify (JObj state))).

Definition updateState (state partial : fields) : M page fields :=
  let next := merge state partial in saveState next ;; mret next.

(** The state is reset, and the effect writes it again after the removal. *)
Definition clearState : M page fields :=
  session_remove SIGNUP_STORAGE_KEY ;; saveState defaultState ;; mret defaultState.

(** [handleSubmit] of the customize page with the identifier of the attempt;
    [None] when the form is incomplete. *)
Definition handleCustomize (f : slug_form) (teamSize attemptId : string) (state : fields)
  : M page (option fields) :=
  if bool_decide (trim (form_name f) = "") || bool_decide (form_slug f = "") then mret None
  else
    next ← updateState state
      [("networkName", JStr (trim (form_name f))); ("networkSlug", JStr (form_slug f));
       ("attemptId", JStr attemptId); ("teamSize", JStr teamSize)];
    navigate "/signup/finalize" ;; mret (Some next).

(** ** [TokenCapture] *)

(** The parameters of the address, from [URLSearchParams]. *)
Record search_params := mkParams {
  token : option string; ws_name : option string; ws_slug : option string;
  signup_id : option string }.

Definition js_of (o : option string) : jsv := match o with Some s => JStr s | None => JNull end.

(** [a || b || ''] *)
Definition or_empty (a b : jsv) : jsv := falsy_or (falsy_or a b) (JStr "").

(** The name, slug and attempt: from the address, then from the session. *)
Definition signup_details (params : search_params) : M page (jsv * jsv * jsv) :=
  let networkName := falsy_or (js_of (ws_name params)) (JStr "") in
  let networkSlug := falsy_or (js_of (ws_slug params)) (JStr "") in
  let latestSignupId := falsy_or (js_of (signup_id params)) (JStr "") in
  if negb (truthy networkName) || negb (truthy networkSlug) then
    raw ← session_get SIGNUP_STORAGE_KEY;
    if falsy_string raw then mret (networkName, networkSlug, latestSignupId)
    else
      match parse (default "" raw) with
      | Ok st =>
          if is_nullish st then mret (networkName, networkSlug, latestSignupId)
          else mret (or_empty networkName (opt_field st "networkName"),
                     or_empty networkSlug (opt_field st "networkSlug"),
                     or_empty latestSignupId (opt_field st "attemptId"))
      | Throw _ => mret (networkName, networkSlug, latestSignupId)
      end
  else if negb (truthy latestSignupId) then
    raw ← session_get SIGNUP_STORAGE_KEY;
    if falsy_string raw then mret (networkName, networkSlug, latestSignupId)
    else
      match parse (default "" raw) with
      | Ok st =>
          if is_nullish st then mret (networkName, networkSlug, latestSignupId)
          else mret (networkName, networkSlug, falsy_or (opt_field st "attemptId") (JStr ""))
      | Throw _ => mret (networkName, networkSlug, latestSignupId)
      end
  else mret (networkName, networkSlug, latestSignupId).

(** Where a token without a workspace to create leads. *)
Definition capture_landing (t : string) : M page unit :=
  let aud := getAudience (Some t) in
  let claims := getWorkspaceClaims (Some t) in
  if is_str aud "device" then navigate "/app"
  else
    match is_str aud "admin", claims with
    | true, Some c =>
        if is_str (wrole c) "member" then navigate "/app" else navigate "/dashboard/groups"
    | _, None => navigate "/workspaces"
    | false, Some c =>
        if is_str (wrole c) "admin" || is_str (wrole c) "owner"
        then navigate "/dashboard/groups" else navigate "/app"
    end.

(** [`${PREFIX}${latestSignupId || `${networkSlug}:${token}`}`] *)
Definition processed_key (latestSignupId networkSlug : jsv) (t : string) : string :=
  SIGNUP_PROCESS_PREFIX +:+
    (if truthy latestSignupId then to_string latestSignupId
     else to_string networkSlug +:+ ":" +:+ t).

(** The effect, up to the sending of the request. *)
Definition token_capture (params : search_params) : M page unit :=
  match token params with
  | None => mret tt
  | Some t =>
      if bool_decide (t = "") then mret tt
      else
        local_set "authToken" t ;;
        details ← signup_details params;
        let '(networkName, networkSlug, latestSignupId) := details in
        if truthy (js_of (signup_id params)) && truthy latestSignupId &&
           negb (strict_eq (js_of (signup_id params)) latestSignupId)
        then session_remove SIGNUP_STORAGE_KEY ;; navigate "/signup/customize"
        else if negb (truthy networkName) || negb (truthy networkSlug) then
          session_remove SIGNUP_STORAGE_KEY ;; capture_landing t
        else
          let processedKey := processed_key latestSignupId networkSlug t in
          processedState ← session_get processedKey;
          if bool_decide (processedState = Some "pending") then setProcessing true
          else if bool_decide (processedState = Some "done") then
            session_remove SIGNUP_STORAGE_KEY ;; navigate "/dashboard/groups?setup=true"
          else
            session_set processedKey "pending" ;;
            setProcessing true ;;
            fetch (mkRequest t networkName networkSlug processedKey)
  end.

(** A reply: the network failed with a message, or a status, a text and the outcome
    of [res.json()] on it. *)
Inductive reply :=
  | Failed (message : string)
  | Answered (ok : bool) (status : Z) (text : string) (json : outcome jsv).

(** The messages of exceptions other than [Error]s are those of the engine. *)
Section Reply.
  Variable engine_message : js_error → string.

Definition err_message (e : js_error) : string :=
  match e with JsError m => m | e => engine_message e end.

(** The [.catch] handler. *)
Definition capture_failed (r : request) (message : string) : M page unit :=
  session_remove (request_key r) ;; setError message ;; setProcessing false.

(** The handlers of the promise chain. *)
Definition capture_reply (r : request) (rep : reply) : M page unit :=
  match rep with
  | Failed message => capture_failed r message
  | Answered false status text _ =>
      if (status =? 409)%Z then
        session_remove (request_key r) ;;
        setError "Network URL already taken. Please choose another." ;;
        navigate "/signup/customize"
      else capture_failed r (or_else text "Failed to create workspace")
  | Answered true _ _ (Throw e) => capture_failed r (err_message e)
  | Answered true _ _ (Ok data) =>
      if negb (truthy data) then mret tt
      else
        (if truthy (opt_field data "token")
         then local_set "authToken" (to_string (opt_field data "token")) else mret tt) ;;
        session_set (request_key r) "done" ;;
        session_remove SIGNUP_STORAGE_KEY ;;
        navigate "/dashboard/groups?setup=true"
  end.

(** The runs of the component: the effect runs (on every mount), or one of the
    requests in flight is answered. *)
Inductive capture_step (params : search_params) : page → page → Prop :=
  | step_effect p : capture_step params p (state_of (token_capture params) p)
  | step_reply p l1 r l2 rep : requests p = l1 ++ r :: l2 →
      capture_step params p (state_of (capture_reply r rep) (set_requests (λ _, l1 ++ l2) p)).

Definition capture_reachable (params : search_params) : page → page → Prop :=
  rtc (capture_step params).
End Reply.

(** [handleSubmit] of the workspace creation page, its reply included. *)
Definition handleCreate (engine_message : js_error → string) (rep : reply) : M page unit :=
  setError "" ;;
  t ← local_get "authToken";
  if falsy_string t then navigate "/login"
  else
    match rep with
    | Failed message => setError message
    | Answered false _ text _ => setError (or_else text "Failed to create workspace")
    | Answered true _ _ (Throw e) => setError (err_message engine_message e)
    | Answered true _ _ (Ok data) =>
        match field data "token" with
        | Throw e => setError (err_message engine_message e)
        | Ok v =>
            (if truthy v then local_set "authToken" (to_string v) else mret tt) ;;
            navigate "/dashboard"
        end
    end.

(** ** Lemmas *)

Lemma truthy_str s : s ≠ "" → truthy (JStr s) = true.
Proof. intros H. cbn. by rewrite bool_decide_false. Qed.

Lemma falsy_or_str s b : s ≠ "" → falsy_or (JStr s) b = JStr s.
Proof. intros H. unfold falsy_or. by rewrite truthy_str. Qed.

Lemma details_id params sid p : signup_id params = Some sid → sid ≠ "" →
  ∃ n s, signup_details params p = (p, Ok (n, s, JStr sid)).
Proof.
  intros Hid Hne. unfold signup_details. rewrite Hid. cbv zeta.
  cbn [js_of]. rewrite (falsy_or_str sid), (truthy_str sid) by done.
  assert (∀ v, or_empty (JStr sid) v = JStr sid) as Eo.
  { intros v. unfold or_empty. by rewrite !falsy_or_str. }
  cbn [negb]. destruct (_ || _); [|by eexists _, _].
  unfold mbind, M_bind, session_get, gets. cbv beta iota.
  destruct (falsy_string _); [by eexists _, _|].
  destruct (parse _) as [st|]; [|by eexists _, _].
  destruct (is_nullish st); [by eexists _, _|]. rewrite Eo. by eexists _, _.
Qed.

(** With the identifier of the attempt in the address, the key is fixed and the
    comparison with the latest attempt always succeeds. *)
Lemma capture_with_id params t sid p :
  token params = Some t → t ≠ "" → signup_id params = Some sid → sid ≠ "" →
  let p1 := set_local (insert "authToken" t) p in
  let key := SIGNUP_PROCESS_PREFIX +:+ sid in
  ∃ n s, signup_details params p1 = (p1, Ok (n, s, JStr sid)) ∧
  state_of (token_capture params) p =
    if negb (truthy n) || negb (truthy s) then
      state_of (capture_landing t) (set_session (delete SIGNUP_STORAGE_KEY) p1)
    else if bool_decide (sessionStorage p !! key = Some "pending")
    then state_of (setProcessing true) p1
    else if bool_decide (sessionStorage p !! key = Some "done")
    then state_of (navigate "/dashboard/groups?setup=true")
           (set_session (delete SIGNUP_STORAGE_KEY) p1)
    else state_of (setProcessing true ;; fetch (mkRequest t n s key))
           (set_session (insert key "pending") p1).
Proof.
  intros Ht Htne Hid Hne p1 key.
  destruct (details_id params sid p1 Hid Hne) as (n & s & E). exists n, s. split; [done|].
  unfold token_capture. rewrite Ht, bool_decide_false by done.
  unfold state_of. rewrite (bind_run _ _ p p1 tt) by done.
  rewrite (bind_run _ _ _ _ _ E). rewrite Hid. cbn [js_of].
  assert (strict_eq (JStr sid) (JStr sid) = true) as -> by (cbn; by rewrite bool_decide_true).
  rewrite andb_false_r. destruct (_ || _).
  - by rewrite (bind_run _ _ p1 (set_session (delete SIGNUP_STORAGE_KEY) p1) tt).
  - assert (processed_key (JStr sid) s t = key) as ->.
    { unfold processed_key. cbn. by rewrite bool_decide_false. }
    rewrite (bind_run _ _ p1 p1 (sessionStorage p !! key)) by done.
    destruct (bool_decide (_ = Some "pending")); [done|].
    destruct (bool_decide (_ = Some "done")); done.
Qed.

Lemma landing_run t p : ∃ home, capture_landing t p = (visit p (Some home), Ok tt).
Proof.
  unfold capture_landing. cbv zeta. destruct (is_str _ "device"); [by eexists|].
  destruct (is_str _ "admin"), (getWorkspaceClaims (Some t)) as [c|]; [| | |by eexists].
  - destruct (is_str (wrole c) "member"); by eexists.
  - by eexists.
  - destruct (_ || _); by eexists.
Qed.

Lemma key_not_state sid : SIGNUP_PROCESS_PREFIX +:+ sid ≠ SIGNUP_STORAGE_KEY.
Proof. discriminate. Qed.

(** At most one request in flight, under the key of the attempt, and only while the
    attempt is marked as pending. *)
Definition one_in_flight (key : string) (p : page) : Prop :=
  requests p = [] ∨
  ∃ r, requests p = [r] ∧ request_key r = key ∧ sessionStorage p !! key = Some "pending".

(** What a reply does to the storage of the attempt. *)
Lemma reply_session msg r rep p : request_key r ≠ SIGNUP_STORAGE_KEY →
  let p' := state_of (capture_reply msg r rep) p in
  requests p' = requests p ∧
  (sessionStorage p' !! request_key r = None ∨
   sessionStorage p' !! request_key r = Some "done" ∨
   sessionStorage p' !! request_key r = sessionStorage p !! request_key r).
Proof.
  intros Hk. unfold capture_reply, capture_failed.
  destruct rep as [message|[] status text [data|e]]; cbv zeta.
  - split; [done|]. left. cbn. apply lookup_delete_eq.
  - destruct (truthy data); [|split; [done|by right; right]]. cbn [negb].
    destruct (truthy (opt_field data "token")); (split; [done|right; left]);
      (transitivity (delete SIGNUP_STORAGE_KEY
         (<[request_key r := "done"]> (sessionStorage p)) !! request_key r); [done|]);
      rewrite lookup_delete_ne by done; apply lookup_insert_eq.
  - split; [done|]. left. cbn. apply lookup_delete_eq.
  - destruct (_ =? _)%Z; (split; [done|]); left; cbn; apply lookup_delete_eq.
  - destruct (_ =? _)%Z; (split; [done|]); left; cbn; apply lookup_delete_eq.
Qed.

Section Machine.
  Context (msg : js_error → string) (params : search_params) (t sid : string).
  Context (Ht : token params = Some t) (Htne : t ≠ "").
  Context (Hid : signup_id params = Some sid) (Hidne : sid ≠ "").

Abbreviation key := (SIGNUP_PROCESS_PREFIX +:+ sid).

(** A run of the effect. *)
Lemma effect_cases p :
  (requests (state_of (token_capture params) p) = requests p ∧
   sessionStorage (state_of (token_capture params) p) !! key = sessionStorage p !! key) ∨
  (sessionStorage p !! key ≠ Some "pending" ∧ sessionStorage p !! key ≠ Some "done" ∧
   ∃ n s, requests (state_of (token_capture params) p) = requests p ++ [mkRequest t n s key] ∧
     sessionStorage (state_of (token_capture params) p) !! key = Some "pending").
Proof.
  destruct (capture_with_id params t sid p Ht Htne Hid Hidne) as (n & s & _ & ->).
  destruct (_ || _).
  { left. unfold state_of. edestruct landing_run as [h ->]. cbn. split; [done|].
    apply lookup_delete_ne. done. }
  case_bool_decide as Hp; [by left|]. case_bool_decide as Hd.
  - left. cbn. split; [done|]. by apply lookup_delete_ne.
  - right. split_and!; [done|done|]. exists n, s. cbn. split; [done|apply lookup_insert_eq].
Qed.

Lemma one_in_flight_step p p' :
  one_in_flight key p → capture_step msg params p p' → one_in_flight key p'.
Proof.
  intros Hp Hstep. destruct Hstep as [p|p l1 r l2 rep Hr].
  - destruct (effect_cases p) as [[Er Es]|(Hnp & _ & n & s & Er & Es)].
    + destruct Hp as [Hp|(r & Hp & Hk & Hs)]; [left; congruence|].
      right. exists r. by rewrite Er, Es.
    + destruct Hp as [Hp|(r & _ & _ & Hs)]; [|done].
      right. eexists. rewrite Er, Es, Hp. by split.
  - destruct Hp as [Hp|(r' & Hp & Hk & Hs)].
    { rewrite Hp in Hr. by destruct l1. }
    rewrite Hp in Hr. destruct l1 as [|? l1]; [|by destruct l1].
    injection Hr as <- <-. left.
    edestruct (reply_session msg r' rep) as [Er _]; [|rewrite Er; done].
    rewrite Hk. apply key_not_state.
Qed.

(** Once the workspace exists no further request is made. *)
Definition finished (p : page) : Prop :=
  requests p = [] ∧ sessionStorage p !! key = Some "done".

Lemma finished_step p p' : finished p → capture_step msg params p p' → finished p'.
Proof.
  intros [Hr Hs] Hstep. destruct Hstep as [p|p l1 r l2 rep Hr'].
  - destruct (effect_cases p) as [[Er Es]|(_ & Hnd & _)]; [|done].
    split; congruence.
  - rewrite Hr in Hr'. by destruct l1.
Qed.
End Machine.



(** A stale attempt is not detected.  The comparison of the address's
    [signup_id] with the latest attempt compares it with itself, so that whatever
    attempt sessionStorage holds, the page never goes back to the form but sends the
    request for the name and slug of the address. *)
Theorem stale_attempt_not_detected : ∀ params t sid name slug (p : page),
  token params = Some t → t ≠ "" → signup_id params = Some sid → sid ≠ "" →
  ws_name params = Some name → name ≠ "" → ws_slug params = Some slug → slug ≠ "" →
  sessionStorage p !! (SIGNUP_PROCESS_PREFIX +:+ sid) = None →
  let p' := state_of (token_capture params) p in
  requests p' = requests p ++ [mkRequest t (JStr name) (JStr slug) (SIGNUP_PROCESS_PREFIX +:+ sid)] ∧
  navigated p' = navigated p ∧
  sessionStorage p' !! SIGNUP_STORAGE_KEY = sessionStorage p !! SIGNUP_STORAGE_KEY.
Proof.
  intros params t sid name slug p Ht Htne Hid Hidne Hn Hnne Hs Hsne Hnone p'.
  destruct (capture_with_id params t sid p Ht Htne Hid Hidne) as (n & s & E & Ep).
  assert (n = JStr name ∧ s = JStr slug) as [-> ->].
  { unfold signup_details in E. rewrite Hn, Hs, Hid in E. cbn [js_of] in E. cbv zeta in E.
    rewrite !falsy_or_str, !truthy_str in E by done. by injection E as <- <-. }
  subst p'. rewrite Ep, !truthy_str by done. cbn [negb orb].
  rewrite Hnone, !bool_decide_false by done.
  split_and!; [done|done|]. cbn. apply lookup_insert_ne. done.
Qed.

Lemma stale_attempt_not_detected_witness :
  let st := of_list (print_raw (JObj [("attemptId", JStr "2")])) in
  let p := mkPage ∅ {[SIGNUP_STORAGE_KEY := st]} [] [] false "" in
  let params := mkParams (Some "t") (Some "Old") (Some "old") (Some "1") in
  navigated (state_of (token_capture params) p) = [] ∧
  length (requests (state_of (token_capture params) p)) = 1.
Proof.
  intros st p params.
  destruct (stale_attempt_not_detected params "t" "1" "Old" "old" p) as (H1 & H2 & _);
    try reflexivity; try discriminate.
  split; [exact H2|]. rewrite H1. reflexivity.
Defined.

(** Without a workspace to create, a token for the known roles leads where the
    guards send it from the dashboard; for any other role the page depends on the
    audience: an 'admin' token goes to the dashboard, which lets it stay, any other
    goes to /app. *)
Theorem capture_landing_agrees : ∀ (p : page) (t : string), t ≠ "" →
  ∃ home, capture_landing t p = (visit p (Some home), Ok tt) ∧
  (settle 3 (Some t) home = final_page (Some t) "/dashboard/groups" ∨
   ∃ c, getWorkspaceClaims (Some t) = Some c ∧ isDeviceToken (Some t) = false ∧
     isAdminToken (Some t) = false ∧ isAdminRole (Some t) = false ∧
     is_str (wrole c) "member" = false ∧ settle 3 (Some t) home = "/app").
Proof.
  intros p t Ht. assert (falsy_string (Some t) = false) as Ef
    by (cbn; by rewrite bool_decide_false).
  assert (settle 3 (Some t) "/dashboard/groups" = final_page (Some t) "/dashboard/groups") as Hd.
  { apply settle_dashboard. right. by exists "groups". }
  unfold capture_landing. cbv zeta. fold (isDeviceToken (Some t)) (isAdminToken (Some t)).
  assert (settle 3 (Some t) "/app" = match getWorkspaceClaims (Some t) with
    None => "/workspaces" | Some _ => "/app" end) as Happ by (by rewrite settle_app, Ef).
  unfold final_page in *. rewrite Ef in *.
  destruct (isDeviceToken (Some t)) eqn:Ed.
  { eexists. split; [done|]. left. rewrite Happ. by destruct (getWorkspaceClaims (Some t)). }
  destruct (getWorkspaceClaims (Some t)) as [c|] eqn:Ec.
  2:{ exists "/workspaces". split; [by destruct (isAdminToken _)|]. left.
      by rewrite settle_workspaces, Ef. }
  cbn [orb] in *. destruct (isAdminToken (Some t)) eqn:Ea.
  { destruct (is_str (wrole c) "member") eqn:Em; eexists; (split; [done|]); left; [|done].
    by rewrite Happ. }
  assert (isAdminRole (Some t) = is_str (wrole c) "admin" || is_str (wrole c) "owner") as Er
    by (unfold isAdminRole; by rewrite Ec).
  destruct (_ || _) eqn:Eao; eexists; (split; [done|]).
  - left. exact Hd.
  - destruct (is_str (wrole c) "member") eqn:Em; [left; by rewrite Happ|].
    right. exists c. by rewrite Happ.
Qed.

Lemma capture_landing_agrees_witness : ∃ home,
  capture_landing "x" (mkPage ∅ ∅ [] [] false "") =
    (visit (mkPage ∅ ∅ [] [] false "") (Some home), Ok tt).
Proof.
  destruct (capture_landing_agrees (mkPage ∅ ∅ [] [] false "") "x" ltac:(discriminate))
    as (home & H & _).
  exists home. exact H.
Defined.

(** ** The persisted form *)

Lemma assoc_set_fst k v (l : fields) : k ∈ l.*1 → (assoc_set k v l).*1 = l.*1.
Proof.
  induction l as [|[k' v'] l IH]; [by intros ?%not_elem_of_nil|].
  rewrite fmap_cons. cbn [assoc_set fst]. intros Hk.
  case_bool_decide as E; [by subst|]. rewrite fmap_cons. cbn [fst]. f_equal. apply IH.
  apply elem_of_cons in Hk as [->|Hk]; [done|done].
Qed.

Lemma assoc_set_fst_new k v (l : fields) : NoDup l.*1 → NoDup (assoc_set k v l).*1.
Proof.
  intros Hl. destruct (decide (k ∈ l.*1)) as [Hk|Hk]; [by rewrite assoc_set_fst|].
  rewrite assoc_set_fresh, fmap_app by done. apply NoDup_app. split_and!; [done| |].
  - by intros x Hx ->%list_elem_of_singleton.
  - apply NoDup_singleton.
Qed.

Lemma assoc_set_plain k v (l : fields) :
  plain v = true → forallb (λ f, plain f.2) l = true →
  forallb (λ f, plain f.2) (assoc_set k v l) = true.
Proof.
  intros Hv. induction l as [|[k' v'] l IH]; cbn [assoc_set forallb snd]; [by rewrite Hv|].
  intros [H1 H2]%andb_true_iff. cbn [snd] in H1.
  case_bool_decide; cbn [forallb snd]; [by rewrite Hv|]. rewrite H1. by apply IH.
Qed.

Lemma plain_obj (l : fields) :
  plain (JObj l) = true ↔ NoDup l.*1 ∧ forallb (λ f, plain f.2) l = true.
Proof. cbn [plain]. by rewrite andb_true_iff, bool_decide_eq_true. Qed.

Lemma merge_plain a b : plain (JObj a) = true → forallb (λ f : string * jsv, plain f.2) b = true →
  plain (JObj (merge a b)) = true.
Proof.
  revert a. induction b as [|[k v] b IH]; intros a Ha; [done|]. cbn [forallb merge foldl].
  intros [Hv Hb]%andb_true_iff. apply IH; [|done]. apply plain_obj in Ha as [H1 H2].
  apply plain_obj. split; [by apply assoc_set_fst_new|by apply assoc_set_plain].
Qed.

Lemma assoc_assoc_set k k' v (l : fields) :
  Json.assoc k (assoc_set k' v l) = if decide (k = k') then Some v else Json.assoc k l.
Proof.
  induction l as [|[k0 v0] l IH]; cbn [assoc_set Json.assoc].
  - case_decide; [rewrite bool_decide_true by done; done|]. by rewrite bool_decide_false.
  - case_bool_decide as E; cbn [Json.assoc]; subst.
    + case_decide; [by rewrite bool_decide_true|]. by rewrite !bool_decide_false by done.
    + rewrite IH. case_bool_decide; subst; [|done]. by rewrite decide_False.
Qed.

Lemma assoc_None k (l : fields) : Json.assoc k l = None ↔ k ∉ l.*1.
Proof.
  induction l as [|[k' v] l IH]; [split; [by intros _ ?%not_elem_of_nil|done]|].
  rewrite fmap_cons, not_elem_of_cons. cbn [Json.assoc fst].
  case_bool_decide; [naive_solver|]. rewrite IH. naive_solver.
Qed.

Lemma assoc_merge k a b : NoDup b.*1 →
  Json.assoc k (merge a b) =
    match Json.assoc k b with Some v => Some v | None => Json.assoc k a end.
Proof.
  revert a. induction b as [|[k0 v0] b IH]; intros a; [done|].
  rewrite fmap_cons, NoDup_cons. cbn [fst]. intros [Hk0 Hb].
  change (merge a ((k0, v0) :: b)) with (merge (assoc_set k0 v0 a) b).
  rewrite IH, assoc_assoc_set by done. cbn [Json.assoc].
  case_bool_decide as E; [|by rewrite decide_False].
  subst. by rewrite (proj2 (assoc_None k b) Hk0), decide_True.
Qed.

Lemma loadState_stored (l : fields) p : plain (JObj l) = true →
  sessionStorage p !! SIGNUP_STORAGE_KEY = Some (of_list (print_raw (JObj l))) →
  loadState p = (p, Ok (merge defaultState l)).
Proof.
  intros Hl Hs. unfold loadState. rewrite (bind_run _ _ p p (Some (of_list (print_raw (JObj l)))))
    by (unfold session_get, gets; by rewrite Hs).
  rewrite bool_decide_false by (by apply print_raw_nonempty). by rewrite parse_print.
Qed.

Lemma saveState_run (l : fields) p : plain (JObj l) = true →
  saveState l p =
    (set_session (insert SIGNUP_STORAGE_KEY (of_list (print_raw (JObj l)))) p, Ok tt).
Proof. intros Hl. unfold saveState. by rewrite stringify_plain. Qed.

(** The form survives leaving the site.  Updating a well-formed state with the
    fields of a page gives each of these fields its new value and every other field its
    old one, stores the result, and reloading the page gives the same fields back;
    clearing resets the form, but the storage entry it removes is written again. *)
Theorem signup_state_persists : ∀ (state partial : fields) (p : page),
  plain (JObj state) = true → plain (JObj partial) = true → defaultState.*1 ⊆ state.*1 →
  ∃ p' next loaded, updateState state partial p = (p', Ok next) ∧
    (∀ k, Json.assoc k next =
       match Json.assoc k partial with Some v => Some v | None => Json.assoc k state end) ∧
    loadState p' = (p', Ok loaded) ∧
    (∀ k, Json.assoc k loaded = Json.assoc k next) ∧
    ∃ p'', clearState p' = (p'', Ok defaultState) ∧ loadState p'' = (p'', Ok defaultState) ∧
      is_Some (sessionStorage p'' !! SIGNUP_STORAGE_KEY).
Proof.
  intros state partial p Hs Hp Hsub.
  pose proof (proj1 (plain_obj partial) Hp) as [Hnd Hpp].
  assert (plain (JObj (merge state partial)) = true) as Hm by (by apply merge_plain).
  pose proof (proj1 (plain_obj _) Hm) as [Hmnd _].
  eexists _, (merge state partial), (merge defaultState (merge state partial)). split_and!.
  - unfold updateState. cbv zeta. by rewrite (bind_run _ _ _ _ _ (saveState_run _ _ Hm)).
  - intros k. by apply assoc_merge.
  - apply loadState_stored; [exact Hm|]. apply lookup_insert_eq.
  - intros k. rewrite (assoc_merge k defaultState) by done.
    destruct (Json.assoc k (merge state partial)) as [v|] eqn:E; [done|].
    rewrite assoc_merge in E by done. destruct (Json.assoc k partial); [done|].
    apply assoc_None in E. apply assoc_None. set_solver.
  - assert (plain (JObj defaultState) = true) as Hd by (vm_compute; reflexivity).
    eexists. split_and!.
    + unfold clearState.
      rewrite (bind_run (session_remove _) _ _ (set_session (delete SIGNUP_STORAGE_KEY) _) tt)
        by reflexivity.
      rewrite (bind_run _ _ _ _ _ (saveState_run _ _ Hd)). reflexivity.
    + assert (merge defaultState defaultState = defaultState) as Ed by (vm_compute; reflexivity).
      rewrite (loadState_stored defaultState _ Hd) by apply lookup_insert_eq.
      by rewrite Ed.
    + eexists. apply lookup_insert_eq.
Qed.

Lemma signup_state_persists_witness : ∃ p' next loaded,
  updateState defaultState [("email", JStr "a@b.c")] (mkPage ∅ ∅ [] [] false "") = (p', Ok next) ∧
  loadState p' = (p', Ok loaded) ∧ Json.assoc "email" loaded = Some (JStr "a@b.c").
Proof.
  destruct (signup_state_persists defaultState [("email", JStr "a@b.c")]
    (mkPage ∅ ∅ [] [] false "")) as (p' & next & loaded & H1 & H2 & H3 & H4 & _).
  - vm_compute. reflexivity.
  - vm_compute. reflexivity.
  - reflexivity.
  - exists p', next, loaded. split; [exact H1|]. split; [exact H3|].
    rewrite H4, H2. reflexivity.
Defined.
