(* ===== verification/Toast.v ===== *)
(** * Toasts ([hooks/use-toast.ts])

    A module-level store: the toasts shown, the removal timers of dismissed toasts,
    the counter of identifiers and the components that listen.  All timers have the
    same delay, so they fire in the order they were set. *)
From S2P Require Import Prelude JsString.
From stdpp Require Import gmap.
From Stdlib Require Import ZArith Lia.

Section Toast.
  (** React nodes are opaque. *)
  Context {Node : Type}.

Definition TOAST_LIMIT : nat := 1.
Definition MAX_SAFE_INTEGER : Z := 9007199254740991.

(** The properties of a toast the caller gives, and a toast. *)
Record props := mkProps { p_title : option Node; p_description : option Node; p_action : option Node }.
Record ToasterToast := mkToast { id : string; content : props; open : bool }.

(** A partial toast: [None] where the property is absent. *)
Record patch := mkPatch {
  patch_id : option string; patch_title : option (option Node);
  patch_description : option (option Node); patch_action : option (option Node);
  patch_open : option bool }.

(** [{ ...t, ...p }] *)
Definition apply_patch (p : patch) (t : ToasterToast) : ToasterToast :=
  mkToast (default (id t) (patch_id p))
    (mkProps (default (p_title (content t)) (patch_title p))
             (default (p_description (content t)) (patch_description p))
             (default (p_action (content t)) (patch_action p)))
    (default (open t) (patch_open p)).

Inductive Action :=
  | ADD_TOAST (t : ToasterToast)
  | UPDATE_TOAST (p : patch)
  | DISMISS_TOAST (toastId : option string)
  | REMOVE_TOAST (toastId : option string).

(** The module: the counter, the keys of [toastTimeouts], the timers that have not
    fired (oldest first), [memoryState], the listeners and what each component was
    last given. *)
Record store := mkStore {
  count : Z;
  toastTimeouts : list string;
  timers : list string;
  memoryState : list ToasterToast;
  listeners : list nat;
  views : gmap nat (list ToasterToast) }.

Definition initial : store := mkStore 0 [] [] [] [] ∅.

Definition genId : M store string := λ s,
  let c := ((count s + 1) mod MAX_SAFE_INTEGER)%Z in
  (mkStore c (toastTimeouts s) (timers s) (memoryState s) (listeners s) (views s),
   Ok (string_of_Z c)).

Definition addToRemoveQueue (toastId : string) : M store unit :=
  modify (λ s,
    if bool_decide (toastId ∈ toastTimeouts s) then s
    else mkStore (count s) (toastTimeouts s ++ [toastId]) (timers s ++ [toastId])
           (memoryState s) (listeners s) (views s)).

(** [t.id === toastId || toastId === undefined] *)
Definition id_matches (toastId : option string) (t : ToasterToast) : bool :=
  match toastId with None => true | Some i => bool_decide (id t = i) end.

Definition close (t : ToasterToast) : ToasterToast := mkToast (id t) (content t) false.

(** The state the reducer returns, and its side effect. *)
Definition reducer (toasts : list ToasterToast) (action : Action) : M store (list ToasterToast) :=
  match action with
  | ADD_TOAST t => mret (take TOAST_LIMIT (t :: toasts))
  | UPDATE_TOAST p =>
      mret ((λ t, if bool_decide (Some (id t) = patch_id p) then apply_patch p t else t) <$> toasts)
  | DISMISS_TOAST toastId =>
      (if bool_decide (toastId = None ∨ toastId = Some "")
       then forEach addToRemoveQueue (id <$> toasts)
       else addToRemoveQueue (default "" toastId)) ;;
      mret ((λ t, if id_matches toastId t then close t else t) <$> toasts)
  | REMOVE_TOAST None => mret []
  | REMOVE_TOAST (Some toastId) => mret (filter (λ t, id t ≠ toastId) toasts)
  end.

(** Every listener is [setState] of its component. *)
Definition notify (toasts : list ToasterToast) : M store unit :=
  modify (λ s, mkStore (count s) (toastTimeouts s) (timers s) (memoryState s) (listeners s)
    (foldl (λ v n, <[n := toasts]> v) (views s) (listeners s))).

Definition dispatch (action : Action) : M store unit :=
  s ← get;
  toasts ← reducer (memoryState s) action;
  modify (λ s, mkStore (count s) (toastTimeouts s) (timers s) toasts (listeners s) (views s)) ;;
  notify toasts.

Definition toast (p : props) : M store string :=
  i ← genId;
  dispatch (ADD_TOAST (mkToast i p true)) ;;
  mret i.

(** The functions a toast is returned with, and its [onOpenChange]. *)
Definition update (i : string) (p : patch) : M store unit :=
  dispatch (UPDATE_TOAST (mkPatch (Some i) (patch_title p) (patch_description p)
                            (patch_action p) (patch_open p))).
Definition dismiss (i : option string) : M store unit := dispatch (DISMISS_TOAST i).
Definition onOpenChange (i : string) (is_open : bool) : M store unit :=
  if negb is_open then dismiss (Some i) else mret tt.

(** The callback of the oldest timer. *)
Definition fire : M store unit :=
  s ← get;
  match timers s with
  | [] => mret tt
  | toastId :: rest =>
      modify (λ s, mkStore (count s) (filter (λ k, k ≠ toastId) (toastTimeouts s)) rest
                     (memoryState s) (listeners s) (views s)) ;;
      dispatch (REMOVE_TOAST (Some toastId))
  end.

(** [useToast]: the first render and its effect; the effect runs again after a change
    of state; unmounting removes the first occurrence. *)
Definition mount (n : nat) : M store unit :=
  modify (λ s, mkStore (count s) (toastTimeouts s) (timers s) (memoryState s)
    (listeners s ++ [n]) (<[n := memoryState s]> (views s))).

Fixpoint remove_first (n : nat) (l : list nat) : list nat :=
  match l with [] => [] | m :: l' => if decide (m = n) then l' else m :: remove_first n l' end.

Definition unmount (n : nat) : M store unit :=
  modify (λ s, mkStore (count s) (toastTimeouts s) (timers s) (memoryState s)
    (remove_first n (listeners s)) (views s)).

Definition rerun_effect (n : nat) : M store unit :=
  modify (λ s, if decide (n ∈ listeners s) then
    mkStore (count s) (toastTimeouts s) (timers s) (memoryState s)
      (remove_first n (listeners s) ++ [n]) (views s) else s).

Inductive event :=
  | Show (p : props)
  | Update (i : string) (p : patch)
  | Dismiss (i : option string)
  | Change (i : string) (is_open : bool)
  | Fire
  | Mount (n : nat)
  | Unmount (n : nat)
  | Rerun (n : nat).

Definition handle (e : event) : M store unit :=
  match e with
  | Show p => toast p ;; mret tt
  | Update i p => update i p
  | Dismiss i => dismiss i
  | Change i b => onOpenChange i b
  | Fire => fire
  | Mount n => mount n
  | Unmount n => unmount n
  | Rerun n => rerun_effect n
  end.

(** An update through the returned function that does not itself close the toast. *)
Definition keeps_open (e : event) : Prop :=
  match e with Update _ p => patch_open p ≠ Some false | _ => True end.

Inductive step : store → store → Prop :=
  | step_event e s : keeps_open e → step s (state_of (handle e) s).

Definition reachable : store → Prop := rtc step initial.

(** ** The invariant *)

Record store_ok (s : store) : Prop := {
  ok_limit : length (memoryState s) ≤ TOAST_LIMIT;
  ok_timers : toastTimeouts s = timers s;
  ok_once : NoDup (timers s);
  ok_closed : ∀ t, t ∈ memoryState s → open t = false → id t ∈ timers s;
  ok_views : ∀ n, n ∈ listeners s → views s !! n = Some (memoryState s) }.

Lemma initial_ok : store_ok initial.
Proof. split; cbn; try done; [lia|constructor|by intros ? ?%not_elem_of_nil|by intros ? ?%not_elem_of_nil]. Qed.

Lemma foldl_views (l : list nat) (ts : list ToasterToast) (v : gmap nat (list ToasterToast)) n :
  foldl (λ v n, <[n := ts]> v) v l !! n = if decide (n ∈ l) then Some ts else v !! n.
Proof.
  revert v. induction l as [|m l IH]; intros v; cbn [foldl].
  - rewrite decide_False; [done|apply not_elem_of_nil].
  - rewrite IH. destruct (decide (n ∈ l)) as [Hl|Hl].
    + rewrite decide_True; [done|by right].
    + destruct (decide (n = m)) as [->|Hne].
      * rewrite decide_True by (by left). apply lookup_insert_eq.
      * rewrite decide_False by (rewrite elem_of_cons; tauto). by rewrite lookup_insert_ne.
Qed.

(** The queue after queueing a list of toasts. *)
Definition queued (q ids : list string) : list string :=
  foldl (λ q i, if bool_decide (i ∈ q) then q else q ++ [i]) q ids.

Definition with_queue (q : list string) (s : store) : store :=
  mkStore (count s) q q (memoryState s) (listeners s) (views s).

Lemma queue_run ids : ∀ s, toastTimeouts s = timers s →
  forEach addToRemoveQueue ids s = (with_queue (queued (timers s) ids) s, Ok tt).
Proof.
  induction ids as [|i ids IH]; intros s Hs; cbn [forEach queued foldl].
  - destruct s; cbn in Hs; by subst.
  - rewrite (bind_run (addToRemoveQueue i) _ s
      (if bool_decide (i ∈ timers s) then s else with_queue (timers s ++ [i]) s) tt).
    + case_bool_decide as Hi; by rewrite IH.
    + unfold addToRemoveQueue, modify. by rewrite Hs.
Qed.

Lemma queued_spec ids : ∀ q, NoDup q →
  NoDup (queued q ids) ∧ ∀ i, i ∈ queued q ids ↔ i ∈ q ∨ i ∈ ids.
Proof.
  induction ids as [|j ids IH]; intros q Hq; cbn [queued foldl].
  - split; [done|]. intros i. rewrite elem_of_nil. tauto.
  - fold (queued (if bool_decide (j ∈ q) then q else q ++ [j]) ids).
    case_bool_decide as Hj.
    + destruct (IH q Hq) as [H1 H2]. split; [done|]. intros i. rewrite H2, elem_of_cons.
      naive_solver.
    + destruct (IH (q ++ [j])) as [H1 H2].
      { apply NoDup_app. split_and!; [done| |apply NoDup_singleton].
        by intros x Hx ->%list_elem_of_singleton. }
      split; [done|]. intros i. rewrite H2, elem_of_app, list_elem_of_singleton, elem_of_cons.
      tauto.
Qed.

(** What a dispatch does once the reducer's side effect is known. *)
Lemma dispatch_run a s s1 ts : reducer (memoryState s) a s = (s1, Ok ts) →
  dispatch a s = (mkStore (count s1) (toastTimeouts s1) (timers s1) ts (listeners s1)
    (foldl (λ v n, <[n := ts]> v) (views s1) (listeners s1)), Ok tt).
Proof.
  intros H. unfold dispatch. rewrite (bind_run _ _ s s s) by done. by rewrite (bind_run _ _ _ _ _ H).
Qed.

Lemma dispatch_ok a s s1 ts : reducer (memoryState s) a s = (s1, Ok ts) →
  length ts ≤ TOAST_LIMIT → toastTimeouts s1 = timers s1 → NoDup (timers s1) →
  (∀ t, t ∈ ts → open t = false → id t ∈ timers s1) →
  store_ok (state_of (dispatch a) s).
Proof.
  intros H ? ? ? ?. unfold state_of. rewrite (dispatch_run _ _ _ _ H). cbn [fst].
  split; try done. intros n Hn. cbn [listeners views memoryState] in *.
  rewrite foldl_views. by rewrite decide_True.
Qed.

Lemma dismiss_reducer s toastId : store_ok s →
  let q := queued (timers s) (if bool_decide (toastId = None ∨ toastId = Some "")
                              then id <$> memoryState s else [default "" toastId]) in
  reducer (memoryState s) (DISMISS_TOAST toastId) s =
    (with_queue q s, Ok ((λ t, if id_matches toastId t then close t else t) <$> memoryState s)).
Proof.
  intros Hs. cbv zeta. unfold reducer. case_bool_decide as H.
  - by rewrite (bind_run _ _ _ _ _ (queue_run _ s (ok_timers _ Hs))).
  - assert (addToRemoveQueue (default "" toastId) s =
      forEach addToRemoveQueue [default "" toastId] s) as E by (symmetry; apply forEach_one).
    rewrite queue_run in E by apply (ok_timers _ Hs). by rewrite (bind_run _ _ _ _ _ E).
Qed.

Lemma dismiss_ok toastId s : store_ok s → store_ok (state_of (dismiss toastId) s).
Proof.
  intros Hs. unfold dismiss. eapply dispatch_ok; [by apply dismiss_reducer| |done| |].
  - rewrite length_fmap. apply (ok_limit _ Hs).
  - apply queued_spec, (ok_once _ Hs).
  - intros t (u & -> & Hu)%list_elem_of_fmap Hopen. cbn [timers with_queue].
    apply queued_spec; [apply (ok_once _ Hs)|].
    destruct (id_matches toastId u) eqn:E; [|left; by apply (ok_closed _ Hs)]. right.
    change (id (close u)) with (id u). case_bool_decide as Hn; [by apply list_elem_of_fmap_2|].
    destruct toastId as [i|]; [|tauto]. cbn in E. apply bool_decide_eq_true in E.
    subst i. by left.
Qed.

Lemma remove_first_subset n m l : m ∈ remove_first n l → m ∈ l.
Proof.
  induction l as [|k l IH]; cbn [remove_first]; [done|].
  case_decide; [by right|]. intros [->|Hm]%elem_of_cons; [by left|right; by apply IH].
Qed.

(** The oldest timer: it drops its key and its toast. *)
Lemma fire_run s q rest : store_ok s → timers s = q :: rest →
  let ts := filter (λ t, id t ≠ q) (memoryState s) in
  fire s = (mkStore (count s) rest rest ts (listeners s)
    (foldl (λ v n, <[n := ts]> v) (views s) (listeners s)), Ok tt).
Proof.
  intros Hs Hq ts. unfold fire. rewrite (bind_run _ _ s s s) by done. rewrite Hq.
  rewrite (bind_run _ _ _ _ tt) by done. rewrite (ok_timers _ Hs), Hq.
  pose proof (ok_once _ Hs) as Hnd. rewrite Hq in Hnd. apply NoDup_cons in Hnd as [Hnq _].
  rewrite filter_cons_False by auto. rewrite filter_all by (by intros x Hx ->).
  by erewrite dispatch_run by done.
Qed.

Lemma fire_ok s : store_ok s → store_ok (state_of fire s).
Proof.
  intros Hs. destruct (timers s) as [|q rest] eqn:Hq.
  { unfold state_of, fire, mbind, M_bind, get. by rewrite Hq. }
  unfold state_of. rewrite (fire_run s q rest Hs Hq). cbn [fst].
  pose proof (ok_once _ Hs) as Hnd. rewrite Hq in Hnd. apply NoDup_cons in Hnd as [Hnq Hnd].
  split; cbn [memoryState toastTimeouts timers listeners views]; try done.
  - etransitivity; [apply length_filter|apply (ok_limit _ Hs)].
  - intros t [Ht Hin]%list_elem_of_filter Ho. pose proof (ok_closed _ Hs t Hin Ho) as Hc.
    rewrite Hq in Hc. by apply elem_of_cons in Hc as [?|?].
  - intros n Hn. rewrite foldl_views. by rewrite decide_True.
Qed.

Lemma handle_ok e s : keeps_open e → store_ok s → store_ok (state_of (handle e) s).
Proof.
  intros He Hs. destruct e as [p|i p|i|i b| |n|n|n]; cbn [handle].
  - set (c := ((count s + 1) mod MAX_SAFE_INTEGER)%Z).
    set (s1 := mkStore c (toastTimeouts s) (timers s) (memoryState s) (listeners s) (views s)).
    assert (state_of (toast p ;; mret tt) s =
      state_of (dispatch (ADD_TOAST (mkToast (string_of_Z c) p true))) s1) as ->.
    { unfold state_of, toast. by unfold mbind, M_bind, genId. }
    eapply dispatch_ok; [done|rewrite length_take; lia|apply (ok_timers _ Hs)|apply (ok_once _ Hs)|].
    intros t [->|Ht]%elem_of_cons; [done|by apply not_elem_of_nil in Ht].
  - unfold update. eapply dispatch_ok; [done| |apply (ok_timers _ Hs)|apply (ok_once _ Hs)|].
    + rewrite length_fmap. apply (ok_limit _ Hs).
    + intros t (u & -> & Hu)%list_elem_of_fmap Ho. cbn [patch_id] in *.
      case_bool_decide as E; [|by apply (ok_closed _ Hs)]. cbn in *. injection E as E. subst i.
      apply (ok_closed _ Hs); [done|]. by destruct (patch_open p) as [[]|].
  - by apply dismiss_ok.
  - unfold onOpenChange. destruct b; [done|by apply dismiss_ok].
  - by apply fire_ok.
  - unfold mount, modify, state_of. destruct Hs. split; try done. cbn. intros m Hm.
    destruct (decide (m = n)) as [->|Hne]; [apply lookup_insert_eq|].
    rewrite lookup_insert_ne by done. apply elem_of_app in Hm as [Hm|Hm]; [by apply ok_views0|].
    by apply list_elem_of_singleton in Hm.
  - destruct Hs. split; try done. cbn. intros m Hm%remove_first_subset. by apply ok_views0.
  - unfold rerun_effect, modify, state_of. cbn [fst]. case_decide as Hn; [|done].
    destruct Hs. split; try done. cbn. intros m [Hm%remove_first_subset|Hm]%elem_of_app;
      apply ok_views0; [done|]. by apply list_elem_of_singleton in Hm as ->.
Qed.

Lemma reachable_ok s : reachable s → store_ok s.
Proof.
  intros H. enough (∀ s0, store_ok s0 → rtc step s0 s → store_ok s) as Hg
    by (eapply Hg; [apply initial_ok|exact H]).
  clear H. intros s0 H0 H. induction H as [|s0 s1 s2 [e s0' He] _ IH]; [done|].
  apply IH. by apply handle_ok.
Qed.

(** All pending timers fire. *)
Fixpoint fires (n : nat) : M store unit :=
  match n with O => mret tt | S n' => fire ;; fires n' end.

Lemma fires_run n : ∀ s, store_ok s → n = length (timers s) → ∃ s',
  fires n s = (s', Ok tt) ∧ timers s' = [] ∧ toastTimeouts s' = [] ∧
  memoryState s' = filter (λ t, id t ∉ timers s) (memoryState s).
Proof.
  induction n as [|n IH]; intros s Hs Hn; cbn [fires].
  - symmetry in Hn. apply length_zero_iff_nil in Hn. exists s. split_and!; [done|done| |].
    + by rewrite (ok_timers _ Hs).
    + symmetry. apply filter_all. intros t _. rewrite Hn. apply not_elem_of_nil.
  - destruct (timers s) as [|q rest] eqn:Hq; [done|].
    rewrite (bind_run _ _ _ _ _ (fire_run s q rest Hs Hq)).
    pose proof (fire_ok s Hs) as Hs1. unfold state_of in Hs1.
    rewrite (fire_run s q rest Hs Hq) in Hs1. cbn [fst] in Hs1.
    destruct (IH _ Hs1) as (s' & E & H1 & H2 & H3); [cbn in *; lia|].
    exists s'. split_and!; try done. rewrite H3. cbn [timers memoryState].
    rewrite list_filter_filter. apply list_filter_iff. intros t.
    rewrite not_elem_of_cons. tauto.
Qed.
End Toast.

Arguments store : clear implicits.
Arguments event : clear implicits.



(** A dismissed toast goes away.  After a dismissal, once the pending timers have
    fired (as many as there are), no timer and no key is left, every toast the
    dismissal addressed is gone, and exactly the toasts that had no timer remain. *)
Theorem dismissed_goes_away : ∀ (Node : Type) (s : store Node) (toastId : option string),
  reachable s →
  let s1 := state_of (dismiss toastId) s in
  ∃ s2, fires (length (timers s1)) s1 = (s2, Ok tt) ∧
    timers s2 = [] ∧ toastTimeouts s2 = [] ∧
    memoryState s2 = filter (λ t, id t ∉ timers s1) (memoryState s1) ∧
    (∀ t, t ∈ memoryState s → id_matches toastId t = true → id t ∉ id <$> memoryState s2) ∧
    (∀ t, t ∈ memoryState s2 → open t = true).
Proof.
  intros Node s toastId Hs s1. apply reachable_ok in Hs.
  pose proof (dismiss_ok toastId s Hs) as Hs1. fold s1 in Hs1.
  destruct (fires_run _ s1 Hs1 eq_refl) as (s2 & E & H1 & H2 & H3).
  exists s2. split_and!; try done.
  - intros t Ht Hm Hin. rewrite H3 in Hin.
    apply list_elem_of_fmap in Hin as (u & Hu & [Hnq _]%list_elem_of_filter).
    apply Hnq. rewrite <- Hu. clear Hnq Hu u.
    assert (close t ∈ memoryState s1) as Hc.
    { unfold s1, state_of, dismiss.
      rewrite (dispatch_run _ _ _ _ (dismiss_reducer s toastId Hs)). cbn [fst memoryState].
      apply list_elem_of_fmap. exists t. by rewrite Hm. }
    by apply (ok_closed _ Hs1 (close t)).
  - intros t Ht. rewrite H3 in Ht. apply list_elem_of_filter in Ht as [Hnq Hin].
    destruct (open t) eqn:Eo; [done|]. by destruct Hnq; apply (ok_closed _ Hs1).
Qed.

Lemma dismissed_goes_away_witness :
  let s := state_of (toast (mkProps (Some "saved") None None)) initial in
  ∃ s2, fires 1 (state_of (dismiss None) s) = (s2, Ok tt) ∧ timers s2 = [].
Proof.
  intros s. destruct (dismissed_goes_away string s None) as (s2 & E & H & _).
  - eapply rtc_l; [apply (step_event (Show (mkProps (Some "saved") None None))); exact I|].
    apply rtc_refl.
  - exists s2. split; [exact E|exact H].
Defined.
