(* ===== verification/Proxy.v ===== *)
(** * The backend proxy ([lib/proxy.ts])

    The server reads its configuration from the environment, completed by the file
    [.env], and forwards requests to the controller.  The controller is not part of the
    program: it is a function from the requests it has received so far and the new one
    to a reply, so that every behaviour of a deterministic service is covered. *)
From S2P Require Import Prelude JsString Json.
From stdpp Require Import gmap.
From Stdlib Require Import Ascii ZArith.

(** ** The file [.env] *)

Abbreviation environment := (gmap string string).

(** [contents.split(/\r?\n/)]: a carriage return before a line feed belongs to the
    separator. *)
Definition lf : ascii := ascii_of_N 10.
Definition cr : ascii := ascii_of_N 13.

Definition strip_cr (l : list ascii) : list ascii :=
  match last l with
  | Some c => if decide (c = cr) then take (length l - 1) l else l
  | None => l
  end.

Fixpoint strip_all_but_last (ls : list (list ascii)) : list (list ascii) :=
  match ls with
  | [] => []
  | [l] => [l]
  | l :: ls' => strip_cr l :: strip_all_but_last ls'
  end.

Definition split_lines (contents : string) : list string :=
  of_list <$> strip_all_but_last (split_list lf (to_list contents)).

(** The assignment on a line, if there is one. *)
Definition parse_line (line : string) : option (string * string) :=
  let trimmed := trim line in
  if bool_decide (trimmed = "") || startsWith trimmed "#" then None
  else
    match indexOf "=" trimmed with
    | None => None
    | Some idx =>
        let key := trim (slice_to idx trimmed) in
        let value := trim (slice_from (S idx) trimmed) in
        if bool_decide (key = "") then None else Some (key, value)
    end.

(** The callback of [forEach]. *)
Definition load_line (env : environment) (line : string) : environment :=
  match parse_line line with
  | None => env
  | Some (key, value) =>
      match env !! key with None => <[key := value]> env | Some _ => env end
  end.

(** Loading the file at start-up; [None] when it does not exist. *)
Definition load_env (file : option string) (env : environment) : environment :=
  match file with
  | None => env
  | Some contents => foldl load_line env (split_lines contents)
  end.

(** [process.env.NAME || dflt] *)
Definition env_or (name dflt : string) (env : environment) : string :=
  or_else (default "" (env !! name)) dflt.

Definition getBackendUrl (env : environment) : string :=
  env_or "BACKEND_URL" "http://localhost:8081" env.
Definition getAdminAuthToken (env : environment) : string :=
  env_or "ADMIN_AUTH_TOKEN" "7f8e91a2b3c4d5e6f7a8b9c0d1e2f3a4" env.

(** ** Requests and replies *)

Record backend_request := mkReq {
  method : string; url : string; headers : list (string * string); req_body : option string }.

(** [fetch] fails with a message, or there is a status and a text. *)
Inductive backend_reply :=
  | NetError (message : string)
  | Reply (status : Z) (text : string).

(** The options a route passes; [method] is GET when it is absent. *)
Record request_init := mkInit {
  init_method : option string; init_body : option string; init_headers : list (string * string) }.

Definition no_options : request_init := mkInit None None [].
Definition with_method (m : string) : request_init := mkInit (Some m) None [].
(** [body: JSON.stringify(v)] *)
Definition with_body (m : string) (v : jsv) : request_init := mkInit (Some m) (stringify v) [].

(** [{ a, b, ...extra }] on headers *)
Definition set_header (h : list (string * string)) (f : string * string) : list (string * string) :=
  if bool_decide (f.1 ∈ h.*1) then (λ g, if decide (g.1 = f.1) then f else g) <$> h else h ++ [f].

Definition proxy_headers (bearer : string) (extra : list (string * string)) :
  list (string * string) :=
  foldl set_header [("Content-Type", "application/json"); ("Authorization", "Bearer " +:+ bearer)]
    extra.

(** [response.ok] *)
Definition ok_status (status : Z) : bool := ((200 <=? status) && (status <=? 299))%Z.

(** What the proxy makes of a reply. *)
Definition reply_outcome (r : backend_reply) : outcome jsv :=
  match r with
  | NetError message => Throw (JsError message)
  | Reply status text =>
      if ok_status status then parse text
      else Throw (JsError (or_else text ("Backend error: " +:+ string_of_Z status)))
  end.

(** The requests sent so far, oldest first. *)
Abbreviation trace := (list backend_request).

Section Proxy.
  Variable env : environment.
  Variable backend : trace → backend_request → backend_reply.

(** [fetch(url, ...)] *)
Definition send (r : backend_request) : M trace backend_reply := λ tr,
  (tr ++ [r], Ok (backend tr r)).

Definition request_of (bearer path : string) (options : request_init) : backend_request :=
  mkReq (default "GET" (init_method options)) (getBackendUrl env +:+ path)
    (proxy_headers bearer (init_headers options)) (init_body options).

Definition lift_outcome {A} (o : outcome A) : M trace A := λ tr, (tr, o).

Definition proxyToBackend (path : string) (options : request_init) : M trace jsv :=
  response ← send (request_of (getAdminAuthToken env) path options);
  lift_outcome (reply_outcome response).

Definition proxyWithJWT (path jwtToken : string) (options : request_init) : M trace jsv :=
  response ← send (request_of jwtToken path options);
  lift_outcome (reply_outcome response).
End Proxy.

(** ** Lemmas *)

(** The assignments of a file, in order. *)
Definition assignments (contents : string) : list (string * string) :=
  omap parse_line (split_lines contents).

Lemma load_lines_lookup (lines : list string) (env : environment) (k : string) :
  foldl load_line env lines !! k =
    match env !! k with
    | Some v => Some v
    | None => snd <$> find_row (λ a, bool_decide (a.1 = k)) (omap parse_line lines)
    end.
Proof.
  revert env. induction lines as [|line lines IH]; intros env; cbn [foldl omap list_omap].
  { by destruct (env !! k). }
  rewrite IH. unfold load_line. destruct (parse_line line) as [[key value]|]; [|done].
  unfold find_row. rewrite filter_cons. cbn [fst].
  destruct (decide (key = k)) as [->|Hne].
  - rewrite bool_decide_true by done. rewrite decide_True by done.
    destruct (env !! k) as [v|] eqn:E; [by rewrite E|by rewrite lookup_insert_eq].
  - rewrite bool_decide_false by done. rewrite decide_False by done.
    destruct (env !! key); [done|]. by rewrite lookup_insert_ne.
Qed.

(** The file completes the environment and never overrides it: a variable that is
    set keeps its value, any other gets the value of the first line that assigns it
    (or stays unset), so the address of the backend is the environment's, else the
    file's, else the built-in default; blank lines, comments and lines without a key
    assign nothing. *)
Theorem env_file : ∀ (contents : string) (env : environment),
  (∀ k, load_env (Some contents) env !! k =
     match env !! k with
     | Some v => Some v
     | None => snd <$> find_row (λ a, bool_decide (a.1 = k)) (assignments contents)
     end) ∧
  getBackendUrl (load_env (Some contents) env) =
    or_else (default "" (match env !! "BACKEND_URL" with
       | Some v => Some v
       | None => snd <$> find_row (λ a, bool_decide (a.1 = "BACKEND_URL")) (assignments contents)
       end)) "http://localhost:8081" ∧
  (∀ line, startsWith (trim line) "#" = true ∨ "="%char ∉ to_list (trim line) →
     parse_line line = None).
Proof.
  intros contents env. split; [|split].
  - intros k. apply load_lines_lookup.
  - unfold getBackendUrl, env_or. cbn [load_env]. by rewrite load_lines_lookup.
  - intros line Hl. unfold parse_line. cbv zeta. destruct (bool_decide _); [done|].
    destruct Hl as [Hl|Hl]; [by rewrite Hl|]. destruct (startsWith _ _); [done|]. cbn [orb].
    assert (indexOf "=" (trim line) = None) as ->; [|done].
    unfold indexOf. induction (to_list (trim line)) as [|c l IH]; [done|].
    rewrite not_elem_of_cons in Hl. destruct Hl as [Hc Hl]. cbn [index_of].
    rewrite decide_False by congruence. by rewrite IH.
Qed.

Lemma env_file_witness : parse_line " # BACKEND_URL=http://x" = None ∧
  getBackendUrl (load_env (Some (of_list (to_list "# c" ++ [cr; lf] ++
    to_list "BACKEND_URL = http://b:1" ++ [lf] ++ to_list "BACKEND_URL=http://c"))) ∅) = "http://b:1".
Proof.
  split.
  - apply (env_file "" ∅). left. vm_compute. reflexivity.
  - vm_compute. reflexivity.
Defined.

(** The requests a computation sends are appended to the trace. *)
Lemma proxy_run env backend path options tr :
  proxyToBackend env backend path options tr =
    let r := request_of env (getAdminAuthToken env) path options in
    (tr ++ [r], reply_outcome (backend tr r)).
Proof. done. Qed.

Lemma proxyWithJWT_run env backend path jwt options tr :
  proxyWithJWT env backend path jwt options tr =
    let r := request_of env jwt path options in
    (tr ++ [r], reply_outcome (backend tr r)).
Proof. done. Qed.
