(* ===== verification/Routes.v ===== *)
(** * The routes of the server ([server/routes/*.ts]), except users and workspaces

    One definition per handler.  A handler receives the decoded path parameters, the
    query and the JSON body, calls the controller through the proxy and answers; an
    exception becomes status 500 with the message. *)
From S2P Require Import Prelude JsString Json Proxy.
From stdpp Require Import gmap.
From Stdlib Require Import ZArith.

Record express_request := mkRequest {
  params : list string;              (* decoded path parameters, in order *)
  query : list (string * jsv);       (* parsed query string *)
  body : jsv;                        (* parsed JSON body *)
  authorization : option string }.   (* the Authorization header *)

Record response := mkResponse { status : Z; json : jsv }.

Definition param (i : nat) (req : express_request) : string := default "" (params req !! i).
Definition query_param (k : string) (req : express_request) : jsv := opt_field (JObj (query req)) k.

(** [res.json(v)] and [res.status(code).json(v)] *)
Definition ok (v : jsv) : M trace response := mret (mkResponse 200 v).
Definition answer (code : Z) (v : jsv) : M trace response := mret (mkResponse code v).

(** [v.map(...)] and [v.forEach(...)]: only arrays have these methods. *)
Definition as_array (v : jsv) : M trace (list jsv) :=
  match v with JArr l => mret l | _ => throw TypeError end.

(** [v.k1 ?? v.k2 ?? ... ?? dflt]; throws on undefined and null. *)
Fixpoint first_of (v : jsv) (ks : list string) (dflt : jsv) : jsv :=
  match ks with
  | [] => dflt
  | k :: ks' => nullish_or (opt_field v k) (first_of v ks' dflt)
  end.

(** A mapper reads properties of its argument, which throws on undefined and null. *)
Definition on_object {S A} (v : jsv) (k : M S A) : M S A :=
  if is_nullish v then throw TypeError else k.

(** [a || b] in a template. *)
Definition or_str (a : jsv) (b : string) : jsv := falsy_or a (JStr b).
Definition text (v : jsv) : string := to_string v.

Section Routes.
  Variable env : environment.
  Variable backend : trace → backend_request → backend_reply.
  Variable engine_message : js_error → string.

Abbreviation proxy := (proxyToBackend env backend).

(** [(error as Error).message] *)
Definition error_message (e : js_error) : string :=
  match e with JsError m => m | e => engine_message e end.

(** [try { h } catch (error) { res.status(500).json({ error: error.message }) }] *)
Definition handler (h : M trace response) : M trace response :=
  try_catch h (λ e, answer 500 (JObj [("error", JStr (error_message e))])).

(** A route that forwards to one path of the controller and returns its answer. *)
Definition forward (path : string) (options : request_init) : M trace response :=
  handler (v ← proxy path options; ok v).

(** ** groups.ts *)

Definition mapBackendGroup (group : jsv) : M trace jsv :=
  on_object group (
    let name := first_of group ["name"; "Name"] (JStr "") in
    let description := first_of group ["description"; "Description"] (JStr "") in
    mret (JObj
      [("id", first_of group ["id"; "ID"] (JStr ""));
       ("name", name);
       ("description", description);
       ("type", JStr "GROUP");
       ("displayLabel", JStr ("Group: " +:+ text (or_str name "Unknown")));
       ("memberCount", first_of group ["memberCount"; "MemberCount"; "members"; "Members"] (JInt 0));
       ("resourceCount", first_of group ["resourceCount"; "ResourceCount"; "resource_count"] (JInt 0));
       ("createdAt", first_of group ["createdAt"; "created_at"; "CreatedAt"] (JStr ""));
       ("updatedAt", first_of group ["updatedAt"; "updated_at"; "UpdatedAt"] (JStr ""))])).

Definition groups_list (req : express_request) : M trace response :=
  handler (groups ← proxy "/api/groups" no_options;
           l ← as_array groups;
           mapped ← mapEach mapBackendGroup l;
           ok (JArr mapped)).

Definition groups_create (req : express_request) : M trace response :=
  handler (group ← proxy "/api/admin/user-groups" (with_body "POST" (body req));
           mapped ← mapBackendGroup group;
           ok mapped).

Definition groups_get (req : express_request) : M trace response :=
  forward ("/api/groups/" +:+ param 0 req) no_options.

Definition groups_update (req : express_request) : M trace response :=
  forward ("/api/admin/user-groups/" +:+ param 0 req) (with_body "PUT" (body req)).

Definition groups_delete (req : express_request) : M trace response :=
  forward ("/api/admin/user-groups/" +:+ param 0 req) (with_method "DELETE").

Definition groups_members (req : express_request) : M trace response :=
  forward ("/api/admin/user-groups/" +:+ param 0 req +:+ "/members") no_options.

(** The loop over [body.memberIds]: empty identifiers are skipped, the first failure
    ends it; the number of results. *)
Fixpoint add_members (groupId : string) (memberIds : list jsv) : M trace nat :=
  match memberIds with
  | [] => mret 0
  | memberId :: rest =>
      if negb (truthy memberId) then add_members groupId rest
      else
        proxy ("/api/admin/user-groups/" +:+ groupId +:+ "/members")
          (with_body "POST" (JObj [("user_id", memberId)])) ;;
        n ← add_members groupId rest; mret (S n)
  end.

Definition groups_add_members (req : express_request) : M trace response :=
  handler (
    match opt_field (body req) "memberIds" with
    | JArr memberIds =>
        added ← add_members (param 0 req) memberIds;
        ok (JObj [("status", JStr "ok"); ("added", JInt (Z.of_nat added))])
    | _ =>
        if truthy (opt_field (body req) "user_id") then
          result ← proxy ("/api/admin/user-groups/" +:+ param 0 req +:+ "/members")
                     (with_body "POST" (body req));
          ok result
        else answer 400 (JObj [("error", JStr "user_id required")])
    end).

Definition groups_remove_member (req : express_request) : M trace response :=
  forward ("/api/admin/user-groups/" +:+ param 0 req +:+ "/members")
    (with_body "DELETE" (JObj [("user_id", JStr (param 1 req))])).

Definition groups_add_resources (req : express_request) : M trace response :=
  forward ("/api/groups/" +:+ param 0 req +:+ "/resources") (with_body "POST" (body req)).

(** ** access-rules.ts *)

Definition access_rules_list (req : express_request) : M trace response :=
  forward "/api/access-rules" no_options.
Definition access_rules_create (req : express_request) : M trace response :=
  forward "/api/access-rules" (with_body "POST" (body req)).
Definition access_rules_delete (req : express_request) : M trace response :=
  handler (proxy ("/api/access-rules/" +:+ param 0 req) (with_method "DELETE") ;;
           ok (JObj [("ok", JBool true)])).
Definition access_rules_count (req : express_request) : M trace response :=
  forward ("/api/access-rules/" +:+ param 0 req +:+ "/identity-count") no_options.

(** ** agents.ts *)

(** [t.status || ''] and the like; [id] is copied as it is. *)
Definition mapAgent (t : jsv) : M trace jsv :=
  on_object t (mret (JObj
    [("id", opt_field t "id");
     ("name", opt_field t "id");
     ("status", JStr (if bool_decide (toLowerCase (text (or_str (opt_field t "status") "")) = "online")
                      then "online" else "offline"));
     ("version", or_str (opt_field t "version") "");
     ("hostname", or_str (opt_field t "hostname") "");
     ("remoteNetworkId", or_str (opt_field t "remote_network_id") "")])).

Definition agents_list (req : express_request) : M trace response :=
  handler (agents ← proxy "/api/admin/agents" no_options;
           formatted ← mapEach mapAgent (match agents with JArr l => l | _ => [] end);
           ok (JArr formatted)).
Definition agents_get (req : express_request) : M trace response :=
  forward ("/api/agents/" +:+ param 0 req) no_options.
Definition agents_delete (req : express_request) : M trace response :=
  forward ("/api/agents/" +:+ param 0 req) (with_method "DELETE").
Definition agents_revoke (req : express_request) : M trace response :=
  forward ("/api/agents/" +:+ param 0 req +:+ "/revoke") (with_method "POST").
Definition agents_grant (req : express_request) : M trace response :=
  forward ("/api/agents/" +:+ param 0 req +:+ "/grant") (with_method "POST").

(** ** audit-logs.ts *)

(** A default in a destructuring replaces undefined only. *)
Definition default_to (v : jsv) (dflt : string) : jsv :=
  match v with JUndef => JStr dflt | _ => v end.

Definition audit_logs (req : express_request) : M trace response :=
  forward ("/api/admin/audit-logs?limit=" +:+ text (default_to (query_param "limit" req) "50")
             +:+ "&offset=" +:+ text (default_to (query_param "offset" req) "0")) no_options.

(** ** connectors.ts *)

Definition connectors_list (req : express_request) : M trace response :=
  forward "/api/connectors" no_options.
Definition connectors_create (req : express_request) : M trace response :=
  forward "/api/connectors" (with_body "POST" (body req)).
Definition connectors_get (req : express_request) : M trace response :=
  forward ("/api/connectors/" +:+ param 0 req) no_options.
Definition connectors_delete (req : express_request) : M trace response :=
  forward ("/api/admin/connectors/" +:+ param 0 req) (with_method "DELETE").
Definition connectors_grant (req : express_request) : M trace response :=
  forward ("/api/connectors/" +:+ param 0 req +:+ "/grant") (with_method "POST").
Definition connectors_revoke (req : express_request) : M trace response :=
  forward ("/api/connectors/" +:+ param 0 req +:+ "/revoke") (with_method "POST").

(** A stub: it answers without asking the controller. *)
Definition connectors_heartbeat (req : express_request) : M trace response :=
  handler (
    match opt_field (body req) "last_policy_version" with
    | JNum n => ok (JObj [("update_available", JBool false); ("current_version", JNum n)])
    | _ => answer 400 (JObj [("error", JStr "last_policy_version is required")])
    end).

(** ** diagnostics.ts *)

Definition diagnostics_get (req : express_request) : M trace response :=
  forward "/api/diagnostics" no_options.
Definition diagnostics_ping (req : express_request) : M trace response :=
  forward ("/api/diagnostics/ping/" +:+ param 0 req) (with_method "POST").
Definition diagnostics_trace (req : express_request) : M trace response :=
  forward "/api/diagnostics/trace" (with_body "POST" (body req)).

(** ** discovery.ts *)

Definition mapDiscovered (r : jsv) : M trace jsv :=
  on_object r (mret (JObj
    [("id", opt_field r "id"); ("ip", opt_field r "ip"); ("port", opt_field r "port");
     ("protocol", opt_field r "protocol");
     ("serviceName", or_str (opt_field r "service_name") "Unknown");
     ("reachableFrom", opt_field r "reachable_from"); ("firstSeen", opt_field r "first_seen")])).

Definition mapScanJob (job : jsv) : M trace jsv :=
  on_object job (
    results ← (match opt_field job "results" with
               | JArr l => mapped ← mapEach mapDiscovered l; mret (JArr mapped)
               | _ => mret JUndef
               end);
    mret (JObj
      [("requestId", opt_field job "request_id"); ("connectorId", opt_field job "connector_id");
       ("status", opt_field job "status"); ("targets", opt_field job "targets");
       ("ports", opt_field job "ports"); ("startedAt", opt_field job "started_at");
       ("completedAt", opt_field job "completed_at"); ("results", results);
       ("error", opt_field job "error")])).

Definition discovery_scan (req : express_request) : M trace response :=
  forward "/api/admin/discovery/scan" (with_body "POST" (body req)).
Definition discovery_status (req : express_request) : M trace response :=
  handler (raw ← proxy ("/api/admin/discovery/scan/" +:+ param 0 req) no_options;
           mapped ← mapScanJob raw;
           ok mapped).
Definition discovery_results (req : express_request) : M trace response :=
  handler (
    let connectorId := query_param "connector_id" req in
    let q := if truthy connectorId then "?connector_id=" +:+ text connectorId else "" in
    raw ← proxy ("/api/admin/discovery/results" +:+ q) no_options;
    mapped ← mapEach mapDiscovered (match raw with JArr l => l | _ => [] end);
    ok (JArr mapped)).

(** ** policy.ts *)

Definition policy_acl (req : express_request) : M trace response :=
  forward ("/api/policy/acl/" +:+ param 0 req) no_options.
Definition policy_compile (req : express_request) : M trace response :=
  forward ("/api/policy/compile/" +:+ param 0 req) no_options.

(** ** remote-networks.ts *)

Definition mapBackendNetwork (n : jsv) : M trace jsv :=
  on_object n (
    let createdAt := first_of n ["createdAt"; "CreatedAt"; "created_at"] (JStr "") in
    let updatedAt := first_of n ["updatedAt"; "UpdatedAt"; "updated_at"] (JStr "") in
    mret (JObj
      [("id", first_of n ["id"; "ID"] (JStr ""));
       ("name", first_of n ["name"; "Name"] (JStr ""));
       ("location", first_of n ["location"; "Location"] (JStr "OTHER"));
       ("connectorCount", first_of n ["connectorCount"; "ConnectorCount"] (JInt 0));
       ("onlineConnectorCount", first_of n ["onlineConnectorCount"; "OnlineConnectorCount"] (JInt 0));
       ("resourceCount", first_of n ["resourceCount"; "ResourceCount"] (JInt 0));
       ("createdAt", createdAt);
       ("updatedAt", falsy_or updatedAt createdAt)])).

Definition networks_list (req : express_request) : M trace response :=
  handler (networks ← proxy "/api/remote-networks" no_options;
           l ← as_array networks;
           mapped ← mapEach mapBackendNetwork l;
           ok (JArr mapped)).
Definition networks_create (req : express_request) : M trace response :=
  handler (network ← proxy "/api/remote-networks" (with_body "POST" (body req));
           mapped ← mapBackendNetwork network;
           ok mapped).
Definition networks_get (req : express_request) : M trace response :=
  forward ("/api/remote-networks/" +:+ param 0 req) no_options.
Definition networks_delete (req : express_request) : M trace response :=
  forward ("/api/remote-networks/" +:+ param 0 req) (with_method "DELETE").

(** ** resources.ts *)

Definition mapResourceRow (r : jsv) : M trace jsv :=
  on_object r (mret (JObj
    [("id", first_of r ["id"] (opt_field r "ID"));
     ("name", first_of r ["name"] (opt_field r "Name"));
     ("type", first_of r ["type"] (opt_field r "Type"));
     ("address", first_of r ["address"] (opt_field r "Address"));
     ("ports", first_of r ["ports"; "Ports"] (JStr ""));
     ("alias", first_of r ["alias"] (opt_field r "Alias"));
     ("description", first_of r ["description"; "Description"] (JStr ""));
     ("remoteNetworkId",
        first_of r ["remoteNetworkId"; "remote_network_id"] (opt_field r "RemoteNetwork"));
     ("protocol", first_of r ["protocol"; "Protocol"] (JStr "TCP"));
     ("portFrom", first_of r ["portFrom"; "port_from"] (opt_field r "PortFrom"));
     ("portTo", first_of r ["portTo"; "port_to"] (opt_field r "PortTo"));
     ("firewallStatus",
        first_of r ["firewallStatus"; "firewall_status"; "FirewallStatus"] (JStr "unprotected"))])).

Definition resources_list (req : express_request) : M trace response :=
  handler (
    resources ← proxy "/api/resources" no_options;
    resourceList ←
      (match resources with
       | JArr l => mret l
       | _ => let nested := opt_field resources "Resources" in
              if truthy nested then as_array nested else mret []
       end);
    formatted ← mapEach mapResourceRow resourceList;
    ok (JArr formatted)).
Definition resources_create (req : express_request) : M trace response :=
  forward "/api/resources" (with_body "POST" (body req)).
Definition resources_get (req : express_request) : M trace response :=
  forward ("/api/resources/" +:+ param 0 req) no_options.
Definition resources_update (req : express_request) : M trace response :=
  forward ("/api/resources/" +:+ param 0 req) (with_body "PUT" (body req)).
Definition resources_patch (req : express_request) : M trace response :=
  forward ("/api/resources/" +:+ param 0 req) (with_body "PATCH" (body req)).
Definition resources_delete (req : express_request) : M trace response :=
  forward ("/api/resources/" +:+ param 0 req) (with_method "DELETE").

(** ** service-accounts.ts *)

Definition mapServiceAccountRow (s : jsv) : M trace jsv :=
  on_object s (mret (JObj
    [("id", opt_field s "ID"); ("name", opt_field s "Name"); ("type", JStr "SERVICE");
     ("displayLabel", JStr ("Service: " +:+ text (opt_field s "Name")));
     ("status", opt_field s "Status");
     ("associatedResourceCount", opt_field s "AssociatedResourceCount");
     ("createdAt", opt_field s "CreatedAt")])).

(** Any failure is answered with an empty list. *)
Definition service_accounts_list (req : express_request) : M trace response :=
  try_catch (
    serviceAccounts ← proxy "/api/admin/service-accounts" no_options;
    l ← as_array serviceAccounts;
    formatted ← mapEach mapServiceAccountRow l;
    ok (JArr formatted)) (λ _, ok (JArr [])).

(** ** subjects.ts *)

Definition subject_row (type label : string) (v : jsv) : M trace jsv :=
  on_object v (
    let id := first_of v ["id"] (opt_field v "ID") in
    let name := first_of v ["name"; "Name"] (JStr "") in
    mret (JObj
      [("id", id); ("name", name); ("type", JStr type);
       ("displayLabel",
          JStr (label +:+ ": " +:+ text (or_str (falsy_or name id) "Unknown")))])).

Definition subjects_of (path type label : string) : M trace (list jsv) :=
  v ← proxy path no_options; l ← as_array v; mapEach (subject_row type label) l.

(** [!typeParam || typeParam === type] *)
Definition wanted (typeParam : jsv) (type : string) : bool :=
  negb (truthy typeParam) || is_str typeParam type.

(** The subjects pushed before a failure of the service accounts stay, and so do the
    service accounts pushed before a malformed one; [partial_map] is [forEach] with
    [push], stopped by the first exception. *)
Fixpoint partial_map (f : jsv → M trace jsv) (l : list jsv) : M trace (list jsv) :=
  match l with
  | [] => mret []
  | v :: l' =>
      try_catch (y ← f v; ys ← partial_map f l'; mret (y :: ys)) (λ _, mret [])
  end.

Definition subjects_list (req : express_request) : M trace response :=
  handler (
    let typeParam := query_param "type" req in
    users ← (if wanted typeParam "USER" then subjects_of "/api/admin/users" "USER" "User" else mret []);
    groups ← (if wanted typeParam "GROUP"
              then subjects_of "/api/admin/user-groups" "GROUP" "Group" else mret []);
    services ←
      (if wanted typeParam "SERVICE" then
         try_catch (v ← proxy "/api/admin/service-accounts" no_options;
                    l ← as_array v; partial_map (subject_row "SERVICE" "Service") l)
           (λ _, mret [])
       else mret []);
    ok (JArr (users ++ groups ++ services))).

(** ** tokens.ts *)

Definition tokens_create (req : express_request) : M trace response :=
  forward "/api/admin/tokens" (with_method "POST").

(** ** index.ts *)

(** The logout route: the controller is told, whatever it answers. *)
Definition logout (req : express_request) : M trace response :=
  send backend (mkReq "POST" (getBackendUrl env +:+ "/oauth/logout") [] None) ;;
  ok (JObj [("status", JStr "logged out")]).
End Routes.
