(* ===== verification/UserRoutes.v ===== *)
(** * The users routes ([server/routes/users.ts])

    The list of users joins three kinds of replies: the users, the groups and, asked for
    all groups at once, the members of each group.  Requests go out in the order of the
    groups; replies arrive in any order, which is a parameter. *)
From S2P Require Import Prelude JsString Json Uri Storage Proxy Routes.
From stdpp Require Import gmap.
From Stdlib Require Import ZArith Lia.

(** [user.status ?? user.Status ?? 'active'] must be a string. *)
Definition mapBackendUser (user : jsv) (groups : list jsv) : M trace jsv :=
  on_object user (
    let name := first_of user ["name"; "Name"] (JStr "") in
    let email := first_of user ["email"; "Email"] (JStr "") in
    match first_of user ["status"; "Status"] (JStr "active") with
    | JStr s =>
        mret (JObj
          [("id", first_of user ["id"; "ID"] (JStr ""));
           ("name", name); ("email", email);
           ("status", JStr (toLowerCase s));
           ("role", first_of user ["role"; "Role"] (JStr "member"));
           ("certificateIdentity",
              first_of user ["certificate_identity"; "CertificateIdentity"] JUndef);
           ("groups", JArr groups);
           ("createdAt", first_of user ["created_at"; "CreatedAt"] (JStr ""));
           ("type", JStr "USER");
           ("displayLabel", JStr ("User: " +:+ text (or_str (falsy_or name email) "Unknown")))])
    | _ => throw TypeError
    end).

(** ** The membership map: a Map from user identifiers to Sets of group identifiers *)

Abbreviation membership := (list (jsv * list jsv)).

Fixpoint map_get (k : jsv) (m : membership) : option (list jsv) :=
  match m with
  | [] => None
  | (k', s) :: m' => if strict_eq k' k then Some s else map_get k m'
  end.

Definition set_has (v : jsv) (s : list jsv) : bool := existsb (λ w, strict_eq w v) s.
Definition set_add (v : jsv) (s : list jsv) : list jsv := if set_has v s then s else s ++ [v].

(** [if (!map.has(k)) map.set(k, new Set()); map.get(k)?.add(v)] *)
Fixpoint map_add (k v : jsv) (m : membership) : membership :=
  match m with
  | [] => [(k, [v])]
  | (k', s) :: m' =>
      if strict_eq k' k then (k', set_add v s) :: m' else (k', s) :: map_add k v m'
  end.

(** [members.forEach(...)] for one group. *)
Fixpoint add_group (groupId : jsv) (members : list jsv) (m : membership) : outcome membership :=
  match members with
  | [] => Ok m
  | member :: rest =>
      if is_nullish member then Throw TypeError
      else
        let userId := nullish_or (opt_field member "user_id") (opt_field member "userId") in
        add_group groupId rest (if truthy userId then map_add userId groupId m else m)
  end.

Section Users.
  Variable env : environment.
  Variable backend : trace → backend_request → backend_reply.
  Variable engine_message : js_error → string.
  (** Whether the reply with the users arrives before the one with the groups, and the
      order in which the replies for [n] groups arrive. *)
  Variable users_first : bool.
  Variable arrival : nat → list nat.

Abbreviation proxy := (proxyToBackend env backend).
Abbreviation handler := (handler engine_message).
Abbreviation forward := (forward env backend engine_message).

(** A request whose rejection is kept for later. *)
Definition attempt {A} (m : M trace A) : M trace (outcome A) := λ tr,
  match m tr with (tr', o) => (tr', Ok o) end.

(** [Promise.all] of two: the rejection that arrives first wins. *)
Definition join2 {A B} (a : outcome A) (b : outcome B) : outcome (A * B) :=
  match a, b with
  | Ok x, Ok y => Ok (x, y)
  | Throw e, Ok _ => Throw e
  | Ok _, Throw e => Throw e
  | Throw e1, Throw e2 => Throw (if users_first then e1 else e2)
  end.

(** What a group's callback has after its reply: nothing for a group without an
    identifier, otherwise the identifier and the members. *)
Definition group_reply (group : jsv) : M trace (option (jsv * list jsv)) :=
  on_object group (
    let groupId := nullish_or (opt_field group "id") (opt_field group "ID") in
    if negb (truthy groupId) then mret None
    else
      members ← proxy ("/api/admin/user-groups/" +:+ encodeURIComponent (text groupId)
                         +:+ "/members") no_options;
      l ← as_array members;
      mret (Some (groupId, l))).

(** The continuations run in the order of arrival; the first failure rejects. *)
Fixpoint arrive (results : list (outcome (option (jsv * list jsv)))) (order : list nat)
  (m : membership) : outcome membership :=
  match order with
  | [] => Ok m
  | i :: order' =>
      match results !! i with
      | None => arrive results order' m
      | Some (Throw e) => Throw e
      | Some (Ok None) => arrive results order' m
      | Some (Ok (Some (groupId, members))) =>
          match add_group groupId members m with
          | Ok m' => arrive results order' m'
          | Throw e => Throw e
          end
      end
  end.

Definition users_list (req : express_request) : M trace response :=
  handler (
    usersR ← attempt (proxy "/api/admin/users" no_options);
    groupsR ← attempt (proxy "/api/admin/user-groups" no_options);
    both ← lift_outcome (join2 usersR groupsR);
    groups ← as_array both.2;
    results ← mapEach (λ g, attempt (group_reply g)) groups;
    membershipMap ← lift_outcome (arrive results (arrival (length results)) []);
    users ← as_array both.1;
    formattedUsers ← mapEach (λ user,
      on_object user (
        let userId := first_of user ["id"; "ID"] (JStr "") in
        mapBackendUser user (default [] (map_get userId membershipMap)))) users;
    ok (JArr formattedUsers)).

Definition users_create (req : express_request) : M trace response :=
  handler (user ← proxy "/api/admin/users" (with_body "POST" (body req));
           mapped ← mapBackendUser user [];
           ok mapped).
Definition users_get (req : express_request) : M trace response :=
  forward ("/api/admin/users/" +:+ param 0 req) no_options.
Definition users_update (req : express_request) : M trace response :=
  forward ("/api/admin/users/" +:+ param 0 req) (with_body "PUT" (body req)).
Definition users_patch (req : express_request) : M trace response :=
  forward ("/api/admin/users/" +:+ param 0 req) (with_body "PATCH" (body req)).
Definition users_delete (req : express_request) : M trace response :=
  forward ("/api/admin/users/" +:+ param 0 req) (with_method "DELETE").
Definition users_invite (req : express_request) : M trace response :=
  forward "/api/admin/users/invite" (with_body "POST" (body req)).
End Users.
