(* ===== verification/WorkspaceRoutes.v ===== *)
(** * The workspaces routes ([server/routes/workspaces.ts])

    These forward with the caller's own token, never with the administrator's. *)
From S2P Require Import Prelude JsString Json Uri Storage Proxy Routes.
From stdpp Require Import gmap.
From Stdlib Require Import Ascii ZArith.

Definition getJWT (req : express_request) : string :=
  let auth := or_else (default "" (authorization req)) "" in
  if startsWith auth "Bearer " then slice_from 7 auth else "".

Definition mapWorkspace (ws : jsv) : M trace jsv :=
  on_object ws (mret (JObj
    [("id", first_of ws ["id"] (JStr "")); ("name", first_of ws ["name"] (JStr ""));
     ("slug", first_of ws ["slug"] (JStr ""));
     ("trustDomain", first_of ws ["trust_domain"] (JStr ""));
     ("caCertPem", first_of ws ["ca_cert_pem"] (JStr ""));
     ("status", first_of ws ["status"] (JStr "active"));
     ("role", first_of ws ["role"] (JStr ""));
     ("createdAt", first_of ws ["created_at"] (JStr ""));
     ("updatedAt", first_of ws ["updated_at"] (JStr ""))])).

Section Workspaces.
  Variable env : environment.
  Variable backend : trace → backend_request → backend_reply.
  Variable engine_message : js_error → string.

Abbreviation handler := (handler engine_message).

Definition jwt_proxy (req : express_request) (path : string) (options : request_init) : M trace jsv :=
  proxyWithJWT env backend path (getJWT req) options.

Definition jwt_forward (req : express_request) (path : string) (options : request_init) :
  M trace response :=
  handler (v ← jwt_proxy req path options; ok v).

(** A public route: the reply's status is not looked at. *)
Definition workspaces_lookup (req : express_request) : M trace response :=
  handler (
    let slug := query_param "slug" req in
    let email := query_param "email" req in
    let ps := (if truthy slug then [("slug", text slug)] else []) ++
              (if truthy email then [("email", text email)] else []) in
    r ← send backend (mkReq "GET" (getBackendUrl env +:+ "/api/workspaces/lookup?" +:+ serialize ps) [] None);
    match r with
    | NetError message => throw (JsError message)
    | Reply _ txt => data ← lift_outcome (parse txt); ok data
    end).

Definition workspaces_list (req : express_request) : M trace response :=
  handler (workspaces ← jwt_proxy req "/api/workspaces" no_options;
           l ← as_array workspaces;
           mapped ← mapEach mapWorkspace l;
           ok (JArr mapped)).

(** The reply is an object whose member [workspace] is replaced by its mapping; a
    string or a number has no such member. *)
Definition workspaces_create (req : express_request) : M trace response :=
  handler (
    result ← jwt_proxy req "/api/workspaces" (with_body "POST" (body req));
    on_object result (
      let ws := opt_field result "workspace" in
      if truthy ws then
        mapped ← mapWorkspace ws;
        match result with
        | JObj fs => ok (JObj (assoc_set "workspace" mapped fs))
        | v => ok v
        end
      else ok result)).

Definition workspaces_get (req : express_request) : M trace response :=
  handler (ws ← jwt_proxy req ("/api/workspaces/" +:+ param 0 req) no_options;
           mapped ← mapWorkspace ws;
           ok mapped).
Definition workspaces_update (req : express_request) : M trace response :=
  jwt_forward req ("/api/workspaces/" +:+ param 0 req) (with_body "PUT" (body req)).
Definition workspaces_delete (req : express_request) : M trace response :=
  jwt_forward req ("/api/workspaces/" +:+ param 0 req) (with_method "DELETE").
Definition workspaces_select (req : express_request) : M trace response :=
  jwt_forward req ("/api/workspaces/" +:+ param 0 req +:+ "/select") (with_method "POST").
Definition workspaces_members (req : express_request) : M trace response :=
  jwt_forward req ("/api/workspaces/" +:+ param 0 req +:+ "/members") no_options.
Definition workspaces_add_member (req : express_request) : M trace response :=
  jwt_forward req ("/api/workspaces/" +:+ param 0 req +:+ "/members") (with_body "POST" (body req)).
Definition workspaces_update_member (req : express_request) : M trace response :=
  jwt_forward req ("/api/workspaces/" +:+ param 0 req +:+ "/members/" +:+ param 1 req)
    (with_body "PUT" (body req)).
Definition workspaces_remove_member (req : express_request) : M trace response :=
  jwt_forward req ("/api/workspaces/" +:+ param 0 req +:+ "/members/" +:+ param 1 req)
    (with_method "DELETE").
End Workspaces.
