(* ===== verification/Server.v ===== *)
(** * The server ([server/index.ts]): routing

    Every route of every router, in the order of registration, and the dispatch of a
    request: the first route whose method and path match handles it with its decoded
    parameters.  Literals match in any case and a trailing slash is allowed, as Express
    does by default.  The query parser is a library: a parameter. *)
From S2P Require Import Prelude JsString Json Uri Proxy Routes UserRoutes WorkspaceRoutes.
From stdpp Require Import gmap.
From Stdlib Require Import Ascii ZArith.

Inductive segment := Lit (s : string) | Param.

Inductive route :=
  | GroupsList | GroupsCreate | GroupsGet | GroupsUpdate | GroupsDelete | GroupsMembers
  | GroupsAddMembers | GroupsRemoveMember | GroupsAddResources
  | UsersList | UsersCreate | UsersGet | UsersUpdate | UsersPatch | UsersDelete | UsersInvite
  | ResourcesList | ResourcesCreate | ResourcesGet | ResourcesUpdate | ResourcesPatch
  | ResourcesDelete
  | ConnectorsList | ConnectorsCreate | ConnectorsGet | ConnectorsDelete | ConnectorsGrant
  | ConnectorsRevoke | ConnectorsHeartbeat
  | NetworksList | NetworksCreate | NetworksGet | NetworksDelete
  | AccessRulesList | AccessRulesCreate | AccessRulesDelete | AccessRulesCount
  | SubjectsList | TokensCreate | ServiceAccountsList
  | AgentsList | AgentsGet | AgentsDelete | AgentsRevoke | AgentsGrant
  | PolicyAcl | PolicyCompile | AuditLogs
  | DiscoveryScan | DiscoveryStatus | DiscoveryResults
  | WorkspacesLookup | WorkspacesList | WorkspacesCreate | WorkspacesGet | WorkspacesUpdate
  | WorkspacesDelete | WorkspacesSelect | WorkspacesMembers | WorkspacesAddMember
  | WorkspacesUpdateMember | WorkspacesRemoveMember
  | DiagnosticsGet | DiagnosticsPing | DiagnosticsTrace
  | Logout.

#[global] Instance route_eq_dec : EqDecision route.
Proof. solve_decision. Defined.

(** [router.get('/:groupId/members', ...)] under [app.use('/api/groups', router)]. *)
Definition at_ (base : string) (rest : list segment) : list segment :=
  Lit "api" :: Lit base :: rest.

Definition table : list (string * list segment * route) :=
  [("GET", at_ "groups" [], GroupsList);
   ("POST", at_ "groups" [], GroupsCreate);
   ("GET", at_ "groups" [Param], GroupsGet);
   ("PUT", at_ "groups" [Param], GroupsUpdate);
   ("DELETE", at_ "groups" [Param], GroupsDelete);
   ("GET", at_ "groups" [Param; Lit "members"], GroupsMembers);
   ("POST", at_ "groups" [Param; Lit "members"], GroupsAddMembers);
   ("DELETE", at_ "groups" [Param; Lit "members"; Param], GroupsRemoveMember);
   ("POST", at_ "groups" [Param; Lit "resources"], GroupsAddResources);
   ("GET", at_ "users" [], UsersList);
   ("POST", at_ "users" [], UsersCreate);
   ("GET", at_ "users" [Param], UsersGet);
   ("PUT", at_ "users" [Param], UsersUpdate);
   ("PATCH", at_ "users" [Param], UsersPatch);
   ("DELETE", at_ "users" [Param], UsersDelete);
   ("POST", at_ "users" [Lit "invite"], UsersInvite);
   ("GET", at_ "resources" [], ResourcesList);
   ("POST", at_ "resources" [], ResourcesCreate);
   ("GET", at_ "resources" [Param], ResourcesGet);
   ("PUT", at_ "resources" [Param], ResourcesUpdate);
   ("PATCH", at_ "resources" [Param], ResourcesPatch);
   ("DELETE", at_ "resources" [Param], ResourcesDelete);
   ("GET", at_ "connectors" [], ConnectorsList);
   ("POST", at_ "connectors" [], ConnectorsCreate);
   ("GET", at_ "connectors" [Param], ConnectorsGet);
   ("DELETE", at_ "connectors" [Param], ConnectorsDelete);
   ("POST", at_ "connectors" [Param; Lit "grant"], ConnectorsGrant);
   ("POST", at_ "connectors" [Param; Lit "revoke"], ConnectorsRevoke);
   ("PATCH", at_ "connectors" [Param; Lit "heartbeat"], ConnectorsHeartbeat);
   ("GET", at_ "remote-networks" [], NetworksList);
   ("POST", at_ "remote-networks" [], NetworksCreate);
   ("GET", at_ "remote-networks" [Param], NetworksGet);
   ("DELETE", at_ "remote-networks" [Param], NetworksDelete);
   ("GET", at_ "access-rules" [], AccessRulesList);
   ("POST", at_ "access-rules" [], AccessRulesCreate);
   ("DELETE", at_ "access-rules" [Param], AccessRulesDelete);
   ("GET", at_ "access-rules" [Param; Lit "identity-count"], AccessRulesCount);
   ("GET", at_ "subjects" [], SubjectsList);
   ("POST", at_ "tokens" [], TokensCreate);
   ("GET", at_ "service-accounts" [], ServiceAccountsList);
   ("GET", at_ "agents" [], AgentsList);
   ("GET", at_ "agents" [Param], AgentsGet);
   ("DELETE", at_ "agents" [Param], AgentsDelete);
   ("POST", at_ "agents" [Param; Lit "revoke"], AgentsRevoke);
   ("POST", at_ "agents" [Param; Lit "grant"], AgentsGrant);
   ("GET", at_ "policy" [Lit "acl"; Param], PolicyAcl);
   ("GET", at_ "policy" [Lit "compile"; Param], PolicyCompile);
   ("GET", at_ "audit-logs" [], AuditLogs);
   ("POST", at_ "discovery" [Lit "scan"], DiscoveryScan);
   ("GET", at_ "discovery" [Lit "scan"; Param], DiscoveryStatus);
   ("GET", at_ "discovery" [Lit "results"], DiscoveryResults);
   ("GET", at_ "workspaces" [Lit "lookup"], WorkspacesLookup);
   ("GET", at_ "workspaces" [], WorkspacesList);
   ("POST", at_ "workspaces" [], WorkspacesCreate);
   ("GET", at_ "workspaces" [Param], WorkspacesGet);
   ("PUT", at_ "workspaces" [Param], WorkspacesUpdate);
   ("DELETE", at_ "workspaces" [Param], WorkspacesDelete);
   ("POST", at_ "workspaces" [Param; Lit "select"], WorkspacesSelect);
   ("GET", at_ "workspaces" [Param; Lit "members"], WorkspacesMembers);
   ("POST", at_ "workspaces" [Param; Lit "members"], WorkspacesAddMember);
   ("PUT", at_ "workspaces" [Param; Lit "members"; Param], WorkspacesUpdateMember);
   ("DELETE", at_ "workspaces" [Param; Lit "members"; Param], WorkspacesRemoveMember);
   ("GET", at_ "diagnostics" [], DiagnosticsGet);
   ("POST", at_ "diagnostics" [Lit "ping"; Param], DiagnosticsPing);
   ("POST", at_ "diagnostics" [Lit "trace"], DiagnosticsTrace);
   ("POST", at_ "auth" [Lit "logout"], Logout)].

(** ** Matching *)

(** The raw values of the parameters. *)
Fixpoint match_path (p : list segment) (segs : list string) : option (list string) :=
  match p, segs with
  | [], [] => Some []
  | Lit s :: p', x :: segs' =>
      if bool_decide (toLowerCase x = s) then match_path p' segs' else None
  | Param :: p', x :: segs' =>
      if bool_decide (x = "") then None else cons x <$> match_path p' segs'
  | _, _ => None
  end.

(** The path of a URL, before '?', as segments. *)
Definition path_part (target : string) : string :=
  match JsString.split "?" target with p :: _ => p | [] => "" end.
Definition query_part (target : string) : string :=
  match indexOf "?" target with Some i => slice_from (S i) target | None => "" end.

Definition drop_trailing (segs : list string) : list string :=
  match reverse segs with
  | "" :: x :: r => reverse (x :: r)
  | _ => segs
  end.

Definition segments (target : string) : list string :=
  match JsString.split "/" (path_part target) with
  | "" :: segs => drop_trailing segs
  | segs => segs
  end.

Fixpoint find_route (t : list (string * list segment * route)) (meth : string)
  (segs : list string) : option (route * list string) :=
  match t with
  | [] => None
  | (m, p, r) :: t' =>
      if bool_decide (m = meth) then
        match match_path p segs with
        | Some ps => Some (r, ps)
        | None => find_route t' meth segs
        end
      else find_route t' meth segs
  end.

Inductive resolution :=
  | Handled (r : route) (params : list string)
  | BadParameter        (* 400: a parameter is not a valid encoding *)
  | NotFound.           (* 404: no route *)

Definition resolve (meth target : string) : resolution :=
  match find_route table meth (segments target) with
  | None => NotFound
  | Some (r, ps) =>
      match mapM decodeURIComponent ps with
      | Some params => Handled r params
      | None => BadParameter
      end
  end.

(** ** Dispatch *)

Inductive http_response := Answer (r : response) | Refused (code : Z).

Section Server.
  Variable env : environment.
  Variable backend : trace → backend_request → backend_reply.
  Variable engine_message : js_error → string.
  Variable users_first : bool.
  Variable arrival : nat → list nat.
  Variable parse_query : string → list (string * jsv).

Definition handler_of (r : route) : express_request → M trace response :=
  match r with
  | GroupsList => groups_list env backend engine_message
  | GroupsCreate => groups_create env backend engine_message
  | GroupsGet => groups_get env backend engine_message
  | GroupsUpdate => groups_update env backend engine_message
  | GroupsDelete => groups_delete env backend engine_message
  | GroupsMembers => groups_members env backend engine_message
  | GroupsAddMembers => groups_add_members env backend engine_message
  | GroupsRemoveMember => groups_remove_member env backend engine_message
  | GroupsAddResources => groups_add_resources env backend engine_message
  | UsersList => users_list env backend engine_message users_first arrival
  | UsersCreate => users_create env backend engine_message
  | UsersGet => users_get env backend engine_message
  | UsersUpdate => users_update env backend engine_message
  | UsersPatch => users_patch env backend engine_message
  | UsersDelete => users_delete env backend engine_message
  | UsersInvite => users_invite env backend engine_message
  | ResourcesList => resources_list env backend engine_message
  | ResourcesCreate => resources_create env backend engine_message
  | ResourcesGet => resources_get env backend engine_message
  | ResourcesUpdate => resources_update env backend engine_message
  | ResourcesPatch => resources_patch env backend engine_message
  | ResourcesDelete => resources_delete env backend engine_message
  | ConnectorsList => connectors_list env backend engine_message
  | ConnectorsCreate => connectors_create env backend engine_message
  | ConnectorsGet => connectors_get env backend engine_message
  | ConnectorsDelete => connectors_delete env backend engine_message
  | ConnectorsGrant => connectors_grant env backend engine_message
  | ConnectorsRevoke => connectors_revoke env backend engine_message
  | ConnectorsHeartbeat => connectors_heartbeat engine_message
  | NetworksList => networks_list env backend engine_message
  | NetworksCreate => networks_create env backend engine_message
  | NetworksGet => networks_get env backend engine_message
  | NetworksDelete => networks_delete env backend engine_message
  | AccessRulesList => access_rules_list env backend engine_message
  | AccessRulesCreate => access_rules_create env backend engine_message
  | AccessRulesDelete => access_rules_delete env backend engine_message
  | AccessRulesCount => access_rules_count env backend engine_message
  | SubjectsList => subjects_list env backend engine_message
  | TokensCreate => tokens_create env backend engine_message
  | ServiceAccountsList => service_accounts_list env backend
  | AgentsList => agents_list env backend engine_message
  | AgentsGet => agents_get env backend engine_message
  | AgentsDelete => agents_delete env backend engine_message
  | AgentsRevoke => agents_revoke env backend engine_message
  | AgentsGrant => agents_grant env backend engine_message
  | PolicyAcl => policy_acl env backend engine_message
  | PolicyCompile => policy_compile env backend engine_message
  | AuditLogs => audit_logs env backend engine_message
  | DiscoveryScan => discovery_scan env backend engine_message
  | DiscoveryStatus => discovery_status env backend engine_message
  | DiscoveryResults => discovery_results env backend engine_message
  | WorkspacesLookup => workspaces_lookup env backend engine_message
  | WorkspacesList => workspaces_list env backend engine_message
  | WorkspacesCreate => workspaces_create env backend engine_message
  | WorkspacesGet => workspaces_get env backend engine_message
  | WorkspacesUpdate => workspaces_update env backend engine_message
  | WorkspacesDelete => workspaces_delete env backend engine_message
  | WorkspacesSelect => workspaces_select env backend engine_message
  | WorkspacesMembers => workspaces_members env backend engine_message
  | WorkspacesAddMember => workspaces_add_member env backend engine_message
  | WorkspacesUpdateMember => workspaces_update_member env backend engine_message
  | WorkspacesRemoveMember => workspaces_remove_member env backend engine_message
  | DiagnosticsGet => diagnostics_get env backend engine_message
  | DiagnosticsPing => diagnostics_ping env backend engine_message
  | DiagnosticsTrace => diagnostics_trace env backend engine_message
  | Logout => logout env backend
  end.

(** One request to the server: method, target, Authorization header and JSON body. *)
Definition dispatch (meth target : string) (auth : option string) (b : jsv) :
  M trace http_response :=
  match resolve meth target with
  | Handled r ps =>
      x ← handler_of r (mkRequest ps (parse_query (query_part target)) b auth);
      mret (Answer x)
  | BadParameter => mret (Refused 400)
  | NotFound => mret (Refused 404)
  end.
End Server.
