(* ===== verification/ServerProps.v ===== *)
(** * Properties of the server

    Every handler answers; what it asks the controller for, and with whose
    credentials; how replies become answers. *)
From S2P Require Import Prelude JsString Json Uri Storage Browser Signup Proxy Routes UserRoutes WorkspaceRoutes Server.
From stdpp Require Import gmap.
From Stdlib Require Import ZArith Lia.

(** ** What a computation sends *)

(** Whatever happens, the trace grows by requests that satisfy [P]. *)
Definition sends {A} (P : backend_request → Prop) (m : M trace A) : Prop :=
  ∀ tr, ∃ new, (m tr).1 = tr ++ new ∧ Forall P new.

Section Sends.
  Context (P : backend_request → Prop).

Lemma sends_impl {A} (Q : backend_request → Prop) (m : M trace A) :
  sends P m → (∀ r, P r → Q r) → sends Q m.
Proof.
  intros Hm HPQ tr. destruct (Hm tr) as (new & E & H). exists new. split; [done|].
  by apply (Forall_impl _ _ _ H).
Qed.

Lemma sends_none {A} (o : outcome A) : sends P (lift_outcome o).
Proof. intros tr. exists []. by rewrite app_nil_r. Qed.

Lemma sends_ret {A} (a : A) : sends P (mret a : M trace A).
Proof. exact (sends_none (Ok a)). Qed.

Lemma sends_throw {A} e : sends P (throw (A:=A) e : M trace A).
Proof. exact (sends_none (Throw e)). Qed.

Lemma sends_send backend r : P r → sends P (send backend r).
Proof. intros HP tr. exists [r]. split; [done|]. by repeat constructor. Qed.

Lemma sends_bind {A B} (m : M trace A) (f : A → M trace B) :
  sends P m → (∀ a, sends P (f a)) → sends P (m ≫= f).
Proof.
  intros Hm Hf tr. destruct (Hm tr) as (n1 & E1 & H1). unfold mbind, M_bind.
  destruct (m tr) as [tr1 [a|e]]; cbn [fst] in *; subst; [|by exists n1].
  destruct (Hf a (tr ++ n1)) as (n2 & E2 & H2). exists (n1 ++ n2).
  rewrite E2, <- app_assoc. split; [done|]. by apply Forall_app.
Qed.

Lemma sends_try {A} (m : M trace A) h :
  sends P m → (∀ e, sends P (h e)) → sends P (try_catch m h).
Proof.
  intros Hm Hh tr. destruct (Hm tr) as (n1 & E1 & H1). unfold try_catch.
  destruct (m tr) as [tr1 [a|e]]; cbn [fst] in *; subst; [by exists n1|].
  destruct (Hh e (tr ++ n1)) as (n2 & E2 & H2). exists (n1 ++ n2).
  rewrite E2, <- app_assoc. split; [done|]. by apply Forall_app.
Qed.

Lemma sends_attempt {A} (m : M trace A) : sends P m → sends P (attempt m).
Proof.
  intros Hm tr. destruct (Hm tr) as (n1 & E1 & H1). exists n1. unfold attempt.
  by destruct (m tr).
Qed.

Lemma sends_mapEach {A B} (f : A → M trace B) l : (∀ x, sends P (f x)) → sends P (mapEach f l).
Proof.
  intros Hf. induction l as [|x l IH]; cbn [mapEach]; [apply sends_ret|].
  apply sends_bind; [done|]. intros y. apply sends_bind; [done|]. intros ys. apply sends_ret.
Qed.

Lemma sends_array v : sends P (as_array v).
Proof. destruct v; first [apply sends_ret|apply sends_throw]. Qed.

Lemma sends_on_object {A} v (m : M trace A) : sends P m → sends P (on_object v m).
Proof. intros Hm. unfold on_object. destruct (is_nullish v); [apply sends_throw|done]. Qed.
End Sends.

(** ** Answers *)

(** When the computation returns, its status is one of the codes. *)
Definition returns (codes : list Z) (m : M trace response) : Prop :=
  ∀ tr, match (m tr).2 with Ok r => status r ∈ codes | Throw _ => True end.

(** It always returns, with one of the codes. *)
Definition answers (codes : list Z) (m : M trace response) : Prop :=
  ∀ tr, ∃ r, (m tr).2 = Ok r ∧ status r ∈ codes.

Lemma returns_bind {A} codes (m : M trace A) f : (∀ a, returns codes (f a)) →
  returns codes (m ≫= f).
Proof.
  intros Hf tr. unfold mbind, M_bind. destruct (m tr) as [tr1 [a|e]]; [apply Hf|done].
Qed.

Lemma returns_on_object codes v m : returns codes m → returns codes (on_object v m).
Proof. intros Hm. unfold on_object. by destruct (is_nullish v). Qed.

Lemma returns_ok codes v : 200%Z ∈ codes → returns codes (ok v).
Proof. by intros H tr. Qed.

Lemma returns_answer codes c v : c ∈ codes → returns codes (answer c v).
Proof. by intros H tr. Qed.

Lemma returns_throw codes e : returns codes (throw e).
Proof. done. Qed.

Lemma answers_try codes (m : M trace response) h :
  returns codes m → (∀ e, answers codes (h e)) → answers codes (try_catch m h).
Proof.
  intros Hm Hh tr. specialize (Hm tr). unfold try_catch.
  destruct (m tr) as [tr1 [r|e]]; cbn in *; [by exists r|]. apply Hh.
Qed.

Lemma answers_ok codes v : 200%Z ∈ codes → answers codes (ok v).
Proof. intros H tr. by eexists. Qed.

Lemma answers_handler msg codes m : 500%Z ∈ codes → returns codes m → answers codes (handler msg m).
Proof. intros H5 Hm. apply answers_try; [done|]. intros e tr. by eexists. Qed.

Create HintDb server.
Create HintDb routes.
Create HintDb mappers.
#[export] Hint Resolve sends_none sends_ret sends_throw sends_bind sends_try sends_attempt
  sends_mapEach sends_array sends_on_object : server.
#[export] Hint Resolve returns_bind returns_on_object returns_ok returns_answer returns_throw
  answers_handler : server.

#[export] Hint Unfold groups_list groups_create groups_get groups_update groups_delete
  groups_members groups_add_members groups_remove_member groups_add_resources
  access_rules_list access_rules_create access_rules_delete access_rules_count
  agents_list agents_get agents_delete agents_revoke agents_grant audit_logs
  connectors_list connectors_create connectors_get connectors_delete connectors_grant
  connectors_revoke connectors_heartbeat diagnostics_get diagnostics_ping diagnostics_trace
  discovery_scan discovery_status discovery_results policy_acl policy_compile
  networks_list networks_create networks_get networks_delete
  resources_list resources_create resources_get resources_update resources_patch
  resources_delete service_accounts_list subjects_list tokens_create logout
  users_list users_create users_get users_update users_patch users_delete users_invite
  workspaces_lookup workspaces_list workspaces_create workspaces_get workspaces_update
  workspaces_delete workspaces_select workspaces_members workspaces_add_member
  workspaces_update_member workspaces_remove_member jwt_forward jwt_proxy forward : routes.

#[export] Hint Unfold mapBackendGroup mapAgent mapDiscovered mapBackendNetwork mapResourceRow
  mapServiceAccountRow subject_row mapBackendUser mapWorkspace mapScanJob group_reply
  subjects_of ok answer : mappers.

(** ** The status codes *)

Ltac returns_step :=
  match goal with
  | |- answers _ (handler _ _) => apply answers_handler
  | |- returns _ (_ ≫= _) => apply returns_bind; intros ?
  | |- returns _ (on_object _ _) => apply returns_on_object
  | |- returns _ (ok _) => apply returns_ok
  | |- returns _ (answer _ _) => apply returns_answer
  | |- returns _ (throw _) => apply returns_throw
  | |- returns _ (match ?x with _ => _ end) => destruct x
  | |- returns _ (let _ := _ in _) => cbv zeta
  | |- _ ∈ _ => set_solver
  end.

(** C39: every handler answers every request, whatever the controller replies and in
    whatever order replies arrive: with status 200, with 500, or with 400 on the two
    routes that check their body; it never fails without an answer. *)
Theorem every_route_answers : ∀ env backend msg users_first arrival r req,
  answers (match r with
           | GroupsAddMembers | ConnectorsHeartbeat => [200; 400; 500]
           | ServiceAccountsList | Logout => [200]
           | _ => [200; 500]
           end%Z) (handler_of env backend msg users_first arrival r req).
Proof.
  intros env backend msg users_first arrival r req.
  destruct r; cbn [handler_of]; autounfold with routes;
    try (repeat returns_step; done).
  - apply answers_try; [|intros; apply answers_ok; by left]. repeat returns_step.
  - intros tr. eexists. split; [done|]. by left.
Qed.

(** ** Credentials *)

(** The request goes to the controller and carries this token. *)
Definition carries (env : environment) (bearer : string) (r : backend_request) : Prop :=
  startsWith (url r) (getBackendUrl env) = true ∧
  headers r = [("Content-Type", "application/json"); ("Authorization", "Bearer " +:+ bearer)].

(** The public requests carry nothing. *)
Definition anonymous (env : environment) (r : backend_request) : Prop :=
  startsWith (url r) (getBackendUrl env) = true ∧ headers r = [].

Definition is_workspace_route (r : route) : bool :=
  match r with
  | WorkspacesList | WorkspacesCreate | WorkspacesGet | WorkspacesUpdate | WorkspacesDelete
  | WorkspacesSelect | WorkspacesMembers | WorkspacesAddMember | WorkspacesUpdateMember
  | WorkspacesRemoveMember => true
  | _ => false
  end.

Definition credentials (env : environment) (r : route) (req : express_request) :
  backend_request → Prop :=
  match r with
  | WorkspacesLookup | Logout => anonymous env
  | _ => carries env (if is_workspace_route r then getJWT req else getAdminAuthToken env)
  end.

Lemma prefix_append s t : startsWith (s +:+ t) s = true.
Proof.
  unfold startsWith. induction s as [|c s IH]; [by destruct t|].
  unfold String.prefix. fold String.prefix. simpl. by destruct (Ascii.ascii_dec c c).
Qed.

Lemma carries_request env bearer path options : init_headers options = [] →
  carries env bearer (request_of env bearer path options).
Proof.
  intros H. split; [apply prefix_append|]. unfold request_of. cbn [headers]. by rewrite H.
Qed.

Lemma sends_proxy env backend path options : init_headers options = [] →
  sends (carries env (getAdminAuthToken env)) (proxyToBackend env backend path options).
Proof.
  intros H. apply sends_bind; [|intros; apply sends_none]. by apply sends_send, carries_request.
Qed.

Lemma sends_jwt env backend path jwt options : init_headers options = [] →
  sends (carries env jwt) (proxyWithJWT env backend path jwt options).
Proof.
  intros H. apply sends_bind; [|intros; apply sends_none]. by apply sends_send, carries_request.
Qed.

Ltac sends_step :=
  match goal with
  | |- sends _ (handler _ _) => apply sends_try; [|intros ?; apply sends_ret]
  | |- sends _ (_ ≫= _) => apply sends_bind; [|intros ?]
  | |- sends _ (try_catch _ _) => apply sends_try; [|intros ?]
  | |- sends _ (proxyToBackend _ _ _ _) => by apply sends_proxy
  | |- sends _ (proxyWithJWT _ _ _ _ _) => by apply sends_jwt
  | |- sends _ (attempt _) => apply sends_attempt
  | |- sends _ (mapEach _ _) => apply sends_mapEach; intros ?
  | |- sends _ (as_array _) => apply sends_array
  | |- sends _ (on_object _ _) => apply sends_on_object
  | |- sends _ (lift_outcome _) => apply sends_none
  | |- sends _ (throw _) => apply sends_throw
  | |- sends _ (mret _) => apply sends_ret
  | |- sends _ (send _ _) => apply sends_send
  | |- sends _ (let _ := _ in _) => cbv zeta
  | |- sends _ (match ?x with _ => _ end) => destruct x
  end.

Lemma sends_add_members env backend g l :
  sends (carries env (getAdminAuthToken env)) (add_members env backend g l).
Proof.
  induction l as [|v l IH]; cbn [add_members]; [apply sends_ret|].
  destruct (negb (truthy v)); [done|]. repeat sends_step. exact IH.
Qed.

Lemma sends_partial_map P f l : (∀ v, sends P (f v)) → sends P (partial_map f l).
Proof.
  intros Hf. induction l as [|v l IH]; cbn [partial_map]; [apply sends_ret|].
  apply sends_try; [|intros; apply sends_ret]. apply sends_bind; [done|]. intros y.
  apply sends_bind; [done|]. intros. apply sends_ret.
Qed.

Lemma route_sends env backend msg users_first arrival r req :
  sends (credentials env r req) (handler_of env backend msg users_first arrival r req).
Proof.
  destruct r; cbn [handler_of credentials is_workspace_route];
    autounfold with routes; autounfold with mappers;
    repeat first [sends_step | apply sends_add_members | apply sends_partial_map; intros ?];
    try (split; [apply prefix_append|done]).
Qed.

(** C4: the routes of workspaces never use the administrator's token and no other
    route ever uses the caller's: every request a handler sends goes to the configured
    controller and carries exactly the caller's bearer token on workspace routes, the
    administrator's token on the others, and no credentials on the two public ones. *)
Theorem route_credentials : ∀ env backend msg users_first arrival r req,
  sends (credentials env r req) (handler_of env backend msg users_first arrival r req).
Proof. intros. apply route_sends. Qed.

(** ** From replies to answers *)

(** The answer for a reply the route passes on. *)
Definition passed_on (msg : js_error → string) (r : backend_reply) : response :=
  match reply_outcome r with
  | Ok v => mkResponse 200 v
  | Throw e => mkResponse 500 (JObj [("error", JStr (error_message msg e))])
  end.

Lemma forward_run env backend msg path options tr :
  let r := request_of env (getAdminAuthToken env) path options in
  forward env backend msg path options tr = (tr ++ [r], Ok (passed_on msg (backend tr r))).
Proof.
  intros r. unfold forward, handler, try_catch, mbind, M_bind. rewrite proxy_run. fold r.
  unfold passed_on. by destruct (reply_outcome (backend tr r)).
Qed.

(** C40: a forwarding route sends one request and answers 200 with the controller's
    JSON when the controller answered 2xx with JSON, and 500 otherwise: the status of a
    refusal is lost.  In particular a refused workspace creation (409) reaches the
    browser as 500, so that the sign-up page, which waits for 409 to send the user back
    to the form, shows the text and goes nowhere. *)
Theorem refusals_become_500 : ∀ env backend msg tr,
  (∀ path options,
     let r := request_of env (getAdminAuthToken env) path options in
     forward env backend msg path options tr = (tr ++ [r], Ok (passed_on msg (backend tr r)))) ∧
  (∀ req text,
     let r := request_of env (getJWT req) "/api/workspaces" (with_body "POST" (body req)) in
     backend tr r = Reply 409 text → text ≠ "" →
     ∃ tr', workspaces_create env backend msg req tr =
       (tr', Ok (mkResponse 500 (JObj [("error", JStr text)])))) ∧
  (∀ (c : request) (p : page) txt js,
     let p' := state_of (capture_reply msg c (Answered false 500 txt js)) p in
     navigated p' = navigated p ∧ page_error p' = or_else txt "Failed to create workspace" ∧
     processing p' = false).
Proof.
  intros env backend msg tr. split_and!.
  - intros. apply forward_run.
  - intros req text r Hr Ht. eexists. unfold workspaces_create, handler, try_catch, jwt_proxy.
    unfold mbind, M_bind. rewrite proxyWithJWT_run. cbv zeta. fold r. rewrite Hr.
    unfold reply_outcome. cbn [ok_status]. unfold or_else. rewrite decide_False by done.
    reflexivity.
  - intros c p txt js. done.
Qed.

Lemma refusals_become_500_witness : ∃ tr',
  workspaces_create ∅ (λ _ _, Reply 409 "taken") (λ _, "")
    (Routes.mkRequest [] [] (JObj []) (Some "Bearer t")) [] =
  (tr', Ok (mkResponse 500 (JObj [("error", JStr "taken")]))).
Proof.
  destruct (refusals_become_500 ∅ (λ _ _, Reply 409 "taken") (λ _, "") []) as (_ & H & _).
  apply H; [reflexivity|discriminate].
Defined.

(** ** Adding members to a group *)

Definition member_request (env : environment) (groupId : string) (memberId : jsv) : backend_request :=
  request_of env (getAdminAuthToken env) ("/api/admin/user-groups/" +:+ groupId +:+ "/members")
    (with_body "POST" (JObj [("user_id", memberId)])).

(** Sending a list of requests: how many were accepted before the first failure. *)
Fixpoint accepted (backend : trace → backend_request → backend_reply) (tr : trace)
  (rs : list backend_request) : nat * option js_error :=
  match rs with
  | [] => (0, None)
  | r :: rs' =>
      match reply_outcome (backend tr r) with
      | Ok _ => let '(n, e) := accepted backend (tr ++ [r]) rs' in (S n, e)
      | Throw e => (0, Some e)
      end
  end.

Lemma add_members_run env backend groupId memberIds : ∀ tr,
  let rs := member_request env groupId <$> filter (λ v, truthy v = true) memberIds in
  let '(n, failure) := accepted backend tr rs in
  add_members env backend groupId memberIds tr =
    match failure with
    | None => (tr ++ rs, Ok (length rs))
    | Some e => (tr ++ take (S n) rs, Throw e)
    end ∧ (failure = None → n = length rs).
Proof.
  induction memberIds as [|v l IH]; intros tr; cbv zeta.
  - cbn. by rewrite app_nil_r.
  - cbn [add_members]. rewrite filter_cons. destruct (truthy v) eqn:Ev; cbn [negb].
    + rewrite decide_True by done. rewrite fmap_cons. cbn [accepted].
      unfold mbind at 1, M_bind at 1. rewrite proxy_run. cbv zeta.
      fold (member_request env groupId v). set (r := member_request env groupId v).
      destruct (reply_outcome (backend tr r)) as [x|e]; [|by split].
      specialize (IH (tr ++ [r])). cbv zeta in IH.
      destruct (accepted _ _ _) as [n failure]. destruct IH as [E Hn].
      unfold mbind, M_bind. rewrite E. destruct failure as [e|]; rewrite <- app_assoc; cbn.
      * by split.
      * split; [done|]. intros _. by rewrite Hn.
    + rewrite decide_False by done. apply IH.
Qed.

(** Posting a list of members sends one request per non-empty identifier, in
    order, until the controller refuses one.  When none is refused the answer counts
    them; otherwise it is 500, and the members before the refused one have been added all
    the same: unlike the data layer's update this is neither atomic nor a
    replacement. *)
Theorem add_members_in_order : ∀ env backend msg req memberIds tr,
  opt_field (body req) "memberIds" = JArr memberIds →
  let rs := member_request env (param 0 req) <$> filter (λ v, truthy v = true) memberIds in
  match accepted backend tr rs with
  | (_, None) =>
      groups_add_members env backend msg req tr =
        (tr ++ rs, Ok (mkResponse 200
           (JObj [("status", JStr "ok"); ("added", JInt (Z.of_nat (length rs)))])))
  | (n, Some e) =>
      groups_add_members env backend msg req tr =
        (tr ++ take (S n) rs, Ok (mkResponse 500 (JObj [("error", JStr (error_message msg e))])))
  end.
Proof.
  intros env backend msg req memberIds tr Hb rs. unfold groups_add_members. rewrite Hb.
  pose proof (add_members_run env backend (param 0 req) memberIds tr) as H. cbv zeta in H.
  fold rs in H. destruct (accepted backend tr rs) as [n [e|]]; destruct H as [E _];
    unfold handler, try_catch, mbind, M_bind; rewrite E; reflexivity.
Qed.

Lemma add_members_in_order_witness :
  let req := Routes.mkRequest ["g"] [] (JObj [("memberIds", JArr [JStr "a"; JStr ""; JStr "b"])]) None in
  groups_add_members ∅ (λ _ _, Reply 200 "{}") (λ _, "") req [] =
    ([member_request ∅ "g" (JStr "a"); member_request ∅ "g" (JStr "b")],
     Ok (mkResponse 200 (JObj [("status", JStr "ok"); ("added", JInt 2)]))).
Proof.
  intros req. exact (add_members_in_order ∅ (λ _ _, Reply 200 "{}") (λ _, "") req
    [JStr "a"; JStr ""; JStr "b"] [] eq_refl).
Defined.
