(* ===== verification/Membership.v ===== *)
(** * The groups of a user ([GET /api/users])

    The membership map built from replies that arrive in any order holds, for every
    user, exactly the groups that list the user. *)
From S2P Require Import Prelude JsString Json JsonRoundtrip Uri Storage Proxy Routes UserRoutes.
From stdpp Require Import gmap.
From Stdlib Require Import ZArith Lia.

(** The user a member row is about: undefined and null count as absent. *)
Definition member_user (member : jsv) : jsv :=
  nullish_or (opt_field member "user_id") (opt_field member "userId").

(** Rows whose user is a string or missing. *)
Definition good_member (member : jsv) : Prop :=
  is_nullish member = false ∧ (truthy (member_user member) = false ∨ ∃ u, member_user member = JStr u).

Definition good_result (r : outcome (option (jsv * list jsv))) : Prop :=
  match r with
  | Ok None => True
  | Ok (Some (g, members)) => (∃ s, g = JStr s) ∧ Forall good_member members
  | Throw _ => False
  end.

(** Maps whose keys and values are strings, with duplicate-free values. *)
Definition good_map (m : membership) : Prop :=
  Forall (λ kv, (∃ k, kv.1 = JStr k) ∧ NoDup kv.2 ∧ ∀ v, v ∈ kv.2 → ∃ s, v = JStr s) m.

(** [g] is recorded for user [u]. *)
Definition records (m : membership) (u : string) (g : jsv) : Prop :=
  g ∈ default [] (map_get (JStr u) m).

Lemma strict_eq_str a b : strict_eq (JStr a) (JStr b) = bool_decide (a = b).
Proof. done. Qed.

Lemma set_has_str s v : (∀ w, w ∈ s → ∃ x, w = JStr x) → set_has (JStr v) s = true ↔ JStr v ∈ s.
Proof.
  intros Hs. unfold set_has. rewrite existsb_exists. split.
  - intros (w & Hw & E). apply list_elem_of_In in Hw. destruct (Hs w Hw) as [x ->].
    rewrite strict_eq_str in E. apply bool_decide_eq_true in E. by subst.
  - intros Hv. exists (JStr v). split; [by apply list_elem_of_In|].
    rewrite strict_eq_str. by apply bool_decide_eq_true.
Qed.

Lemma set_add_str s v : NoDup s → (∀ w, w ∈ s → ∃ x, w = JStr x) →
  NoDup (set_add (JStr v) s) ∧ (∀ w, w ∈ set_add (JStr v) s → ∃ x, w = JStr x) ∧
  ∀ w, w ∈ set_add (JStr v) s ↔ w ∈ s ∨ w = JStr v.
Proof.
  intros Hnd Hs. unfold set_add. destruct (set_has (JStr v) s) eqn:E.
  - apply set_has_str in E; [|done]. split_and!; [done|done|]. intros w. split; [by left|].
    by intros [?| ->].
  - assert (JStr v ∉ s) as Hv.
    { intros Hv. apply set_has_str in Hv; [|done]. congruence. }
    split_and!.
    + apply NoDup_app. split_and!; [done| |apply NoDup_singleton].
      by intros w Hw ->%list_elem_of_singleton.
    + intros w [Hw|Hw]%elem_of_app; [by apply Hs|]. apply list_elem_of_singleton in Hw. by eexists.
    + intros w. by rewrite elem_of_app, list_elem_of_singleton.
Qed.

Lemma map_add_good k v m : good_map m → good_map (map_add (JStr k) (JStr v) m).
Proof.
  intros Hm. induction Hm as [|[k' s] m (Hk & Hnd & Hs) Hm IH]; cbn [map_add].
  - apply Forall_singleton. cbn [fst snd]. split_and!; [by eexists|apply NoDup_singleton|].
    intros w ->%list_elem_of_singleton. by eexists.
  - cbn [fst snd] in *. destruct Hk as [k0 ->]. rewrite strict_eq_str.
    destruct (set_add_str s v Hnd Hs) as (H1 & H2 & _).
    case_bool_decide; constructor; try done; cbn [fst snd]; split_and!; try done; by eexists.
Qed.

Lemma map_add_records k v m u g : good_map m →
  records (map_add (JStr k) (JStr v) m) u g ↔ records m u g ∨ (u = k ∧ g = JStr v).
Proof.
  intros Hm. unfold records. induction Hm as [|[k' s] m (Hk & Hnd & Hs) Hm IH]; cbn [map_add map_get].
  - rewrite strict_eq_str. case_bool_decide; cbn; rewrite ?elem_of_nil, ?list_elem_of_singleton;
      naive_solver.
  - cbn [fst snd] in *. destruct Hk as [k0 ->]. rewrite !strict_eq_str.
    destruct (set_add_str s v Hnd Hs) as (_ & _ & H3).
    case_bool_decide as Hk; cbn [map_get]; rewrite !strict_eq_str.
    + case_bool_decide as Hu; cbn; [rewrite H3|]; naive_solver.
    + case_bool_decide as Hu; cbn; [naive_solver|]. exact IH.
Qed.

(** One group. *)
Lemma add_group_spec g members : Forall good_member members → ∀ m, good_map m →
  ∃ m', add_group (JStr g) members m = Ok m' ∧ good_map m' ∧
    ∀ u h, u ≠ "" → records m' u h ↔ records m u h ∨
      (h = JStr g ∧ ∃ member, member ∈ members ∧ member_user member = JStr u).
Proof.
  induction 1 as [|member members [Hn Hu] Hms IH]; intros m Hm; cbn [add_group].
  - exists m. split_and!; [done|done|]. intros u h _. split; [by left|].
    intros [?|(_ & ? & []%not_elem_of_nil & _)]; done.
  - rewrite Hn. fold (member_user member).
    assert (∃ m1, (if truthy (member_user member) then map_add (member_user member) (JStr g) m else m) = m1 ∧
      good_map m1 ∧ ∀ u h, u ≠ "" → records m1 u h ↔ records m u h ∨
        (h = JStr g ∧ member_user member = JStr u)) as (m1 & E1 & Hm1 & R1).
    { destruct (truthy (member_user member)) eqn:Et.
      - destruct Hu as [Hu|[u0 Hu]]; [congruence|]. rewrite Hu. eexists. split_and!; [done| |].
        + by apply map_add_good.
        + intros u h _. rewrite map_add_records by done. naive_solver.
      - exists m. split_and!; [done|done|]. intros u h Hne. split; [by left|].
        intros [?|[_ E]]; [done|]. rewrite E in Et. cbn in Et.
        by rewrite bool_decide_false in Et. }
    rewrite E1. destruct (IH m1 Hm1) as (m' & E' & Hm' & R'). exists m'. split_and!; [done|done|].
    intros u h Hne. rewrite R', R1 by done. setoid_rewrite elem_of_cons. naive_solver.
Qed.

(** All groups, in any order. *)
Lemma arrive_spec results : Forall good_result results → ∀ order m, good_map m →
  ∃ m', arrive results order m = Ok m' ∧ good_map m' ∧
    ∀ u h, u ≠ "" → records m' u h ↔ records m u h ∨
      ∃ i members, i ∈ order ∧ results !! i = Some (Ok (Some (h, members))) ∧
        ∃ member, member ∈ members ∧ member_user member = JStr u.
Proof.
  intros Hres. induction order as [|i order IH]; intros m Hm; cbn [arrive].
  - exists m. split_and!; [done|done|]. intros u h _. split; [by left|].
    intros [?|(? & ? & []%not_elem_of_nil & _)]; done.
  - destruct (results !! i) as [r|] eqn:Ei.
    2:{ destruct (IH m Hm) as (m' & E & Hm' & R). exists m'. split_and!; [done|done|].
        intros u h Hne. rewrite R by done. setoid_rewrite elem_of_cons.
        split; [naive_solver|]. intros [?|(j & ms & [->|Hj] & Hj' & ?)]; [by left|congruence|].
        right. by exists j, ms. }
    assert (good_result r) as Hr by (rewrite Forall_lookup in Hres; by eapply Hres).
    destruct r as [[[g members]|]|e]; [| |done].
    + destruct Hr as [[s ->] Hms]. destruct (add_group_spec s members Hms m Hm) as (m1 & E1 & Hm1 & R1).
      rewrite E1. destruct (IH m1 Hm1) as (m' & E & Hm' & R). exists m'. split_and!; [done|done|].
      intros u h Hne. rewrite R, R1 by done. setoid_rewrite elem_of_cons. split.
      * intros [[?|(-> & ?)]|(j & ms & ? & ? & ?)]; [by left|right; exists i, members; auto|].
        right. exists j, ms. auto.
      * intros [?|(j & ms & [->|Hj] & Hj' & ?)]; [by left; left| |].
        -- rewrite Ei in Hj'. injection Hj' as <- <-. left. right. auto.
        -- right. by exists j, ms.
    + destruct (IH m Hm) as (m' & E & Hm' & R). exists m'. split_and!; [done|done|].
      intros u h Hne. rewrite R by done. setoid_rewrite elem_of_cons.
      split; [naive_solver|]. intros [?|(j & ms & [->|Hj] & Hj' & ?)]; [by left|congruence|].
      right. by exists j, ms.
Qed.

Lemma map_get_good m u : good_map m → NoDup (default [] (map_get (JStr u) m)).
Proof.
  induction 1 as [|[k s] m (_ & Hnd & _) Hm IH]; cbn [map_get]; [apply NoDup_nil_2|].
  by destruct (strict_eq k (JStr u)).
Qed.

(** A user row the mapper accepts. *)
Definition good_user (user : jsv) : Prop :=
  is_nullish user = false ∧ (∃ u, first_of user ["id"; "ID"] (JStr "") = JStr u ∧ u ≠ "") ∧
  ∃ s, first_of user ["status"; "Status"] (JStr "active") = JStr s.

(** The groups a row of the answer must list. *)
Definition groups_exact (results : list (outcome (option (jsv * list jsv)))) (user row : jsv) : Prop :=
  ∃ gs, opt_field row "groups" = JArr gs ∧
    opt_field row "id" = first_of user ["id"; "ID"] (JStr "") ∧ NoDup gs ∧
    ∀ g, g ∈ gs ↔ ∃ members, Ok (Some (g, members)) ∈ results ∧
      ∃ member, member ∈ members ∧ member_user member = first_of user ["id"; "ID"] (JStr "").

Lemma map_users m results tr users :
  good_map m → Forall good_user users →
  (∀ u h, u ≠ "" → records m u h ↔ ∃ members, Ok (Some (h, members)) ∈ results ∧
     ∃ member, member ∈ members ∧ member_user member = JStr u) →
  ∃ rows, mapEach (λ user, on_object user
      (mapBackendUser user (default [] (map_get (first_of user ["id"; "ID"] (JStr "")) m))))
    users tr = (tr, Ok rows) ∧ Forall2 (groups_exact results) users rows.
Proof.
  intros Hm Hus R. induction Hus as [|user users (Hn & (u & Hu & Hne) & (s & Hs)) _ IH].
  - exists []. split; [done|constructor].
  - destruct IH as (rows & E & H2). cbn [mapEach]. unfold mbind, M_bind.
    unfold on_object at 1. rewrite Hn. unfold mapBackendUser at 1, on_object at 1. rewrite Hn.
    cbv zeta. rewrite Hs. unfold mret at 1, M_ret at 1. rewrite E.
    eexists (_ :: rows). split; [reflexivity|]. constructor; [|done].
    unfold groups_exact. eexists. split_and!; [reflexivity|reflexivity| |].
    + rewrite Hu. by apply map_get_good.
    + intros g. rewrite Hu. by apply (R u g).
Qed.

(** Whatever the order in which the replies arrive (each exactly once), the list of
    users is answered with one row per user, in the order of the controller, and the
    groups of a row are, without repetition, exactly the groups whose member list names
    the user. *)
Theorem users_list_groups : ∀ env backend msg users_first arrival req tr users groups results tr3,
  let r1 := request_of env (getAdminAuthToken env) "/api/admin/users" no_options in
  let r2 := request_of env (getAdminAuthToken env) "/api/admin/user-groups" no_options in
  reply_outcome (backend tr r1) = Ok (JArr users) →
  reply_outcome (backend (tr ++ [r1]) r2) = Ok (JArr groups) →
  mapEach (λ g, attempt (group_reply env backend g)) groups ((tr ++ [r1]) ++ [r2]) =
    (tr3, Ok results) →
  Forall good_result results → Forall good_user users →
  arrival (length results) ≡ₚ seq 0 (length results) →
  ∃ rows, users_list env backend msg users_first arrival req tr =
      (tr3, Ok (mkResponse 200 (JArr rows))) ∧
    Forall2 (groups_exact results) users rows.
Proof.
  intros env backend msg users_first arrival req tr users groups results tr3 r1 r2
    H1 H2 H3 Hres Hus Harr.
  destruct (arrive_spec results Hres (arrival (length results)) [] ltac:(constructor))
    as (m & Em & Hm & R).
  destruct (map_users m results tr3 users Hm Hus) as (rows & E & HF).
  { intros u h Hne. rewrite R by done. unfold records. cbn. rewrite elem_of_nil.
    setoid_rewrite list_elem_of_lookup at 3. split.
    - intros [[]|(i & ms & _ & Hi & Hms)]. exists ms. split; [by exists i|done].
    - intros (ms & [i Hi] & Hms). right. exists i, ms. split; [|done].
      rewrite Harr. apply elem_of_seq. apply lookup_lt_Some in Hi. lia. }
  exists rows. split; [|done].
  unfold users_list, handler, try_catch.
  erewrite (bind_run (attempt _)) by (unfold attempt; rewrite proxy_run; reflexivity).
  erewrite (bind_run (attempt _)) by (unfold attempt; rewrite proxy_run; reflexivity).
  fold r1 r2. rewrite H1, H2. cbn [join2].
  rewrite (bind_run (lift_outcome _) _ _ ((tr ++ [r1]) ++ [r2]) (JArr users, JArr groups)) by done.
  rewrite (bind_run (as_array _) _ _ ((tr ++ [r1]) ++ [r2]) groups) by done.
  rewrite (bind_run _ _ _ _ _ H3).
  rewrite (bind_run (lift_outcome _) _ _ tr3 m) by (unfold lift_outcome; by rewrite Em).
  rewrite (bind_run (as_array _) _ _ tr3 users) by done.
  by rewrite (bind_run _ _ _ _ _ E).
Qed.

Lemma good_member_row u : good_member (JObj [("user_id", JStr u)]).
Proof. split; [done|]. right. by exists u. Qed.

(** Two groups with a common member, the second reply first. *)
Lemma users_list_groups_witness :
  let member u := JObj [("user_id", JStr u)] in
  let backend (tr : trace) (r : backend_request) :=
    Reply 200 (of_list (print_raw
      match length tr with
      | 0 => JArr [JObj [("id", JStr "u1"); ("name", JStr "Ann")]]
      | 1 => JArr [JObj [("id", JStr "g1")]; JObj [("ID", JStr "g2")]]
      | 2 => JArr [member "u1"; member "u2"]
      | _ => JArr [member "u1"; member "u1"]
      end)) in
  ∃ tr rows, users_list ∅ backend (λ _, "") true (λ n, reverse (seq 0 n))
      (mkRequest [] [] JUndef None) [] = (tr, Ok (mkResponse 200 (JArr rows))).
Proof.
  intros member backend.
  destruct (users_list_groups ∅ backend (λ _, "") true (λ n, reverse (seq 0 n))
    (mkRequest [] [] JUndef None) [] [JObj [("id", JStr "u1"); ("name", JStr "Ann")]]
    [JObj [("id", JStr "g1")]; JObj [("ID", JStr "g2")]]
    [Ok (Some (JStr "g1", [member "u1"; member "u2"])); Ok (Some (JStr "g2", [member "u1"; member "u1"]))]
    (mapEach (λ g, attempt (group_reply ∅ backend g)) [JObj [("id", JStr "g1")]; JObj [("ID", JStr "g2")]]
      [request_of ∅ (getAdminAuthToken ∅) "/api/admin/users" no_options;
       request_of ∅ (getAdminAuthToken ∅) "/api/admin/user-groups" no_options]).1)
    as (rows & E & _).
  - vm_compute. reflexivity.
  - vm_compute. reflexivity.
  - vm_compute. reflexivity.
  - constructor; [|constructor; [|constructor]];
      (split; [eexists; reflexivity|repeat (constructor; [apply good_member_row|]); constructor]).
  - constructor; [|constructor]. split; [reflexivity|]. split.
    + exists "u1". split; [reflexivity|discriminate].
    + exists "active". reflexivity.
  - apply reverse_Permutation.
  - eexists _, rows. exact E.
Defined.
