(* ===== verification/Client.v ===== *)
(** * The browser's API client ([lib/mock-api.ts])

    One definition per function: the request it makes and what it returns.  The
    network, with the server behind it, is a function from the requests made so far and
    the new one to a reply. *)
From S2P Require Import Prelude JsString Json Uri Proxy.
From Stdlib Require Import ZArith.

Record client_request := mkCall {
  call_method : string; call_url : string; call_body : option string }.

Abbreviation calls := (list client_request).

Section Client.
  (** [import.meta.env.VITE_API_BASE_URL || ''] *)
  Variable API_BASE : string.
  Variable network : calls → client_request → backend_reply.

Definition fetch_call (c : client_request) : M calls backend_reply := λ cs,
  (cs ++ [c], Ok (network cs c)).

Definition failed (status : Z) (text : string) : js_error :=
  JsError (or_else text ("Request failed with " +:+ string_of_Z status)).

Definition from_outcome {A} (o : outcome A) : M calls A := λ cs, (cs, o).

(** A failed fetch is rethrown with a prefix. *)
Definition request (path : string) (options : request_init) : M calls jsv :=
  let url := if startsWith path "http" then path else API_BASE +:+ path in
  res ← fetch_call (mkCall (default "GET" (init_method options)) url (init_body options));
  match res with
  | NetError message => throw (JsError ("Network error: " +:+ message))
  | Reply status text =>
      if ok_status status then from_outcome (parse text) else throw (failed status text)
  end.

Definition requestLocal (path : string) (options : request_init) : M calls jsv :=
  res ← fetch_call (mkCall (default "GET" (init_method options)) path (init_body options));
  match res with
  | NetError message => throw (JsError message)
  | Reply status text =>
      if ok_status status then from_outcome (parse text) else throw (failed status text)
  end.

(** [await request(...)] of a function that returns nothing. *)
Definition discard (m : M calls jsv) : M calls unit := m ;; mret tt.

Definition obj (fs : list (string * jsv)) : jsv := JObj fs.

(** Optional members and nullable numbers of the arguments. *)
Definition opt_str (o : option string) : jsv := match o with Some s => JStr s | None => JUndef end.
Definition strs (l : list string) : jsv := JArr (JStr <$> l).

Definition getRemoteNetwork (networkId : string) : M calls jsv :=
  request ("/api/remote-networks/" +:+ networkId) no_options.
Definition getConnector (connectorId : string) : M calls jsv :=
  request ("/api/connectors/" +:+ connectorId) no_options.
Definition revokeConnector (connectorId : string) : M calls unit :=
  discard (request ("/api/connectors/" +:+ encodeURIComponent connectorId +:+ "/revoke")
             (with_method "POST")).
Definition grantConnector (connectorId : string) : M calls unit :=
  discard (request ("/api/connectors/" +:+ encodeURIComponent connectorId +:+ "/grant")
             (with_method "POST")).
Definition getAgent (agentId : string) : M calls jsv :=
  request ("/api/agents/" +:+ agentId) no_options.
Definition revokeAgent (agentId : string) : M calls unit :=
  discard (request ("/api/agents/" +:+ encodeURIComponent agentId +:+ "/revoke")
             (with_method "POST")).
Definition grantAgent (agentId : string) : M calls unit :=
  discard (request ("/api/agents/" +:+ encodeURIComponent agentId +:+ "/grant")
             (with_method "POST")).
Definition getRemoteNetworks : M calls jsv := request "/api/remote-networks" no_options.
Definition addRemoteNetwork (name location : string) : M calls unit :=
  discard (request "/api/remote-networks"
    (with_body "POST" (obj [("name", JStr name); ("location", JStr location)]))).
Definition deleteRemoteNetwork (networkId : string) : M calls unit :=
  discard (request ("/api/remote-networks/" +:+ encodeURIComponent networkId)
             (with_method "DELETE")).
Definition getConnectors : M calls jsv := request "/api/connectors" no_options.
Definition getAgents : M calls jsv := request "/api/agents" no_options.
Definition deleteAgent (agentId : string) : M calls unit :=
  discard (request ("/api/agents/" +:+ agentId) (with_method "DELETE")).
Definition getSubjects : M calls jsv := request "/api/subjects" no_options.
Definition getSubjectsByType (type : option string) : M calls jsv :=
  match type with
  | None => getSubjects
  | Some t =>
      if bool_decide (t = "") then getSubjects
      else request ("/api/subjects?type=" +:+ encodeURIComponent t) no_options
  end.
Definition getGroups : M calls jsv := request "/api/groups" no_options.
Definition getGroup (groupId : string) : M calls jsv :=
  request ("/api/groups/" +:+ groupId) no_options.
Definition updateGroup (groupId : string) (name description : option string) : M calls unit :=
  discard (request ("/api/groups/" +:+ encodeURIComponent groupId)
    (with_body "PUT" (obj [("name", opt_str name); ("description", opt_str description)]))).
Definition deleteGroup (groupId : string) : M calls unit :=
  discard (request ("/api/groups/" +:+ encodeURIComponent groupId) (with_method "DELETE")).
Definition getUsers : M calls jsv := request "/api/users" no_options.
Definition addUser (name email status : string) : M calls unit :=
  discard (request "/api/users"
    (with_body "POST" (obj [("name", JStr name); ("email", JStr email); ("status", JStr status)]))).
Definition updateUser (userId : string) (name email status : option string) : M calls unit :=
  discard (request ("/api/users/" +:+ encodeURIComponent userId)
    (with_body "PUT" (obj [("name", opt_str name); ("email", opt_str email);
                           ("status", opt_str status)]))).
Definition getUser (userId : string) : M calls jsv :=
  request ("/api/users/" +:+ encodeURIComponent userId) no_options.
Definition deactivateUser (userId : string) : M calls unit :=
  discard (request ("/api/users/" +:+ encodeURIComponent userId)
    (with_body "PATCH" (obj [("status", JStr "inactive")]))).
Definition deleteUser (userId : string) : M calls unit :=
  discard (request ("/api/users/" +:+ encodeURIComponent userId) (with_method "DELETE")).
Definition createEnrollmentToken : M calls jsv :=
  if bool_decide (API_BASE = "") then requestLocal "/api/tokens" (with_method "POST")
  else request "/api/admin/tokens" (with_method "POST").
Definition getServiceAccounts : M calls jsv := request "/api/service-accounts" no_options.
Definition getResource (resourceId : string) : M calls jsv :=
  request ("/api/resources/" +:+ resourceId) no_options.
Definition getResources : M calls jsv := request "/api/resources" no_options.

(** The argument of [addResource] and [updateResource], as it is sent. *)
Record resource_data := mkResourceData {
  network_id : string; rname : string; rtype : string; raddress : string; rprotocol : string;
  port_from : jsv; port_to : jsv; ralias : option string }.
Definition resource_js (d : resource_data) : jsv :=
  obj [("network_id", JStr (network_id d)); ("name", JStr (rname d)); ("type", JStr (rtype d));
       ("address", JStr (raddress d)); ("protocol", JStr (rprotocol d));
       ("port_from", port_from d); ("port_to", port_to d); ("alias", opt_str (ralias d))].
Definition addResource (data : resource_data) : M calls unit :=
  discard (request "/api/resources" (with_body "POST" (resource_js data))).
Definition updateResource (resourceId : string) (data : resource_data) : M calls unit :=
  discard (request ("/api/resources/" +:+ resourceId) (with_body "PUT" (resource_js data))).
Definition setResourceFirewallStatus (resourceId status : string) : M calls jsv :=
  request ("/api/resources/" +:+ resourceId)
    (with_body "PATCH" (obj [("firewall_status", JStr status)])).
Definition deleteResource (resourceId : string) : M calls unit :=
  discard (request ("/api/resources/" +:+ resourceId) (with_method "DELETE")).
Definition deleteConnector (connectorId : string) : M calls unit :=
  discard (request ("/api/connectors/" +:+ connectorId) (with_method "DELETE")).
Definition addAgent (name : string) (connectorId remoteNetworkId : option string) : M calls unit :=
  discard (request "/api/agents"
    (with_body "POST" (obj [("name", JStr name); ("connectorId", opt_str connectorId);
                            ("remoteNetworkId", opt_str remoteNetworkId)]))).
Definition addConnector (name remoteNetworkId : string) : M calls unit :=
  discard (request "/api/connectors"
    (with_body "POST" (obj [("name", JStr name); ("remoteNetworkId", JStr remoteNetworkId)]))).
Definition addGroup (name description : string) : M calls unit :=
  discard (request "/api/groups"
    (with_body "POST" (obj [("name", JStr name); ("description", JStr description)]))).
Definition addGroupResources (groupId : string) (resourceIds : list string) : M calls unit :=
  discard (request ("/api/groups/" +:+ groupId +:+ "/resources")
    (with_body "POST" (obj [("resourceIds", strs resourceIds)]))).
Definition updateGroupMembers (groupId : string) (memberIds : list string) : M calls unit :=
  discard (request ("/api/groups/" +:+ groupId +:+ "/members")
    (with_body "POST" (obj [("memberIds", strs memberIds)]))).
Definition createAccessRule (resourceId name : string) (groupIds : list string) (enabled : bool) :
  M calls jsv :=
  request "/api/access-rules"
    (with_body "POST" (obj [("resourceId", JStr resourceId); ("name", JStr name);
                            ("groupIds", strs groupIds); ("enabled", JBool enabled)])).
Definition deleteAccessRule (ruleId : string) : M calls unit :=
  discard (request ("/api/access-rules/" +:+ ruleId) (with_method "DELETE")).
Definition getAccessRuleIdentityCount (ruleId : string) : M calls jsv :=
  res ← request ("/api/access-rules/" +:+ ruleId +:+ "/identity-count") no_options;
  from_outcome (field res "count").
Definition removeGroupMember (groupId userId : string) : M calls unit :=
  discard (request ("/api/groups/" +:+ groupId +:+ "/members/" +:+ userId) (with_method "DELETE")).

(** [workspace_id] is sent only when there is one. *)
Definition inviteUser (email : string) (workspaceId : option string) : M calls jsv :=
  let extra := match workspaceId with
               | Some w => if bool_decide (w = "") then [] else [("workspace_id", JStr w)]
               | None => []
               end in
  request "/api/users/invite" (with_body "POST" (obj ([("email", JStr email)] ++ extra))).
Definition startNetworkScan (connectorId : string) (targets : list string) (ports : list jsnum) :
  M calls jsv :=
  request "/api/discovery/scan"
    (with_body "POST" (obj [("connector_id", JStr connectorId); ("targets", strs targets);
                            ("ports", JArr (JNum <$> ports))])).
Definition getScanStatus (requestId : string) : M calls jsv :=
  request ("/api/discovery/scan/" +:+ requestId) no_options.
Definition getDiscoveryResults : M calls jsv := request "/api/discovery/results" no_options.
Definition getDiagnostics : M calls jsv := request "/api/diagnostics" no_options.
Definition pingConnector (connectorId : string) : M calls jsv :=
  request ("/api/diagnostics/ping/" +:+ encodeURIComponent connectorId) (with_method "POST").
Definition traceAccess (userId resourceId : string) : M calls jsv :=
  request "/api/diagnostics/trace"
    (with_body "POST" (obj [("userId", JStr userId); ("resourceId", JStr resourceId)])).
End Client.
