(* ===== verification/ClientProps.v ===== *)
(** * The client and the server agree

    Every function of the client makes one request, and the server resolves it to the
    route the function is meant for, with the identifiers as parameters. *)
From S2P Require Import Prelude JsString Json Uri Proxy Routes UserRoutes WorkspaceRoutes Server ServerProps Client.
From Stdlib Require Import Ascii ZArith Lia.

(** ** Paths *)

(** [/a/b/c] *)
Fixpoint join_path (segs : list string) : string :=
  match segs with
  | [] => ""
  | [s] => String "/" s
  | s :: segs' => String "/" (s +:+ join_path segs')
  end.

Definition clean (s : string) : Prop := "/"%char ∉ to_list s ∧ "?"%char ∉ to_list s.

Lemma join_path_split segs : segs ≠ [] → Forall clean segs →
  split_list "/" (to_list (join_path segs)) = [] :: (to_list <$> segs).
Proof.
  induction segs as [|s segs IH]; intros Hne H; [done|]. clear Hne.
  apply Forall_cons in H as [[Hs _] H]. destruct segs as [|s' segs].
  - cbn [join_path to_list]. change ("/"%char :: to_list s) with ([] ++ "/"%char :: to_list s).
    rewrite split_list_app by apply not_elem_of_nil. by rewrite split_list_no_sep.
  - specialize (IH ltac:(done) H).
    change (join_path (s :: s' :: segs)) with (String "/" (s +:+ join_path (s' :: segs))).
    assert (∃ rest, to_list (join_path (s' :: segs)) = "/"%char :: rest) as [rest E].
    { destruct segs; by eexists. }
    cbn [to_list]. rewrite to_list_app, E in *.
    change ("/"%char :: to_list s ++ "/"%char :: rest)
      with ([] ++ "/"%char :: to_list s ++ "/"%char :: rest).
    rewrite split_list_app by apply not_elem_of_nil. rewrite split_list_app by done.
    change ("/"%char :: rest) with ([] ++ "/"%char :: rest) in IH.
    rewrite split_list_app in IH by apply not_elem_of_nil. injection IH as IH.
    by rewrite IH.
Qed.

Lemma join_path_no_query segs : Forall clean segs → "?"%char ∉ to_list (join_path segs).
Proof.
  induction 1 as [|s segs [_ Hs] _ IH]; [apply not_elem_of_nil|]. destruct segs as [|s' segs].
  - cbn [join_path to_list]. by rewrite not_elem_of_cons.
  - change (join_path (s :: s' :: segs)) with (String "/" (s +:+ join_path (s' :: segs))).
    cbn [to_list]. rewrite to_list_app, not_elem_of_cons, not_elem_of_app. by split.
Qed.

(** The part of the target after the path is empty or starts with '?'. *)
Definition query_tail (q : string) : Prop := q = "" ∨ ∃ q', q = String "?" q'.

Lemma segments_join segs q : segs ≠ [] → Forall clean segs → last segs ≠ Some "" → query_tail q →
  segments (join_path segs +:+ q) = segs.
Proof.
  intros Hne Hc Hl Hq. unfold segments.
  assert (path_part (join_path segs +:+ q) = join_path segs) as ->.
  { unfold path_part, JsString.split. rewrite to_list_app.
    destruct Hq as [->|[q' ->]]; cbn [to_list].
    - rewrite app_nil_r, split_list_no_sep by (by apply join_path_no_query). cbn.
      by rewrite of_to_list.
    - rewrite split_list_app by (by apply join_path_no_query). cbn. by rewrite of_to_list. }
  unfold JsString.split. rewrite join_path_split by done.
  rewrite fmap_cons, <- list_fmap_compose.
  assert ((of_list ∘ to_list) <$> segs = segs) as ->.
  { rewrite <- (list_fmap_id segs) at 2. apply list_fmap_ext. intros i x _. apply of_to_list. }
  cbn [of_list]. unfold drop_trailing.
  destruct (reverse segs) as [|x r] eqn:E; [done|].
  assert (last segs = Some x) as Hx by (rewrite <- (reverse_involutive segs), E, last_reverse; done).
  destruct x as [|c x]; [congruence|done].
Qed.

Lemma resolve_path meth segs q r ps params : segs ≠ [] → Forall clean segs → last segs ≠ Some "" →
  query_tail q → find_route table meth segs = Some (r, ps) →
  mapM decodeURIComponent ps = Some params →
  resolve meth (join_path segs +:+ q) = Handled r params.
Proof.
  intros Hne Hc Hl Hq Hf Hd. unfold resolve. rewrite segments_join by done. by rewrite Hf, Hd.
Qed.

(** ** Calls *)

(** A call of every function, with its identifiers; the data that goes into the body is
    in the calls as well. *)
Inductive client_call :=
  | CGetRemoteNetwork (id : string) | CGetConnector (id : string)
  | CRevokeConnector (id : string) | CGrantConnector (id : string)
  | CGetAgent (id : string) | CRevokeAgent (id : string) | CGrantAgent (id : string)
  | CGetRemoteNetworks | CAddRemoteNetwork (name location : string)
  | CDeleteRemoteNetwork (id : string) | CGetConnectors | CGetAgents
  | CDeleteAgent (id : string) | CGetSubjects | CGetSubjectsByType (type : option string)
  | CGetGroups | CGetGroup (id : string)
  | CUpdateGroup (id : string) (name description : option string)
  | CDeleteGroup (id : string) | CGetUsers | CAddUser (name email status : string)
  | CUpdateUser (id : string) (name email status : option string)
  | CGetUser (id : string) | CDeactivateUser (id : string) | CDeleteUser (id : string)
  | CCreateEnrollmentToken | CGetServiceAccounts | CGetResource (id : string) | CGetResources
  | CAddResource (data : resource_data) | CUpdateResource (id : string) (data : resource_data)
  | CSetFirewall (id status : string) | CDeleteResource (id : string)
  | CDeleteConnector (id : string) | CAddAgent (name : string) (c n : option string)
  | CAddConnector (name network : string) | CAddGroup (name description : string)
  | CAddGroupResources (id : string) (ids : list string)
  | CUpdateGroupMembers (id : string) (ids : list string)
  | CCreateAccessRule (res name : string) (groups : list string) (enabled : bool)
  | CDeleteAccessRule (id : string) | CIdentityCount (id : string)
  | CRemoveGroupMember (group user : string) | CInviteUser (email : string) (w : option string)
  | CStartScan (c : string) (targets : list string) (ports : list jsnum)
  | CGetScanStatus (id : string) | CGetDiscoveryResults | CGetDiagnostics
  | CPing (id : string) | CTrace (user res : string).

Section Run.
  Variable network : calls → client_request → backend_reply.

(** Served by the same host: no API base. *)
Definition run_call (c : client_call) : M calls unit :=
  match c with
  | CGetRemoteNetwork id => discard (getRemoteNetwork "" network id)
  | CGetConnector id => discard (getConnector "" network id)
  | CRevokeConnector id => revokeConnector "" network id
  | CGrantConnector id => grantConnector "" network id
  | CGetAgent id => discard (getAgent "" network id)
  | CRevokeAgent id => revokeAgent "" network id
  | CGrantAgent id => grantAgent "" network id
  | CGetRemoteNetworks => discard (getRemoteNetworks "" network)
  | CAddRemoteNetwork n l => addRemoteNetwork "" network n l
  | CDeleteRemoteNetwork id => deleteRemoteNetwork "" network id
  | CGetConnectors => discard (getConnectors "" network)
  | CGetAgents => discard (getAgents "" network)
  | CDeleteAgent id => deleteAgent "" network id
  | CGetSubjects => discard (getSubjects "" network)
  | CGetSubjectsByType t => discard (getSubjectsByType "" network t)
  | CGetGroups => discard (getGroups "" network)
  | CGetGroup id => discard (getGroup "" network id)
  | CUpdateGroup id n d => updateGroup "" network id n d
  | CDeleteGroup id => deleteGroup "" network id
  | CGetUsers => discard (getUsers "" network)
  | CAddUser n e s => addUser "" network n e s
  | CUpdateUser id n e s => updateUser "" network id n e s
  | CGetUser id => discard (getUser "" network id)
  | CDeactivateUser id => deactivateUser "" network id
  | CDeleteUser id => deleteUser "" network id
  | CCreateEnrollmentToken => discard (createEnrollmentToken "" network)
  | CGetServiceAccounts => discard (getServiceAccounts "" network)
  | CGetResource id => discard (getResource "" network id)
  | CGetResources => discard (getResources "" network)
  | CAddResource d => addResource "" network d
  | CUpdateResource id d => updateResource "" network id d
  | CSetFirewall id s => discard (setResourceFirewallStatus "" network id s)
  | CDeleteResource id => deleteResource "" network id
  | CDeleteConnector id => deleteConnector "" network id
  | CAddAgent n c r => addAgent "" network n c r
  | CAddConnector n r => addConnector "" network n r
  | CAddGroup n d => addGroup "" network n d
  | CAddGroupResources id ids => addGroupResources "" network id ids
  | CUpdateGroupMembers id ids => updateGroupMembers "" network id ids
  | CCreateAccessRule r n g e => discard (createAccessRule "" network r n g e)
  | CDeleteAccessRule id => deleteAccessRule "" network id
  | CIdentityCount id => discard (getAccessRuleIdentityCount "" network id)
  | CRemoveGroupMember g u => removeGroupMember "" network g u
  | CInviteUser e w => discard (inviteUser "" network e w)
  | CStartScan c t p => discard (startNetworkScan "" network c t p)
  | CGetScanStatus id => discard (getScanStatus "" network id)
  | CGetDiscoveryResults => discard (getDiscoveryResults "" network)
  | CGetDiagnostics => discard (getDiagnostics "" network)
  | CPing id => discard (pingConnector "" network id)
  | CTrace u r => discard (traceAccess "" network u r)
  end.
End Run.

(** The route a call is meant for and its parameters; adding an agent has none. *)
Definition intended (c : client_call) : option (route * list string) :=
  match c with
  | CGetRemoteNetwork id => Some (NetworksGet, [id])
  | CGetConnector id => Some (ConnectorsGet, [id])
  | CRevokeConnector id => Some (ConnectorsRevoke, [id])
  | CGrantConnector id => Some (ConnectorsGrant, [id])
  | CGetAgent id => Some (AgentsGet, [id])
  | CRevokeAgent id => Some (AgentsRevoke, [id])
  | CGrantAgent id => Some (AgentsGrant, [id])
  | CGetRemoteNetworks => Some (NetworksList, [])
  | CAddRemoteNetwork _ _ => Some (NetworksCreate, [])
  | CDeleteRemoteNetwork id => Some (NetworksDelete, [id])
  | CGetConnectors => Some (ConnectorsList, [])
  | CGetAgents => Some (AgentsList, [])
  | CDeleteAgent id => Some (AgentsDelete, [id])
  | CGetSubjects | CGetSubjectsByType _ => Some (SubjectsList, [])
  | CGetGroups => Some (GroupsList, [])
  | CGetGroup id => Some (GroupsGet, [id])
  | CUpdateGroup id _ _ => Some (GroupsUpdate, [id])
  | CDeleteGroup id => Some (GroupsDelete, [id])
  | CGetUsers => Some (UsersList, [])
  | CAddUser _ _ _ => Some (UsersCreate, [])
  | CUpdateUser id _ _ _ => Some (UsersUpdate, [id])
  | CGetUser id => Some (UsersGet, [id])
  | CDeactivateUser id => Some (UsersPatch, [id])
  | CDeleteUser id => Some (UsersDelete, [id])
  | CCreateEnrollmentToken => Some (TokensCreate, [])
  | CGetServiceAccounts => Some (ServiceAccountsList, [])
  | CGetResource id => Some (ResourcesGet, [id])
  | CGetResources => Some (ResourcesList, [])
  | CAddResource _ => Some (ResourcesCreate, [])
  | CUpdateResource id _ => Some (ResourcesUpdate, [id])
  | CSetFirewall id _ => Some (ResourcesPatch, [id])
  | CDeleteResource id => Some (ResourcesDelete, [id])
  | CDeleteConnector id => Some (ConnectorsDelete, [id])
  | CAddAgent _ _ _ => None
  | CAddConnector _ _ => Some (ConnectorsCreate, [])
  | CAddGroup _ _ => Some (GroupsCreate, [])
  | CAddGroupResources id _ => Some (GroupsAddResources, [id])
  | CUpdateGroupMembers id _ => Some (GroupsAddMembers, [id])
  | CCreateAccessRule _ _ _ _ => Some (AccessRulesCreate, [])
  | CDeleteAccessRule id => Some (AccessRulesDelete, [id])
  | CIdentityCount id => Some (AccessRulesCount, [id])
  | CRemoveGroupMember g u => Some (GroupsRemoveMember, [g; u])
  | CInviteUser _ _ => Some (UsersInvite, [])
  | CStartScan _ _ _ => Some (DiscoveryScan, [])
  | CGetScanStatus id => Some (DiscoveryStatus, [id])
  | CGetDiscoveryResults => Some (DiscoveryResults, [])
  | CGetDiagnostics => Some (DiagnosticsGet, [])
  | CPing id => Some (DiagnosticsPing, [id])
  | CTrace _ _ => Some (DiagnosticsTrace, [])
  end.

(** The functions that put an identifier into the path as it is. *)
Definition unencoded (c : client_call) : bool :=
  match c with
  | CGetRemoteNetwork _ | CGetConnector _ | CGetAgent _ | CDeleteAgent _ | CGetGroup _
  | CGetResource _ | CUpdateResource _ _ | CSetFirewall _ _ | CDeleteResource _
  | CDeleteConnector _ | CAddGroupResources _ _ | CUpdateGroupMembers _ _ | CDeleteAccessRule _
  | CIdentityCount _ | CRemoveGroupMember _ _ | CGetScanStatus _ => true
  | _ => false
  end.

(** Identifiers are not empty; where they are not encoded they need no encoding. *)
Definition ids_ok (c : client_call) : Prop :=
  match intended c with
  | Some (_, ids) => Forall (λ id, id ≠ "" ∧ (unencoded c = true → plain_id id = true)) ids
  | None => True
  end.

(** ** The requests of the calls *)

Lemma request_trace network path options cs : startsWith path "http" = false →
  (request "" network path options cs).1 =
    cs ++ [mkCall (default "GET" (init_method options)) path (init_body options)].
Proof.
  intros H. unfold request, mbind, M_bind, fetch_call. rewrite H. cbv zeta.
  destruct (network _ _) as [m|st t]; [done|]. by destruct (ok_status st).
Qed.

Lemma requestLocal_trace network path options cs :
  (requestLocal network path options cs).1 =
    cs ++ [mkCall (default "GET" (init_method options)) path (init_body options)].
Proof.
  unfold requestLocal, mbind, M_bind, fetch_call.
  destruct (network _ _) as [m|st t]; [done|]. by destruct (ok_status st).
Qed.

(** What follows the request does not call the network. *)
Lemma bind_trace {A B} (m : M calls A) (f : A → M calls B) cs :
  (∀ a cs', (f a cs').1 = cs') → ((m ≫= f) cs).1 = (m cs).1.
Proof. intros Hf. unfold mbind, M_bind. by destruct (m cs) as [cs' [a|e]]; cbn. Qed.

Lemma discard_trace m cs : (discard m cs).1 = (m cs).1.
Proof. by apply bind_trace. Qed.

(** The server resolves a path with one identifier in it... *)
Lemma hit_one meth pre id post r :
  (∀ c x, find_route table meth (pre ++ String c x :: post) = Some (r, [String c x])) →
  Forall clean pre → Forall clean post → last post ≠ Some "" → id ≠ "" →
  resolve meth (join_path (pre ++ encodeURIComponent id :: post)) = Handled r [id].
Proof.
  intros Hf Hpre Hpost Hlast Hid. pose proof (encode_nonempty id Hid) as Hne.
  assert (clean (encodeURIComponent id)) as Hc.
  { split; intros Hin%encode_safe; tauto. }
  rewrite <- (of_to_list (join_path _)), <- (app_nil_r (to_list (join_path _))).
  rewrite of_list_app, of_to_list. change (of_list []) with "".
  assert (last (pre ++ encodeURIComponent id :: post) ≠ Some "") as Hl.
  { rewrite last_app. destruct post as [|p post]; cbn; [congruence|].
    change (last (encodeURIComponent id :: p :: post)) with (last (p :: post)).
    destruct (last (p :: post)) eqn:E; [congruence|by apply last_None in E]. }
  destruct (encodeURIComponent id) as [|c x] eqn:E; [done|].
  eapply resolve_path; [|by apply Forall_app_2; [|constructor]|exact Hl|by left|apply Hf|].
  - by destruct pre.
  - assert (decodeURIComponent (String c x) = Some id) as Hd
      by (rewrite <- E; apply decode_encode_component).
    cbn -[decodeURIComponent]. by rewrite Hd.
Qed.

(** ... also when it is put there unencoded but needs no encoding. *)
Lemma hit meth pre x id post r :
  x = encodeURIComponent id →
  (∀ c x, find_route table meth (pre ++ String c x :: post) = Some (r, [String c x])) →
  Forall clean pre → Forall clean post → last post ≠ Some "" → id ≠ "" →
  resolve meth (join_path (pre ++ x :: post)) = Handled r [id].
Proof. intros ->. apply hit_one. Qed.

Lemma plain_clean id : plain_id id = true → clean id.
Proof. intros Hp. split; rewrite <- (encode_plain id Hp); intros Hin%encode_safe; tauto. Qed.

Lemma hit_member group user : group ≠ "" → plain_id group = true → user ≠ "" → plain_id user = true →
  resolve "DELETE" (join_path ["api"; "groups"; group; "members"; user]) =
    Handled GroupsRemoveMember [group; user].
Proof.
  intros Hg Hgp Hu Hup.
  rewrite <- (of_to_list (join_path _)), <- (app_nil_r (to_list (join_path _))).
  rewrite of_list_app, of_to_list. change (of_list []) with "".
  eapply resolve_path; [done| |cbn; congruence|by left| |].
  - repeat (apply Forall_cons; split; [first [by apply plain_clean
      |split; apply (bool_decide_unpack (_ ∉ _)); vm_compute; exact I]|]). by apply Forall_nil.
  - by destruct group as [|c x], user as [|c' x'].
  - cbn -[decodeURIComponent]. rewrite <- (encode_plain group Hgp), <- (encode_plain user Hup).
    rewrite !decode_encode_component. by rewrite !encode_plain.
Qed.

Lemma hit_query meth segs q r : find_route table meth segs = Some (r, []) → segs ≠ [] →
  Forall clean segs → last segs ≠ Some "" →
  resolve meth (join_path segs +:+ String "?" q) = Handled r [].
Proof.
  intros Hf Hne Hc Hl. eapply resolve_path; try done. right. by eexists.
Qed.

Ltac closed_clean :=
  repeat (apply Forall_cons; split;
    [split; apply (bool_decide_unpack (_ ∉ _)); vm_compute; exact I|]);
  apply Forall_nil; exact I.

(** The literal segments before and after the parameter of a route. *)
Fixpoint around (p : list segment) : list string * list string :=
  match p with
  | [] => ([], [])
  | Lit s :: p' => let '(pre, post) := around p' in (s :: pre, post)
  | Param :: p' => ([], omap (λ g, match g with Lit s => Some s | Param => None end) p')
  end.

Definition pattern_of (r : route) : option (string * (list string * list string)) :=
  (λ e : string * list segment * route, (e.1.1, around e.1.2)) <$>
    find_row (λ e : string * list segment * route, bool_decide (e.2 = r)) table.

Create HintDb client.
#[export] Hint Unfold revokeConnector grantConnector revokeAgent grantAgent addRemoteNetwork
  deleteRemoteNetwork deleteAgent updateGroup deleteGroup addUser updateUser deactivateUser
  deleteUser addResource updateResource deleteResource deleteConnector addAgent addConnector
  addGroup addGroupResources updateGroupMembers deleteAccessRule removeGroupMember
  getAccessRuleIdentityCount createEnrollmentToken : client.

(** One request; then the route, by its pattern, or by evaluation without identifier. *)
Ltac one_request :=
  eexists; split;
  [autounfold with client; rewrite ?discard_trace, ?bind_trace by done;
   first [by apply request_trace|by apply requestLocal_trace]|cbn [call_method call_url]].
Ltac one_route :=
  match goal with
  | |- resolve _ _ = Handled ?r [?id] =>
      let p := eval vm_compute in (pattern_of r) in
      match p with
      | Some (?meth, (?pre, ?post)) =>
          refine (hit meth pre _ id post r _ _ _ _ _ _);
          [first [reflexivity|symmetry; apply encode_plain; auto]
          |intros ? ?; vm_compute; reflexivity|closed_clean|closed_clean
          |vm_compute; discriminate|auto]
      end
  | |- _ => vm_compute; reflexivity
  end.

(** C7: the client and the server agree.  Every function of the client makes exactly
    one request, which the server resolves to the route meant for it with the same
    identifiers: any non-empty identifier where the client encodes it, and one that
    needs no encoding where it does not.  The one exception is [addAgent]: no route
    accepts it, so that it is always refused with 404. *)
Theorem client_server_agree : ∀ network (c : client_call) (cs : calls),
  ids_ok c →
  ∃ q, (run_call network c cs).1 = cs ++ [q] ∧
  resolve (call_method q) (call_url q) =
    match intended c with Some (r, ids) => Handled r ids | None => NotFound end.
Proof.
  intros network c cs Hids. unfold ids_ok in Hids.
  destruct c; cbn [run_call intended unencoded] in *;
    try (apply Forall_singleton in Hids as [Hne Hp]);
    try (one_request; one_route).
  - unfold getSubjectsByType. destruct type as [t|]; [|one_request; one_route].
    destruct (bool_decide (t = "")); [one_request; one_route|]. one_request.
    apply (hit_query "GET" ["api"; "subjects"]);
      [vm_compute; reflexivity|done|closed_clean|vm_compute; discriminate].
  - apply Forall_cons in Hids as [[Hg Hgp] Hids]. apply Forall_singleton in Hids as [Hu Hup].
    one_request. by apply hit_member; auto.
Qed.

Lemma client_server_agree_witness : ∃ q,
  (run_call (λ _ _, Reply 200 "{}") (CGrantConnector "c/1") []).1 = [q] ∧
  resolve (call_method q) (call_url q) = Handled ConnectorsGrant ["c/1"].
Proof.
  apply (client_server_agree (λ _ _, Reply 200 "{}") (CGrantConnector "c/1") []).
  constructor; [|constructor]. split; [discriminate|intros H; discriminate H].
Defined.


(** The identifiers the server has decoded go into the path of the controller as they
    are: granting the connector "c1/revoke?" sends the controller a request whose path
    revokes c1, with a query. *)
Theorem decoded_identifier : ∀ env backend msg users_first arrival parse_query auth b tr,
  let r := request_of env (getAdminAuthToken env) "/api/connectors/c1/revoke?/grant"
             (with_method "POST") in
  (dispatch env backend msg users_first arrival parse_query "POST"
     ("/api/connectors/" +:+ encodeURIComponent "c1/revoke?" +:+ "/grant") auth b tr).1 = tr ++ [r].
Proof.
  intros env backend msg uf arrival pq auth b tr r. unfold dispatch.
  assert (resolve "POST" ("/api/connectors/" +:+ encodeURIComponent "c1/revoke?" +:+ "/grant") =
    Handled ConnectorsGrant ["c1/revoke?"]) as -> by (vm_compute; reflexivity).
  cbn [handler_of]. unfold connectors_grant. unfold mbind, M_bind.
  rewrite forward_run. reflexivity.
Qed.
