(* ===== verification/Discovery.v ===== *)
(** * Network discovery ([src/pages/resources/NetworkDiscoveryPage.tsx])

    The page starts a scan, polls its status every two seconds and adds discovered
    resources.  Requests are asynchronous, so the page is a state machine: the steps are
    the user's actions, the ticks of the interval and the replies, in any order. *)
From S2P Require Import Prelude JsString Json Types Client.
From stdpp Require Import relations.
From Stdlib Require Import Ascii ZArith Lia.

(** ** The fields of the form *)

(** [parseInt(s, 10)]: white space, a sign, the leading digits; [None] for NaN. *)
Definition parseInt (s : string) : option Z :=
  let digits sgn l := match read_digits 0 0 l with
                      | (_, O, _) => None
                      | (m, _, _) => Some (sgn * m)%Z
                      end in
  match drop_space (to_list s) with
  | "-"%char :: l => digits (-1)%Z l
  | "+"%char :: l => digits 1%Z l
  | l => digits 1%Z l
  end.

Definition comma : ascii := ","%char.

(** [targets]: the trimmed pieces that are not empty. *)
Definition targets_of (cidrInput : string) : list string :=
  filter (λ t, t ≠ "") (trim <$> JsString.split comma cidrInput).

Definition valid_port (n : Z) : bool := ((0 <? n) && (n <=? 65535))%Z.

(** [ports]: the numbers among the pieces that are ports. *)
Definition ports_of (portsInput : string) : list Z :=
  filter (λ n, valid_port n = true) (omap parseInt (trim <$> JsString.split comma portsInput)).

(** ** The page *)

(** A request to start a scan, with what its continuation has captured. *)
Record scan := mkScan {
  scan_connector : string; scan_targets : list string; scan_ports : list Z }.

Record DiscoveredResource := mkDiscovered {
  d_id : string; ip : string; port : jsnum; d_protocol : string; serviceName : string;
  reachableFrom : string; firstSeen : jsnum }.

Record state := mkState {
  connectors : list Connector;
  selectedConnector : string;
  cidrInput : string;
  portsInput : string;
  scanning : bool;
  scanJob : option jsv;
  error : option string;
  addedResources : list string;
  pollRef : option nat;
  mounted : bool;
  (* the world of the page: live intervals with the scan they poll, the number of the
     next one, and the requests in flight *)
  intervals : list (nat * jsv);
  next_interval : nat;
  starting : list scan;
  polls : list jsv;
  adding : list (DiscoveredResource * resource_data) }.

Definition initial : state :=
  mkState [] "" "" "22,80,443,3389,8080" false None None [] None true [] 0 [] [] [].

Definition edit (selected cidr ports : string) (s : state) : state :=
  mkState (connectors s) selected cidr ports (scanning s) (scanJob s) (error s)
    (addedResources s) (pollRef s) (mounted s) (intervals s) (next_interval s) (starting s)
    (polls s) (adding s).
Definition set_connectors (l : list Connector) (s : state) : state :=
  mkState l (selectedConnector s) (cidrInput s) (portsInput s) (scanning s) (scanJob s) (error s)
    (addedResources s) (pollRef s) (mounted s) (intervals s) (next_interval s) (starting s)
    (polls s) (adding s).
Definition set_shown (sc : bool) (job : option jsv) (err : option string) (added : list string)
  (s : state) : state :=
  mkState (connectors s) (selectedConnector s) (cidrInput s) (portsInput s) sc job err
    added (pollRef s) (mounted s) (intervals s) (next_interval s) (starting s)
    (polls s) (adding s).
Definition set_intervals (ref : option nat) (l : list (nat * jsv)) (n : nat) (s : state) : state :=
  mkState (connectors s) (selectedConnector s) (cidrInput s) (portsInput s) (scanning s)
    (scanJob s) (error s) (addedResources s) ref (mounted s) l n (starting s) (polls s) (adding s).
Definition set_flights (st : list scan) (ps : list jsv) (ad : list (DiscoveredResource * resource_data))
  (s : state) : state :=
  mkState (connectors s) (selectedConnector s) (cidrInput s) (portsInput s) (scanning s)
    (scanJob s) (error s) (addedResources s) (pollRef s) (mounted s) (intervals s)
    (next_interval s) st ps ad.
Definition set_mounted (b : bool) (s : state) : state :=
  mkState (connectors s) (selectedConnector s) (cidrInput s) (portsInput s) (scanning s)
    (scanJob s) (error s) (addedResources s) (pollRef s) b (intervals s) (next_interval s)
    (starting s) (polls s) (adding s).

Definition setScanning (b : bool) : M state unit :=
  modify (λ s, set_shown b (scanJob s) (error s) (addedResources s) s).
Definition setScanJob (j : option jsv) : M state unit :=
  modify (λ s, set_shown (scanning s) j (error s) (addedResources s) s).
Definition setError (e : option string) : M state unit :=
  modify (λ s, set_shown (scanning s) (scanJob s) e (addedResources s) s).
Definition setAddedResources (f : list string → list string) : M state unit :=
  modify (λ s, set_shown (scanning s) (scanJob s) (error s) (f (addedResources s)) s).

Definition start_request (r : scan) : M state unit :=
  modify (λ s, set_flights (starting s ++ [r]) (polls s) (adding s) s).

(** [setInterval] and [clearInterval(pollRef.current)]. *)
Definition start_interval (requestId : jsv) : M state unit :=
  modify (λ s, set_intervals (Some (next_interval s))
                 (intervals s ++ [(next_interval s, requestId)]) (S (next_interval s)) s).
Definition clear_interval (i : nat) (s : state) : list (nat * jsv) :=
  filter (λ t, t.1 ≠ i) (intervals s).

(** The effect: the online connectors are offered. *)
Definition load_connectors (list : list Connector) : M state unit :=
  modify (set_connectors (filter (λ c, Connector_status c = "online") list)).

(** The clean-up of the effect. *)
Definition unmount : M state unit :=
  modify (λ s, set_mounted false
    (match pollRef s with
     | Some i => set_intervals (Some i) (clear_interval i s) (next_interval s) s
     | None => s
     end)).

(** [handleStartScan] up to its [await]. *)
Definition handleStartScan : M state unit :=
  setError None ;;
  setScanJob None ;;
  setAddedResources (λ _, []) ;;
  s ← get;
  if bool_decide (selectedConnector s = "") then setError (Some "Please select a connector")
  else if bool_decide (trim (cidrInput s) = "") then
    setError (Some "Please enter at least one CIDR range")
  else
    let targets := targets_of (cidrInput s) in
    let ports := ports_of (portsInput s) in
    if bool_decide (ports = []) then setError (Some "Please enter at least one valid port")
    else setScanning true ;; start_request (mkScan (selectedConnector s) targets ports).

(** The job shown until the first status arrives. *)
Definition pending_job (requestId : jsv) (r : scan) (startedAt : string) : jsv :=
  JObj [("requestId", requestId); ("connectorId", JStr (scan_connector r));
        ("status", JStr "pending"); ("targets", strs (scan_targets r));
        ("ports", JArr ((λ p, JNum (Dec p 0)) <$> scan_ports r));
        ("startedAt", JStr startedAt)].

Section Replies.
  (** The messages of exceptions other than [Error]s are those of the engine. *)
  Variable engine_message : js_error → string.

Definition message_of (e : js_error) : string :=
  match e with JsError m => m | e => engine_message e end.

Definition start_failed (e : js_error) : M state unit :=
  setError (Some (message_of e)) ;; setScanning false.

(** [handleStartScan] after its [await], [rep] being what the client gave or threw. *)
Definition start_reply (r : scan) (startedAt : string) (rep : outcome jsv) : M state unit :=
  match rep with
  | Throw e => start_failed e
  | Ok result =>
      match field result "request_id" with
      | Throw e => start_failed e
      | Ok requestId =>
          setScanJob (Some (pending_job requestId r startedAt)) ;; start_interval requestId
      end
  end.

(** The interval asks for the status. *)
Definition tick (requestId : jsv) : M state unit :=
  modify (λ s, set_flights (starting s) (polls s ++ [requestId]) (adding s) s).

(** [status.status === 'completed' || status.status === 'failed'] *)
Definition finished (status : jsv) : bool :=
  is_str (opt_field status "status") "completed" || is_str (opt_field status "status") "failed".

(** The rest of the interval's callback; whatever is thrown is caught and ignored. *)
Definition poll_reply (rep : outcome jsv) : M state unit :=
  match rep with
  | Throw _ => mret tt
  | Ok status =>
      setScanJob (Some status) ;;
      if is_nullish status then mret tt
      else if finished status then
        modify (λ s, match pollRef s with
                     | Some i => set_intervals None (clear_interval i s) (next_interval s) s
                     | None => s
                     end) ;;
        setScanning false
      else mret tt
  end.

(** [handleAddResource] up to its [await]. *)
Definition handleAddResource (resource : DiscoveredResource) : M state unit :=
  s ← get;
  let connectorId := or_else (reachableFrom resource) (selectedConnector s) in
  let connector := find_row (λ c, bool_decide (Connector_id c = connectorId)) (connectors s) in
  let networkId := default "" (Connector_remoteNetworkId <$> connector) in
  if bool_decide (networkId = "") then
    setError (Some "No remote network found for this connector. Assign the connector to a remote network first.")
  else
    let service := if bool_decide (serviceName resource ≠ "" ∧ serviceName resource ≠ "Unknown")
                   then serviceName resource +:+ "@" else "" in
    let data := mkResourceData networkId
      (service +:+ ip resource +:+ ":" +:+ string_of_num (port resource)) "STANDARD"
      (ip resource) "TCP" (JNum (port resource)) (JNum (port resource)) None in
    modify (λ s, set_flights (starting s) (polls s) (adding s ++ [(resource, data)]) s).

(** [new Set([...prev, id])] *)
Definition add_once (id : string) (l : list string) : list string :=
  if bool_decide (id ∈ l) then l else l ++ [id].

Definition add_reply (resource : DiscoveredResource) (rep : outcome unit) : M state unit :=
  match rep with
  | Ok _ => setAddedResources (add_once (d_id resource))
  | Throw e => setError (Some ("Failed to add resource: " +:+ message_of e))
  end.

(** The button that adds a resource is enabled. *)
Definition can_add (resource : DiscoveredResource) (s : state) : bool :=
  negb (bool_decide (d_id resource ∈ addedResources s)).

(** ** Steps

    The start button is disabled while a scan runs; [quiet] is what holds, besides, when
    the user presses it. *)
Inductive step (quiet : state → Prop) : state → state → Prop :=
  | step_edit sel cidr ports s : step quiet s (edit sel cidr ports s)
  | step_load l s : step quiet s (state_of (load_connectors l) s)
  | step_start s : mounted s = true → scanning s = false → quiet s →
      step quiet s (state_of handleStartScan s)
  | step_started s l1 r l2 now rep : starting s = l1 ++ r :: l2 →
      step quiet s (state_of (start_reply r now rep)
                      (set_flights (l1 ++ l2) (polls s) (adding s) s))
  | step_tick s i id : (i, id) ∈ intervals s → step quiet s (state_of (tick id) s)
  | step_polled s l1 id l2 rep : polls s = l1 ++ id :: l2 →
      step quiet s (state_of (poll_reply rep)
                      (set_flights (starting s) (l1 ++ l2) (adding s) s))
  | step_add s resource : can_add resource s = true →
      step quiet s (state_of (handleAddResource resource) s)
  | step_added s l1 resource data l2 rep : adding s = l1 ++ (resource, data) :: l2 →
      step quiet s (state_of (add_reply resource rep)
                      (set_flights (starting s) (polls s) (l1 ++ l2) s))
  | step_unmount s : step quiet s (state_of unmount s).

Definition reachable (quiet : state → Prop) : state → Prop := rtc (step quiet) initial.
End Replies.

(** ** Lemmas *)

Lemma elem_of_ports_of p input : p ∈ ports_of input ↔
  (∃ w, w ∈ JsString.split comma input ∧ parseInt (trim w) = Some p) ∧ (1 <= p <= 65535)%Z.
Proof.
  unfold ports_of. rewrite list_elem_of_filter, list_elem_of_omap.
  unfold valid_port. rewrite andb_true_iff, Z.ltb_lt, Z.leb_le. split.
  - intros [Hp (x & Hx & E)]. apply list_elem_of_fmap in Hx as (w & -> & Hw).
    split; [by exists w|lia].
  - intros [(w & Hw & E) Hp]. split; [lia|]. exists (trim w). split; [|done].
    by apply list_elem_of_fmap_2.
Qed.

Lemma elem_of_targets_of t input : t ∈ targets_of input ↔
  t ≠ "" ∧ ∃ w, w ∈ JsString.split comma input ∧ t = trim w.
Proof.
  unfold targets_of. rewrite list_elem_of_filter, list_elem_of_fmap. naive_solver.
Qed.

(** C25: starting a scan first clears what the last one showed.  Then either it sends
    nothing and shows why (no connector chosen, a blank field of ranges, or no number
    from 1 to 65535 among the ports), or it sends one request, for the chosen connector,
    with exactly the pieces of the ports field that are such numbers, at least one, and
    the pieces of the ranges field that are not blank.  Of these there may be none: only
    the field as a whole is checked, so that a lone comma starts a scan of nothing. *)
Theorem scan_request : ∀ s : state,
  let s' := state_of handleStartScan s in
  scanJob s' = None ∧ addedResources s' = [] ∧ intervals s' = intervals s ∧
  ((is_Some (error s') ∧ starting s' = starting s ∧ scanning s' = scanning s ∧
    (selectedConnector s = "" ∨ trim (cidrInput s) = "" ∨
     ∀ w p, w ∈ JsString.split comma (portsInput s) → parseInt (trim w) = Some p →
       ¬ (1 <= p <= 65535)%Z)) ∨
   (∃ r, error s' = None ∧ starting s' = starting s ++ [r] ∧ scanning s' = true ∧
      scan_connector r = selectedConnector s ∧ selectedConnector s ≠ "" ∧ scan_ports r ≠ [] ∧
      (∀ p, p ∈ scan_ports r ↔
         (∃ w, w ∈ JsString.split comma (portsInput s) ∧ parseInt (trim w) = Some p) ∧
         (1 <= p <= 65535)%Z) ∧
      (∀ t, t ∈ scan_targets r ↔ t ≠ "" ∧ ∃ w, w ∈ JsString.split comma (cidrInput s) ∧ t = trim w) ∧
      (cidrInput s = "," → scan_targets r = []))).
Proof.
  intros s s'. unfold s', state_of, handleStartScan.
  unfold mbind, M_bind, setError, setScanJob, setAddedResources, setScanning, start_request,
    modify, get.
  cbn -[targets_of ports_of trim JsString.split]. split_and!; try (repeat case_bool_decide; done).
  case_bool_decide as Hc; [left; by eauto 10|].
  case_bool_decide as Ht; [left; by eauto 10|].
  case_bool_decide as Hp.
  - left. split_and!; [by eexists|done|done|]. right; right. intros w p Hw E Hin.
    assert (p ∈ ports_of (portsInput s)) as Hin' by (apply elem_of_ports_of; eauto).
    rewrite Hp in Hin'. by apply not_elem_of_nil in Hin'.
  - right. eexists. cbn -[targets_of ports_of trim JsString.split].
    split_and!; [done|done|done|done|done|done| | |].
    + intros p. apply elem_of_ports_of.
    + intros t. apply elem_of_targets_of.
    + by intros ->.
Qed.

(** The phases of a scan: nothing runs; the request to start it is in flight; or its
    interval is live and [pollRef] names it. *)
Inductive phase := Idle | Starting (r : scan) | Polling (i : nat) (requestId : jsv).

Definition in_phase (ph : phase) (s : state) : Prop :=
  match ph with
  | Idle => scanning s = false ∧ starting s = [] ∧ intervals s = [] ∧ pollRef s = None
  | Starting r =>
      scanning s = true ∧ starting s = [r] ∧ intervals s = [] ∧ pollRef s = None ∧ polls s = []
  | Polling i requestId =>
      scanning s = true ∧ starting s = [] ∧ intervals s = [(i, requestId)] ∧ pollRef s = Some i
  end.

Definition phased (s : state) : Prop := ∃ ph, in_phase ph s.

(** No status request is in flight. *)
Definition no_polls (s : state) : Prop := polls s = [].

(** Phases look at the scan only. *)
Lemma phased_same s s' : scanning s' = scanning s → starting s' = starting s →
  intervals s' = intervals s → pollRef s' = pollRef s → polls s' = polls s →
  phased s → phased s'.
Proof.
  intros E1 E2 E3 E4 E5 [ph H]. exists ph. unfold in_phase in *.
  by rewrite E1, E2, E3, E4, E5.
Qed.

Lemma start_keeps s : phased s → scanning s = false → no_polls s →
  phased (state_of handleStartScan s).
Proof.
  intros Hph Hsc Hq.
  assert (∀ e, phased (set_shown (scanning s) None e [] s)) as Herr
    by (intros e; by apply (phased_same s)).
  unfold state_of, handleStartScan, mbind, M_bind, setError, setScanJob, setAddedResources,
    setScanning, start_request, modify, get. cbn -[targets_of ports_of trim].
  repeat case_bool_decide; try apply Herr.
  destruct Hph as [[|r|i q] Hp]; try (destruct Hp as [Hp _]; by rewrite Hsc in Hp).
  destruct Hp as (_ & E & Ei & Er). eexists (Starting _).
  unfold in_phase. cbn -[targets_of ports_of]. rewrite E. by split_and!.
Qed.

Lemma started_keeps msg s l1 r l2 now rep : phased s → starting s = l1 ++ r :: l2 →
  phased (state_of (start_reply msg r now rep) (set_flights (l1 ++ l2) (polls s) (adding s) s)).
Proof.
  intros [[|r'|i q] H] E.
  - destruct H as (_ & H & _). rewrite H in E. by destruct l1.
  - destruct H as (Hsc & H & Ein & Er & Hp). rewrite H in E.
    destruct l1 as [|? [|]]; [|done|done]. injection E as <- <-.
    unfold start_reply, start_failed.
    destruct rep as [v|e]; [destruct (field v "request_id") as [q|e]|].
    + exists (Polling (next_interval s) q). unfold in_phase, state_of, mbind, M_bind.
      cbn. by rewrite Ein.
    + by exists Idle.
    + by exists Idle.
  - destruct H as (_ & H & _). rewrite H in E. by destruct l1.
Qed.

Lemma polled_keeps s l1 id l2 rep : phased s → polls s = l1 ++ id :: l2 →
  phased (state_of (poll_reply rep) (set_flights (starting s) (l1 ++ l2) (adding s) s)).
Proof.
  intros [[|r|i q] H] E.
  2:{ destruct H as (_ & _ & _ & _ & H). rewrite H in E. by destruct l1. }
  - destruct H as (Hsc & Hst & Hin & Href). exists Idle.
    unfold poll_reply. destruct rep as [v|e]; [|done]. unfold state_of, mbind, M_bind. cbn.
    destruct (is_nullish v); [done|]. destruct (finished v); [|done]. cbn. by rewrite Href.
  - destruct H as (Hsc & Hst & Hin & Href).
    unfold poll_reply. destruct rep as [v|e]; [|by exists (Polling i q)].
    unfold state_of, mbind, M_bind. cbn.
    destruct (is_nullish v); [by exists (Polling i q)|].
    destruct (finished v); [|by exists (Polling i q)]. exists Idle. cbn. rewrite Href.
    cbn. unfold clear_interval. cbn. rewrite Hin. by rewrite filter_cons_False by (cbn; auto).
Qed.

Lemma reachable_phased msg s : reachable msg no_polls s → mounted s = true → phased s.
Proof.
  revert s. apply (rtc_ind_r (λ s, mounted s = true → phased s)); [by exists Idle|].
  intros s s' _ Hs IH. destruct Hs; intros Hm.
  - by apply (phased_same s); [..|apply IH].
  - by apply (phased_same s); [..|apply IH].
  - by apply start_keeps; [apply IH| |].
  - apply started_keeps; [apply IH|done].
    revert Hm. unfold start_reply, start_failed. destruct rep as [v|]; [destruct (field v _)|]; done.
  - destruct IH as [[|r|j q] H']; [done|..].
    + destruct H' as (_ & _ & H' & _). rewrite H' in H. by apply not_elem_of_nil in H.
    + destruct H' as (_ & _ & H' & _). rewrite H' in H. by apply not_elem_of_nil in H.
    + by exists (Polling j q).
  - apply polled_keeps with id; [apply IH|done].
    revert Hm. unfold poll_reply. destruct rep as [v|]; [|done]. unfold state_of, mbind, M_bind. cbn.
    destruct (is_nullish v); [done|]. destruct (finished v); [|done]. cbn.
    by destruct (pollRef s).
  - apply (phased_same s); [..|apply IH]; revert Hm; unfold handleAddResource, state_of, mbind, M_bind, get;
      cbn -[find_row]; by case_bool_decide.
  - apply (phased_same s); [..|apply IH]; revert Hm; by destruct rep.
  - revert Hm. unfold unmount, state_of. cbn. done.
Qed.

(** A late reply: two status requests of the first scan are in flight when the first of
    them reports its end; the second is answered during the next scan. *)
Definition completed (requestId : string) : jsv :=
  JObj [("requestId", JStr requestId); ("status", JStr "completed")].

Definition answer (requestId : string) : outcome jsv := Ok (JObj [("request_id", JStr requestId)]).

Definition started (requestId : string) (s : state) : state :=
  state_of (start_reply (λ _, "") (mkScan "c1" ["10.0.0.0/24"] [22%Z]) "" (answer requestId))
    (set_flights [] (polls s) (adding s) s).

Definition polled (status : jsv) (rest : list jsv) (s : state) : state :=
  state_of (poll_reply (Ok status)) (set_flights (starting s) rest (adding s) s).

(** The states of the run, evaluated. *)
Definition at_form : state := Eval vm_compute in edit "c1" "10.0.0.0/24" "22" initial.
Definition at_start : state := Eval vm_compute in state_of handleStartScan at_form.
Definition at_scan : state := Eval vm_compute in started "r1" at_start.
Definition at_tick : state := Eval vm_compute in state_of (tick (JStr "r1")) at_scan.
Definition at_ticks : state := Eval vm_compute in state_of (tick (JStr "r1")) at_tick.
Definition at_end : state := Eval vm_compute in polled (completed "r1") [JStr "r1"] at_ticks.
Definition at_restart : state := Eval vm_compute in state_of handleStartScan at_end.
Definition second_scan : state := Eval vm_compute in started "r2" at_restart.

(** One step to the next state of the run. *)
Ltac run_step t next :=
  eapply rtc_l with next;
    [match goal with |- step _ _ ?s _ => refine (eq_rect _ (step _ _ s) t _ _) end;
     vm_compute; reflexivity|].

Lemma second_scan_reachable msg : reachable msg (λ _, True) second_scan.
Proof.
  unfold reachable.
  set (r := mkScan "c1" ["10.0.0.0/24"] [22%Z]).
  run_step (step_edit msg (λ _, True) "c1" "10.0.0.0/24" "22" initial) at_form.
  run_step (step_start msg (λ _, True) at_form eq_refl eq_refl I) at_start.
  run_step (step_started msg (λ _, True) at_start [] r [] "" (answer "r1") eq_refl) at_scan.
  run_step (step_tick msg (λ _, True) at_scan 0 (JStr "r1") (list_elem_of_here _ _)) at_tick.
  run_step (step_tick msg (λ _, True) at_tick 0 (JStr "r1") (list_elem_of_here _ _)) at_ticks.
  run_step (step_polled msg (λ _, True) at_ticks [] (JStr "r1") [JStr "r1"]
    (Ok (completed "r1")) eq_refl) at_end.
  run_step (step_start msg (λ _, True) at_end eq_refl eq_refl I) at_restart.
  run_step (step_started msg (λ _, True) at_restart [] r [] "" (answer "r2") eq_refl) second_scan.
  reflexivity.
Qed.

(** C26: the life of a scan.  When a scan is only started while no status request is in
    flight, the mounted page is always in one of three phases: nothing runs and the
    button is enabled; one start request is in flight; or one interval polls, and the
    clean-up knows it.  A reply that says the scan has ended, and no other, ends the
    polling.  But nothing ties a reply to its scan: a late reply about an earlier scan
    ends the polling of the current one and shows the old result in its place. *)
Theorem scan_phases : ∀ msg : js_error → string,
  (∀ s, reachable msg no_polls s → mounted s = true → phased s) ∧
  (∀ s i q v, in_phase (Polling i q) s → is_nullish v = false →
     scanJob (state_of (poll_reply (Ok v)) s) = Some v ∧
     in_phase (if finished v then Idle else Polling i q) (state_of (poll_reply (Ok v)) s)) ∧
  (∃ s s', reachable msg (λ _, True) s ∧ mounted s = true ∧ in_phase (Polling 1 (JStr "r2")) s ∧
     step msg (λ _, True) s s' ∧ in_phase Idle s' ∧ scanJob s' = Some (completed "r1")).
Proof.
  intros msg. split_and!.
  - apply reachable_phased.
  - intros s i q v (Hsc & Hst & Hin & Href) Hv.
    unfold poll_reply, state_of, mbind, M_bind. cbn. rewrite Hv.
    destruct (finished v); [|done]. cbn. rewrite Href. cbn. unfold clear_interval. cbn.
    rewrite Hin. by rewrite filter_cons_False by (cbn; auto).
  - exists second_scan, (polled (completed "r1") [] second_scan). split_and!.
    + apply second_scan_reachable.
    + vm_compute. reflexivity.
    + vm_compute. by split_and!.
    + apply (step_polled msg _ _ [] (JStr "r1") []). vm_compute. reflexivity.
    + vm_compute. by split_and!.
    + vm_compute. reflexivity.
Qed.
