(* ===== verification/Ui.v ===== *)
(** * What a component shows

    A component renders a tree.  Of the tree the model keeps what a user can read, follow
    or operate: texts, links and controls, the latter with the event they fire and whether
    they are disabled.  Layout, icons and class names are left out. *)
From S2P Require Import Prelude JsString.
From Stdlib Require Import Ascii ZArith.

Inductive ui (E : Type) :=
  | Text (s : string)
  | Button (label : string) (disabled : bool) (onClick : E)
  | Ask (label : string) (disabled : bool) (answered : bool → E)  (* asks window.confirm first *)
  | Input (name value : string) (disabled : bool) (onChange : string → E)
  | Select (name value : string) (disabled : bool) (options : list (string * string))
      (onValueChange : string → E)
  | Checkbox (name : string) (checked : bool) (onCheckedChange : bool → E)
  | Child (callbacks : E → Prop)  (* another component, and how it may call its props *)
  | Link (to : string) (body : list (ui E))
  | Box (body : list (ui E)).
Arguments Text {_} _.
Arguments Button {_} _ _ _.
Arguments Ask {_} _ _ _.
Arguments Input {_} _ _ _ _.
Arguments Select {_} _ _ _ _ _.
Arguments Checkbox {_} _ _ _.
Arguments Child {_} _.
Arguments Link {_} _ _.
Arguments Box {_} _.

(** Nothing, for [null] and [cond && ...]. *)
Definition Nothing {E} : ui E := Box [].
Definition show_if {E} (b : bool) (u : ui E) : ui E := if b then u else Nothing.

(** A dialog shows its body while it is open; besides its buttons it can be dismissed
    (Escape, the overlay, the cross), which calls [onOpenChange(false)]. *)
Definition Dialog {E} (open : bool) (dismiss : E) (body : list (ui E)) : ui E :=
  show_if open (Box (Button "Close" false dismiss :: body)).

(** [toast.success(m)] and [toast.error(m)] of the library sonner. *)
Inductive toast_message := toast_success (m : string) | toast_error (m : string).

(** A text in double quotes. *)
Definition quoted (s : string) : string :=
  let q := of_list [Ascii.ascii_of_N 34] in q +:+ s +:+ q.

(** The end of a line of a shell command that goes on in the next, and the indentation. *)
Definition continued : string := of_list (Ascii.ascii_of_N <$> [32; 92; 10; 32; 32]%N).

(** [formatDate] of the lists; [dates v] is [new Date(v).toLocaleString()], if the date is
    valid. *)
Definition formatDate (dates : string → option string) (value : option string) : string :=
  match value with
  | None => "-"
  | Some v => if bool_decide (v = "") then "-" else default v (dates v)
  end.

(** [new Date(v).toLocaleString()] without a check. *)
Definition toLocaleString (dates : string → option string) (v : string) : string :=
  default "Invalid Date" (dates v).

Section Tree.
  Context {E : Type}.

(** The events a user can fire. *)
Fixpoint offered (u : ui E) (e : E) : Prop :=
  match u with
  | Text _ => False
  | Button _ d on => d = false ∧ e = on
  | Ask _ d on => d = false ∧ ∃ b, e = on b
  | Input _ _ d on => d = false ∧ ∃ v, e = on v
  | Select _ _ d opts on => d = false ∧ ∃ o, o ∈ opts ∧ e = on o.1
  | Checkbox _ c on => e = on (negb c)
  | Child P => P e
  | Link _ us | Box us => foldr (λ u P, offered u e ∨ P) False us
  end.

(** The targets of the links. *)
Fixpoint links (u : ui E) : list string :=
  match u with
  | Link to us => to :: foldr (λ u l, links u ++ l) [] us
  | Box us => foldr (λ u l, links u ++ l) [] us
  | _ => []
  end.

(** The texts, labels included. *)
Fixpoint texts (u : ui E) : list string :=
  match u with
  | Text s => [s]
  | Button s _ _ | Ask s _ _ => [s]
  | Link _ us | Box us => foldr (λ u l, texts u ++ l) [] us
  | _ => []
  end.

Lemma offered_list us e :
  foldr (λ u P, offered u e ∨ P) False us ↔ ∃ u, u ∈ us ∧ offered u e.
Proof.
  induction us as [|u us IH]; cbn [foldr].
  - split; [done|]. by intros (u & Hu%not_elem_of_nil & _).
  - rewrite IH. split.
    + intros [H|(v & Hv & H)]; [exists u|exists v]; (split; [|done]); by constructor.
    + intros (v & Hv & H). apply elem_of_cons in Hv as [->|Hv]; [by left|right; eauto].
Qed.

(** The rows of a table. *)
Lemma offered_rows {A} (f : A → ui E) (l : list A) e :
  foldr (λ u P, offered u e ∨ P) False (f <$> l) ↔ ∃ x, x ∈ l ∧ offered (f x) e.
Proof. rewrite offered_list. setoid_rewrite list_elem_of_fmap. naive_solver. Qed.

Lemma offered_show_if b u e : offered (show_if b u) e ↔ b = true ∧ offered u e.
Proof. destruct b; cbn; naive_solver. Qed.

Lemma elem_of_links_list us to :
  to ∈ foldr (λ u l, links u ++ l) [] us ↔ ∃ u, u ∈ us ∧ to ∈ links u.
Proof.
  induction us as [|u us IH]; cbn [foldr].
  - split; [by intros ?%not_elem_of_nil|]. by intros (u & Hu%not_elem_of_nil & _).
  - rewrite elem_of_app, IH. split.
    + intros [H|(v & Hv & H)]; [exists u|exists v]; (split; [|done]); by constructor.
    + intros (v & Hv & H). apply elem_of_cons in Hv as [->|Hv]; [by left|right; eauto].
Qed.
End Tree.

(** A child whose callbacks do more than fire one event: [calls e' e] when [e] may come
    of the child's event [e']. *)
Definition shown_by {E F} (u : ui E) (calls : E → F → Prop) : ui F :=
  Child (λ e, ∃ e', offered u e' ∧ calls e' e).

(** A child component shown inside its parent: its events become events of the parent. *)
Fixpoint embed {E F} (f : E → F) (u : ui E) : ui F :=
  match u with
  | Text s => Text s
  | Button l d on => Button l d (f on)
  | Ask l d on => Ask l d (f ∘ on)
  | Input n v d on => Input n v d (f ∘ on)
  | Select n v d o on => Select n v d o (f ∘ on)
  | Checkbox n c on => Checkbox n c (f ∘ on)
  | Child P => Child (λ e, ∃ e', P e' ∧ e = f e')
  | Link to us => Link to (foldr (λ u l, embed f u :: l) [] us)
  | Box us => Box (foldr (λ u l, embed f u :: l) [] us)
  end.

Section Induction.
  Context {E : Type} (P : ui E → Prop).
  Context (HText : ∀ s, P (Text s)) (HButton : ∀ l d on, P (Button l d on))
    (HAsk : ∀ l d on, P (Ask l d on)) (HInput : ∀ n v d on, P (Input n v d on))
    (HSelect : ∀ n v d o on, P (Select n v d o on)) (HCheck : ∀ n c on, P (Checkbox n c on))
    (HChild : ∀ Q, P (Child Q))
    (HLink : ∀ to us, Forall P us → P (Link to us))
    (HBox : ∀ us, Forall P us → P (Box us)).

Lemma ui_list_ind : ∀ u, P u.
Proof.
  fix IH 1. intros [s|l d on|l d on|n v d on|n v d o on|n c on|Q|to us|us];
    [apply HText|apply HButton|apply HAsk|apply HInput|apply HSelect|apply HCheck|apply HChild|..].
  - apply HLink. induction us as [|u us IHus]; constructor; [apply IH|exact IHus].
  - apply HBox. induction us as [|u us IHus]; constructor; [apply IH|exact IHus].
Qed.
End Induction.

Lemma elem_of_embed_list {E F} (f : E → F) (us : list (ui E)) v :
  v ∈ foldr (λ u l, embed f u :: l) [] us ↔ ∃ u, u ∈ us ∧ v = embed f u.
Proof.
  induction us as [|u us IH]; cbn [foldr].
  - split; [by intros ?%not_elem_of_nil|]. by intros (u & Hu%not_elem_of_nil & _).
  - rewrite elem_of_cons, IH. setoid_rewrite elem_of_cons. naive_solver.
Qed.

(** Embedding offers the child's events and nothing else, and keeps its links. *)
Lemma offered_embed {E F} (f : E → F) (u : ui E) e :
  offered (embed f u) e ↔ ∃ e', offered u e' ∧ e = f e'.
Proof.
  revert u. refine (ui_list_ind _ _ _ _ _ _ _ _ _ _); cbn [embed offered];
    [naive_solver..| |]; [intros to us IH|intros us IH]; rewrite !offered_list;
    setoid_rewrite elem_of_embed_list; setoid_rewrite offered_list;
    rewrite Forall_forall in IH; naive_solver.
Qed.

(** The links of a list whose elements keep theirs. *)
Lemma links_embed_list {E F} (f : E → F) (us : list (ui E)) :
  Forall (λ u, links (embed f u) = links u) us →
  foldr (λ u l, links u ++ l) [] (foldr (λ u l, embed f u :: l) [] us) =
  foldr (λ u l, links u ++ l) [] us.
Proof. induction 1 as [|u us Hu _ IH]; [done|]. cbn [foldr]. by rewrite Hu, IH. Qed.

Lemma links_embed {E F} (f : E → F) (u : ui E) : links (embed f u) = links u.
Proof.
  revert u. refine (ui_list_ind _ _ _ _ _ _ _ _ _ _); try done.
  - intros to us IH. cbn [embed links]. by rewrite links_embed_list.
  - intros us IH. cbn [embed links]. by rewrite links_embed_list.
Qed.
