(* ===== verification/Async.v ===== *)
(** * Components and their asynchronous handlers

    A handler changes the state of its component, calls the props it was given and
    awaits calls of the API client.  It runs up to the first [await]; what follows is a
    continuation that runs when the reply arrives, with everything the handler has
    captured from the props and the state it was created with.  A component is then a
    transition system: the user operates a control that is shown, a reply arrives, or the
    parent renders it with new props. *)
From S2P Require Import Prelude JsString Json Types Proxy Client Ui.
From stdpp Require Import relations.
From Stdlib Require Import ZArith.

(** ** Calls of the API client

    The types of the results are those [lib/mock-api.ts] declares. *)
Inductive api : Type → Type :=
  | GetGroups : api (list Group)
  | GetGroup (groupId : string) : api (option Group * list GroupMember * list Resource)
  | AddGroup (name description : string) : api unit
  | UpdateGroup (groupId name description : string) : api unit
  | DeleteGroup (groupId : string) : api unit
  | AddGroupResources (groupId : string) (resourceIds : list string) : api unit
  | UpdateGroupMembers (groupId : string) (memberIds : list string) : api unit
  | RemoveGroupMember (groupId userId : string) : api unit
  | GetUsers : api (list User)
  | GetUser (userId : string) : api User
  | AddUser (name email status : string) : api unit
  | UpdateUser (userId name email status : string) : api unit
  | DeactivateUser (userId : string) : api unit
  | DeleteUser (userId : string) : api unit
  | InviteUser (email : string) (workspaceId : option string) : api (string * option string)
  | GetSubjects : api (list Subject)
  | GetRemoteNetworks : api (list RemoteNetwork)
  | GetRemoteNetwork (networkId : string) :
      api (option RemoteNetwork * list Connector * list Resource)
  | AddRemoteNetwork (name location : string) : api unit
  | DeleteRemoteNetwork (networkId : string) : api unit
  | AddConnector (name remoteNetworkId : string) : api unit
  | GetResources : api (list Resource)
  | GetResource (resourceId : string) : api (option Resource * list AccessRule)
  | AddResource (data : resource_data) : api unit
  | UpdateResource (resourceId : string) (data : resource_data) : api unit
  | SetResourceFirewallStatus (resourceId status : string) : api string
  | DeleteResource (resourceId : string) : api unit
  | CreateAccessRule (resourceId name : string) (groupIds : list string) (enabled : bool) :
      api AccessRule
  | DeleteAccessRule (ruleId : string) : api unit
  | GetAccessRuleIdentityCount (ruleId : string) : api Z
  | GetConnectors : api (list Connector)
  | GetConnector (connectorId : string) :
      api (option Connector * option RemoteNetwork * list ConnectorLog)
  | GrantConnector (connectorId : string) : api unit
  | RevokeConnector (connectorId : string) : api unit
  | DeleteConnector (connectorId : string) : api unit
  | GetAgents : api (list Agent)
  | GetAgent (agentId : string) : api (option Agent * option RemoteNetwork * list ConnectorLog)
  | AddAgent (name : string) (connectorId remoteNetworkId : option string) : api unit
  | GrantAgent (agentId : string) : api unit
  | RevokeAgent (agentId : string) : api unit
  | DeleteAgent (agentId : string) : api unit
  | CreateEnrollmentToken : api (string * string)
  | GetServiceAccounts : api (list ServiceAccount)
  | GetDiagnostics : api DiagnosticsData
  | PingConnector (connectorId : string) : api PingResult
  | TraceAccess (userId resourceId : string) : api AccessTrace
  (* fetch without the client: status and body; it fails only when the network does *)
  | Fetch (method url : string) (bearer body : option string) : api (Z * string)
  (* Promise.all: both, or all of a list, at once; the first failure is the reply *)
  | Both {A B : Type} (a : api A) (b : api B) : api (A * B)
  | Every {A : Type} (l : list (api A)) : api (list A).

(** Two requests at once: a failure of the first does not keep the second back. *)
Definition all_sent (m n : M calls unit) : M calls unit := λ cs,
  let '(cs1, r1) := m cs in
  let '(cs2, r2) := n cs1 in
  (cs2, match r1 with Throw e => Throw e | Ok _ => r2 end).

(** The function of the client behind a call. *)
Fixpoint client {A} (API_BASE : string) (network : calls → client_request → backend_reply)
  (c : api A) : M calls unit :=
  match c with
  | GetGroups => discard (getGroups API_BASE network)
  | GetGroup g => discard (getGroup API_BASE network g)
  | AddGroup n d => addGroup API_BASE network n d
  | UpdateGroup g n d => updateGroup API_BASE network g (Some n) (Some d)
  | DeleteGroup g => deleteGroup API_BASE network g
  | AddGroupResources g rs => addGroupResources API_BASE network g rs
  | UpdateGroupMembers g ms => updateGroupMembers API_BASE network g ms
  | RemoveGroupMember g u => removeGroupMember API_BASE network g u
  | GetUsers => discard (getUsers API_BASE network)
  | GetUser u => discard (getUser API_BASE network u)
  | AddUser n e s => addUser API_BASE network n e s
  | UpdateUser u n e s => updateUser API_BASE network u (Some n) (Some e) (Some s)
  | DeactivateUser u => deactivateUser API_BASE network u
  | DeleteUser u => deleteUser API_BASE network u
  | InviteUser e w => discard (inviteUser API_BASE network e w)
  | GetSubjects => discard (getSubjects API_BASE network)
  | GetRemoteNetworks => discard (getRemoteNetworks API_BASE network)
  | GetRemoteNetwork n => discard (getRemoteNetwork API_BASE network n)
  | AddRemoteNetwork n l => addRemoteNetwork API_BASE network n l
  | DeleteRemoteNetwork n => deleteRemoteNetwork API_BASE network n
  | AddConnector n r => addConnector API_BASE network n r
  | GetResources => discard (getResources API_BASE network)
  | GetResource r => discard (getResource API_BASE network r)
  | AddResource d => addResource API_BASE network d
  | UpdateResource r d => updateResource API_BASE network r d
  | SetResourceFirewallStatus r s => discard (setResourceFirewallStatus API_BASE network r s)
  | DeleteResource r => deleteResource API_BASE network r
  | CreateAccessRule r n gs e => discard (createAccessRule API_BASE network r n gs e)
  | DeleteAccessRule r => deleteAccessRule API_BASE network r
  | GetAccessRuleIdentityCount r => discard (getAccessRuleIdentityCount API_BASE network r)
  | GetConnectors => discard (getConnectors API_BASE network)
  | GetConnector c => discard (getConnector API_BASE network c)
  | GrantConnector c => grantConnector API_BASE network c
  | RevokeConnector c => revokeConnector API_BASE network c
  | DeleteConnector c => deleteConnector API_BASE network c
  | GetAgents => discard (getAgents API_BASE network)
  | GetAgent a => discard (getAgent API_BASE network a)
  | AddAgent n c r => addAgent API_BASE network n c r
  | GrantAgent a => grantAgent API_BASE network a
  | RevokeAgent a => revokeAgent API_BASE network a
  | DeleteAgent a => deleteAgent API_BASE network a
  | CreateEnrollmentToken => discard (createEnrollmentToken API_BASE network)
  | GetServiceAccounts => discard (getServiceAccounts API_BASE network)
  | GetDiagnostics => discard (getDiagnostics API_BASE network)
  | PingConnector c => discard (pingConnector API_BASE network c)
  | TraceAccess u r => discard (traceAccess API_BASE network u r)
  | Fetch m url _ body =>
      res ← fetch_call network (mkCall m url body);
      match res with NetError _ => throw TypeError | Reply _ _ => mret tt end
  | Both a b => all_sent (client API_BASE network a) (client API_BASE network b)
  | Every l => foldr (λ a m, all_sent (client API_BASE network a) m) (mret tt) l
  end.

(** ** Handlers *)

(** [S] is the state of the component, [O] what it tells its parent and the page: calls
    of its callback props, toasts, navigations. *)
Inductive prog (S O : Type) :=
  | Done
  | Set_ (f : S → S) (k : prog S O)
  | Emit (o : O) (k : prog S O)
  | Await {A : Type} (c : api A) (k : outcome A → prog S O)
  | Fork (p k : prog S O).  (* an async function called without await *)
Arguments Done {_ _}.
Arguments Set_ {_ _} _ _.
Arguments Emit {_ _} _ _.
Arguments Await {_ _ _} _ _.
Arguments Fork {_ _} _ _.

Fixpoint seq {S O} (p q : prog S O) : prog S O :=
  match p with
  | Done => q
  | Set_ f k => Set_ f (seq k q)
  | Emit o k => Emit o (seq k q)
  | Await c k => Await c (λ r, seq (k r) q)
  | Fork p k => Fork p (seq k q)
  end.

Definition set {S O} (f : S → S) : prog S O := Set_ f Done.
Definition emit {S O} (o : O) : prog S O := Emit o Done.
Definition fork {S O} (p : prog S O) : prog S O := Fork p Done.

(** [try { x = await c; ok(x) } catch (e) { failed(e) } finally { last }], where [ok]
    does not throw. *)
Definition try_await {S O A} (c : api A) (ok : A → prog S O) (failed : js_error → prog S O)
  (last : prog S O) : prog S O :=
  Await c (λ r, seq (match r with Ok x => ok x | Throw e => failed e end) last).

(** [p1; p2; ...] *)
Definition steps {S O} (l : list (prog S O)) : prog S O := foldr seq Done l.

Definition when {S O} (b : bool) (p : prog S O) : prog S O := if b then p else Done.

(** [(e as Error).message]; the messages of exceptions other than [Error]s are those of
    the engine. *)
Definition error_message (engine_message : js_error → string) (e : js_error) : string :=
  match e with JsError m => m | e => engine_message e end.

(** ** Components *)

Record component := mkComponent {
  props : Type;
  state : Type;
  event : Type;
  output : Type;
  init : props → state;                              (* the initial values of its state *)
  view : props → state → ui event;                   (* what it renders *)
  handle : props → state → event → prog state output;
  on_mount : props → state → prog state output;      (* effects without dependencies *)
  deps : props → props → Prop;                       (* the dependencies are the same *)
  effect : props → state → prog state output }.      (* effects run when they change, too *)

Inductive task (S O : Type) :=
  | Task {A : Type} (c : api A) (k : outcome A → prog S O).
Arguments Task {_ _ _} _ _.

Record config (C : component) := mkConfig {
  its_props : props C; its_state : state C;
  pending : list (task (state C) (output C));   (* calls in flight and their continuations *)
  emitted : list (output C) }.
Arguments mkConfig {_} _ _ _ _.
Arguments its_props {_} _.
Arguments its_state {_} _.
Arguments pending {_} _.
Arguments emitted {_} _.

(** Run up to the first [await]. *)
Fixpoint exec {C : component} (p : prog (state C) (output C)) (c : config C) : config C :=
  match p with
  | Done => c
  | Set_ f k => exec k (mkConfig (its_props c) (f (its_state c)) (pending c) (emitted c))
  | Emit o k => exec k (mkConfig (its_props c) (its_state c) (pending c) (emitted c ++ [o]))
  | Await a k =>
      mkConfig (its_props c) (its_state c) (pending c ++ [Task a k]) (emitted c)
  | Fork q k => exec k (exec q c)
  end.

Definition mount (C : component) (p : props C) : config C :=
  exec (effect C p (init C p)) (exec (on_mount C p (init C p)) (mkConfig p (init C p) [] [])).

Inductive step {C : component} : config C → config C → Prop :=
  | step_user c e : offered (view C (its_props c) (its_state c)) e →
      step c (exec (handle C (its_props c) (its_state c) e) c)
  | step_reply c l1 A (a : api A) k l2 r : pending c = l1 ++ Task a k :: l2 →
      step c (exec (k r) (mkConfig (its_props c) (its_state c) (l1 ++ l2) (emitted c)))
  | step_render c p : deps C (its_props c) p →
      step c (mkConfig p (its_state c) (pending c) (emitted c))
  | step_effect c p :
      step c (exec (effect C p (its_state c)) (mkConfig p (its_state c) (pending c) (emitted c))).

Definition reachable {C : component} (c : config C) : Prop := ∃ p, rtc step (mount C p) c.

(** ** Invariants of the state

    [keeps I p s]: from the state [s] every piece of [p] between two awaits ends in a
    state with [I]; when a continuation starts, only [I] is known of the state. *)
Fixpoint keeps {S O} (I : S → Prop) (p : prog S O) (s : S) : Prop :=
  match p with
  | Done => I s
  | Set_ f k => keeps I k (f s)
  | Emit _ k => keeps I k s
  | Await c k => I s ∧ ∀ r s', I s' → keeps I (k r) s'
  | Fork q k => keeps I q s ∧ ∀ s', I s' → keeps I k s'
  end.

Definition task_keeps {S O} (I : S → Prop) (t : task S O) : Prop :=
  match t with Task _ k => ∀ r s, I s → keeps I (k r) s end.

Definition config_keeps {C : component} (I : state C → Prop) (c : config C) : Prop :=
  I (its_state c) ∧ Forall (task_keeps I) (pending c).

Lemma exec_keeps {C : component} (I : state C → Prop) p : ∀ c : config C,
  keeps I p (its_state c) → Forall (task_keeps I) (pending c) → config_keeps I (exec p c).
Proof.
  induction p as [|f k IH|o k IH|A a k IH|q IHq k IHk]; intros c Hp Hc; cbn [keeps exec] in *.
  - done.
  - by apply IH.
  - by apply IH.
  - destruct Hp as [Hs Hk]. split; [done|]. by apply Forall_app_2; [|apply Forall_singleton].
  - destruct Hp as [Hq Hk]. destruct (IHq c Hq Hc) as [H1 H2]. by apply IHk; [apply Hk|].
Qed.

Lemma invariant {C : component} (I : state C → Prop) :
  (∀ p, keeps I (on_mount C p (init C p)) (init C p)) →
  (∀ p s s', I s' → keeps I (effect C p s) s') →
  (∀ p s e, I s → offered (view C p s) e → keeps I (handle C p s e) s) →
  ∀ c, reachable c → I (its_state c).
Proof.
  intros Hi He Hh c [p Hr]. assert (config_keeps I c) as [H _]; [|done].
  revert c Hr. apply (rtc_ind_r (config_keeps I)).
  { destruct (exec_keeps I _ (mkConfig p (init C p) [] []) (Hi p)) as [H1 H2]; [done|].
    by apply exec_keeps; [apply He|]. }
  intros c c' _ Hs [Hc Ht]. destruct Hs as [c e Hoff|c l1 A a k l2 r E|c p' _|c p'].
  - apply exec_keeps; [by apply Hh|done].
  - rewrite E, Forall_app, Forall_cons in Ht. destruct Ht as (H1 & Hk & H2).
    apply exec_keeps; [by apply Hk|by apply Forall_app].
  - by split.
  - apply exec_keeps; [by apply He|done].
Qed.

Lemma keeps_seq {S O} (I : S → Prop) (p q : prog S O) s :
  keeps I p s → (∀ s', I s' → keeps I q s') → keeps I (seq p q) s.
Proof.
  intros Hp Hq. revert s Hp.
  induction p as [|f k IH|o k IH|A a k IH|p1 IH1 k IHk]; intros s Hp; cbn [seq keeps] in *; auto.
  - destruct Hp as [Hs Hk]. split; [done|]. intros r s' Hs'. by apply IH, Hk.
  - destruct Hp as [H1 Hk]. split; [done|]. intros s' Hs'. by apply IHk, Hk.
Qed.

(** [safe I p]: every single assignment of [p] keeps [I], whatever the state. *)
Fixpoint safe {S O} (I : S → Prop) (p : prog S O) : Prop :=
  match p with
  | Done => True
  | Set_ f k => (∀ s, I s → I (f s)) ∧ safe I k
  | Emit _ k => safe I k
  | Await _ k => ∀ r, safe I (k r)
  | Fork q k => safe I q ∧ safe I k
  end.

Lemma safe_keeps {S O} (I : S → Prop) (p : prog S O) s : safe I p → I s → keeps I p s.
Proof.
  revert s. induction p as [|f k IH|o k IH|A a k IH|q IHq k IHk]; intros s Hp Hs; cbn in *.
  - done.
  - destruct Hp as [Hf Hk]. by apply IH, Hf.
  - by apply IH.
  - split; [done|]. intros r s' Hs'. by apply IH.
  - destruct Hp as [Hq Hk]. split; [by apply IHq|]. intros s' Hs'. by apply IHk.
Qed.

Lemma safe_seq {S O} (I : S → Prop) (p q : prog S O) : safe I p → safe I q → safe I (seq p q).
Proof.
  intros Hp Hq. induction p as [|f k IH|o k IH|A a k IH|p1 IH1 k IHk]; cbn in *;
    [done|destruct Hp; auto|auto|auto|destruct Hp; auto].
Qed.

Lemma safe_steps {S O} (I : S → Prop) (l : list (prog S O)) :
  Forall (safe I) l → safe I (steps l).
Proof. induction 1; [done|]. by apply safe_seq. Qed.

(** ** The requests of a component

    [asks P p]: every call [p] awaits satisfies [P], whatever the replies. *)
Section Asks.
  Context (P : ∀ A, api A → Prop).

Fixpoint asks {S O} (p : prog S O) : Prop :=
  match p with
  | Done => True
  | Set_ _ k => asks k
  | Emit _ k => asks k
  | Await c k => P _ c ∧ ∀ r, asks (k r)
  | Fork q k => asks q ∧ asks k
  end.

Definition task_asks {S O} (t : task S O) : Prop :=
  match t with Task c k => P _ c ∧ ∀ r, asks (k r) end.

Lemma asks_seq {S O} (p q : prog S O) : asks p → asks q → asks (seq p q).
Proof. intros Hp Hq. induction p; cbn in *; try destruct Hp; auto. Qed.

Lemma asks_steps {S O} (l : list (prog S O)) : Forall asks l → asks (steps l).
Proof. induction 1; [done|]. by apply asks_seq. Qed.

Lemma asks_when {S O} b (p : prog S O) : asks p → asks (when b p).
Proof. by destruct b. Qed.

Lemma asks_try {S O A} (c : api A) (ok : A → prog S O) failed last :
  P _ c → (∀ x, asks (ok x)) → (∀ e, asks (failed e)) → asks last → asks (try_await c ok failed last).
Proof. intros Hc Hok Hf Hl. split; [done|]. intros [x|e]; by apply asks_seq. Qed.

Lemma exec_asks {C : component} (p : prog (state C) (output C)) : ∀ c : config C,
  asks p → Forall task_asks (pending c) → Forall task_asks (pending (exec p c)).
Proof.
  induction p as [|f k IH|o k IH|A a k IH|q IHq k IHk]; intros c Hp Hc; cbn in *; auto.
  - apply Forall_app_2; [done|]. by apply Forall_singleton.
  - destruct Hp. auto.
Qed.

Lemma reachable_asks {C : component} :
  (∀ p s, asks (on_mount C p s)) → (∀ p s, asks (effect C p s)) →
  (∀ p s e, offered (view C p s) e → asks (handle C p s e)) →
  ∀ c : config C, reachable c → Forall task_asks (pending c).
Proof.
  intros Hm He Hh c [p Hr]. revert c Hr. apply (rtc_ind_r (λ c, Forall task_asks (pending c))).
  { by apply exec_asks, exec_asks; [apply He|apply Hm|]. }
  intros c c' _ Hs Hc. destruct Hs as [c e Hoff|c l1 A a k l2 r E|c p'|c p'].
  - by apply exec_asks; [apply Hh|].
  - rewrite E, Forall_app, Forall_cons in Hc. destruct Hc as (H1 & [_ Hk] & H2).
    apply exec_asks; [apply Hk|]. cbn. by apply Forall_app_2.
  - done.
  - by apply exec_asks; [apply He|].
Qed.
End Asks.

(** ** What a component tells its parent

    [emits P p]: everything [p] emits satisfies [P], whatever the replies. *)
Section Emits.
  Context {S O : Type} (P : O → Prop).

Fixpoint emits (p : prog S O) : Prop :=
  match p with
  | Done => True
  | Set_ _ k => emits k
  | Emit o k => P o ∧ emits k
  | Await _ k => ∀ r, emits (k r)
  | Fork q k => emits q ∧ emits k
  end.

Definition task_emits (t : task S O) : Prop :=
  match t with Task _ k => ∀ r, emits (k r) end.

Lemma emits_seq p q : emits p → emits q → emits (seq p q).
Proof. intros Hp Hq. induction p; cbn in *; try destruct Hp; auto. Qed.

Lemma emits_steps l : Forall emits l → emits (steps l).
Proof. induction 1; [done|]. by apply emits_seq. Qed.

Lemma emits_when b p : emits p → emits (when b p).
Proof. by destruct b. Qed.

End Emits.

Section Told.
  Context {C : component} (P : output C → Prop).

Definition told (c : config C) : Prop := Forall P (emitted c) ∧ Forall (task_emits P) (pending c).

Lemma exec_emits p : ∀ c : config C, emits P p → told c → told (exec p c).
Proof.
  induction p as [|f k IH|o k IH|A a k IH|q IHq k IHk]; intros c Hp [Ho Ht]; cbn in *.
  - done.
  - by apply IH.
  - apply IH; [apply Hp|]. split; [|done]. apply Forall_app_2; [done|]. apply Forall_singleton, Hp.
  - split; [done|]. apply Forall_app_2; [done|]. by apply Forall_singleton.
  - apply IHk; [apply Hp|]. by apply IHq; [apply Hp|].
Qed.

Lemma reachable_emits :
  (∀ p s, emits P (on_mount C p s)) → (∀ p s, emits P (effect C p s)) →
  (∀ p s e, offered (view C p s) e → emits P (handle C p s e)) →
  ∀ c : config C, reachable c → Forall P (emitted c).
Proof.
  intros Hm He Hh c [p Hr]. assert (told c) as [H _]; [|done].
  revert c Hr. apply (rtc_ind_r told).
  { by apply exec_emits, exec_emits; [apply He|apply Hm|]. }
  intros c c' _ Hs [Ho Ht]. destruct Hs as [c e Hoff|c l1 A a k l2 r E|c p'|c p'].
  - by apply exec_emits; [apply Hh|].
  - rewrite E, Forall_app, Forall_cons in Ht. destruct Ht as (H1 & Hk & H2).
    apply exec_emits; [apply Hk|]. split; [done|]. cbn. by apply Forall_app_2.
  - done.
  - by apply exec_emits; [apply He|].
Qed.
End Told.

(** ** One submission at a time

    A form submits with calls that [submits] picks out, and shows with [busy] that one is
    in flight.  [orderly p mine s]: [p] only starts a submission after it has made the form
    busy, makes it busy only when it is not, and leaves [busy] alone unless the busy form
    is its own doing ([mine]), which it undoes before it ends. *)
Section Orderly.
  Context {S O : Type} (busy : S → bool) (submits : ∀ A, api A → bool).

Fixpoint orderly (p : prog S O) (mine : bool) (s : S) : Prop :=
  match p with
  | Done => mine = false
  | Set_ f k =>
      (busy (f s) = busy s ∧ orderly k mine (f s)) ∨
      (mine = false ∧ busy s = false ∧ busy (f s) = true ∧ orderly k true (f s)) ∨
      (mine = true ∧ busy (f s) = false ∧ orderly k false (f s))
  | Emit _ k => orderly k mine s
  | Await c k =>
      submits _ c = mine ∧ ∀ r s', (mine = true → busy s' = true) → orderly (k r) mine s'
  | Fork q k => mine = false ∧ orderly q false s ∧ ∀ s', orderly k false s'
  end.

(** A program that leaves the flag alone and starts no submission, in front of another. *)
Definition neutral (p : prog S O) : Prop := ∀ k mine s,
  (∀ s', busy s' = busy s → orderly k mine s') → orderly (seq p k) mine s.

Lemma neutral_Done : neutral Done.
Proof. intros k mine s Hk. by apply Hk. Qed.
Lemma neutral_set f : (∀ s, busy (f s) = busy s) → neutral (set f).
Proof. intros Hf k mine s Hk. left. split; [apply Hf|]. apply Hk, Hf. Qed.
Lemma neutral_emit o : neutral (emit o).
Proof. intros k mine s Hk. by apply Hk. Qed.
Lemma neutral_when b p : neutral p → neutral (when b p).
Proof. destruct b; [done|intros _; apply neutral_Done]. Qed.
Lemma seq_assoc (p q k : prog S O) mine : ∀ s,
  orderly (seq p (seq q k)) mine s → orderly (seq (seq p q) k) mine s.
Proof.
  revert mine. induction p as [|f p IH|o p IH|A a p IH|p1 IH1 p IH2]; intros mine s;
    cbn [seq orderly]; [done| |by apply IH| |].
  - intros [[H1 H2]|[(H1 & H2 & H3 & H4)|(H1 & H2 & H3)]].
    + left. split; [done|]. by apply IH.
    + right; left. repeat (split; [done|]). by apply IH.
    + right; right. repeat (split; [done|]). by apply IH.
  - intros [Ha Hk]. split; [done|]. intros r s' Hs'. by apply IH, Hk.
  - intros (H1 & H2 & H3). repeat (split; [done|]). intros s'. by apply IH2.
Qed.
Lemma orderly_seq_Done (p : prog S O) mine : ∀ s, orderly (seq p Done) mine s → orderly p mine s.
Proof.
  revert mine. induction p as [|f p IH|o p IH|A a p IH|p1 IH1 p IH2]; intros mine s;
    cbn [seq orderly]; [done| |by apply IH| |].
  - intros [[H1 H2]|[(H1 & H2 & H3 & H4)|(H1 & H2 & H3)]].
    + left. split; [done|]. by apply IH.
    + right; left. repeat (split; [done|]). by apply IH.
    + right; right. repeat (split; [done|]). by apply IH.
  - intros [Ha Hk]. split; [done|]. intros r s' Hs'. by apply IH, Hk.
  - intros (H1 & H2 & H3). repeat (split; [done|]). intros s'. by apply IH2.
Qed.
Lemma neutral_orderly p s : neutral p → orderly p false s.
Proof. intros Hp. apply orderly_seq_Done, Hp. intros s' _. done. Qed.
Lemma neutral_steps l : Forall neutral l → neutral (steps l).
Proof.
  induction 1 as [|p l Hp _ IH]; [apply neutral_Done|]. intros k mine s Hk.
  unfold steps. cbn [foldr]. apply seq_assoc, Hp. intros s1 E1. apply IH.
  intros s2 E2. apply Hk. congruence.
Qed.

Definition submission (t : task S O) : bool := match t with Task c _ => submits _ c end.

Definition task_orderly (t : task S O) : Prop :=
  match t with
  | Task c k =>
      ∀ r s, (submits _ c = true → busy s = true) → orderly (k r) (submits _ c) s
  end.
End Orderly.

(** How many submissions are in flight. *)
Definition in_flight {S O} (submits : ∀ A, api A → bool) (l : list (task S O)) : nat :=
  length (filter (λ t, submission submits t = true) l).
Arguments in_flight : simpl never.

Lemma in_flight_app {S O} submits (l1 l2 : list (task S O)) :
  in_flight submits (l1 ++ l2) = in_flight submits l1 + in_flight submits l2.
Proof. unfold in_flight. by rewrite filter_app, length_app. Qed.

Lemma in_flight_one {S O A} submits (c : api A) (k : outcome A → prog S O) :
  in_flight submits [Task c k] = Nat.b2n (submits A c).
Proof. unfold in_flight. cbn. by destruct (submits A c). Qed.

(** A component whose handlers are orderly. *)
Class SubmitForm (C : component) := {
  busy : state C → bool;
  submits : ∀ A, api A → bool;
  init_idle : ∀ p, busy (init C p) = false;
  handle_orderly : ∀ p s e, offered (view C p s) e → orderly busy submits (handle C p s e) false s;
  mount_orderly : ∀ p s, orderly busy submits (on_mount C p s) false s;
  effect_orderly : ∀ p s s', orderly busy submits (effect C p s) false s' }.

Section SubmitForm.
  Context {C : component} `{!SubmitForm C}.

(** [mine] stands for the submission of the program that runs. *)
Definition balanced (mine : bool) (c : config C) : Prop :=
  in_flight submits (pending c) + Nat.b2n mine = Nat.b2n (busy (its_state c)) ∧
  Forall (task_orderly busy submits) (pending c).

Lemma exec_balanced p : ∀ mine (c : config C),
  orderly busy submits p mine (its_state c) → balanced mine c → balanced false (exec p c).
Proof.
  induction p as [|f k IH|o k IH|A a k IH|q IHq k IHk]; intros mine c Hp [Hn Ht];
    cbn [orderly exec] in *.
  - by subst mine.
  - destruct Hp as [[Hb Hk]|[(-> & Hb & Hb' & Hk)|(-> & Hb & Hk)]].
    + apply (IH mine); [done|]. split; [|done]. cbn. by rewrite Hb.
    + apply (IH true); [done|]. split; [|done]. cbn. rewrite Hb'. rewrite Hb in Hn. cbn in *.
      by rewrite <- (Nat.add_0_r (in_flight _ _)), Hn.
    + apply (IH false); [done|]. split; [|done]. cbn. rewrite Hb.
      destruct (busy (its_state c)); cbn in *; [|by rewrite Nat.add_comm in Hn].
      rewrite Nat.add_comm in Hn. injection Hn as ->. done.
  - by apply (IH mine).
  - destruct Hp as [Ha Hk]. split.
    + cbn. rewrite in_flight_app, in_flight_one, Ha. cbn. by rewrite Nat.add_0_r.
    + cbn. apply Forall_app_2; [done|]. apply Forall_singleton. cbn. rewrite Ha. exact Hk.
  - destruct Hp as (-> & Hq & Hk). apply (IHk false); [apply Hk|]. by apply (IHq false).
Qed.

(** Whatever the user does and however replies arrive, there is one submission in flight
    while the form is busy, and none otherwise. *)
Lemma submissions_balanced c : reachable c →
  in_flight submits (pending c) = Nat.b2n (busy (its_state c)).
Proof.
  intros [p Hr]. assert (balanced false c) as [H _]; [|by rewrite <- H, Nat.add_0_r].
  revert c Hr. apply (rtc_ind_r (balanced false)).
  { apply (exec_balanced _ false); [apply effect_orderly|].
    apply (exec_balanced _ false); [apply mount_orderly|]. split; [|done]. cbn.
    by rewrite init_idle. }
  intros c c' _ Hs [Hn Ht]. destruct Hs as [c e Hoff|c l1 A a k l2 r E|c p' _|c p'].
  - by apply (exec_balanced _ false); [apply handle_orderly|].
  - rewrite E in Hn, Ht. rewrite (in_flight_app _ l1 (Task a k :: l2)) in Hn.
    rewrite (in_flight_app _ [Task a k] l2), in_flight_one in Hn.
    apply Forall_app in Ht as [H1 Ht]. apply Forall_cons in Ht as [Hk H2].
    apply (exec_balanced _ (submits A a)).
    + apply Hk. intros Ha. cbn. destruct (busy (its_state c)); [done|].
      rewrite Ha in Hn. cbn in Hn. by rewrite Nat.add_succ_r in Hn.
    + split; [|by apply Forall_app_2]. cbn. rewrite in_flight_app.
      rewrite <- Hn. cbn. rewrite !Nat.add_0_r.
      by rewrite <- Nat.add_assoc, (Nat.add_comm (in_flight _ l2)).
  - by split.
  - by apply (exec_balanced _ false); [apply effect_orderly|].
Qed.
End SubmitForm.

(** ** Automation

    The database [ui] has what a component renders and its handlers, to be unfolded. *)
Create HintDb ui.
#[export] Hint Unfold Dialog show_if Nothing when try_await set emit fork steps : ui.

(** Neutral programs made of assignments that leave the flag alone, and of callbacks. *)
Ltac neutral :=
  repeat first
    [ apply neutral_Done | apply neutral_emit | apply neutral_when
    | apply neutral_steps | apply Forall_nil_2 | apply Forall_cons_2
    | apply neutral_set; intros; reflexivity ].

(** The cases of [Hoff : offered u e]: the controls of [u] that fire [e]. *)
Ltac offered_cases Hoff :=
  cbn in Hoff;
  lazymatch type of Hoff with
  | False => destruct Hoff
  | _ ∨ _ => destruct Hoff as [Hoff|Hoff]; offered_cases Hoff
  | ∃ _, _ => let x := fresh "x" in destruct Hoff as [x Hoff]; offered_cases Hoff
  | _ ∧ ?e = _ => let H := fresh "Hon" in destruct Hoff as [H Hoff]; offered_cases Hoff
  | _ ∧ _ => let H := fresh "Hin" in destruct Hoff as [H Hoff]; offered_cases Hoff
  | _ = _ => try discriminate Hoff
  | foldr _ _ (_ <$> _) => rewrite offered_rows in Hoff; offered_cases Hoff
  | context [match ?x with _ => _ end] =>
      let E := fresh "E" in destruct x eqn:E; offered_cases Hoff
  | _ => idtac
  end.

(** A control that is disabled while [b] is set was not operated: [b] is not set. *)
Ltac not_offered_while b Hoff :=
  let H := fresh "Hbusy" in
  destruct b eqn:H;
    [exfalso; revert Hoff; cbn; autounfold with ui; rewrite ?H; intros Hoff; offered_cases Hoff;
     rewrite ?orb_true_r, ?orb_true_l in *; cbn in *; discriminate|].

(** The steps of an orderly program. *)
Ltac orderly :=
  cbn; autounfold with ui; cbn;
  repeat match goal with
    | |- _ = _ => first [reflexivity | assumption]
    | |- _ ∧ _ => split
    | |- ∀ _, _ => intros
    | |- context [match ?r with Ok _ => _ | Throw _ => _ end] => destruct r; cbn
    | |- orderly _ _ (match ?x with _ => _ end) _ _ => destruct x eqn:?; cbn
    | |- orderly _ _ (seq (match ?x with _ => _ end) _) _ _ => destruct x eqn:?; cbn
    | |- orderly _ _ (seq (seq (match ?x with _ => _ end) _) _) _ _ => destruct x eqn:?; cbn
    | |- _ ∨ _ ∨ _ =>
        first [ left; split; [reflexivity|]
              | right; left; split; [reflexivity|split; [assumption|split; [reflexivity|]]]
              | right; right; split; [reflexivity|split; [reflexivity|]] ]
    end.

(** The steps of a program that keeps an invariant of the state. *)
Ltac keeps :=
  cbn; autounfold with ui; cbn;
  repeat match goal with
    | H : ?P |- ?P => exact H
    | |- _ ∧ _ => split
    | |- ∀ _, _ => intros
    | |- context [match ?r with Ok _ => _ | Throw _ => _ end] => destruct r; cbn
    | |- keeps _ (match ?x with _ => _ end) _ => destruct x eqn:?; cbn
    | |- keeps _ (seq (match ?x with _ => _ end) _) _ => destruct x eqn:?; cbn
    end; auto.

(** The assignments of a program, for [safe]; [done_by] closes the obligation of each. *)
Ltac safe done_by :=
  cbn; autounfold with ui; cbn;
  repeat match goal with
    | |- True => exact I
    | |- _ ∧ _ => split
    | |- ∀ r : outcome _, safe _ _ => let x := fresh "r" in intros x; destruct x; cbn
    | |- ∀ s, _ → _ => solve [done_by]
    | |- safe _ (match ?x with _ => _ end) => destruct x eqn:?; cbn
    | |- safe _ (seq _ _) => apply safe_seq; cbn
    end.
