(* ===== verification/GroupForms.v ===== *)
(** * The dialogs of the groups pages ([components/dashboard/groups])

    One Module per component: its state, what it renders, its handlers. *)
From S2P Require Import Prelude JsString Types Client Ui Async.

(** [components/dashboard/groups/add-group-modal.tsx] *)
Module AddGroupModal.
Record props := mkProps { isOpen : bool }.
Inductive output := onClose | onGroupAdded.
Inductive event := TypeName (v : string) | TypeDescription (v : string) | Dismiss | Add.

Record state := mkState {
  name : string;
  description : string;
  isAdding : bool }.
Definition setName (v : string) : prog state output :=
  set (λ s, mkState v (description s) (isAdding s)).
Definition setDescription (v : string) : prog state output :=
  set (λ s, mkState (name s) v (isAdding s)).
Definition setIsAdding (v : bool) : prog state output :=
  set (λ s, mkState (name s) (description s) v).

Definition initial : state := mkState "" "" false.

Definition handleAddGroup (s : state) : prog state output :=
  when (negb (bool_decide (trim (name s) = "")))
    (steps
      [setIsAdding true;
       try_await (AddGroup (name s) (description s))
         (λ _, steps [emit onGroupAdded; emit onClose; setName ""; setDescription ""])
         (λ _, Done)
         (setIsAdding false)]).

Definition render (p : props) (s : state) : ui event :=
  Dialog (isOpen p) Dismiss
    [Text "Add New Group";
     Text "Create a new group to organize users and manage access policies.";
     Input "Name" (name s) false TypeName;
     Input "Description" (description s) false TypeDescription;
     Button "Cancel" (isAdding s) Dismiss;
     Button (if isAdding s then "Adding..." else "Add Group") (isAdding s) Add].

Definition on (p : props) (s : state) (e : event) : prog state output :=
  match e with
  | TypeName v => setName v
  | TypeDescription v => setDescription v
  | Dismiss => emit onClose
  | Add => handleAddGroup s
  end.

Definition component : component :=
  mkComponent props state event output (λ _, initial) render on
    (λ _ _, Done) (λ _ _, True) (λ _ _, Done).

#[global] Hint Unfold setName setDescription setIsAdding handleAddGroup render : ui.
End AddGroupModal.

(** [components/dashboard/groups/edit-group-modal.tsx] *)
Module EditGroupModal.
Record props := mkProps { isOpen : bool; group : option Group }.
Inductive output := onClose | onGroupUpdated.
Inductive event := TypeName (v : string) | TypeDescription (v : string) | Dismiss | Save.

Record state := mkState {
  name : string;
  description : string;
  isSaving : bool }.
Definition setName (v : string) : prog state output :=
  set (λ s, mkState v (description s) (isSaving s)).
Definition setDescription (v : string) : prog state output :=
  set (λ s, mkState (name s) v (isSaving s)).
Definition setIsSaving (v : bool) : prog state output :=
  set (λ s, mkState (name s) (description s) v).

Definition initial : state := mkState "" "" false.

(** The effect fills the form when the group changes. *)
Definition loadGroup (p : props) : prog state output :=
  match group p with
  | Some g => steps [setName (Group_name g); setDescription (Group_description g)]
  | None => Done
  end.

Definition handleClose : prog state output := emit onClose.

Definition handleSave (p : props) (s : state) : prog state output :=
  match group p with
  | None => Done
  | Some g =>
      when (negb (bool_decide (trim (name s) = "")))
        (steps
          [setIsSaving true;
           try_await (UpdateGroup (Group_id g) (name s) (description s))
             (λ _, steps [emit onGroupUpdated; emit onClose])
             (λ _, Done)
             (setIsSaving false)])
  end.

Definition render (p : props) (s : state) : ui event :=
  Dialog (isOpen p) Dismiss
    [Text "Edit Group";
     Text "Update group details.";
     Input "Name" (name s) false TypeName;
     Input "Description" (description s) false TypeDescription;
     Button "Cancel" (isSaving s) Dismiss;
     Button (if isSaving s then "Saving..." else "Save Changes")
       (isSaving s || bool_decide (trim (name s) = "")) Save].

Definition on (p : props) (s : state) (e : event) : prog state output :=
  match e with
  | TypeName v => setName v
  | TypeDescription v => setDescription v
  | Dismiss => handleClose
  | Save => handleSave p s
  end.

Definition component : component :=
  mkComponent props state event output (λ _, initial) render on
    (λ _ _, Done) (λ p p', group p = group p') (λ p _, loadGroup p).

#[global] Hint Unfold setName setDescription setIsSaving loadGroup handleClose handleSave render
  : ui.
End EditGroupModal.

(** [components/dashboard/groups/add-resources-modal.tsx] *)
Module AddResourcesModal.
Record props := mkProps { groupId : string; isOpen : bool }.
Inductive output := onClose | onResourcesAdded.
Inductive event :=
  | Search (v : string) | CheckboxChange (resourceId : string) (isChecked : bool)
  | Dismiss | Add.

Record state := mkState {
  availableResources : list Resource;
  selectedResourceIds : list string;
  loading : bool;
  isAdding : bool;
  searchTerm : string }.
Definition setAvailableResources (v : list Resource) : prog state output :=
  set (λ s, mkState v (selectedResourceIds s) (loading s) (isAdding s) (searchTerm s)).
Definition setSelectedResourceIds (v : list string) : prog state output :=
  set (λ s, mkState (availableResources s) v (loading s) (isAdding s) (searchTerm s)).
Definition setLoading (v : bool) : prog state output :=
  set (λ s, mkState (availableResources s) (selectedResourceIds s) v (isAdding s) (searchTerm s)).
Definition setIsAdding (v : bool) : prog state output :=
  set (λ s, mkState (availableResources s) (selectedResourceIds s) (loading s) v (searchTerm s)).
Definition setSearchTerm (v : string) : prog state output :=
  set (λ s, mkState (availableResources s) (selectedResourceIds s) (loading s) (isAdding s) v).

Definition initial : state := mkState [] [] true false "".

Definition loadResources : prog state output :=
  steps [setLoading true;
         try_await GetResources setAvailableResources (λ _, Done) (setLoading false)].

(** The set of the chosen identifiers, in the order of insertion. *)
Definition toggle (resourceId : string) (isChecked : bool) (prev : list string) : list string :=
  if isChecked then (if bool_decide (resourceId ∈ prev) then prev else prev ++ [resourceId])
  else filter (λ r, r ≠ resourceId) prev.

Definition handleCheckboxChange (resourceId : string) (isChecked : bool) : prog state output :=
  set (λ s, mkState (availableResources s) (toggle resourceId isChecked (selectedResourceIds s))
    (loading s) (isAdding s) (searchTerm s)).

Definition handleAddResources (p : props) (s : state) : prog state output :=
  steps
    [setIsAdding true;
     try_await (AddGroupResources (groupId p) (selectedResourceIds s))
       (λ _, steps [emit onResourcesAdded; emit onClose; setSelectedResourceIds []])
       (λ _, Done)
       (setIsAdding false)].

Definition filteredResources (s : state) : list Resource :=
  filter (λ r, includes (toLowerCase (Resource_name r)) (toLowerCase (searchTerm s)) = true ∨
               includes (toLowerCase (Resource_address r)) (toLowerCase (searchTerm s)) = true)
    (availableResources s).

Definition row (s : state) (r : Resource) : ui event :=
  Box [Checkbox (Resource_id r) (bool_decide (Resource_id r ∈ selectedResourceIds s))
         (CheckboxChange (Resource_id r));
       Text (Resource_name r); Text (Resource_address r)].

Definition render (p : props) (s : state) : ui event :=
  Dialog (isOpen p) Dismiss
    [Text "Add Resources to Group";
     Text "Select resources to grant access to this group.";
     Input "Search" (searchTerm s) false Search;
     show_if (negb (loading s))
       (if decide (filteredResources s = []) then Text "No resources found."
        else Box (row s <$> filteredResources s));
     Button "Cancel" (isAdding s) Dismiss;
     Button (if isAdding s then "Adding..."
             else "Add " +:+ pretty (length (selectedResourceIds s)) +:+ " Resource(s)")
       (bool_decide (selectedResourceIds s = []) || isAdding s) Add].

Definition on (p : props) (s : state) (e : event) : prog state output :=
  match e with
  | Search v => setSearchTerm v
  | CheckboxChange r b => handleCheckboxChange r b
  | Dismiss => emit onClose
  | Add => handleAddResources p s
  end.

Definition component : component :=
  mkComponent props state event output (λ _, initial) render on
    (λ _ _, Done) (λ p p', isOpen p = isOpen p')
    (λ p _, when (isOpen p) (fork loadResources)).

#[global] Hint Unfold setAvailableResources setSelectedResourceIds setLoading setIsAdding
  setSearchTerm loadResources toggle handleCheckboxChange handleAddResources filteredResources
  row render : ui.
End AddResourcesModal.

(** [components/dashboard/groups/groups-list.tsx] *)
Module GroupsList.
Inductive event := onEditGroup (g : Group) | onDeleteGroup (g : Group).

Section Dates.
  Context (dates : string → option string).

Definition row (g : Group) : ui event :=
  Box [Text (Group_name g); Text (Group_description g); Text (pretty (Group_memberCount g));
       Text (pretty (Group_resourceCount g)); Text (formatDate dates (Some (Group_createdAt g)));
       Text (formatDate dates (Group_updatedAt g));
       Button "Edit" false (onEditGroup g);
       Link ("/dashboard/groups/" +:+ Group_id g) [Text "View details"];
       Button "Delete" false (onDeleteGroup g)].

Definition render (groups : list Group) : ui event :=
  match groups with
  | [] => Text "No groups found"
  | _ => Box [Box (Text <$> ["Name"; "Description"; "Users"; "Resources"; "Created"; "Updated"; "Actions"]);
              Box (row <$> groups)]
  end.
End Dates.
End GroupsList.

(** [components/dashboard/groups/group-resources-section.tsx] *)
Module GroupResourcesSection.
Inductive event := onAddResourcesClick.

Definition row (r : Resource) : ui event :=
  Box [Text (Resource_name r); Text (Resource_address r); Text (Resource_description r);
       Link ("/dashboard/resources/" +:+ Resource_id r) [Text "Manage Access"]].

Definition render (resources : list Resource) : ui event :=
  Box [Text "Resource Access";
       Text "Resources this group has access to (determined by access policies)";
       Button "Add Resources" false onAddResourcesClick;
       match resources with
       | [] => Box [Text "No resource access policies configured yet";
                    Text "To grant this group resource access, configure access rules on the resource policy page"]
       | _ => Box [Box (Text <$> ["Resource"; "Address"; "Description"; "Actions"]);
                   Box (row <$> resources)]
       end].
End GroupResourcesSection.

(** [components/dashboard/groups/group-members-section.tsx].  The dialog that edits a user
    calls [handleUserUpdated] as it was when the dialog was submitted: its event carries
    the user and the members of that rendering, which may be any earlier one. *)
Module GroupMembersSection.
Record props := mkProps { groupId : string; members : list GroupMember; showAddModal : bool }.
Inductive output :=
  | onMembersChange (members : list GroupMember) | onAddModalChange (show : bool)
  | Toast (t : toast_message).
Inductive event :=
  | ClickAdd | EditUser (userId : string) | DeactivateUser (userId : string) (confirmed : bool)
  | RemoveMember (userId : string) | DeleteUser (userId : string) (confirmed : bool)
  | AddModalChange (open : bool) | MembersUpdated (ms : list GroupMember)
  | CloseEdit | UserUpdated (edited : option User) (ms : list GroupMember).

Record state := mkState {
  deleting : option string;
  isEditOpen : bool;
  editingUser : option User }.
Definition setDeleting (v : option string) : prog state output :=
  set (λ s, mkState v (isEditOpen s) (editingUser s)).
Definition setIsEditOpen (v : bool) : prog state output :=
  set (λ s, mkState (deleting s) v (editingUser s)).
Definition setEditingUser (v : option User) : prog state output :=
  set (λ s, mkState (deleting s) (isEditOpen s) v).

Definition initial : state := mkState None false None.

Definition handleRemoveMember (p : props) (userId : string) : prog state output :=
  steps
    [setDeleting (Some userId);
     try_await (RemoveGroupMember (groupId p) userId)
       (λ _, steps [emit (onMembersChange (filter (λ m, GroupMember_userId m ≠ userId) (members p)));
                    emit (Toast (toast_success "Member removed from group"))])
       (λ _, emit (Toast (toast_error "Failed to remove member")))
       (setDeleting None)].

Definition handleEditUser (userId : string) : prog state output :=
  try_await (GetUser userId)
    (λ user, steps [setEditingUser (Some user); setIsEditOpen true])
    (λ _, emit (Toast (toast_error "Failed to load user details")))
    Done.

Definition handleDeactivateUser (userId : string) (confirmed : bool) : prog state output :=
  when confirmed
    (try_await (Async.DeactivateUser userId)
      (λ _, emit (Toast (toast_success "User deactivated")))
      (λ _, emit (Toast (toast_error "Failed to deactivate user")))
      Done).

Definition handleDeleteUser (p : props) (userId : string) (confirmed : bool) : prog state output :=
  when confirmed
    (try_await (Async.DeleteUser userId)
      (λ _, steps [emit (onMembersChange (filter (λ m, GroupMember_userId m ≠ userId) (members p)));
                   emit (Toast (toast_success "User deleted"))])
      (λ _, emit (Toast (toast_error "Failed to delete user")))
      Done).

(** [{ ...m, userName: updated.name, email: updated.email }] for the member [updated]. *)
Definition with_user (updated : User) (m : GroupMember) : GroupMember :=
  if decide (GroupMember_userId m = User_id updated)
  then mkGroupMember (GroupMember_userId m) (User_name updated) (User_email updated)
  else m.

Definition handleUserUpdated (edited : option User) (ms : list GroupMember) : prog state output :=
  match edited with
  | None => Done
  | Some u =>
      try_await (GetUser (User_id u))
        (λ updated, emit (onMembersChange (with_user updated <$> ms)))
        (λ _, emit (Toast (toast_error "Failed to refresh user details")))
        Done
  end.

Definition row (s : state) (m : GroupMember) : ui event :=
  let i := GroupMember_userId m in
  Box [Text (GroupMember_userName m); Text (GroupMember_email m);
       Button "Edit" false (EditUser i);
       Ask "Deactivate" false (DeactivateUser i);
       Button "Remove from group" (bool_decide (deleting s = Some i)) (RemoveMember i);
       Ask "Delete" false (DeleteUser i)].

(** What the two dialogs may call. *)
Definition add_modal (e : event) : Prop :=
  (∃ open, e = AddModalChange open) ∨ (∃ ms, e = MembersUpdated ms).
Definition edit_modal (e : event) : Prop :=
  e = CloseEdit ∨ (∃ edited ms, e = UserUpdated edited ms).

Definition render (p : props) (s : state) : ui event :=
  Box [Text "Members"; Text "Users in this group inherit all resource permissions";
       Button "Add Users" false ClickAdd;
       match members p with
       | [] => Text "No members yet"
       | ms => Box [Box (Text <$> ["Name"; "Email"; "Activity"]); Box (row s <$> ms)]
       end;
       Child add_modal; Child edit_modal].

Definition on (p : props) (s : state) (e : event) : prog state output :=
  match e with
  | ClickAdd => emit (onAddModalChange true)
  | EditUser u => handleEditUser u
  | DeactivateUser u b => handleDeactivateUser u b
  | RemoveMember u => handleRemoveMember p u
  | DeleteUser u b => handleDeleteUser p u b
  | AddModalChange b => emit (onAddModalChange b)
  | MembersUpdated ms => emit (onMembersChange ms)
  | CloseEdit => steps [setIsEditOpen false; setEditingUser None]
  | UserUpdated u ms => handleUserUpdated u ms
  end.

Definition component : component :=
  mkComponent props state event output (λ _, initial) render on
    (λ _ _, Done) (λ _ _, True) (λ _ _, Done).

#[global] Hint Unfold setDeleting setIsEditOpen setEditingUser handleRemoveMember handleEditUser
  handleDeactivateUser handleDeleteUser with_user handleUserUpdated row render : ui.
End GroupMembersSection.
