(* ===== verification/UserForms.v ===== *)
(** * The dialogs and the list of the users page ([components/dashboard/users]) *)
From S2P Require Import Prelude JsString Json Jwt Types Client Ui Async.

(** [components/dashboard/users/add-user-modal.tsx] *)
Module AddUserModal.
Record props := mkProps { isOpen : bool }.
Inductive output := onClose | onUserAdded.
Inductive event :=
  | TypeName (v : string) | TypeEmail (v : string) | PickStatus (v : UserStatus) | Dismiss | Add.

Record state := mkState {
  name : string;
  email : string;
  status : UserStatus;
  isAdding : bool }.
Definition setName (v : string) : prog state output :=
  set (λ s, mkState v (email s) (status s) (isAdding s)).
Definition setEmail (v : string) : prog state output :=
  set (λ s, mkState (name s) v (status s) (isAdding s)).
Definition setStatus (v : UserStatus) : prog state output :=
  set (λ s, mkState (name s) (email s) v (isAdding s)).
Definition setIsAdding (v : bool) : prog state output :=
  set (λ s, mkState (name s) (email s) (status s) v).

Definition initial : state := mkState "" "" active false.

Definition handleAddUser (s : state) : prog state output :=
  when (negb (bool_decide (trim (name s) = "")) && negb (bool_decide (trim (email s) = "")))
    (steps
      [setIsAdding true;
       try_await (AddUser (name s) (email s) (string_of_UserStatus (status s)))
         (λ _, steps [emit onUserAdded; emit onClose; setName ""; setEmail ""; setStatus active])
         (λ _, Done)
         (setIsAdding false)]).

Definition handleClose : prog state output :=
  steps [setName ""; setEmail ""; setStatus active; emit onClose].

Definition render (p : props) (s : state) : ui event :=
  Dialog (isOpen p) Dismiss
    [Text "Add New User";
     Text "Create a new user identity for access control.";
     Input "Name" (name s) false TypeName;
     Input "Email" (email s) false TypeEmail;
     Text "Status";
     Button "Active" false (PickStatus active);
     Button "Inactive" false (PickStatus inactive);
     Button "Cancel" (isAdding s) Dismiss;
     Button (if isAdding s then "Adding..." else "Add User")
       (isAdding s || bool_decide (trim (name s) = "") || bool_decide (trim (email s) = "")) Add].

Definition on (p : props) (s : state) (e : event) : prog state output :=
  match e with
  | TypeName v => setName v
  | TypeEmail v => setEmail v
  | PickStatus v => setStatus v
  | Dismiss => handleClose
  | Add => handleAddUser s
  end.

Definition component : component :=
  mkComponent props state event output (λ _, initial) render on
    (λ _ _, Done) (λ _ _, True) (λ _ _, Done).

#[global] Hint Unfold setName setEmail setStatus setIsAdding handleAddUser handleClose render :
  ui.
End AddUserModal.

(** [components/dashboard/users/edit-user-modal.tsx] *)
Module EditUserModal.
Record props := mkProps { isOpen : bool; user : option User }.
Inductive output := onClose | onUserUpdated.
Inductive event :=
  | TypeName (v : string) | TypeEmail (v : string) | PickStatus (v : UserStatus) | Dismiss | Save.

Record state := mkState {
  name : string;
  email : string;
  status : string;
  isSaving : bool }.
Definition setName (v : string) : prog state output :=
  set (λ s, mkState v (email s) (status s) (isSaving s)).
Definition setEmail (v : string) : prog state output :=
  set (λ s, mkState (name s) v (status s) (isSaving s)).
Definition setStatus (v : string) : prog state output :=
  set (λ s, mkState (name s) (email s) v (isSaving s)).
Definition setIsSaving (v : bool) : prog state output :=
  set (λ s, mkState (name s) (email s) (status s) v).

Definition initial : state := mkState "" "" "active" false.

(** The effect fills the form when the user changes. *)
Definition loadUser (p : props) : prog state output :=
  match user p with
  | Some u => steps [setName (User_name u); setEmail (User_email u); setStatus (User_status u)]
  | None => Done
  end.

Definition handleClose : prog state output := emit onClose.

Definition handleSave (p : props) (s : state) : prog state output :=
  match user p with
  | None => Done
  | Some u =>
      when (negb (bool_decide (trim (name s) = "")) && negb (bool_decide (trim (email s) = "")))
        (steps
          [setIsSaving true;
           try_await (UpdateUser (User_id u) (name s) (email s) (status s))
             (λ _, steps [emit onUserUpdated; emit onClose])
             (λ _, Done)
             (setIsSaving false)])
  end.

Definition render (p : props) (s : state) : ui event :=
  Dialog (isOpen p) Dismiss
    [Text "Edit User";
     Text "Update user identity details.";
     Input "Name" (name s) false TypeName;
     Input "Email" (email s) false TypeEmail;
     Text "Status";
     Button "Active" false (PickStatus active);
     Button "Inactive" false (PickStatus inactive);
     Button "Cancel" (isSaving s) Dismiss;
     Button (if isSaving s then "Saving..." else "Save Changes")
       (isSaving s || bool_decide (trim (name s) = "") || bool_decide (trim (email s) = "")) Save].

Definition on (p : props) (s : state) (e : event) : prog state output :=
  match e with
  | TypeName v => setName v
  | TypeEmail v => setEmail v
  | PickStatus v => setStatus (string_of_UserStatus v)
  | Dismiss => handleClose
  | Save => handleSave p s
  end.

Definition component : component :=
  mkComponent props state event output (λ _, initial) render on
    (λ _ _, Done) (λ p p', user p = user p') (λ p _, loadUser p).

#[global] Hint Unfold setName setEmail setStatus setIsSaving loadUser handleClose handleSave
  render : ui.
End EditUserModal.

(** [components/dashboard/users/invite-user-modal.tsx]; [authToken] is the entry of local
    storage. *)
Module InviteUserModal.
Record props := mkProps { isOpen : bool; authToken : option string }.
Inductive output := onClose.
Inductive event := TypeEmail (v : string) | PressEnter | Dismiss | Send.

Record state := mkState {
  email : string;
  isSending : bool;
  result : option string }.
Definition setEmail (v : string) : prog state output :=
  set (λ s, mkState v (isSending s) (result s)).
Definition setIsSending (v : bool) : prog state output :=
  set (λ s, mkState (email s) v (result s)).
Definition setResult (v : option string) : prog state output :=
  set (λ s, mkState (email s) (isSending s) v).

Definition initial : state := mkState "" false None.

(** [claims?.wid], a string by its declared type. *)
Definition workspace_of (token : option string) : option string :=
  match wid <$> getWorkspaceClaims token with Some (JStr w) => Some w | _ => None end.

Section Engine.
  Context (engine_message : js_error → string).

Definition handleInvite (p : props) (s : state) : prog state output :=
  when (negb (bool_decide (trim (email s) = "")))
    (steps
      [setIsSending true;
       setResult None;
       try_await (InviteUser (trim (email s)) (workspace_of (authToken p)))
         (λ res, steps
           [setResult (Some
              match res.2 with
              | Some url => if decide (url = "") then "Invite email sent successfully."
                            else "Invite sent! (dev link: " +:+ url +:+ ")"
              | None => "Invite email sent successfully."
              end);
            setEmail ""])
         (λ e, setResult (Some ("Error: " +:+ error_message engine_message e)))
         (setIsSending false)]).

Definition handleClose : prog state output := steps [setEmail ""; setResult None; emit onClose].

(** Pressing Enter in the field calls the handler, whatever the button does. *)
Definition render (p : props) (s : state) : ui event :=
  Dialog (isOpen p) Dismiss
    [Text "Invite User";
     Text "Send an email invite. The recipient will sign in via Google OAuth.";
     Input "Email" (email s) false TypeEmail;
     Button "Enter" false PressEnter;
     match result s with Some r => show_if (negb (bool_decide (r = ""))) (Text r) | None => Nothing end;
     Button "Cancel" (isSending s) Dismiss;
     Button (if isSending s then "Sending..." else "Send Invite")
       (isSending s || bool_decide (trim (email s) = "")) Send].

Definition on (p : props) (s : state) (e : event) : prog state output :=
  match e with
  | TypeEmail v => setEmail v
  | PressEnter | Send => handleInvite p s
  | Dismiss => handleClose
  end.

Definition component : component :=
  mkComponent props state event output (λ _, initial) render on
    (λ _ _, Done) (λ _ _, True) (λ _ _, Done).
End Engine.

#[global] Hint Unfold setEmail setIsSending setResult workspace_of handleInvite handleClose
  render : ui.
End InviteUserModal.

(** [components/dashboard/users/users-list.tsx] *)
Module UsersList.
Inductive event := onEditUser (u : User) | onDeactivateUser (u : User) | onDeleteUser (u : User).

Definition row (u : User) : ui event :=
  Box [Text (User_name u); Text (User_email u); Text (default "" (User_role u));
       Text (User_status u);
       Text (match User_groups u with
             | [] => "No groups"
             | gs => pretty (length gs) +:+ " group(s)"
             end);
       Text (User_createdAt u);
       Button "Edit" false (onEditUser u);
       Button "Deactivate" (bool_decide (User_status u = "inactive")) (onDeactivateUser u);
       Button "Delete" false (onDeleteUser u)].

Definition render (users : list User) : ui event :=
  match users with
  | [] => Text "No users found"
  | _ => Box [Box (Text <$> ["Name"; "Email"; "Role"; "Status"; "Groups"; "Created"; "Activity"]);
              Box (row <$> users)]
  end.
End UsersList.
