(* ===== verification/NetworkForms.v ===== *)
(** * The dialogs, lists and details of the remote networks pages
    ([components/dashboard/remote-networks]) *)
From S2P Require Import Prelude JsString Types Client Ui Async.
From Stdlib Require Import Ascii ZArith.

(** [components/dashboard/remote-networks/add-connector-modal.tsx] *)
Module AddConnectorModal.
Record props := mkProps { isOpen : bool; remoteNetworkId : string }.
Inductive output := onClose | onConnectorAdded | Toast (t : toast_message).
Inductive event := TypeName (v : string) | Dismiss | Submit.

Record state := mkState {
  name : string;
  isSubmitting : bool }.
Definition setName (v : string) : prog state output :=
  set (λ s, mkState v (isSubmitting s)).
Definition setIsSubmitting (v : bool) : prog state output :=
  set (λ s, mkState (name s) v).

Definition initial : state := mkState "" false.

Definition handleClose : prog state output := steps [setName ""; emit onClose].

Definition handleSubmit (p : props) (s : state) : prog state output :=
  if bool_decide (trim (name s) = "") then
    emit (Toast (toast_error "Connector name cannot be empty."))
  else
    steps
      [setIsSubmitting true;
       try_await (AddConnector (name s) (remoteNetworkId p))
         (λ _, steps [emit (Toast (toast_success "Connector added successfully."));
                      emit onConnectorAdded; handleClose])
         (λ _, emit (Toast (toast_error "Failed to add connector.")))
         (setIsSubmitting false)].

Definition render (p : props) (s : state) : ui event :=
  Dialog (isOpen p) Dismiss
    [Text "Add New Connector";
     Text "Deploy a new connector to this remote network.";
     Input "Name" (name s) false TypeName;
     Button "Cancel" (isSubmitting s) Dismiss;
     Button (if isSubmitting s then "Adding..." else "Add Connector")
       (bool_decide (trim (name s) = "") || isSubmitting s) Submit].

Definition on (p : props) (s : state) (e : event) : prog state output :=
  match e with
  | TypeName v => setName v
  | Dismiss => handleClose
  | Submit => handleSubmit p s
  end.

Definition component : component :=
  mkComponent props state event output (λ _, initial) render on
    (λ _ _, Done) (λ _ _, True) (λ _ _, Done).

#[global] Hint Unfold setName setIsSubmitting handleClose handleSubmit render : ui.
End AddConnectorModal.

(** [components/dashboard/remote-networks/add-remote-network-modal.tsx] *)
Module AddRemoteNetworkModal.
Record props := mkProps { isOpen : bool }.
Inductive output := onClose | onNetworkAdded.
Inductive event := TypeName (v : string) | PickLocation (v : string) | Dismiss | Submit.

Definition LOCATION_OPTIONS : list (string * string) :=
  [("AWS", "AWS"); ("GCP", "GCP"); ("AZURE", "Azure"); ("ON_PREM", "On-Prem"); ("OTHER", "Other")].

Record state := mkState {
  name : string;
  location : string;
  isSubmitting : bool }.
Definition setName (v : string) : prog state output :=
  set (λ s, mkState v (location s) (isSubmitting s)).
Definition setLocation (v : string) : prog state output :=
  set (λ s, mkState (name s) v (isSubmitting s)).
Definition setIsSubmitting (v : bool) : prog state output :=
  set (λ s, mkState (name s) (location s) v).

Definition initial : state := mkState "" "" false.

Definition resetForm : prog state output := steps [setName ""; setLocation ""].

Definition handleClose : prog state output := steps [resetForm; emit onClose].

Definition canSubmit (s : state) : bool :=
  negb (bool_decide (trim (name s) = "")) && negb (bool_decide (location s = "")).

Definition handleSubmit (s : state) : prog state output :=
  when (canSubmit s)
    (steps
      [setIsSubmitting true;
       try_await (AddRemoteNetwork (trim (name s)) (location s))
         (λ _, steps [emit onNetworkAdded; handleClose])
         (λ _, Done)
         (setIsSubmitting false)]).

Definition render (p : props) (s : state) : ui event :=
  Dialog (isOpen p) Dismiss
    [Text "Add Remote Network";
     Text "Create a new remote network to attach connectors and resources.";
     Input "Name" (name s) false TypeName;
     Select "Location" (location s) false LOCATION_OPTIONS PickLocation;
     Button "Cancel" (isSubmitting s) Dismiss;
     Button "Add Network" (negb (canSubmit s) || isSubmitting s) Submit].

Definition on (p : props) (s : state) (e : event) : prog state output :=
  match e with
  | TypeName v => setName v
  | PickLocation v => setLocation v
  | Dismiss => handleClose
  | Submit => handleSubmit s
  end.

Definition component : component :=
  mkComponent props state event output (λ _, initial) render on
    (λ _ _, Done) (λ _ _, True) (λ _ _, Done).

#[global] Hint Unfold setName setLocation setIsSubmitting resetForm handleClose canSubmit
  handleSubmit render : ui.
End AddRemoteNetworkModal.

(** [components/dashboard/remote-networks/network-connectors-list.tsx] *)
Module NetworkConnectorsList.
Inductive event := onAddConnectorClick.

Definition status_text (c : Connector) : string :=
  if negb (Connector_installed c) then "Not installed"
  else if bool_decide (Connector_status c = "online") then "Online" else "Offline".

Definition row (c : Connector) : ui event :=
  Box [Link ("/dashboard/connectors/" +:+ Connector_id c) [Text (Connector_name c)];
       Text (status_text c); Text (Connector_version c); Text (Connector_hostname c)].

Definition render (connectors : list Connector) : ui event :=
  Box [Text "Connectors"; Text "Connectors deployed in this remote network.";
       Button "Add Connector" false onAddConnectorClick;
       match connectors with
       | [] => Box [Text "No connectors found for this network.";
                    Button "Add Connector" false onAddConnectorClick]
       | _ => Box [Box (Text <$> ["Name"; "Status"; "Version"; "Hostname"]); Box (row <$> connectors)]
       end].
End NetworkConnectorsList.

(** [components/dashboard/remote-networks/network-resources-list.tsx] *)
Module NetworkResourcesList.
Inductive event := onAddResourceClick.

Definition row (r : Resource) : ui event :=
  Box [Text (Resource_name r); Text (Resource_address r); Text (Resource_description r);
       Link ("/dashboard/resources/" +:+ Resource_id r) [Text "Manage Access"]].

Definition render (resources : list Resource) : ui event :=
  Box [Text "Resources"; Text "Resources available in this remote network.";
       Button "Add Resource" false onAddResourceClick;
       match resources with
       | [] => Box [Text "No resources found for this network.";
                    Button "Add Resource" false onAddResourceClick]
       | _ => Box [Box (Text <$> ["Name"; "Address"; "Description"; "Actions"]); Box (row <$> resources)]
       end].
End NetworkResourcesList.

(** How many connectors of a network are online. *)
Definition online_text (n : RemoteNetwork) : string :=
  pretty (RemoteNetwork_onlineConnectorCount n) +:+ " / " +:+
  pretty (RemoteNetwork_connectorCount n) +:+ " Online".

(** [components/dashboard/remote-networks/remote-network-info-section.tsx]; [dates v] is
    [new Date(v).toLocaleString()], if the date is valid, and [unix n] the same for
    [new Date(n)]. *)
Module RemoteNetworkInfoSection.
Section Dates.
  Context (dates : string → option string) (unix : Z → option string).

(** [/^\d+$/.test(v)] *)
Definition all_digits (v : string) : bool :=
  let l := to_list v in
  negb (bool_decide (l = [])) && forallb (λ c, (48 <=? code c) && (code c <=? 57))%N l.

(** [v.replace(' ', 'T')]: the first space. *)
Definition with_T (v : string) : string :=
  match indexOf " "%char v with
  | Some i => slice_to i v +:+ "T" +:+ slice_from (S i) v
  | None => v
  end.

Definition formatDate (value : option string) : string :=
  match value with
  | None => "-"
  | Some v =>
      if bool_decide (v = "") then "-"
      else
        let seconds := (Json.read_digits 0 0 (to_list v)).1.1 in
        match (if all_digits v then unix (seconds * 1000)%Z else None) with
        | Some d => d
        | None =>
            match dates v with
            | Some d => d
            | None => default v (dates (with_T v))
            end
        end
  end.

Definition render {E} (n : RemoteNetwork) : ui E :=
  Box [Text "Network Details"; Text "Information about this remote network.";
       Box [Text "Name"; Text (RemoteNetwork_name n)];
       Box [Text "Location"; Text (RemoteNetwork_location n)];
       Box [Text "Connectors"; Text (online_text n)];
       Box [Text "Resources"; Text (pretty (RemoteNetwork_resourceCount n) +:+ " resources")];
       Box [Text "Network ID"; Text (RemoteNetwork_id n)];
       Box [Text "Created"; Text (formatDate (Some (RemoteNetwork_createdAt n)))]].
End Dates.
End RemoteNetworkInfoSection.

(** [components/dashboard/remote-networks/remote-networks-list.tsx] *)
Module RemoteNetworksList.
Record props := mkProps { networks : list RemoteNetwork }.
Inductive output := onNetworkDeleted | Toast (t : toast_message).
Inductive event := AskDelete (n : RemoteNetwork) | DialogClose | ConfirmDelete.

Record state := mkState {
  deleteTarget : option RemoteNetwork;
  deleting : bool }.
Definition setDeleteTarget (v : option RemoteNetwork) : prog state output :=
  set (λ s, mkState v (deleting s)).
Definition setDeleting (v : bool) : prog state output :=
  set (λ s, mkState (deleteTarget s) v).

Definition initial : state := mkState None false.

Definition handleDelete (s : state) : prog state output :=
  match deleteTarget s with
  | None => Done
  | Some n =>
      steps
        [setDeleting true;
         try_await (DeleteRemoteNetwork (RemoteNetwork_id n))
           (λ _, steps [emit (Toast (toast_success ("Remote network " +:+ quoted (RemoteNetwork_name n)
                                                    +:+ " deleted.")));
                        emit onNetworkDeleted])
           (λ _, emit (Toast (toast_error "Failed to delete remote network.")))
           (steps [setDeleting false; setDeleteTarget None])]
  end.

Section Dates.
  Context (dates : string → option string).

Definition row (n : RemoteNetwork) : ui event :=
  Box [Text (RemoteNetwork_name n); Text ("ID: " +:+ RemoteNetwork_id n);
       Text (RemoteNetwork_location n); Text (online_text n);
       Text (pretty (RemoteNetwork_resourceCount n) +:+ " Resources");
       Text (formatDate dates (RemoteNetwork_updatedAt n));
       Link ("/dashboard/remote-networks/" +:+ RemoteNetwork_id n) [Text "Manage"];
       Button "Delete" false (AskDelete n)].

(** The confirmation is open while there is a target; its action also closes it. *)
Definition confirmation (s : state) : ui event :=
  match deleteTarget s with
  | None => Nothing
  | Some n =>
      Box [Text "Delete Remote Network";
           Text ("Are you sure you want to delete " +:+ RemoteNetwork_name n +:+
                 "? All connectors, agents, resources, and access rules in this network will be permanently removed.");
           Button "Escape" false DialogClose;
           Button "Cancel" (deleting s) DialogClose;
           Button "Delete" (deleting s) ConfirmDelete]
  end.

Definition render (p : props) (s : state) : ui event :=
  match networks p with
  | [] => Text "No remote networks found"
  | ns => Box [Box (Text <$> ["Network Name"; "Location"; "Connectors"; "Resources"; "Updated"; "Actions"]);
               Box (row <$> ns); confirmation s]
  end.

Definition on (p : props) (s : state) (e : event) : prog state output :=
  match e with
  | AskDelete n => setDeleteTarget (Some n)
  | DialogClose => setDeleteTarget None
  | ConfirmDelete => steps [fork (handleDelete s); setDeleteTarget None]
  end.

Definition component : component :=
  mkComponent props state event output (λ _, initial) render on
    (λ _ _, Done) (λ _ _, True) (λ _ _, Done).
End Dates.

#[global] Hint Unfold setDeleteTarget setDeleting handleDelete row confirmation render : ui.
End RemoteNetworksList.
