(* ===== verification/Picker.v ===== *)
(** * The subject picker and the dialogs that use it

    [components/subjects/subject-picker.tsx], [components/dashboard/groups/add-members-modal.tsx]
    and [components/dashboard/resources/add-access-rule-modal.tsx].  The dialogs know of
    the picker only what [picker_calls] promises of the selections it reports; that the
    picker keeps the promise is proved below. *)
From S2P Require Import Prelude JsString Types Client Ui Async.

#[global] Instance SelectedSubject_eq_dec : EqDecision SelectedSubject.
Proof. solve_decision. Defined.

(** ** The interface

    [selected'] is a selection the picker may report for its props: one subject taken
    away, or a subject of a wanted type, not excluded and not selected, put at the end. *)
Inductive picker_calls (subjectTypes : list SubjectType) (excluded : list string)
  (selected : list SelectedSubject) : list SelectedSubject → Prop :=
  | picker_removes id :
      picker_calls subjectTypes excluded selected (filter (λ s, Selected_id s ≠ id) selected)
  | picker_adds x : Selected_type x ∈ subjectTypes → Selected_id x ∉ excluded →
      Selected_id x ∉ (Selected_id <$> selected) →
      picker_calls subjectTypes excluded selected (selected ++ [x]).

Module SubjectPicker.
Record props := mkProps {
  selectedSubjects : list SelectedSubject; subjectTypes : list SubjectType;
  excludeSubjects : list string }.
Inductive output := onSelectionChange (subjects : list SelectedSubject).
Inductive event :=
  | PickTab (t : SubjectType) | Search (v : string) | Toggle (subject : Subject)
  | Remove (id : string).

Record state := mkState {
  allSubjects : list Subject;
  loading : bool;
  searchQuery : string;
  activeTab : option SubjectType }.
Definition setAllSubjects (v : list Subject) : prog state output :=
  set (λ s, mkState v (loading s) (searchQuery s) (activeTab s)).
Definition setLoading (v : bool) : prog state output :=
  set (λ s, mkState (allSubjects s) v (searchQuery s) (activeTab s)).
Definition setSearchQuery (v : string) : prog state output :=
  set (λ s, mkState (allSubjects s) (loading s) v (activeTab s)).
Definition setActiveTab (v : option SubjectType) : prog state output :=
  set (λ s, mkState (allSubjects s) (loading s) (searchQuery s) v).

(** [subjectTypes.includes('USER') ? 'USER' : subjectTypes[0]] *)
Definition initial (p : props) : state :=
  mkState [] true ""
    (if bool_decide (USER ∈ subjectTypes p) then Some USER else head (subjectTypes p)).

Definition loadSubjects : prog state output :=
  try_await GetSubjects setAllSubjects (λ _, Done) (setLoading false).

Definition filteredSubjects (p : props) (s : state) : list Subject :=
  filter (λ x, Some (Subject_type x) = activeTab s ∧
               includes (toLowerCase (Subject_name x)) (toLowerCase (searchQuery s)) = true ∧
               Subject_id x ∉ excludeSubjects p)
    (allSubjects s).

Definition isSelected (p : props) (id : string) : bool :=
  existsb (λ x, bool_decide (Selected_id x = id)) (selectedSubjects p).

Definition toggleSubject (p : props) (x : Subject) : prog state output :=
  emit (onSelectionChange
    (if isSelected p (Subject_id x)
     then filter (λ y, Selected_id y ≠ Subject_id x) (selectedSubjects p)
     else selectedSubjects p ++
          [mkSelected (Subject_id x) (Subject_type x) (Subject_displayLabel x)])).

Definition removeSelected (p : props) (id : string) : prog state output :=
  emit (onSelectionChange (filter (λ y, Selected_id y ≠ id) (selectedSubjects p))).

Definition availableTabs (p : props) (s : state) : list SubjectType :=
  filter (λ t, t ∈ (Subject_type <$> allSubjects s)) (subjectTypes p).

Definition row (p : props) (x : Subject) : ui event :=
  Box [Checkbox (Subject_id x) (isSelected p (Subject_id x)) (λ _, Toggle x);
       Text (Subject_name x); Text (string_of_SubjectType (Subject_type x))].

(** The trigger and the content of a tab; the content is shown while the tab is active. *)
Definition trigger (p : props) (s : state) (t : SubjectType) (label : string) : ui event :=
  show_if (bool_decide (t ∈ availableTabs p s)) (Button label false (PickTab t)).

Definition content (p : props) (s : state) (t : SubjectType) (things : string) : ui event :=
  show_if (bool_decide (t ∈ availableTabs p s) && bool_decide (activeTab s = Some t))
    (if loading s then Nothing
     else if decide (filteredSubjects p s = []) then
       Text ("No " +:+ things +:+ (if decide (searchQuery s = "") then " available" else " found"))
     else Box (row p <$> filteredSubjects p s)).

Definition render (p : props) (s : state) : ui event :=
  Box [trigger p s USER "Users"; trigger p s GROUP "Groups"; trigger p s SERVICE "Services";
       Input "Search" (searchQuery s) (loading s) Search;
       content p s USER "users"; content p s GROUP "groups"; content p s SERVICE "services";
       show_if (negb (bool_decide (selectedSubjects p = [])))
         (Box (Text ("Selected (" +:+ pretty (length (selectedSubjects p)) +:+ ")") ::
            ((λ x, Box [Text (Selected_label x); Button "Remove" false (Remove (Selected_id x))])
              <$> selectedSubjects p)))].

Definition on (p : props) (s : state) (e : event) : prog state output :=
  match e with
  | PickTab t => setActiveTab (Some t)
  | Search v => setSearchQuery v
  | Toggle x => toggleSubject p x
  | Remove id => removeSelected p id
  end.

Definition component : component :=
  mkComponent props state event output initial render on
    (λ _ _, fork loadSubjects) (λ _ _, True) (λ _ _, Done).

#[global] Hint Unfold setAllSubjects setLoading setSearchQuery setActiveTab loadSubjects
  filteredSubjects isSelected toggleSubject removeSelected availableTabs row trigger content
  render : ui.
End SubjectPicker.

Module AddMembersModal.
Record props := mkProps { groupId : string; isOpen : bool; currentMembers : list GroupMember }.
Inductive output :=
  | onOpenChange (open : bool) | onMembersUpdated (members : list GroupMember)
  | Toast (t : toast_message).
Inductive event := SelectionChange (subjects : list SelectedSubject) | Dismiss | Save.

Record state := mkState {
  selectedUsers : list SelectedSubject;
  saving : bool }.
Definition setSelectedUsers (v : list SelectedSubject) : prog state output :=
  set (λ s, mkState v (saving s)).
Definition setSaving (v : bool) : prog state output :=
  set (λ s, mkState (selectedUsers s) v).

Definition initial : state := mkState [] false.

Definition excludeUserIds (p : props) : list string := GroupMember_userId <$> currentMembers p.

(** The members as the page is told: the e-mail of a new one is left empty. *)
Definition newMembers (p : props) (s : state) : list GroupMember :=
  currentMembers p ++
  ((λ u, mkGroupMember (Selected_id u) (replace "User: " "" (Selected_label u)) "")
    <$> selectedUsers s).

Definition handleSave (p : props) (s : state) : prog state output :=
  if bool_decide (selectedUsers s = []) then
    emit (Toast (toast_error "Please select at least one user"))
  else
    steps
      [setSaving true;
       try_await (UpdateGroupMembers (groupId p)
                    ((GroupMember_userId <$> currentMembers p) ++ (Selected_id <$> selectedUsers s)))
         (λ _, steps
           [emit (onMembersUpdated (newMembers p s));
            setSelectedUsers [];
            emit (onOpenChange false);
            emit (Toast (toast_success ("Added " +:+ pretty (length (selectedUsers s))
                                        +:+ " member(s) to group")))])
         (λ _, emit (Toast (toast_error "Failed to update group members")))
         (setSaving false)].

(** The dialog only ever asks to be closed. *)
Definition handleOpenChange (newOpen : bool) : prog state output :=
  steps [when (negb newOpen) (setSelectedUsers []); emit (onOpenChange newOpen)].

Definition render (p : props) (s : state) : ui event :=
  Dialog (isOpen p) Dismiss
    [Text "Add Members to Group";
     Text "Select users to add to this group. They will inherit all resource permissions.";
     Child (λ e, ∃ l, picker_calls [USER] (excludeUserIds p) (selectedUsers s) l ∧
                      e = SelectionChange l);
     Button "Cancel" (saving s) Dismiss;
     Button (if saving s then "Saving..." else "Add Members")
       (saving s || bool_decide (selectedUsers s = [])) Save].

Definition on (p : props) (s : state) (e : event) : prog state output :=
  match e with
  | SelectionChange l => setSelectedUsers l
  | Dismiss => handleOpenChange false
  | Save => handleSave p s
  end.

Definition component : component :=
  mkComponent props state event output (λ _, initial) render on
    (λ _ _, Done) (λ _ _, True) (λ _ _, Done).

#[global] Hint Unfold setSelectedUsers setSaving excludeUserIds newMembers handleSave
  handleOpenChange render : ui.
End AddMembersModal.

Module AddAccessRuleModal.
Record props := mkProps { resourceId : string; isOpen : bool }.
Inductive output :=
  | onOpenChange (open : bool) | onRuleCreated (rule : AccessRule) | Toast (t : toast_message).
Inductive event :=
  | TypeName (v : string) | SelectionChange (subjects : list SelectedSubject)
  | Enable (b : bool) | Dismiss | Save.

Record state := mkState {
  selectedGroups : list SelectedSubject;
  ruleName : string;
  enabled : bool;
  saving : bool }.
Definition setSelectedGroups (v : list SelectedSubject) : prog state output :=
  set (λ s, mkState v (ruleName s) (enabled s) (saving s)).
Definition setRuleName (v : string) : prog state output :=
  set (λ s, mkState (selectedGroups s) v (enabled s) (saving s)).
Definition setEnabled (v : bool) : prog state output :=
  set (λ s, mkState (selectedGroups s) (ruleName s) v (saving s)).
Definition setSaving (v : bool) : prog state output :=
  set (λ s, mkState (selectedGroups s) (ruleName s) (enabled s) v).

Definition initial : state := mkState [] "" true false.

Definition clear : prog state output :=
  steps [setSelectedGroups []; setRuleName ""; setEnabled true].

Definition handleSave (p : props) (s : state) : prog state output :=
  if bool_decide (trim (ruleName s) = "") then
    emit (Toast (toast_error "Please provide a rule name"))
  else if bool_decide (selectedGroups s = []) then
    emit (Toast (toast_error "Please select at least one group"))
  else
    steps
      [setSaving true;
       try_await (CreateAccessRule (resourceId p) (trim (ruleName s))
                    (Selected_id <$> selectedGroups s) (enabled s))
         (λ rule, steps
           [emit (onRuleCreated rule); clear; emit (onOpenChange false);
            emit (Toast (toast_success "Created access rule"))])
         (λ _, emit (Toast (toast_error "Failed to create access rule")))
         (setSaving false)].

Definition handleOpenChange (newOpen : bool) : prog state output :=
  steps [when (negb newOpen) clear; emit (onOpenChange newOpen)].

Definition render (p : props) (s : state) : ui event :=
  Dialog (isOpen p) Dismiss
    [Text "Add Access Rule";
     Text "Define which groups can access this resource.";
     Input "Rule Name" (ruleName s) false TypeName;
     Text "Select Groups"; Text "(Groups only)";
     Child (λ e, ∃ l, picker_calls [GROUP] [] (selectedGroups s) l ∧ e = SelectionChange l);
     Text "Enabled"; Text "Disabled rules are ignored during policy compilation.";
     Checkbox "Enabled" (enabled s) Enable;
     Button "Cancel" (saving s) Dismiss;
     Button (if saving s then "Creating..." else "Create Access Rule")
       (saving s || bool_decide (selectedGroups s = []) || bool_decide (trim (ruleName s) = ""))
       Save].

Definition on (p : props) (s : state) (e : event) : prog state output :=
  match e with
  | TypeName v => setRuleName v
  | SelectionChange l => setSelectedGroups l
  | Enable b => setEnabled b
  | Dismiss => handleOpenChange false
  | Save => handleSave p s
  end.

Definition component : component :=
  mkComponent props state event output (λ _, initial) render on
    (λ _ _, Done) (λ _ _, True) (λ _ _, Done).

#[global] Hint Unfold setSelectedGroups setRuleName setEnabled setSaving clear handleSave
  handleOpenChange render : ui.
End AddAccessRuleModal.
