(* ===== verification/ResourceForms.v ===== *)
(** * The dialogs, lists and details of the resources pages
    ([components/dashboard/resources]) *)
From S2P Require Import Prelude JsString Json Types Client Storage ResourcePolicies Ui Async.
From stdpp Require Import gmap.
From Stdlib Require Import Ascii ZArith.

(** The options of the selections. *)
Definition network_options (networks : list RemoteNetwork) : list (string * string) :=
  (λ n, (RemoteNetwork_id n, RemoteNetwork_name n)) <$> networks.

(** [v.replace(/\s/g, '')] *)
Definition no_space (v : string) : string := without is_space v.

(** [components/dashboard/resources/add-resource-modal.tsx]; [stored] is the local storage
    when the dialog opens. *)
Module AddResourceModal.
Inductive PortMode := all | custom | blocked.
Inductive AccessMode := manual | auto_lock | requests.
Definition string_of_PortMode (m : PortMode) : string :=
  match m with all => "all" | custom => "custom" | blocked => "blocked" end.
Definition string_of_AccessMode (m : AccessMode) : string :=
  match m with manual => "manual" | auto_lock => "auto-lock" | requests => "requests" end.

Record props := mkProps {
  isOpen : bool; defaultNetworkId : option string; lockNetwork : bool; stored : storage }.
(** [Store op]: an operation on local storage. *)
Inductive output :=
  | onClose | onResourceAdded | Store (op : M storage unit) | Toast (t : toast_message).
Inductive event :=
  | PickNetwork (v : string) | TypeName (v : string) | PickType (t : ResourceType)
  | TypeAddress (v : string) | PickTcp (v : string) | TypeTcp (v : string)
  | PickUdp (v : string) | TypeUdp (v : string) | PickPolicy (v : string)
  | PickAccess (v : string) | TypeAlias (v : string) | Dismiss | Submit.

Record state := mkState {
  networks : list RemoteNetwork;
  loadingNetworks : bool;
  policies : list jsv;
  networkId : string;
  name : string;
  resourceType : ResourceType;
  address : string;
  alias : string;
  tcpMode : string;
  tcpPorts : string;
  udpMode : string;
  udpPorts : string;
  policyId : jsv;
  accessMode : string;
  isSubmitting : bool }.
Definition setNetworks (v : list RemoteNetwork) : prog state output :=
  set (λ s, mkState v (loadingNetworks s) (policies s) (networkId s) (name s) (resourceType s)
    (address s) (alias s) (tcpMode s) (tcpPorts s) (udpMode s) (udpPorts s) (policyId s)
    (accessMode s) (isSubmitting s)).
Definition setLoadingNetworks (v : bool) : prog state output :=
  set (λ s, mkState (networks s) v (policies s) (networkId s) (name s) (resourceType s)
    (address s) (alias s) (tcpMode s) (tcpPorts s) (udpMode s) (udpPorts s) (policyId s)
    (accessMode s) (isSubmitting s)).
Definition setPolicies (v : list jsv) : prog state output :=
  set (λ s, mkState (networks s) (loadingNetworks s) v (networkId s) (name s) (resourceType s)
    (address s) (alias s) (tcpMode s) (tcpPorts s) (udpMode s) (udpPorts s) (policyId s)
    (accessMode s) (isSubmitting s)).
Definition setNetworkId (v : string) : prog state output :=
  set (λ s, mkState (networks s) (loadingNetworks s) (policies s) v (name s) (resourceType s)
    (address s) (alias s) (tcpMode s) (tcpPorts s) (udpMode s) (udpPorts s) (policyId s)
    (accessMode s) (isSubmitting s)).
Definition setName (v : string) : prog state output :=
  set (λ s, mkState (networks s) (loadingNetworks s) (policies s) (networkId s) v
    (resourceType s) (address s) (alias s) (tcpMode s) (tcpPorts s) (udpMode s) (udpPorts s)
    (policyId s) (accessMode s) (isSubmitting s)).
Definition setResourceType (v : ResourceType) : prog state output :=
  set (λ s, mkState (networks s) (loadingNetworks s) (policies s) (networkId s) (name s) v
    (address s) (alias s) (tcpMode s) (tcpPorts s) (udpMode s) (udpPorts s) (policyId s)
    (accessMode s) (isSubmitting s)).
Definition setAddress (v : string) : prog state output :=
  set (λ s, mkState (networks s) (loadingNetworks s) (policies s) (networkId s) (name s)
    (resourceType s) v (alias s) (tcpMode s) (tcpPorts s) (udpMode s) (udpPorts s) (policyId s)
    (accessMode s) (isSubmitting s)).
Definition setAlias (v : string) : prog state output :=
  set (λ s, mkState (networks s) (loadingNetworks s) (policies s) (networkId s) (name s)
    (resourceType s) (address s) v (tcpMode s) (tcpPorts s) (udpMode s) (udpPorts s)
    (policyId s) (accessMode s) (isSubmitting s)).
Definition setTcpMode (v : string) : prog state output :=
  set (λ s, mkState (networks s) (loadingNetworks s) (policies s) (networkId s) (name s)
    (resourceType s) (address s) (alias s) v (tcpPorts s) (udpMode s) (udpPorts s) (policyId s)
    (accessMode s) (isSubmitting s)).
Definition setTcpPorts (v : string) : prog state output :=
  set (λ s, mkState (networks s) (loadingNetworks s) (policies s) (networkId s) (name s)
    (resourceType s) (address s) (alias s) (tcpMode s) v (udpMode s) (udpPorts s) (policyId s)
    (accessMode s) (isSubmitting s)).
Definition setUdpMode (v : string) : prog state output :=
  set (λ s, mkState (networks s) (loadingNetworks s) (policies s) (networkId s) (name s)
    (resourceType s) (address s) (alias s) (tcpMode s) (tcpPorts s) v (udpPorts s) (policyId s)
    (accessMode s) (isSubmitting s)).
Definition setUdpPorts (v : string) : prog state output :=
  set (λ s, mkState (networks s) (loadingNetworks s) (policies s) (networkId s) (name s)
    (resourceType s) (address s) (alias s) (tcpMode s) (tcpPorts s) (udpMode s) v (policyId s)
    (accessMode s) (isSubmitting s)).
Definition setPolicyId (v : jsv) : prog state output :=
  set (λ s, mkState (networks s) (loadingNetworks s) (policies s) (networkId s) (name s)
    (resourceType s) (address s) (alias s) (tcpMode s) (tcpPorts s) (udpMode s) (udpPorts s) v
    (accessMode s) (isSubmitting s)).
Definition setAccessMode (v : string) : prog state output :=
  set (λ s, mkState (networks s) (loadingNetworks s) (policies s) (networkId s) (name s)
    (resourceType s) (address s) (alias s) (tcpMode s) (tcpPorts s) (udpMode s) (udpPorts s)
    (policyId s) v (isSubmitting s)).
Definition setIsSubmitting (v : bool) : prog state output :=
  set (λ s, mkState (networks s) (loadingNetworks s) (policies s) (networkId s) (name s)
    (resourceType s) (address s) (alias s) (tcpMode s) (tcpPorts s) (udpMode s) (udpPorts s)
    (policyId s) (accessMode s) v).

Definition initial (p : props) : state :=
  mkState [] true [] (default "" (defaultNetworkId p)) "" STANDARD "" "" "all" "" "all" ""
    (JStr "") "manual" false.

Definition fetchNetworks : prog state output :=
  steps
    [setLoadingNetworks true;
     try_await GetRemoteNetworks setNetworks
       (λ _, emit (Toast (toast_error "Failed to load networks")))
       (setLoadingNetworks false)].

(** The effect; reading the [id] of an entry of the storage that has none throws. *)
Definition opened (p : props) (s : state) : prog state output :=
  when (isOpen p)
    (steps
      [fork fetchNetworks;
       match defaultNetworkId p with
       | Some d => when (bool_decide (networkId s = "") && negb (bool_decide (d = ""))) (setNetworkId d)
       | None => Done
       end;
       emit (Store ensureDefaultResourcePolicy);
       match result_of listResourcePolicies (stored p) with
       | Ok loaded =>
           steps
             [setPolicies loaded;
              match loaded with
              | first :: _ =>
                  when (negb (truthy (policyId s)))
                    match field first "id" with Ok i => setPolicyId i | Throw _ => Done end
              | [] => Done
              end]
       | Throw _ => Done
       end]).

(** [policies[0]?.id ?? ''] *)
Definition first_policy (s : state) : jsv :=
  match policies s with p :: _ => nullish_or (opt_field p "id") (JStr "") | [] => JStr "" end.

Definition resetForm (p : props) (s : state) : prog state output :=
  steps [setNetworkId (default "" (defaultNetworkId p)); setName ""; setResourceType STANDARD;
         setAddress ""; setAlias ""; setTcpMode "all"; setTcpPorts ""; setUdpMode "all";
         setUdpPorts ""; setPolicyId (first_policy s); setAccessMode "manual"].

Definition handleClose (p : props) (s : state) : prog state output :=
  steps [resetForm p s; emit onClose].

Definition canSubmit (s : state) : bool :=
  negb (bool_decide (networkId s = "")) && negb (bool_decide (name s = "")) &&
  negb (bool_decide (address s = "")).

Definition submitted (s : state) : resource_data :=
  let activeTcp := negb (bool_decide (tcpMode s = "blocked")) in
  mkResourceData (networkId s) (name s) (string_of_ResourceType (resourceType s)) (address s)
    (if activeTcp then "TCP" else "UDP") JNull JNull
    (if decide (alias s = "") then None else Some (alias s)).

Definition handleSubmit (p : props) (s : state) : prog state output :=
  when (canSubmit s)
    (steps
      [setIsSubmitting true;
       try_await (AddResource (submitted s))
         (λ _, steps [emit (Toast (toast_success "Resource created"));
                      emit onResourceAdded; handleClose p s])
         (λ _, emit (Toast (toast_error "Failed to create resource")))
         (setIsSubmitting false)]).

Definition port_options : list (string * string) :=
  [("all", "All ports"); ("custom", "Custom"); ("blocked", "Blocked")].

Definition render (p : props) (s : state) : ui event :=
  Dialog (isOpen p) Dismiss
    [Text "Create Resource";
     Text "Define a private service that users can securely access.";
     Select "Network" (networkId s) (loadingNetworks s || lockNetwork p)
       (network_options (networks s)) PickNetwork;
     Input "Label" (name s) false TypeName;
     Text "Type";
     Button "STANDARD" false (PickType STANDARD);
     Button "BROWSER" false (PickType BROWSER);
     Button "BACKGROUND" false (PickType BACKGROUND);
     Input "Address" (address s) false TypeAddress;
     Text "Port Restrictions";
     Text "TCP"; Select "TCP" (tcpMode s) false port_options PickTcp;
     show_if (bool_decide (tcpMode s = "custom")) (Input "TCP ports" (tcpPorts s) false TypeTcp);
     Text "UDP"; Select "UDP" (udpMode s) false port_options PickUdp;
     show_if (bool_decide (udpMode s = "custom")) (Input "UDP ports" (udpPorts s) false TypeUdp);
     Select "Policy" (to_string (policyId s)) false
       ((λ q, (to_string (opt_field q "id"), to_string (opt_field q "name"))) <$> policies s)
       PickPolicy;
     Select "Access" (accessMode s) false
       [("manual", "Manual Access"); ("auto-lock", "Auto-lock"); ("requests", "Access Requests")]
       PickAccess;
     Input "Alias" (alias s) false TypeAlias;
     Button "Cancel" (isSubmitting s) Dismiss;
     Button "Create Resource" (negb (canSubmit s) || isSubmitting s) Submit].

Definition on (p : props) (s : state) (e : event) : prog state output :=
  match e with
  | PickNetwork v => setNetworkId v
  | TypeName v => setName v
  | PickType t => setResourceType t
  | TypeAddress v => setAddress (no_space v)
  | PickTcp v => setTcpMode v
  | TypeTcp v => setTcpPorts v
  | PickUdp v => setUdpMode v
  | TypeUdp v => setUdpPorts v
  | PickPolicy v => setPolicyId (JStr v)
  | PickAccess v => setAccessMode v
  | TypeAlias v => setAlias v
  | Dismiss => handleClose p s
  | Submit => handleSubmit p s
  end.

Definition component : component :=
  mkComponent props state event output initial render on
    (λ _ _, Done)
    (λ p p', isOpen p = isOpen p' ∧ defaultNetworkId p = defaultNetworkId p') opened.

#[global] Hint Unfold setNetworks setLoadingNetworks setPolicies setNetworkId setName
  setResourceType setAddress setAlias setTcpMode setTcpPorts setUdpMode setUdpPorts setPolicyId
  setAccessMode setIsSubmitting fetchNetworks opened first_policy resetForm handleClose
  canSubmit submitted handleSubmit render : ui.
End AddResourceModal.

(** [components/dashboard/resources/edit-resource-modal.tsx] *)
Module EditResourceModal.
Record props := mkProps { resource : option Resource; isOpen : bool }.
Inductive output := onClose | onResourceUpdated | Toast (t : toast_message).
Inductive event :=
  | PickNetwork (v : string) | TypeName (v : string) | PickType (t : ResourceType)
  | TypeAddress (v : string) | PickProtocol (v : string) | TypePortFrom (v : string)
  | TypePortTo (v : string) | TypeAlias (v : string) | Dismiss | Submit.

Record state := mkState {
  networks : list RemoteNetwork;
  loadingNetworks : bool;
  networkId : string;
  name : string;
  resourceType : string;
  address : string;
  protocol : string;
  portFrom : string;
  portTo : string;
  alias : string;
  isSubmitting : bool }.
Definition setNetworks (v : list RemoteNetwork) : prog state output :=
  set (λ s, mkState v (loadingNetworks s) (networkId s) (name s) (resourceType s) (address s)
    (protocol s) (portFrom s) (portTo s) (alias s) (isSubmitting s)).
Definition setLoadingNetworks (v : bool) : prog state output :=
  set (λ s, mkState (networks s) v (networkId s) (name s) (resourceType s) (address s)
    (protocol s) (portFrom s) (portTo s) (alias s) (isSubmitting s)).
Definition setNetworkId (v : string) : prog state output :=
  set (λ s, mkState (networks s) (loadingNetworks s) v (name s) (resourceType s) (address s)
    (protocol s) (portFrom s) (portTo s) (alias s) (isSubmitting s)).
Definition setName (v : string) : prog state output :=
  set (λ s, mkState (networks s) (loadingNetworks s) (networkId s) v (resourceType s)
    (address s) (protocol s) (portFrom s) (portTo s) (alias s) (isSubmitting s)).
Definition setResourceType (v : string) : prog state output :=
  set (λ s, mkState (networks s) (loadingNetworks s) (networkId s) (name s) v (address s)
    (protocol s) (portFrom s) (portTo s) (alias s) (isSubmitting s)).
Definition setAddress (v : string) : prog state output :=
  set (λ s, mkState (networks s) (loadingNetworks s) (networkId s) (name s) (resourceType s) v
    (protocol s) (portFrom s) (portTo s) (alias s) (isSubmitting s)).
Definition setProtocol (v : string) : prog state output :=
  set (λ s, mkState (networks s) (loadingNetworks s) (networkId s) (name s) (resourceType s)
    (address s) v (portFrom s) (portTo s) (alias s) (isSubmitting s)).
Definition setPortFrom (v : string) : prog state output :=
  set (λ s, mkState (networks s) (loadingNetworks s) (networkId s) (name s) (resourceType s)
    (address s) (protocol s) v (portTo s) (alias s) (isSubmitting s)).
Definition setPortTo (v : string) : prog state output :=
  set (λ s, mkState (networks s) (loadingNetworks s) (networkId s) (name s) (resourceType s)
    (address s) (protocol s) (portFrom s) v (alias s) (isSubmitting s)).
Definition setAlias (v : string) : prog state output :=
  set (λ s, mkState (networks s) (loadingNetworks s) (networkId s) (name s) (resourceType s)
    (address s) (protocol s) (portFrom s) (portTo s) v (isSubmitting s)).
Definition setIsSubmitting (v : bool) : prog state output :=
  set (λ s, mkState (networks s) (loadingNetworks s) (networkId s) (name s) (resourceType s)
    (address s) (protocol s) (portFrom s) (portTo s) (alias s) v).

Definition initial : state := mkState [] true "" "" "STANDARD" "" "TCP" "" "" "" false.

Definition fetchNetworks : prog state output :=
  steps
    [setLoadingNetworks true;
     try_await GetRemoteNetworks setNetworks
       (λ _, emit (Toast (toast_error "Failed to load networks")))
       (setLoadingNetworks false)].

(** [port ? String(port) : ''] *)
Definition port_text (port : option Z) : string :=
  match port with Some n => if bool_decide (n = 0%Z) then "" else string_of_Z n | None => "" end.

(** The effect. *)
Definition opened (p : props) : prog state output :=
  when (isOpen p)
    (steps
      [fork fetchNetworks;
       match resource p with
       | Some r => steps
           [setNetworkId (default "" (Resource_remoteNetworkId r)); setName (Resource_name r);
            setResourceType (Resource_type r); setAddress (Resource_address r);
            setProtocol (or_else (Resource_protocol r) "TCP");
            setPortFrom (port_text (Resource_portFrom r)); setPortTo (port_text (Resource_portTo r));
            setAlias (default "" (Resource_alias r))]
       | None => Done
       end]).

Definition canSubmit (s : state) : bool :=
  negb (bool_decide (networkId s = "")) && negb (bool_decide (name s = "")) &&
  negb (bool_decide (address s = "")) && negb (bool_decide (protocol s = "")).

(** [port ? Number(port) : null] *)
Definition port_sent (port : string) : jsv :=
  if decide (port = "") then JNull else JNum (string_to_number port).

Definition submitted (s : state) : resource_data :=
  mkResourceData (networkId s) (name s) (resourceType s) (address s) (protocol s)
    (port_sent (portFrom s)) (port_sent (portTo s))
    (if decide (alias s = "") then None else Some (alias s)).

Definition handleSubmit (p : props) (s : state) : prog state output :=
  match resource p with
  | None => Done
  | Some r =>
      when (canSubmit s)
        (steps
          [setIsSubmitting true;
           try_await (UpdateResource (Resource_id r) (submitted s))
             (λ _, steps [emit (Toast (toast_success "Resource updated"));
                          emit onResourceUpdated; emit onClose])
             (λ _, emit (Toast (toast_error "Failed to update resource")))
             (setIsSubmitting false)])
  end.

Definition render (p : props) (s : state) : ui event :=
  Dialog (isOpen p) Dismiss
    [Text "Edit Resource";
     Text "Modify the details of this private service.";
     Select "Network" (networkId s) (loadingNetworks s) (network_options (networks s)) PickNetwork;
     Input "Label" (name s) false TypeName;
     Text "Type";
     Button "STANDARD" false (PickType STANDARD);
     Button "BROWSER" false (PickType BROWSER);
     Button "BACKGROUND" false (PickType BACKGROUND);
     Input "Address" (address s) false TypeAddress;
     Select "Protocol" (protocol s) false [("TCP", "TCP"); ("UDP", "UDP")] PickProtocol;
     Input "Port From" (portFrom s) false TypePortFrom;
     Input "Port To" (portTo s) false TypePortTo;
     Input "Alias (Optional)" (alias s) false TypeAlias;
     Button "Cancel" (isSubmitting s) Dismiss;
     Button "Save Changes" (negb (canSubmit s) || isSubmitting s) Submit].

Definition digits_only (v : string) : string := without (λ c, negb (is_digit c)) v.

Definition on (p : props) (s : state) (e : event) : prog state output :=
  match e with
  | PickNetwork v => setNetworkId v
  | TypeName v => setName v
  | PickType t => setResourceType (string_of_ResourceType t)
  | TypeAddress v => setAddress (no_space v)
  | PickProtocol v => setProtocol v
  | TypePortFrom v => setPortFrom (digits_only v)
  | TypePortTo v => setPortTo (digits_only v)
  | TypeAlias v => setAlias v
  | Dismiss => emit onClose
  | Submit => handleSubmit p s
  end.

Definition component : component :=
  mkComponent props state event output (λ _, initial) render on
    (λ _ _, Done) (λ p p', isOpen p = isOpen p' ∧ resource p = resource p') (λ p _, opened p).

#[global] Hint Unfold setNetworks setLoadingNetworks setNetworkId setName setResourceType
  setAddress setProtocol setPortFrom setPortTo setAlias setIsSubmitting fetchNetworks opened
  canSubmit submitted handleSubmit render : ui.
End EditResourceModal.

(** [components/dashboard/resources/resources-list.tsx] *)
Module ResourcesList.
Record props := mkProps { resources : list Resource; remoteNetworks : list RemoteNetwork }.
Inductive output := onEdit (r : Resource) | onDelete (resourceId : string) | onFirewallStatusChange.
Inductive event := ToggleFirewall (r : Resource) | Edit (r : Resource) | Delete (resourceId : string).

Record state := mkState {
  togglingId : option string }.
Definition setTogglingId (v : option string) : prog state output :=
  set (λ s, mkState v).

Definition initial : state := mkState None.

Definition getNetworkName (p : props) (networkId : string) : string :=
  match find_row (λ n, bool_decide (RemoteNetwork_id n = networkId)) (remoteNetworks p) with
  | Some n => RemoteNetwork_name n
  | None => networkId
  end.

Definition isProtected (r : Resource) : bool :=
  bool_decide (Resource_firewallStatus r = Some "protected").

Definition handleFirewallToggle (r : Resource) : prog state output :=
  steps
    [setTogglingId (Some (Resource_id r));
     try_await (SetResourceFirewallStatus (Resource_id r)
                  (if isProtected r then "unprotected" else "protected"))
       (λ _, emit onFirewallStatusChange) (λ _, Done) (setTogglingId None)].

Definition isToggling (s : state) (r : Resource) : bool :=
  bool_decide (togglingId s = Some (Resource_id r)).

Definition row (p : props) (s : state) (r : Resource) : ui event :=
  Box [Text (Resource_name r); Text (Resource_address r);
       match Resource_remoteNetworkId r with
       | Some n => if decide (n = "") then Text "-"
                   else Link ("/dashboard/remote-networks/" +:+ n) [Text (getNetworkName p n)]
       | None => Text "-"
       end;
       Text (if isProtected r then "Protected" else "Unprotected");
       Button (if isToggling s r then "" else if isProtected r then "Unprotect" else "Protect")
         (isToggling s r) (ToggleFirewall r);
       Text "Open menu";
       Button "Edit" false (Edit r);
       Link ("/dashboard/resources/" +:+ Resource_id r) [Text "Manage Access"];
       Button "Delete" false (Delete (Resource_id r))].

Definition render (p : props) (s : state) : ui event :=
  match resources p with
  | [] => Text "No resources found"
  | rs => Box [Box (Text <$> ["Resource"; "Address"; "Remote Network"; "Firewall"; "Actions"]);
               Box (row p s <$> rs)]
  end.

Definition on (p : props) (s : state) (e : event) : prog state output :=
  match e with
  | ToggleFirewall r => handleFirewallToggle r
  | Edit r => emit (onEdit r)
  | Delete i => emit (onDelete i)
  end.

Definition component : component :=
  mkComponent props state event output (λ _, initial) render on
    (λ _ _, Done) (λ _ _, True) (λ _ _, Done).

#[global] Hint Unfold setTogglingId getNetworkName isProtected handleFirewallToggle isToggling
  row render : ui.
End ResourcesList.

(** [components/dashboard/resources/resource-info-section.tsx] *)
Module ResourceInfoSection.
Definition render {E} (r : Resource) : ui E :=
  Box [Text "Resource Information"; Text "Details about this protected resource"; Text "Resource";
       Box [Text "Name"; Text (Resource_name r)];
       Box [Text "Address"; Text (Resource_address r)];
       Box [Text "Description"; Text (Resource_description r)]].
End ResourceInfoSection.

(** [components/dashboard/resources/access-rules-table.tsx] *)
Module AccessRulesTable.
Record props := mkProps { resourceId : string; accessRules : list AccessRule }.
Inductive output :=
  | onRulesChange (rules : list AccessRule) | onAddRule | Toast (t : toast_message).
Inductive event := ClickAdd | AskDelete (ruleId : string) | DialogClose | ConfirmDelete.

Record state := mkState {
  deleting : option string;
  confirmDelete : option string;
  groupMap : gmap string string;
  identityCounts : gmap string Z }.
Definition setDeleting (v : option string) : prog state output :=
  set (λ s, mkState v (confirmDelete s) (groupMap s) (identityCounts s)).
Definition setConfirmDelete (v : option string) : prog state output :=
  set (λ s, mkState (deleting s) v (groupMap s) (identityCounts s)).
Definition setGroupMap (v : gmap string string) : prog state output :=
  set (λ s, mkState (deleting s) (confirmDelete s) v (identityCounts s)).
Definition setIdentityCounts (v : gmap string Z) : prog state output :=
  set (λ s, mkState (deleting s) (confirmDelete s) (groupMap s) v).

Definition initial : state := mkState None None ∅ ∅.

(** [map[k] = v] for each pair, in order. *)
Definition set_all {A} (l : list (string * A)) : gmap string A :=
  foldl (λ m kv, <[kv.1 := kv.2]> m) ∅ l.

Definition loadGroups : prog state output :=
  try_await GetGroups
    (λ groups, setGroupMap (set_all ((λ g, (Group_id g, Group_name g)) <$> groups)))
    (λ _, Done) Done.

Definition counted (p : props) : list string :=
  filter (λ i, i ≠ "") (AccessRule_id <$> accessRules p).

Definition loadCounts (p : props) : prog state output :=
  try_await (Every (GetAccessRuleIdentityCount <$> counted p))
    (λ counts, setIdentityCounts (set_all (zip (counted p) counts)))
    (λ _, Done) Done.

(** [groupMap[id] || id] *)
Definition group_name (s : state) (id : string) : string := or_else (default "" (groupMap s !! id)) id.

Definition formatGroups (s : state) (groupIds : list string) : string :=
  match groupIds with [] => "No groups" | _ => join_with ", " (group_name s <$> groupIds) end.

Definition handleDeleteRule (p : props) (ruleId : string) : prog state output :=
  steps
    [setDeleting (Some ruleId);
     try_await (DeleteAccessRule ruleId)
       (λ _, steps [emit (onRulesChange (filter (λ r, AccessRule_id r ≠ ruleId) (accessRules p)));
                    setConfirmDelete None;
                    emit (Toast (toast_success "Access rule deleted"))])
       (λ _, emit (Toast (toast_error "Failed to delete access rule")))
       (setDeleting None)].

Definition row (s : state) (r : AccessRule) : ui event :=
  Box [Text (AccessRule_name r); Text (formatGroups s (AccessRule_allowedGroups r));
       Text (if AccessRule_enabled r then "Enabled" else "Disabled");
       Text (pretty (default 0%Z (identityCounts s !! AccessRule_id r)));
       Text (AccessRule_createdAt r);
       Button "Delete" (bool_decide (deleting s = Some (AccessRule_id r)))
         (AskDelete (AccessRule_id r))].

(** The confirmation, open while there is a rule to confirm; its action also closes it. *)
Definition confirmation (s : state) : ui event :=
  match confirmDelete s with
  | None => Nothing
  | Some i =>
      if decide (i = "") then Nothing
      else
        let isDeleting := bool_decide (deleting s = Some i) in
        Box [Text "Delete Access Rule";
             Text "This will remove access to this resource for the selected subject. This action cannot be undone.";
             Button "Escape" false DialogClose;
             Button "Cancel" false DialogClose;
             Button (if isDeleting then "Deleting..." else "Delete") isDeleting ConfirmDelete]
  end.

Definition render (p : props) (s : state) : ui event :=
  Box [Text "Access Rules"; Text "Define which groups can access this resource";
       Button "Add Access Rule" false ClickAdd;
       match accessRules p with
       | [] => Box [Text "No access rules configured yet";
                    Text "Add your first access rule to grant subjects access to this resource"]
       | rules => Box [Box (Text <$> ["Name"; "Groups"; "Status"; "Identities"; "Created"; "Actions"]);
                       Box (row s <$> rules)]
       end;
       confirmation s].

Definition on (p : props) (s : state) (e : event) : prog state output :=
  match e with
  | ClickAdd => emit onAddRule
  | AskDelete i => setConfirmDelete (Some i)
  | DialogClose => setConfirmDelete None
  | ConfirmDelete =>
      steps
        [match confirmDelete s with
         | Some i => when (negb (bool_decide (i = ""))) (fork (handleDeleteRule p i))
         | None => Done
         end;
         setConfirmDelete None]
  end.

Definition component : component :=
  mkComponent props state event output (λ _, initial) render on
    (λ _ _, fork loadGroups) (λ p p', accessRules p = accessRules p')
    (λ p _, fork (loadCounts p)).

#[global] Hint Unfold setDeleting setConfirmDelete setGroupMap setIdentityCounts set_all
  loadGroups counted loadCounts group_name formatGroups handleDeleteRule row confirmation render
  : ui.
End AccessRulesTable.
