(* ===== verification/ConnectorForms.v ===== *)
(** * The dialog, list and details of the connectors pages
    ([components/dashboard/connectors]) *)
From S2P Require Import Prelude JsString Types Client Ui Async.
From Stdlib Require Import ZArith.

(** [components/dashboard/connectors/add-connector-modal.tsx] *)
Module AddConnectorModal.
Record props := mkProps { isOpen : bool }.
Inductive output := onClose | onConnectorAdded.
Inductive event := TypeName (v : string) | PickNetwork (v : string) | Dismiss | Add.

Record state := mkState {
  name : string;
  remoteNetworks : list RemoteNetwork;
  remoteNetworkId : string;
  loadingNetworks : bool;
  isAdding : bool;
  error : option string }.
Definition setName (v : string) : prog state output :=
  set (λ s, mkState v (remoteNetworks s) (remoteNetworkId s) (loadingNetworks s) (isAdding s)
    (error s)).
Definition setRemoteNetworks (v : list RemoteNetwork) : prog state output :=
  set (λ s, mkState (name s) v (remoteNetworkId s) (loadingNetworks s) (isAdding s) (error s)).
Definition setRemoteNetworkId (v : string) : prog state output :=
  set (λ s, mkState (name s) (remoteNetworks s) v (loadingNetworks s) (isAdding s) (error s)).
Definition setLoadingNetworks (v : bool) : prog state output :=
  set (λ s, mkState (name s) (remoteNetworks s) (remoteNetworkId s) v (isAdding s) (error s)).
Definition setIsAdding (v : bool) : prog state output :=
  set (λ s, mkState (name s) (remoteNetworks s) (remoteNetworkId s) (loadingNetworks s) v
    (error s)).
Definition setError (v : option string) : prog state output :=
  set (λ s, mkState (name s) (remoteNetworks s) (remoteNetworkId s) (loadingNetworks s)
    (isAdding s) v).

Definition initial : state := mkState "" [] "" false false None.

Definition trimmedName (s : state) : string := trim (name s).

(** The effect: a chain of [then], [catch] and [finally] that is not awaited. *)
Definition opened (p : props) : prog state output :=
  when (isOpen p)
    (steps
      [setError None; setLoadingNetworks true;
       fork (try_await GetRemoteNetworks setRemoteNetworks (λ _, setRemoteNetworks [])
               (setLoadingNetworks false))]).

Section Engine.
  Context (engine_message : js_error → string).

Definition handleAdd (s : state) : prog state output :=
  steps
    [setError None;
     if bool_decide (trimmedName s = "") then setError (Some "Connector name is required.")
     else if bool_decide (remoteNetworkId s = "") then setError (Some "Remote network is required.")
     else steps
       [setIsAdding true;
        try_await (AddConnector (trimmedName s) (remoteNetworkId s))
          (λ _, steps [emit onConnectorAdded; emit onClose; setName ""; setRemoteNetworkId ""])
          (λ e, setError (Some (or_else (error_message engine_message e) "Failed to add connector.")))
          (setIsAdding false)]].

Definition render (p : props) (s : state) : ui event :=
  Dialog (isOpen p) Dismiss
    [Text "Add Connector";
     Text "Register a connector and assign it to a remote network.";
     Input "Name" (name s) false TypeName;
     Select "Remote Network" (remoteNetworkId s)
       (loadingNetworks s || bool_decide (remoteNetworks s = []))
       ((λ n, (RemoteNetwork_id n, RemoteNetwork_name n)) <$> remoteNetworks s) PickNetwork;
     match error s with
     | Some m => show_if (negb (bool_decide (m = ""))) (Text m)
     | None => Nothing
     end;
     Button "Cancel" (isAdding s) Dismiss;
     Button (if isAdding s then "Adding..." else "Add Connector")
       (isAdding s || bool_decide (trimmedName s = "") || bool_decide (remoteNetworkId s = "")) Add].

Definition on (p : props) (s : state) (e : event) : prog state output :=
  match e with
  | TypeName v => setName v
  | PickNetwork v => setRemoteNetworkId v
  | Dismiss => emit onClose
  | Add => handleAdd s
  end.

Definition component : component :=
  mkComponent props state event output (λ _, initial) render on
    (λ _ _, Done) (λ p p', isOpen p = isOpen p') (λ p _, opened p).
End Engine.

#[global] Hint Unfold setName setRemoteNetworks setRemoteNetworkId setLoadingNetworks
  setIsAdding setError trimmedName opened handleAdd render : ui.
End AddConnectorModal.

(** [components/dashboard/connectors/connectors-list.tsx] *)
Module ConnectorsList.
Record props := mkProps { connectors : list Connector }.
Inductive output := onConnectorDeleted | Toast (t : toast_message).
Inductive event := AskDelete (c : Connector) | DialogClose | ConfirmDelete.

Record state := mkState {
  deleteTarget : option Connector;
  deleting : bool }.
Definition setDeleteTarget (v : option Connector) : prog state output :=
  set (λ s, mkState v (deleting s)).
Definition setDeleting (v : bool) : prog state output :=
  set (λ s, mkState (deleteTarget s) v).

Definition initial : state := mkState None false.

Definition handleDelete (s : state) : prog state output :=
  match deleteTarget s with
  | None => Done
  | Some c =>
      steps
        [setDeleting true;
         try_await (DeleteConnector (Connector_id c))
           (λ _, steps [emit (Toast (toast_success ("Connector " +:+ quoted (Connector_name c)
                                                    +:+ " deleted.")));
                        emit onConnectorDeleted])
           (λ _, emit (Toast (toast_error "Failed to delete connector.")))
           (steps [setDeleting false; setDeleteTarget None])]
  end.

Definition status_text (c : Connector) : string :=
  if negb (Connector_installed c) then "Not installed"
  else if bool_decide (Connector_status c = "online") then "Online" else "Offline".

Definition row (c : Connector) : ui event :=
  Box [Text (Connector_name c); Text (status_text c);
       Text (if Connector_installed c then Connector_version c else "-");
       Text (if Connector_installed c then Connector_hostname c else "-");
       Text "Open menu";
       Link ("/dashboard/connectors/" +:+ Connector_id c) [Text "Manage"];
       Button "Delete" false (AskDelete c)].

(** The confirmation is open while there is a target; its action also closes it. *)
Definition confirmation (s : state) : ui event :=
  match deleteTarget s with
  | None => Nothing
  | Some c =>
      Box [Text "Delete Connector";
           Text ("Are you sure you want to delete " +:+ Connector_name c +:+
                 "? All agents connected through this connector will also be permanently removed.");
           Button "Escape" false DialogClose;
           Button "Cancel" (deleting s) DialogClose;
           Button "Delete" (deleting s) ConfirmDelete]
  end.

Definition render (p : props) (s : state) : ui event :=
  match connectors p with
  | [] => Text "No connectors found"
  | cs => Box [Box (Text <$> ["Name"; "Status"; "Version"; "Hostname"; "Actions"]);
               Box (row <$> cs); confirmation s]
  end.

Definition on (p : props) (s : state) (e : event) : prog state output :=
  match e with
  | AskDelete c => setDeleteTarget (Some c)
  | DialogClose => setDeleteTarget None
  | ConfirmDelete => steps [fork (handleDelete s); setDeleteTarget None]
  end.

Definition component : component :=
  mkComponent props state event output (λ _, initial) render on
    (λ _ _, Done) (λ _ _, True) (λ _ _, Done).

#[global] Hint Unfold setDeleteTarget setDeleting handleDelete status_text row confirmation
  render : ui.
End ConnectorsList.

(** [components/dashboard/connectors/connector-info-section.tsx] *)
Module ConnectorInfoSection.
Definition status_text (status : string) : string :=
  if decide (status = "revoked") then "Revoked"
  else if decide (status = "online") then "Online" else "Offline".

(** The link to the network, if the network is known. *)
Definition network_link {E} (network : option RemoteNetwork) : ui E :=
  match network with
  | Some n => Link ("/dashboard/remote-networks/" +:+ RemoteNetwork_id n) [Text (RemoteNetwork_name n)]
  | None => Text "N/A"
  end.

Definition render {E} (dates : string → option string) (c : Connector)
  (network : option RemoteNetwork) : ui E :=
  Box [Text "Connector Details"; Text "Information about this connector.";
       Box [Text "Name"; Text (Connector_name c)];
       Box [Text "Status"; Text (status_text (Connector_status c))];
       Box [Text "Version"; Text (Connector_version c)];
       Box [Text "Last Seen"; Text (toLocaleString dates (Connector_lastSeen c))];
       Box [Text "Remote Network"; network_link network];
       Box [Text "Hostname"; Text (Connector_hostname c)]].
End ConnectorInfoSection.

(** [components/dashboard/connectors/connector-logs.tsx] *)
Module ConnectorLogs.
(** The last event first. *)
Definition render {E} (dates : string → option string) (logs : list ConnectorLog) : ui E :=
  Box [Text "Recent Events"; Text "A stream of recent events from the connector.";
       match logs with
       | [] => Text "No recent events."
       | _ => Box (reverse ((λ l, Box [Text (formatDate dates (Some (ConnectorLog_timestamp l)));
                                       Text (ConnectorLog_message l)]) <$> logs))
       end].
End ConnectorLogs.
