(* ===== verification/AgentForms.v ===== *)
(** * The dialog, list and details of the agents pages ([components/dashboard/agents]) and
    the list of service accounts ([components/dashboard/service-accounts]) *)
From S2P Require Import Prelude JsString Types Client Ui Async ConnectorForms.
From Stdlib Require Import ZArith.

(** [components/dashboard/agents/add-tunneler-modal.tsx] *)
Module AddTunnelerModal.
Record props := mkProps { isOpen : bool }.
Inductive output := onClose | onTunnelerAdded.
Inductive event :=
  | TypeName (v : string) | PickConnector (v : string) | PickNetwork (v : string) | Dismiss | Add.

Record state := mkState {
  name : string;
  connectors : list Connector;
  connectorId : string;
  remoteNetworks : list RemoteNetwork;
  remoteNetworkId : string;
  loadingData : bool;
  isAdding : bool;
  error : option string }.
Definition setName (v : string) : prog state output :=
  set (λ s, mkState v (connectors s) (connectorId s) (remoteNetworks s) (remoteNetworkId s)
    (loadingData s) (isAdding s) (error s)).
Definition setConnectors (v : list Connector) : prog state output :=
  set (λ s, mkState (name s) v (connectorId s) (remoteNetworks s) (remoteNetworkId s)
    (loadingData s) (isAdding s) (error s)).
Definition setConnectorId (v : string) : prog state output :=
  set (λ s, mkState (name s) (connectors s) v (remoteNetworks s) (remoteNetworkId s)
    (loadingData s) (isAdding s) (error s)).
Definition setRemoteNetworks (v : list RemoteNetwork) : prog state output :=
  set (λ s, mkState (name s) (connectors s) (connectorId s) v (remoteNetworkId s)
    (loadingData s) (isAdding s) (error s)).
Definition setRemoteNetworkId (v : string) : prog state output :=
  set (λ s, mkState (name s) (connectors s) (connectorId s) (remoteNetworks s) v (loadingData s)
    (isAdding s) (error s)).
Definition setLoadingData (v : bool) : prog state output :=
  set (λ s, mkState (name s) (connectors s) (connectorId s) (remoteNetworks s)
    (remoteNetworkId s) v (isAdding s) (error s)).
Definition setIsAdding (v : bool) : prog state output :=
  set (λ s, mkState (name s) (connectors s) (connectorId s) (remoteNetworks s)
    (remoteNetworkId s) (loadingData s) v (error s)).
Definition setError (v : option string) : prog state output :=
  set (λ s, mkState (name s) (connectors s) (connectorId s) (remoteNetworks s)
    (remoteNetworkId s) (loadingData s) (isAdding s) v).

Definition initial : state := mkState "" [] "" [] "" false false None.

Definition trimmedName (s : state) : string := trim (name s).

(** The effect: both lists are fetched at once. *)
Definition opened (p : props) : prog state output :=
  when (isOpen p)
    (steps
      [setError None; setLoadingData true;
       fork (try_await (Both GetConnectors GetRemoteNetworks)
               (λ lists, steps [setConnectors (filter (λ c, Connector_installed c = true) lists.1);
                                setRemoteNetworks lists.2])
               (λ _, steps [setConnectors []; setRemoteNetworks []])
               (setLoadingData false))]).

(** [id || undefined] *)
Definition or_undefined (id : string) : option string := if decide (id = "") then None else Some id.

Section Engine.
  Context (engine_message : js_error → string).

Definition handleAdd (s : state) : prog state output :=
  steps
    [setError None;
     if bool_decide (trimmedName s = "") then setError (Some "Tunneler name is required.")
     else steps
       [setIsAdding true;
        try_await (AddAgent (trimmedName s) (or_undefined (connectorId s))
                     (or_undefined (remoteNetworkId s)))
          (λ _, steps [emit onTunnelerAdded; emit onClose; setName ""; setConnectorId "";
                       setRemoteNetworkId ""])
          (λ e, setError (Some (or_else (error_message engine_message e) "Failed to add tunneler.")))
          (setIsAdding false)]].

(** A selection whose first option stands for none. *)
Definition with_none (options : list (string * string)) : list (string * string) :=
  ("__none__", "None") :: options.
Definition unless_none (v : string) : string := if decide (v = "__none__") then "" else v.

Definition connector_option (c : Connector) : string * string :=
  (Connector_id c,
   Connector_name c +:+
   match Connector_privateIp c with
   | Some ip => if decide (ip = "") then "" else "(" +:+ ip +:+ ")"
   | None => ""
   end).

Definition render (p : props) (s : state) : ui event :=
  Dialog (isOpen p) Dismiss
    [Text "Add Tunneler";
     Text "Register a tunneler and optionally assign it to a connector and remote network.";
     Input "Name" (name s) false TypeName;
     Select "Connector" (or_else (connectorId s) "__none__") (loadingData s)
       (with_none (connector_option <$> connectors s)) PickConnector;
     show_if (negb (loadingData s) && bool_decide (connectors s = []))
       (Text "No installed connectors found. You can still create the tunneler and select a connector later.");
     Select "Remote Network" (or_else (remoteNetworkId s) "__none__") (loadingData s)
       (with_none ((λ n, (RemoteNetwork_id n, RemoteNetwork_name n)) <$> remoteNetworks s))
       PickNetwork;
     match error s with
     | Some m => show_if (negb (bool_decide (m = ""))) (Text m)
     | None => Nothing
     end;
     Button "Cancel" (isAdding s) Dismiss;
     Button (if isAdding s then "Adding..." else "Add Tunneler")
       (isAdding s || bool_decide (trimmedName s = "")) Add].

Definition on (p : props) (s : state) (e : event) : prog state output :=
  match e with
  | TypeName v => setName v
  | PickConnector v => setConnectorId (unless_none v)
  | PickNetwork v => setRemoteNetworkId (unless_none v)
  | Dismiss => emit onClose
  | Add => handleAdd s
  end.

Definition component : component :=
  mkComponent props state event output (λ _, initial) render on
    (λ _ _, Done) (λ p p', isOpen p = isOpen p') (λ p _, opened p).
End Engine.

#[global] Hint Unfold setName setConnectors setConnectorId setRemoteNetworks setRemoteNetworkId
  setLoadingData setIsAdding setError trimmedName opened or_undefined handleAdd with_none
  unless_none connector_option render : ui.
End AddTunnelerModal.

(** [components/dashboard/agents/agents-list.tsx] *)
Module AgentsList.
Record props := mkProps { agents : list Agent }.
Inductive output := onRevoked (id : string) | Toast (t : toast_message).
Inductive event := Revoke (a : Agent) (confirmed : bool).

Record state := mkState {
  revokingId : option string }.
Definition setRevokingId (v : option string) : prog state output :=
  set (λ s, mkState v).

Definition initial : state := mkState None.

Definition handleRevoke (a : Agent) (confirmed : bool) : prog state output :=
  when confirmed
    (steps
      [setRevokingId (Some (Agent_id a));
       try_await (DeleteAgent (Agent_id a))
         (λ _, steps [emit (Toast (toast_success ("Agent " +:+ quoted (Agent_name a) +:+ " deleted.")));
                      emit (onRevoked (Agent_id a))])
         (λ _, emit (Toast (toast_error "Failed to delete agent. Check that the backend is running.")))
         (setRevokingId None)]).

Definition row (s : state) (a : Agent) : ui event :=
  Box [Text (Agent_name a); Text (ConnectorInfoSection.status_text (Agent_status a));
       Text (or_else (Agent_version a) "-"); Text (or_else (Agent_hostname a) "-");
       if decide (Agent_remoteNetworkId a = "") then Text "-"
       else Link ("/dashboard/remote-networks/" +:+ Agent_remoteNetworkId a)
              [Text (Agent_remoteNetworkId a)];
       Link ("/dashboard/agents/" +:+ Agent_id a) [Text "Manage"];
       Ask "Delete" (bool_decide (revokingId s = Some (Agent_id a))) (Revoke a)].

Definition render (p : props) (s : state) : ui event :=
  match agents p with
  | [] => Text "No agents found"
  | l => Box [Box (Text <$> ["Name"; "Status"; "Version"; "Hostname"; "Remote Network"; "Actions"]);
              Box (row s <$> l)]
  end.

Definition on (p : props) (s : state) (e : event) : prog state output :=
  match e with Revoke a b => handleRevoke a b end.

Definition component : component :=
  mkComponent props state event output (λ _, initial) render on
    (λ _ _, Done) (λ _ _, True) (λ _ _, Done).

#[global] Hint Unfold setRevokingId handleRevoke row render : ui.
End AgentsList.

(** [components/dashboard/agents/tunneler-info-section.tsx] *)
Module AgentInfoSection.
Definition render {E} (dates : string → option string) (a : Agent)
  (network : option RemoteNetwork) : ui E :=
  Box [Text "Agent Details"; Text "Information about this agent.";
       Box [Text "Name"; Text (Agent_name a)];
       Box [Text "Status"; Text (ConnectorInfoSection.status_text (Agent_status a))];
       Box [Text "Version"; Text (or_else (Agent_version a) "-")];
       Box [Text "Last Seen";
            Text match Agent_lastSeen a with
                 | Some v => if decide (v = "") then "-" else toLocaleString dates v
                 | None => "-"
                 end];
       Box [Text "Remote Network"; ConnectorInfoSection.network_link network];
       Box [Text "Hostname"; Text (or_else (Agent_hostname a) "-")]].
End AgentInfoSection.

(** [components/dashboard/service-accounts/service-accounts-list.tsx] *)
Module ServiceAccountsList.
Definition row {E} (a : ServiceAccount) : ui E :=
  Box [Text (ServiceAccount_name a); Text (string_of_SubjectType (ServiceAccount_type a));
       Text (ServiceAccount_status a); Text (pretty (ServiceAccount_associatedResourceCount a));
       Text (ServiceAccount_createdAt a)].

Definition render {E} (serviceAccounts : list ServiceAccount) : ui E :=
  match serviceAccounts with
  | [] => Text "No service accounts found"
  | l => Box [Box (Text <$> ["Name"; "Type"; "Status"; "Resources"; "Created"]); Box (row <$> l)]
  end.
End ServiceAccountsList.

(** [components/dashboard/agents/agent-install.tsx]; [hostname] is that of the page's
    location.  The effect that depends on the state ([Prefer]) may run after any
    rendering; it changes nothing once a connector is selected. *)
Module AgentInstall.
Record props := mkProps {
  initialAgentId : option string; initialConnectorId : option string; hostname : string }.
Inductive output := Navigate (to : string) | Copy (text : string) | Toast (t : toast_message).
Inductive event :=
  | Prefer | SelectConnector (id : string) | CreateToken | DeleteAgent (confirmed : bool)
  | TypeController (v : string) | TypeConnector (v : string) | TypeAgent (v : string)
  | TypeHttp (v : string) | CopyCommand.

Record state := mkState {
  token : string;
  tokenLoading : bool;
  deleting : bool;
  controllerAddr : string;
  controllerHttpAddr : string;
  connectorAddr : string;
  agentId : string;
  connectors : list Connector;
  selectedConnectorId : string;
  didFetchToken : bool }.
Definition setToken (v : string) : prog state output :=
  set (λ s, mkState v (tokenLoading s) (deleting s) (controllerAddr s) (controllerHttpAddr s)
    (connectorAddr s) (agentId s) (connectors s) (selectedConnectorId s) (didFetchToken s)).
Definition setTokenLoading (v : bool) : prog state output :=
  set (λ s, mkState (token s) v (deleting s) (controllerAddr s) (controllerHttpAddr s)
    (connectorAddr s) (agentId s) (connectors s) (selectedConnectorId s) (didFetchToken s)).
Definition setDeleting (v : bool) : prog state output :=
  set (λ s, mkState (token s) (tokenLoading s) v (controllerAddr s) (controllerHttpAddr s)
    (connectorAddr s) (agentId s) (connectors s) (selectedConnectorId s) (didFetchToken s)).
Definition setControllerAddr (v : string) : prog state output :=
  set (λ s, mkState (token s) (tokenLoading s) (deleting s) v (controllerHttpAddr s)
    (connectorAddr s) (agentId s) (connectors s) (selectedConnectorId s) (didFetchToken s)).
Definition setControllerHttpAddr (v : string) : prog state output :=
  set (λ s, mkState (token s) (tokenLoading s) (deleting s) (controllerAddr s) v
    (connectorAddr s) (agentId s) (connectors s) (selectedConnectorId s) (didFetchToken s)).
Definition setConnectorAddr (v : string) : prog state output :=
  set (λ s, mkState (token s) (tokenLoading s) (deleting s) (controllerAddr s)
    (controllerHttpAddr s) v (agentId s) (connectors s) (selectedConnectorId s)
    (didFetchToken s)).
Definition setAgentId (v : string) : prog state output :=
  set (λ s, mkState (token s) (tokenLoading s) (deleting s) (controllerAddr s)
    (controllerHttpAddr s) (connectorAddr s) v (connectors s) (selectedConnectorId s)
    (didFetchToken s)).
Definition setConnectors (v : list Connector) : prog state output :=
  set (λ s, mkState (token s) (tokenLoading s) (deleting s) (controllerAddr s)
    (controllerHttpAddr s) (connectorAddr s) (agentId s) v (selectedConnectorId s)
    (didFetchToken s)).
Definition setSelectedConnectorId (v : string) : prog state output :=
  set (λ s, mkState (token s) (tokenLoading s) (deleting s) (controllerAddr s)
    (controllerHttpAddr s) (connectorAddr s) (agentId s) (connectors s) v (didFetchToken s)).
Definition setDidFetchToken (v : bool) : prog state output :=
  set (λ s, mkState (token s) (tokenLoading s) (deleting s) (controllerAddr s)
    (controllerHttpAddr s) (connectorAddr s) (agentId s) (connectors s) (selectedConnectorId s)
    v).

(** A prop that is given and not empty. *)
Definition given (i : option string) : option string :=
  match i with Some v => if decide (v = "") then None else Some v | None => None end.

Definition initial (p : props) : state :=
  let detectedHost := or_else (hostname p) "127.0.0.1" in
  mkState "" false false (detectedHost +:+ ":8443") (detectedHost +:+ ":8081")
    (detectedHost +:+ ":9443") (default "agent-local-01" (given (initialAgentId p))) [] "" false.

Definition handleCreateToken : prog state output :=
  steps
    [setTokenLoading true;
     try_await CreateEnrollmentToken (λ resp, setToken resp.1)
       (λ _, emit (Toast (toast_error "Failed to create enrollment token.")))
       (setTokenLoading false)].

Definition installed (list : list Connector) : Datatypes.list Connector :=
  filter (λ c, Connector_installed c = true) list.

(** The connectors on offer: the installed ones, or all when none is. *)
Definition on_offer (list : list Connector) : Datatypes.list Connector :=
  match installed list with [] => list | l => l end.

Definition find_connector (id : string) (l : list Connector) : option Connector :=
  find_row (λ c, bool_decide (Connector_id c = id)) l.

(** [if (c.privateIp) setConnectorAddr(`${c.privateIp}:9443`)] *)
Definition use_address (c : Connector) : prog state output :=
  match given (Connector_privateIp c) with
  | Some ip => setConnectorAddr (ip +:+ ":9443")
  | None => Done
  end.

Definition loadConnectors (p : props) : prog state output :=
  try_await GetConnectors
    (λ list, steps
      [setConnectors (on_offer list);
       match given (initialConnectorId p) with
       | Some i =>
           match find_connector i (on_offer list) with
           | Some found => steps [setSelectedConnectorId (Connector_id found); use_address found]
           | None => Done
           end
       | None => Done
       end])
    (λ _, Done) Done.

(** The effects that run once. *)
Definition mounted (p : props) (s : state) : prog state output :=
  steps [when (negb (didFetchToken s)) (steps [setDidFetchToken true; fork handleCreateToken]);
         fork (loadConnectors p)].

(** [connectors.find((c) => c.privateIp) ?? connectors[0]] *)
Definition preferred (l : list Connector) : option Connector :=
  match find_row (λ c, bool_decide (is_Some (given (Connector_privateIp c)))) l with
  | Some c => Some c
  | None => head l
  end.

Definition prefer (s : state) : prog state output :=
  when (bool_decide (selectedConnectorId s = ""))
    match preferred (connectors s) with
    | Some c => steps [setSelectedConnectorId (Connector_id c); use_address c]
    | None => Done
    end.

(** The effect of [initialAgentId]. *)
Definition follow (p : props) : prog state output :=
  match given (initialAgentId p) with Some i => setAgentId i | None => Done end.

Definition handleConnectorSelect (s : state) (id : string) : prog state output :=
  steps
    [setSelectedConnectorId id;
     match find_connector id (connectors s) with
     | Some c =>
         match given (Connector_privateIp c) with
         | Some ip => setConnectorAddr (ip +:+ ":9443")
         | None => setConnectorAddr ""
         end
     | None => setConnectorAddr ""
     end].

Definition handleDelete (p : props) (confirmed : bool) : prog state output :=
  match given (initialAgentId p) with
  | None => Done
  | Some i =>
      when confirmed
        (steps
          [setDeleting true;
           try_await (Async.DeleteAgent i)
             (λ _, steps [emit (Toast (toast_success ("Agent " +:+ quoted i +:+ " deleted.")));
                          emit (Navigate "/dashboard/agents")])
             (λ _, emit (Toast (toast_error "Failed to delete agent. Check that the backend is running.")))
             (setDeleting false)])
  end.

Definition installCommand (s : state) : string :=
  let safeToken := or_else (token s) "fetching_enrollment_token" in
  "curl -fsSL https://raw.githubusercontent.com/vairabarath/zero-trust/main/scripts/agent-setup.sh | sudo" +:+ continued +:+
  "CONTROLLER_ADDR=" +:+ quoted (or_else (controllerAddr s) "127.0.0.1:8443") +:+ continued +:+
  "CONTROLLER_HTTP_ADDR=" +:+ quoted (or_else (controllerHttpAddr s) "127.0.0.1:8081") +:+ continued +:+
  "CONNECTOR_ADDR=" +:+ quoted (or_else (connectorAddr s) "CONNECTOR_ADDR_HERE") +:+ continued +:+
  "AGENT_ID=" +:+ quoted (or_else (agentId s) "agent-local-01") +:+ continued +:+
  "ENROLLMENT_TOKEN=" +:+ quoted safeToken +:+ continued +:+
  "bash".

Definition handleCopyCommand (s : state) : prog state output :=
  steps [emit (Copy (installCommand s));
         emit (Toast (toast_success "Installation command copied to clipboard!"))].

Definition connector_option (c : Connector) : string * string :=
  (Connector_id c,
   Connector_name c +:+
   match given (Connector_privateIp c) with Some ip => "(" +:+ ip +:+ ":9443)" | None => "" end).

Definition render (p : props) (s : state) : ui event :=
  Box [Link "/dashboard/agents" [Text "Back to Agents"];
       Text match given (initialAgentId p) with Some i => "Agent: " +:+ i | None => "Add Agent" end;
       Text "Generate an enrollment token and copy the install command.";
       match given (initialAgentId p) with
       | Some _ => Ask "Delete Agent" (deleting s) DeleteAgent
       | None => Nothing
       end;
       Text "Enrollment Token"; Text "This token is required for one-time agent enrollment.";
       Button (if tokenLoading s then "Generating..." else "Generate Token") (tokenLoading s) CreateToken;
       Text "Token"; Text (or_else (token s) "-");
       Text "Installation Command";
       Text "Fill the fields, then copy and run this command on the target host.";
       Input "Controller Address" (controllerAddr s) false TypeController;
       Text "Connector";
       match connectors s with
       | [] => Input "connectorAddr" (connectorAddr s) false TypeConnector
       | l => Box [Select "connectorSelect" (selectedConnectorId s) false (connector_option <$> l)
                     SelectConnector;
                   show_if (negb (bool_decide (connectorAddr s = ""))) (Text (connectorAddr s))]
       end;
       Text "The connector this agent will connect to.";
       Input "Agent ID" (agentId s) (bool_decide (is_Some (given (initialAgentId p)))) TypeAgent;
       Input "Controller HTTP Address" (controllerHttpAddr s) false TypeHttp;
       Text "The CA certificate is fetched automatically from this address.";
       Button "Copy command" false CopyCommand;
       Text (installCommand s);
       Child (λ e, e = Prefer)].

Definition on (p : props) (s : state) (e : event) : prog state output :=
  match e with
  | Prefer => prefer s
  | SelectConnector i => handleConnectorSelect s i
  | CreateToken => handleCreateToken
  | DeleteAgent b => handleDelete p b
  | TypeController v => setControllerAddr v
  | TypeConnector v => setConnectorAddr v
  | TypeAgent v => setAgentId v
  | TypeHttp v => setControllerHttpAddr v
  | CopyCommand => handleCopyCommand s
  end.

Definition component : component :=
  mkComponent props state event output initial render on mounted
    (λ p p', initialAgentId p = initialAgentId p') (λ p _, follow p).

#[global] Hint Unfold setToken setTokenLoading setDeleting setControllerAddr
  setControllerHttpAddr setConnectorAddr setAgentId setConnectors setSelectedConnectorId
  setDidFetchToken given handleCreateToken installed on_offer find_connector use_address
  loadConnectors mounted preferred prefer follow handleConnectorSelect handleDelete
  installCommand handleCopyCommand connector_option render : ui.
End AgentInstall.
