(* ===== verification/Pages.v ===== *)
(** * The pages that list ([src/pages])

    A page loads its list when it is mounted and after its dialogs have changed
    something.  While a page with [loading] shows the spinner its children are unmounted,
    but a call of theirs that is in flight still ends in the callbacks it was given: the
    callbacks of the dialogs are therefore offered at any time. *)
From S2P Require Import Prelude JsString Types Client Storage Ui Async.
From S2P Require Import GroupForms UserForms NetworkForms ResourceForms ConnectorForms AgentForms.

(** [src/pages/groups/GroupsPage.tsx] *)
Module GroupsPage.
Inductive event :=
  | OpenAdd | EditGroup (g : Group) | DeleteGroup (g : Group) (confirmed : bool)
  | CloseAdd | CloseEdit | Reload.

Abbreviation output := Empty_set.

Record state := mkState {
  groups : list Group;
  loading : bool;
  isModalOpen : bool;
  isEditOpen : bool;
  editingGroup : option Group }.
Definition setGroups (v : list Group) : prog state output :=
  set (λ s, mkState v (loading s) (isModalOpen s) (isEditOpen s) (editingGroup s)).
Definition setLoading (v : bool) : prog state output :=
  set (λ s, mkState (groups s) v (isModalOpen s) (isEditOpen s) (editingGroup s)).
Definition setIsModalOpen (v : bool) : prog state output :=
  set (λ s, mkState (groups s) (loading s) v (isEditOpen s) (editingGroup s)).
Definition setIsEditOpen (v : bool) : prog state output :=
  set (λ s, mkState (groups s) (loading s) (isModalOpen s) v (editingGroup s)).
Definition setEditingGroup (v : option Group) : prog state output :=
  set (λ s, mkState (groups s) (loading s) (isModalOpen s) (isEditOpen s) v).

Definition initial : state := mkState [] true false false None.

Definition loadGroups : prog state output :=
  steps [setLoading true; try_await GetGroups setGroups (λ _, Done) (setLoading false)].

Definition handleEditGroup (g : Group) : prog state output :=
  steps [setEditingGroup (Some g); setIsEditOpen true].

Definition handleDeleteGroup (g : Group) (confirmed : bool) : prog state output :=
  when confirmed
    (try_await (Async.DeleteGroup (Group_id g)) (λ _, loadGroups) (λ _, Done) Done).

(** What the events of the list do. *)
Inductive listed : GroupsList.event → event → Prop :=
  | list_edit g : listed (GroupsList.onEditGroup g) (EditGroup g)
  | list_delete g b : listed (GroupsList.onDeleteGroup g) (DeleteGroup g b).

(** The dialogs: their props, and what their callbacks do. *)
Definition add_props (s : state) : AddGroupModal.props := AddGroupModal.mkProps (isModalOpen s).
Definition add_modal (o : AddGroupModal.output) : event :=
  match o with AddGroupModal.onClose => CloseAdd | AddGroupModal.onGroupAdded => Reload end.
Definition edit_props (s : state) : EditGroupModal.props :=
  EditGroupModal.mkProps (isEditOpen s) (editingGroup s).
Definition edit_modal (o : EditGroupModal.output) : event :=
  match o with EditGroupModal.onClose => CloseEdit | EditGroupModal.onGroupUpdated => Reload end.
Definition dialogs (e : event) : Prop := (∃ o, e = add_modal o) ∨ (∃ o, e = edit_modal o).

Section Dates.
  Context (dates : string → option string).

Definition render (s : state) : ui event :=
  if loading s then Child dialogs
  else Box [Text "Groups"; Text "Manage identity groups and their members";
            Button "Add Group" false OpenAdd;
            shown_by (GroupsList.render dates (groups s)) listed;
            Child dialogs].

Definition on (s : state) (e : event) : prog state output :=
  match e with
  | OpenAdd => setIsModalOpen true
  | EditGroup g => handleEditGroup g
  | DeleteGroup g b => handleDeleteGroup g b
  | CloseAdd => setIsModalOpen false
  | CloseEdit => steps [setIsEditOpen false; setEditingGroup None]
  | Reload => loadGroups
  end.

Definition component : component :=
  mkComponent unit state event output (λ _, initial) (λ _, render) (λ _, on)
    (λ _ _, fork loadGroups) (λ _ _, True) (λ _ _, Done).
End Dates.

#[global] Hint Unfold setGroups setLoading setIsModalOpen setIsEditOpen setEditingGroup
  loadGroups handleEditGroup handleDeleteGroup add_modal edit_modal dialogs render : ui.
End GroupsPage.

(** [src/pages/users/UsersPage.tsx] *)
Module UsersPage.
Inductive event :=
  | OpenInvite | OpenAdd | EditUser (u : User) | DeactivateUser (u : User) (confirmed : bool)
  | DeleteUser (u : User) (confirmed : bool) | CloseAdd | CloseInvite | CloseEdit | Reload.

Abbreviation output := Empty_set.

Record state := mkState {
  users : list User;
  loading : bool;
  isModalOpen : bool;
  isEditOpen : bool;
  isInviteOpen : bool;
  editingUser : option User }.
Definition setUsers (v : list User) : prog state output :=
  set (λ s, mkState v (loading s) (isModalOpen s) (isEditOpen s) (isInviteOpen s)
    (editingUser s)).
Definition setLoading (v : bool) : prog state output :=
  set (λ s, mkState (users s) v (isModalOpen s) (isEditOpen s) (isInviteOpen s) (editingUser s)).
Definition setIsModalOpen (v : bool) : prog state output :=
  set (λ s, mkState (users s) (loading s) v (isEditOpen s) (isInviteOpen s) (editingUser s)).
Definition setIsEditOpen (v : bool) : prog state output :=
  set (λ s, mkState (users s) (loading s) (isModalOpen s) v (isInviteOpen s) (editingUser s)).
Definition setIsInviteOpen (v : bool) : prog state output :=
  set (λ s, mkState (users s) (loading s) (isModalOpen s) (isEditOpen s) v (editingUser s)).
Definition setEditingUser (v : option User) : prog state output :=
  set (λ s, mkState (users s) (loading s) (isModalOpen s) (isEditOpen s) (isInviteOpen s) v).

Definition initial : state := mkState [] true false false false None.

Definition loadUsers : prog state output :=
  steps [setLoading true; try_await GetUsers setUsers (λ _, Done) (setLoading false)].

Definition handleEditUser (u : User) : prog state output :=
  steps [setEditingUser (Some u); setIsEditOpen true].

Definition handleDeactivateUser (u : User) (confirmed : bool) : prog state output :=
  when (negb (bool_decide (User_status u = "inactive")) && confirmed)
    (try_await (Async.DeactivateUser (User_id u)) (λ _, loadUsers) (λ _, Done) Done).

Definition handleDeleteUser (u : User) (confirmed : bool) : prog state output :=
  when confirmed
    (try_await (Async.DeleteUser (User_id u)) (λ _, loadUsers) (λ _, Done) Done).

Inductive listed : UsersList.event → event → Prop :=
  | list_edit u : listed (UsersList.onEditUser u) (EditUser u)
  | list_deactivate u b : listed (UsersList.onDeactivateUser u) (DeactivateUser u b)
  | list_delete u b : listed (UsersList.onDeleteUser u) (DeleteUser u b).

(** The dialogs: their props, and what their callbacks do. *)
Definition add_props (s : state) : AddUserModal.props := AddUserModal.mkProps (isModalOpen s).
Definition add_modal (o : AddUserModal.output) : event :=
  match o with AddUserModal.onClose => CloseAdd | AddUserModal.onUserAdded => Reload end.
Definition invite_props (authToken : option string) (s : state) : InviteUserModal.props :=
  InviteUserModal.mkProps (isInviteOpen s) authToken.
Definition invite_modal (o : InviteUserModal.output) : event :=
  match o with InviteUserModal.onClose => CloseInvite end.
Definition edit_props (s : state) : EditUserModal.props :=
  EditUserModal.mkProps (isEditOpen s) (editingUser s).
Definition edit_modal (o : EditUserModal.output) : event :=
  match o with EditUserModal.onClose => CloseEdit | EditUserModal.onUserUpdated => Reload end.
Definition dialogs (e : event) : Prop :=
  (∃ o, e = add_modal o) ∨ (∃ o, e = invite_modal o) ∨ (∃ o, e = edit_modal o).

Definition render (s : state) : ui event :=
  if loading s then Child dialogs
  else Box [Text "Users";
            Text "View all user subjects available for identity and access control";
            Button "Invite User" false OpenInvite; Button "Add User" false OpenAdd;
            shown_by (UsersList.render (users s)) listed;
            Child dialogs].

Definition on (s : state) (e : event) : prog state output :=
  match e with
  | OpenInvite => setIsInviteOpen true
  | OpenAdd => setIsModalOpen true
  | EditUser u => handleEditUser u
  | DeactivateUser u b => handleDeactivateUser u b
  | DeleteUser u b => handleDeleteUser u b
  | CloseAdd => setIsModalOpen false
  | CloseInvite => setIsInviteOpen false
  | CloseEdit => steps [setIsEditOpen false; setEditingUser None]
  | Reload => loadUsers
  end.

Definition component : component :=
  mkComponent unit state event output (λ _, initial) (λ _, render) (λ _, on)
    (λ _ _, fork loadUsers) (λ _ _, True) (λ _ _, Done).

#[global] Hint Unfold setUsers setLoading setIsModalOpen setIsEditOpen setIsInviteOpen
  setEditingUser loadUsers handleEditUser handleDeactivateUser handleDeleteUser add_modal
  invite_modal edit_modal render : ui.
End UsersPage.

(** [src/pages/remote-networks/RemoteNetworksPage.tsx]: a later load does not show the
    spinner again. *)
Module RemoteNetworksPage.
Inductive event := OpenAdd | CloseAdd | Reload.

Abbreviation output := Empty_set.

Record state := mkState {
  networks : list RemoteNetwork;
  loading : bool;
  isAddModalOpen : bool }.
Definition setNetworks (v : list RemoteNetwork) : prog state output :=
  set (λ s, mkState v (loading s) (isAddModalOpen s)).
Definition setLoading (v : bool) : prog state output :=
  set (λ s, mkState (networks s) v (isAddModalOpen s)).
Definition setIsAddModalOpen (v : bool) : prog state output :=
  set (λ s, mkState (networks s) (loading s) v).

Definition initial : state := mkState [] true false.

Definition loadNetworks : prog state output :=
  try_await GetRemoteNetworks setNetworks (λ _, Done) (setLoading false).

(** The list and the dialog: their props, and what their callbacks do; toasts are not the
    page's. *)
Definition list_props (s : state) : RemoteNetworksList.props :=
  RemoteNetworksList.mkProps (networks s).
Definition listed (o : RemoteNetworksList.output) : option event :=
  match o with RemoteNetworksList.onNetworkDeleted => Some Reload | _ => None end.
Definition add_props (s : state) : AddRemoteNetworkModal.props :=
  AddRemoteNetworkModal.mkProps (isAddModalOpen s).
Definition add_modal (o : AddRemoteNetworkModal.output) : option event :=
  match o with
  | AddRemoteNetworkModal.onClose => Some CloseAdd
  | AddRemoteNetworkModal.onNetworkAdded => Some Reload
  end.
Definition children (e : event) : Prop := (∃ o, listed o = Some e) ∨ (∃ o, add_modal o = Some e).

Definition render (s : state) : ui event :=
  if loading s then Child children
  else Box [Text "Remote Networks";
            Text "Manage secure connectivity to remote networks and VPCs via Connectors";
            Button "Add Remote Network" false OpenAdd; Child children].

Definition on (s : state) (e : event) : prog state output :=
  match e with
  | OpenAdd => setIsAddModalOpen true
  | CloseAdd => setIsAddModalOpen false
  | Reload => loadNetworks
  end.

Definition component : component :=
  mkComponent unit state event output (λ _, initial) (λ _, render) (λ _, on)
    (λ _ _, fork loadNetworks) (λ _ _, True) (λ _ _, Done).

#[global] Hint Unfold setNetworks setLoading setIsAddModalOpen loadNetworks listed add_modal
  children render : ui.
End RemoteNetworksPage.

(** [src/pages/resources/ResourcesPage.tsx] *)
Module ResourcesPage.
Inductive event :=
  | OpenAdd | EditClick (r : Resource) | Delete (resourceId : string) | CloseAdd | CloseEdit
  | Reload.

Abbreviation output := Empty_set.

Record state := mkState {
  resources : list Resource;
  remoteNetworks : list RemoteNetwork;
  loading : bool;
  isAddModalOpen : bool;
  isEditModalOpen : bool;
  editingResource : option Resource }.
Definition setResources (v : list Resource) : prog state output :=
  set (λ s, mkState v (remoteNetworks s) (loading s) (isAddModalOpen s) (isEditModalOpen s)
    (editingResource s)).
Definition setRemoteNetworks (v : list RemoteNetwork) : prog state output :=
  set (λ s, mkState (resources s) v (loading s) (isAddModalOpen s) (isEditModalOpen s)
    (editingResource s)).
Definition setLoading (v : bool) : prog state output :=
  set (λ s, mkState (resources s) (remoteNetworks s) v (isAddModalOpen s) (isEditModalOpen s)
    (editingResource s)).
Definition setIsAddModalOpen (v : bool) : prog state output :=
  set (λ s, mkState (resources s) (remoteNetworks s) (loading s) v (isEditModalOpen s)
    (editingResource s)).
Definition setIsEditModalOpen (v : bool) : prog state output :=
  set (λ s, mkState (resources s) (remoteNetworks s) (loading s) (isAddModalOpen s) v
    (editingResource s)).
Definition setEditingResource (v : option Resource) : prog state output :=
  set (λ s, mkState (resources s) (remoteNetworks s) (loading s) (isAddModalOpen s)
    (isEditModalOpen s) v).

Definition initial : state := mkState [] [] true false false None.

Definition loadData : prog state output :=
  steps [setLoading true;
         try_await (Both GetResources GetRemoteNetworks)
           (λ data, steps [setResources data.1; setRemoteNetworks data.2])
           (λ _, Done) (setLoading false)].

Definition handleEditClick (r : Resource) : prog state output :=
  steps [setEditingResource (Some r); setIsEditModalOpen true].

(** [loadData] is not awaited here. *)
Definition handleDeleteResource (resourceId : string) : prog state output :=
  try_await (DeleteResource resourceId) (λ _, fork loadData) (λ _, Done) Done.

(** The list and the two dialogs; [stored] is the local storage. *)
Definition list_props (s : state) : ResourcesList.props :=
  ResourcesList.mkProps (resources s) (remoteNetworks s).
Definition listed (o : ResourcesList.output) : option event :=
  match o with
  | ResourcesList.onEdit r => Some (EditClick r)
  | ResourcesList.onDelete i => Some (Delete i)
  | ResourcesList.onFirewallStatusChange => Some Reload
  end.
Definition add_props (stored : storage) (s : state) : AddResourceModal.props :=
  AddResourceModal.mkProps (isAddModalOpen s) None false stored.
Definition add_modal (o : AddResourceModal.output) : option event :=
  match o with
  | AddResourceModal.onClose => Some CloseAdd
  | AddResourceModal.onResourceAdded => Some Reload
  | _ => None
  end.
Definition edit_props (s : state) : EditResourceModal.props :=
  EditResourceModal.mkProps (editingResource s) (isEditModalOpen s).
Definition edit_modal (o : EditResourceModal.output) : option event :=
  match o with
  | EditResourceModal.onClose => Some CloseEdit
  | EditResourceModal.onResourceUpdated => Some Reload
  | _ => None
  end.
Definition children (e : event) : Prop :=
  (∃ o, listed o = Some e) ∨ (∃ o, add_modal o = Some e) ∨ (∃ o, edit_modal o = Some e).

Definition render (s : state) : ui event :=
  if loading s then Child children
  else Box [Text "Resources";
            Text "Manage protected network resources and their access policies";
            Button "Add Resource" false OpenAdd; Child children].

Definition on (s : state) (e : event) : prog state output :=
  match e with
  | OpenAdd => setIsAddModalOpen true
  | EditClick r => handleEditClick r
  | Delete i => handleDeleteResource i
  | CloseAdd => setIsAddModalOpen false
  | CloseEdit => steps [setIsEditModalOpen false; setEditingResource None]
  | Reload => loadData
  end.

Definition component : component :=
  mkComponent unit state event output (λ _, initial) (λ _, render) (λ _, on)
    (λ _ _, fork loadData) (λ _ _, True) (λ _ _, Done).

#[global] Hint Unfold setResources setRemoteNetworks setLoading setIsAddModalOpen
  setIsEditModalOpen setEditingResource loadData handleEditClick handleDeleteResource listed
  add_modal edit_modal render : ui.
End ResourcesPage.

(** [src/pages/connectors/ConnectorsPage.tsx] *)
Module ConnectorsPage.
Inductive event := OpenAdd | CloseAdd | Reload.

Abbreviation output := Empty_set.

Record state := mkState {
  connectors : list Connector;
  loading : bool;
  isAddOpen : bool }.
Definition setConnectors (v : list Connector) : prog state output :=
  set (λ s, mkState v (loading s) (isAddOpen s)).
Definition setLoading (v : bool) : prog state output :=
  set (λ s, mkState (connectors s) v (isAddOpen s)).
Definition setIsAddOpen (v : bool) : prog state output :=
  set (λ s, mkState (connectors s) (loading s) v).

Definition initial : state := mkState [] true false.

Definition loadConnectors : prog state output :=
  steps [setLoading true; try_await GetConnectors setConnectors (λ _, Done) (setLoading false)].

(** The list and the dialog. *)
Definition list_props (s : state) : ConnectorsList.props := ConnectorsList.mkProps (connectors s).
Definition listed (o : ConnectorsList.output) : option event :=
  match o with ConnectorsList.onConnectorDeleted => Some Reload | _ => None end.
Definition add_props (s : state) : AddConnectorModal.props := AddConnectorModal.mkProps (isAddOpen s).
Definition add_modal (o : AddConnectorModal.output) : option event :=
  match o with
  | AddConnectorModal.onClose => Some CloseAdd
  | AddConnectorModal.onConnectorAdded => Some Reload
  end.
Definition children (e : event) : Prop := (∃ o, listed o = Some e) ∨ (∃ o, add_modal o = Some e).

Definition render (s : state) : ui event :=
  if loading s then Child children
  else Box [Text "Connectors";
            Text "Manage network connectors that provide access to remote networks";
            Button "Add Connector" false OpenAdd; Child children].

Definition on (s : state) (e : event) : prog state output :=
  match e with
  | OpenAdd => setIsAddOpen true
  | CloseAdd => setIsAddOpen false
  | Reload => loadConnectors
  end.

Definition component : component :=
  mkComponent unit state event output (λ _, initial) (λ _, render) (λ _, on)
    (λ _ _, fork loadConnectors) (λ _ _, True) (λ _ _, Done).

#[global] Hint Unfold setConnectors setLoading setIsAddOpen loadConnectors listed add_modal
  children render : ui.
End ConnectorsPage.

(** [src/pages/agents/AgentsPage.tsx] *)
Module AgentsPage.
Inductive output := Navigate (to : string).
Inductive event := ClickAdd | Revoked (id : string).

Record state := mkState {
  agents : list Agent;
  loading : bool }.
Definition setAgents (v : list Agent) : prog state output :=
  set (λ s, mkState v (loading s)).
Definition setLoading (v : bool) : prog state output :=
  set (λ s, mkState (agents s) v).

Definition initial : state := mkState [] true.

Definition loadAgents : prog state output :=
  try_await GetAgents setAgents (λ _, Done) (setLoading false).

(** [setAgents((prev) => prev.filter((t) => t.id !== id))] *)
Definition removeAgent (id : string) : prog state output :=
  set (λ s, mkState (filter (λ a, Agent_id a ≠ id) (agents s)) (loading s)).

Definition list_props (s : state) : AgentsList.props := AgentsList.mkProps (agents s).
Definition listed (o : AgentsList.output) : option event :=
  match o with AgentsList.onRevoked i => Some (Revoked i) | _ => None end.

Definition render (s : state) : ui event :=
  if loading s then Nothing
  else Box [Text "Agents"; Text "Manage resource agents for secure access to network resources";
            Button "Add Agent" false ClickAdd; Child (λ e, ∃ o, listed o = Some e)].

Definition on (s : state) (e : event) : prog state output :=
  match e with
  | ClickAdd => emit (Navigate "/dashboard/agents/new")
  | Revoked i => removeAgent i
  end.

Definition component : component :=
  mkComponent unit state event output (λ _, initial) (λ _, render) (λ _, on)
    (λ _ _, fork loadAgents) (λ _ _, True) (λ _ _, Done).

#[global] Hint Unfold setAgents setLoading loadAgents removeAgent listed render : ui.
End AgentsPage.
