(* ===== verification/DetailPages.v ===== *)
(** * The pages of one object ([src/pages])

    The identifier is a parameter of the route, so that the same instance of a page may
    go from one object to another ([deps] tells when the effect that loads runs).  The
    callbacks a page gives to its children keep the identifier, or the list, of the
    rendering they were made in: their events carry it, and it may be any earlier one. *)
From S2P Require Import Prelude JsString Types Client Storage Ui Async.
From S2P Require Import GroupForms NetworkForms Picker ResourceForms ConnectorForms AgentForms.
From Stdlib Require Import ZArith.

(** A parameter of the route that is given and not empty. *)
Definition given (i : option string) : option string :=
  match i with Some v => if decide (v = "") then None else Some v | None => None end.

(** [src/pages/groups/GroupDetailPage.tsx] *)
Module GroupDetailPage.
Record props := mkProps { groupId : option string }.
Abbreviation output := Empty_set.
Inductive event :=
  | MembersChange (ms : list GroupMember) | AddModalChange (show : bool)
  | ClickAddResources | CloseAddResources | Reload (id : string).

Record state := mkState {
  group : option Group;
  members : list GroupMember;
  resources : list Resource;
  loading : bool;
  showAddMembersModal : bool;
  showAddResourcesModal : bool }.
Definition setGroup (v : option Group) : prog state output :=
  set (λ s, mkState v (members s) (resources s) (loading s) (showAddMembersModal s)
    (showAddResourcesModal s)).
Definition setMembers (v : list GroupMember) : prog state output :=
  set (λ s, mkState (group s) v (resources s) (loading s) (showAddMembersModal s)
    (showAddResourcesModal s)).
Definition setResources (v : list Resource) : prog state output :=
  set (λ s, mkState (group s) (members s) v (loading s) (showAddMembersModal s)
    (showAddResourcesModal s)).
Definition setLoading (v : bool) : prog state output :=
  set (λ s, mkState (group s) (members s) (resources s) v (showAddMembersModal s)
    (showAddResourcesModal s)).
Definition setShowAddMembersModal (v : bool) : prog state output :=
  set (λ s, mkState (group s) (members s) (resources s) (loading s) v (showAddResourcesModal s)).
Definition setShowAddResourcesModal (v : bool) : prog state output :=
  set (λ s, mkState (group s) (members s) (resources s) (loading s) (showAddMembersModal s) v).

Definition initial : state := mkState None [] [] true false false.

Definition loadGroupData (id : string) : prog state output :=
  steps
    [setLoading true;
     try_await (GetGroup id)
       (λ data, steps [setGroup data.1.1; setMembers data.1.2; setResources data.2])
       (λ _, Done) (setLoading false)].

(** The effect. *)
Definition load (p : props) : prog state output :=
  match given (groupId p) with Some i => fork (loadGroupData i) | None => Done end.

(** The sections and the dialog: their props, and what their callbacks do. *)
Definition members_props (g : Group) (s : state) : GroupMembersSection.props :=
  GroupMembersSection.mkProps (Group_id g) (members s) (showAddMembersModal s).
Definition members_section (o : GroupMembersSection.output) : option event :=
  match o with
  | GroupMembersSection.onMembersChange ms => Some (MembersChange ms)
  | GroupMembersSection.onAddModalChange b => Some (AddModalChange b)
  | GroupMembersSection.Toast _ => None
  end.
Definition resources_section (e : GroupResourcesSection.event) : event :=
  match e with GroupResourcesSection.onAddResourcesClick => ClickAddResources end.
Definition add_props (g : Group) (s : state) : AddResourcesModal.props :=
  AddResourcesModal.mkProps (Group_id g) (showAddResourcesModal s).
Definition add_modal (id : string) (o : AddResourcesModal.output) : event :=
  match o with
  | AddResourcesModal.onClose => CloseAddResources
  | AddResourcesModal.onResourcesAdded => Reload id
  end.
Definition children (e : event) : Prop :=
  (∃ o, members_section o = Some e) ∨ (∃ id o, e = add_modal id o).

Definition render (s : state) : ui event :=
  if loading s then Child children
  else
    match group s with
    | None => Box [Link "/dashboard/groups" [Text "Back to Groups"]; Text "Group not found";
                   Child children]
    | Some g =>
        Box [Link "/dashboard/groups" [Text "Groups"]; Text "/"; Text (Group_name g);
             Text (Group_name g); Text (Group_description g);
             Link "/dashboard/groups" [Text "Back"];
             embed resources_section (GroupResourcesSection.render (resources s));
             Child children]
    end.

Definition on (s : state) (e : event) : prog state output :=
  match e with
  | MembersChange ms => setMembers ms
  | AddModalChange b => setShowAddMembersModal b
  | ClickAddResources => setShowAddResourcesModal true
  | CloseAddResources => setShowAddResourcesModal false
  | Reload id => loadGroupData id
  end.

Definition component : component :=
  mkComponent props state event output (λ _, initial) (λ _, render) (λ _, on)
    (λ _ _, Done) (λ p p', groupId p = groupId p') (λ p _, load p).

#[global] Hint Unfold setGroup setMembers setResources setLoading setShowAddMembersModal
  setShowAddResourcesModal loadGroupData load members_section resources_section add_modal render
  : ui.
End GroupDetailPage.

(** [src/pages/remote-networks/NetworkDetailPage.tsx] *)
Module NetworkDetailPage.
Record props := mkProps { networkId : option string }.
Abbreviation output := Empty_set.
Inductive event :=
  | ClickAddConnector | ClickAddResource | CloseConnector | CloseResource | Reload (id : string).

Record state := mkState {
  network : option RemoteNetwork;
  connectors : list Connector;
  resources : list Resource;
  loading : bool;
  isAddConnectorModalOpen : bool;
  isAddResourceModalOpen : bool }.
Definition setNetwork (v : option RemoteNetwork) : prog state output :=
  set (λ s, mkState v (connectors s) (resources s) (loading s) (isAddConnectorModalOpen s)
    (isAddResourceModalOpen s)).
Definition setConnectors (v : list Connector) : prog state output :=
  set (λ s, mkState (network s) v (resources s) (loading s) (isAddConnectorModalOpen s)
    (isAddResourceModalOpen s)).
Definition setResources (v : list Resource) : prog state output :=
  set (λ s, mkState (network s) (connectors s) v (loading s) (isAddConnectorModalOpen s)
    (isAddResourceModalOpen s)).
Definition setLoading (v : bool) : prog state output :=
  set (λ s, mkState (network s) (connectors s) (resources s) v (isAddConnectorModalOpen s)
    (isAddResourceModalOpen s)).
Definition setIsAddConnectorModalOpen (v : bool) : prog state output :=
  set (λ s, mkState (network s) (connectors s) (resources s) (loading s) v
    (isAddResourceModalOpen s)).
Definition setIsAddResourceModalOpen (v : bool) : prog state output :=
  set (λ s, mkState (network s) (connectors s) (resources s) (loading s)
    (isAddConnectorModalOpen s) v).

Definition initial : state := mkState None [] [] true false false.

Definition loadNetworkData (id : string) : prog state output :=
  steps
    [setLoading true;
     try_await (GetRemoteNetwork id)
       (λ data, steps [setNetwork data.1.1; setConnectors data.1.2; setResources data.2])
       (λ _, Done) (setLoading false)].

(** The effect. *)
Definition load (p : props) : prog state output :=
  match given (networkId p) with Some i => fork (loadNetworkData i) | None => Done end.

(** The lists and the dialogs. *)
Definition connectors_list (e : NetworkConnectorsList.event) : event :=
  match e with NetworkConnectorsList.onAddConnectorClick => ClickAddConnector end.
Definition resources_list (e : NetworkResourcesList.event) : event :=
  match e with NetworkResourcesList.onAddResourceClick => ClickAddResource end.
Definition connector_props (n : RemoteNetwork) (s : state) : NetworkForms.AddConnectorModal.props :=
  NetworkForms.AddConnectorModal.mkProps (isAddConnectorModalOpen s) (RemoteNetwork_id n).
Definition connector_modal (id : string) (o : NetworkForms.AddConnectorModal.output) : option event :=
  match o with
  | NetworkForms.AddConnectorModal.onClose => Some CloseConnector
  | NetworkForms.AddConnectorModal.onConnectorAdded => Some (Reload id)
  | NetworkForms.AddConnectorModal.Toast _ => None
  end.
Definition resource_props (stored : storage) (n : RemoteNetwork) (s : state) :
  AddResourceModal.props :=
  AddResourceModal.mkProps (isAddResourceModalOpen s) (Some (RemoteNetwork_id n)) false stored.
Definition resource_modal (id : string) (o : AddResourceModal.output) : option event :=
  match o with
  | AddResourceModal.onClose => Some CloseResource
  | AddResourceModal.onResourceAdded => Some (Reload id)
  | _ => None
  end.
Definition children (e : event) : Prop :=
  (∃ id o, connector_modal id o = Some e) ∨ (∃ id o, resource_modal id o = Some e).

Section Dates.
  Context (dates : string → option string) (unix : Z → option string).

Definition render (s : state) : ui event :=
  if loading s then Child children
  else
    match network s with
    | None => Box [Link "/dashboard/remote-networks" [Text "Back to Remote Networks"];
                   Text "Remote network not found"; Child children]
    | Some n =>
        Box [Link "/dashboard/remote-networks" [Text "Remote Networks"]; Text "/";
             Text (RemoteNetwork_name n); Text (RemoteNetwork_name n);
             RemoteNetworkInfoSection.render dates unix n;
             embed connectors_list (NetworkConnectorsList.render (connectors s));
             embed resources_list (NetworkResourcesList.render (resources s));
             Child children]
    end.

Definition on (s : state) (e : event) : prog state output :=
  match e with
  | ClickAddConnector => setIsAddConnectorModalOpen true
  | ClickAddResource => setIsAddResourceModalOpen true
  | CloseConnector => setIsAddConnectorModalOpen false
  | CloseResource => setIsAddResourceModalOpen false
  | Reload id => loadNetworkData id
  end.

Definition component : component :=
  mkComponent props state event output (λ _, initial) (λ _, render) (λ _, on)
    (λ _ _, Done) (λ p p', networkId p = networkId p') (λ p _, load p).
End Dates.

#[global] Hint Unfold setNetwork setConnectors setResources setLoading
  setIsAddConnectorModalOpen setIsAddResourceModalOpen loadNetworkData load connectors_list
  resources_list connector_modal resource_modal render : ui.
End NetworkDetailPage.

(** [src/pages/resources/ResourceDetailPage.tsx]: a change of the parameter does not show
    the spinner again. *)
Module ResourceDetailPage.
Record props := mkProps { resourceId : option string }.
Abbreviation output := Empty_set.
Inductive event :=
  | RulesChange (rules : list AccessRule) | AddRule | OpenChange (open : bool)
  | RuleCreated (accessRules : list AccessRule) (newRule : AccessRule).

Record state := mkState {
  resource : option Resource;
  accessRules : list AccessRule;
  loading : bool;
  showAddRuleModal : bool }.
Definition setResource (v : option Resource) : prog state output :=
  set (λ s, mkState v (accessRules s) (loading s) (showAddRuleModal s)).
Definition setAccessRules (v : list AccessRule) : prog state output :=
  set (λ s, mkState (resource s) v (loading s) (showAddRuleModal s)).
Definition setLoading (v : bool) : prog state output :=
  set (λ s, mkState (resource s) (accessRules s) v (showAddRuleModal s)).
Definition setShowAddRuleModal (v : bool) : prog state output :=
  set (λ s, mkState (resource s) (accessRules s) (loading s) v).

Definition initial : state := mkState None [] true false.

Definition loadResourceData (id : string) : prog state output :=
  try_await (GetResource id)
    (λ data, steps [setResource data.1; setAccessRules data.2])
    (λ _, Done) (setLoading false).

(** The effect. *)
Definition load (p : props) : prog state output :=
  match given (resourceId p) with Some i => fork (loadResourceData i) | None => Done end.

(** The table and the dialog; [rules] are those of the rendering the dialog was submitted in. *)
Definition rules_props (r : Resource) (s : state) : AccessRulesTable.props :=
  AccessRulesTable.mkProps (Resource_id r) (accessRules s).
Definition rules_table (o : AccessRulesTable.output) : option event :=
  match o with
  | AccessRulesTable.onRulesChange rules => Some (RulesChange rules)
  | AccessRulesTable.onAddRule => Some AddRule
  | AccessRulesTable.Toast _ => None
  end.
Definition add_props (r : Resource) (s : state) : AddAccessRuleModal.props :=
  AddAccessRuleModal.mkProps (Resource_id r) (showAddRuleModal s).
Definition add_modal (rules : list AccessRule) (o : AddAccessRuleModal.output) : option event :=
  match o with
  | AddAccessRuleModal.onOpenChange b => Some (OpenChange b)
  | AddAccessRuleModal.onRuleCreated r => Some (RuleCreated rules r)
  | AddAccessRuleModal.Toast _ => None
  end.
Definition children (e : event) : Prop :=
  (∃ o, rules_table o = Some e) ∨ (∃ rules o, add_modal rules o = Some e).

Definition render (s : state) : ui event :=
  if loading s then Nothing
  else
    match resource s with
    | None => Box [Link "/dashboard/groups" [Text "Back"]; Text "Resource not found"]
    | Some r =>
        Box [Text "Resource Access Policy Editor"; Text (Resource_name r);
             Link "/dashboard/groups" [Text "Back"];
             ResourceInfoSection.render r; Child children]
    end.

Definition on (s : state) (e : event) : prog state output :=
  match e with
  | RulesChange rules => setAccessRules rules
  | AddRule => setShowAddRuleModal true
  | OpenChange b => setShowAddRuleModal b
  | RuleCreated rules r => steps [setAccessRules (rules ++ [r]); setShowAddRuleModal false]
  end.

Definition component : component :=
  mkComponent props state event output (λ _, initial) (λ _, render) (λ _, on)
    (λ _ _, Done) (λ p p', resourceId p = resourceId p') (λ p _, load p).

#[global] Hint Unfold setResource setAccessRules setLoading setShowAddRuleModal loadResourceData
  load rules_table add_modal render : ui.
End ResourceDetailPage.

(** [src/pages/connectors/ConnectorDetailPage.tsx]; [hostname] is that of the page's
    location.  [Tick] is the interval: it is cleared and set again when the parameter
    changes, so that it always polls the connector of the parameter. *)
Module ConnectorDetailPage.
Record props := mkProps { connectorId : option string; hostname : string }.
Inductive output := Navigate (to : string) | Copy (text : string) | Toast (t : toast_message).
Inductive event :=
  | Tick | FetchToken | Delete (confirmed : bool) | Revoke | Grant | CopyCommand
  | TypeController (v : string) | TypeHttp (v : string).

Record state := mkState {
  connector : option Connector;
  network : option RemoteNetwork;
  logs : list ConnectorLog;
  loading : bool;
  enrollmentToken : string;
  tokenLoading : bool;
  tokenError : option string;
  controllerAddr : string;
  controllerHttpAddr : string;
  isRevoking : bool;
  isRevokingAccess : bool;
  didFetchToken : bool }.
Definition setConnector (v : option Connector) : prog state output :=
  set (λ s, mkState v (network s) (logs s) (loading s) (enrollmentToken s) (tokenLoading s)
    (tokenError s) (controllerAddr s) (controllerHttpAddr s) (isRevoking s) (isRevokingAccess s)
    (didFetchToken s)).
Definition setNetwork (v : option RemoteNetwork) : prog state output :=
  set (λ s, mkState (connector s) v (logs s) (loading s) (enrollmentToken s) (tokenLoading s)
    (tokenError s) (controllerAddr s) (controllerHttpAddr s) (isRevoking s) (isRevokingAccess s)
    (didFetchToken s)).
Definition setLogs (v : list ConnectorLog) : prog state output :=
  set (λ s, mkState (connector s) (network s) v (loading s) (enrollmentToken s) (tokenLoading s)
    (tokenError s) (controllerAddr s) (controllerHttpAddr s) (isRevoking s) (isRevokingAccess s)
    (didFetchToken s)).
Definition setLoading (v : bool) : prog state output :=
  set (λ s, mkState (connector s) (network s) (logs s) v (enrollmentToken s) (tokenLoading s)
    (tokenError s) (controllerAddr s) (controllerHttpAddr s) (isRevoking s) (isRevokingAccess s)
    (didFetchToken s)).
Definition setEnrollmentToken (v : string) : prog state output :=
  set (λ s, mkState (connector s) (network s) (logs s) (loading s) v (tokenLoading s)
    (tokenError s) (controllerAddr s) (controllerHttpAddr s) (isRevoking s) (isRevokingAccess s)
    (didFetchToken s)).
Definition setTokenLoading (v : bool) : prog state output :=
  set (λ s, mkState (connector s) (network s) (logs s) (loading s) (enrollmentToken s) v
    (tokenError s) (controllerAddr s) (controllerHttpAddr s) (isRevoking s) (isRevokingAccess s)
    (didFetchToken s)).
Definition setTokenError (v : option string) : prog state output :=
  set (λ s, mkState (connector s) (network s) (logs s) (loading s) (enrollmentToken s)
    (tokenLoading s) v (controllerAddr s) (controllerHttpAddr s) (isRevoking s)
    (isRevokingAccess s) (didFetchToken s)).
Definition setControllerAddr (v : string) : prog state output :=
  set (λ s, mkState (connector s) (network s) (logs s) (loading s) (enrollmentToken s)
    (tokenLoading s) (tokenError s) v (controllerHttpAddr s) (isRevoking s) (isRevokingAccess s)
    (didFetchToken s)).
Definition setControllerHttpAddr (v : string) : prog state output :=
  set (λ s, mkState (connector s) (network s) (logs s) (loading s) (enrollmentToken s)
    (tokenLoading s) (tokenError s) (controllerAddr s) v (isRevoking s) (isRevokingAccess s)
    (didFetchToken s)).
Definition setIsRevoking (v : bool) : prog state output :=
  set (λ s, mkState (connector s) (network s) (logs s) (loading s) (enrollmentToken s)
    (tokenLoading s) (tokenError s) (controllerAddr s) (controllerHttpAddr s) v
    (isRevokingAccess s) (didFetchToken s)).
Definition setIsRevokingAccess (v : bool) : prog state output :=
  set (λ s, mkState (connector s) (network s) (logs s) (loading s) (enrollmentToken s)
    (tokenLoading s) (tokenError s) (controllerAddr s) (controllerHttpAddr s) (isRevoking s) v
    (didFetchToken s)).
Definition setDidFetchToken (v : bool) : prog state output :=
  set (λ s, mkState (connector s) (network s) (logs s) (loading s) (enrollmentToken s)
    (tokenLoading s) (tokenError s) (controllerAddr s) (controllerHttpAddr s) (isRevoking s)
    (isRevokingAccess s) v).

Definition initial (p : props) : state :=
  let detectedHost := or_else (hostname p) "127.0.0.1" in
  mkState None None [] true "" false None (detectedHost +:+ ":8443") (detectedHost +:+ ":8081")
    false false false.

Definition INSTALL_COMMAND (p : props) (s : state) : option string :=
  if decide (enrollmentToken s = "") then None
  else Some (
    "curl -fsSL https://raw.githubusercontent.com/vairabarath/zero-trust/main/scripts/setup.sh | sudo" +:+ continued +:+
    "CONTROLLER_ADDR=" +:+ quoted (or_else (controllerAddr s) "127.0.0.1:8443") +:+ continued +:+
    "CONTROLLER_HTTP_ADDR=" +:+ quoted (or_else (controllerHttpAddr s) "127.0.0.1:8081") +:+ continued +:+
    "CONNECTOR_ID=" +:+ quoted (default "connector-local-01" (connectorId p)) +:+ continued +:+
    "ENROLLMENT_TOKEN=" +:+ quoted (enrollmentToken s) +:+ continued +:+
    "bash").

Definition loadConnectorData (id : string) (silent : bool) : prog state output :=
  steps
    [when (negb silent) (setLoading true);
     try_await (GetConnector id)
       (λ data, steps [setConnector data.1.1; setNetwork data.1.2; setLogs data.2])
       (λ _, Done) (when (negb silent) (setLoading false))].

(** The effect of the parameter. *)
Definition load (p : props) : prog state output :=
  match given (connectorId p) with Some i => fork (loadConnectorData i false) | None => Done end.

Definition fetchEnrollmentToken : prog state output :=
  steps
    [setTokenLoading true; setTokenError None;
     try_await CreateEnrollmentToken (λ resp, setEnrollmentToken resp.1)
       (λ _, setTokenError (Some "Failed to generate enrollment token. Check that the backend is running."))
       (setTokenLoading false)].

(** The effect that runs once. *)
Definition mounted (s : state) : prog state output :=
  when (negb (didFetchToken s)) (steps [setDidFetchToken true; fork fetchEnrollmentToken]).

(** The interval: every 5 seconds until the connector is installed, then every 10. *)
Definition delay (s : state) : Z :=
  match connector s with
  | Some c => if Connector_installed c then 10000 else 5000
  | None => 5000
  end.
Definition tick (p : props) : prog state output :=
  match given (connectorId p) with Some i => fork (loadConnectorData i true) | None => Done end.

Definition confirm_text (id : string) (s : state) : string :=
  "Delete connector " +:+ quoted (from_option Connector_name id (connector s)) +:+
  "? This will remove it from the controller.".

Definition handleDelete (p : props) (confirmed : bool) : prog state output :=
  match given (connectorId p) with
  | None => Done
  | Some i =>
      when confirmed
        (steps
          [setIsRevoking true;
           try_await (DeleteConnector i)
             (λ _, steps [emit (Toast (toast_success "Connector deleted successfully."));
                          emit (Navigate "/dashboard/connectors")])
             (λ _, emit (Toast (toast_error "Failed to delete connector. Check that the backend is running.")))
             (setIsRevoking false)])
  end.

(** [handleRevoke] and [handleGrant] differ in the call and the texts. *)
Definition change_access (p : props) (call : string → api unit) (done failed : string) :
  prog state output :=
  match given (connectorId p) with
  | None => Done
  | Some i =>
      steps
        [setIsRevokingAccess true;
         try_await (call i)
           (λ _, steps [emit (Toast (toast_success done)); loadConnectorData i true])
           (λ _, emit (Toast (toast_error failed)))
           (setIsRevokingAccess false)]
  end.
Definition handleRevoke (p : props) : prog state output :=
  change_access p RevokeConnector "Connector access revoked." "Failed to revoke connector access.".
Definition handleGrant (p : props) : prog state output :=
  change_access p GrantConnector "Connector access granted." "Failed to grant connector access.".

Definition handleCopyCommand (p : props) (s : state) : prog state output :=
  match INSTALL_COMMAND p s with
  | None => Done
  | Some c => steps [emit (Copy c);
                     emit (Toast (toast_success "Installation command copied to clipboard!"))]
  end.

Definition installCard (p : props) (s : state) : ui event :=
  Box [Text "Installation Command";
       Text "Fill in the fields below, then copy and run the command on your server.";
       Input "Controller gRPC Address" (controllerAddr s) false TypeController;
       Input "Controller HTTP Address" (controllerHttpAddr s) false TypeHttp;
       Text "The CA certificate is fetched automatically from this address.";
       show_if (tokenLoading s) (Text "Generating enrollment token...");
       match tokenError s with
       | Some m => Box [Text m; Button "Retry" false FetchToken]
       | None => Nothing
       end;
       match INSTALL_COMMAND p s with
       | Some c => Box [Button "Copy command" false CopyCommand; Text c]
       | None => Nothing
       end].

Section Dates.
  Context (dates : string → option string).

Definition page (p : props) (s : state) : ui event :=
  if loading s then Nothing
  else
    match connector s with
    | None =>
        Box [Link "/dashboard/connectors" [Text "Back to Connectors"]; Text "Connector Not Found";
             Text "It looks like this connector is not registered."; installCard p s]
    | Some c =>
        let revoked := bool_decide (Connector_status c = "revoked") in
        if negb (Connector_installed c) && negb revoked then
          Box [Link "/dashboard/connectors" [Text "Back to Connectors"];
               Text "Connector Added, Not Installed";
               Text "This connector is registered but not installed yet. Run the command below on your server.";
               installCard p s]
        else
          Box [Link "/dashboard/connectors" [Text "Connectors"]; Text "/"; Text (Connector_name c);
               Text (Connector_name c);
               show_if (bool_decide (Connector_status c = "online")) (Text "Online");
               show_if (negb revoked) (Button "Revoke" (isRevokingAccess s) Revoke);
               show_if revoked (Button "Grant" (isRevokingAccess s) Grant);
               Ask "Delete" (isRevoking s) Delete;
               ConnectorInfoSection.render dates c (network s);
               ConnectorLogs.render dates (logs s)]
    end.

Definition render (p : props) (s : state) : ui event := Box [page p s; Child (λ e, e = Tick)].

Definition on (p : props) (s : state) (e : event) : prog state output :=
  match e with
  | Tick => tick p
  | FetchToken => fetchEnrollmentToken
  | Delete b => handleDelete p b
  | Revoke => handleRevoke p
  | Grant => handleGrant p
  | CopyCommand => handleCopyCommand p s
  | TypeController v => setControllerAddr v
  | TypeHttp v => setControllerHttpAddr v
  end.

Definition component : component :=
  mkComponent props state event output initial render on
    (λ _, mounted) (λ p p', connectorId p = connectorId p') (λ p _, load p).
End Dates.

#[global] Hint Unfold setConnector setNetwork setLogs setLoading setEnrollmentToken
  setTokenLoading setTokenError setControllerAddr setControllerHttpAddr setIsRevoking
  setIsRevokingAccess setDidFetchToken INSTALL_COMMAND loadConnectorData load
  fetchEnrollmentToken mounted delay tick confirm_text handleDelete change_access handleRevoke
  handleGrant handleCopyCommand installCard page render : ui.
End ConnectorDetailPage.

(** [src/pages/agents/AgentDetailPage.tsx] *)
Module AgentDetailPage.
Record props := mkProps { agentId : option string }.
Inductive output := Navigate (to : string) | Toast (t : toast_message).
Inductive event := Delete (confirmed : bool) | Revoke | Grant.

Record state := mkState {
  agent : option Agent;
  network : option RemoteNetwork;
  logs : list ConnectorLog;
  loading : bool;
  isRevoking : bool;
  isDeleting : bool }.
Definition setAgent (v : option Agent) : prog state output :=
  set (λ s, mkState v (network s) (logs s) (loading s) (isRevoking s) (isDeleting s)).
Definition setNetwork (v : option RemoteNetwork) : prog state output :=
  set (λ s, mkState (agent s) v (logs s) (loading s) (isRevoking s) (isDeleting s)).
Definition setLogs (v : list ConnectorLog) : prog state output :=
  set (λ s, mkState (agent s) (network s) v (loading s) (isRevoking s) (isDeleting s)).
Definition setLoading (v : bool) : prog state output :=
  set (λ s, mkState (agent s) (network s) (logs s) v (isRevoking s) (isDeleting s)).
Definition setIsRevoking (v : bool) : prog state output :=
  set (λ s, mkState (agent s) (network s) (logs s) (loading s) v (isDeleting s)).
Definition setIsDeleting (v : bool) : prog state output :=
  set (λ s, mkState (agent s) (network s) (logs s) (loading s) (isRevoking s) v).

Definition initial : state := mkState None None [] true false false.

Definition loadAgentData (id : string) (silent : bool) : prog state output :=
  steps
    [when (negb silent) (setLoading true);
     try_await (GetAgent id)
       (λ data, steps [setAgent data.1.1; setNetwork data.1.2; setLogs data.2])
       (λ _, Done) (when (negb silent) (setLoading false))].

(** The effect. *)
Definition load (p : props) : prog state output :=
  match given (agentId p) with Some i => fork (loadAgentData i false) | None => Done end.

Definition confirm_text (id : string) (s : state) : string :=
  "Delete agent " +:+ quoted (from_option Agent_name id (agent s)) +:+
  "? This will remove it from the controller.".

Definition handleDelete (p : props) (confirmed : bool) : prog state output :=
  match given (agentId p) with
  | None => Done
  | Some i =>
      when confirmed
        (steps
          [setIsDeleting true;
           try_await (DeleteAgent i)
             (λ _, steps [emit (Toast (toast_success "Agent deleted successfully."));
                          emit (Navigate "/dashboard/agents")])
             (λ _, emit (Toast (toast_error "Failed to delete agent. Check that the backend is running.")))
             (setIsDeleting false)])
  end.

(** [handleRevoke] and [handleGrant] differ in the call and the texts. *)
Definition change_access (p : props) (call : string → api unit) (done failed : string) :
  prog state output :=
  match given (agentId p) with
  | None => Done
  | Some i =>
      steps
        [setIsRevoking true;
         try_await (call i)
           (λ _, steps [emit (Toast (toast_success done)); loadAgentData i true])
           (λ _, emit (Toast (toast_error failed)))
           (setIsRevoking false)]
  end.
Definition handleRevoke (p : props) : prog state output :=
  change_access p RevokeAgent "Agent access revoked." "Failed to revoke agent access.".
Definition handleGrant (p : props) : prog state output :=
  change_access p GrantAgent "Agent access granted." "Failed to grant agent access.".

(** The props of the install card, when it is shown. *)
Definition install_props (hostname : string) (p : props) (s : state) : option AgentInstall.props :=
  match agent s with
  | None => Some (AgentInstall.mkProps (agentId p) None hostname)
  | Some a =>
      if default false (Agent_installed a) then None
      else Some (AgentInstall.mkProps (agentId p) (Agent_connectorId a) hostname)
  end.

Section Dates.
  Context (dates : string → option string).

(** The install card has no callbacks. *)
Definition render (s : state) : ui event :=
  if loading s then Nothing
  else
    match agent s with
    | None =>
        Box [Link "/dashboard/agents" [Text "Back to Agents"]; Text "Agent Not Found";
             Text "This agent is not registered yet. Use the install command below to enroll it."]
    | Some a =>
        let revoked := bool_decide (Agent_status a = "revoked") in
        Box [Link "/dashboard/agents" [Text "Agents"]; Text "/"; Text (Agent_name a);
             Text (Agent_name a);
             show_if (negb revoked) (Button "Revoke" (isRevoking s) Revoke);
             show_if revoked (Button "Grant" (isRevoking s) Grant);
             Ask "Delete" (isDeleting s) Delete;
             AgentInfoSection.render dates a (network s);
             ConnectorLogs.render dates (logs s)]
    end.

Definition on (p : props) (s : state) (e : event) : prog state output :=
  match e with
  | Delete b => handleDelete p b
  | Revoke => handleRevoke p
  | Grant => handleGrant p
  end.

Definition component : component :=
  mkComponent props state event output (λ _, initial) (λ _, render) on
    (λ _ _, Done) (λ p p', agentId p = agentId p') (λ p _, load p).
End Dates.

#[global] Hint Unfold setAgent setNetwork setLogs setLoading setIsRevoking setIsDeleting
  loadAgentData load confirm_text handleDelete change_access handleRevoke handleGrant render :
  ui.
End AgentDetailPage.
