(* ===== verification/Shell.v ===== *)
(** * The routes of the application and the frame of the dashboard

    [src/App.tsx], [src/pages/DashboardLayout.tsx], [components/dashboard/sidebar.tsx],
    [header.tsx], [SetupChecklist.tsx] and [policy/]. *)
From S2P Require Import Prelude JsString Storage ResourcePolicies Proxy Client Server Ui Async.
From stdpp Require Import gmap.
From Stdlib Require Import Ascii ZArith.

(** ** The routes

    Nested routes are written out.  React Router matches as Express does: literals in any
    case, a trailing slash allowed, parameters not empty; among the routes that match it
    prefers literals, here the earlier one. *)
Module Router.
Inductive page :=
  | LoginPage | TokenCapture | SignupPage | SignupCustomizePage | SignupFinalizePage
  | SignupAuthPage | WorkspaceSelectorPage | WorkspaceCreatePage | UserHomePage | WelcomePage
  | InstallPage | ToGroups | GroupsPage | GroupDetailPage | UsersPage | ResourcesPage
  | ResourceDetailPage | ConnectorsPage | ConnectorDetailPage | RemoteNetworksPage
  | NetworkDetailPage | AgentsPage | NewAgentPage | AgentDetailPage | ToResourcePolicies
  | ResourcePoliciesPage | ResourcePolicyDetailPage | SignInPolicyPage | DeviceProfilesPage
  | NetworkDiscoveryPage | AuditLogsPage | NetworkDiagnosticsPage | WorkspaceSettingsPage
  | IdentityProvidersPage | SessionsPage.

Definition dashboard (l : list segment) : list segment := Lit "dashboard" :: l.

(** The table of [App]. *)
Definition routes : list (list segment * page) :=
  [([Lit "login"], LoginPage);
   ([], TokenCapture);
   ([Lit "signup"], SignupPage);
   ([Lit "signup"; Lit "customize"], SignupCustomizePage);
   ([Lit "signup"; Lit "finalize"], SignupFinalizePage);
   ([Lit "signup"; Lit "auth"], SignupAuthPage);
   ([Lit "workspaces"], WorkspaceSelectorPage);
   ([Lit "workspaces"; Lit "create"], WorkspaceCreatePage);
   ([Lit "app"], UserHomePage);
   ([Lit "app"; Lit "welcome"], WelcomePage);
   ([Lit "app"; Lit "install"], InstallPage);
   (dashboard [], ToGroups);
   (dashboard [Lit "groups"], GroupsPage);
   (dashboard [Lit "groups"; Param], GroupDetailPage);
   (dashboard [Lit "users"], UsersPage);
   (dashboard [Lit "resources"], ResourcesPage);
   (dashboard [Lit "resources"; Param], ResourceDetailPage);
   (dashboard [Lit "connectors"], ConnectorsPage);
   (dashboard [Lit "connectors"; Param], ConnectorDetailPage);
   (dashboard [Lit "remote-networks"], RemoteNetworksPage);
   (dashboard [Lit "remote-networks"; Param], NetworkDetailPage);
   (dashboard [Lit "agents"], AgentsPage);
   (dashboard [Lit "agents"; Lit "new"], NewAgentPage);
   (dashboard [Lit "agents"; Param], AgentDetailPage);
   (dashboard [Lit "policy"], ToResourcePolicies);
   (dashboard [Lit "policy"; Lit "resource-policies"], ResourcePoliciesPage);
   (dashboard [Lit "policy"; Lit "resource-policies"; Param], ResourcePolicyDetailPage);
   (dashboard [Lit "policy"; Lit "sign-in"], SignInPolicyPage);
   (dashboard [Lit "policy"; Lit "device-profiles"], DeviceProfilesPage);
   (dashboard [Lit "discovery"], NetworkDiscoveryPage);
   (dashboard [Lit "audit-logs"], AuditLogsPage);
   (dashboard [Lit "diagnostics"], NetworkDiagnosticsPage);
   (dashboard [Lit "workspace"; Lit "settings"], WorkspaceSettingsPage);
   (dashboard [Lit "workspace"; Lit "settings"; Lit "identity-providers"], IdentityProvidersPage);
   (dashboard [Lit "workspace"; Lit "settings"; Lit "sessions"], SessionsPage)].

(** The segments of a target, none for the root. *)
Definition target_segments (target : string) : list string :=
  match segments target with [""] => [] | l => l end.

Fixpoint first_match (t : list (list segment * page)) (segs : list string) :
  option (page * list string) :=
  match t with
  | [] => None
  | (p, pg) :: t' =>
      match match_path p segs with Some ps => Some (pg, ps) | None => first_match t' segs end
  end.

(** The page of a target, with the raw parameters. *)
Definition resolve (target : string) : option (page * list string) :=
  first_match routes (target_segments target).
End Router.

(** [components/dashboard/sidebar.tsx] *)
Module Sidebar.
Record NavItem := mkItem {
  label : string; href : string; description : string; children : list (string * string) }.

Definition navItems : list NavItem :=
  [mkItem "Team" "/dashboard/team" "Manage users and groups"
     [("Users", "/dashboard/users"); ("Groups", "/dashboard/groups")];
   mkItem "Resources" "/dashboard/resources" "Manage network resources"
     [("All Resources", "/dashboard/resources"); ("Network Discovery", "/dashboard/discovery")];
   mkItem "Remote Networks" "/dashboard/remote-networks" "Manage remote network connectivity"
     [("Networks", "/dashboard/remote-networks"); ("Connectors", "/dashboard/connectors");
      ("Agents", "/dashboard/agents")];
   mkItem "Policy" "/dashboard/policy" "Manage access and device policies"
     [("Resource Policies", "/dashboard/policy/resource-policies");
      ("Sign In Policy", "/dashboard/policy/sign-in");
      ("Device Profiles", "/dashboard/policy/device-profiles")];
   mkItem "Audit Logs" "/dashboard/audit-logs" "View admin audit log entries" [];
   mkItem "Network Diagnostics" "/dashboard/diagnostics"
     "Monitor connector health and trace access paths" [];
   mkItem "Workspace Settings" "/dashboard/workspace/settings"
     "Manage workspace configuration and members" []].

Record props := mkProps { pathname : string }.
Abbreviation output := Empty_set.
Inductive event := ToggleExpanded (href : string).

Record state := mkState {
  expanded : gmap string bool }.
Definition setExpanded (v : gmap string bool) : prog state output :=
  set (λ s, mkState v).

Definition initial : state := mkState ∅.

(** [pathname === href || pathname.startsWith(href + '/')] *)
Definition is_active (path href : string) : bool :=
  bool_decide (path = href) || startsWith path (href +:+ "/").

Definition child_active (path : string) (i : NavItem) : bool :=
  existsb (λ c, is_active path c.2) (children i).

Definition updates (path : string) : gmap string bool :=
  list_to_map ((λ i, (href i, true)) <$> filter (λ i, child_active path i = true) navItems).

(** The effect: a parent is expanded when one of its children is active. *)
Definition expandActive (p : props) : prog state output :=
  when (negb (bool_decide (updates (pathname p) = ∅)))
    (set (λ s, mkState (updates (pathname p) ∪ expanded s))).

Definition isExpanded (s : state) (href : string) : bool := default false (expanded s !! href).

Definition toggleExpanded (href : string) : prog state output :=
  set (λ s, mkState (<[href := negb (isExpanded s href)]> (expanded s))).

Definition isActive (path : string) (i : NavItem) : bool :=
  if bool_decide (children i = []) then is_active path (href i) else child_active path i.

Definition item (s : state) (i : NavItem) : ui event :=
  match children i with
  | [] => Link (href i) [Text (label i)]
  | l => Box [Button (label i) false (ToggleExpanded (href i));
              show_if (isExpanded s (href i)) (Box ((λ c, Link c.2 [Text c.1]) <$> l))]
  end.

Definition render (s : state) : ui event :=
  Box [Text "Identity Provider"; Text "Zero-Trust ACL"; Box (item s <$> navItems);
       Text "Security configuration panel for Zero-Trust Resource Access Control"].

Definition on (e : event) : prog state output :=
  match e with ToggleExpanded h => toggleExpanded h end.

Definition component : component :=
  mkComponent props state event output (λ _, initial) (λ _, render) (λ _ _, on)
    (λ _ _, Done) (λ p p', pathname p = pathname p') (λ p _, expandActive p).

#[global] Hint Unfold setExpanded is_active child_active updates expandActive isExpanded
  toggleExpanded isActive item render : ui.
End Sidebar.

(** [components/dashboard/header.tsx]; the workspace switcher in it has no callbacks. *)
Module Header.
Inductive output := RemoveToken | Location (href : string).
Inductive event := SignOut.

(** The reply of the server, or its failure, makes no difference. *)
Definition logout : prog unit output :=
  steps
    [Await (Fetch "POST" "/api/auth/logout" None None) (λ _,
       steps [emit RemoveToken; emit (Location "/login")])].

Definition render : ui event :=
  Box [Text "Identity & Access Control"; Text "Manage groups, users, and resource access policies";
       Button "Sign out" false SignOut].

Definition component : component :=
  mkComponent unit unit event output (λ _, tt) (λ _ _, render) (λ _ _ _, logout)
    (λ _ _, Done) (λ _ _, True) (λ _ _, Done).

#[global] Hint Unfold logout render : ui.
End Header.

(** [components/dashboard/SetupChecklist.tsx]; [stored] is the local storage. *)
Module SetupChecklist.
Definition DISMISSED_KEY : string := "ztna_setup_checklist_dismissed".
Record props := mkProps { stored : storage }.
Inductive output := Store (op : M storage unit).
Inductive event := Dismiss.

Record state := mkState {
  dismissed : bool }.
Definition setDismissed (v : bool) : prog state output :=
  set (λ s, mkState v).

Definition items : list (string * string * string) :=
  [("Deploy a Connector", "Connect your network by deploying a connector", "/dashboard/connectors");
   ("Add a Resource", "Define the resources users can access", "/dashboard/resources");
   ("Invite Team Members", "Add users to your organization", "/dashboard/users")].

Definition initial (p : props) : state :=
  mkState (match result_of (getItem DISMISSED_KEY) (stored p) with
           | Ok (Some v) => bool_decide (v = "true")
           | _ => false
           end).

Definition handleDismiss : prog state output :=
  steps [emit (Store (setItem DISMISSED_KEY "true")); setDismissed true].

Definition render (s : state) : ui event :=
  if dismissed s then Nothing
  else Box [Text "Get started with your network"; Button "Dismiss" false Dismiss;
            Box ((λ i, Link i.2 [Text i.1.1; Text i.1.2]) <$> items)].

Definition component : component :=
  mkComponent props state event output initial (λ _, render) (λ _ _ _, handleDismiss)
    (λ _ _, Done) (λ _ _, True) (λ _ _, Done).

#[global] Hint Unfold setDismissed handleDismiss render : ui.
End SetupChecklist.

(** [src/pages/DashboardLayout.tsx]: the checklist is shown with [?setup=true]. *)
Module DashboardLayout.
Definition showSetup (setup : option string) : bool := bool_decide (setup = Some "true").
Definition render {E} (setup : option string) (sidebar header checklist outlet : ui E) : ui E :=
  Box [sidebar; header; show_if (showSetup setup) checklist; outlet].
End DashboardLayout.

(** [components/dashboard/policy/policy-type-dropdown.tsx] *)
Module PolicyTypeDropdown.
Inductive PolicyView := resource | signin | devices.
Definition string_of_view (v : PolicyView) : string :=
  match v with resource => "resource" | signin => "signin" | devices => "devices" end.

Definition viewFromPath (pathname : string) : PolicyView :=
  if includes pathname "/dashboard/policy/sign-in" then signin
  else if includes pathname "/dashboard/policy/device-profiles" then devices
  else resource.

(** A value that is no view goes where [resource] goes. *)
Definition pathFromView (view : string) : string :=
  if decide (view = "signin") then "/dashboard/policy/sign-in"
  else if decide (view = "devices") then "/dashboard/policy/device-profiles"
  else "/dashboard/policy/resource-policies".

(** The event is the target of [navigate]. *)
Definition render (pathname : string) : ui string :=
  Select "policy" (string_of_view (viewFromPath pathname)) false
    [("resource", "Resource Policies"); ("signin", "Sign In Policy"); ("devices", "Device Profiles")]
    pathFromView.
End PolicyTypeDropdown.

(** [components/dashboard/policy/resource-policies/create-resource-policy-modal.tsx]; [stored]
    is the local storage and [ids] the sources of fresh names. *)
Module CreateResourcePolicyModal.
Record props := mkProps { isOpen : bool; stored : storage; ids : id_source }.
Inductive output := onClose | onCreated | Store (op : M storage unit).
Inductive event := TypeName (v : string) | Dismiss | Cancel | Create.

Record state := mkState {
  name : string;
  isCreating : bool;
  error : option string }.
Definition setName (v : string) : prog state output :=
  set (λ s, mkState v (isCreating s) (error s)).
Definition setIsCreating (v : bool) : prog state output :=
  set (λ s, mkState (name s) v (error s)).
Definition setError (v : option string) : prog state output :=
  set (λ s, mkState (name s) (isCreating s) v).

Definition initial : state := mkState "" false None.

Section Engine.
  Context (engine_message : js_error → string).

(** The policy is created in local storage, at once. *)
Definition handleCreate (p : props) (s : state) : prog state output :=
  let trimmed := trim (name s) in
  steps
    [setError None;
     if bool_decide (trimmed = "") then setError (Some "Policy name is required.")
     else steps
       [setIsCreating true;
        emit (Store (createResourcePolicy (ids p) trimmed ;; mret tt));
        match result_of (createResourcePolicy (ids p) trimmed) (stored p) with
        | Ok _ => steps [setName ""; emit onCreated]
        | Throw e => setError (Some (or_else (error_message engine_message e) "Failed to create policy."))
        end;
        setIsCreating false]].

Definition render (p : props) (s : state) : ui event :=
  Dialog (isOpen p) Dismiss
    [Text "Create Policy";
     Text "Enter a policy name. The policy will be added to the list immediately.";
     Input "Policy Name" (name s) false TypeName;
     match error s with
     | Some m => show_if (negb (bool_decide (m = ""))) (Text m)
     | None => Nothing
     end;
     Button "Cancel" (isCreating s) Cancel;
     Button (if isCreating s then "Creating..." else "Create")
       (isCreating s || bool_decide (trim (name s) = "")) Create].

(** The button only closes; dismissing also clears the error. *)
Definition on (p : props) (s : state) (e : event) : prog state output :=
  match e with
  | TypeName v => setName v
  | Dismiss => steps [setError None; emit onClose]
  | Cancel => emit onClose
  | Create => handleCreate p s
  end.

Definition component : component :=
  mkComponent props state event output (λ _, initial) render on
    (λ _ _, Done) (λ _ _, True) (λ _ _, Done).
End Engine.

#[global] Hint Unfold setName setIsCreating setError handleCreate render : ui.
End CreateResourcePolicyModal.
