(* ===== verification/DiagnosticsPages.v ===== *)
(** * Diagnostics ([src/pages/diagnostics], [components/dashboard/diagnostics]) *)
From S2P Require Import Prelude JsString Types Client Ui Async.
From stdpp Require Import gmap.
From Stdlib Require Import ZArith.

(** [components/dashboard/diagnostics/connectivity-panel.tsx] *)
Module ConnectivityPanel.
(** [Math.round(a / b)] of integers, for a positive [b]: halves go up. *)
Definition round_div (a b : Z) : Z := ((2 * a + b) / (2 * b))%Z.

(** The staleness is a number of whole seconds. *)
Definition formatStaleness (seconds : Z) : string :=
  (if seconds <=? 0 then "just now"
   else if seconds <? 60 then pretty seconds +:+ "s ago"
   else if seconds <? 3600 then pretty (round_div seconds 60) +:+ "m ago"
   else if seconds <? 86400 then pretty (round_div seconds 3600) +:+ "h ago"
   else pretty (round_div seconds 86400) +:+ "d ago")%Z.

Record props := mkProps {
  connectors : list ConnectorDiagnostic; tunnelers : list TunnelerDiagnostic }.
Abbreviation output := Empty_set.
Inductive event := Ping (id : string).

Record state := mkState {
  pingResults : gmap string PingResult;
  pinging : gmap string bool }.
Definition setPingResults (v : gmap string PingResult) : prog state output :=
  set (λ s, mkState v (pinging s)).
Definition setPinging (v : gmap string bool) : prog state output :=
  set (λ s, mkState (pingResults s) v).

Definition initial : state := mkState ∅ ∅.

Definition onlineCount (p : props) : nat :=
  length (filter (λ c, ConnectorDiagnostic_status c = "online") (connectors p)).
Definition streamActiveCount (s : state) : nat :=
  length (filter (λ kv, PingResult_streamActive kv.2 = true) (map_to_list (pingResults s))).
Definition onlineTunnelerCount (p : props) : nat :=
  length (filter (λ t, TunnelerDiagnostic_status t = "online") (tunnelers p)).

(** [setPinging((prev) => ({ ...prev, [id]: b }))], and the same for the results. *)
Definition setPingingOf (id : string) (b : bool) : prog state output :=
  set (λ s, mkState (pingResults s) (<[id := b]> (pinging s))).
Definition setResultOf (id : string) (r : PingResult) : prog state output :=
  set (λ s, mkState (<[id := r]> (pingResults s)) (pinging s)).

Definition handlePing (id : string) : prog state output :=
  steps
    [setPingingOf id true;
     try_await (PingConnector id) (setResultOf id) (λ _, Done) (setPingingOf id false)].

Section Dates.
  Context (dates : string → option string).

(** A date that is given and not empty. *)
Definition seen (v : option string) : option string :=
  match v with Some d => if decide (d = "") then None else Some d | None => None end.
Definition seen_text (v : option string) : string :=
  match seen v with Some d => toLocaleString dates d | None => "Never" end.

Definition row (s : state) (c : ConnectorDiagnostic) : ui event :=
  let i := ConnectorDiagnostic_id c in
  let result := pingResults s !! i in
  let isPinging := default false (pinging s !! i) in
  let staleness := from_option PingResult_stalenessSeconds (ConnectorDiagnostic_stalenessSeconds c) result in
  let lastSeenAt := from_option PingResult_lastSeenAt (ConnectorDiagnostic_lastSeenAt c) result in
  Box [Text (or_else (ConnectorDiagnostic_name c) i); Text (ConnectorDiagnostic_status c);
       Text match result with
            | None => "-"
            | Some r => if PingResult_streamActive r then "Active" else "Inactive"
            end;
       Text (if (0 <? staleness)%Z then formatStaleness staleness
             else match seen lastSeenAt with Some _ => "just now" | None => "Never" end);
       Text (seen_text lastSeenAt);
       Button (if isPinging then "Pinging..." else "Ping") isPinging (Ping i)].

Definition tunneler_row (t : TunnelerDiagnostic) : ui event :=
  Box [Text (or_else (TunnelerDiagnostic_name t) (TunnelerDiagnostic_id t));
       Text (TunnelerDiagnostic_status t); Text (seen_text (TunnelerDiagnostic_lastSeenAt t))].

Definition render (p : props) (s : state) : ui event :=
  Box [Box [Text "Total Connectors"; Text (pretty (length (connectors p)))];
       Box [Text "Online"; Text (pretty (onlineCount p))];
       Box [Text "Streams Active (pinged)"; Text (pretty (streamActiveCount s))];
       Box [Text "Agents Online"; Text (pretty (onlineTunnelerCount p))];
       Box (Text <$> ["Connectors"; "Name"; "Status"; "Stream Active"; "Staleness"; "Last Seen"; "Action"]);
       show_if (bool_decide (connectors p = [])) (Text "No connectors found");
       Box (row s <$> connectors p);
       Box (Text <$> ["Agents"; "Name"; "Status"; "Last Seen"]);
       show_if (bool_decide (tunnelers p = [])) (Text "No agents found");
       Box (tunneler_row <$> tunnelers p)].

Definition on (e : event) : prog state output := match e with Ping i => handlePing i end.

Definition component : component :=
  mkComponent props state event output (λ _, initial) render (λ _ _, on)
    (λ _ _, Done) (λ _ _, True) (λ _ _, Done).
End Dates.

#[global] Hint Unfold round_div formatStaleness setPingResults setPinging onlineCount
  streamActiveCount onlineTunnelerCount setPingingOf setResultOf handlePing seen seen_text row
  tunneler_row render : ui.
End ConnectivityPanel.

(** [components/dashboard/diagnostics/access-trace-panel.tsx] *)
Module AccessTracePanel.
Abbreviation output := Empty_set.
Inductive event := PickUser (v : string) | PickResource (v : string) | Trace.

Record state := mkState {
  users : list User;
  resources : list Resource;
  selectedUser : string;
  selectedResource : string;
  tracing : bool;
  result : option AccessTrace;
  error : option string }.
Definition setUsers (v : list User) : prog state output :=
  set (λ s, mkState v (resources s) (selectedUser s) (selectedResource s) (tracing s) (result s)
    (error s)).
Definition setResources (v : list Resource) : prog state output :=
  set (λ s, mkState (users s) v (selectedUser s) (selectedResource s) (tracing s) (result s)
    (error s)).
Definition setSelectedUser (v : string) : prog state output :=
  set (λ s, mkState (users s) (resources s) v (selectedResource s) (tracing s) (result s)
    (error s)).
Definition setSelectedResource (v : string) : prog state output :=
  set (λ s, mkState (users s) (resources s) (selectedUser s) v (tracing s) (result s) (error s)).
Definition setTracing (v : bool) : prog state output :=
  set (λ s, mkState (users s) (resources s) (selectedUser s) (selectedResource s) v (result s)
    (error s)).
Definition setResult (v : option AccessTrace) : prog state output :=
  set (λ s, mkState (users s) (resources s) (selectedUser s) (selectedResource s) (tracing s) v
    (error s)).
Definition setError (v : option string) : prog state output :=
  set (λ s, mkState (users s) (resources s) (selectedUser s) (selectedResource s) (tracing s)
    (result s) v).

Definition initial : state := mkState [] [] "" "" false None None.

(** The effect; a failure is not caught. *)
Definition loadChoices : prog state output :=
  try_await (Both GetUsers GetResources)
    (λ data, steps [setUsers data.1; setResources data.2]) (λ _, Done) Done.

Section Engine.
  Context (engine_message : js_error → string).

(** What the client throws is an [Error]. *)
Definition handleTrace (s : state) : prog state output :=
  when (negb (bool_decide (selectedUser s = "")) && negb (bool_decide (selectedResource s = "")))
    (steps
      [setTracing true; setError None; setResult None;
       try_await (TraceAccess (selectedUser s) (selectedResource s))
         (λ trace, setResult (Some trace))
         (λ e, setError (Some (error_message engine_message e)))
         (setTracing false)]).

(** [hop.type.replace('_', ' ')] *)
Definition hop_card {E} (h : TraceHop) : ui E :=
  Box [Text (replace "_" " " (TraceHop_type h)); Text (TraceHop_name h); Text (TraceHop_status h)].

Definition result_view {E} (t : AccessTrace) : ui E :=
  Box [Text (if AccessTrace_allowed t then "ACCESS ALLOWED" else "ACCESS DENIED");
       Text (AccessTrace_reason t); Text "Access Path"; Box (hop_card <$> AccessTrace_path t);
       show_if (negb (bool_decide (AccessTrace_userGroups t = [])))
         (Box (Text "User Groups" :: ((λ g, Text g.2) <$> AccessTrace_userGroups t)));
       show_if (negb (bool_decide (AccessTrace_matchedRules t = [])))
         (Box (Text "Matched Access Rules" :: ((λ r, Text r.1.2) <$> AccessTrace_matchedRules t)))].

Definition render (s : state) : ui event :=
  Box [Text "Trace Access Path";
       Select "User" (selectedUser s) false
         ((λ u, (User_id u, User_name u +:+ " (" +:+ User_email u +:+ ")")) <$> users s) PickUser;
       Select "Resource" (selectedResource s) false
         ((λ r, (Resource_id r, Resource_name r)) <$> resources s) PickResource;
       Button (if tracing s then "Tracing..." else "Trace")
         (bool_decide (selectedUser s = "") || bool_decide (selectedResource s = "") || tracing s)
         Trace;
       match error s with
       | Some m => show_if (negb (bool_decide (m = ""))) (Text m)
       | None => Nothing
       end;
       match result s with Some t => result_view t | None => Nothing end].

Definition on (s : state) (e : event) : prog state output :=
  match e with
  | PickUser v => setSelectedUser v
  | PickResource v => setSelectedResource v
  | Trace => handleTrace s
  end.

Definition component : component :=
  mkComponent unit state event output (λ _, initial) (λ _, render) (λ _, on)
    (λ _ _, fork loadChoices) (λ _ _, True) (λ _ _, Done).
End Engine.

#[global] Hint Unfold setUsers setResources setSelectedUser setSelectedResource setTracing
  setResult setError loadChoices handleTrace hop_card result_view render : ui.
End AccessTracePanel.

(** [src/pages/diagnostics/NetworkDiagnosticsPage.tsx] *)
Module NetworkDiagnosticsPage.
Abbreviation output := Empty_set.

Record state := mkState {
  data : option DiagnosticsData;
  loading : bool }.
Definition setData (v : option DiagnosticsData) : prog state output :=
  set (λ s, mkState v (loading s)).
Definition setLoading (v : bool) : prog state output :=
  set (λ s, mkState (data s) v).

Definition initial : state := mkState None true.

Definition loadData : prog state output :=
  try_await GetDiagnostics (λ d, setData (Some d)) (λ _, Done) (setLoading false).

Definition panel_props (s : state) : ConnectivityPanel.props :=
  ConnectivityPanel.mkProps (from_option DiagnosticsData_connectors [] (data s))
    (from_option DiagnosticsData_tunnelers [] (data s)).

(** The tabs with the two panels, which have no callbacks. *)
Definition render (s : state) : ui Empty_set :=
  if loading s then Nothing
  else Box [Text "Network Diagnostics";
            Text "Monitor connector health and trace access paths across your network";
            Text "Connectivity"; Text "Access Trace"].

Definition component : component :=
  mkComponent unit state Empty_set output (λ _, initial) (λ _, render) (λ _ _ e, match e with end)
    (λ _ _, fork loadData) (λ _ _, True) (λ _ _, Done).

#[global] Hint Unfold setData setLoading loadData render : ui.
End NetworkDiagnosticsPage.
