(* ===== verification/Forms.v ===== *)
(** * One submission at a time

    Every dialog of the dashboard that submits, and the two lists that delete after a
    confirmation, is an instance of [SubmitForm]: its button is disabled while a
    submission is in flight. *)
From S2P Require Import Prelude JsString Client Storage Ui Async.
From S2P Require Import GroupForms UserForms NetworkForms Picker ResourceForms ConnectorForms AgentForms.
From stdpp Require Import relations.

(** The calls that submit. *)
Definition is_AddGroup A (a : api A) : bool := match a with AddGroup _ _ => true | _ => false end.
Definition is_UpdateGroup A (a : api A) : bool :=
  match a with UpdateGroup _ _ _ => true | _ => false end.
Definition is_AddGroupResources A (a : api A) : bool :=
  match a with AddGroupResources _ _ => true | _ => false end.
Definition is_UpdateGroupMembers A (a : api A) : bool :=
  match a with UpdateGroupMembers _ _ => true | _ => false end.
Definition is_AddUser A (a : api A) : bool := match a with AddUser _ _ _ => true | _ => false end.
Definition is_UpdateUser A (a : api A) : bool :=
  match a with UpdateUser _ _ _ _ => true | _ => false end.
Definition is_InviteUser A (a : api A) : bool := match a with InviteUser _ _ => true | _ => false end.
Definition is_AddRemoteNetwork A (a : api A) : bool :=
  match a with AddRemoteNetwork _ _ => true | _ => false end.
Definition is_DeleteRemoteNetwork A (a : api A) : bool :=
  match a with DeleteRemoteNetwork _ => true | _ => false end.
Definition is_AddConnector A (a : api A) : bool :=
  match a with AddConnector _ _ => true | _ => false end.
Definition is_DeleteConnector A (a : api A) : bool :=
  match a with DeleteConnector _ => true | _ => false end.
Definition is_AddResource A (a : api A) : bool := match a with AddResource _ => true | _ => false end.
Definition is_UpdateResource A (a : api A) : bool :=
  match a with UpdateResource _ _ => true | _ => false end.
Definition is_CreateAccessRule A (a : api A) : bool :=
  match a with CreateAccessRule _ _ _ _ => true | _ => false end.
Definition is_AddAgent A (a : api A) : bool := match a with AddAgent _ _ _ => true | _ => false end.

(** The obligations of a form [C] whose flag is [b]: its handlers are orderly, those behind
    the button because the button was enabled. *)
Ltac submit_form C b c :=
  refine (Build_SubmitForm C b c _ _ _ _);
  [ done
  | let p := fresh "p" in let s := fresh "s" in let e := fresh "e" in let H := fresh "Hoff" in
    intros p s e H; destruct e; first [solve [orderly] | not_offered_while (b s) H; orderly]
  | intros; orderly
  | intros; orderly ].

#[export] Instance AddGroup_form : SubmitForm AddGroupModal.component.
Proof. submit_form AddGroupModal.component AddGroupModal.isAdding is_AddGroup. Defined.
#[export] Instance EditGroup_form : SubmitForm EditGroupModal.component.
Proof. submit_form EditGroupModal.component EditGroupModal.isSaving is_UpdateGroup. Defined.
#[export] Instance AddResources_form : SubmitForm AddResourcesModal.component.
Proof. submit_form AddResourcesModal.component AddResourcesModal.isAdding is_AddGroupResources. Defined.
#[export] Instance AddMembers_form : SubmitForm AddMembersModal.component.
Proof. submit_form AddMembersModal.component AddMembersModal.saving is_UpdateGroupMembers. Defined.
#[export] Instance AddUser_form : SubmitForm AddUserModal.component.
Proof. submit_form AddUserModal.component AddUserModal.isAdding is_AddUser. Defined.
#[export] Instance EditUser_form : SubmitForm EditUserModal.component.
Proof. submit_form EditUserModal.component EditUserModal.isSaving is_UpdateUser. Defined.
#[export] Instance AddRemoteNetwork_form : SubmitForm AddRemoteNetworkModal.component.
Proof. submit_form AddRemoteNetworkModal.component AddRemoteNetworkModal.isSubmitting is_AddRemoteNetwork. Defined.
#[export] Instance NetworkConnector_form : SubmitForm NetworkForms.AddConnectorModal.component.
Proof. submit_form NetworkForms.AddConnectorModal.component NetworkForms.AddConnectorModal.isSubmitting is_AddConnector. Defined.
#[export] Instance AddConnector_form engine_message : SubmitForm (ConnectorForms.AddConnectorModal.component engine_message).
Proof. submit_form (ConnectorForms.AddConnectorModal.component engine_message) ConnectorForms.AddConnectorModal.isAdding is_AddConnector. Defined.

Lemma resetForm_neutral p s :
  neutral AddResourceModal.isSubmitting is_AddResource (AddResourceModal.resetForm p s).
Proof. unfold AddResourceModal.resetForm. neutral. Qed.

Lemma handleClose_neutral p s :
  neutral AddResourceModal.isSubmitting is_AddResource (AddResourceModal.handleClose p s).
Proof.
  apply neutral_steps, Forall_cons_2; [apply resetForm_neutral|]. neutral.
Qed.

Lemma handleSubmit_orderly p s : AddResourceModal.isSubmitting s = false →
  orderly AddResourceModal.isSubmitting is_AddResource (AddResourceModal.handleSubmit p s) false s.
Proof.
  intros Hs. unfold AddResourceModal.handleSubmit. destruct (AddResourceModal.canSubmit s); [|done].
  hnf. right; left. repeat (split; [done|]). intros r s' Hs'.
  apply seq_assoc. destruct r as [x|e].
  - apply (neutral_steps _ _ [_; _; _]).
    + do 2 (apply Forall_cons_2; [apply neutral_emit|]).
      by apply Forall_singleton, handleClose_neutral.
    + intros s2 _. hnf. right; right. done.
  - hnf. right; right. done.
Qed.

#[export] Instance AddResource_form : SubmitForm AddResourceModal.component.
Proof.
  refine (Build_SubmitForm AddResourceModal.component AddResourceModal.isSubmitting is_AddResource
    _ _ _ _); [done| | |].
  - intros p s e Hoff. destruct e;
      [orderly..|apply neutral_orderly, handleClose_neutral|apply handleSubmit_orderly].
    not_offered_while (AddResourceModal.isSubmitting s) Hoff. done.
  - intros; orderly.
  - intros; orderly.
Defined.
#[export] Instance EditResource_form : SubmitForm EditResourceModal.component.
Proof. submit_form EditResourceModal.component EditResourceModal.isSubmitting is_UpdateResource. Defined.
#[export] Instance AddAccessRule_form : SubmitForm AddAccessRuleModal.component.
Proof. submit_form AddAccessRuleModal.component AddAccessRuleModal.saving is_CreateAccessRule. Defined.
#[export] Instance AddTunneler_form engine_message : SubmitForm (AddTunnelerModal.component engine_message).
Proof. submit_form (AddTunnelerModal.component engine_message) AddTunnelerModal.isAdding is_AddAgent. Defined.
#[export] Instance DeleteNetwork_form dates : SubmitForm (RemoteNetworksList.component dates).
Proof. submit_form (RemoteNetworksList.component dates) RemoteNetworksList.deleting is_DeleteRemoteNetwork. Defined.
#[export] Instance DeleteConnector_form : SubmitForm ConnectorsList.component.
Proof. submit_form ConnectorsList.component ConnectorsList.deleting is_DeleteConnector. Defined.

(** ** Properties *)

(** In every state that can be reached the calls of [submits] in flight are one while
    [flag] is set, and none otherwise. *)
Definition single_submission_of (C : component) (flag : state C → bool)
  (submits : ∀ A, api A → bool) : Prop :=
  ∀ c : config C, reachable c → in_flight submits (pending c) = Nat.b2n (flag (its_state c)).


Section Invite.
  Context (engine_message : js_error → string).

(** Pressing Enter once more. *)
Lemma press_enter (c : config (InviteUserModal.component engine_message)) :
  InviteUserModal.isOpen (its_props c) = true →
  InviteUserModal.email (its_state c) = "a@b.c" →
  ∃ c', step c c' ∧ InviteUserModal.isOpen (its_props c') = true ∧
    InviteUserModal.email (its_state c') = "a@b.c" ∧
    in_flight is_InviteUser (pending c') = S (in_flight is_InviteUser (pending c)).
Proof.
  intros Ho He. eexists. split.
  { apply (step_user c InviteUserModal.PressEnter). cbn. unfold InviteUserModal.render.
    rewrite Ho. cbn. tauto. }
  cbn. unfold InviteUserModal.handleInvite. rewrite He. cbn.
  repeat (split; [done|]). etrans; [apply in_flight_app|].
  etrans; [apply f_equal, (in_flight_one is_InviteUser)|]. apply Nat.add_1_r.
Qed.

(** The dialog that invites is the exception: its field submits on Enter without
    looking whether an invitation is being sent, so that any number of them can be in
    flight, one e-mail each. *)
Theorem invite_any_number (n : nat) :
  ∃ c : config (InviteUserModal.component engine_message),
    reachable c ∧ in_flight is_InviteUser (pending c) = n.
Proof.
  set (C := InviteUserModal.component engine_message).
  assert (∃ c : config C, reachable c ∧ InviteUserModal.isOpen (its_props c) = true ∧
    InviteUserModal.email (its_state c) = "a@b.c" ∧ in_flight is_InviteUser (pending c) = n)
    as (c & H & _ & _ & Hn); [|by exists c].
  induction n as [|n (c & [p Hr] & Ho & He & Hn)].
  - set (p := InviteUserModal.mkProps true None).
    exists (exec (handle C p (init C p) (InviteUserModal.TypeEmail "a@b.c")) (mount C p)).
    split; [|done]. exists p. apply rtc_once, step_user.
    cbn. do 3 right. left. by eauto.
  - destruct (press_enter c Ho He) as (c' & Hs & Ho' & He' & Hn'). exists c'.
    split; [exists p; by eapply rtc_r|]. exact (conj Ho' (conj He' (eq_trans Hn' (f_equal S Hn)))).
Qed.
End Invite.
