(* ===== verification/Loading.v ===== *)
(** * The spinner of the pages

    A page shows a spinner while [loading] is set.  The spinner ends: whenever it is shown
    a call is in flight whose reply, whatever it is, takes it away. *)
From stdpp Require Import relations.
From S2P Require Import Prelude JsString Json Types Client Ui Async.
From S2P Require Import Pages DetailPages DiagnosticsPages.
From Stdlib Require Import ZArith.

Section Loading.
  Context {S O : Type} (loading : S → bool).

(** [settles p s]: whatever the replies, [p] ends with the spinner taken away. *)
Fixpoint settles (p : prog S O) (s : S) : Prop :=
  match p with
  | Done => loading s = false
  | Set_ f k => settles k (f s)
  | Emit _ k => settles k s
  | Await _ k => ∀ r s', settles (k r) s'
  | Fork q k => settles q s ∧ k = Done
  end.

(** A call whose continuation settles. *)
Definition task_settles (t : task S O) : Prop :=
  match t with Task _ k => ∀ r s, settles (k r) s end.

(** [fine p s b]: where [p] stops, the spinner is off or a call that settles is in flight;
    [b] tells that one is already. *)
Fixpoint fine (p : prog S O) (s : S) (b : bool) : Prop :=
  match p with
  | Done => b = true ∨ loading s = false
  | Set_ f k => fine k (f s) b
  | Emit _ k => fine k s b
  | Await _ k =>
      (∀ r s', settles (k r) s') ∨
      ((b = true ∨ loading s = false) ∧
       ∀ r s' b', b' = true ∨ loading s' = false → fine (k r) s' b')
  | Fork q k => fine q s b ∧ ∀ s' b', b' = true ∨ loading s' = false → fine k s' b'
  end.

Definition task_fine (t : task S O) : Prop :=
  task_settles t ∨
  match t with Task _ k => ∀ r s b, b = true ∨ loading s = false → fine (k r) s b end.

Lemma settles_fine p : ∀ s b, settles p s → fine p s b.
Proof.
  induction p as [|f p IH|o p IH|A a k IH|q IHq k _]; intros s b; cbn; auto.
  intros [Hq ->]. split; [by apply IHq|]. auto.
Qed.
End Loading.

(** A page whose spinner is always about to end. *)
Definition spinner_ends {C : component} (loading : state C → bool) (c : config C) : Prop :=
  (loading (its_state c) = true → ∃ t, t ∈ pending c ∧ task_settles loading t) ∧
  Forall (task_fine loading) (pending c).

Section Ends.
  Context {C : component} (loading : state C → bool).

Lemma exec_fine p : ∀ (c : config C) b,
  fine loading p (its_state c) b →
  (b = true → ∃ t, t ∈ pending c ∧ task_settles loading t) →
  Forall (task_fine loading) (pending c) → spinner_ends loading (exec p c).
Proof.
  induction p as [|f p IH|o p IH|A a k IH|q IHq k IHk]; intros c b Hp Hb Ht; cbn in *.
  - split; [|done]. intros Hl. destruct Hp as [->|Hl']; [auto|congruence].
  - by apply (IH _ b).
  - by apply (IH _ b).
  - split; cbn.
    + intros Hl. destruct Hp as [Hk|[[->|Hl'] Hk]]; [| |congruence].
      * exists (Task a k). split; [apply elem_of_app; right; by constructor|done].
      * destruct (Hb eq_refl) as (t & Hin & Hs). exists t. split; [|done].
        apply elem_of_app. by left.
    + apply Forall_app_2; [done|]. apply Forall_singleton.
      destruct Hp as [Hk|[_ Hk]]; [by left|by right].
  - destruct Hp as [Hq Hk]. destruct (IHq c b Hq Hb Ht) as [H1 H2].
    destruct (loading (its_state (exec q c))) eqn:El.
    + apply (IHk _ true); auto.
    + apply (IHk _ false); auto.
Qed.

Lemma spinner_ends_flag (c : config C) : spinner_ends loading c →
  ∃ b : bool, (b = true ∨ loading (its_state c) = false) ∧
    (b = true → ∃ t, t ∈ pending c ∧ task_settles loading t).
Proof.
  intros [H _]. destruct (loading (its_state c)); [exists true|exists false]; auto.
Qed.

Lemma spinner_reachable p :
  spinner_ends loading (mount C p) →
  (∀ p s e b, offered (view C p s) e → b = true ∨ loading s = false → fine loading (handle C p s e) s b) →
  (∀ p s s' b, b = true ∨ loading s' = false → fine loading (effect C p s) s' b) →
  ∀ c, rtc step (mount C p) c → spinner_ends loading c.
Proof.
  intros Hm Hh He. apply (rtc_ind_r (spinner_ends loading)); [done|].
  intros c c' _ Hs Hc. pose proof Hc as [Hl Ht]. destruct (spinner_ends_flag c Hc) as (b & Hb & Hw).
  destruct Hs as [c e Hoff|c l1 A a k l2 r E|c p' _|c p'].
  - apply (exec_fine _ _ b); [by apply Hh|done|done].
  - rewrite E, Forall_app, Forall_cons in Ht. destruct Ht as (H1 & Hk & H2).
    assert (Forall (task_fine loading) (l1 ++ l2)) as Ht by (by apply Forall_app).
    destruct Hk as [Hk|Hk]; [by apply (exec_fine _ _ false); [apply settles_fine, Hk|..]|].
    destruct (loading (its_state c)) eqn:El.
    + destruct (Hl eq_refl) as (t & Hin & Hts). rewrite E, elem_of_app, elem_of_cons in Hin.
      destruct Hin as [Hin|[->|Hin]].
      * apply (exec_fine _ _ true); [apply Hk; auto| |done]. intros _. exists t.
        split; [apply elem_of_app; by left|done].
      * apply (exec_fine _ _ false); [apply settles_fine, Hts|done|done].
      * apply (exec_fine _ _ true); [apply Hk; auto| |done]. intros _. exists t.
        split; [apply elem_of_app; by right|done].
    + by apply (exec_fine _ _ false); [apply Hk; auto|..].
  - done.
  - apply (exec_fine _ _ b); [by apply He|done|done].
Qed.
End Ends.

(** The programs of a page are fine. *)
Ltac fine :=
  cbn; autounfold with ui; cbn;
  repeat match goal with
    | |- _ = _ => reflexivity
    | |- True => exact I
    | H : ?P |- ?P => exact H
    | |- _ ∧ _ => split
    | |- ∀ _, _ => intros
    | |- context [match ?r with Ok _ => _ | Throw _ => _ end] => destruct r; cbn
    | |- fine _ (match ?x with _ => _ end) _ _ => destruct x eqn:?; cbn
    | |- fine _ (seq (match ?x with _ => _ end) _) _ _ => destruct x eqn:?; cbn
    | |- (∀ r s, settles _ _ _) ∨ _ =>
        first [ left; solve [intros [] ?; cbn; repeat split] | right; split ]
    end.

(** From its mounting on, the page never shows a spinner that nothing will end. *)
Definition never_stuck (C : component) (loading : state C → bool) (p : props C) : Prop :=
  ∀ c : config C, rtc step (mount C p) c → loading (its_state c) = true →
    ∃ t, t ∈ pending c ∧ task_settles loading t.

(** [go] proves that the page is about to end its spinner when it is mounted. *)
Ltac never_stuck go :=
  match goal with |- never_stuck ?C ?l ?p =>
    let c := fresh "c" in let Hc := fresh "Hc" in
    intros c Hc; apply (proj1 (spinner_reachable (C:=C) l p ltac:(go)
      ltac:(let e := fresh "e" in intros ? ? e ? _ ?; destruct e; fine)
      ltac:(intros; fine) c Hc))
  end.

(** A page that is mounted with one call, which settles. *)
Ltac mounted_loading :=
  split; [intros _; eexists; split; [apply list_elem_of_here|intros [] ?; done]
         |apply Forall_singleton; left; intros [] ?; done].

Lemma given_Some i : i ≠ "" → given (Some i) = Some i.
Proof. intros Hi. unfold given. by case_decide. Qed.

(** The same for a page that loads the object [i]. *)
Ltac mounted_given Hi :=
  unfold mount; cbn -[given]; autounfold with ui; cbn -[given]; rewrite !(given_Some _ Hi); cbn;
  mounted_loading.

(** The connector page also asks for a token when it is mounted. *)
Lemma connector_mounted dates h i : i ≠ "" →
  spinner_ends (C:=ConnectorDetailPage.component dates) ConnectorDetailPage.loading
    (mount (ConnectorDetailPage.component dates) (ConnectorDetailPage.mkProps (Some i) h)).
Proof.
  intros Hi. unfold mount; cbn -[given]; autounfold with ui; cbn -[given].
  rewrite !(given_Some _ Hi); cbn. split.
  - intros _. eexists. split; [apply list_elem_of_further, list_elem_of_here|by intros [] ?].
  - constructor; [right; intros; fine|]. apply Forall_singleton. left. by intros [] ?.
Qed.

(** C3: on every page that loads, from its mounting on and whatever the user does: while the
    spinner is shown, a call is in flight whose reply, be it a failure, takes the spinner
    away.  The pages of one object need a parameter. *)
Theorem pages_never_stuck (dates : string → option string) (unix : Z → option string)
  (i hostname : string) : i ≠ "" →
  never_stuck (GroupsPage.component dates) GroupsPage.loading tt ∧
  never_stuck UsersPage.component UsersPage.loading tt ∧
  never_stuck RemoteNetworksPage.component RemoteNetworksPage.loading tt ∧
  never_stuck ResourcesPage.component ResourcesPage.loading tt ∧
  never_stuck ConnectorsPage.component ConnectorsPage.loading tt ∧
  never_stuck AgentsPage.component AgentsPage.loading tt ∧
  never_stuck NetworkDiagnosticsPage.component NetworkDiagnosticsPage.loading tt ∧
  never_stuck GroupDetailPage.component GroupDetailPage.loading (GroupDetailPage.mkProps (Some i)) ∧
  never_stuck (NetworkDetailPage.component dates unix) NetworkDetailPage.loading
    (NetworkDetailPage.mkProps (Some i)) ∧
  never_stuck ResourceDetailPage.component ResourceDetailPage.loading
    (ResourceDetailPage.mkProps (Some i)) ∧
  never_stuck (ConnectorDetailPage.component dates) ConnectorDetailPage.loading
    (ConnectorDetailPage.mkProps (Some i) hostname) ∧
  never_stuck (AgentDetailPage.component dates) AgentDetailPage.loading
    (AgentDetailPage.mkProps (Some i)).
Proof.
  intros Hi.
  split_and!; [never_stuck mounted_loading..|never_stuck ltac:(mounted_given Hi)
    |never_stuck ltac:(mounted_given Hi)|never_stuck ltac:(mounted_given Hi)
    |never_stuck ltac:(by apply connector_mounted)|never_stuck ltac:(mounted_given Hi)].
Qed.

Lemma pages_never_stuck_witness :
  never_stuck (GroupDetailPage.component) GroupDetailPage.loading
    (GroupDetailPage.mkProps (Some "grp_1")).
Proof.
  assert ("grp_1" ≠ "") as Hi by done.
  exact (proj1 (proj2 (proj2 (proj2 (proj2 (proj2 (proj2 (proj2
    (pages_never_stuck (λ _, None) (λ _, None) "grp_1" "localhost" Hi))))))))).
Defined.
