(* ===== verification/PickerProps.v ===== *)
(** * The picker keeps its promise, and what the dialogs make of it *)
From stdpp Require Import relations.
From S2P Require Import Prelude JsString Types Client Ui Async Picker.

Section Promise.
  Implicit Types (p : SubjectPicker.props) (s : SubjectPicker.state).

Lemma isSelected_false p id :
  SubjectPicker.isSelected p id = false → id ∉ (Selected_id <$> SubjectPicker.selectedSubjects p).
Proof.
  unfold SubjectPicker.isSelected. intros H Hin. apply list_elem_of_fmap in Hin as (x & -> & Hx).
  apply not_true_iff_false in H. apply H, existsb_exists. exists x. split.
  - by apply list_elem_of_In.
  - by apply bool_decide_eq_true.
Qed.

(** A row is shown for a loaded subject of the tab, a wanted type, that is not excluded
    and matches the search. *)
Lemma offered_content p s t things x :
  offered (SubjectPicker.content p s t things) (SubjectPicker.Toggle x) ↔
  SubjectPicker.loading s = false ∧ SubjectPicker.activeTab s = Some t ∧
  t ∈ SubjectPicker.availableTabs p s ∧ x ∈ SubjectPicker.filteredSubjects p s.
Proof.
  unfold SubjectPicker.content. rewrite offered_show_if, andb_true_iff, !bool_decide_eq_true.
  destruct (SubjectPicker.loading s); [cbn; naive_solver|].
  destruct (decide (SubjectPicker.filteredSubjects p s = [])) as [->|Hne].
  - cbn. split; [naive_solver|]. by intros (_ & _ & _ & ?%not_elem_of_nil).
  - cbn [offered]. rewrite offered_rows. cbn. split.
    + intros ([Ht Ha] & y & Hy & [He|[[]|[[]|[]]]]). injection He as <-. done.
    + intros (_ & Ha & Ht & Hx). split; [done|]. exists x. auto.
Qed.

Lemma trigger_no_toggle p s t label x :
  ¬ offered (SubjectPicker.trigger p s t label) (SubjectPicker.Toggle x).
Proof. unfold SubjectPicker.trigger. rewrite offered_show_if. cbn. naive_solver. Qed.

Lemma offered_toggle p s x :
  offered (SubjectPicker.render p s) (SubjectPicker.Toggle x) ↔
  SubjectPicker.loading s = false ∧
  SubjectPicker.activeTab s = Some (Subject_type x) ∧
  Subject_type x ∈ SubjectPicker.availableTabs p s ∧ x ∈ SubjectPicker.filteredSubjects p s.
Proof.
  assert (∀ t, x ∈ SubjectPicker.filteredSubjects p s → SubjectPicker.activeTab s = Some t →
    t = Subject_type x) as Ht.
  { intros t (Hx & _)%list_elem_of_filter. destruct Hx as [Hx _]. congruence. }
  unfold SubjectPicker.render. cbn [offered foldr]. rewrite !offered_content.
  split.
  - intros [H|[H|[H|[H|[H|[H|[H|[H|[]]]]]]]]];
      try (by apply trigger_no_toggle in H); try (cbn in H; naive_solver).
    all: try (destruct H as (? & Ha & ? & Hx); by rewrite <- (Ht _ Hx Ha)).
    apply offered_show_if in H as [_ H]. cbn in H. rewrite offered_rows in H. naive_solver.
  - intros H. destruct (Subject_type x); tauto.
Qed.
End Promise.

(** C15: the picker keeps the promise its parents rely on: every selection it reports takes
    one subject away or adds one of a wanted type that is neither excluded nor already
    selected.  Conversely every loaded subject of the active tab, when its type is wanted
    and it matches the search and is not excluded, can be chosen. *)
Theorem picker_refines (p : SubjectPicker.props) (s : SubjectPicker.state) (e : SubjectPicker.event)
  (c : config SubjectPicker.component) :
  offered (SubjectPicker.render p s) e →
  (∃ outs, emitted (exec (C:=SubjectPicker.component) (SubjectPicker.on p s e) c) = emitted c ++ outs ∧
     ∀ l, SubjectPicker.onSelectionChange l ∈ outs →
       picker_calls (SubjectPicker.subjectTypes p) (SubjectPicker.excludeSubjects p)
         (SubjectPicker.selectedSubjects p) l) ∧
  ∀ x, x ∈ SubjectPicker.allSubjects s → Subject_type x ∈ SubjectPicker.subjectTypes p →
    SubjectPicker.activeTab s = Some (Subject_type x) → SubjectPicker.loading s = false →
    includes (toLowerCase (Subject_name x)) (toLowerCase (SubjectPicker.searchQuery s)) = true →
    Subject_id x ∉ SubjectPicker.excludeSubjects p →
    offered (SubjectPicker.render p s) (SubjectPicker.Toggle x).
Proof.
  intros Hoff. split.
  - destruct e as [t|v|x|id]; cbn.
    + exists []. rewrite app_nil_r. split; [done|]. by intros l ?%not_elem_of_nil.
    + exists []. rewrite app_nil_r. split; [done|]. by intros l ?%not_elem_of_nil.
    + eexists. split; [done|]. intros l [= ->]%list_elem_of_singleton.
      apply offered_toggle in Hoff as (_ & _ & Ht & Hx).
      apply list_elem_of_filter in Ht as [_ Ht], Hx as [(_ & _ & Hx) _].
      destruct (SubjectPicker.isSelected p (Subject_id x)) eqn:E.
      * apply picker_removes.
      * by apply picker_adds; [..|apply isSelected_false].
    + eexists. split; [done|]. intros l [= ->]%list_elem_of_singleton. apply picker_removes.
  - intros x Hx Ht Ha Hl Hi Hn. apply offered_toggle. split_and!; [done|done|..].
    + apply list_elem_of_filter. split; [|done]. by apply list_elem_of_fmap_2.
    + apply list_elem_of_filter. by rewrite Ha.
Qed.

(** ** The selections of the dialogs *)

(** A selection of distinct subjects of one type. *)
Definition well_selected (t : SubjectType) (l : list SelectedSubject) : Prop :=
  NoDup (Selected_id <$> l) ∧ Forall (λ x, Selected_type x = t) l.

Lemma well_selected_calls t excluded l l' :
  picker_calls [t] excluded l l' → well_selected t l → well_selected t l'.
Proof.
  intros Hc [Hn Ht]. destruct Hc as [id|x Hx Hex Hsel].
  - split; [|rewrite Forall_forall in *; by intros y [_ Hy]%list_elem_of_filter; auto].
    apply (sublist_NoDup _ _ Hn), fmap_sublist, sublist_filter.
  - split.
    + rewrite fmap_app. apply NoDup_app. split_and!; [done| |by apply NoDup_singleton].
      intros i Hi ->%list_elem_of_singleton. done.
    + apply Forall_app_2; [done|]. by apply Forall_singleton, list_elem_of_singleton.
Qed.

(** What is excluded stays unselected. *)
Lemma disjoint_calls types excluded l l' : picker_calls types excluded l l' →
  (∀ i, i ∈ excluded → i ∉ Selected_id <$> l) → ∀ i, i ∈ excluded → i ∉ Selected_id <$> l'.
Proof.
  intros [id|x _ Hx _] H i Hi; specialize (H i Hi).
  - intros (y & -> & [_ Hy]%list_elem_of_filter)%list_elem_of_fmap. apply H, list_elem_of_fmap_2, Hy.
  - rewrite fmap_app, elem_of_app. intros [Hin| ->%list_elem_of_singleton]; [done|by apply Hx].
Qed.

Lemma well_selected_nil t : well_selected t [].
Proof. split; constructor. Qed.
#[local] Hint Resolve well_selected_nil : core.

(** The selections of the two dialogs, in every state that can be reached. *)
Lemma members_selection (c : config AddMembersModal.component) : reachable c →
  well_selected USER (AddMembersModal.selectedUsers (its_state c)).
Proof.
  apply (invariant (C:=AddMembersModal.component)
    (λ s, well_selected USER (AddMembersModal.selectedUsers s))); [intros; keeps|intros; keeps|].
  intros p s e Hs Hoff. destruct e as [l| |]; [|keeps..].
  cbn in Hoff. autounfold with ui in Hoff. offered_cases Hoff. injection Hoff as ->.
  by eapply well_selected_calls; [|exact Hs].
Qed.

Lemma rule_selection (c : config AddAccessRuleModal.component) : reachable c →
  well_selected GROUP (AddAccessRuleModal.selectedGroups (its_state c)).
Proof.
  apply (invariant (C:=AddAccessRuleModal.component)
    (λ s, well_selected GROUP (AddAccessRuleModal.selectedGroups s))); [intros; keeps|intros; keeps|].
  intros p s e Hs Hoff. destruct e as [v|l|b| |]; [keeps| |keeps..].
  cbn in Hoff. autounfold with ui in Hoff. offered_cases Hoff. injection Hoff as ->.
  by eapply well_selected_calls; [|exact Hs].
Qed.

(** What submitting puts in flight and says when the reply is a success. *)
Definition members_sent (c : config AddMembersModal.component) : list string :=
  (GroupMember_userId <$> AddMembersModal.currentMembers (its_props c)) ++
  (Selected_id <$> AddMembersModal.selectedUsers (its_state c)).

(** C16: adding members.  In every state that can be reached the selection of the dialog
    consists of distinct users.  Submitting it sends one request, for the group of the
    dialog, with the current members followed by the selected users; these are distinct
    when the current members are and none of them is selected, and no choice that is
    offered selects a current member.  After a success the page is told exactly the
    members that were sent; after a failure it is told nothing and the selection is kept. *)
Theorem add_members (c : config AddMembersModal.component) (s2 : AddMembersModal.state) :
  reachable c →
  let p := its_props c in let s := its_state c in
  let selected := Selected_id <$> AddMembersModal.selectedUsers s in
  let current := GroupMember_userId <$> AddMembersModal.currentMembers p in
  NoDup selected ∧ Forall (λ x, Selected_type x = USER) (AddMembersModal.selectedUsers s) ∧
  (NoDup current → (∀ i, i ∈ current → i ∉ selected) → NoDup (members_sent c)) ∧
  (∀ l, offered (AddMembersModal.render p s) (AddMembersModal.SelectionChange l) →
     (∀ i, i ∈ current → i ∉ selected) → ∀ i, i ∈ current → i ∉ Selected_id <$> l) ∧
  (selected ≠ [] → ∃ k,
    pending (exec (C:=AddMembersModal.component) (AddMembersModal.handleSave p s) c) =
      pending c ++ [Task (UpdateGroupMembers (AddMembersModal.groupId p) (members_sent c)) k] ∧
    emitted (exec (C:=AddMembersModal.component) (k (Ok tt)) (mkConfig p s2 [] [])) =
      [AddMembersModal.onMembersUpdated (AddMembersModal.newMembers p s);
       AddMembersModal.onOpenChange false;
       AddMembersModal.Toast (toast_success ("Added " +:+ pretty (length selected) +:+ " member(s) to group"))] ∧
    GroupMember_userId <$> AddMembersModal.newMembers p s = members_sent c ∧
    ∀ e, exec (C:=AddMembersModal.component) (k (Throw e)) (mkConfig p s2 [] []) =
      mkConfig p (AddMembersModal.mkState (AddMembersModal.selectedUsers s2) false) []
        [AddMembersModal.Toast (toast_error "Failed to update group members")]).
Proof.
  intros Hc p s selected current. destruct (members_selection c Hc) as [Hn Ht].
  split_and!; [done|done|..].
  - intros Hcur Hdis. apply NoDup_app. split_and!; [done| |done]. intros i Hi. by apply Hdis.
  - intros l Hoff. cbn in Hoff. autounfold with ui in Hoff. offered_cases Hoff. injection Hoff as ->.
    by eapply disjoint_calls.
  - intros Hne. unfold AddMembersModal.handleSave.
    rewrite bool_decide_false by (intros E; apply Hne; unfold selected; by rewrite E).
    eexists. split; [reflexivity|]. split; [|split; [|reflexivity]].
    + cbn. unfold selected. by rewrite length_fmap.
    + unfold AddMembersModal.newMembers, members_sent. rewrite fmap_app, <- list_fmap_compose.
      reflexivity.
Qed.

(** A new rule is created for the resource of the dialog with the trimmed name and
    the selected groups, which are distinct. *)
Theorem add_rule_request (c : config AddAccessRuleModal.component) :
  reachable c →
  let p := its_props c in let s := its_state c in
  NoDup (Selected_id <$> AddAccessRuleModal.selectedGroups s) ∧
  Forall (λ x, Selected_type x = GROUP) (AddAccessRuleModal.selectedGroups s) ∧
  (offered (AddAccessRuleModal.render p s) AddAccessRuleModal.Save → ∃ k,
    pending (exec (C:=AddAccessRuleModal.component) (AddAccessRuleModal.handleSave p s) c) =
      pending c ++ [Task (CreateAccessRule (AddAccessRuleModal.resourceId p)
        (trim (AddAccessRuleModal.ruleName s)) (Selected_id <$> AddAccessRuleModal.selectedGroups s)
        (AddAccessRuleModal.enabled s)) k] ∧
    trim (AddAccessRuleModal.ruleName s) ≠ "" ∧ AddAccessRuleModal.selectedGroups s ≠ []).
Proof.
  intros Hc p s. destruct (rule_selection c Hc) as [Hn Ht]. split_and!; [done|done|].
  intros Hoff. unfold AddAccessRuleModal.render, Dialog, show_if in Hoff. offered_cases Hoff.
  apply orb_false_iff in Hon as [[_ H1]%orb_false_iff H2].
  unfold AddAccessRuleModal.handleSave. fold s. rewrite H2, H1.
  apply bool_decide_eq_false in H1, H2. eexists. split; [reflexivity|]. done.
Qed.

(** ** Witnesses *)

(** A decidable fact about concrete values. *)
Ltac by_deciding :=
  match goal with |- ?P => apply (bool_decide_unpack P); vm_compute; exact I end.

Definition alice : Subject := mkSubject "usr_1" "Alice" USER "User: Alice".
Definition picker_props : SubjectPicker.props := SubjectPicker.mkProps [] [USER] ["usr_2"].
Definition picker_state : SubjectPicker.state :=
  SubjectPicker.mkState [alice] false "al" (Some USER).

Lemma picker_refines_witness :
  picker_calls [USER] ["usr_2"] [] [mkSelected "usr_1" USER "User: Alice"].
Proof.
  destruct (picker_refines picker_props picker_state (SubjectPicker.Toggle alice)
    (mkConfig (C:=SubjectPicker.component) picker_props picker_state [] [])) as [(outs & E & H) _].
  { apply offered_toggle. split_and!; [done|done|by_deciding|].
    change (alice ∈ [alice]). by constructor. }
  apply (H [mkSelected "usr_1" USER "User: Alice"]). rewrite app_nil_l in E.
  rewrite <- E. by apply list_elem_of_singleton.
Defined.

(** A dialog open on a group with one member, in which Alice has been chosen. *)
Definition members_dialog : AddMembersModal.props :=
  AddMembersModal.mkProps "grp_1" true [mkGroupMember "usr_2" "Bob" "bob@example.com"].
Definition alice_chosen : list SelectedSubject := [mkSelected "usr_1" USER "User: Alice"].

Lemma members_dialog_reachable : reachable (C:=AddMembersModal.component)
  (mkConfig (C:=AddMembersModal.component) members_dialog (AddMembersModal.mkState alice_chosen false) [] []).
Proof.
  exists members_dialog. apply rtc_once.
  refine (step_user (C:=AddMembersModal.component) (mkConfig (C:=AddMembersModal.component) members_dialog _ [] [])
    (AddMembersModal.SelectionChange alice_chosen) _).
  cbn. do 3 right. left. exists alice_chosen. split; [|done].
  apply (picker_adds _ _ []); cbn; by_deciding.
Qed.

Lemma add_members_witness : ∃ k,
  pending (exec (C:=AddMembersModal.component)
    (AddMembersModal.handleSave members_dialog (AddMembersModal.mkState alice_chosen false))
    (mkConfig (C:=AddMembersModal.component) members_dialog (AddMembersModal.mkState alice_chosen false) [] [])) =
  [Task (UpdateGroupMembers "grp_1" ["usr_2"; "usr_1"]) k].
Proof.
  destruct (add_members _ (AddMembersModal.mkState [] true) members_dialog_reachable)
    as (_ & _ & _ & _ & H).
  destruct H as (k & Hk & _); [done|]. exists k. exact Hk.
Defined.

Definition rule_dialog : AddAccessRuleModal.props := AddAccessRuleModal.mkProps "res_1" true.
Definition staff_chosen : list SelectedSubject := [mkSelected "grp_1" GROUP "Group: Staff"].

Lemma rule_dialog_reachable : reachable (C:=AddAccessRuleModal.component)
  (mkConfig (C:=AddAccessRuleModal.component) rule_dialog (AddAccessRuleModal.mkState staff_chosen " Staff " true false) [] []).
Proof.
  exists rule_dialog.
  apply (rtc_l _ _ (mkConfig (C:=AddAccessRuleModal.component) rule_dialog (AddAccessRuleModal.mkState [] " Staff " true false) [] [])).
  - refine (step_user (C:=AddAccessRuleModal.component) (mkConfig (C:=AddAccessRuleModal.component) rule_dialog _ [] [])
      (AddAccessRuleModal.TypeName " Staff ") _).
    cbn. do 3 right. left. by eauto.
  - apply rtc_once.
    refine (step_user (C:=AddAccessRuleModal.component) (mkConfig (C:=AddAccessRuleModal.component) rule_dialog _ [] [])
      (AddAccessRuleModal.SelectionChange staff_chosen) _).
    cbn. do 6 right. left. exists staff_chosen. split; [|done].
    apply (picker_adds _ _ []); cbn; by_deciding.
Qed.

Lemma add_rule_request_witness : ∃ k,
  pending (exec (C:=AddAccessRuleModal.component)
    (AddAccessRuleModal.handleSave rule_dialog
       (AddAccessRuleModal.mkState staff_chosen " Staff " true false))
    (mkConfig (C:=AddAccessRuleModal.component) rule_dialog (AddAccessRuleModal.mkState staff_chosen " Staff " true false) [] [])) =
  [Task (CreateAccessRule "res_1" "Staff" ["grp_1"] true) k].
Proof.
  destruct (add_rule_request _ rule_dialog_reachable) as (_ & _ & H).
  destruct H as (k & Hk & _); [by cbn; do 11 right; left|]. exists k. exact Hk.
Defined.
