(* ===== verification/Numerals.v ===== *)
(** * Numerals: what [Number] makes of a string of digits *)
From S2P Require Import Prelude JsString Json JsonRoundtrip.
From Stdlib Require Import Ascii ZArith Lia.

Definition all_digits (l : list ascii) : Prop := Forall (λ c, is_digit c = true) l.

(** The value of a string of digits. *)
Definition value (l : list ascii) : Z := (read_digits 0 0 l).1.1.

Lemma digit_is c : is_digit c = true →
  ∃ d, digit_val c = Some d ∧ (0 ≤ d)%Z ∧ is_space c = false.
Proof.
  destruct c as [[] [] [] [] [] [] [] []]; cbv -[Z.le]; intros H; try discriminate H;
    eexists; (split; [reflexivity|split; [lia|reflexivity]]).
Qed.

Lemma read_digits_all l : all_digits l → ∀ acc n, (0 ≤ acc)%Z →
  ∃ m, read_digits acc n l = (m, (n + length l)%nat, []) ∧ (0 ≤ m)%Z.
Proof.
  induction 1 as [|c l Hc _ IH]; intros acc n Hacc; cbn [read_digits length].
  - exists acc. by rewrite Nat.add_0_r.
  - destruct (digit_is c Hc) as (d & -> & Hd & _).
    destruct (IH (10 * acc + d)%Z (S n) ltac:(lia)) as (m & -> & Hm).
    exists m. split; [|done]. f_equal. f_equal. lia.
Qed.

Lemma read_digits_value l : all_digits l →
  read_digits 0 0 l = (value l, length l, []) ∧ (0 ≤ value l)%Z.
Proof.
  intros Hl. destruct (read_digits_all l Hl 0%Z 0%nat ltac:(lia)) as (m & E & Hm).
  unfold value. by rewrite E.
Qed.

Definition no_space_in (l : list ascii) : Prop := Forall (λ c, is_space c = false) l.

Lemma digits_no_space l : all_digits l → no_space_in l.
Proof.
  intros H. eapply Forall_impl; [exact H|]. intros c Hc. by destruct (digit_is c Hc) as (_ & _ & _ & ->).
Qed.

Lemma drop_space_none l : no_space_in l → drop_space l = l.
Proof. by destruct 1 as [|c l Hc _]; [|cbn; rewrite Hc]. Qed.

Lemma trim_none l : no_space_in l → trim (of_list l) = of_list l.
Proof.
  intros H. unfold trim. rewrite to_of_list, (drop_space_none l H).
  rewrite drop_space_none by (by apply Forall_reverse). by rewrite reverse_involutive.
Qed.

Lemma unsigned_digits neg l : l ≠ [] → all_digits l →
  unsigned_decimal neg l = Dec (if neg then - value l else value l) 0.
Proof.
  intros Hne Hl. unfold unsigned_decimal.
  rewrite bool_decide_false by (intros ->; apply Forall_cons in Hl as [H _]; discriminate H).
  destruct (read_digits_value l Hl) as [-> _].
  destruct l as [|c l]; [done|]. cbn [length].
  unfold read_tail, read_fraction, read_exponent, whole, make_number. cbn [Z.of_nat].
  cbn -[Z.mul Z.opp]. by rewrite Z.mul_1_r.
Qed.

(** A digit is none of the letters of a radix prefix, nor a sign. *)
Lemma digit_not c d : is_digit c = true → is_digit d = false → c ≠ d.
Proof. congruence. Qed.

Lemma number_digits l : l ≠ [] → all_digits l →
  string_to_number (of_list l) = Dec (value l) 0 ∧ (0 ≤ value l)%Z.
Proof.
  intros Hne Hl. split; [|by apply read_digits_value].
  rewrite <- (unsigned_digits false l Hne Hl). unfold string_to_number.
  rewrite trim_none, to_of_list by (by apply digits_no_space).
  destruct Hl as [|c l Hc Hl]; [done|].
  assert (∀ x y z, c :: l = "0"%char :: x :: y :: z → is_digit x = true) as Hx.
  { intros x y z [= _ ->]. by apply Forall_cons in Hl as [? _]. }
  destruct c as [[] [] [] [] [] [] [] []]; try discriminate Hc; try reflexivity.
  destruct l as [|x [|y z]]; [reflexivity|reflexivity|].
  specialize (Hx x y z eq_refl).
  rewrite !bool_decide_false; [reflexivity|..]; intros [->| ->]; discriminate Hx.
Qed.

(** The numeral of a natural number. *)
Lemma pretty_N_go_digits (x : N) : ∀ s, all_digits (to_list s) → all_digits (to_list (pretty_N_go x s)).
Proof.
  induction x as [x IH] using (well_founded_induction N.lt_wf_0). intros s Hs.
  destruct (decide (x = 0%N)) as [->|Hx]; [by rewrite pretty_N_go_0|].
  rewrite pretty_N_go_step by lia. apply IH; [apply N.div_lt; lia|]. constructor; [|done].
  assert (x mod 10 < 10)%N as Hm by (apply N.mod_lt; lia).
  revert Hm. generalize (x mod 10)%N. intros d Hd.
  assert (d = 0 ∨ d = 1 ∨ d = 2 ∨ d = 3 ∨ d = 4 ∨ d = 5 ∨ d = 6 ∨ d = 7 ∨ d = 8 ∨ d = 9)%N
    as H by lia.
  by destruct_or! H; rewrite H.
Qed.

Lemma pretty_digits (n : Z) : (0 ≤ n)%Z →
  all_digits (to_list (pretty n)) ∧ to_list (pretty n) ≠ [] ∧ value (to_list (pretty n)) = n.
Proof.
  intros Hn. destruct n as [|p|p]; [|change (pretty (Z.pos p)) with (pretty (N.pos p))|lia].
  - split_and!; [by repeat constructor|done|done].
  - assert (pretty (N.pos p) = pretty_N_go (N.pos p) "") as -> by
      (unfold pretty, pretty_N; by rewrite decide_False).
    split; [by apply pretty_N_go_digits; constructor|].
    destruct (read_digits_N (N.pos p) [] ltac:(lia) I) as (k & Hk & E). rewrite app_nil_r in E.
    unfold value. rewrite E. split; [|done]. intros H. rewrite H in E. cbn in E.
    injection E as E. lia.
Qed.

Lemma number_pretty (n : Z) : (0 ≤ n)%Z → pretty n ≠ "" ∧ string_to_number (pretty n) = Dec n 0.
Proof.
  intros Hn. destruct (pretty_digits n Hn) as (Hd & Hne & Hv). split.
  - intros H. by rewrite H in Hne.
  - destruct (number_digits _ Hne Hd) as [E _]. by rewrite of_to_list, Hv in E.
Qed.

Lemma number_pretty_neg (n : Z) : (n < 0)%Z → string_to_number (pretty n) = Dec n 0.
Proof.
  intros Hn. destruct n as [|p|p]; [lia|lia|].
  destruct (pretty_digits (Z.pos p) ltac:(lia)) as (Hd & Hne & Hv).
  change (pretty (Z.pos p)) with (pretty (N.pos p)) in *.
  change (pretty (Z.neg p)) with ("-" +:+ pretty (N.pos p)).
  rewrite <- (of_to_list (pretty (N.pos p))).
  change ("-" +:+ of_list (to_list (pretty (N.pos p))))
    with (of_list ("-"%char :: to_list (pretty (N.pos p)))).
  unfold string_to_number. rewrite trim_none, to_of_list.
  - rewrite (unsigned_digits true _ Hne Hd), Hv. done.
  - constructor; [done|]. by apply digits_no_space.
Qed.

(** A field that holds nothing or the numeral of an integer. *)
Definition numeral (v : string) : Prop := v = "" ∨ ∃ n, string_to_number v = Dec n 0.

Lemma numeral_pretty (n : Z) : numeral (pretty n).
Proof.
  right. exists n. destruct (decide (0 ≤ n)%Z); [by apply number_pretty|].
  apply number_pretty_neg. lia.
Qed.

Lemma numeral_digits v : all_digits (to_list v) → numeral v.
Proof.
  intros H. destruct (decide (to_list v = [])) as [E|E].
  - left. by rewrite <- (of_to_list v), E.
  - right. destruct (number_digits _ E H) as [Hn _]. rewrite of_to_list in Hn. eauto.
Qed.
