(* ===== verification/FormValues.v ===== *)
(** * The values of the forms and what they send *)
From stdpp Require Import relations.
From S2P Require Import Prelude JsString Json Numerals Types Client Ui Async.
From S2P Require Import NetworkForms ResourceForms.
From Stdlib Require Import Ascii ZArith Lia.

(** ** The casts *)

Definition port_mode (v : string) : Prop := v ∈ AddResourceModal.port_options.*1.
Definition access_mode (v : string) : Prop := v ∈ ["manual"; "auto-lock"; "requests"].
Definition no_space_text (v : string) : Prop := no_space_in (to_list v).

(** The fields of the new resource are of their types. *)
Definition add_resource_typed (s : AddResourceModal.state) : Prop :=
  port_mode (AddResourceModal.tcpMode s) ∧ port_mode (AddResourceModal.udpMode s) ∧
  access_mode (AddResourceModal.accessMode s) ∧ no_space_text (AddResourceModal.address s).

Definition edit_resource_typed (s : EditResourceModal.state) : Prop :=
  numeral (EditResourceModal.portFrom s) ∧ numeral (EditResourceModal.portTo s).

Definition add_network_typed (s : AddRemoteNetworkModal.state) : Prop :=
  AddRemoteNetworkModal.location s ∈ "" :: AddRemoteNetworkModal.LOCATION_OPTIONS.*1.

Lemma no_space_typed v : no_space_text (no_space v).
Proof.
  unfold no_space_text, no_space, without. rewrite to_of_list. apply Forall_forall.
  by intros c [Hc _]%list_elem_of_filter.
Qed.
Lemma all_mode : port_mode "all".
Proof. by left. Qed.
Lemma manual_mode : access_mode "manual".
Proof. by left. Qed.
Lemma empty_typed : no_space_text "".
Proof. constructor. Qed.
Lemma digits_only_typed v : numeral (EditResourceModal.digits_only v).
Proof.
  apply numeral_digits. unfold EditResourceModal.digits_only, without. rewrite to_of_list.
  apply Forall_forall. intros c [Hc _]%list_elem_of_filter. by apply negb_false_iff.
Qed.
Lemma port_text_typed o : numeral (EditResourceModal.port_text o).
Proof.
  destruct o as [n|]; [|by left]. unfold EditResourceModal.port_text.
  destruct (bool_decide _); [by left|]. apply numeral_pretty.
Qed.
#[local] Hint Resolve no_space_typed all_mode manual_mode empty_typed digits_only_typed
  port_text_typed : core.

Ltac typed :=
  intros; unfold add_resource_typed, edit_resource_typed in *; destruct_and?; cbn; split_and?; auto.

Lemma add_resource_keeps (c : config AddResourceModal.component) :
  reachable c → add_resource_typed (its_state c).
Proof.
  apply (invariant (C:=AddResourceModal.component) add_resource_typed).
  - intros p. cbn. unfold add_resource_typed. cbn. auto.
  - intros p s s' Hs. apply safe_keeps; [|done]. safe ltac:(typed).
  - intros p s e Hs Hoff. destruct e; (apply safe_keeps; [|done]).
    all: try (solve [safe ltac:(typed)]).
    all: cbn in Hoff; unfold AddResourceModal.render, Dialog, show_if in Hoff; offered_cases Hoff.
    all: injection Hoff as ->; safe ltac:(typed).
    all: intros s1 (? & ? & ? & ?); cbn; split_and!; auto; exact (list_elem_of_fmap_2 fst _ _ Hon).
Qed.

Lemma edit_resource_keeps (c : config EditResourceModal.component) :
  reachable c → edit_resource_typed (its_state c).
Proof.
  apply (invariant (C:=EditResourceModal.component) edit_resource_typed).
  - intros p. split; by left.
  - intros p s s' Hs. apply safe_keeps; [|done]. safe ltac:(typed).
  - intros p s e Hs Hoff. destruct e; (apply safe_keeps; [|done]); safe ltac:(typed).
Qed.

Lemma add_network_keeps (c : config AddRemoteNetworkModal.component) :
  reachable c → add_network_typed (its_state c).
Proof.
  apply (invariant (C:=AddRemoteNetworkModal.component) add_network_typed).
  - intros p. by left.
  - done.
  - intros p s e Hs Hoff. destruct e; (apply safe_keeps; [|done]).
    all: try (solve [safe ltac:(intros; unfold add_network_typed in *; cbn; auto; by left)]).
    cbn in Hoff. unfold AddRemoteNetworkModal.render, Dialog, show_if in Hoff.
    offered_cases Hoff. injection Hoff as ->. split; [|done]. intros s1 _.
    right. exact (list_elem_of_fmap_2 fst _ _ Hon).
Qed.

(** ** Properties *)


(** A port as the form sends it back: absent, or 0, is [null]. *)
Definition port_kept (o : option Z) : jsv :=
  match o with Some n => if decide (n = 0%Z) then JNull else JNum (Dec n 0) | None => JNull end.

Lemma port_round_trip o : EditResourceModal.port_sent (EditResourceModal.port_text o) = port_kept o.
Proof.
  destruct o as [n|]; [|done]. unfold EditResourceModal.port_text, port_kept.
  destruct (decide (n = 0%Z)) as [->|Hn]; [done|]. rewrite bool_decide_false by done.
  unfold EditResourceModal.port_sent, string_of_Z.
  destruct (decide (0 ≤ n)%Z) as [H0|H0].
  - destruct (number_pretty n H0) as [Hne ->]. by case_decide.
  - rewrite number_pretty_neg by lia. destruct (decide (pretty n = "")) as [E|]; [|done].
    destruct n as [|q|q]; [lia|lia|]. discriminate E.
Qed.

(** Opening the dialog on a resource. *)
Definition opened_on (r : Resource) (c : config EditResourceModal.component) :
  config EditResourceModal.component :=
  let p := EditResourceModal.mkProps (Some r) true in
  exec (C:=EditResourceModal.component) (EditResourceModal.opened p) c.

(** Editing a resource without changing anything sends it back as it is: from any state
    of the dialog, opening it on a resource that has a network, a name and an address
    enables the button, and submitting sends exactly the values of the resource; only a
    port 0 is sent as [null], and an empty protocol as TCP. *)
Theorem edit_unchanged (r : Resource) (c : config EditResourceModal.component) :
  default "" (Resource_remoteNetworkId r) ≠ "" → Resource_name r ≠ "" → Resource_address r ≠ "" →
  let s := its_state (opened_on r c) in
  EditResourceModal.canSubmit s = true ∧
  EditResourceModal.submitted s =
    mkResourceData (default "" (Resource_remoteNetworkId r)) (Resource_name r) (Resource_type r)
      (Resource_address r) (or_else (Resource_protocol r) "TCP")
      (port_kept (Resource_portFrom r)) (port_kept (Resource_portTo r))
      (match Resource_alias r with
       | Some a => if decide (a = "") then None else Some a
       | None => None
       end).
Proof.
  intros Hn Hm Ha s. split.
  - unfold s, EditResourceModal.canSubmit. cbn. rewrite !bool_decide_false; try done.
    unfold or_else. by case_decide.
  - unfold s, EditResourceModal.submitted. cbn. rewrite !port_round_trip.
    by destruct (Resource_alias r).
Qed.

Lemma digits_only_digits v : all_digits (to_list v) → EditResourceModal.digits_only v = v.
Proof.
  intros H. unfold EditResourceModal.digits_only, without.
  assert (filter (λ c, negb (is_digit c) = false) (to_list v) = to_list v) as ->;
    [|apply of_to_list].
  induction H as [|c l Hc _ IH]; [done|]. rewrite filter_cons_True by (by rewrite Hc). by rewrite IH.
Qed.

(** The user types into the dialog. *)
Definition type_in (p : EditResourceModal.props) (e : EditResourceModal.event)
  (c : config EditResourceModal.component) : config EditResourceModal.component :=
  exec (C:=EditResourceModal.component) (EditResourceModal.on p (its_state c) e) c.

(** The ports are not checked: from any state of the dialog, the fields accept the
    numerals of any two natural numbers, the button does not depend on them and they are
    sent as they are, a first port above the last or above 65535 included; what is no
    digit is dropped from what is typed. *)
Theorem edit_ports_unchecked (p : EditResourceModal.props) (c : config EditResourceModal.component)
  (a b : Z) (typed : string) :
  (0 ≤ a)%Z → (0 ≤ b)%Z →
  let s := its_state (type_in p (EditResourceModal.TypePortTo (pretty b))
                       (type_in p (EditResourceModal.TypePortFrom (pretty a)) c)) in
  EditResourceModal.canSubmit s = EditResourceModal.canSubmit (its_state c) ∧
  port_from (EditResourceModal.submitted s) = JNum (Dec a 0) ∧
  port_to (EditResourceModal.submitted s) = JNum (Dec b 0) ∧
  all_digits (to_list (EditResourceModal.portFrom
    (its_state (type_in p (EditResourceModal.TypePortFrom typed) c)))).
Proof.
  intros Ha Hb s.
  assert (∀ n, (0 ≤ n)%Z → EditResourceModal.digits_only (pretty n) = pretty n ∧
    EditResourceModal.port_sent (pretty n) = JNum (Dec n 0)) as Hp.
  { intros n Hn. destruct (pretty_digits n Hn) as [Hd _], (number_pretty n Hn) as [Hne Hv]. split.
    - by apply digits_only_digits.
    - unfold EditResourceModal.port_sent. rewrite Hv. by case_decide. }
  split_and!.
  - done.
  - cbn. destruct (Hp a Ha) as [-> H]. exact H.
  - cbn. destruct (Hp b Hb) as [-> H]. exact H.
  - cbn. unfold EditResourceModal.digits_only, without. rewrite to_of_list.
    apply Forall_forall. intros x [Hx _]%list_elem_of_filter. by apply negb_false_iff.
Qed.

(** The part of the state of the new resource that is sent. *)
Definition same_request (s t : AddResourceModal.state) : Prop :=
  AddResourceModal.networkId s = AddResourceModal.networkId t ∧
  AddResourceModal.name s = AddResourceModal.name t ∧
  AddResourceModal.resourceType s = AddResourceModal.resourceType t ∧
  AddResourceModal.address s = AddResourceModal.address t ∧
  AddResourceModal.alias s = AddResourceModal.alias t ∧
  (AddResourceModal.tcpMode s = "blocked" ↔ AddResourceModal.tcpMode t = "blocked").


(** ** Witnesses *)

Definition web_server : Resource :=
  mkResource "res_1" "Web" "STANDARD" "10.0.0.5" "TCP" (Some 443%Z) None None "" (Some "net_1") None.

Definition closed_dialog : config EditResourceModal.component :=
  mkConfig (C:=EditResourceModal.component) (EditResourceModal.mkProps None false)
    EditResourceModal.initial [] [].

Lemma edit_unchanged_witness :
  port_from (EditResourceModal.submitted (its_state (opened_on web_server closed_dialog))) =
    JNum (Dec 443 0).
Proof.
  destruct (edit_unchanged web_server closed_dialog) as [_ E]; [done..|]. rewrite E. reflexivity.
Defined.

Lemma edit_ports_unchecked_witness :
  let p := EditResourceModal.mkProps (Some web_server) true in
  let s := its_state (type_in p (EditResourceModal.TypePortTo "443")
             (type_in p (EditResourceModal.TypePortFrom "70000")
               (opened_on web_server closed_dialog))) in
  port_from (EditResourceModal.submitted s) = JNum (Dec 70000 0).
Proof.
  apply (edit_ports_unchecked (EditResourceModal.mkProps (Some web_server) true)
    (opened_on web_server closed_dialog) 70000 443 ""); vm_compute; discriminate.
Defined.
