(* ===== verification/Races.v ===== *)
(** * Calls that overlap

    A continuation knows the props and the state of the rendering its handler was made in.
    What follows when two calls of a component are in flight at once. *)
From stdpp Require Import relations.
From S2P Require Import Prelude JsString Types Client Ui Async.
From S2P Require Import ResourceForms DetailPages.
From Stdlib Require Import ZArith.

(** ** The rules of a resource *)

(** What the page shows after the callbacks [outs]: the rules of the last [onRulesChange]. *)
Fixpoint rules_shown (rules : list AccessRule) (outs : list AccessRulesTable.output) :
  list AccessRule :=
  match outs with
  | [] => rules
  | AccessRulesTable.onRulesChange rs :: outs' => rules_shown rs outs'
  | _ :: outs' => rules_shown rules outs'
  end.

Definition without_rule (i : string) (rules : list AccessRule) : list AccessRule :=
  filter (λ r, AccessRule_id r ≠ i) rules.

Abbreviation rules_config := (config AccessRulesTable.component).

(** The user asks for a deletion and confirms it. *)
Lemma delete_started (c : rules_config) (i : string) r :
  i ≠ "" → r ∈ AccessRulesTable.accessRules (its_props c) → AccessRule_id r = i →
  AccessRulesTable.deleting (its_state c) ≠ Some i →
  ∃ c', rtc step c c' ∧ its_props c' = its_props c ∧ emitted c' = emitted c ∧
    AccessRulesTable.deleting (its_state c') = Some i ∧ ∃ k,
    pending c' = pending c ++ [Task (DeleteAccessRule i) k] ∧
    ∀ d, exec (k (Ok tt)) d =
      mkConfig (C:=AccessRulesTable.component) (its_props d)
        (AccessRulesTable.mkState None None (AccessRulesTable.groupMap (its_state d))
           (AccessRulesTable.identityCounts (its_state d)))
        (pending d)
        (emitted d ++
         [AccessRulesTable.onRulesChange (without_rule i (AccessRulesTable.accessRules (its_props c)));
          AccessRulesTable.Toast (toast_success "Access rule deleted")]).
Proof.
  intros Hi Hr Hid Hd. destruct c as [p s l o]. cbn in *.
  eexists. split; [|split; [|split; [|split; [|eexists; split]]]].
  - eapply rtc_l; [apply (step_user (C:=AccessRulesTable.component) _ (AccessRulesTable.AskDelete i))|].
    { cbn. right; right; right; left. destruct (AccessRulesTable.accessRules p) as [|r0 rs];
        [by apply not_elem_of_nil in Hr|]. cbn. right; left.
      change (foldr (λ u P, offered u (AccessRulesTable.AskDelete i) ∨ P) False
        (AccessRulesTable.row s <$> r0 :: rs)). apply offered_rows. exists r. split; [done|].
      cbn. do 5 right. left. rewrite Hid, bool_decide_false; [done|congruence]. }
    eapply rtc_l; [apply (step_user (C:=AccessRulesTable.component) _ AccessRulesTable.ConfirmDelete)|apply rtc_refl].
    cbn. do 4 right. left. unfold AccessRulesTable.confirmation. cbn.
    rewrite decide_False by done. cbn. do 4 right. left.
    rewrite bool_decide_false by done. done.
  - cbn. by rewrite bool_decide_false.
  - cbn. by rewrite bool_decide_false.
  - cbn. by rewrite bool_decide_false.
  - cbn. rewrite bool_decide_false by done. cbn. reflexivity.
  - intros d. cbn. by rewrite <- app_assoc.
Qed.

(** Two deletions that overlap bring a rule back.  From any state of the table in
    which neither is being deleted, the user can ask for and confirm the deletions of two
    rules before the first reply; when both succeed, in either order, the page ends up
    showing all the rules but the one whose reply came last: the other, deleted too, is
    listed again. *)
Theorem overlapping_deletions (c : rules_config) (i j : string) (ri rj : AccessRule) :
  let rules := AccessRulesTable.accessRules (its_props c) in
  i ≠ "" → j ≠ "" → i ≠ j → ri ∈ rules → rj ∈ rules → AccessRule_id ri = i → AccessRule_id rj = j →
  AccessRulesTable.deleting (its_state c) = None → pending c = [] →
  ∀ last, last ∈ [i; j] → ∃ c',
    rtc step c c' ∧ pending c' = [] ∧ its_props c' = its_props c ∧
    ∃ outs, emitted c' = emitted c ++ outs ∧ rules_shown rules outs = without_rule last rules ∧
      ∀ r, r ∈ [ri; rj] → AccessRule_id r ≠ last → r ∈ rules_shown rules outs.
Proof.
  intros rules Hi Hj Hij Hri Hrj Ei Ej Hd Hp last Hlast.
  destruct (delete_started c i ri Hi Hri Ei) as (c1 & S1 & P1 & O1 & D1 & k1 & T1 & K1);
    [by rewrite Hd|].
  destruct (delete_started c1 j rj Hj) as (c2 & S2 & P2 & O2 & D2 & k2 & T2 & K2);
    [by rewrite P1|done|rewrite D1; congruence|].
  rewrite T1, Hp in T2. cbn in T2.
  assert (∀ r, r ∈ [ri; rj] → AccessRule_id r ≠ last → r ∈ without_rule last rules) as Hback.
  { intros r Hr Hne. apply list_elem_of_filter. split; [done|].
    by apply elem_of_cons in Hr as [->|Hr]; [|apply list_elem_of_singleton in Hr as ->]. }
  rewrite P1 in K2. fold rules in K1, K2.
  apply elem_of_cons in Hlast as [->|Hlast]; [|apply list_elem_of_singleton in Hlast as ->].
  - eexists. split_and!.
    + etrans; [exact S1|]. etrans; [exact S2|].
      eapply rtc_l; [apply (step_reply (C:=AccessRulesTable.component) c2 [Task (DeleteAccessRule i) k1] _ (DeleteAccessRule j) k2 [] (Ok tt)); exact T2|].
      apply rtc_once, (step_reply (C:=AccessRulesTable.component) _ [] _ (DeleteAccessRule i) k1 [] (Ok tt)).
      by rewrite K2.
    + by rewrite K1.
    + rewrite K1. cbn. rewrite K2. cbn. congruence.
    + rewrite K1. cbn. rewrite K2. cbn. rewrite O2, O1, <- app_assoc. eexists.
      split; [reflexivity|]. by split.
  - eexists. split_and!.
    + etrans; [exact S1|]. etrans; [exact S2|].
      eapply rtc_l; [apply (step_reply (C:=AccessRulesTable.component) c2 [] _ (DeleteAccessRule i) k1 [Task (DeleteAccessRule j) k2] (Ok tt)); exact T2|].
      apply rtc_once, (step_reply (C:=AccessRulesTable.component) _ [] _ (DeleteAccessRule j) k2 [] (Ok tt)).
      by rewrite K1.
    + by rewrite K2.
    + rewrite K2. cbn. rewrite K1. cbn. congruence.
    + rewrite K2. cbn. rewrite K1. cbn. rewrite O2, O1, <- app_assoc. eexists.
      split; [reflexivity|]. by split.
Qed.

(** ** The page of a connector *)

Section ConnectorPage.
  Context (dates : string → option string).

Abbreviation page := (ConnectorDetailPage.component dates).

(** From connector [i] to connector [j], with the poll of [i] still in flight. *)
Lemma go_to (c : config page) (h i j : string)
  (data1 data2 : option Connector * option RemoteNetwork * list ConnectorLog) :
  i ≠ "" → j ≠ "" → its_props c = ConnectorDetailPage.mkProps (Some i) h → pending c = [] →
  ∃ c', rtc step c c' ∧ its_props c' = ConnectorDetailPage.mkProps (Some j) h ∧
    pending c' = [] ∧ emitted c' = emitted c ∧
    ConnectorDetailPage.connector (its_state c') = data1.1.1 ∧
    ConnectorDetailPage.network (its_state c') = data1.1.2 ∧
    ConnectorDetailPage.logs (its_state c') = data1.2 ∧
    ConnectorDetailPage.loading (its_state c') = false ∧
    ConnectorDetailPage.isRevoking (its_state c') = ConnectorDetailPage.isRevoking (its_state c) ∧
    ConnectorDetailPage.isRevokingAccess (its_state c') =
      ConnectorDetailPage.isRevokingAccess (its_state c).
Proof.
  intros Hi Hj Hp Ht. destruct c as [p s l o]. cbn in Hp, Ht. subst p l.
  eexists. split.
  { eapply rtc_l; [apply (step_user (C:=page) _ ConnectorDetailPage.Tick); cbn; tauto|].
    eapply rtc_l; [apply (step_effect (C:=page) _ (ConnectorDetailPage.mkProps (Some j) h))|].
    cbn. unfold ConnectorDetailPage.tick, ConnectorDetailPage.load, given. cbn.
    rewrite !decide_False by done. cbn.
    eapply rtc_l; [eapply (step_reply (C:=page) _ [_] _ _ _ [] (Ok data2)); cbn; reflexivity|].
    cbn. eapply rtc_l; [eapply (step_reply (C:=page) _ [] _ _ _ [] (Ok data1)); cbn; reflexivity|].
    apply rtc_refl. }
  cbn. done.
Qed.

(** C19: the replies of the connector page are not told apart.  The user is on the page of
    connector [i] and goes to that of connector [j] while a poll of [i] is in flight; if
    that reply comes last, the page of [j] shows connector [i].  Its delete button then asks
    whether to delete [i], by name, and deletes [j]; its other buttons act on [j], too. *)
Theorem wrong_connector_deleted (c : config page) (h i j : string) (k : Connector)
  (n : option RemoteNetwork) (logs : list ConnectorLog) :
  i ≠ "" → j ≠ "" → its_props c = ConnectorDetailPage.mkProps (Some i) h → pending c = [] →
  ConnectorDetailPage.isRevoking (its_state c) = false → Connector_installed k = true →
  ∃ c', rtc step c c' ∧ its_props c' = ConnectorDetailPage.mkProps (Some j) h ∧
    offered (view page (its_props c') (its_state c')) (ConnectorDetailPage.Delete true) ∧
    ConnectorDetailPage.confirm_text j (its_state c') =
      "Delete connector " +:+ quoted (Connector_name k) +:+
      "? This will remove it from the controller." ∧
    ∃ t, pending (exec (C:=page) (handle page (its_props c') (its_state c')
                    (ConnectorDetailPage.Delete true)) c') = [Task (DeleteConnector j) t].
Proof.
  intros Hi Hj Hp Ht Hr Hk.
  destruct (go_to c h i j (Some k, n, logs) (None, None, []) Hi Hj Hp Ht)
    as (c' & Hs & P & T & _ & C & _ & _ & L & R & _).
  exists c'. split; [done|]. split; [done|]. split; [|split].
  - left. cbn. unfold ConnectorDetailPage.page. cbn in C. rewrite L, C, Hk. cbn.
    do 7 right. left. split; [congruence|by exists true].
  - unfold ConnectorDetailPage.confirm_text. cbn in C. by rewrite C.
  - rewrite P. cbn. unfold ConnectorDetailPage.handleDelete, given. cbn.
    rewrite decide_False by done. cbn. rewrite T. by eexists.
Qed.
End ConnectorPage.

(** ** Witnesses *)

Definition rule (i : string) : AccessRule := mkAccessRule i "Staff" "res_1" ["grp_1"] true "" "".
Definition two_rules : rules_config :=
  mkConfig (C:=AccessRulesTable.component)
    (AccessRulesTable.mkProps "res_1" [rule "r1"; rule "r2"]) AccessRulesTable.initial [] [].

Lemma overlapping_deletions_witness : ∃ c' outs,
  rtc step two_rules c' ∧ emitted c' = outs ∧
  rules_shown [rule "r1"; rule "r2"] outs = [rule "r2"].
Proof.
  destruct (overlapping_deletions two_rules "r1" "r2" (rule "r1") (rule "r2")
    ltac:(done) ltac:(done) ltac:(done) ltac:(left) ltac:(right; left) eq_refl eq_refl eq_refl
    eq_refl "r1" ltac:(left)) as (c' & Hs & _ & _ & outs & E & R & _).
  exists c', outs. split; [exact Hs|]. split; [exact E|]. etrans; [exact R|reflexivity].
Defined.

Definition installed_connector : Connector :=
  mkConnector "con_1" "Paris" "online" "1.0" "host" "net_1" "" true 0 None None None.
Definition no_dates (v : string) : option string := None.
Definition first_page : config (ConnectorDetailPage.component no_dates) :=
  mkConfig (C:=ConnectorDetailPage.component no_dates)
    (ConnectorDetailPage.mkProps (Some "con_1") "localhost")
    (ConnectorDetailPage.initial (ConnectorDetailPage.mkProps (Some "con_1") "localhost")) [] [].

Lemma wrong_connector_deleted_witness : ∃ c', rtc step first_page c' ∧
  its_props c' = ConnectorDetailPage.mkProps (Some "con_2") "localhost" ∧
  ConnectorDetailPage.confirm_text "con_2" (its_state c') =
    "Delete connector " +:+ quoted "Paris" +:+ "? This will remove it from the controller.".
Proof.
  destruct (wrong_connector_deleted no_dates first_page "localhost" "con_1" "con_2"
    installed_connector None [] ltac:(done) ltac:(done) eq_refl eq_refl eq_refl eq_refl)
    as (c' & Hs & P & _ & T & _).
  exists c'. split; [exact Hs|]. split; [exact P|exact T].
Defined.
