(* ===== verification/Links.v ===== *)
(** * Where the links lead

    Every link and every navigation of the dashboard leads to a page of [App], the one it
    is meant for, with the identifier as its parameter. *)
From S2P Require Import Prelude JsString Uri Types Storage Server ServerProps Client ClientProps.
From S2P Require Import Ui Async GroupForms NetworkForms ResourceForms ConnectorForms AgentForms.
From S2P Require Import Pages DetailPages Shell.
From Stdlib Require Import Ascii ZArith.

(** An identifier that needs no encoding, as the controller makes them. *)
Definition id_ok (i : string) : Prop := i ≠ "" ∧ plain_id i = true.

(** The page of an agent: one called "new" is taken for the page that adds an agent. *)
Definition agent_target (i : string) : Router.page * list string :=
  if decide (toLowerCase i = "new") then (Router.NewAgentPage, []) else (Router.AgentDetailPage, [i]).

(** Where the links of a tree lead. *)
Definition leads {E} (u : ui E) : list (option (Router.page * list string)) :=
  Router.resolve <$> links u.

Lemma string_app_empty s : s +:+ "" = s.
Proof. induction s as [|c s IH]; [done|exact (f_equal (String c) IH)]. Qed.

Ltac closed_word := split; apply (bool_decide_unpack (_ ∉ _)); vm_compute; exact I.

Lemma resolve_two base i : id_ok i → clean base →
  Router.resolve (join_path ["dashboard"; base; i]) =
  Router.first_match Router.routes ["dashboard"; base; i].
Proof.
  intros [Hne Hp] Hb. unfold Router.resolve, Router.target_segments.
  rewrite <- (string_app_empty (join_path _)), segments_join; [done|done|..].
  - constructor; [closed_word|]. constructor; [done|]. constructor; [by apply plain_clean|done].
  - cbn. congruence.
  - by left.
Qed.

(** The page of one entity. *)
Lemma detail_page base pg i :
  (base, pg) ∈ [("groups", Router.GroupDetailPage); ("resources", Router.ResourceDetailPage);
                ("connectors", Router.ConnectorDetailPage);
                ("remote-networks", Router.NetworkDetailPage)] →
  id_ok i → Router.resolve ("/dashboard/" +:+ base +:+ "/" +:+ i) = Some (pg, [i]).
Proof.
  intros Hb Hi. pose proof Hi as [Hne _]. destruct i as [|c i]; [done|].
  repeat setoid_rewrite elem_of_cons in Hb.
  destruct Hb as [[= -> ->]|[[= -> ->]|[[= -> ->]|[[= -> ->]|[]%not_elem_of_nil]]]];
    match goal with |- Router.resolve ("/dashboard/" +:+ ?b +:+ _) = _ =>
      etrans; [exact (resolve_two b _ Hi ltac:(closed_word))|by vm_compute] end.
Qed.

Lemma agent_page i : id_ok i → Router.resolve ("/dashboard/agents/" +:+ i) = Some (agent_target i).
Proof.
  intros Hi. etrans; [exact (resolve_two "agents" _ Hi ltac:(closed_word))|].
  destruct Hi as [Hne _]. unfold agent_target, Router.routes, Router.dashboard.
  cbn [Router.first_match match_path].
  change (toLowerCase "dashboard") with "dashboard". change (toLowerCase "agents") with "agents".
  repeat (case_bool_decide; try discriminate; try done); by case_decide.
Qed.

(** The links of a table, row by row. *)
Lemma leads_rows {A E} (P : A → Prop) (row : A → ui E) g (l : list A) :
  (∀ x, P x → leads (row x) = g x) → Forall P l →
  Router.resolve <$> foldr (λ u l, links u ++ l) [] (row <$> l) = l ≫= g.
Proof.
  intros Hrow. induction 1 as [|x l Hx Hl IH]; [done|].
  rewrite bind_cons, <- Hrow, <- IH by done. cbn [fmap list_fmap foldr]. by rewrite fmap_app.
Qed.

Lemma bind_single {A B} (f : A → B) (l : list A) : l ≫= (λ x, [f x]) = f <$> l.
Proof. induction l as [|x l IH]; [done|]. by rewrite bind_cons, fmap_cons, IH. Qed.

Lemma leads_rows_one {A E} (P : A → Prop) (row : A → ui E) g (l : list A) :
  (∀ x, P x → leads (row x) = [g x]) → Forall P l →
  Router.resolve <$> foldr (λ u l, links u ++ l) [] (row <$> l) = g <$> l.
Proof. intros Hr Hl. rewrite <- (bind_single g). by eapply leads_rows. Qed.

(** The optional network of a row. *)
Definition network_target (n : string) : list (option (Router.page * list string)) :=
  if decide (n = "") then [] else [Some (Router.NetworkDetailPage, [n])].

Lemma network_leads n : (n ≠ "" → id_ok n) →
  (if decide (n = "") then [] else [Router.resolve ("/dashboard/remote-networks/" +:+ n)]) =
  network_target n.
Proof.
  intros Hn. unfold network_target. case_decide; [done|]. f_equal.
  eapply (detail_page "remote-networks"); [|by apply Hn]. by repeat constructor.
Qed.

(** The targets of the sidebar, whatever is expanded. *)
Definition nav_targets (i : Sidebar.NavItem) : list string :=
  match Sidebar.children i with [] => [Sidebar.href i] | l => l.*2 end.

Lemma links_fmap {A E} (f : A → ui E) (g : A → string) l : (∀ x, links (f x) = [g x]) →
  foldr (λ u l, links u ++ l) [] (f <$> l) = g <$> l.
Proof. intros H. induction l as [|x l IH]; [done|]. rewrite !fmap_cons, <- IH. cbn. by rewrite H. Qed.

Lemma sidebar_targets s to : to ∈ links (Sidebar.render s) → to ∈ Sidebar.navItems ≫= nav_targets.
Proof.
  unfold Sidebar.render. cbn [links foldr app]. rewrite app_nil_r, elem_of_links_list.
  intros (u & (i & -> & Hi)%list_elem_of_fmap & Hto). apply list_elem_of_bind. exists i. split; [|done].
  unfold Sidebar.item, nav_targets in *. destruct (Sidebar.children i) as [|c l]; [done|].
  cbn [links foldr app] in Hto. rewrite app_nil_r in Hto.
  destruct (Sidebar.isExpanded _ _); [|by apply not_elem_of_nil in Hto].
  cbn [show_if links] in Hto. by rewrite (links_fmap _ snd) in Hto.
Qed.

Lemma sidebar_leads s : Forall is_Some (leads (Sidebar.render s)).
Proof.
  apply Forall_fmap, Forall_forall. intros to Hto%sidebar_targets. revert to Hto.
  apply Forall_forall, (bool_decide_unpack (Forall _ _)). vm_compute. exact I.
Qed.

Definition to_page (pg : Router.page) (i : string) : option (Router.page * list string) :=
  Some (pg, [i]).

Lemma links_header {E} (l : list string) :
  foldr (λ (u : ui E) l, links u ++ l) [] (Text <$> l) = [].
Proof. induction l as [|x l IH]; [done|exact IH]. Qed.

(** The links of a list component, unless it is empty, are those of its rows. *)
Ltac table l := destruct l as [|? ?]; [done|]; unfold leads; cbn [links foldr app];
  rewrite ?links_header, ?app_nil_r; cbn [app]; rewrite ?app_nil_r.

(** The link of a row to the page of its entity. *)
Ltac one_link base := unfold leads; cbn; f_equal; apply (detail_page base);
  [by repeat constructor|done].

