(* ===== verification/Dynamic.v ===== *)
(** * Pages on dynamic values

    The pages that call [fetch] themselves cast what [JSON.parse] returns without a check.
    Their state holds dynamic values, and rendering may throw: there is no error boundary,
    so that nothing is shown any more. *)
From S2P Require Import Prelude JsString Json Storage Ui Async.
From Stdlib Require Import Ascii ZArith.

#[global] Instance outcome_ret : MRet outcome := λ A a, Ok a.
#[global] Instance outcome_bind : MBind outcome := λ A B f o,
  match o with Ok a => f a | Throw e => Throw e end.

(** [l.map(f)] and [l.filter(f)] *)
Fixpoint map_outcome {A B} (f : A → outcome B) (l : list A) : outcome (list B) :=
  match l with
  | [] => Ok []
  | x :: l' => y ← f x; ys ← map_outcome f l'; Ok (y :: ys)
  end.
Fixpoint filter_outcome {A} (f : A → outcome bool) (l : list A) : outcome (list A) :=
  match l with
  | [] => Ok []
  | x :: l' => b ← f x; ys ← filter_outcome f l'; Ok (if b : bool then x :: ys else ys)
  end.

(** The array methods are undefined on anything but arrays. *)
Definition array_of (v : jsv) : outcome (list jsv) :=
  match v with JArr l => Ok l | _ => Throw TypeError end.

(** [Array.isArray(v) ? v : []] *)
Definition array_or_empty (v : jsv) : list jsv := match v with JArr l => l | _ => [] end.

(** [{v}] in an element: objects are refused, booleans and nothing are not shown. *)
Fixpoint shown (v : jsv) : outcome string :=
  match v with
  | JUndef | JNull | JBool _ => Ok ""
  | JNum n => Ok (string_of_num n)
  | JStr s => Ok s
  | JArr l =>
      (fix go l := match l with
                   | [] => Ok ""
                   | x :: l' => s ← shown x; t ← go l'; Ok (s +:+ t)
                   end) l
  | JObj _ => Throw TypeError
  end.

(** [{a.k}] *)
Definition shown_field (a : jsv) (k : string) : outcome string := field a k ≫= shown.

(** The text of a field whose [value] is [v]. *)
Definition input_value (v : jsv) : string := if is_nullish v then "" else to_string v.

(** [a && b] *)
Definition js_and (a b : jsv) : jsv := if truthy a then b else a.

(** [v.trim()] *)
Definition trim_of (v : jsv) : outcome string :=
  match v with JStr s => Ok (trim s) | _ => Throw TypeError end.

(** What is shown when rendering may throw. *)
Definition or_crash {E} (u : outcome (ui E)) : ui E :=
  match u with Ok u => u | Throw _ => Nothing end.

(** The entries of [{ ...v }]. *)
Definition spread (v : jsv) : list (string * jsv) :=
  match v with
  | JObj l => l
  | JArr l => imap (λ i x, (pretty i, x)) l
  | JStr s => imap (λ i c, (pretty i, JStr (String c ""))) (to_list s)
  | _ => []
  end.

(** [fetch] that succeeded: the reply as JSON, or what parsing it throws. *)
Definition json_of (r : outcome (Z * string)) : outcome jsv :=
  match r with Ok (_, body) => parse body | Throw e => Throw e end.

(** [if (!res.ok) throw new Error(await res.text())], and then the reply as JSON. *)
Definition checked (r : outcome (Z * string)) : outcome string :=
  match r with
  | Ok (status, body) => if Proxy.ok_status status then Ok body else Throw (JsError body)
  | Throw e => Throw e
  end.
