(* ===== verification/SettingsPages.v ===== *)
(** * The settings of a workspace and the audit log

    [components/dashboard/workspace-switcher.tsx], [src/pages/workspaces/WorkspaceSettingsPage.tsx],
    [src/pages/settings] and [src/pages/AuditLogsPage.tsx]. *)
From S2P Require Import Prelude JsString Json Jwt Storage Client Ui Async Dynamic.
From Stdlib Require Import ZArith.

(** [import.meta.env.VITE_API_BASE_URL || '/api'], the variable not being set. *)
Definition API_BASE : string := "/api".

(** [claims?.wid || ''] *)
Definition workspace_id (token : option string) : jsv :=
  match getWorkspaceClaims token with Some c => falsy_or (wid c) (JStr "") | None => JStr "" end.

(** [components/dashboard/workspace-switcher.tsx]; [authToken] is the one in local storage. *)
Module WorkspaceSwitcher.
Record props := mkProps { authToken : option string }.
Inductive output := Store (op : M storage unit) | Reload | Navigate (to : string).
Inductive event := Toggle | CloseMenu | SelectWorkspace (ws : jsv) | CreateNew.

Record state := mkState {
  open : bool;
  workspaces : list jsv;
  currentName : jsv }.
Definition setOpen (v : bool) : prog state output :=
  set (λ s, mkState v (workspaces s) (currentName s)).
Definition setWorkspaces (v : list jsv) : prog state output :=
  set (λ s, mkState (open s) v (currentName s)).
Definition setCurrentName (v : jsv) : prog state output :=
  set (λ s, mkState (open s) (workspaces s) v).

Definition initial : state := mkState false [] (JStr "").

Definition currentSlug (p : props) : jsv :=
  match getWorkspaceClaims (authToken p) with
  | Some c => falsy_or (wslug c) (JStr "")
  | None => JStr ""
  end.

(** A token that is there and not empty. *)
Definition token_of (p : props) : option string :=
  match authToken p with Some t => if decide (t = "") then None else Some t | None => None end.

(** [list.find((ws) => ws.id === currentWsId)] *)
Fixpoint find_current (currentWsId : jsv) (list : list jsv) : outcome (option jsv) :=
  match list with
  | [] => Ok None
  | ws :: l =>
      i ← field ws "id";
      if strict_eq i currentWsId then Ok (Some ws) else find_current currentWsId l
  end.

(** The effect; what is thrown while the reply is read is caught. *)
Definition loadWorkspaces (p : props) : prog state output :=
  let currentWsId := workspace_id (authToken p) in
  when (truthy currentWsId)
    match token_of p with
    | None => Done
    | Some t =>
        Await (Fetch "GET" (API_BASE +:+ "/workspaces") (Some t) None) (λ r,
          match json_of r with
          | Throw _ => Done
          | Ok data =>
              let list := array_or_empty data in
              steps
                [setWorkspaces list;
                 match find_current currentWsId list with
                 | Ok (Some ws) => setCurrentName (opt_field ws "name")
                 | _ => Done
                 end]
          end)
    end.

(** The workspace of a button that is shown is not null. *)
Definition selectWorkspace (p : props) (ws : jsv) : prog state output :=
  let id := opt_field ws "id" in
  if strict_eq id (workspace_id (authToken p)) then setOpen false
  else
    match token_of p with
    | None => Done
    | Some t =>
        Await (Fetch "POST" (API_BASE +:+ "/workspaces/" +:+ to_string id +:+ "/select") (Some t) None)
          (λ r,
             match json_of r with
             | Throw _ => Done
             | Ok data =>
                 match field data "token" with
                 | Ok t' =>
                     when (truthy t')
                       (steps
                         [emit (Store (setItem "authToken" (to_string t')));
                          setOpen false;
                          emit Reload])
                 | Throw _ => Done
                 end
             end)
    end.

(** The name and the role of a workspace are the label of its button. *)
Definition row (ws : jsv) : outcome (ui event) :=
  _ ← field ws "id";
  name ← shown_field ws "name";
  role ← shown_field ws "role";
  Ok (Button (name +:+ role) false (SelectWorkspace ws)).

Definition render (p : props) (s : state) : outcome (ui event) :=
  if negb (truthy (workspace_id (authToken p))) then Ok Nothing
  else
    label ← shown (falsy_or (currentName s) (currentSlug p));
    rows ← (if open s then map_outcome row (workspaces s) else Ok []);
    Ok (Box [Button label false Toggle;
             show_if (open s)
               (Box [Button "overlay" false CloseMenu; Box rows; Button "Create New" false CreateNew])]).

Definition on (p : props) (s : state) (e : event) : prog state output :=
  match e with
  | Toggle => setOpen (negb (open s))
  | CloseMenu => setOpen false
  | SelectWorkspace ws => selectWorkspace p ws
  | CreateNew => steps [setOpen false; emit (Navigate "/workspaces/create")]
  end.

Definition component : component :=
  mkComponent props state event output (λ _, initial) (λ p s, or_crash (render p s)) on
    (λ _ _, Done) (λ p p', workspace_id (authToken p) = workspace_id (authToken p'))
    (λ p _, loadWorkspaces p).

#[global] Hint Unfold setOpen setWorkspaces setCurrentName currentSlug token_of loadWorkspaces
  selectWorkspace row render : ui.
End WorkspaceSwitcher.

(** [src/pages/workspaces/WorkspaceSettingsPage.tsx] *)
Module WorkspaceSettingsPage.
Record props := mkProps { authToken : option string }.
Abbreviation output := Empty_set.
Inductive event :=
  | TypeWsName (v : string) | SaveName | TypeEmail (v : string) | PickNewRole (v : string)
  | AddMember | RemoveMember (uid : jsv) | ChangeRole (uid : jsv) (role : string).

Record state := mkState {
  workspace : jsv;
  members : list jsv;
  wsName : jsv;
  newEmail : string;
  newRole : string;
  saving : bool }.
Definition setWorkspace (v : jsv) : prog state output :=
  set (λ s, mkState v (members s) (wsName s) (newEmail s) (newRole s) (saving s)).
Definition setMembers (v : list jsv) : prog state output :=
  set (λ s, mkState (workspace s) v (wsName s) (newEmail s) (newRole s) (saving s)).
Definition setWsName (v : jsv) : prog state output :=
  set (λ s, mkState (workspace s) (members s) v (newEmail s) (newRole s) (saving s)).
Definition setNewEmail (v : string) : prog state output :=
  set (λ s, mkState (workspace s) (members s) (wsName s) v (newRole s) (saving s)).
Definition setNewRole (v : string) : prog state output :=
  set (λ s, mkState (workspace s) (members s) (wsName s) (newEmail s) v (saving s)).
Definition setSaving (v : bool) : prog state output :=
  set (λ s, mkState (workspace s) (members s) (wsName s) (newEmail s) (newRole s) v).

Definition initial : state := mkState JNull [] (JStr "") "" "member" false.

Definition wsID (p : props) : jsv := workspace_id (authToken p).
Definition myRole (p : props) : jsv :=
  match getWorkspaceClaims (authToken p) with
  | Some c => falsy_or (wrole c) (JStr "member")
  | None => JStr "member"
  end.
Definition isOwner (p : props) : bool := is_str (myRole p) "owner".
Definition canEdit (p : props) : bool := isOwner p || is_str (myRole p) "admin".

(** [getAuth]: an empty token if there is none. *)
Definition getAuth (p : props) : string := default "" (authToken p).

Definition workspace_url (p : props) : string := API_BASE +:+ "/workspaces/" +:+ to_string (wsID p).
Definition members_url (p : props) : string := workspace_url p +:+ "/members".
Definition member_url (p : props) (uid : jsv) : string := members_url p +:+ "/" +:+ to_string uid.

Definition fetch (p : props) (method url : string) (body : option jsv) : api (Z * string) :=
  Fetch method url (Some (getAuth p)) (body ≫= stringify).

Definition load (p : props) : prog state output :=
  when (truthy (wsID p))
    (steps
      [fork (Await (fetch p "GET" (workspace_url p) None) (λ r,
         match json_of r with
         | Throw _ => Done
         | Ok data =>
             steps [setWorkspace data;
                    match field data "name" with
                    | Ok n => setWsName (falsy_or n (JStr ""))
                    | Throw _ => Done
                    end]
         end));
       fork (Await (fetch p "GET" (members_url p) None) (λ r,
         match json_of r with Throw _ => Done | Ok data => setMembers (array_or_empty data) end))]).

(** A name that is no string throws before anything is sent. *)
Definition handleSaveName (p : props) (s : state) : prog state output :=
  match trim_of (wsName s) with
  | Throw _ => Done
  | Ok name =>
      when (truthy (wsID p) && negb (bool_decide (name = "")))
        (steps
          [setSaving true;
           try_await (fetch p "PUT" (workspace_url p) (Some (JObj [("name", JStr name)])))
             (λ _, Done) (λ _, Done) (setSaving false)])
  end.

Definition handleAddMember (p : props) (s : state) : prog state output :=
  when (truthy (wsID p) && negb (bool_decide (trim (newEmail s) = "")))
    (try_await (fetch p "POST" (members_url p)
                  (Some (JObj [("email", JStr (trim (newEmail s))); ("role", JStr (newRole s))])))
       (λ _, steps
         [setNewEmail "";
          Await (fetch p "GET" (members_url p) None) (λ r,
            match json_of r with Throw _ => Done | Ok data => setMembers (array_or_empty data) end)])
       (λ _, Done) Done).

Definition is_member (uid m : jsv) : bool := strict_eq (opt_field m "userId") uid.

(** The status of the reply is not looked at.  The list is that of the time of the reply. *)
Definition handleRemoveMember (p : props) (uid : jsv) : prog state output :=
  when (truthy (wsID p))
    (try_await (fetch p "DELETE" (member_url p uid) None)
       (λ _, set (λ s, mkState (workspace s) (filter (λ m, is_member uid m = false) (members s))
                         (wsName s) (newEmail s) (newRole s) (saving s)))
       (λ _, Done) Done).

Definition with_role (uid : jsv) (role : string) (m : jsv) : jsv :=
  if is_member uid m then JObj (assoc_set "role" (JStr role) (spread m)) else m.

Definition handleChangeRole (p : props) (uid : jsv) (role : string) : prog state output :=
  when (truthy (wsID p))
    (try_await (fetch p "PUT" (member_url p uid) (Some (JObj [("role", JStr role)])))
       (λ _, set (λ s, mkState (workspace s) (with_role uid role <$> members s)
                         (wsName s) (newEmail s) (newRole s) (saving s)))
       (λ _, Done) Done).

Definition role_options : list (string * string) :=
  [("member", "member"); ("admin", "admin"); ("owner", "owner")].
Definition new_role_options : list (string * string) := [("member", "member"); ("admin", "admin")].

(** The second line: [{m.email && m.name && (<p>{m.email}</p>)}]. *)
Definition row (p : props) (m : jsv) : outcome (ui event) :=
  userId ← field m "userId";
  let name := opt_field m "name" in
  let email := opt_field m "email" in
  let role := opt_field m "role" in
  let owner := is_str role "owner" in
  title ← shown (falsy_or name (falsy_or email userId));
  second ← shown (js_and email (js_and name email));
  badge ← (if isOwner p && negb owner
           then Ok (Select "role" (input_value role) false role_options (ChangeRole userId))
           else r ← shown role; Ok (Text r));
  Ok (Box [Text title; Text second; badge;
           show_if (canEdit p && negb owner) (Button "Remove" false (RemoveMember userId))]).

Definition render (p : props) (s : state) : outcome (ui event) :=
  if negb (truthy (wsID p)) then
    Ok (Text "No workspace selected. Please select a workspace first.")
  else
    domain ← shown (falsy_or (opt_field (workspace s) "trustDomain") (JStr "..."));
    pem ← shown (opt_field (workspace s) "caCertPem");
    rows ← map_outcome (row p) (members s);
    Ok (Box
      [Text "Workspace Settings"; Text "Manage your workspace configuration and members"; Text "General";
       Input "Workspace Name" (input_value (wsName s)) (negb (canEdit p)) TypeWsName;
       show_if (canEdit p) (Button (if saving s then "Saving..." else "Save") (saving s) SaveName);
       Box [Text "Trust Domain"; Text domain];
       if truthy (opt_field (workspace s) "caCertPem") then Box [Text "CA Certificate"; Text pem]
       else Text pem;
       Text "Members"; Box rows;
       show_if (canEdit p)
         (Box [Input "Add Member" (newEmail s) false TypeEmail;
               Select "role" (newRole s) false new_role_options PickNewRole;
               Button "Add" (bool_decide (trim (newEmail s) = "")) AddMember])]).

Definition on (p : props) (s : state) (e : event) : prog state output :=
  match e with
  | TypeWsName v => setWsName (JStr v)
  | SaveName => handleSaveName p s
  | TypeEmail v => setNewEmail v
  | PickNewRole v => setNewRole v
  | AddMember => handleAddMember p s
  | RemoveMember uid => handleRemoveMember p uid
  | ChangeRole uid role => handleChangeRole p uid role
  end.

Definition component : component :=
  mkComponent props state event output (λ _, initial) (λ p s, or_crash (render p s)) on
    (λ _ _, Done) (λ p p', wsID p = wsID p') (λ p _, load p).

#[global] Hint Unfold setWorkspace setMembers setWsName setNewEmail setNewRole setSaving wsID
  myRole isOwner canEdit getAuth workspace_url members_url member_url fetch load handleSaveName
  handleAddMember is_member handleRemoveMember with_role handleChangeRole row render : ui.
End WorkspaceSettingsPage.

(** [headers]: without a token the header is "Bearer null". *)
Definition bearer_of (token : option string) : string := default "null" token.

(** [e instanceof Error ? e.message : ...]: everything that is thrown here is an [Error]. *)
Section Engine.
  Context (engine_message : js_error → string).

Definition message_of (e : js_error) : string := error_message engine_message e.
End Engine.

(** [src/pages/settings/SessionsPage.tsx]; [now] is [Date.now()] at the rendering. *)
Module SessionsPage.
Record props := mkProps { authToken : option string; now : Z }.
Abbreviation output := Empty_set.
Inductive event := Revoke (id : jsv) (confirmed : bool) | RevokeAll (userId : jsv) (confirmed : bool).

Record state := mkState {
  sessions : jsv;
  loading : bool;
  error : string }.
Definition setSessions (v : jsv) : prog state output :=
  set (λ s, mkState v (loading s) (error s)).
Definition setLoading (v : bool) : prog state output :=
  set (λ s, mkState (sessions s) v (error s)).
Definition setError (v : string) : prog state output :=
  set (λ s, mkState (sessions s) (loading s) v).

Definition initial : state := mkState (JArr []) true "".

Definition sessions_url : string := API_BASE +:+ "/admin/sessions".
Definition fetch (p : props) (method url : string) : api (Z * string) :=
  Fetch method url (Some (bearer_of (authToken p))) None.

(** [v > Date.now() / 1000] and [v <= Date.now() / 1000]: neither holds of [NaN]. *)
Definition later (v : jsv) (now : Z) : bool :=
  match Number v with
  | NaN => false
  | Infinity negative => negb negative
  | Dec m e => (now * 10 ^ Z.of_nat e <? 1000 * m)%Z
  end.
Definition not_later (v : jsv) (now : Z) : bool :=
  match Number v with
  | NaN => false
  | Infinity negative => negative
  | Dec m e => (1000 * m <=? now * 10 ^ Z.of_nat e)%Z
  end.

Definition is_active (now : Z) (s : jsv) : outcome bool :=
  revoked ← field s "revoked";
  Ok (negb (truthy revoked) && later (opt_field s "expires_at") now).
Definition is_revoked (now : Z) (s : jsv) : outcome bool :=
  revoked ← field s "revoked";
  Ok (truthy revoked || not_later (opt_field s "expires_at") now).

Definition active (now : Z) (s : state) : outcome (list jsv) :=
  array_of (sessions s) ≫= filter_outcome (is_active now).
Definition revoked (now : Z) (s : state) : outcome (list jsv) :=
  array_of (sessions s) ≫= filter_outcome (is_revoked now).

Section Engine.
  Context (engine_message : js_error → string).

Definition load (p : props) : prog state output :=
  steps
    [setLoading true;
     Await (fetch p "GET" sessions_url) (λ r, steps
       [match checked r ≫= parse with
        | Ok v => setSessions v
        | Throw e => setError (message_of engine_message e)
        end;
        setLoading false])].

(** The error of an earlier failure is never cleared; [load] is not awaited. *)
Definition revoke (p : props) (url : string) : prog state output :=
  Await (fetch p "DELETE" url) (λ r,
    match checked r with
    | Ok _ => fork (load p)
    | Throw e => setError (message_of engine_message e)
    end).

Definition handleRevoke (p : props) (id : jsv) (confirmed : bool) : prog state output :=
  when confirmed (revoke p (sessions_url +:+ "/" +:+ to_string id)).
Definition handleRevokeAll (p : props) (userId : jsv) (confirmed : bool) : prog state output :=
  when confirmed (revoke p (sessions_url +:+ "/user/" +:+ to_string userId)).

Definition row (s : jsv) : outcome (ui event) :=
  id ← field s "id";
  type ← shown_field s "session_type";
  ip ← shown_field s "ip_address";
  agent ← shown_field s "user_agent";
  other ← (if truthy (opt_field s "user_id") then Ok "" else shown_field s "user_id");
  Ok (Box [Text (type +:+ " session"); Text ip; Text agent;
           if truthy (opt_field s "user_id")
           then Ask "Revoke All" false (RevokeAll (opt_field s "user_id")) else Text other;
           Ask "Revoke" false (Revoke id)]).

Definition old_row (s : jsv) : outcome (ui event) :=
  type ← shown_field s "session_type";
  Ok (Text (type +:+ " - " +:+ (if truthy (opt_field s "revoked") then "revoked" else "expired"))).

(** Both lists are computed before it is known whether they are shown. *)
Definition render (p : props) (s : state) : outcome (ui event) :=
  a ← active (now p) s;
  r ← revoked (now p) s;
  rows ← (if loading s then Ok [] else map_outcome row a);
  old ← (if loading s then Ok [] else map_outcome old_row (take 5 r));
  Ok (Box
    [Text "Sessions"; Text "Active sessions in this workspace";
     show_if (negb (bool_decide (error s = ""))) (Text (error s));
     if loading s then Text "Loading..."
     else Box
       [Text ("Active (" +:+ pretty (length a) +:+ ")");
        match a with [] => Text "No active sessions" | _ => Box rows end;
        match r with
        | [] => Nothing
        | _ => Box (Text ("Expired/Revoked (" +:+ pretty (length r) +:+ ")") :: old)
        end]]).

Definition on (p : props) (e : event) : prog state output :=
  match e with
  | Revoke id b => handleRevoke p id b
  | RevokeAll userId b => handleRevokeAll p userId b
  end.

Definition component : component :=
  mkComponent props state event output (λ _, initial) (λ p s, or_crash (render p s)) (λ p _, on p)
    (λ p _, fork (load p)) (λ _ _, True) (λ _ _, Done).
End Engine.

#[global] Hint Unfold setSessions setLoading setError sessions_url fetch later not_later
  is_active is_revoked active revoked load revoke handleRevoke handleRevokeAll row old_row
  render : ui.
End SessionsPage.

(** [src/pages/settings/IdentityProvidersPage.tsx] *)
Module IdentityProvidersPage.
Record props := mkProps { authToken : option string }.
Abbreviation output := Empty_set.

(** The form, whose values come from the fields or from a provider. *)
Record form_data := mkForm {
  provider_type : jsv; client_id : jsv; client_secret : jsv; redirect_uri : jsv; issuer_url : jsv;
  enabled : jsv }.
Definition empty_form : form_data :=
  mkForm (JStr "google") (JStr "") (JStr "") (JStr "") (JStr "") (JBool true).

Inductive event :=
  | AddProvider | PickType (v : string) | TypeClientId (v : string) | TypeSecret (v : string)
  | TypeRedirect (v : string) | TypeIssuer (v : string) | Enable (b : bool) | Submit | Cancel
  | Edit (idp : jsv) | Delete (id : jsv) (confirmed : bool).

Record state := mkState {
  providers : jsv;
  loading : bool;
  error : string;
  showForm : bool;
  editingId : jsv;
  form : form_data }.
Definition setProviders (v : jsv) : prog state output :=
  set (λ s, mkState v (loading s) (error s) (showForm s) (editingId s) (form s)).
Definition setLoading (v : bool) : prog state output :=
  set (λ s, mkState (providers s) v (error s) (showForm s) (editingId s) (form s)).
Definition setError (v : string) : prog state output :=
  set (λ s, mkState (providers s) (loading s) v (showForm s) (editingId s) (form s)).
Definition setShowForm (v : bool) : prog state output :=
  set (λ s, mkState (providers s) (loading s) (error s) v (editingId s) (form s)).
Definition setEditingId (v : jsv) : prog state output :=
  set (λ s, mkState (providers s) (loading s) (error s) (showForm s) v (form s)).
Definition setForm (v : form_data) : prog state output :=
  set (λ s, mkState (providers s) (loading s) (error s) (showForm s) (editingId s) v).

Definition initial : state := mkState (JArr []) true "" false JNull empty_form.

Definition providers_url : string := API_BASE +:+ "/admin/identity-providers".
Definition provider_url (id : jsv) : string := providers_url +:+ "/" +:+ to_string id.
Definition fetch (p : props) (method url : string) (body : option jsv) : api (Z * string) :=
  Fetch method url (Some (bearer_of (authToken p))) (body ≫= stringify).

Definition form_json (f : form_data) : jsv :=
  JObj [("provider_type", provider_type f); ("client_id", client_id f);
        ("client_secret", client_secret f); ("redirect_uri", redirect_uri f);
        ("issuer_url", issuer_url f); ("enabled", enabled f)].

Section Engine.
  Context (engine_message : js_error → string).

Definition load (p : props) : prog state output :=
  steps
    [setLoading true;
     Await (fetch p "GET" providers_url None) (λ r, steps
       [match checked r ≫= parse with
        | Ok v => setProviders v
        | Throw e => setError (message_of engine_message e)
        end;
        setLoading false])].

Definition handleSubmit (p : props) (s : state) : prog state output :=
  let editing := truthy (editingId s) in
  Await (fetch p (if editing then "PUT" else "POST")
           (if editing then provider_url (editingId s) else providers_url) (Some (form_json (form s))))
    (λ r,
       match checked r with
       | Ok _ => steps [setShowForm false; setEditingId JNull; setForm empty_form; fork (load p)]
       | Throw e => setError (message_of engine_message e)
       end).

Definition handleDelete (p : props) (id : jsv) (confirmed : bool) : prog state output :=
  when confirmed
    (Await (fetch p "DELETE" (provider_url id) None) (λ r,
       match checked r with
       | Ok _ => fork (load p)
       | Throw e => setError (message_of engine_message e)
       end)).

(** The secret is not among the fields of a provider. *)
Definition startEdit (idp : jsv) : prog state output :=
  steps
    [setEditingId (opt_field idp "id");
     setForm (mkForm (opt_field idp "provider_type") (opt_field idp "client_id") (JStr "")
                (opt_field idp "redirect_uri") (opt_field idp "issuer_url") (opt_field idp "enabled"));
     setShowForm true].

(** [setForm(f => ({ ...f, [k]: v }))] *)
Definition edit_form (g : form_data → form_data) : prog state output :=
  set (λ s, mkState (providers s) (loading s) (error s) (showForm s) (editingId s) (g (form s))).

Definition type_options : list (string * string) :=
  [("google", "Google"); ("github", "GitHub"); ("oidc", "OIDC")].

(** The browser does not submit a form while a required field is empty. *)
Definition complete (s : state) : bool :=
  negb (bool_decide (input_value (client_id (form s)) = "")) &&
  (truthy (editingId s) || negb (bool_decide (input_value (client_secret (form s)) = ""))).

Definition form_view (s : state) : ui event :=
  let f := form s in
  let editing := truthy (editingId s) in
  Box [Text ((if editing then "Edit" else "Add") +:+ " Identity Provider");
       Select "Provider Type" (input_value (provider_type f)) false type_options PickType;
       Input "Client ID" (input_value (client_id f)) false TypeClientId;
       show_if editing (Text "(leave blank to keep current)");
       Input "Client Secret" (input_value (client_secret f)) false TypeSecret;
       Input "Redirect URI" (input_value (redirect_uri f)) false TypeRedirect;
       show_if (is_str (provider_type f) "oidc")
         (Input "Issuer URL" (input_value (issuer_url f)) false TypeIssuer);
       Checkbox "Enabled" (truthy (enabled f)) Enable;
       Button "Save" (negb (complete s)) Submit;
       Button "Cancel" false Cancel].

Definition row (idp : jsv) : outcome (ui event) :=
  id ← field idp "id";
  type ← shown_field idp "provider_type";
  client ← shown_field idp "client_id";
  Ok (Box [Text type; Text (if truthy (opt_field idp "enabled") then "enabled" else "disabled");
           Text client; Button "Edit" false (Edit idp); Ask "Delete" false (Delete id)]).

(** [providers.length === 0]; only arrays, strings and objects may have a length. *)
Definition no_items (v : jsv) : outcome bool :=
  match v with
  | JArr l => Ok (match l with [] => true | _ => false end)
  | JStr s => Ok (bool_decide (s = ""))
  | _ => n ← field v "length"; Ok (strict_eq n (JInt 0))
  end.

(** What is no array has no [map]. *)
Definition render (s : state) : outcome (ui event) :=
  list ← (if loading s then Ok (Text "Loading...")
          else
            none ← no_items (providers s);
            if none : bool then Ok (Text "No identity providers configured")
            else l ← array_of (providers s); rows ← map_outcome row l; Ok (Box rows));
  Ok (Box
    [Text "Identity Providers"; Text "Configure OAuth providers for this workspace";
     Button "Add Provider" false AddProvider;
     show_if (negb (bool_decide (error s = ""))) (Text (error s));
     show_if (showForm s) (form_view s);
     list]).

Definition on (p : props) (s : state) (e : event) : prog state output :=
  match e with
  | AddProvider => steps [setShowForm true; setEditingId JNull]
  | PickType v => edit_form (λ f, mkForm (JStr v) (client_id f) (client_secret f) (redirect_uri f) (issuer_url f) (enabled f))
  | TypeClientId v => edit_form (λ f, mkForm (provider_type f) (JStr v) (client_secret f) (redirect_uri f) (issuer_url f) (enabled f))
  | TypeSecret v => edit_form (λ f, mkForm (provider_type f) (client_id f) (JStr v) (redirect_uri f) (issuer_url f) (enabled f))
  | TypeRedirect v => edit_form (λ f, mkForm (provider_type f) (client_id f) (client_secret f) (JStr v) (issuer_url f) (enabled f))
  | TypeIssuer v => edit_form (λ f, mkForm (provider_type f) (client_id f) (client_secret f) (redirect_uri f) (JStr v) (enabled f))
  | Enable b => edit_form (λ f, mkForm (provider_type f) (client_id f) (client_secret f) (redirect_uri f) (issuer_url f) (JBool b))
  | Submit => handleSubmit p s
  | Cancel => steps [setShowForm false; setEditingId JNull]
  | Edit idp => startEdit idp
  | Delete id b => handleDelete p id b
  end.

Definition component : component :=
  mkComponent props state event output (λ _, initial) (λ _ s, or_crash (render s)) on
    (λ p _, fork (load p)) (λ _ _, True) (λ _ _, Done).
End Engine.

#[global] Hint Unfold empty_form setProviders setLoading setError setShowForm setEditingId
  setForm providers_url provider_url fetch form_json load handleSubmit handleDelete startEdit
  edit_form complete form_view row render : ui.
End IdentityProvidersPage.

(** [src/pages/AuditLogsPage.tsx]; [local_time n] is [new Date(n * 1000).toLocaleString()]. *)
Module AuditLogsPage.
Abbreviation output := Empty_set.
Abbreviation event := Empty_set.

Record state := mkState {
  logs : list jsv;
  loading : bool }.
Definition setLogs (v : list jsv) : prog state output :=
  set (λ s, mkState v (loading s)).
Definition setLoading (v : bool) : prog state output :=
  set (λ s, mkState (logs s) v).

Definition initial : state := mkState [] true.

Definition load : prog state output :=
  try_await (Fetch "GET" "/api/audit-logs" None None)
    (λ r, match parse r.2 with Ok data => setLogs (array_or_empty data) | Throw _ => Done end)
    (λ _, Done) (setLoading false).

Section Dates.
  Context (local_time : jsnum → string).

Definition row (entry : jsv) : outcome (ui event) :=
  _ ← field entry "id";
  actor ← shown_field entry "actor";
  action ← shown_field entry "action";
  target ← shown_field entry "target";
  result ← shown_field entry "result";
  Ok (Box [Text (local_time (Number (opt_field entry "timestamp"))); Text actor; Text action;
           Text target; Text result]).

Definition render (s : state) : outcome (ui event) :=
  if loading s then Ok Nothing
  else
    rows ← map_outcome row (logs s);
    Ok (Box [Text "Audit Logs"; Text "Admin login, logout, and invite activity";
             match logs s with
             | [] => Text "No audit log entries yet."
             | _ => Box [Box (Text <$> ["Time"; "Actor"; "Action"; "Target"; "Result"]); Box rows]
             end]).

Definition component : component :=
  mkComponent unit state event output (λ _, initial) (λ _ s, or_crash (render s)) (λ _ _, Empty_set_rect _)
    (λ _ _, load) (λ _ _, True) (λ _ _, Done).
End Dates.

#[global] Hint Unfold setLogs setLoading load row render : ui.
End AuditLogsPage.
