(* ===== verification/UserPages.v ===== *)
(** * The pages of members ([src/pages/app])

    The token is read from local storage when a page is rendered. *)
From S2P Require Import Prelude JsString Json Jwt Storage Client Ui Async Dynamic SettingsPages.
From Stdlib Require Import ZArith.

(** A token that is there and not empty. *)
Definition given_token (token : option string) : option string :=
  match token with Some t => if decide (t = "") then None else Some t | None => None end.

(** [{claims?.k}] *)
Definition shown_claim (k : workspace_claims → jsv) (token : option string) : outcome string :=
  match getWorkspaceClaims token with Some c => shown (k c) | None => Ok "" end.

Definition is_admin (token : option string) : bool :=
  match getWorkspaceClaims token with
  | Some c => is_str (wrole c) "admin" || is_str (wrole c) "owner"
  | None => false
  end.

(** What the pages tell the router: [navigate(to)], [navigate(to, { replace: true })]. *)
Inductive navigation := Navigate (to : string) | Replace (to : string).

(** [src/pages/app/UserLayout.tsx] *)
Module UserLayout.
Record props := mkProps { authToken : option string }.
Inductive output := Store (op : M storage unit) | Go (to : navigation).
Inductive event := LogOut.

(** Whatever the reply, the token is forgotten. *)
Definition handleLogout (p : props) : prog unit output :=
  Await (Fetch "POST" (API_BASE +:+ "/oauth/logout") (Some (bearer_of (authToken p))) None) (λ _,
    steps [emit (Store (removeItem "authToken")); emit (Go (Replace "/login"))]).

Definition render (p : props) (outlet : ui event) : outcome (ui event) :=
  slug ← (match getWorkspaceClaims (authToken p) with
          | Some c => shown (falsy_or (wslug c) (JStr "Workspace"))
          | None => Ok "Workspace"
          end);
  role ← shown_claim wrole (authToken p);
  Ok (Box [Text slug; Text role; Button "Log out" false LogOut; outlet]).

Definition component : component :=
  mkComponent props unit event output (λ _, tt) (λ p _, or_crash (render p Nothing))
    (λ p _ _, handleLogout p) (λ _ _, Done) (λ _ _, True) (λ _ _, Done).

#[global] Hint Unfold handleLogout render : ui.
End UserLayout.

(** [src/pages/app/UserHomePage.tsx]; the events are the targets of [navigate]. *)
Module UserHomePage.
Definition render (token : option string) : outcome (ui navigation) :=
  title ← (match getWorkspaceClaims token with
           | Some c => shown (falsy_or (wslug c) (JStr "your workspace"))
           | None => Ok "your workspace"
           end);
  role ← shown_claim wrole token;
  slug ← shown_claim wslug token;
  Ok (Box [Text ("Welcome to " +:+ title);
           Text ("You have access to this workspace as a " +:+ role);
           Box [Text "Workspace"; Text slug];
           Box [Text "Trust Domain"; Text (slug +:+ ".zerotrust.com")];
           Button "Set up Client" false (Navigate "/app/install");
           show_if (is_admin token)
             (Button "Go to Admin Dashboard" false (Navigate "/dashboard/groups"))]).
End UserHomePage.

(** [src/pages/app/WelcomePage.tsx]; [search_token] is the parameter of the address. *)
Module WelcomePage.
Record props := mkProps { authToken : option string; search_token : option string }.
Inductive output := Store (op : M storage unit) | DropToken | Go (to : navigation).
Abbreviation event := navigation.

(** The effect; it changes the storage and the address, and no state. *)
Definition storeToken (p : props) : prog unit output :=
  match given_token (search_token p) with
  | Some t => steps [emit (Store (setItem "authToken" t)); emit DropToken]
  | None => Done
  end.

Definition render (p : props) : outcome (ui event) :=
  match given_token (authToken p), getWorkspaceClaims (authToken p) with
  | Some t, Some claims =>
      let email := opt_field (decodeJWTPayload t) "sub" in
      slug ← shown (falsy_or (wslug claims) (JStr "your workspace"));
      signed ← shown email;
      Ok (Box [Text ("Welcome to " +:+ slug +:+ "!");
               if truthy email then Text ("Signed in as " +:+ signed) else Text signed;
               Text "Your account has been created. Set up the ZTNA client to securely access your network resources.";
               Button "Continue to Client Setup" false (Navigate "/app/install")])
  | _, _ => Ok (Box [Text "Invalid or expired invite session.";
                     Button "Go to Login" false (Replace "/login")])
  end.

Definition component : component :=
  mkComponent props unit event output (λ _, tt) (λ p _, or_crash (render p)) (λ _ _ n, emit (Go n))
    (λ p _, storeToken p) (λ _ _, True) (λ _ _, Done).

#[global] Hint Unfold storeToken render : ui.
End WelcomePage.

(** [src/pages/app/InstallPage.tsx]; [ua] is [navigator.userAgent]. *)
Module InstallPage.
Definition detectPlatform (ua : string) : string :=
  let ua := toLowerCase ua in
  if includes ua "linux" then "Linux"
  else if includes ua "mac" then "macOS"
  else if includes ua "win" then "Windows"
  else "Unknown".

Definition render (ua : string) (token : option string) : outcome (ui navigation) :=
  match given_token token, getWorkspaceClaims token with
  | Some _, Some claims =>
      let platform := detectPlatform ua in
      slug ← shown (wslug claims);
      role ← shown (wrole claims);
      Ok (Box [Text "Install ZTNA Client"; Text ("Platform: " +:+ platform);
               Text ("The ZTNA client for " +:+ platform +:+
                     " is coming soon. You'll be able to securely access your workspace resources directly from your terminal.");
               Text "Workspace Info";
               Box [Text "Workspace"; Text slug];
               Box [Text "Trust Domain"; Text (slug +:+ ".zerotrust.com")];
               Box [Text "Role"; Text role];
               Text "Your account is ready. You'll receive a notification when the client is available.";
               Button "Back to Home" false (Navigate "/app");
               show_if (is_admin token)
                 (Button "Go to Dashboard" false (Replace "/dashboard/groups"))])
  | _, _ => Ok (Box [Text "Invalid or expired session."; Button "Go to Login" false (Replace "/login")])
  end.
End InstallPage.
