(* ===== verification/SettingsProps.v ===== *)
(** * The requests of the settings pages, and what they show of the replies *)
From stdpp Require Import relations.
From S2P Require Import Prelude JsString Json Jwt Uri Storage Server ServerProps Client ClientProps.
From S2P Require Import Browser Guards Ui Async Links Dynamic SettingsPages UserPages.
From Stdlib Require Import Ascii ZArith Lia.

Lemma string_assoc (a b c : string) : (a +:+ b) +:+ c = a +:+ (b +:+ c).
Proof. induction a as [|x a IH]; [done|]. exact (f_equal (String x) IH). Qed.

(** ** Paths the server does not know *)

Lemma split_list_prefix (c : ascii) (w l : list ascii) : c ∉ w →
  ∃ x rest, split_list c (w ++ l) = (w ++ x) :: rest.
Proof.
  induction w as [|d w IH]; intros Hw; cbn [app split_list].
  - destruct (split_list c l) as [|x rest] eqn:E; [by apply split_list_nonempty in E|by eauto].
  - apply not_elem_of_cons in Hw as [Hd Hw]. rewrite decide_False by done.
    destruct (IH Hw) as (x & rest & ->). by eauto.
Qed.

Lemma drop_trailing_two a b rest : rest ≠ [] → ∃ rest', drop_trailing (a :: b :: rest) = a :: b :: rest'.
Proof.
  intros Hr. unfold drop_trailing.
  destruct rest as [|x rest] using rev_ind; [done|]. clear IHrest Hr.
  change (a :: b :: rest ++ [x]) with ((a :: b :: rest) ++ [x]). rewrite reverse_snoc.
  destruct x as [|c x]; [|by exists (rest ++ [String c x])].
  destruct (reverse (a :: b :: rest)) as [|y r] eqn:E.
  - by apply (f_equal length) in E; rewrite length_reverse in E.
  - exists rest. by rewrite <- E, reverse_involutive.
Qed.

Lemma segments_two a b t : clean a → clean b →
  ∃ rest, segments ("/" +:+ a +:+ "/" +:+ b +:+ "/" +:+ t) = a :: b :: rest.
Proof.
  intros [Ha Ha'] [Hb Hb']. unfold segments, path_part, split.
  set (w := "/"%char :: to_list a ++ "/"%char :: to_list b ++ ["/"%char]).
  assert (to_list ("/" +:+ a +:+ "/" +:+ b +:+ "/" +:+ t) = w ++ to_list t) as ->.
  { unfold w. rewrite !to_list_app. change (to_list "/") with ["/"%char]. by list_simplifier. }
  destruct (split_list_prefix "?" w (to_list t)) as (x & rest & ->).
  { unfold w. rewrite not_elem_of_cons, not_elem_of_app, not_elem_of_cons, not_elem_of_app.
    split_and!; [done|done|done|done|]. by apply not_elem_of_cons; split; [|apply not_elem_of_nil]. }
  cbn [fmap list_fmap]. rewrite to_of_list.
  assert (w ++ x = [] ++ "/"%char :: to_list a ++ "/"%char :: to_list b ++ "/"%char :: x) as ->.
  { unfold w. by list_simplifier. }
  rewrite !split_list_app by (try done; apply not_elem_of_nil).
  cbn [fmap list_fmap]. rewrite !of_to_list. cbn [of_list].
  apply drop_trailing_two. intros E%fmap_nil_inv. by apply split_list_nonempty in E.
Qed.

Lemma find_route_None t meth segs :
  Forall (λ r, match_path r.1.2 segs = None) t → find_route t meth segs = None.
Proof.
  induction 1 as [|[[m p] r] t H _ IH]; [done|]. cbn in *. rewrite H. by case_bool_decide.
Qed.

(** No route begins with /api/admin. *)
Lemma admin_unserved meth t : resolve meth ("/api/admin/" +:+ t) = NotFound.
Proof.
  unfold resolve. destruct (segments_two "api" "admin" t) as [rest E]; [closed_word..|].
  assert (segments ("/api/admin/" +:+ t) = "api" :: "admin" :: rest) as -> by exact E.
  rewrite find_route_None; [done|]. unfold table. repeat (apply Forall_cons_2; [by vm_compute|]).
  by apply Forall_nil_2.
Qed.

(** A call that goes to no route of the server. *)
Definition unserved (A : Type) (c : api A) : Prop :=
  match c with Fetch meth url _ _ => resolve meth url = NotFound | _ => False end.

(** ** Paths of a workspace *)

Lemma resolve_plain meth segs r ps : segs ≠ [] → Forall clean segs → last segs ≠ Some "" →
  find_route table meth segs = Some (r, ps) → Forall (λ i, plain_id i = true) ps →
  resolve meth (join_path segs) = Handled r ps.
Proof.
  intros Hne Hc Hl Hf Hp. rewrite <- (string_app_empty (join_path segs)).
  eapply resolve_path; [done|done|done|by left|exact Hf|].
  apply mapM_Some. apply Forall_Forall2_diag. apply (Forall_impl _ _ _ Hp). intros i Hi.
  rewrite <- (encode_plain i Hi) at 1. apply decode_encode_component.
Qed.

(** The route at one place of the table, when those before it do not match. *)
Lemma find_route_hit t n meth p r segs ps : t !! n = Some (meth, p, r) →
  Forall (λ e, e.1.1 ≠ meth ∨ match_path e.1.2 segs = None) (take n t) →
  match_path p segs = Some ps → find_route t meth segs = Some (r, ps).
Proof.
  revert n. induction t as [|[[m q] r'] t IH]; intros [|n] Hn Hf Hp; try done; cbn in *.
  - injection Hn as -> -> ->. by rewrite bool_decide_true, Hp.
  - apply Forall_cons in Hf as [H Hf]. case_bool_decide; [|by eapply IH].
    destruct H as [H|H]; cbn in H; [done|]. rewrite H. by eapply IH.
Qed.

(** The segments of a workspace and of one of its members. *)
Ltac clean_segments :=
  repeat (apply Forall_cons_2; [first [by apply plain_clean | closed_word]|]); apply Forall_nil_2.

(** The only route that looks at the identifier is that of the lookup. *)
Lemma not_lookup w rest : toLowerCase w ≠ "lookup" →
  match_path [Lit "api"; Lit "workspaces"; Lit "lookup"] ("api" :: "workspaces" :: w :: rest) = None.
Proof. intros H. cbn [match_path]. by rewrite (bool_decide_false (toLowerCase w = "lookup")). Qed.

(** The place of a route, given the number of those before it. *)
Ltac found n := eapply (find_route_hit _ n);
  [reflexivity|unfold table; cbn [take];
   repeat (apply Forall_cons_2; [first [left; discriminate | right; by apply not_lookup
                                       |right; vm_compute; reflexivity]|]); apply Forall_nil_2
  |vm_compute; reflexivity].

Ltac one_of H := repeat setoid_rewrite elem_of_cons in H;
  destruct H as [[= -> ->]|[[= -> ->]|[]%not_elem_of_nil]].

Section Workspace.
  Context (w : string) (Hw : id_ok w) (Hlookup : toLowerCase w ≠ "lookup").

Lemma workspace_route meth r :
  (meth, r) ∈ [("GET", WorkspacesGet); ("PUT", WorkspacesUpdate)] →
  resolve meth ("/api/workspaces/" +:+ w) = Handled r [w].
Proof.
  intros Hm. destruct Hw as [Hne Hp]. destruct w as [|c0 w0]; [done|]. apply (resolve_plain meth ["api"; "workspaces"; String c0 w0]);
    [done|clean_segments|cbn; congruence| |by apply Forall_singleton].
  one_of Hm; [found 54|found 55].
Qed.

Lemma members_route meth r :
  (meth, r) ∈ [("GET", WorkspacesMembers); ("POST", WorkspacesAddMember)] →
  resolve meth ("/api/workspaces/" +:+ w +:+ "/members") = Handled r [w].
Proof.
  intros Hm. destruct Hw as [Hne Hp]. destruct w as [|c0 w0]; [done|]. apply (resolve_plain meth ["api"; "workspaces"; String c0 w0; "members"]);
    [done|clean_segments|done| |by apply Forall_singleton].
  one_of Hm; [found 58|found 59].
Qed.

Lemma select_route : resolve "POST" ("/api/workspaces/" +:+ w +:+ "/select") = Handled WorkspacesSelect [w].
Proof.
  destruct Hw as [Hne Hp]. destruct w as [|c0 w0]; [done|]. apply (resolve_plain "POST" ["api"; "workspaces"; String c0 w0; "select"]);
    [done|clean_segments|done| |by apply Forall_singleton].
  found 57.
Qed.

Lemma member_route meth r u : id_ok u →
  (meth, r) ∈ [("PUT", WorkspacesUpdateMember); ("DELETE", WorkspacesRemoveMember)] →
  resolve meth ("/api/workspaces/" +:+ w +:+ "/members/" +:+ u) = Handled r [w; u].
Proof.
  intros [Hu Hpu] Hm. destruct Hw as [Hne Hp]. destruct w as [|c0 w0]; [done|]. destruct u as [|c u]; [done|].
  apply (resolve_plain meth ["api"; "workspaces"; String c0 w0; "members"; String c u]);
    [done|clean_segments|cbn; congruence| |by apply Forall_cons_2, Forall_singleton].
  one_of Hm; [found 60|found 61].
Qed.
End Workspace.

(** A field that has just been set. *)
Lemma assoc_set_same k v l : assoc k (assoc_set k v l) = Some v.
Proof.
  induction l as [|[k' v'] l IH]; cbn; [by rewrite bool_decide_true|].
  case_bool_decide; cbn; [by rewrite bool_decide_true|by rewrite bool_decide_false].
Qed.

(** ** Properties *)

Section Unserved.
  Context (engine_message : js_error → string).

(** The programs of the two administration pages ask for nothing else. *)
Ltac admin_paths :=
  repeat first
    [ exact I
    | match goal with
      | |- asks _ (match ?x with _ => _ end) => destruct x
      | |- asks _ (when _ _) => apply asks_when
      | |- asks _ (seq _ _) => apply asks_seq
      | |- asks _ (steps _) => apply asks_steps
      | |- Forall _ (_ :: _) => apply Forall_cons_2
      | |- Forall _ [] => apply Forall_nil_2
      | |- asks _ (fork _) => split
      | |- asks _ (Await _ _) => split; [apply admin_unserved|]
      | |- ∀ _, _ => intros ?
      end ].

Lemma sessions_load_unserved p : asks unserved (SessionsPage.load engine_message p).
Proof. unfold SessionsPage.load. admin_paths. Qed.

Lemma providers_load_unserved p : asks unserved (IdentityProvidersPage.load engine_message p).
Proof. unfold IdentityProvidersPage.load. admin_paths. Qed.

Hint Resolve sessions_load_unserved providers_load_unserved : core.

Lemma sessions_unserved (c : config (SessionsPage.component engine_message)) : reachable c →
  Forall (task_asks unserved) (pending c).
Proof.
  apply (reachable_asks unserved (C:=SessionsPage.component engine_message)); [by split|done|].
  intros p s e _. destruct e as [id b|id b]; cbn [handle SessionsPage.component SessionsPage.on];
    unfold SessionsPage.handleRevoke, SessionsPage.handleRevokeAll, SessionsPage.revoke;
    admin_paths; done.
Qed.

Lemma providers_unserved (c : config (IdentityProvidersPage.component engine_message)) :
  reachable c → Forall (task_asks unserved) (pending c).
Proof.
  apply (reachable_asks unserved (C:=IdentityProvidersPage.component engine_message)); [by split|done|].
  intros p s e _.
  destruct e; cbn [handle IdentityProvidersPage.component IdentityProvidersPage.on]; try done;
    unfold IdentityProvidersPage.handleSubmit, IdentityProvidersPage.handleDelete; cbv zeta;
    try destruct (truthy _); admin_paths; done.
Qed.
End Unserved.

Lemma layout_unserved (c : config UserLayout.component) : reachable c →
  Forall (task_asks unserved) (pending c).
Proof.
  apply (reachable_asks unserved (C:=UserLayout.component)); [done|done|].
  intros p s []. split; [by vm_compute|done].
Qed.

(** ** The calls of the pages of a workspace *)

(** A call that the server hands to one of the handlers [rs], with the parameters [ps]. *)
Definition goes_to (rs : list route) (ps : list string) (A : Type) (c : api A) : Prop :=
  match c with
  | Fetch meth url _ _ => ∃ r, r ∈ rs ∧ resolve meth url = Handled r ps
  | _ => False
  end.

Section Page.
  Context (w : string) (Hw : id_ok w) (Hlookup : toLowerCase w ≠ "lookup").
  Context (p : WorkspaceSettingsPage.props) (Hp : WorkspaceSettingsPage.wsID p = JStr w).

(** What a call comes to at a known path. *)
Lemma goes (meth url url' : string) token body r ps (rs : list route) :
  url = url' → resolve meth url' = Handled r ps → r ∈ rs →
  goes_to rs ps _ (Fetch meth url token body).
Proof. intros -> E Hr. by exists r. Qed.

Lemma workspace_url_eq : WorkspaceSettingsPage.workspace_url p = "/api/workspaces/" +:+ w.
Proof. unfold WorkspaceSettingsPage.workspace_url. by rewrite Hp. Qed.

Lemma members_url_eq : WorkspaceSettingsPage.members_url p = "/api/workspaces/" +:+ w +:+ "/members".
Proof.
  unfold WorkspaceSettingsPage.members_url. rewrite workspace_url_eq. by rewrite string_assoc.
Qed.

Lemma member_url_eq u :
  WorkspaceSettingsPage.member_url p (JStr u) = "/api/workspaces/" +:+ w +:+ "/members/" +:+ u.
Proof.
  unfold WorkspaceSettingsPage.member_url. rewrite members_url_eq. by rewrite !string_assoc.
Qed.

Lemma load_asks : asks (goes_to [WorkspacesGet; WorkspacesMembers] [w]) (WorkspaceSettingsPage.load p).
Proof.
  apply asks_when, asks_steps. apply Forall_cons_2; [|apply Forall_cons_2; [|apply Forall_nil_2]]; (split; [split|done]).
  - eapply goes; [apply workspace_url_eq|by apply workspace_route; [..|left]|left].
  - intros r. destruct (json_of r) as [d|]; [|done]. cbn. by destruct (field d "name").
  - eapply goes; [apply members_url_eq|by apply members_route; [..|left]|by right; left].
  - intros r. by destruct (json_of r).
Qed.

Lemma saveName_asks s : asks (goes_to [WorkspacesUpdate] [w]) (WorkspaceSettingsPage.handleSaveName p s).
Proof.
  unfold WorkspaceSettingsPage.handleSaveName.
  destruct (trim_of _); [|done]. apply asks_when, asks_steps.
  apply Forall_cons_2; [done|apply Forall_singleton]. apply asks_try; [|done..].
  eapply goes; [apply workspace_url_eq|by apply workspace_route; [..|right; left]|left].
Qed.

Lemma addMember_asks s :
  asks (goes_to [WorkspacesAddMember; WorkspacesMembers] [w]) (WorkspaceSettingsPage.handleAddMember p s).
Proof.
  apply asks_when, asks_try; [| |done..].
  - eapply goes; [apply members_url_eq|by apply members_route; [..|right; left]|left].
  - intros _. split; [|intros r; by destruct (json_of r)].
    eapply goes; [apply members_url_eq|by apply members_route; [..|left]|by right; left].
Qed.

Lemma member_asks u : id_ok u →
  asks (goes_to [WorkspacesRemoveMember] [w; u]) (WorkspaceSettingsPage.handleRemoveMember p (JStr u)) ∧
  ∀ role, asks (goes_to [WorkspacesUpdateMember] [w; u])
    (WorkspaceSettingsPage.handleChangeRole p (JStr u) role).
Proof.
  intros Hu. split; [|intros role]; (apply asks_when, asks_try; [|done..]).
  - eapply goes; [apply member_url_eq|by apply member_route; [..|right; left]|left].
  - eapply goes; [apply member_url_eq|by apply member_route; [..|left]|left].
Qed.

Lemma switcher_asks (sw : WorkspaceSwitcher.props) ws : opt_field ws "id" = JStr w →
  asks (goes_to [WorkspacesList] []) (WorkspaceSwitcher.loadWorkspaces sw) ∧
  asks (goes_to [WorkspacesSelect] [w]) (WorkspaceSwitcher.selectWorkspace sw ws).
Proof.
  intros Hws. split.
  - apply asks_when. destruct (WorkspaceSwitcher.token_of sw); [|done]. split.
    + exists WorkspacesList. split; [left|by vm_compute].
    + intros r. destruct (json_of r); [|done]. cbn. by destruct (WorkspaceSwitcher.find_current _ _) as [[]|].
  - unfold WorkspaceSwitcher.selectWorkspace. rewrite Hws. cbv zeta.
    case_match; [done|]. destruct (WorkspaceSwitcher.token_of sw); [|done]. split.
    + eapply goes; [|by apply select_route|left]. done.
    + intros r. destruct (json_of r) as [d|]; [|done].
      destruct (field d "token") as [t|]; [|done]. by apply asks_when.
Qed.
End Page.


(** The token of an administrator of the workspace w1, and a workspace. *)
Definition w1_token : string :=
  encode_token "e30" (JObj [("wid", JStr "w1"); ("wslug", JStr "acme"); ("wrole", JStr "owner")]) "sig".


(** What [fetch] gives. *)
Abbreviation reply := (outcome (Z * string)).

(** C24: The settings page of a workspace does not look at the status
    of the replies.  Whatever the server answers, and be it that the change is refused,
    the member is taken off the list, respectively shown with the new role, the e-mail
    address of the new member is cleared, and saving the name shows nothing but the end of
    saving.  Only a request that gets no answer leaves the list as it was. *)
Theorem refused_changes_shown (p : WorkspaceSettingsPage.props) s (uid : jsv) (role : string) :
  let C := WorkspaceSettingsPage.component in
  truthy (WorkspaceSettingsPage.wsID p) = true →
  (∃ k : reply → prog (state C) (output C), WorkspaceSettingsPage.handleRemoveMember p uid =
        Await (WorkspaceSettingsPage.fetch p "DELETE" (WorkspaceSettingsPage.member_url p uid) None) k ∧
     (∀ status body (c : config C) m,
        m ∈ WorkspaceSettingsPage.members (its_state (exec (C:=C) (k (Ok (status, body))) c)) ↔
        m ∈ WorkspaceSettingsPage.members (its_state c) ∧ strict_eq (opt_field m "userId") uid = false) ∧
     ∀ e (c : config C), exec (C:=C) (k (Throw e)) c = c) ∧
  (∃ (q : api (Z * string)) (k : reply → prog (state C) (output C)), WorkspaceSettingsPage.handleChangeRole p uid role = Await q k ∧
     (∀ status body (c : config C) i m,
        WorkspaceSettingsPage.members (its_state c) !! i = Some m →
        ∃ m', WorkspaceSettingsPage.members (its_state (exec (C:=C) (k (Ok (status, body))) c)) !! i = Some m' ∧
          (if strict_eq (opt_field m "userId") uid then opt_field m' "role" = JStr role else m' = m)) ∧
     ∀ e (c : config C), exec (C:=C) (k (Throw e)) c = c) ∧
  (trim (WorkspaceSettingsPage.newEmail s) ≠ "" →
   ∃ (q : api (Z * string)) (k : reply → prog (state C) (output C)), WorkspaceSettingsPage.handleAddMember p s = Await q k ∧
     (∀ status body (c : config C),
        WorkspaceSettingsPage.newEmail (its_state (exec (C:=C) (k (Ok (status, body))) c)) = "") ∧
     ∀ e (c : config C), exec (C:=C) (k (Throw e)) c = c) ∧
  (∀ n, WorkspaceSettingsPage.wsName s = JStr n → trim n ≠ "" →
   ∃ (q : api (Z * string)) (k : reply → prog (state C) (output C)), WorkspaceSettingsPage.handleSaveName p s = seq (WorkspaceSettingsPage.setSaving true) (Await q k) ∧
     ∀ r (c : config C), exec (C:=C) (k r) c = exec (C:=C) (WorkspaceSettingsPage.setSaving false) c).
Proof.
  intros C Hp. split_and!.
  - unfold WorkspaceSettingsPage.handleRemoveMember. rewrite Hp. eexists. split_and!; [reflexivity| |done].
    intros status body c m. cbn. rewrite list_elem_of_filter. unfold WorkspaceSettingsPage.is_member. tauto.
  - unfold WorkspaceSettingsPage.handleChangeRole. rewrite Hp. eexists _, _. split_and!; [reflexivity| |done].
    intros status body c i m Hm. cbn. rewrite list_lookup_fmap, Hm. eexists. split; [reflexivity|].
    unfold WorkspaceSettingsPage.with_role, WorkspaceSettingsPage.is_member.
    destruct (strict_eq _ _); [|done]. cbn [opt_field]. by rewrite assoc_set_same.
  - intros He. unfold WorkspaceSettingsPage.handleAddMember. rewrite Hp, bool_decide_false by done.
    eexists _, _. by split_and!.
  - intros n Hn He. unfold WorkspaceSettingsPage.handleSaveName. rewrite Hn. cbn [trim_of].
    rewrite Hp, bool_decide_false by done. eexists _, _. split_and!; [reflexivity|].
    by intros [[]|].
Qed.

Lemma refused_changes_shown_witness :
  let p := WorkspaceSettingsPage.mkProps (Some w1_token) in
  ∃ k : reply → prog (state WorkspaceSettingsPage.component) (output WorkspaceSettingsPage.component),
    WorkspaceSettingsPage.handleRemoveMember p (JStr "u1") =
      Await (WorkspaceSettingsPage.fetch p "DELETE" (WorkspaceSettingsPage.member_url p (JStr "u1")) None) k ∧
    JStr "u1" ∉ WorkspaceSettingsPage.members (its_state (exec (C:=WorkspaceSettingsPage.component)
      (k (Ok (403%Z, "{}"))) (mount WorkspaceSettingsPage.component p))).
Proof.
  intros p.
  destruct (refused_changes_shown p WorkspaceSettingsPage.initial (JStr "u1") "admin")
    as ((k & E & H & _) & _).
  - vm_compute. reflexivity.
  - exists k. split; [exact E|]. intros Hm. apply H in Hm as [Hm _]. vm_compute in Hm. inversion Hm.
Defined.

(** A session that the sessions page shows nowhere. *)
Definition lost (s : jsv) : bool :=
  negb (truthy (opt_field s "revoked")) &&
  match Number (opt_field s "expires_at") with NaN => true | _ => false end.

Lemma later_complement v now : match Number v with NaN => False | _ => True end →
  SessionsPage.not_later v now = negb (SessionsPage.later v now).
Proof.
  unfold SessionsPage.later, SessionsPage.not_later. destruct (Number v) as [|[]|m e]; [done..|].
  intros _. by rewrite Z.ltb_antisym, negb_involutive.
Qed.

Lemma filter_bool_cons {A} (f : A → bool) x l :
  filter (λ x, f x = true) (x :: l) =
  if f x then x :: filter (λ x, f x = true) l else filter (λ x, f x = true) l.
Proof. rewrite filter_cons. by destruct (f x). Qed.

Lemma filter_outcome_Ok {A} (f : A → outcome bool) (g : A → bool) l :
  Forall (λ x, f x = Ok (g x)) l → filter_outcome f l = Ok (filter (λ x, g x = true) l).
Proof.
  induction 1 as [|x l Hx _ IH]; [done|]. cbn [filter_outcome]. rewrite Hx, filter_bool_cons.
  cbn [mbind outcome_bind]. rewrite IH. by destruct (g x).
Qed.

Lemma filter_outcome_Throw {A} (f : A → outcome bool) l :
  Exists (λ x, ∃ e, f x = Throw e) l → ∃ e, filter_outcome f l = Throw e.
Proof.
  induction 1 as [x l [e Hx]|x l _ [e IH]]; cbn; [rewrite Hx; by eexists|].
  destruct (f x); [|by eexists]. cbn. rewrite IH. by eexists.
Qed.

(** When every session can be read, the active sessions and the
    expired or revoked ones of the sessions page make up all the sessions, each in one of
    the lists only, except for those which are not revoked and whose expiry is no number:
    they are in neither list.  A null among the sessions, or sessions that are no array,
    take the whole page away. *)
Theorem sessions_partition engine_message (p : SessionsPage.props) (s : SessionsPage.state) :
  (∀ l, SessionsPage.sessions s = JArr l → Forall (λ x, is_nullish x = false) l →
     ∃ a r, SessionsPage.active (SessionsPage.now p) s = Ok a ∧
       SessionsPage.revoked (SessionsPage.now p) s = Ok r ∧
       a ++ r ++ filter (λ x, lost x = true) l ≡ₚ l ∧
       (∀ x, x ∈ r → truthy (opt_field x "revoked") = true ∨
               SessionsPage.later (opt_field x "expires_at") (SessionsPage.now p) = false)) ∧
  ((∀ l, SessionsPage.sessions s = JArr l → Exists (λ x, is_nullish x = true) l) →
     view (SessionsPage.component engine_message) p s = Nothing).
Proof.
  set (now := SessionsPage.now p). split.
  - intros l Hl Hf.
    set (g := λ x, negb (truthy (opt_field x "revoked")) && SessionsPage.later (opt_field x "expires_at") now).
    set (h := λ x, truthy (opt_field x "revoked") || SessionsPage.not_later (opt_field x "expires_at") now).
    exists (filter (λ x, g x = true) l), (filter (λ x, h x = true) l).
    unfold SessionsPage.active, SessionsPage.revoked. rewrite Hl. cbn [array_of mbind outcome_bind].
    split_and!.
    + apply filter_outcome_Ok. apply (Forall_impl _ _ _ Hf). intros x Hx.
      unfold SessionsPage.is_active, field. by rewrite Hx.
    + apply filter_outcome_Ok. apply (Forall_impl _ _ _ Hf). intros x Hx.
      unfold SessionsPage.is_revoked, field. by rewrite Hx.
    + clear Hl Hf. induction l as [|x l IH]; [done|]. rewrite !filter_bool_cons.
      assert ((g x = true ∧ h x = false ∧ lost x = false) ∨ (g x = false ∧ h x = true ∧ lost x = false) ∨
              (g x = false ∧ h x = false ∧ lost x = true)) as Hx.
      { unfold g, h, lost. destruct (truthy _); [tauto|]. cbn [negb andb orb].
        destruct (Number (opt_field x "expires_at")) eqn:E;
          [unfold SessionsPage.later, SessionsPage.not_later; rewrite E; tauto|..];
          rewrite later_complement by (by rewrite E); destruct (SessionsPage.later _ _); tauto. }
      destruct Hx as [(-> & -> & ->)|[(-> & -> & ->)|(-> & -> & ->)]]; cbn [app]; [by rewrite IH| |].
      * cbn [app]. by rewrite <- Permutation_middle, IH.
      * rewrite app_assoc, <- Permutation_middle, <- app_assoc. by rewrite IH.
    + intros x [Hx _]%list_elem_of_filter. unfold h in Hx.
      destruct (truthy _); [by left|]. right. cbn in Hx. 
      unfold SessionsPage.later. unfold SessionsPage.not_later in Hx.
      destruct (Number _) as [|[]|m e]; [done..|]. lia.
  - intros Hn. cbn. unfold SessionsPage.render, SessionsPage.active.
    destruct (SessionsPage.sessions s) as [| | | | |l|]; try done.
    cbn [array_of mbind outcome_bind].
    destruct (filter_outcome_Throw (SessionsPage.is_active (SessionsPage.now p)) l) as [e ->]; [|done].
    apply (Exists_impl _ _ _ (Hn l eq_refl)). intros x Hx. exists TypeError.
    unfold SessionsPage.is_active, field. by rewrite Hx.
Qed.

(** Someone who comes to the welcome page with an invitation's
    token in the address, and no token stored yet: the page stores the token and takes it
    out of the address, but has nothing in flight and changes no state, so that it goes on
    showing that the session is invalid, although the guard lets them stay.  Rendered
    again, the page would welcome them. *)
Theorem welcome_needs_reload (p : WelcomePage.props) (t slug email : string) (claims : workspace_claims) :
  given_token (WelcomePage.authToken p) = None → WelcomePage.search_token p = Some t → t ≠ "" →
  getWorkspaceClaims (Some t) = Some claims → wslug claims = JStr slug → slug ≠ "" →
  opt_field (decodeJWTPayload t) "sub" = JStr email →
  let C := WelcomePage.component in
  let c := mount C p in
  emitted c = [WelcomePage.Store (setItem "authToken" t); WelcomePage.DropToken] ∧
  (∀ c', rtc step c c' → pending c' = [] ∧
     (its_props c' = p → texts (view C (its_props c') (its_state c')) =
        ["Invalid or expired invite session."; "Go to Login"])) ∧
  (∀ pg, localStorage pg !! "authToken" = Some t → UserAuthGuard pg = (pg, Ok tt)) ∧
  take 1 (texts (view C (WelcomePage.mkProps (Some t) None) tt)) = ["Welcome to " +:+ slug +:+ "!"].
Proof.
  intros Hg Ht Hne Hc Hs Hsl He C c. split_and!.
  - unfold c. cbn. unfold WelcomePage.storeToken. rewrite Ht. unfold given_token.
    by rewrite decide_False.
  - assert (∀ c' : config C, rtc step c c' → pending c' = []) as Hp.
    { apply (rtc_ind_r (λ c', pending c' = [])).
      - unfold c, mount. cbn [on_mount effect C WelcomePage.component].
        unfold WelcomePage.storeToken. rewrite Ht. cbn [given_token]. by rewrite decide_False.
      - intros c1 c2 _ Hstep H. destruct Hstep as [c1 e _|c1 l1 A a k l2 r E|c1 p'|c1 p']; try done.
        rewrite E in H. by destruct l1. }
    intros c' Hr. split; [by apply Hp|]. intros ->. cbn. unfold WelcomePage.render. by rewrite Hg.
  - intros pg Hpg. rewrite UserAuthGuard_run, Hpg. unfold app_target, falsy_string.
    by rewrite bool_decide_false, Hc.
  - cbn. unfold WelcomePage.render. cbn [WelcomePage.authToken given_token].
    rewrite decide_False by done. rewrite Hc, Hs, He.
    assert (falsy_or (JStr slug) (JStr "your workspace") = JStr slug) as ->.
    { unfold falsy_or. cbn [truthy]. by rewrite bool_decide_false. }
    done.
Qed.

(** A token that names its bearer. *)
Definition invited_token : string :=
  encode_token "e30" (JObj [("sub", JStr "a@b.c"); ("wid", JStr "w1"); ("wslug", JStr "acme")]) "sig".

Lemma welcome_needs_reload_witness :
  texts (view WelcomePage.component (WelcomePage.mkProps None (Some invited_token)) tt) =
    ["Invalid or expired invite session."; "Go to Login"].
Proof.
  destruct (welcome_needs_reload (WelcomePage.mkProps None (Some invited_token)) invited_token
    "acme" "a@b.c" (default (mkClaims JNull JNull JNull) (getWorkspaceClaims (Some invited_token))))
    as (_ & H & _).
  - reflexivity.
  - reflexivity.
  - vm_compute. discriminate.
  - vm_compute. reflexivity.
  - vm_compute. reflexivity.
  - discriminate.
  - vm_compute. reflexivity.
  - exact (proj2 (H (mount WelcomePage.component (WelcomePage.mkProps None (Some invited_token)))
      (rtc_refl _ _)) eq_refl).
Defined.
