(* ===== verification/AccountPages.v ===== *)
(** * Signing in, choosing a workspace and signing up

    [src/pages/Login.tsx], [src/pages/workspaces/WorkspaceSelectorPage.tsx],
    [src/pages/workspaces/WorkspaceCreatePage.tsx] and [src/pages/signup]: what the pages
    show and ask for.  Where a token leads is in [Guards], what becomes of the sign-up
    after the identity provider in [Signup].  The token is read from local storage when a
    handler runs. *)
From S2P Require Import Prelude JsString Json Jwt Uri Slug Storage Proxy Client Ui Async Dynamic.
From S2P Require Import SettingsPages UserPages Signup.
From Stdlib Require Import ZArith.

(** The constant [CONTROLLER_URL], and [window.location.origin]. *)
Record site := mkSite { CONTROLLER_URL : string; origin : string }.

(** [src/pages/Login.tsx] *)
Module LoginPage.
Record props := mkProps { search_token : option string }.
Inductive output := Store (op : M storage unit) | Go (to : navigation) | Location (url : string).
Inductive event :=
  | TypeSlug (v : string) | TypeEmail (v : string) | SubmitSlug | SubmitEmail
  | SelectNetwork (slug : jsv) | SearchAgain | ByEmail | BySlug.
Inductive lookup_mode := slug_mode | email_mode.

Record state := mkState {
  mode : lookup_mode;
  slug : string;
  email : string;
  error : string;
  loading : bool;
  emailResults : jsv }.
Definition setMode (v : lookup_mode) : prog state output :=
  set (λ s, mkState v (slug s) (email s) (error s) (loading s) (emailResults s)).
Definition setSlug (v : string) : prog state output :=
  set (λ s, mkState (mode s) v (email s) (error s) (loading s) (emailResults s)).
Definition setEmail (v : string) : prog state output :=
  set (λ s, mkState (mode s) (slug s) v (error s) (loading s) (emailResults s)).
Definition setError (v : string) : prog state output :=
  set (λ s, mkState (mode s) (slug s) (email s) v (loading s) (emailResults s)).
Definition setLoading (v : bool) : prog state output :=
  set (λ s, mkState (mode s) (slug s) (email s) (error s) v (emailResults s)).
Definition setEmailResults (v : jsv) : prog state output :=
  set (λ s, mkState (mode s) (slug s) (email s) (error s) (loading s) v).

Definition initial : state := mkState slug_mode "" "" "" false JNull.

(** The effect: where a token in the address leads. *)
Definition landing (p : props) : prog state output :=
  match given_token (search_token p) with
  | None => Done
  | Some t =>
      steps
        [emit (Store (setItem "authToken" t));
         emit (Go (Replace
           match getWorkspaceClaims (Some t) with
           | None => "/workspaces"
           | Some claims => if is_str (wrole claims) "member" then "/app" else "/dashboard/groups"
           end))]
  end.

Section Site.
  Context (here : site).

Definition login_url : string :=
  CONTROLLER_URL here +:+ "/oauth/google/login?return_to=" +:+ encodeURIComponent (origin here).

Definition lookup_url (key value : string) : string :=
  API_BASE +:+ "/workspaces/lookup?" +:+ key +:+ "=" +:+ encodeURIComponent (toLowerCase (trim value)).

Definition handleSlugSubmit (s : state) : prog state output :=
  when (negb (bool_decide (trim (slug s) = "")))
    (steps
      [setError "";
       setLoading true;
       Await (Fetch "GET" (lookup_url "slug" (slug s)) None None) (λ r, steps
         [match json_of r ≫= (λ data, field data "exists") with
          | Throw _ => setError "Failed to look up network. Please try again."
          | Ok v =>
              if truthy v then emit (Location login_url)
              else setError "Network not found. Check the URL and try again."
          end;
          setLoading false])]).

(** [v.length > 0] of something that is not falsy. *)
Definition has_items (v : jsv) : bool :=
  match v with
  | JArr l => negb (bool_decide (length l = 0))
  | JStr s => negb (bool_decide (s = ""))
  | JObj _ => match Number (opt_field v "length") with
              | NaN => false
              | Infinity negative => negb negative
              | Dec m _ => (0 <? m)%Z
              end
  | _ => false
  end.

Definition handleEmailSubmit (s : state) : prog state output :=
  when (negb (bool_decide (trim (email s) = "")))
    (steps
      [setError "";
       setEmailResults JNull;
       setLoading true;
       Await (Fetch "GET" (lookup_url "email" (email s)) None None) (λ r, steps
         [match json_of r ≫= (λ data, field data "networks") with
          | Throw _ => setError "Failed to look up email. Please try again."
          | Ok v =>
              if truthy v && has_items v then setEmailResults v
              else setError "No networks found for this email address."
          end;
          setLoading false])]).

(** The network that was chosen is not used. *)
Definition handleNetworkSelect (networkSlug : jsv) : prog state output :=
  emit (Location login_url).

Definition error_text (s : state) : ui event :=
  show_if (negb (bool_decide (error s = ""))) (Text (error s)).

Definition row (network : jsv) : outcome (ui event) :=
  networkSlug ← field network "slug";
  name ← shown_field network "name";
  shown_slug ← shown networkSlug;
  Ok (Button (name +:+ " " +:+ shown_slug +:+ ".zerotrust.com") false (SelectNetwork networkSlug)).

Definition forms (s : state) : ui event :=
  match mode s with
  | slug_mode =>
      Box [Input "Network URL" (slug s) false TypeSlug; error_text s;
           Button (if loading s then "Looking up..." else "Sign In")
             (loading s || bool_decide (trim (slug s) = "")) SubmitSlug;
           Button "Look up your Network by email" false ByEmail]
  | email_mode =>
      Box [Input "Email address" (email s) false TypeEmail;
           Text "We'll find the networks associated with your email"; error_text s;
           Button (if loading s then "Looking up..." else "Look Up Network")
             (loading s || bool_decide (trim (email s) = "")) SubmitEmail;
           Button "Enter your Network URL" false BySlug]
  end.

Definition results (s : state) : outcome (ui event) :=
  l ← array_of (emailResults s);
  rows ← map_outcome row l;
  Ok (Box [Text ("Networks for " +:+ email s); Text "Select a network to sign in"; Box rows;
           Button "Search again" false SearchAgain]).

Definition render (s : state) : outcome (ui event) :=
  body ← (if truthy (emailResults s) then results s else Ok (forms s));
  Ok (Box [Text "Welcome to ZTNA"; Text "Sign in to an existing Network"; body;
           Text "Don't have a network?"; Link "/signup" [Text "Create one"]]).

Definition on (s : state) (e : event) : prog state output :=
  match e with
  | TypeSlug v => steps [setSlug (clean_slug v); setError ""]
  | TypeEmail v => steps [setEmail v; setError ""]
  | SubmitSlug => handleSlugSubmit s
  | SubmitEmail => handleEmailSubmit s
  | SelectNetwork networkSlug => handleNetworkSelect networkSlug
  | SearchAgain => steps [setEmailResults JNull; setError ""]
  | ByEmail => steps [setMode email_mode; setError ""]
  | BySlug => steps [setMode slug_mode; setError ""]
  end.

Definition component : component :=
  mkComponent props state event output (λ _, initial) (λ _ s, or_crash (render s)) (λ _, on)
    (λ p _, landing p) (λ _ _, True) (λ _ _, Done).
End Site.

#[global] Hint Unfold setMode setSlug setEmail setError setLoading setEmailResults landing
  login_url lookup_url handleSlugSubmit handleEmailSubmit handleNetworkSelect error_text row
  forms results render : ui.
End LoginPage.

(** [src/pages/workspaces/WorkspaceSelectorPage.tsx] *)
Module WorkspaceSelectorPage.
Record props := mkProps { authToken : option string }.
Inductive output := Store (op : M storage unit) | Go (to : navigation).
Inductive event := SelectWorkspace (ws : jsv) | CreateNew.

Record state := mkState {
  workspaces : list jsv;
  loading : bool }.
Definition setWorkspaces (v : list jsv) : prog state output :=
  set (λ s, mkState v (loading s)).
Definition setLoading (v : bool) : prog state output :=
  set (λ s, mkState (workspaces s) v).

Definition initial : state := mkState [] true.

Definition loadWorkspaces (p : props) : prog state output :=
  match given_token (authToken p) with
  | None => emit (Go (Replace "/login"))
  | Some t =>
      Await (Fetch "GET" (API_BASE +:+ "/workspaces") (Some t) None) (λ r,
        match json_of r with
        | Throw _ => setLoading false
        | Ok data => steps [setWorkspaces (array_or_empty data); setLoading false]
        end)
  end.

(** Where the token of a workspace leads; a token that is no string has no claims. *)
Definition landing (token : jsv) : string :=
  match token with
  | JStr t =>
      match getWorkspaceClaims (Some t) with
      | Some claims => if is_str (wrole claims) "member" then "/app" else "/dashboard"
      | None => "/dashboard"
      end
  | _ => "/dashboard"
  end.

Definition selectWorkspace (p : props) (ws : jsv) : prog state output :=
  match given_token (authToken p) with
  | None => Done
  | Some t =>
      Await (Fetch "POST" (API_BASE +:+ "/workspaces/" +:+ to_string (opt_field ws "id") +:+ "/select")
               (Some t) None)
        (λ r,
           match json_of r ≫= (λ data, field data "token") with
           | Throw _ => Done
           | Ok token =>
               when (truthy token)
                 (steps [emit (Store (setItem "authToken" (to_string token)));
                         emit (Go (Replace (landing token)))])
           end)
  end.

Definition row (ws : jsv) : outcome (ui event) :=
  _ ← field ws "id";
  name ← shown_field ws "name";
  role ← shown (falsy_or (opt_field ws "role") (JStr "member"));
  slug ← shown_field ws "slug";
  Ok (Button (name +:+ " " +:+ role +:+ " " +:+ slug +:+ ".zerotrust.com") false (SelectWorkspace ws)).

Definition render (s : state) : outcome (ui event) :=
  if loading s then Ok (Text "Loading workspaces...")
  else
    rows ← map_outcome row (workspaces s);
    Ok (Box
      [Text "Select Workspace"; Text "Choose a workspace to continue";
       match workspaces s with
       | [] => Text "You don't have any workspaces yet. Create one to get started."
       | _ => Box rows
       end;
       Button "Create New Workspace" false CreateNew]).

Definition on (p : props) (e : event) : prog state output :=
  match e with
  | SelectWorkspace ws => selectWorkspace p ws
  | CreateNew => emit (Go (Navigate "/workspaces/create"))
  end.

Definition component : component :=
  mkComponent props state event output (λ _, initial) (λ _ s, or_crash (render s)) (λ p _, on p)
    (λ p _, loadWorkspaces p) (λ _ _, True) (λ _ _, Done).

#[global] Hint Unfold setWorkspaces setLoading loadWorkspaces landing selectWorkspace row render
  : ui.
End WorkspaceSelectorPage.

(** [src/pages/workspaces/WorkspaceCreatePage.tsx] *)
Module WorkspaceCreatePage.
Record props := mkProps { authToken : option string }.
Inductive output := Store (op : M storage unit) | Go (to : navigation).
Inductive event := TypeName (v : string) | TypeSlug (v : string) | Submit | Leave.

Record state := mkState {
  name : string;
  slug : string;
  slugEdited : bool;
  error : string;
  submitting : bool }.
Definition setName (v : string) : prog state output :=
  set (λ s, mkState v (slug s) (slugEdited s) (error s) (submitting s)).
Definition setSlug (v : string) : prog state output :=
  set (λ s, mkState (name s) v (slugEdited s) (error s) (submitting s)).
Definition setSlugEdited (v : bool) : prog state output :=
  set (λ s, mkState (name s) (slug s) v (error s) (submitting s)).
Definition setError (v : string) : prog state output :=
  set (λ s, mkState (name s) (slug s) (slugEdited s) v (submitting s)).
Definition setSubmitting (v : bool) : prog state output :=
  set (λ s, mkState (name s) (slug s) (slugEdited s) (error s) v).

Definition initial : state := mkState "" "" false "" false.

Definition handleNameChange (s : state) (v : string) : prog state output :=
  steps [setName v; when (negb (slugEdited s)) (setSlug (nameToSlug v))].
Definition handleSlugChange (v : string) : prog state output :=
  steps [setSlugEdited true; setSlug (clean_slug v)].

Definition body (s : state) : jsv := JObj [("name", JStr (trim (name s))); ("slug", JStr (slug s))].

Section Engine.
  Context (engine_message : js_error → string).

Definition failed (m : string) : prog state output := steps [setError m; setSubmitting false].

(** [handleSubmit] after its [await]. *)
Definition created (r : outcome (Z * string)) : prog state output :=
  match r with
  | Throw e => failed (error_message engine_message e)
  | Ok (status, text) =>
      if negb (ok_status status) then failed (or_else text "Failed to create workspace")
      else
        match parse text ≫= (λ data, field data "token") with
        | Throw e => failed (error_message engine_message e)
        | Ok token =>
            steps [when (truthy token) (emit (Store (setItem "authToken" (to_string token))));
                   emit (Go (Replace "/dashboard"))]
        end
  end.

(** Without a token the page leaves and stays [submitting], as it does on success. *)
Definition handleSubmit (p : props) (s : state) : prog state output :=
  steps
    [setError "";
     setSubmitting true;
     match given_token (authToken p) with
     | None => emit (Go (Replace "/login"))
     | Some t =>
         Await (Fetch "POST" (API_BASE +:+ "/workspaces") (Some t) (stringify (body s))) created
     end].

Definition render (s : state) : ui event :=
  Box [Button "Back" false Leave; Text "Create Workspace"; Text "Set up a new workspace";
       Input "Workspace Name" (name s) false TypeName;
       Input "Slug" (slug s) false TypeSlug;
       Text ("Trust domain: " +:+ or_else (slug s) "..." +:+ ".zerotrust.com");
       show_if (negb (bool_decide (error s = ""))) (Text (error s));
       Button (if submitting s then "Creating..." else "Create Workspace")
         (submitting s || bool_decide (trim (name s) = "") || bool_decide (slug s = "")) Submit].

Definition on (p : props) (s : state) (e : event) : prog state output :=
  match e with
  | TypeName v => handleNameChange s v
  | TypeSlug v => handleSlugChange v
  | Submit => handleSubmit p s
  | Leave => emit (Go (Navigate "/workspaces"))
  end.

Definition component : component :=
  mkComponent props state event output (λ _, initial) (λ _, render) on
    (λ _ _, Done) (λ _ _, True) (λ _ _, Done).
End Engine.

#[global] Hint Unfold setName setSlug setSlugEdited setError setSubmitting handleNameChange
  handleSlugChange body failed created handleSubmit render : ui.
End WorkspaceCreatePage.

(** ** Signing up

    The pages share the state of [SignupContext.tsx], which is what [sessionStorage] had
    in it: dynamic values ([Signup.fields]). *)
Record signup_props := mkSignup { context : fields; attempt : string; here : site }.

(** [state.k] *)
Definition signup_field (p : signup_props) (k : string) : jsv := opt_field (JObj (context p)) k.

(** [updateState(partial)], the navigations, [navigate(-1)] and the way out to the
    identity provider. *)
Inductive signup_output :=
  | UpdateState (partial : fields) | Go (to : navigation) | GoBack | Location (url : string).

(** The effect of the last two pages: the earlier ones have not been filled in. *)
Definition require_network (p : signup_props) : prog unit signup_output :=
  when (negb (truthy (signup_field p "email")) || negb (truthy (signup_field p "networkName")))
    (emit (Go (Replace "/signup"))).

(** [src/pages/signup/SignupPage.tsx] *)
Module SignupPage.
Abbreviation props := signup_props.
Abbreviation output := signup_output.
Inductive event := TypeEmail (v : string) | PickUseCase (v : string) | Submit.

Record state := mkState {
  email : jsv;
  useCase : jsv }.
Definition setEmail (v : jsv) : prog state output :=
  set (λ s, mkState v (useCase s)).
Definition setUseCase (v : jsv) : prog state output :=
  set (λ s, mkState (email s) v).

Definition initial (p : props) : state := mkState (signup_field p "email") (signup_field p "useCase").

Definition handleSubmit (s : state) : prog state output :=
  when (truthy (email s) && truthy (useCase s))
    (steps
      [emit (UpdateState [("email", email s); ("useCase", useCase s)]);
       emit (Go (Navigate "/signup/customize"))]).

Definition render (s : state) : ui event :=
  Box [Text "Create your Network"; Text "Set up your organization's zero-trust network";
       Input "Email address" (input_value (email s)) false TypeEmail;
       Text "How will you use ZTNA?";
       Button "At home" false (PickUseCase "home"); Button "At work" false (PickUseCase "work");
       Button "Get Started" (negb (truthy (email s)) || negb (truthy (useCase s))) Submit;
       Text "Already have an account?"; Link "/login" [Text "Sign in"]].

Definition on (s : state) (e : event) : prog state output :=
  match e with
  | TypeEmail v => setEmail (JStr v)
  | PickUseCase v => setUseCase (JStr v)
  | Submit => handleSubmit s
  end.

Definition component : component :=
  mkComponent props state event output initial (λ _, render) (λ _, on)
    (λ _ _, Done) (λ _ _, True) (λ _ _, Done).

#[global] Hint Unfold setEmail setUseCase handleSubmit render : ui.
End SignupPage.

(** [src/pages/signup/SignupCustomizePage.tsx] *)
Module SignupCustomizePage.
Abbreviation props := signup_props.
Abbreviation output := signup_output.
Inductive event :=
  | TypeName (v : string) | TypeSlug (v : string) | PickTeamSize (v : string) | Back | Submit.

Record state := mkState {
  name : jsv;
  slug : jsv;
  slugEdited : bool;
  teamSize : jsv }.
Definition setName (v : jsv) : prog state output :=
  set (λ s, mkState v (slug s) (slugEdited s) (teamSize s)).
Definition setSlug (v : jsv) : prog state output :=
  set (λ s, mkState (name s) v (slugEdited s) (teamSize s)).
Definition setSlugEdited (v : bool) : prog state output :=
  set (λ s, mkState (name s) (slug s) v (teamSize s)).
Definition setTeamSize (v : jsv) : prog state output :=
  set (λ s, mkState (name s) (slug s) (slugEdited s) v).

(** What was entered before is there again, but not that the slug was edited. *)
Definition initial (p : props) : state :=
  mkState (signup_field p "networkName") (signup_field p "networkSlug") false
    (signup_field p "teamSize").

Definition teamSizes : list (string * string) :=
  [("just-me", "Just me"); ("2-10", "2-10"); ("11-50", "11-50"); ("51-200", "51-200");
   ("200+", "200+")].

Definition require_email (p : props) : prog state output :=
  when (negb (truthy (signup_field p "email"))) (emit (Go (Replace "/signup"))).

Definition handleNameChange (s : state) (v : string) : prog state output :=
  steps [setName (JStr v); when (negb (slugEdited s)) (setSlug (JStr (nameToSlug v)))].
Definition handleSlugChange (v : string) : prog state output :=
  steps [setSlugEdited true; setSlug (JStr (clean_slug v))].

Definition handleSubmit (p : props) (s : state) : prog state output :=
  match trim_of (name s) with
  | Throw _ => Done
  | Ok trimmed =>
      when (negb (bool_decide (trimmed = "")) && truthy (slug s))
        (steps
          [emit (UpdateState
             [("networkName", JStr trimmed); ("networkSlug", slug s);
              ("attemptId", JStr (attempt p)); ("teamSize", teamSize s)]);
           emit (Go (Navigate "/signup/finalize"))])
  end.

Definition render (p : props) (s : state) : outcome (ui event) :=
  trimmed ← trim_of (name s);
  host ← shown (falsy_or (slug s) (JStr "..."));
  Ok (Box
    [Text "Customize your Network"; Text "Choose a name and URL for your organization's network";
     Input "Network Name" (input_value (name s)) false TypeName;
     Input "Network URL" (input_value (slug s)) false TypeSlug;
     Text ("Your network: " +:+ host +:+ ".zerotrust.com");
     show_if (is_str (signup_field p "useCase") "work")
       (Select "Team Size" (input_value (teamSize s)) false teamSizes PickTeamSize);
     Button "Back" false Back;
     Button "Continue" (bool_decide (trimmed = "") || negb (truthy (slug s))) Submit]).

Definition on (p : props) (s : state) (e : event) : prog state output :=
  match e with
  | TypeName v => handleNameChange s v
  | TypeSlug v => handleSlugChange v
  | PickTeamSize v => setTeamSize (JStr v)
  | Back => emit GoBack
  | Submit => handleSubmit p s
  end.

Definition component : component :=
  mkComponent props state event output initial (λ p s, or_crash (render p s)) on
    (λ _ _, Done) (λ p p', signup_field p "email" = signup_field p' "email")
    (λ p _, require_email p).

#[global] Hint Unfold setName setSlug setSlugEdited setTeamSize teamSizes require_email
  handleNameChange handleSlugChange handleSubmit render : ui.
End SignupCustomizePage.

(** [src/pages/signup/SignupFinalizePage.tsx] *)
Module SignupFinalizePage.
Inductive event := Back | Continue.

Definition render (p : signup_props) : outcome (ui event) :=
  name ← shown (signup_field p "networkName");
  slug ← shown (signup_field p "networkSlug");
  Ok (Box
    [Text "Confirm your Network"; Text "Review your organization's network details before creating";
     Text "Network Name"; Text name; Text "Network URL"; Text (slug +:+ ".zerotrust.com");
     Text "Your organization's network name and URL cannot be changed after creation.";
     Button "Back" false Back; Button "Go to your Network" false Continue]).

Definition on (e : event) : prog unit signup_output :=
  match e with
  | Back => emit GoBack
  | Continue => emit (Go (Navigate "/signup/auth"))
  end.

Definition component : component :=
  mkComponent signup_props unit event signup_output (λ _, tt) (λ p _, or_crash (render p))
    (λ _ _, on) (λ _ _, Done)
    (λ p p', signup_field p "email" = signup_field p' "email" ∧
             signup_field p "networkName" = signup_field p' "networkName")
    (λ p _, require_network p).

#[global] Hint Unfold render : ui.
End SignupFinalizePage.

(** [src/pages/signup/SignupAuthPage.tsx] *)
Module SignupAuthPage.
Inductive event := OAuth (provider : string).

(** [params]; what is no string is converted to one. *)
Definition oauth_params (p : signup_props) : list (string * string) :=
  [("flow", "signup"); ("ws_name", to_string (signup_field p "networkName"));
   ("ws_slug", to_string (signup_field p "networkSlug"));
   ("signup_id", to_string (signup_field p "attemptId")); ("return_to", origin (here p))].

Definition handleOAuth (p : signup_props) (provider : string) : prog unit signup_output :=
  emit (Location (CONTROLLER_URL (here p) +:+ "/oauth/" +:+ provider +:+ "/login?" +:+
                  serialize (oauth_params p))).

Definition render : ui event :=
  Box [Text "Choose a Sign in Method"; Text "Select how you'll authenticate with your network";
       Button "Continue with Google" false (OAuth "google");
       Button "Continue with GitHub" false (OAuth "github");
       Button "Continue with Microsoft Coming soon" true (OAuth "");
       Button "Continue with LinkedIn Coming soon" true (OAuth "");
       Text "Want to use an Identity Provider? After your initial sign in, you can connect your Identity Provider and use it for authentication."].

Definition on (p : signup_props) (e : event) : prog unit signup_output :=
  match e with OAuth provider => handleOAuth p provider end.

Definition component : component :=
  mkComponent signup_props unit event signup_output (λ _, tt) (λ _ _, render) (λ p _, on p)
    (λ _ _, Done)
    (λ p p', signup_field p "email" = signup_field p' "email" ∧
             signup_field p "networkName" = signup_field p' "networkName")
    (λ p _, require_network p).

#[global] Hint Unfold oauth_params handleOAuth render : ui.
End SignupAuthPage.

(** [src/pages/signup/SignupLayout.tsx]: of the four dots, those up to the page are filled. *)
Module SignupLayout.
Definition steps : list string := ["/signup"; "/signup/customize"; "/signup/finalize"; "/signup/auth"].

Definition currentStep (pathname : string) : nat :=
  default 0 (fst <$> list_find (λ s, s = pathname) steps).

Definition filled (pathname : string) : list bool :=
  imap (λ i _, bool_decide (i ≤ currentStep pathname)) steps.
End SignupLayout.
