(* ===== verification/AccountProps.v ===== *)
(** * Signing in and signing up: what is shown, asked for and passed on *)
From stdpp Require Import relations gmap.
From S2P Require Import Prelude JsString Json Jwt Uri Slug Storage Browser Signup Client Ui Async.
From S2P Require Import Dynamic Loading SettingsPages UserPages AccountPages.
From Stdlib Require Import ZArith Lia.

(** ** The state of the sign-up *)

(** What the customize page passes on. *)
Definition network_fields (name slug teamSize : jsv) (attempt : string) : fields :=
  [("networkName", name); ("networkSlug", slug); ("attemptId", JStr attempt); ("teamSize", teamSize)].

Lemma merged_field ctx name slug team att attempt here k :
  signup_field (mkSignup (merge ctx (network_fields name slug team att)) attempt here) k =
  if decide (k = "networkName") then name
  else if decide (k = "networkSlug") then slug
  else if decide (k = "attemptId") then JStr att
  else if decide (k = "teamSize") then team
  else opt_field (JObj ctx) k.
Proof.
  unfold signup_field, merge, network_fields. cbn [context opt_field foldl fst snd].
  rewrite !assoc_assoc_set. by repeat case_decide; subst.
Qed.

(** The value of a parameter. *)
Definition query_value (k : string) (q : string) : option string :=
  match parse_query q with
  | Some l => snd <$> find_row (λ kv, bool_decide (kv.1 = k)) l
  | None => None
  end.

(** What the address leads back with, if it carries the parameters on. *)
Definition returned (t q : string) : search_params :=
  mkParams (Some t) (query_value "ws_name" q) (query_value "ws_slug" q) (query_value "signup_id" q).

Lemma captured t n sl att pg : t ≠ "" → n ≠ "" → sl ≠ "" → att ≠ "" →
  sessionStorage pg !! (SIGNUP_PROCESS_PREFIX +:+ att) = None →
  requests (state_of (token_capture (mkParams (Some t) (Some n) (Some sl) (Some att))) pg) =
    requests pg ++ [mkRequest t (JStr n) (JStr sl) (SIGNUP_PROCESS_PREFIX +:+ att)].
Proof.
  intros Ht Hn Hs Ha Hp. unfold state_of, token_capture. cbn [token].
  rewrite bool_decide_false by done. unfold signup_details. cbn [js_of ws_name ws_slug signup_id].
  rewrite !falsy_or_str, !truthy_str by done. cbn [negb orb].
  unfold mbind, M_bind, local_set, modify, mret, M_ret. cbn [fst snd].
  rewrite !truthy_str by done. cbn [negb andb orb strict_eq].
  rewrite bool_decide_true by done. cbn [negb]. unfold processed_key. rewrite truthy_str by done.
  cbn [to_string]. unfold session_get, gets. cbn [sessionStorage set_local].
  rewrite Hp. cbn. done.
Qed.

(** ** Signing in *)

(** What [fetch] gives. *)
Abbreviation reply := (outcome (Z * string)).

Definition every_call A (a : api A) : bool := true.

(** The controls of the results choose a network or search again. *)
Lemma rows_offer {E} (f : jsv → outcome (ui E)) l rows e : map_outcome f l = Ok rows →
  foldr (λ u P, offered u e ∨ P) False rows → ∃ x u, x ∈ l ∧ f x = Ok u ∧ offered u e.
Proof.
  revert rows. induction l as [|x l IH]; intros rows Hm He; cbn in Hm.
  { injection Hm as <-. done. }
  destruct (f x) as [u|] eqn:E1; [|done]. cbn in Hm. destruct (map_outcome f l) as [us|]; [|done].
  injection Hm as <-. cbn in He. destruct He as [He|He].
  - exists x, u. split_and!; [by left|done|done].
  - destruct (IH us eq_refl He) as (y & v & Hy & Hv). exists y, v. by split; [right|].
Qed.

Lemma login_view s e : offered (or_crash (LoginPage.render s)) e →
  (∃ networkSlug, e = LoginPage.SelectNetwork networkSlug) ∨ e = LoginPage.SearchAgain ∨
  (truthy (LoginPage.emailResults s) = false ∧ offered (LoginPage.forms s) e).
Proof.
  unfold LoginPage.render. destruct (truthy (LoginPage.emailResults s)) eqn:Et.
  - unfold LoginPage.results. destruct (array_of _) as [l|]; [|done]. cbn [mbind outcome_bind].
    destruct (map_outcome LoginPage.row l) as [rows|] eqn:Em; [|done]. cbn.
    intros [[]|[[]|[H|H]]]; [|tauto].
    destruct H as [[]|[[]|[H|[H|[]]]]]; [|by right; left; apply H].
    left. destruct (rows_offer _ _ _ _ Em H) as (x & u & _ & Hu & Ho).
    unfold LoginPage.row in Hu. destruct (field x "slug") as [sl|]; [|done]. cbn in Hu.
    destruct (shown_field x "name"); [|done]. cbn in Hu. destruct (shown sl); [|done].
    injection Hu as <-. destruct Ho as [_ ->]. by eexists.
  - cbn [or_crash mbind outcome_bind]. intros [[]|[[]|[H|[[]|[H|[]]]]]]; [tauto|].
    by cbn in H; destruct H.
Qed.

Lemma forms_idle s e : offered (LoginPage.forms s) e →
  e = LoginPage.SubmitSlug ∨ e = LoginPage.SubmitEmail → LoginPage.loading s = false.
Proof.
  intros Ho He. unfold LoginPage.forms, LoginPage.error_text, show_if, Nothing in Ho.
  destruct (LoginPage.mode s), (negb _), (LoginPage.loading s); cbn in Ho;
    naive_solver.
Qed.

(** What follows the reply of a lookup leaves the flag alone, and then takes it back. *)
Lemma lookup_orderly (X : prog LoginPage.state LoginPage.output) s :
  neutral LoginPage.loading every_call X →
  orderly LoginPage.loading every_call (seq (steps [X; LoginPage.setLoading false]) (steps [])) true s.
Proof. intros HX. apply seq_assoc, HX. intros s' _. right; right. done. Qed.

Lemma slugSubmit_orderly here s : LoginPage.loading s = false →
  orderly LoginPage.loading every_call (LoginPage.handleSlugSubmit here s) false s.
Proof.
  intros Hs. unfold LoginPage.handleSlugSubmit. destruct (negb _); [|done].
  left. split; [done|]. right; left. do 3 (split; [done|]). split; [done|]. intros r s' _.
  apply lookup_orderly. destruct (json_of r ≫= _) as [v|]; [destruct (truthy v)|]; neutral.
Qed.

Lemma emailSubmit_orderly s : LoginPage.loading s = false →
  orderly LoginPage.loading every_call (LoginPage.handleEmailSubmit s) false s.
Proof.
  intros Hs. unfold LoginPage.handleEmailSubmit. destruct (negb _); [|done].
  left. split; [done|]. left. split; [done|]. right; left. do 3 (split; [done|]).
  split; [done|]. intros r s' _. apply lookup_orderly.
  destruct (json_of r ≫= _) as [v|]; [destruct (truthy v && _)|]; neutral.
Qed.

#[export] Instance Login_form here : SubmitForm (LoginPage.component here).
Proof.
  refine (Build_SubmitForm (LoginPage.component here) LoginPage.loading every_call _ _ _ _); [done| | |done].
  - intros p s e Hoff. destruct (login_view _ _ Hoff) as [[ns ->]|[->|[_ Hf]]]; [done|orderly|].
    destruct e; try solve [orderly]; [apply slugSubmit_orderly|apply emailSubmit_orderly];
      (eapply forms_idle; [exact Hf|tauto]).
  - intros p s. apply neutral_orderly. change (neutral LoginPage.loading every_call (LoginPage.landing p)).
    unfold LoginPage.landing. destruct (given_token _); neutral.
Defined.

(** Where the login page sends the browser: to the identity provider. *)
Definition login_outputs here (o : LoginPage.output) : Prop :=
  match o with LoginPage.Location url => url = LoginPage.login_url here | _ => True end.

Lemma login_locations here (c : config (LoginPage.component here)) : reachable c →
  Forall (login_outputs here) (emitted c).
Proof.
  apply (reachable_emits (C:=LoginPage.component here)); [|done|].
  - intros p s. change (emits (login_outputs here) (LoginPage.landing p)).
    unfold LoginPage.landing. by destruct (given_token _).
  - intros p s e _. destruct e; try done; cbn [handle LoginPage.component LoginPage.on].
    + unfold LoginPage.handleSlugSubmit. apply emits_when. intros r. apply emits_seq; [|done].
      apply emits_seq; [|done].
      destruct (json_of r ≫= _) as [v|]; [by destruct (truthy v)|done].
    + unfold LoginPage.handleEmailSubmit. apply emits_when. intros r. apply emits_seq; [|done].
      apply emits_seq; [|done].
      by destruct (json_of r ≫= _) as [v|]; [destruct (truthy v && _)|].
Qed.

(** ** Creating a workspace *)

(** The continuation of a call that starts no other one. *)
Definition asks_nothing {C : component} (t : task (state C) (output C)) : Prop :=
  match t with Task _ k => ∀ r (c : config C), pending (exec (k r) c) = pending c end.

(** There is at most one request in flight, which then is the one that creates, and the
    page is submitting. *)
Definition creating engine_message (c : config (WorkspaceCreatePage.component engine_message)) : Prop :=
  pending c = [] ∨
  ∃ token body k, pending c = [Task (Fetch "POST" "/api/workspaces" token body) k] ∧
    asks_nothing (C:=WorkspaceCreatePage.component engine_message) (Task (Fetch "POST" "/api/workspaces" token body) k) ∧
    WorkspaceCreatePage.submitting (its_state c) = true.

Lemma created_pending em r (c : config (WorkspaceCreatePage.component em)) :
  pending (exec (C:=WorkspaceCreatePage.component em) (seq (WorkspaceCreatePage.created em r) Done) c) =
    pending c.
Proof.
  unfold WorkspaceCreatePage.created, WorkspaceCreatePage.failed.
  destruct r as [[st t]|]; [|done]. destruct (negb _); [done|].
  destruct (parse t ≫= _) as [v|]; [by destruct (truthy v)|done].
Qed.

Lemma create_view em p s : offered (view (WorkspaceCreatePage.component em) p s) WorkspaceCreatePage.Submit →
  WorkspaceCreatePage.submitting s = false.
Proof.
  intros Ho. destruct (WorkspaceCreatePage.submitting s) eqn:Es; [|done]. exfalso. revert Ho.
  cbn. rewrite Es. unfold show_if. destruct (negb _); cbn; naive_solver.
Qed.

Lemma create_reachable em (c : config (WorkspaceCreatePage.component em)) : reachable c → creating em c.
Proof.
  intros [p Hr]. revert c Hr. apply (rtc_ind_r (creating em)); [by left|].
  intros c c' _ Hs Hc. destruct Hs as [c e Hoff|c l1 A a k l2 r E|c p'|c p']; [|left|done|done].
  - destruct e as [v|v| |].
    + cbn. destruct (negb _); cbn; (destruct Hc as [Hc|(t & b & k & Hc & Hk & Hs)]; [left; exact Hc|right; exists t, b, k; by split_and!]).
    + destruct Hc as [Hc|(t & b & k & Hc & Hk & Hs)]; [left; exact Hc|right; exists t, b, k; by split_and!].
    + pose proof (create_view _ _ _ Hoff) as Hidle.
      destruct Hc as [Hc|(t & b & k & Hc & Hk & Hs)]; [|congruence].
      cbn [handle WorkspaceCreatePage.component WorkspaceCreatePage.on].
      unfold WorkspaceCreatePage.handleSubmit. destruct (given_token _); [|left; exact Hc].
      right. cbn. rewrite Hc. eexists _, _, _. split_and!; [reflexivity|exact (created_pending em)|reflexivity].
    + destruct Hc as [Hc|(t & b & k & Hc & Hk & Hs)]; [left; exact Hc|right; exists t, b, k; by split_and!].
  - destruct Hc as [Hc|(t & b & k' & Hc & Hk' & Hs)]; [by rewrite Hc in E; destruct l1|].
    rewrite Hc in E. destruct l1 as [|t1 l1];
      [|apply (f_equal length) in E; cbn in E; rewrite length_app in E; cbn in E; lia].
    assert (Forall (asks_nothing (C:=WorkspaceCreatePage.component em)) ([] ++ Task a k :: l2)) as Hk.
    { rewrite <- E. by apply Forall_singleton. }
    apply Forall_cons in Hk as [Hk _]. apply (f_equal length) in E. destruct l2; [|done].
    cbn in Hk |- *. by rewrite Hk.
Qed.

(** ** Properties *)

(** C11: What is entered on the second page of the sign-up is what is created.
    Submitting it passes on the trimmed name, the slug and a fresh attempt and leads to the
    next page; with the state that results neither of the later pages sends the user back;
    whichever identity provider is chosen, the query of the address that is visited reads
    back as exactly these values, whatever characters they have; and if the provider's
    answer brings them back, the application asks for one workspace with this name and this
    slug. *)
Theorem signup_carries (p : signup_props) (s : SignupCustomizePage.state) (name slug : string) here' att' :
  SignupCustomizePage.name s = JStr name → trim name ≠ "" →
  SignupCustomizePage.slug s = JStr slug → slug ≠ "" → attempt p ≠ "" →
  truthy (signup_field p "email") = true →
  let partial := network_fields (JStr (trim name)) (JStr slug) (SignupCustomizePage.teamSize s) (attempt p) in
  let p' := mkSignup (merge (context p) partial) att' here' in
  SignupCustomizePage.handleSubmit p s =
    steps [emit (UpdateState partial); emit (Go (Navigate "/signup/finalize"))] ∧
  effect SignupFinalizePage.component p' tt = Done ∧ effect SignupAuthPage.component p' tt = Done ∧
  (∀ provider, offered (view SignupAuthPage.component p' tt) (SignupAuthPage.OAuth provider) →
     ∃ q, SignupAuthPage.handleOAuth p' provider =
            emit (Location (CONTROLLER_URL here' +:+ "/oauth/" +:+ provider +:+ "/login?" +:+ q)) ∧
       parse_query q = Some [("flow", "signup"); ("ws_name", trim name); ("ws_slug", slug);
                             ("signup_id", attempt p); ("return_to", origin here')] ∧
       ∀ t pg, t ≠ "" → sessionStorage pg !! (SIGNUP_PROCESS_PREFIX +:+ attempt p) = None →
         requests (state_of (token_capture (returned t q)) pg) =
           requests pg ++ [mkRequest t (JStr (trim name)) (JStr slug) (SIGNUP_PROCESS_PREFIX +:+ attempt p)]).
Proof.
  intros Hn Ht Hs Hsl Ha He partial p'.
  pose proof (merged_field (context p) (JStr (trim name)) (JStr slug)
    (SignupCustomizePage.teamSize s) (attempt p) att' here') as Hf.
  assert (require_network p' = Done) as Hr.
  { unfold require_network.
    assert (signup_field p' "email" = signup_field p "email") as -> by exact (Hf "email").
    assert (signup_field p' "networkName" = JStr (trim name)) as -> by exact (Hf "networkName").
    by rewrite He, truthy_str. }
  split_and!; [|exact Hr|exact Hr|].
  - unfold SignupCustomizePage.handleSubmit. rewrite Hn. cbn [trim_of]. rewrite Hs.
    by rewrite bool_decide_false, truthy_str by done.
  - intros provider _. exists (serialize (SignupAuthPage.oauth_params p')). split; [done|].
    assert (SignupAuthPage.oauth_params p' = [("flow", "signup"); ("ws_name", trim name);
      ("ws_slug", slug); ("signup_id", attempt p); ("return_to", origin here')]) as ->.
    { unfold SignupAuthPage.oauth_params. by rewrite !Hf. }
    split; [apply parse_serialize|]. intros t pg Hne Hp. unfold returned, query_value.
    rewrite parse_serialize. by apply captured.
Qed.

(** A user's step, and the arrival of the only reply that is awaited. *)
Lemma user_step {C : component} (c : config C) e k : offered (view C (its_props c) (its_state c)) e →
  rtc step (exec (handle C (its_props c) (its_state c) e) c) k → rtc step c k.
Proof. intros Ho. by apply rtc_l, step_user. Qed.

Lemma reply_step {C : component} (p : props C) s {A} (a : api A) (k : outcome A → prog (state C) (output C))
    o r c' :
  rtc step (exec (k r) (mkConfig p s [] o)) c' → rtc step (mkConfig p s [Task a k] o) c'.
Proof. apply rtc_l. by apply (step_reply (mkConfig p s [Task a k] o) [] A a k [] r). Qed.

(** The configurations of the login page on the way of a lookup. *)
Definition login_at here (m : LoginPage.lookup_mode) email busy results
    (l : list (task LoginPage.state LoginPage.output)) : config (LoginPage.component here) :=
  mkConfig (C:=LoginPage.component here) (LoginPage.mkProps None)
    (LoginPage.mkState m "" email "" busy results) l [].

Lemma stale_lookup here e1 e2 body l : trim e1 ≠ "" → l ≠ [] →
  parse body = Ok (JObj [("networks", JArr l)]) →
  ∃ k, rtc step (mount (LoginPage.component here) (LoginPage.mkProps None))
         (login_at here LoginPage.email_mode e1 true JNull
            [Task (Fetch "GET" (LoginPage.lookup_url "email" e1) None None) k]) ∧
       rtc step (login_at here LoginPage.email_mode e1 true JNull
            [Task (Fetch "GET" (LoginPage.lookup_url "email" e1) None None) k])
         (login_at here LoginPage.email_mode e2 false (JArr l) []).
Proof.
  intros He Hl Hb. eexists. split.
  - apply (user_step (C:=LoginPage.component here) _ LoginPage.ByEmail); [cbn; tauto|].
    apply (user_step (C:=LoginPage.component here) _ (LoginPage.TypeEmail e1)); [cbn; naive_solver|].
    apply (user_step (C:=LoginPage.component here) _ LoginPage.SubmitEmail).
    { cbn -[bool_decide trim]. case_bool_decide; [done|tauto]. }
    cbn -[bool_decide trim]. unfold LoginPage.handleEmailSubmit. cbn [LoginPage.email].
    rewrite bool_decide_false by done. apply rtc_refl.
  - apply (user_step (C:=LoginPage.component here) _ (LoginPage.TypeEmail e2)); [cbn; naive_solver|].
    apply (reply_step (C:=LoginPage.component here) _ _ _ _ _ (Ok (200%Z, body))).
    cbn [json_of]. rewrite Hb. destruct l; [done|]. apply rtc_refl.
Qed.

Lemma signup_carries_witness : parse_query (serialize
    [("flow", "signup"); ("ws_name", "A & B=1+1"); ("ws_slug", "a-b"); ("signup_id", "id"); ("return_to", "http://h")]) =
  Some [("flow", "signup"); ("ws_name", "A & B=1+1"); ("ws_slug", "a-b"); ("signup_id", "id"); ("return_to", "http://h")].
Proof.
  destruct (signup_carries (mkSignup [("email", JStr "a@b.c")] "id" (mkSite "" "")) 
    (SignupCustomizePage.mkState (JStr " A & B=1+1") (JStr "a-b") false JUndef) " A & B=1+1" "a-b"
    (mkSite "" "http://h") "") as (_ & _ & _ & H).
  - reflexivity.
  - vm_compute. discriminate.
  - reflexivity.
  - discriminate.
  - discriminate.
  - vm_compute. reflexivity.
  - destruct (H "google") as (q & E & Hq & _).
    + cbn. tauto.
    + etrans; [|exact Hq]. injection E as E. apply (f_equal parse_query). vm_compute in E.
      vm_compute. exact E.
Defined.

(** C21: The network that is looked up or chosen on the login page has no part
    in the sign-in: whatever the user does and whatever the server answers, the page sends
    the browser to one address only.  And the networks it lists are not those of the
    address it names: a reply to the lookup of [e1] that arrives after the field has been
    changed to [e2] is shown under [e2]. *)
Theorem login_networks here :
  (∀ c : config (LoginPage.component here), reachable c →
     ∀ url, LoginPage.Location url ∈ emitted c → url = LoginPage.login_url here) ∧
  ∀ e1 e2 body l, trim e1 ≠ "" → l ≠ [] → parse body = Ok (JObj [("networks", JArr l)]) →
  ∃ (c0 c : config (LoginPage.component here)) k, reachable c0 ∧ rtc step c0 c ∧
    pending c0 = [Task (Fetch "GET" (LoginPage.lookup_url "email" e1) None None) k] ∧
    pending c = [] ∧ LoginPage.emailResults (its_state c) = JArr l ∧
    ∀ u, LoginPage.results (its_state c) = Ok u → head (texts u) = Some ("Networks for " +:+ e2).
Proof.
  split.
  - intros c Hc url Hu. apply login_locations in Hc. rewrite Forall_forall in Hc. exact (Hc _ Hu).
  - intros e1 e2 body l He Hl Hb. destruct (stale_lookup here e1 e2 body l He Hl Hb) as (k & H1 & H2).
    eexists _, _, k. split_and!; [eexists; exact H1|exact H2|done..|].
    intros u. unfold LoginPage.results. cbn [LoginPage.emailResults login_at its_state array_of].
    cbn [mbind outcome_bind]. destruct (map_outcome LoginPage.row l); [|done]. by intros [= <-].
Qed.

Lemma all_in_flight {S O} (l : list (task S O)) : length l = in_flight every_call l.
Proof. unfold in_flight. induction l as [|[A a k] l IH]; [done|]. cbn in *. by rewrite IH. Qed.

Lemma selector_mounted token : given_token token ≠ None →
  spinner_ends (C:=WorkspaceSelectorPage.component) WorkspaceSelectorPage.loading
    (mount WorkspaceSelectorPage.component (WorkspaceSelectorPage.mkProps token)).
Proof.
  intros Ht. unfold mount. cbn. unfold WorkspaceSelectorPage.loadWorkspaces. cbn [WorkspaceSelectorPage.authToken].
  destruct (given_token token); [|done]. cbn. split.
  - intros _. eexists. split; [apply list_elem_of_here|]. intros r s'. by destruct (json_of r).
  - apply Forall_singleton. left. intros r s'. by destruct (json_of r).
Qed.

(** The login page has one lookup in flight while it shows that it is looking up
    and none otherwise; a workspace is created by one request at a time, and the page is
    submitting while it is in flight; the page that selects a workspace, given a token,
    never shows that it is loading without a call in flight that ends it. *)
Theorem account_forms here engine_message token :
  (∀ c : config (LoginPage.component here), reachable c →
     length (pending c) = Nat.b2n (LoginPage.loading (its_state c))) ∧
  (∀ c : config (WorkspaceCreatePage.component engine_message), reachable c → creating engine_message c) ∧
  (given_token token ≠ None →
   never_stuck WorkspaceSelectorPage.component WorkspaceSelectorPage.loading
     (WorkspaceSelectorPage.mkProps token)).
Proof.
  split_and!.
  - intros c Hc. etrans; [|exact (submissions_balanced c Hc)]. apply all_in_flight.
  - apply create_reachable.
  - intros Ht. never_stuck ltac:(by apply selector_mounted).
Qed.
