(* ===== verification/DeviceProfiles.v ===== *)
(** * Device profiles ([lib/device-profiles.ts])

    The trusted platforms and the approved operating systems, kept as one JSON
    object in local storage and repaired on every read. *)
From S2P Require Import Prelude JsString Json JsonRoundtrip Storage.
From stdpp Require Import gmap.

Inductive Platform := Windows | macOS | iOS | Linux | Android.
#[global] Instance Platform_eq_dec : EqDecision Platform.
Proof. solve_decision. Defined.

Definition platform_name (p : Platform) : string :=
  match p with
  | Windows => "Windows" | macOS => "macOS" | iOS => "iOS" | Linux => "Linux"
  | Android => "Android"
  end.

Definition STORAGE_KEY : string := "gm_device_profiles_v1".

Definition PLATFORMS : list Platform := [Windows; macOS; iOS; Linux; Android].

(** [approvedOS] is an object with a boolean for every platform. *)
Record DeviceProfilesState := mkProfiles {
  trustedProfiles : list Platform;
  approvedOS : list (Platform * bool) }.

Definition DEFAULT_STATE : DeviceProfilesState :=
  mkProfiles [] [(Windows, true); (macOS, true); (iOS, true); (Linux, true); (Android, true)].

Definition profiles_js (st : DeviceProfilesState) : jsv :=
  JObj [("trustedProfiles", JArr ((λ p, JStr (platform_name p)) <$> trustedProfiles st));
        ("approvedOS", JObj ((λ a, (platform_name a.1, JBool a.2)) <$> approvedOS st))].

(** [PLATFORMS.includes(p)] on an unchecked value. *)
Definition as_platform (v : jsv) : option Platform :=
  find_row (λ p, is_str v (platform_name p)) PLATFORMS.

(** The [try] block of [read]. *)
Definition parse_profiles (raw : string) : outcome DeviceProfilesState :=
  match parse raw with
  | Throw e => Throw e
  | Ok parsed =>
      match field parsed "trustedProfiles", field parsed "approvedOS" with
      | Ok t, Ok a =>
          let trusted := match t with JArr l => l | _ => [] end in
          let approved := nullish_or a (JObj []) in
          Ok (mkProfiles (omap as_platform trusted)
               ((λ p, (p, truthy (opt_field approved (platform_name p)))) <$> PLATFORMS))
      | Throw e, _ | _, Throw e => Throw e
      end
  end.

Definition read : M storage DeviceProfilesState :=
  undef ← no_window;
  if undef : bool then mret DEFAULT_STATE
  else
    raw ← getItem STORAGE_KEY;
    match raw with
    | None => mret DEFAULT_STATE
    | Some raw =>
        if bool_decide (raw = "") then mret DEFAULT_STATE
        else try_catch (lift (parse_profiles raw)) (λ _, mret DEFAULT_STATE)
    end.

Definition write (st : DeviceProfilesState) : M storage unit :=
  undef ← no_window;
  if undef : bool then mret tt else set_json STORAGE_KEY (profiles_js st).

Definition getDeviceProfiles : M storage DeviceProfilesState := read.

Definition addTrustedProfile (platform : Platform) : M storage unit :=
  state ← read;
  if bool_decide (platform ∈ trustedProfiles state) then mret tt
  else write (mkProfiles (platform :: trustedProfiles state) (approvedOS state)).

(** [{ ...o, [platform]: enabled }] *)
Fixpoint set_approved (platform : Platform) (enabled : bool) (l : list (Platform * bool))
  : list (Platform * bool) :=
  match l with
  | [] => [(platform, enabled)]
  | (p, b) :: l' =>
      if decide (p = platform) then (p, enabled) :: l'
      else (p, b) :: set_approved platform enabled l'
  end.

Definition setApprovedOS (platform : Platform) (enabled : bool) : M storage unit :=
  state ← read;
  write (mkProfiles (trustedProfiles state)
           (set_approved platform enabled (approvedOS state))).

(** [state.approvedOS[platform]] *)
Definition approved (st : DeviceProfilesState) (platform : Platform) : bool :=
  existsb (λ a, bool_decide (a.1 = platform) && a.2) (approvedOS st).

(** ** Lemmas *)

(** The states [read] returns: every platform has an entry. *)
Definition complete (st : DeviceProfilesState) : Prop := (approvedOS st).*1 = PLATFORMS.

Lemma complete_inv (a : list (Platform * bool)) : a.*1 = PLATFORMS → ∃ x1 x2 x3 x4 x5,
  a = [(Windows, x1); (macOS, x2); (iOS, x3); (Linux, x4); (Android, x5)].
Proof.
  intros Ha.
  destruct a as [|[? x1] [|[? x2] [|[? x3] [|[? x4] [|[? x5] [|]]]]]]; try discriminate Ha.
  injection Ha as -> -> -> -> ->. by exists x1, x2, x3, x4, x5.
Qed.

Lemma as_platform_name p : as_platform (JStr (platform_name p)) = Some p.
Proof. by destruct p. Qed.

Lemma profiles_plain st : complete st → plain (profiles_js st) = true.
Proof.
  destruct st as [t a]. unfold complete, profiles_js. cbn [approvedOS trustedProfiles]. intros Ha.
  cbn [plain forallb fst snd fmap list_fmap]. rewrite bool_decide_true by
    (apply (bool_decide_unpack (NoDup _)); vm_compute; exact I).
  rewrite andb_true_l, andb_true_r. apply andb_true_iff. split.
  - induction t as [|p t IH]; [done|]. cbn. exact IH.
  - assert (((λ a : Platform * bool, (platform_name a.1, JBool a.2)) <$> a).*1 =
      platform_name <$> a.*1) as E by (by rewrite <- !list_fmap_compose).
    rewrite E, Ha. rewrite bool_decide_true by
      (apply (bool_decide_unpack (NoDup _)); vm_compute; exact I).
    clear. induction a as [|x a IH]; [done|]. exact IH.
Qed.

Lemma parse_profiles_js st : complete st →
  parse_profiles (of_list (print_raw (profiles_js st))) = Ok st.
Proof.
  intros Hc. unfold parse_profiles. rewrite parse_print by (by apply profiles_plain).
  destruct st as [t a]. unfold complete in Hc. cbn [approvedOS] in Hc.
  unfold profiles_js. cbn [approvedOS trustedProfiles].
  change (Ok (mkProfiles (omap as_platform ((λ p, JStr (platform_name p)) <$> t))
    ((λ p, (p, truthy (opt_field (JObj ((λ a, (platform_name a.1, JBool a.2)) <$> a))
                       (platform_name p)))) <$> PLATFORMS)) = Ok (mkProfiles t a)).
  do 2 f_equal.
  - induction t as [|p t IH]; [done|]. rewrite fmap_cons. cbn [omap list_omap].
    by rewrite as_platform_name, IH.
  - apply complete_inv in Hc as ([] & [] & [] & [] & [] & ->); vm_compute; reflexivity.
Qed.

Lemma complete_set platform enabled st : complete st →
  complete (mkProfiles (trustedProfiles st) (set_approved platform enabled (approvedOS st))).
Proof.
  unfold complete. cbn [approvedOS]. destruct st as [t a]. cbn [approvedOS].
  intros (x1 & x2 & x3 & x4 & x5 & ->)%complete_inv. by destruct platform.
Qed.

(** Reading never throws, changes nothing and gives a complete state. *)
Lemma profiles_read_total m : ∃ st, read (Some m) = (Some m, Ok st) ∧ complete st.
Proof.
  unfold read, mbind, M_bind. cbn.
  destruct (m !! STORAGE_KEY) as [raw|]; [|by eexists].
  case_bool_decide; [by eexists|].
  unfold try_catch, lift. destruct (parse_profiles raw) as [st|e] eqn:E; [|by eexists].
  exists st. split; [done|]. unfold parse_profiles in E.
  destruct (parse raw) as [v|]; [|done].
  destruct (field v "trustedProfiles"); [|done]. destruct (field v "approvedOS"); [|done].
  injection E as <-. done.
Qed.

Lemma profiles_read_write m st : complete st → ∃ m',
  write st (Some m) = (Some m', Ok tt) ∧ read (Some m') = (Some m', Ok st) ∧
  (∀ k, k ≠ STORAGE_KEY → m' !! k = m !! k).
Proof.
  intros Hc. pose proof (profiles_plain st Hc) as Hp.
  exists (<[STORAGE_KEY := of_list (print_raw (profiles_js st))]> m). split_and!.
  - change (set_json STORAGE_KEY (profiles_js st) (Some m) =
      (Some (<[STORAGE_KEY := of_list (print_raw (profiles_js st))]> m), Ok tt)).
    by apply set_json_plain.
  - unfold read, mbind, M_bind, getItem, no_window, gets. cbv beta iota.
    rewrite bool_decide_false by done. cbv beta iota. rewrite lookup_insert_eq.
    rewrite bool_decide_false by (by apply print_raw_nonempty).
    unfold try_catch, lift. by rewrite parse_profiles_js.
  - intros k Hk. by rewrite lookup_insert_ne.
Qed.

Lemma approved_set st platform enabled q : complete st →
  approved (mkProfiles (trustedProfiles st) (set_approved platform enabled (approvedOS st))) q =
  if decide (q = platform) then enabled else approved st q.
Proof.
  destruct st as [t a]. unfold complete, approved. cbn [approvedOS trustedProfiles].
  intros (x1 & x2 & x3 & x4 & x5 & ->)%complete_inv.
  destruct platform, q; cbn; by destruct enabled, x1, x2, x3, x4, x5.
Qed.

(** Whatever the storage contains, reading the profiles never throws and
    changes nothing; adding a platform puts it in front of the trusted list once,
    setting a platform changes its approval and no other, each leaves the rest of
    the profiles and of the storage alone, and both are what is read back. *)
Theorem profiles_effects : ∀ (m : items) (p : Platform) (enabled : bool),
  ∃ st, getDeviceProfiles (Some m) = (Some m, Ok st) ∧
  (∃ m1, addTrustedProfile p (Some m) = (Some m1, Ok tt) ∧
     getDeviceProfiles (Some m1) =
       (Some m1, Ok (mkProfiles (if decide (p ∈ trustedProfiles st) then trustedProfiles st
                                 else p :: trustedProfiles st) (approvedOS st))) ∧
     (∀ k, k ≠ STORAGE_KEY → m1 !! k = m !! k)) ∧
  (∃ m2 st2, setApprovedOS p enabled (Some m) = (Some m2, Ok tt) ∧
     getDeviceProfiles (Some m2) = (Some m2, Ok st2) ∧
     trustedProfiles st2 = trustedProfiles st ∧
     (∀ q, approved st2 q = if decide (q = p) then enabled else approved st q) ∧
     (∀ k, k ≠ STORAGE_KEY → m2 !! k = m !! k)).
Proof.
  intros m p enabled. destruct (profiles_read_total m) as (st & E & Hc). exists st.
  split; [exact E|]. split.
  - unfold addTrustedProfile, mbind, M_bind. rewrite E.
    destruct (decide (p ∈ trustedProfiles st)) as [Hin|Hin].
    + rewrite bool_decide_true by done. exists m. split_and!; [done| |done].
      unfold getDeviceProfiles. rewrite E. by destruct st.
    + rewrite bool_decide_false by done.
      destruct (profiles_read_write m (mkProfiles (p :: trustedProfiles st) (approvedOS st)) Hc)
        as (m' & ? & ? & ?). by exists m'.
  - unfold setApprovedOS, mbind, M_bind. rewrite E.
    destruct (profiles_read_write m _ (complete_set p enabled st Hc)) as (m' & ? & ? & ?).
    eexists m', _. split_and!; [done|done|done| |done].
    intros q. by apply approved_set.
Qed.
