(* ===== verification/SignInPolicy.v ===== *)
(** * Sign-in policy ([lib/sign-in-policy.ts] and the handlers of its page)

    How often users authenticate again and whether a second factor is required;
    one JSON object in local storage, with defaults for what is missing or
    malformed. *)
From S2P Require Import Prelude JsString Json JsonRoundtrip Storage.
From stdpp Require Import gmap.
From Stdlib Require Import ZArith Lia.

Record SignInPolicyState := mkSignIn { days : jsnum; hours : jsnum; required : bool }.

Definition STORAGE_KEY : string := "gm_sign_in_policy_v1".

Definition DEFAULT_STATE : SignInPolicyState := mkSignIn (Dec 30 0) (Dec 0 0) false.

Definition sign_in_js (st : SignInPolicyState) : jsv :=
  JObj [("reauth", JObj [("days", JNum (days st)); ("hours", JNum (hours st))]);
        ("mfa", JObj [("required", JBool (required st))])].

(** [Number.isFinite(n) && n >= 0 ? n : dflt] *)
Definition non_negative_or (dflt n : jsnum) : jsnum :=
  if isFinite n && ge0 n then n else dflt.

(** The [try] block of [read]. *)
Definition parse_policy (raw : string) : outcome SignInPolicyState :=
  match parse raw with
  | Throw e => Throw e
  | Ok parsed =>
      match field parsed "reauth", field parsed "mfa" with
      | Ok reauth, Ok mfa =>
          Ok (mkSignIn (non_negative_or (Dec 30 0) (Number (opt_field reauth "days")))
                (non_negative_or (Dec 0 0) (Number (opt_field reauth "hours")))
                (truthy (opt_field mfa "required")))
      | Throw e, _ | _, Throw e => Throw e
      end
  end.

Definition read : M storage SignInPolicyState :=
  undef ← no_window;
  if undef : bool then mret DEFAULT_STATE
  else
    raw ← getItem STORAGE_KEY;
    match raw with
    | None => mret DEFAULT_STATE
    | Some raw =>
        if bool_decide (raw = "") then mret DEFAULT_STATE
        else try_catch (lift (parse_policy raw)) (λ _, mret DEFAULT_STATE)
    end.

Definition write (st : SignInPolicyState) : M storage unit :=
  undef ← no_window;
  if undef : bool then mret tt else set_json STORAGE_KEY (sign_in_js st).

Definition getSignInPolicy : M storage SignInPolicyState := read.

Definition saveReauth (d h : jsnum) : M storage unit :=
  state ← read; write (mkSignIn d h (required state)).

Definition saveMfaRequired (r : bool) : M storage unit :=
  state ← read; write (mkSignIn (days state) (hours state) r).

(** ** The page *)

Definition isInteger (n : jsnum) : bool := match n with Dec _ O => true | _ => false end.

(** [n > k] for an integer [k]. *)
Definition above (n : jsnum) (k : Z) : bool :=
  match n with
  | NaN => false
  | Infinity b => negb b
  | Dec m e => (k * pow10 e <? m)%Z
  end.

(** [n === 0] *)
Definition is_zero (n : jsnum) : bool :=
  match n with Dec 0%Z _ => true | _ => false end.

(** [handleConfirmReauth] on the contents of the two inputs: the message it shows,
    or [None] when it has saved and closed the panel. *)
Definition handleConfirmReauth (days_input hours_input : string) : M storage (option string) :=
  let d := Number (JStr days_input) in
  let h := Number (JStr hours_input) in
  if negb (isFinite d) || negb (ge0 d) || negb (isInteger d) then
    mret (Some "Days must be a whole number (0 or greater).")
  else if negb (isFinite h) || negb (ge0 h) || negb (isInteger h) || above h 23 then
    mret (Some "Hours must be a whole number between 0 and 23.")
  else if is_zero d && is_zero h then
    mret (Some "Days and hours cannot both be 0.")
  else saveReauth d h ;; mret None.

Definition handleConfirmMfa (mode : string) : M storage unit :=
  saveMfaRequired (bool_decide (mode = "yes")).

(** ** Lemmas *)

Lemma policy_read_total m : ∃ st, read (Some m) = (Some m, Ok st).
Proof.
  unfold read, mbind, M_bind. cbn. destruct (m !! STORAGE_KEY) as [raw|]; [|by eexists].
  case_bool_decide; [by eexists|]. unfold try_catch, lift.
  by destruct (parse_policy raw); eexists.
Qed.

(** What a number is after it has been written as JSON and read with [Number]. *)
Definition reread (n : jsnum) : jsnum := if isFinite n then n else Dec 0 0.

Definition integral_or_special (n : jsnum) : Prop :=
  match n with Dec _ (S _) => False | _ => True end.

Definition json_num (n : jsnum) : jsv := if isFinite n then JNum n else JNull.

Lemma print_json_num n : print (JNum n) = print (json_num n).
Proof. by destruct n. Qed.

Lemma Number_json_num n : Number (json_num n) = reread n.
Proof. by destruct n. Qed.

(** NaN and the infinities are written as null. *)
Definition stored_js (st : SignInPolicyState) : jsv :=
  JObj [("reauth", JObj [("days", json_num (days st)); ("hours", json_num (hours st))]);
        ("mfa", JObj [("required", JBool (required st))])].

Lemma stored_plain st : integral_or_special (days st) → integral_or_special (hours st) →
  plain (stored_js st) = true.
Proof. by destruct st as [[| |? []] [| |? []] ?]. Qed.

Lemma policy_read_write m st :
  integral_or_special (days st) → integral_or_special (hours st) → ∃ m',
  write st (Some m) = (Some m', Ok tt) ∧
  read (Some m') = (Some m', Ok (mkSignIn (non_negative_or (Dec 30 0) (reread (days st)))
                                   (non_negative_or (Dec 0 0) (reread (hours st)))
                                   (required st))) ∧
  (∀ k, k ≠ STORAGE_KEY → m' !! k = m !! k).
Proof.
  intros Hd Hh. pose proof (stored_plain st Hd Hh) as Hp.
  set (w := of_list (print_raw (stored_js st))).
  exists (<[STORAGE_KEY := w]> m).
  assert (stringify (sign_in_js st) = Some w) as Ew.
  { unfold w. rewrite <- stringify_plain by done. unfold stringify. f_equal.
    unfold sign_in_js, stored_js. destruct st as [[] [] ?]; reflexivity. }
  split_and!.
  - change (set_json STORAGE_KEY (sign_in_js st) (Some m) = (Some (<[STORAGE_KEY := w]> m), Ok tt)).
    unfold set_json. by rewrite Ew.
  - unfold read, mbind, M_bind, getItem, no_window, gets. cbv beta iota.
    rewrite bool_decide_false by done. cbv beta iota. rewrite lookup_insert_eq.
    rewrite bool_decide_false by (by apply print_raw_nonempty).
    unfold try_catch, lift, parse_policy, w. rewrite parse_print by done.
    destruct st as [d h r]. cbn [days hours required].
    rewrite <- !Number_json_num. reflexivity.
  - intros k Hk. by rewrite lookup_insert_ne.
Qed.

Lemma isInteger_spec n : isFinite n && ge0 n && isInteger n = true ↔
  ∃ z, n = Dec z 0 ∧ (0 <= z)%Z.
Proof.
  split.
  - destruct n as [| |z [|e]]; cbn; try done.
    + rewrite andb_true_r. intros H%Z.leb_le. by exists z.
    + by rewrite andb_false_r.
  - intros (z & -> & Hz). cbn. rewrite andb_true_r. by apply Z.leb_le.
Qed.

(** The input is accepted: a whole number of days, hours below 24, not both 0. *)
Definition acceptable (d h : jsnum) : Prop :=
  ∃ zd zh, d = Dec zd 0 ∧ h = Dec zh 0 ∧ (0 <= zd)%Z ∧ (0 <= zh <= 23)%Z ∧ (zd ≠ 0 ∨ zh ≠ 0)%Z.

(** The three guards of the handler decide it. *)
Lemma guards_decide (A : Type) d h (e1 e2 e3 ok : A) :
  let r := if negb (isFinite d) || negb (ge0 d) || negb (isInteger d) then e1
           else if negb (isFinite h) || negb (ge0 h) || negb (isInteger h) || above h 23 then e2
           else if is_zero d && is_zero h then e3 else ok in
  (acceptable d h ∧ r = ok) ∨ (¬ acceptable d h ∧ (r = e1 ∨ r = e2 ∨ r = e3)).
Proof.
  rewrite <- !negb_andb. destruct (isFinite d && ge0 d && isInteger d) eqn:Ed; cbn [negb].
  2:{ right. split; [|auto]. intros (zd & zh & -> & _ & Hd & _).
      assert (∃ z, Dec zd 0 = Dec z 0 ∧ (0 <= z)%Z) as H by eauto.
      apply isInteger_spec in H. congruence. }
  destruct (isFinite h && ge0 h && isInteger h) eqn:Eh; cbn [negb orb].
  2:{ right. split; [|auto]. intros (zd & zh & _ & -> & _ & [Hh _] & _).
      assert (∃ z, Dec zh 0 = Dec z 0 ∧ (0 <= z)%Z) as H by eauto.
      apply isInteger_spec in H. congruence. }
  apply isInteger_spec in Ed as (zd & -> & Hd), Eh as (zh & -> & Hh).
  unfold above, pow10. change (10 ^ Z.of_nat 0)%Z with 1%Z.
  destruct (Z.ltb_spec (23 * 1) zh) as [H23|H23].
  { right. split; [|auto]. intros (? & ? & [= <-] & [= <-] & _ & ? & _). lia. }
  destruct zd as [|pd|pd], zh as [|ph|ph]; cbn; try lia;
    try (left; split; [|done]; eexists _, _; split_and!; try reflexivity; lia).
  right. split; [|auto]. intros (? & ? & [= <-] & [= <-] & _ & _ & [?|?]); lia.
Qed.

(** The reauthentication form never throws.  It saves exactly the acceptable
    inputs (a whole number of days, 0 to 23 whole hours, not both 0), and then the
    policy read back has these values and the old second-factor setting; any other
    input is answered with a message and changes nothing. *)
Theorem reauth_form : ∀ (m : items) (days_input hours_input : string),
  let d := Number (JStr days_input) in
  let h := Number (JStr hours_input) in
  ∃ st m' r, getSignInPolicy (Some m) = (Some m, Ok st) ∧
    handleConfirmReauth days_input hours_input (Some m) = (Some m', Ok r) ∧
    (r = None ↔ acceptable d h) ∧
    (is_Some r → m' = m) ∧
    (r = None → getSignInPolicy (Some m') = (Some m', Ok (mkSignIn d h (required st)))) ∧
    (∀ k, k ≠ STORAGE_KEY → m' !! k = m !! k).
Proof.
  intros m di hi d h. destruct (policy_read_total m) as (st & E).
  exists st. unfold handleConfirmReauth. fold d h. cbv zeta.
  destruct (guards_decide (M storage (option string)) d h
    (mret (Some "Days must be a whole number (0 or greater)."))
    (mret (Some "Hours must be a whole number between 0 and 23."))
    (mret (Some "Days and hours cannot both be 0."))
    (saveReauth d h ;; mret None)) as [[Ha Hr]|[Ha Hr]].
  - rewrite Hr. clear Hr. pose proof Ha as (zd & zh & Hd & Hh & Hd0 & Hh0 & _).
    destruct (policy_read_write m (mkSignIn d h (required st))) as (m' & E1 & E2 & Hk);
      [by rewrite Hd|by rewrite Hh|]. exists m', None. split_and!; [done| |done|by intros ?%is_Some_None| |exact Hk].
    + unfold saveReauth, mbind, M_bind. by rewrite E, E1.
    + intros _. unfold getSignInPolicy. rewrite E2. cbn [days hours required].
      rewrite Hd, Hh. unfold non_negative_or, reread. cbn [isFinite ge0].
      by rewrite !(proj2 (Z.leb_le 0 _)) by lia.
  - exists m. destruct Hr as [-> | [-> | ->]]; eexists; split_and!; try done; by split.
Qed.

(** Saving numbers directly: whole non-negative numbers are read back as they
    are, a negative number of days reads as the default 30 and of hours as 0, and NaN
    or an infinity, which JSON writes as null, reads as 0 for both. *)
Theorem saveReauth_readback : ∀ (m : items) (d h : jsnum),
  integral_or_special d → integral_or_special h →
  ∃ m' st, saveReauth d h (Some m) = (Some m', Ok tt) ∧
    getSignInPolicy (Some m') = (Some m', Ok st) ∧
    days st = match d with
              | Dec z _ => if (0 <=? z)%Z then d else Dec 30 0
              | NaN | Infinity _ => Dec 0 0
              end ∧
    hours st = match h with
               | Dec z _ => if (0 <=? z)%Z then h else Dec 0 0
               | NaN | Infinity _ => Dec 0 0
               end.
Proof.
  intros m d h Hd Hh. destruct (policy_read_total m) as (st & E).
  destruct (policy_read_write m (mkSignIn d h (required st)) Hd Hh) as (m' & E1 & E2 & _).
  eexists m', _. split_and!; [|exact E2| |].
  - unfold saveReauth, mbind, M_bind. by rewrite E.
  - by destruct d.
  - by destruct h.
Qed.

Lemma saveReauth_readback_witness : ∃ m' st,
  saveReauth NaN (Dec 7 0) (Some ∅) = (Some m', Ok tt) ∧
  getSignInPolicy (Some m') = (Some m', Ok st) ∧ days st = Dec 0 0 ∧ hours st = Dec 7 0.
Proof. apply (saveReauth_readback ∅ NaN (Dec 7 0)); exact I. Defined.
