(* ===== verification/Settings.v ===== *)
(** * The settings modules side by side

    [lib/resource-policies.ts], [lib/device-profiles.ts] and [lib/sign-in-policy.ts]
    share one local storage.  Each is an instance of the interface [KeyLocal] for its
    own key, and from the interface alone it follows that they do not disturb each
    other. *)
From S2P Require Import Prelude JsString Json Storage.
From S2P Require Import ResourcePolicies DeviceProfiles SignInPolicy.
From stdpp Require Import gmap.

(** ** The calls of the pages *)

Inductive settings_module := Profiles | SignIn | Policies.

#[export] Instance settings_module_eq_dec : EqDecision settings_module.
Proof. solve_decision. Defined.

Definition key_of (md : settings_module) : string :=
  match md with
  | Profiles => DeviceProfiles.STORAGE_KEY
  | SignIn => SignInPolicy.STORAGE_KEY
  | Policies => ResourcePolicies.STORAGE_KEY
  end.

(** What a call returns. *)
Inductive answer :=
  | Done
  | GotProfiles (st : DeviceProfiles.DeviceProfilesState)
  | GotSignIn (st : SignInPolicy.SignInPolicyState)
  | Message (m : option string)
  | Value (v : jsv)
  | Values (l : list jsv).

(** Every function the three modules export, and the handlers of the pages. *)
Inductive call :=
  | GetDeviceProfiles
  | AddTrustedProfile (p : DeviceProfiles.Platform)
  | SetApprovedOS (p : DeviceProfiles.Platform) (enabled : bool)
  | GetSignInPolicy
  | SaveReauth (d h : jsnum)
  | SaveMfaRequired (r : bool)
  | ConfirmReauth (days_input hours_input : string)
  | ConfirmMfa (mode : string)
  | EnsureDefaultResourcePolicy
  | ListResourcePolicies
  | GetResourcePolicy (id : string)
  | CreateResourcePolicy (ids : ResourcePolicies.id_source) (name : string)
  | SaveResourcePolicy (policy : jsv)
  | DeleteResourcePolicy (id : jsv)
  | OpenAndSetMode (id : string) (mode : ResourcePolicies.DeviceSecurityMode)
  | HandleDelete (policy : jsv).

Definition module_of (c : call) : settings_module :=
  match c with
  | GetDeviceProfiles | AddTrustedProfile _ | SetApprovedOS _ _ => Profiles
  | GetSignInPolicy | SaveReauth _ _ | SaveMfaRequired _ | ConfirmReauth _ _
  | ConfirmMfa _ => SignIn
  | _ => Policies
  end.

Definition run (c : call) : M storage answer :=
  match c with
  | GetDeviceProfiles => st ← DeviceProfiles.getDeviceProfiles; mret (GotProfiles st)
  | AddTrustedProfile p => DeviceProfiles.addTrustedProfile p ;; mret Done
  | SetApprovedOS p b => DeviceProfiles.setApprovedOS p b ;; mret Done
  | GetSignInPolicy => st ← SignInPolicy.getSignInPolicy; mret (GotSignIn st)
  | SaveReauth d h => SignInPolicy.saveReauth d h ;; mret Done
  | SaveMfaRequired r => SignInPolicy.saveMfaRequired r ;; mret Done
  | ConfirmReauth d h => m ← SignInPolicy.handleConfirmReauth d h; mret (Message m)
  | ConfirmMfa mode => SignInPolicy.handleConfirmMfa mode ;; mret Done
  | EnsureDefaultResourcePolicy => ResourcePolicies.ensureDefaultResourcePolicy ;; mret Done
  | ListResourcePolicies => l ← ResourcePolicies.listResourcePolicies; mret (Values l)
  | GetResourcePolicy id => v ← ResourcePolicies.getResourcePolicy id; mret (Value v)
  | CreateResourcePolicy ids name =>
      v ← ResourcePolicies.createResourcePolicy ids name; mret (Value v)
  | SaveResourcePolicy policy => ResourcePolicies.saveResourcePolicy policy ;; mret Done
  | DeleteResourcePolicy id => ResourcePolicies.deleteResourcePolicy id ;; mret Done
  | OpenAndSetMode id mode => ResourcePolicies.openAndSetMode id mode ;; mret Done
  | HandleDelete policy => ResourcePolicies.handleDelete policy ;; mret Done
  end.

(** Calls one after the other, each in an event of its own: an exception ends the call
    and not the sequence. *)
Fixpoint runs (cs : list call) (s : storage) : storage * list (call * outcome answer) :=
  match cs with
  | [] => (s, [])
  | c :: cs' =>
      let '(s1, r) := run c s in
      let '(s2, rs) := runs cs' s1 in (s2, (c, r) :: rs)
  end.

(** ** Isolation *)

(** The calls of a module are local to its key. *)
#[export] Instance run_local c : KeyLocal (key_of (module_of c)) (run c).
Proof.
  destruct c; cbn [module_of key_of run];
    unfold DeviceProfiles.getDeviceProfiles, DeviceProfiles.addTrustedProfile,
      DeviceProfiles.setApprovedOS, DeviceProfiles.read, DeviceProfiles.write,
      SignInPolicy.getSignInPolicy, SignInPolicy.handleConfirmReauth,
      SignInPolicy.handleConfirmMfa, SignInPolicy.saveReauth, SignInPolicy.saveMfaRequired,
      SignInPolicy.read, SignInPolicy.write, ResourcePolicies.openAndSetMode,
      ResourcePolicies.setDeviceMode, ResourcePolicies.handleDelete,
      ResourcePolicies.saveResourcePolicy, ResourcePolicies.deleteResourcePolicy,
      ResourcePolicies.createResourcePolicy, ResourcePolicies.getResourcePolicy,
      ResourcePolicies.listResourcePolicies, ResourcePolicies.ensureDefaultResourcePolicy,
      ResourcePolicies.readAll, ResourcePolicies.writeAll, ResourcePolicies.id_is,
      ResourcePolicies.name_is; apply _.
Qed.

Lemma key_of_inj md md' : key_of md = key_of md' → md = md'.
Proof. by destruct md, md'. Qed.

(** The calls of one module, and their answers. *)
Definition calls_of (md : settings_module) : list call → list call :=
  filter (λ c, module_of c = md).
Definition answers_of (md : settings_module) :
  list (call * outcome answer) → list (call * outcome answer) :=
  filter (λ a, module_of a.1 = md).

(** A module sees in an interleaving what it sees alone in a storage that agrees on its
    key, which every other call leaves alone. *)
Lemma runs_local md cs : ∀ m1 m2, m1 !! key_of md = m2 !! key_of md → ∃ m1' m2' as1 as2,
  runs cs (Some m1) = (Some m1', as1) ∧ runs (calls_of md cs) (Some m2) = (Some m2', as2) ∧
  m1' !! key_of md = m2' !! key_of md ∧ answers_of md as1 = as2.
Proof.
  unfold calls_of, answers_of.
  induction cs as [|c cs IH]; intros m1 m2 Hk; [by exists m1, m2, [], []|].
  cbn [runs]. destruct (decide (module_of c = md)) as [<-|Hne].
  - destruct (run_local c m1 m2 Hk) as (n1 & n2 & r & E1 & E2 & Hn & _).
    rewrite filter_cons_True by done. cbn [runs]. rewrite E1, E2.
    destruct (IH n1 n2 Hn) as (m1' & m2' & as1 & as2 & F1 & F2 & Hm & Ha).
    rewrite F1, F2. eexists _, _, _, _. split_and!; [done|done|done|].
    by rewrite filter_cons_True, Ha.
  - destruct (run_local c m1 m1 eq_refl) as (n1 & _ & r & E1 & _ & _ & F & _).
    rewrite filter_cons_False, E1 by done.
    destruct (IH n1 m2) as (m1' & m2' & as1 & as2 & F1 & F2 & Hm & Ha).
    { rewrite F; [done|]. intros He%key_of_inj. by apply Hne. }
    rewrite F1. exists m1', m2', ((c, r) :: as1), as2. split_and!; [done|done|done|].
    by rewrite filter_cons_False.
Qed.

Lemma runs_frame cs k : ∀ m, (∀ md, k ≠ key_of md) →
  ∃ m' ans, runs cs (Some m) = (Some m', ans) ∧ m' !! k = m !! k.
Proof.
  induction cs as [|c cs IH]; intros m Hk; [by exists m, []|]. cbn [runs].
  destruct (run_local c m m eq_refl) as (n & _ & r & E & _ & _ & F & _). rewrite E.
  destruct (IH n Hk) as (m' & ans & E' & Hm). rewrite E'. eexists _, _. split; [done|].
  by rewrite Hm, F.
Qed.

(** The settings modules do not disturb each other.  Whatever the storage holds
    and however the calls of the three modules follow each other, each module's calls
    return (or throw) what they would if the other modules had not been called, each
    module's stored text ends up the same, and no other entry of the storage, such as
    the token of the session, changes. *)
Theorem settings_isolated : ∀ (cs : list call) (m : items), ∃ m' ans,
  runs cs (Some m) = (Some m', ans) ∧
  (∀ md, ∃ alone, runs (calls_of md cs) (Some m) = (Some alone, answers_of md ans) ∧
     m' !! key_of md = alone !! key_of md) ∧
  (∀ k, (∀ md, k ≠ key_of md) → m' !! k = m !! k).
Proof.
  intros cs m. destruct (runs_local Profiles cs m m eq_refl) as (m' & _ & ans & _ & E & _).
  exists m', ans. split; [done|]. split.
  - intros md. destruct (runs_local md cs m m eq_refl) as (n & a & as1 & as2 & E' & Ea & Hk & <-).
    rewrite E in E'. injection E' as <- <-. by exists a.
  - intros k Hk. destruct (runs_frame cs k m Hk) as (n & as1 & E' & H).
    rewrite E in E'. by injection E' as <- _.
Qed.
