(* ===== verification/Migration.v ===== *)
(** * Opening the database ([getDb] and the [ensure*] functions of [lib/db.ts])

    [Schema.v] fixes the final schema; here the schema itself is data, since an
    older database file has other columns.  A [store] maps table names to
    tables, a table has its columns, its primary key, its foreign keys and its
    rows, and the statements are those the migrations execute.  DROP TABLE
    deletes the rows first and follows ON DELETE CASCADE, ADD COLUMN refuses
    UNIQUE, and RENAME TO redirects the foreign keys that name the table: this is
    how SQLite documents these statements when [foreign_keys] is on. *)
From S2P Require Import Prelude.
From stdpp Require Import gmap.
From Stdlib Require Import ZArith.

(** ** Stores *)

Inductive sqlval := NULL | TEXT (s : string) | INT (z : Z).
#[global] Instance sqlval_eq_dec : EqDecision sqlval.
Proof. solve_decision. Defined.

Abbreviation row := (gmap string sqlval).

(** [FOREIGN KEY (fk_column) REFERENCES fk_parent(fk_key) ON DELETE fk_action] *)
Inductive fk_action := CASCADE | SET_NULL.
Record fkey := mkFk {
  fk_column : string; fk_parent : string; fk_key : string; fk_on_delete : fk_action }.

Record table := mkTable {
  columns : list string;
  primary_key : list string;
  not_null : list string;
  foreign_keys : list fkey;
  rows : list row }.

Abbreviation store := (gmap string table).

Definition sql_error := SqliteError "SQLITE_ERROR".
Definition sql_fk_error := SqliteError "SQLITE_CONSTRAINT_FOREIGNKEY".

Definition column (c : string) (r : row) : sqlval := default NULL (r !! c).

Definition with_rows (f : list row → list row) (t : table) : table :=
  mkTable (columns t) (primary_key t) (not_null t) (foreign_keys t) (f (rows t)).

Definition rows_of (s : store) (name : string) : list row :=
  default [] (rows <$> s !! name).

(** ** Statements *)

(** [CREATE TABLE IF NOT EXISTS name (...)] *)
Definition create_table (name : string) (t : table) : M store unit :=
  modify (λ s, match s !! name with Some _ => s | None => <[name := t]> s end).

(** [PRAGMA table_info(name)] followed by [columns.some(c => c.name === col)]; an
    unknown table has no columns. *)
Definition has_column (name col : string) : M store bool :=
  gets (λ s, bool_decide (col ∈ default [] (columns <$> s !! name))).

(** A column definition of ADD COLUMN: its name, the constraints UNIQUE and NOT
    NULL, and its DEFAULT (NULL when there is none). *)
Record column_def := mkColumn {
  col_name : string; col_unique : bool; col_not_null : bool; col_default : sqlval }.

(** [ALTER TABLE name ADD COLUMN ...]; a UNIQUE column cannot be added. *)
Definition add_column (name : string) (c : column_def) : M store unit := λ s,
  match s !! name with
  | None => (s, Throw sql_error)
  | Some t =>
      if col_unique c then (s, Throw sql_error)
      else (<[name := mkTable (columns t ++ [col_name c]) (primary_key t)
                        (if col_not_null c then not_null t ++ [col_name c] else not_null t)
                        (foreign_keys t) (insert (col_name c) (col_default c) <$> rows t)]> s,
            Ok tt)
  end.

(** [UPDATE name SET ...] *)
Definition update_rows (name : string) (f : row → row) : M store unit :=
  modify (alter (with_rows (fmap f)) name).

(** The foreign keys of [t] accept [r]: NULL or an existing key. *)
Definition fk_accepts (s : store) (t : table) (r : row) : bool :=
  forallb (λ k,
    bool_decide (column (fk_column k) r = NULL) ||
    bool_decide (column (fk_column k) r ∈ (column (fk_key k) <$> rows_of s (fk_parent k))))
    (foreign_keys t).

(** Two rows with the same primary key; NULL equals nothing. *)
Definition same_key (t : table) (r r' : row) : bool :=
  forallb (λ c, bool_decide (column c r = column c r' ∧ column c r ≠ NULL))
    (primary_key t).

Definition missing_value (t : table) (r : row) : bool :=
  existsb (λ c, bool_decide (column c r = NULL)) (not_null t).

(** [INSERT OR IGNORE INTO name VALUES ...]: a row with a used key, or without a
    NOT NULL value, is skipped; a foreign key violation is an error all the
    same. *)
Definition insert_or_ignore (name : string) (r : row) : M store unit := λ s,
  match s !! name with
  | None => (s, Throw sql_error)
  | Some t =>
      if existsb (same_key t r) (rows t) || missing_value t r then (s, Ok tt)
      else if fk_accepts s t r then (<[name := with_rows (λ l, l ++ [r]) t]> s, Ok tt)
      else (s, Throw sql_fk_error)
  end.

(** What deleting the rows [gone] of table [name] does to a row of table [t]. *)
Definition on_delete (name : string) (gone : list row) (t : table) : table :=
  foldl (λ t k,
    if bool_decide (fk_parent k = name) then
      let hit r := bool_decide (column (fk_column k) r ≠ NULL) &&
                   bool_decide (column (fk_column k) r ∈ (column (fk_key k) <$> gone)) in
      match fk_on_delete k with
      | CASCADE => with_rows (filter (λ r, hit r = false)) t
      | SET_NULL =>
          with_rows (fmap (λ r, if hit r then <[fk_column k := NULL]> r else r)) t
      end
    else t) t (foreign_keys t).

(** [DROP TABLE name] with foreign keys on: an implicit DELETE of every row, with
    its actions on the tables that refer to it, and then the drop.  (The tables
    that refer to a dropped table here are referred to by none, so that one level
    of actions is all there is.) *)
Definition drop_table (name : string) : M store unit := λ s,
  match s !! name with
  | None => (s, Throw sql_error)
  | Some t => (on_delete name (rows t) <$> delete name s, Ok tt)
  end.

(** [ALTER TABLE old RENAME TO new]: the foreign keys follow. *)
Definition redirect (old new : string) (t : table) : table :=
  mkTable (columns t) (primary_key t) (not_null t)
    ((λ k, if bool_decide (fk_parent k = old)
           then mkFk (fk_column k) new (fk_key k) (fk_on_delete k) else k) <$>
     foreign_keys t)
    (rows t).

Definition rename_table (old new : string) : M store unit := λ s,
  match s !! old, s !! new with
  | Some t, None => (redirect old new <$> <[new := t]> (delete old s), Ok tt)
  | _, _ => (s, Throw sql_error)
  end.

(** [db.transaction] *)
Definition store_transaction (m : M store unit) : M store unit := λ s,
  match m s with
  | (s', Ok a) => (s', Ok a)
  | (_, Throw e) => (s, Throw e)
  end.

(** ** [initSchema] *)

Definition meta_table : table :=
  mkTable ["key"; "value"]
    ["key"] ["value"]
    [] [].

Definition users_table : table :=
  mkTable ["id"; "name"; "email"; "certificate_identity"; "status"; "created_at"]
    ["id"] ["name"; "email"; "status"; "created_at"]
    [] [].

Definition groups_table : table :=
  mkTable ["id"; "name"; "description"; "created_at"]
    ["id"] ["name"; "description"; "created_at"]
    [] [].

Definition group_members_table : table :=
  mkTable ["group_id"; "user_id"]
    ["group_id"; "user_id"] ["group_id"; "user_id"]
    [mkFk "group_id" "groups" "id" CASCADE;
     mkFk "user_id" "users" "id" CASCADE] [].

Definition service_accounts_table : table :=
  mkTable ["id"; "name"; "status"; "associated_resource_count"; "created_at"]
    ["id"] ["name"; "status"; "associated_resource_count"; "created_at"]
    [] [].

Definition remote_networks_table : table :=
  mkTable ["id"; "name"; "location"; "created_at"]
    ["id"] ["name"; "location"; "created_at"]
    [] [].

Definition connectors_table : table :=
  mkTable ["id"; "name"; "status"; "version"; "hostname"; "remote_network_id";
   "last_seen"; "last_policy_version"; "last_seen_at"; "installed"]
    ["id"] ["name"; "status"; "version"; "hostname"; "remote_network_id";
     "last_seen"; "last_policy_version"; "installed"]
    [mkFk "remote_network_id" "remote_networks" "id" CASCADE] [].

Definition agents_table : table :=
  mkTable ["id"; "name"; "status"; "version"; "hostname"; "remote_network_id"]
    ["id"] ["name"; "status"; "version"; "hostname"; "remote_network_id"]
    [mkFk "remote_network_id" "remote_networks" "id" CASCADE] [].

Definition resources_table : table :=
  mkTable ["id"; "name"; "type"; "address"; "ports"; "protocol"; "port_from";
   "port_to"; "alias"; "description"; "remote_network_id"; "firewall_status"]
    ["id"] ["name"; "type"; "address"; "ports"; "protocol"; "description";
     "firewall_status"]
    [mkFk "remote_network_id" "remote_networks" "id" SET_NULL] [].

Definition access_rules_table : table :=
  mkTable ["id"; "name"; "resource_id"; "enabled"; "created_at"; "updated_at"]
    ["id"] ["name"; "resource_id"; "enabled"; "created_at"; "updated_at"]
    [mkFk "resource_id" "resources" "id" CASCADE] [].

Definition access_rule_groups_table : table :=
  mkTable ["rule_id"; "group_id"]
    ["rule_id"; "group_id"] ["rule_id"; "group_id"]
    [mkFk "rule_id" "access_rules" "id" CASCADE;
     mkFk "group_id" "groups" "id" CASCADE] [].

Definition connector_logs_table : table :=
  mkTable ["id"; "connector_id"; "timestamp"; "message"]
    ["id"] ["connector_id"; "timestamp"; "message"]
    [mkFk "connector_id" "connectors" "id" CASCADE] [].

Definition connector_policy_versions_table : table :=
  mkTable ["connector_id"; "version"; "compiled_at"; "policy_hash"]
    ["connector_id"] ["version"; "compiled_at"]
    [] [].

(** The tables in the order of the script. *)
Definition schema : list (string * table) :=
  [("meta", meta_table);
   ("users", users_table);
   ("groups", groups_table);
   ("group_members", group_members_table);
   ("service_accounts", service_accounts_table);
   ("remote_networks", remote_networks_table);
   ("connectors", connectors_table);
   ("agents", agents_table);
   ("resources", resources_table);
   ("access_rules", access_rules_table);
   ("access_rule_groups", access_rule_groups_table);
   ("connector_logs", connector_logs_table);
   ("connector_policy_versions", connector_policy_versions_table)].

Definition initSchema : M store unit :=
  forEach (λ p : string * table, create_table p.1 p.2) schema.

(** ** The migrations *)

Definition unless_column (name col : string) (m : M store unit) : M store unit :=
  has ← has_column name col;
  if has : bool then mret tt else m.

Definition ensureConnectorInstalledColumn : M store unit :=
  unless_column "connectors" "installed"
    (add_column "connectors" (mkColumn "installed" false true (INT 0)) ;;
     update_rows "connectors" (insert "installed" (INT 1))).

Definition ensureUserCertificateIdentity : M store unit :=
  unless_column "users" "certificate_identity"
    (add_column "users" (mkColumn "certificate_identity" true false NULL)).

(** The three columns are looked up before the first one is added. *)
Definition ensureResourceProtocolColumns : M store unit :=
  hasProtocol ← has_column "resources" "protocol";
  hasPortFrom ← has_column "resources" "port_from";
  hasPortTo ← has_column "resources" "port_to";
  (if hasProtocol : bool then mret tt
   else add_column "resources" (mkColumn "protocol" false true (TEXT "TCP"))) ;;
  (if hasPortFrom : bool then mret tt
   else add_column "resources" (mkColumn "port_from" false false NULL)) ;;
  (if hasPortTo : bool then mret tt
   else add_column "resources" (mkColumn "port_to" false false NULL)).

Definition ensureResourceFirewallStatus : M store unit :=
  unless_column "resources" "firewall_status"
    (add_column "resources" (mkColumn "firewall_status" false true (TEXT "unprotected"))).

Definition ensureConnectorPolicyColumns : M store unit :=
  hasLastPolicy ← has_column "connectors" "last_policy_version";
  hasLastSeenAt ← has_column "connectors" "last_seen_at";
  (if hasLastPolicy : bool then mret tt
   else add_column "connectors" (mkColumn "last_policy_version" false true (INT 0))) ;;
  (if hasLastSeenAt : bool then mret tt
   else
     add_column "connectors" (mkColumn "last_seen_at" false false NULL) ;;
     update_rows "connectors" (λ r,
       if bool_decide (column "last_seen_at" r = NULL)
       then <["last_seen_at" := column "last_seen" r]> r else r)).

Definition ensureConnectorPolicyVersionsTable : M store unit :=
  create_table "connector_policy_versions" connector_policy_versions_table.

(** The two tables the migration of the access rules creates. *)
Definition access_rules_new_table : table := access_rules_table.

Definition access_rule_groups_new_table : table :=
  mkTable ["rule_id"; "group_id"] ["rule_id"; "group_id"] ["rule_id"; "group_id"]
    [mkFk "rule_id" "access_rules_new" "id" CASCADE;
     mkFk "group_id" "groups" "id" CASCADE] [].

(** [`${row.subject_name} access`]; the column is NOT NULL TEXT. *)
Definition rule_name (r : row) : sqlval :=
  match column "subject_name" r with
  | TEXT s => TEXT (s +:+ " access")
  | NULL => TEXT "null access"
  | INT z => TEXT (pretty z +:+ " access")
  end.

Definition migrated_rule (r : row) : row :=
  list_to_map [("id", column "id" r); ("name", rule_name r);
    ("resource_id", column "resource_id" r); ("enabled", INT 1);
    ("created_at", column "created_at" r); ("updated_at", column "created_at" r)].

Definition migrated_link (r : row) : row :=
  list_to_map [("rule_id", column "id" r); ("group_id", column "subject_id" r)].

(** The callback of [legacyRows.forEach]. *)
Definition migrate_row (r : row) : M store unit :=
  if bool_decide (column "subject_type" r = TEXT "GROUP") then
    insert_or_ignore "access_rules_new" (migrated_rule r) ;;
    insert_or_ignore "access_rule_groups" (migrated_link r)
  else mret tt.

Definition ensureAccessRuleSchema : M store unit :=
  hasLegacySubject ← has_column "access_rules" "subject_id";
  hasEnabled ← has_column "access_rules" "enabled";
  (if hasLegacySubject : bool then
     create_table "access_rules_new" access_rules_new_table ;;
     create_table "access_rule_groups" access_rule_groups_new_table ;;
     legacyRows ← gets (λ s, rows_of s "access_rules");
     store_transaction (forEach migrate_row legacyRows) ;;
     drop_table "access_rules" ;;
     rename_table "access_rules_new" "access_rules"
   else mret tt) ;;
  (if (negb hasEnabled && negb hasLegacySubject)%bool
   then add_column "access_rules" (mkColumn "enabled" false true (INT 1))
   else mret tt).

(** ** [getDb] *)

(** The module variable [dbInstance] and the file. *)
Record connection := mkConnection { opened : bool; file : store }.

(** The calls of [getDb] after [new Database(DB_PATH)]; [seedIfNeeded] is the
    last one ([Seed.v] has its content). *)
Definition open_steps (seedIfNeeded : M store unit) : M store unit :=
  initSchema ;;
  ensureConnectorInstalledColumn ;;
  ensureUserCertificateIdentity ;;
  ensureResourceProtocolColumns ;;
  ensureResourceFirewallStatus ;;
  ensureConnectorPolicyColumns ;;
  ensureConnectorPolicyVersionsTable ;;
  ensureAccessRuleSchema ;;
  seedIfNeeded.

(** [dbInstance] is assigned before the steps run, and stays assigned when one of
    them throws. *)
Definition getDb (seedIfNeeded : M store unit) : M connection store := λ c,
  if opened c then (c, Ok (file c))
  else match open_steps seedIfNeeded (file c) with
       | (s, Ok _) => (mkConnection true s, Ok s)
       | (s, Throw e) => (mkConnection true s, Throw e)
       end.
