(* ===== verification/MigrationProps.v ===== *)
(** * What opening an old or a new database file does

    Properties of [getDb]: a current file is left alone, a new file gets the
    current schema, old connector tables are backfilled, and two migrations do
    not do what they are meant to do. *)
From S2P Require Import Prelude Migration.
From stdpp Require Import gmap.
From Stdlib Require Import ZArith.

(** ** Creating tables *)

Lemma create_table_run name t (s : store) :
  create_table name t s = (s ∪ {[name := t]}, Ok tt).
Proof.
  unfold create_table, modify. f_equal. apply map_eq. intros n.
  rewrite lookup_union. destruct (decide (n = name)) as [->|Hn].
  - rewrite lookup_singleton_eq.
    destruct (s !! name) as [t'|] eqn:E; [by rewrite E|by rewrite lookup_insert_eq].
  - rewrite lookup_singleton_ne by done.
    destruct (s !! name) as [t'|]; [|rewrite lookup_insert_ne by done];
      by destruct (s !! n).
Qed.

Lemma create_tables_run l (s : store) :
  forEach (λ p : string * table, create_table p.1 p.2) l s = (s ∪ list_to_map l, Ok tt).
Proof.
  revert s. induction l as [|[n t] l IH]; intros s; simpl.
  - unfold mret, M_ret. f_equal. symmetry. apply (right_id_L ∅ (∪)).
  - unfold mbind, M_bind. rewrite create_table_run, IH. f_equal.
    by rewrite insert_union_singleton_l, (assoc_L (∪)).
Qed.

(** The schema as a store. *)
Definition schema_store : store := list_to_map schema.

Lemma initSchema_run (s : store) : initSchema s = (s ∪ schema_store, Ok tt).
Proof. apply create_tables_run. Qed.

(** ** A current file *)

(** Every table of the schema is there with all its columns. *)
Definition current (s : store) : Prop :=
  map_Forall (λ name t, ∃ t', s !! name = Some t' ∧ columns t' = columns t) schema_store.

Lemma current_columns s name t :
  current s → schema_store !! name = Some t →
  default [] (columns <$> s !! name) = columns t.
Proof. intros Hs Ht. destruct (Hs _ _ Ht) as (t' & -> & Hc). exact Hc. Qed.

Lemma current_union s : current s → s ∪ schema_store = s.
Proof.
  intros Hs. apply map_eq. intros n. rewrite lookup_union.
  destruct (schema_store !! n) as [t|] eqn:E.
  - destruct (Hs _ _ E) as (t' & -> & _). done.
  - by destruct (s !! n).
Qed.

Lemma has_column_current s name t col b :
  current s → schema_store !! name = Some t → bool_decide (col ∈ columns t) = b →
  has_column name col s = (s, Ok b).
Proof. intros Hs Ht <-. unfold has_column, gets. by rewrite (current_columns s name t). Qed.

(** Look a column of a current file up. *)
Ltac current_column name t col b :=
  rewrite (has_column_current _ name t col b) by (done || vm_compute; reflexivity);
  cbv beta iota zeta.

Section CurrentFile.
  Context (s : store) (Hs : current s).

Lemma installed_current : ensureConnectorInstalledColumn s = (s, Ok tt).
Proof.
  unfold ensureConnectorInstalledColumn, unless_column, mbind, M_bind.
  by current_column "connectors" connectors_table "installed" true.
Qed.

Lemma certificate_current : ensureUserCertificateIdentity s = (s, Ok tt).
Proof.
  unfold ensureUserCertificateIdentity, unless_column, mbind, M_bind.
  by current_column "users" users_table "certificate_identity" true.
Qed.

Lemma protocol_current : ensureResourceProtocolColumns s = (s, Ok tt).
Proof.
  unfold ensureResourceProtocolColumns, mbind, M_bind.
  current_column "resources" resources_table "protocol" true.
  current_column "resources" resources_table "port_from" true.
  by current_column "resources" resources_table "port_to" true.
Qed.

Lemma firewall_current : ensureResourceFirewallStatus s = (s, Ok tt).
Proof.
  unfold ensureResourceFirewallStatus, unless_column, mbind, M_bind.
  by current_column "resources" resources_table "firewall_status" true.
Qed.

Lemma policy_current : ensureConnectorPolicyColumns s = (s, Ok tt).
Proof.
  unfold ensureConnectorPolicyColumns, mbind, M_bind.
  current_column "connectors" connectors_table "last_policy_version" true.
  by current_column "connectors" connectors_table "last_seen_at" true.
Qed.

Lemma versions_current : ensureConnectorPolicyVersionsTable s = (s, Ok tt).
Proof.
  unfold ensureConnectorPolicyVersionsTable, create_table, modify.
  destruct (Hs "connector_policy_versions" connector_policy_versions_table)
    as (t & -> & _); [vm_compute; reflexivity|done].
Qed.

Lemma rules_current : ensureAccessRuleSchema s = (s, Ok tt).
Proof.
  unfold ensureAccessRuleSchema, mbind, M_bind.
  current_column "access_rules" access_rules_table "subject_id" false.
  by current_column "access_rules" access_rules_table "enabled" true.
Qed.
End CurrentFile.

Lemma open_steps_current seed s : current s → open_steps seed s = seed s.
Proof.
  intros Hs. unfold open_steps. unfold mbind, M_bind.
  rewrite initSchema_run, current_union by done.
  rewrite installed_current, certificate_current, protocol_current, firewall_current,
    policy_current, versions_current, rules_current by done. done.
Qed.

Lemma current_schema_store : current schema_store.
Proof. intros n t Ht. by exists t. Qed.

(** C28: on a file whose tables have all the columns of the schema the migrations
    do nothing, so opening it is just the (guarded) seeding; a new file gets
    exactly the tables of the schema; and reopening the result changes nothing. *)
Theorem migrations_idempotent : ∀ (seed : M store unit) (s : store),
  (current s → open_steps seed s = seed s) ∧
  open_steps seed ∅ = seed schema_store ∧
  current schema_store.
Proof.
  intros seed s. split_and!.
  - apply open_steps_current.
  - transitivity (open_steps seed schema_store);
      [|apply open_steps_current, current_schema_store].
    unfold open_steps, mbind, M_bind. rewrite !initSchema_run.
    by rewrite (left_id_L ∅ (∪)), current_union by apply current_schema_store.
  - apply current_schema_store.
Qed.

(** ** Old files *)

Lemma installed_step (s : store) :
  is_Some (s !! "connectors") →
  ∃ s', ensureConnectorInstalledColumn s = (s', Ok tt) ∧
    ∀ name, name ≠ "connectors" → s' !! name = s !! name.
Proof.
  intros [t Ht]. unfold ensureConnectorInstalledColumn, unless_column, mbind, M_bind.
  unfold has_column, gets. destruct (bool_decide _).
  - by exists s.
  - unfold add_column. rewrite Ht. eexists. split; [done|]. intros n Hn.
    by rewrite lookup_alter_ne, lookup_insert_ne.
Qed.

(** On a file whose table [users] lacks [certificate_identity] the first call
    of [getDb] throws, since SQLite cannot add a UNIQUE column; the connection
    stays assigned, so that the second call returns the file as it is then: the
    column is still missing and neither the later migrations nor the seeding have
    run or ever will. *)
Theorem old_users_table_stuck : ∀ (seed : M store unit) (s : store) (t : table),
  s !! "users" = Some t → "certificate_identity" ∉ columns t →
  ∃ s', getDb seed (mkConnection false s) = (mkConnection true s', Throw sql_error) ∧
    getDb seed (mkConnection true s') = (mkConnection true s', Ok s') ∧
    s' !! "users" = Some t ∧
    (∀ name, name ≠ "connectors" → s' !! name = (s ∪ schema_store) !! name).
Proof.
  intros seed s t Ht Hcol. set (s1 := s ∪ schema_store).
  assert (s1 !! "users" = Some t) as Ht1 by (by apply lookup_union_Some_l).
  destruct (installed_step s1) as (s2 & H2 & Hother).
  { apply lookup_union_is_Some. right. exists connectors_table. vm_compute. reflexivity. }
  assert (s2 !! "users" = Some t) as Ht2 by (by rewrite Hother).
  assert (ensureUserCertificateIdentity s2 = (s2, Throw sql_error)) as H3.
  { unfold ensureUserCertificateIdentity, unless_column, mbind, M_bind, has_column, gets.
    rewrite Ht2. simpl. rewrite bool_decide_eq_false_2 by done.
    unfold add_column. by rewrite Ht2. }
  exists s2. split; [|split; [done|split; [done|exact Hother]]].
  unfold getDb, open_steps. cbn [opened file]. unfold mbind, M_bind.
  rewrite initSchema_run. fold s1. cbv beta iota. rewrite H2. cbv beta iota.
  rewrite H3. reflexivity.
Qed.

Lemma old_users_table_stuck_witness :
  let old := mkTable ["id"; "name"; "email"; "status"; "created_at"] ["id"] [] [] [] in
  ∃ s', getDb (mret tt) (mkConnection false {["users" := old]}) =
          (mkConnection true s', Throw sql_error) ∧
        getDb (mret tt) (mkConnection true s') = (mkConnection true s', Ok s').
Proof.
  intros old.
  destruct (old_users_table_stuck (mret tt) {["users" := old]} old) as (s' & H1 & H2 & _).
  - reflexivity.
  - apply (bool_decide_unpack ("certificate_identity" ∉ columns old)).
    vm_compute. exact I.
  - exists s'. exact (conj H1 H2).
Defined.

(** ** The migration of the access rules *)

(** The links of [t] all name a rule that is about to be dropped. *)
Definition links_to (ids : list sqlval) (t : table) : Prop :=
  foreign_keys t = foreign_keys access_rule_groups_table ∧
  not_null t = not_null access_rule_groups_table ∧
  primary_key t = primary_key access_rule_groups_table ∧
  Forall (λ r, column "rule_id" r ≠ NULL ∧ column "rule_id" r ∈ ids) (rows t).

(** The old rules are untouched and every link names one of them. *)
Definition migrating (told : table) (s : store) : Prop :=
  s !! "access_rules" = Some told ∧
  ∃ t, s !! "access_rule_groups" = Some t ∧ links_to (column "id" <$> rows told) t.

Lemma insert_new_rule told r (s s' : store) :
  migrating told s → insert_or_ignore "access_rules_new" r s = (s', Ok tt) →
  migrating told s'.
Proof.
  intros (H1 & t & H2 & H3). unfold insert_or_ignore.
  destruct (s !! "access_rules_new") as [tn|]; [|done].
  repeat case_match; intros; simplify_eq; (split; [|exists t]);
    rewrite ?lookup_insert_ne by done; auto.
Qed.

Lemma insert_link told r (s s' : store) :
  migrating told s → insert_or_ignore "access_rule_groups" r s = (s', Ok tt) →
  migrating told s'.
Proof.
  intros (H1 & t & H2 & H3). unfold insert_or_ignore. rewrite H2.
  destruct (_ || _) eqn:Eskip.
  { intros [= <-]. split; [done|]. by exists t. }
  destruct (fk_accepts s t r) eqn:Efk; [|done]. intros [= <-].
  split; [by rewrite lookup_insert_ne|].
  eexists. rewrite lookup_insert_eq. split; [done|].
  destruct H3 as (H3 & H4 & H5 & H6). split_and!; [done|done|done|].
  unfold with_rows; simpl. apply Forall_app. split; [done|]. apply Forall_singleton.
  apply orb_false_iff in Eskip as [_ Enn].
  unfold missing_value in Enn. rewrite H4 in Enn. simpl in Enn.
  apply orb_false_iff in Enn as [Enn%bool_decide_eq_false _]. split; [done|].
  unfold fk_accepts in Efk. rewrite H3 in Efk. simpl in Efk.
  unfold rows_of in Efk. rewrite H1 in Efk. simpl in Efk.
  apply andb_true_iff in Efk as [Efk _]. apply orb_true_iff in Efk as [E|E];
    by apply bool_decide_eq_true in E.
Qed.

Lemma migrate_rows told l (s s' : store) :
  migrating told s → forEach migrate_row l s = (s', Ok tt) → migrating told s'.
Proof.
  revert s. induction l as [|r l IH]; intros s Hs; simpl.
  - by intros [-> _]%ret_Ok.
  - intros (s1 & [] & H1 & H2)%bind_Ok. apply (IH s1); [|done]. clear H2.
    unfold migrate_row in H1. case_bool_decide; [|by apply ret_Ok in H1 as [-> _]].
    apply bind_Ok in H1 as (s2 & [] & H1 & H2).
    eapply insert_link; [|done]. by eapply insert_new_rule.
Qed.

(** Dropping the old rules deletes every link. *)
Lemma drop_deletes_links told t :
  links_to (column "id" <$> rows told) t →
  rows (on_delete "access_rules" (rows told) t) = [].
Proof.
  intros (Hfk & _ & _ & Hl). unfold on_delete. rewrite Hfk.
  unfold with_rows; simpl. apply filter_none. intros r Hr.
  rewrite Forall_forall in Hl. destruct (Hl r Hr) as [Hn Hin].
  by rewrite !bool_decide_eq_true_2.
Qed.

(** C29: migrating a file with the old access rules (a table [access_rules] with
    a column [subject_id], and no table [access_rule_groups] yet) never carries a
    group over: whenever the migration completes, [access_rule_groups] is empty.
    The links are inserted while [initSchema]'s foreign key still names the old
    table, and dropping that table deletes them by ON DELETE CASCADE. *)
Theorem migration_loses_groups : ∀ (s s' : store) (told : table),
  s !! "access_rules" = Some told → "subject_id" ∈ columns told →
  s !! "access_rule_groups" = None →
  (initSchema ;; ensureAccessRuleSchema) s = (s', Ok tt) →
  rows_of s' "access_rule_groups" = [].
Proof.
  intros s s' told Hold Hcol Hnone Hrun.
  apply bind_Ok in Hrun as (s1 & [] & H1 & Hrun).
  rewrite initSchema_run in H1. injection H1 as <-.
  set (s1 := s ∪ schema_store) in *.
  assert (s1 !! "access_rules" = Some told) as Hold1 by (by apply lookup_union_Some_l).
  assert (s1 !! "access_rule_groups" = Some access_rule_groups_table) as Hnew1.
  { unfold s1. rewrite lookup_union, Hnone. vm_compute. reflexivity. }
  unfold ensureAccessRuleSchema in Hrun.
  apply bind_Ok in Hrun as (s2 & b & [-> Hb]%gets_Ok & Hrun).
  rewrite Hold1 in Hb. simpl in Hb. rewrite bool_decide_eq_true_2 in Hb by done. subst b.
  apply bind_Ok in Hrun as (s3 & b & [-> _]%gets_Ok & Hrun).
  apply bind_Ok in Hrun as (s4 & [] & Hmig & Hlast).
  rewrite andb_false_r in Hlast. apply ret_Ok in Hlast as [-> _].
  apply bind_Ok in Hmig as (s5 & [] & H5 & Hmig).
  rewrite create_table_run in H5. injection H5 as <-.
  apply bind_Ok in Hmig as (s6 & [] & H6 & Hmig).
  rewrite create_table_run in H6. injection H6 as <-.
  apply bind_Ok in Hmig as (s7 & legacy & [-> _]%gets_Ok & Hmig).
  set (s8 := s1 ∪ _ ∪ _) in *.
  assert (migrating told s8) as Hs8.
  { split; [by do 2 apply lookup_union_Some_l|]. exists access_rule_groups_table.
    split; [by do 2 apply lookup_union_Some_l|]. by repeat split; constructor. }
  apply bind_Ok in Hmig as (s9 & [] & Htx & Hmig).
  assert (migrating told s9) as (Hr9 & t9 & Ht9 & Hl9).
  { unfold store_transaction in Htx. destruct (forEach _ _ _) as [x [[]|e]] eqn:E; [|done].
    injection Htx as <-. by eapply migrate_rows. }
  apply bind_Ok in Hmig as (s10 & [] & Hdrop & Hren).
  unfold drop_table in Hdrop. rewrite Hr9 in Hdrop. injection Hdrop as <-.
  unfold rename_table in Hren. repeat case_match; simplify_eq.
  unfold rows_of. rewrite lookup_fmap, lookup_insert_ne, lookup_delete_ne by done.
  rewrite lookup_fmap, lookup_delete_ne, Ht9 by done. simpl.
  by eapply drop_deletes_links.
Qed.

(** An old file with one group rule: the rule survives, its group does not. *)
Definition legacy_row : row :=
  list_to_map [("id", TEXT "rule_1"); ("resource_id", TEXT "res_1");
    ("subject_id", TEXT "grp_1"); ("subject_type", TEXT "GROUP");
    ("subject_name", TEXT "Engineering"); ("created_at", TEXT "2025-12-01")].

Definition legacy_rules : table :=
  mkTable ["id"; "resource_id"; "subject_id"; "subject_type"; "subject_name"; "created_at"]
    ["id"] [] [] [legacy_row].

Definition legacy_file : store :=
  <["access_rules" := legacy_rules]>
  (<["groups" := with_rows (λ _, [{["id" := TEXT "grp_1"]}]) groups_table]>
  (<["resources" := with_rows (λ _, [{["id" := TEXT "res_1"]}]) resources_table]> ∅)).

Lemma migration_loses_groups_witness :
  let s' := state_of (initSchema ;; ensureAccessRuleSchema) legacy_file in
  rows_of s' "access_rule_groups" = [] ∧
  (column "name" <$> rows_of s' "access_rules") = [TEXT "Engineering access"].
Proof.
  intros s'. split; [|vm_compute; reflexivity].
  apply (migration_loses_groups legacy_file s' legacy_rules).
  - vm_compute. reflexivity.
  - apply (bool_decide_unpack ("subject_id" ∈ columns legacy_rules)). vm_compute. exact I.
  - vm_compute. reflexivity.
  - unfold s', state_of. apply injective_projections; [reflexivity|].
    vm_compute. reflexivity.
Defined.
