(* ===== verification/PolicyPages.v ===== *)
(** * The policy pages ([src/pages/policy])

    These pages work on local storage at once: nothing is awaited.  A page is a transition
    system on its state and the storage; what a handler throws is logged and loses what it
    would have done afterwards, what an effect throws takes the page away. *)
From stdpp Require Import relations.
From S2P Require Import Prelude JsString Json Uri Storage Ui Dynamic.
From S2P Require DeviceProfiles ResourcePolicies SignInPolicy.
From Stdlib Require Import ZArith.

(** ** Pages on local storage *)

Definition on_storage {S A} (m : M storage A) : M (S * storage) A := λ '(s, st),
  let '(st', r) := m st in ((s, st'), r).
Definition on_page {S} (f : S → S) : M (S * storage) unit := modify (λ '(s, st), (f s, st)).

Record local_page := mkLocal {
  pstate : Type;
  pevent : Type;
  pinit : storage → pstate;                       (* at the first rendering *)
  peffect : M (pstate * storage) unit;            (* once it is shown *)
  pview : pstate → ui pevent;
  phandle : pevent → M (pstate * storage) unit }.

Inductive local_step (P : local_page) : pstate P * storage → pstate P * storage → Prop :=
  | local_user s st e : offered (pview P s) e →
      local_step P (s, st) (state_of (phandle P e) (s, st)).

(** From the storage [st], when the effect does not throw. *)
Definition local_reachable (P : local_page) (st : storage) (c : pstate P * storage) : Prop :=
  ∃ c0, peffect P (pinit P st, st) = (c0, Ok tt) ∧ rtc (local_step P) c0 c.

(** [src/pages/policy/PolicyLayout.tsx] *)
Definition PolicyLayout {E} (outlet : ui E) : ui E :=
  Box [Text "Policy"; Text "Configure access policies, sign-in rules, and device profiles."; outlet].

(** ** [src/pages/policy/ResourcePoliciesPage.tsx] *)
Module ResourcePoliciesPage.
Import ResourcePolicies.

(** The dialog calls [onCreated] when [createResourcePolicy] has not thrown, [onClose] when it
    is dismissed. *)
Inductive event :=
  | OpenCreate | CloseCreate | Create (ids : id_source) (name : string)
  | Delete (policy : jsv) (confirmed : bool).

Record state := mkState { policies : list jsv; isCreateOpen : bool }.
Definition setPolicies (v : list jsv) : M (state * storage) unit :=
  on_page (λ s, mkState v (isCreateOpen s)).
Definition setIsCreateOpen (v : bool) : M (state * storage) unit :=
  on_page (λ s, mkState (policies s) v).

Definition initial : state := mkState [] false.

Definition load : M (state * storage) unit :=
  on_storage ensureDefaultResourcePolicy ;;
  l ← on_storage listResourcePolicies;
  setPolicies l.

Section Locale.
  (** [a.localeCompare(b)] of the engine. *)
  Context (localeCompare : string → string → Z).

(** What [sort] compares by; the argument of [localeCompare] is converted, its receiver
    must be a string. *)
Definition compare (a b : jsv) : outcome Z :=
  da ← field a "isDefault";
  db ← field b "isDefault";
  if truthy da && negb (truthy db) then Ok (-1)%Z
  else if negb (truthy da) && truthy db then Ok 1%Z
  else match opt_field a "name" with
       | JStr n => Ok (localeCompare n (to_string (opt_field b "name")))
       | _ => Throw TypeError
       end.

(** The sort is stable: [x] comes before what it is not greater than. *)
Fixpoint insert_sorted (x : jsv) (l : list jsv) : outcome (list jsv) :=
  match l with
  | [] => Ok [x]
  | y :: l' =>
      c ← compare x y;
      if (c <=? 0)%Z then Ok (x :: l) else (k ← insert_sorted x l'; Ok (y :: k))
  end.
Fixpoint sorted (l : list jsv) : outcome (list jsv) :=
  match l with
  | [] => Ok []
  | x :: l' => k ← sorted l'; insert_sorted x k
  end.

Definition policy_link (id : jsv) : string :=
  "/dashboard/policy/resource-policies/" +:+ encodeURIComponent (to_string id).

Definition row (p : jsv) : outcome (ui event) :=
  id ← field p "id";
  name ← shown_field p "name";
  let default := truthy (opt_field p "isDefault") in
  Ok (Box
    [Link (policy_link id) [Text name];
     Text (if default then "Default" else "Custom");
     if default then Button "Default policy locked" true OpenCreate
     else Ask ("Delete " +:+ to_string (opt_field p "name")) false (Delete p)]).

Definition render (s : state) : outcome (ui event) :=
  l ← sorted (policies s);
  rows ← map_outcome row l;
  Ok (Box
    [Text "Resource Policies"; Text "Manage how users access protected resources.";
     Button "Create" false OpenCreate;
     Text "Policy Name"; Text "Type"; Text "Actions"; Box rows;
     show_if (isCreateOpen s)
       (Child (λ e, e = CloseCreate ∨ ∃ ids name, e = Create ids name))]).

(** A default policy is not deleted; the confirmation has been asked for in [render]. *)
Definition handleDelete (policy : jsv) (confirmed : bool) : M (state * storage) unit :=
  default ← lift (field policy "isDefault");
  if truthy default then mret tt
  else if confirmed then
    id ← lift (field policy "id");
    on_storage (deleteResourcePolicy id) ;;
    load
  else mret tt.

Definition on (e : event) : M (state * storage) unit :=
  match e with
  | OpenCreate => setIsCreateOpen true
  | CloseCreate => setIsCreateOpen false
  | Create ids name =>
      created ← try_catch (on_storage (createResourcePolicy ids (trim name)) ;; mret true)
                  (λ _, mret false);
      if created : bool then setIsCreateOpen false ;; load else mret tt
  | Delete p b => handleDelete p b
  end.

Definition page : local_page :=
  mkLocal state event (λ _, initial) load (λ s, or_crash (render s)) on.
End Locale.
End ResourcePoliciesPage.

(** ** [src/pages/policy/ResourcePolicyDetailPage.tsx], for one [policyId] of the address *)
Module ResourcePolicyDetailPage.
Import ResourcePolicies.
Inductive event := PickMode (mode : string).

Record state := mkState { policy : jsv }.
Definition setPolicy (v : jsv) : M (state * storage) unit := on_page (λ _, mkState v).

Definition initial : state := mkState JNull.

Section Policy.
  Context (policyId : option string).

(** A parameter that is there and not empty. *)
Definition given_id : option string :=
  match policyId with Some i => if decide (i = "") then None else Some i | None => None end.

Definition load : M (state * storage) unit :=
  on_storage ensureDefaultResourcePolicy ;;
  match given_id with
  | None => mret tt
  | Some i => p ← on_storage (getResourcePolicy i); setPolicy p
  end.

Definition deviceMode (s : state) : string :=
  let v := opt_field (opt_field (policy s) "deviceSecurity") "mode" in
  if is_str v "trusted" then "trusted" else if is_str v "custom" then "custom" else "any".

(** [{ ...policy, deviceSecurity: { mode } }] *)
Definition with_mode (policy : jsv) (mode : string) : jsv :=
  JObj (assoc_set "deviceSecurity" (JObj [("mode", JStr mode)]) (spread policy)).

Definition setDeviceMode (mode : string) : M (state * storage) unit :=
  s ← gets fst;
  if negb (truthy (policy s)) then mret tt
  else
    let next := with_mode (policy s) mode in
    setPolicy next ;;
    on_storage (saveResourcePolicy next).

Definition modes : list (string * string) :=
  [("any", "Any Device"); ("trusted", "Only Trusted Devices"); ("custom", "Custom")].

Definition back : ui event :=
  Link "/dashboard/policy/resource-policies" [Text "Back to Resource Policies"].

Definition render (s : state) : outcome (ui event) :=
  match given_id with
  | None => Ok (Box [Text "Policy Not Found"; Text "Missing policy id."])
  | Some _ =>
      if negb (truthy (policy s)) then
        Ok (Box [back; Text "Policy Not Found"; Text "It looks like this policy does not exist."])
      else
        name ← shown (opt_field (policy s) "name");
        Ok (Box
          [back; Text name; Text "Configure this resource policy.";
           Text "Geo Location Options"; Text "Configure geo-based access rules for this policy.";
           Text "Add geo location controls here.";
           Text "Authentication Requirements"; Text "Configure authentication requirements for this policy.";
           Text "Add authentication controls here.";
           Text "Device Security"; Text "Choose what device posture is required for access.";
           Select "Device Security" (deviceMode s) false modes PickMode;
           Text "Allow access from any device."; Text "Require a trusted device posture.";
           Text "Define custom device requirements.";
           show_if (bool_decide (deviceMode s = "custom"))
             (Text "Add custom device security controls here.")])
  end.

Definition on (e : event) : M (state * storage) unit :=
  match e with PickMode mode => setDeviceMode mode end.

Definition page : local_page :=
  mkLocal state event (λ _, initial) load (λ s, or_crash (render s)) on.
End Policy.
End ResourcePolicyDetailPage.

(** ** [src/pages/policy/DeviceProfilesPage.tsx] *)
Module DeviceProfilesPage.
Import DeviceProfiles.
Inductive event := AddProfile (p : Platform) | Toggle (p : Platform) (enabled : bool).

(** What [useMemo] has computed for the last [refreshKey]. *)
Record state := mkState { memo : DeviceProfilesState }.

Definition initial (st : storage) : state :=
  mkState match result_of getDeviceProfiles st with Ok v => v | Throw _ => DEFAULT_STATE end.

(** [setRefreshKey((k) => k + 1)]: the profiles are read again. *)
Definition refresh : M (state * storage) unit :=
  v ← on_storage getDeviceProfiles; on_page (λ _, mkState v).

Definition handleAddProfile (p : Platform) : M (state * storage) unit :=
  on_storage (addTrustedProfile p) ;; refresh.
Definition handleToggle (p : Platform) (enabled : bool) : M (state * storage) unit :=
  on_storage (setApprovedOS p enabled) ;; refresh.

Definition switch (s : state) (p : Platform) : ui event :=
  Checkbox ("Approve " +:+ platform_name p) (approved (memo s) p) (Toggle p).

Definition render (s : state) : ui event :=
  Box [Text "Trusted Device Profiles"; Text "Create profiles for platforms you consider trusted.";
       Box ((λ p, Button (platform_name p) false (AddProfile p)) <$> PLATFORMS);
       match trustedProfiles (memo s) with
       | [] => Text "No trusted device profiles created yet."
       | l => Box ((λ p, Text (platform_name p)) <$> l)
       end;
       Text "Approved Operating Systems"; Text "Toggle which operating systems are approved for access.";
       Box ((λ p, Box [Text (platform_name p); switch s p]) <$> PLATFORMS)].

Definition on (e : event) : M (state * storage) unit :=
  match e with AddProfile p => handleAddProfile p | Toggle p b => handleToggle p b end.

Definition page : local_page := mkLocal state event initial refresh render on.
End DeviceProfilesPage.

(** ** [src/pages/policy/SignInPolicyPage.tsx] *)
Module SignInPolicyPage.
Import SignInPolicy.
Inductive ManagePanel := reauth | mfa.
#[global] Instance ManagePanel_eq_dec : EqDecision ManagePanel.
Proof. solve_decision. Defined.

Inductive event :=
  | Manage (p : ManagePanel) | TypeDays (v : string) | TypeHours (v : string) | ConfirmReauth
  | PickMfa (v : string) | ConfirmMfa.

(** [memo] is what [useMemo] has computed for the current [panel]. *)
Record state := mkState {
  panel : option ManagePanel;
  days_text : string;
  hours_text : string;
  mfaMode : string;
  error : option string;
  memo : SignInPolicyState }.
Definition setDays (v : string) : M (state * storage) unit :=
  on_page (λ s, mkState (panel s) v (hours_text s) (mfaMode s) (error s) (memo s)).
Definition setHours (v : string) : M (state * storage) unit :=
  on_page (λ s, mkState (panel s) (days_text s) v (mfaMode s) (error s) (memo s)).
Definition setMfaMode (v : string) : M (state * storage) unit :=
  on_page (λ s, mkState (panel s) (days_text s) (hours_text s) v (error s) (memo s)).
Definition setError (v : option string) : M (state * storage) unit :=
  on_page (λ s, mkState (panel s) (days_text s) (hours_text s) (mfaMode s) v (memo s)).

(** A change of the panel makes the next rendering read the policy again. *)
Definition setPanel (v : option ManagePanel) : M (state * storage) unit :=
  s ← gets fst;
  policy ← (if decide (panel s = v) then mret (memo s) else on_storage getSignInPolicy);
  on_page (λ s, mkState v (days_text s) (hours_text s) (mfaMode s) (error s) policy).

Definition initial (st : storage) : state :=
  mkState None "30" "0" "no" None
    match result_of getSignInPolicy st with Ok v => v | Throw _ => DEFAULT_STATE end.

Definition loadFields : M (state * storage) unit :=
  p ← on_storage getSignInPolicy;
  setDays (string_of_num (days p)) ;;
  setHours (string_of_num (hours p)) ;;
  setMfaMode (if required p then "yes" else "no").

Definition summaryReauth (s : state) : string :=
  "Authenticate every " +:+ string_of_num (days (memo s)) +:+ " days".
Definition summaryMfa (s : state) : string :=
  if required (memo s) then "MFA Required" else "MFA Not Required".

Definition confirmReauth : M (state * storage) unit :=
  setError None ;;
  s ← gets fst;
  message ← on_storage (handleConfirmReauth (days_text s) (hours_text s));
  match message with Some m => setError (Some m) | None => setPanel None end.

Definition confirmMfa : M (state * storage) unit :=
  s ← gets fst;
  on_storage (handleConfirmMfa (mfaMode s)) ;;
  setPanel None.

(** [setPanel(panel === p ? null : p)] *)
Definition toggle (p : ManagePanel) : M (state * storage) unit :=
  s ← gets fst; setPanel (if decide (panel s = Some p) then None else Some p).

Definition mfa_options : list (string * string) := [("no", "Don't require MFA"); ("yes", "Require MFA")].

Definition reauth_panel (s : state) : ui event :=
  Box [Text "Authentication"; Text "Require authentication at least once every";
       Input "Days" (days_text s) false TypeDays; Input "Hours" (hours_text s) false TypeHours;
       match error s with
       | Some m => show_if (negb (bool_decide (m = ""))) (Text m)
       | None => Nothing
       end;
       Button "Confirm changes" false ConfirmReauth].

Definition mfa_panel (s : state) : ui event :=
  Box [Select "MFA" (mfaMode s) false mfa_options PickMfa;
       Text "Users will be required to authenticate with a second method like TOTP, Biometrics, or a Security Key.";
       Button "Confirm changes" false ConfirmMfa].

(** The titles of the cards do not depend on the policy. *)
Definition render (s : state) : ui event :=
  Box [Text "Sign In Requirements"; Text "Configure re-authentication frequency and MFA requirements.";
       Text "Authenticate every 30 days"; Text (summaryReauth s); Button "Manage" false (Manage reauth);
       show_if (bool_decide (panel s = Some reauth)) (reauth_panel s);
       Text "MFA Not Required"; Text (summaryMfa s); Button "Manage" false (Manage mfa);
       show_if (bool_decide (panel s = Some mfa)) (mfa_panel s)].

Definition on (e : event) : M (state * storage) unit :=
  match e with
  | Manage p => toggle p
  | TypeDays v => setDays v
  | TypeHours v => setHours v
  | ConfirmReauth => confirmReauth
  | PickMfa v => setMfaMode v
  | ConfirmMfa => confirmMfa
  end.

Definition page : local_page := mkLocal state event initial loadFields render on.
End SignInPolicyPage.
