(* ===== verification/PolicyProps.v ===== *)
(** * The policy pages show what is stored *)
From stdpp Require Import relations sorting gmap.
From S2P Require Import Prelude JsString Json Uri Storage Ui Dynamic PolicyPages.
From S2P Require DeviceProfiles ResourcePolicies SignInPolicy.
From Stdlib Require Import ZArith Lia.

(** ** Pages on local storage *)

Lemma local_invariant (P : local_page) st (I : pstate P * storage → Prop) :
  (∀ c, peffect P (pinit P st, st) = (c, Ok tt) → I c) →
  (∀ s st' e, I (s, st') → offered (pview P s) e → I (state_of (phandle P e) (s, st'))) →
  ∀ c, local_reachable P st c → I c.
Proof.
  intros Hi Hh c (c0 & E & Hr). revert c Hr. apply (rtc_ind_r I); [by apply Hi|].
  intros c1 c2 _ Hs Hc. destruct Hs. by apply Hh.
Qed.

Lemma on_storage_run {S A} (m : M storage A) (s : S) st st' r :
  m st = (st', r) → on_storage m (s, st) = ((s, st'), r).
Proof. intros E. unfold on_storage. by rewrite E. Qed.

(** A handler starts with a run on the storage. *)
Lemma bind_storage {S A B} (m : M storage A) (f : A → M (S * storage) B) s st st' a :
  m st = (st', Ok a) → (on_storage m ≫= f) (s, st) = f a (s, st').
Proof. intros E. apply bind_run. by apply on_storage_run. Qed.

(** ** The list of resource policies *)

Section Policies.
  Import ResourcePolicies.
  Context (lc : string → string → Z).

(** The controls of a list of rows. *)
Lemma rows_offer_row {E} (f : jsv → outcome (ui E)) l rows e : map_outcome f l = Ok rows →
  foldr (λ u P, offered u e ∨ P) False rows → ∃ x u, x ∈ l ∧ f x = Ok u ∧ offered u e.
Proof.
  revert rows. induction l as [|x l IH]; intros rows Hm He; cbn in Hm.
  { injection Hm as <-. done. }
  destruct (f x) as [u|] eqn:E1; [|done]. cbn in Hm. destruct (map_outcome f l) as [us|]; [|done].
  injection Hm as <-. cbn in He. destruct He as [He|He].
  - exists x, u. split_and!; [by left|done|done].
  - destruct (IH us eq_refl He) as (y & v & Hy & Hv). exists y, v. by split; [right|].
Qed.

(** Sorting policies does not throw. *)
Definition before (a b : ResourcePolicy) : bool :=
  if isDefault a && negb (isDefault b) then true
  else if negb (isDefault a) && isDefault b then false
  else (lc (policy_name a) (policy_name b) <=? 0)%Z.

Fixpoint insert_policy (x : ResourcePolicy) (l : list ResourcePolicy) : list ResourcePolicy :=
  match l with
  | [] => [x]
  | y :: l' => if before x y then x :: l else y :: insert_policy x l'
  end.
Definition sort_policies : list ResourcePolicy → list ResourcePolicy := foldr insert_policy [].

Lemma compare_policies a b : ∃ c,
  ResourcePoliciesPage.compare lc (policy_js a) (policy_js b) = Ok c ∧ (c <=? 0)%Z = before a b.
Proof.
  destruct a as [ia na [] ma], b as [ib nb [] mb]; eexists; by split.
Qed.

Lemma insert_policies x l :
  ResourcePoliciesPage.insert_sorted lc (policy_js x) (policy_js <$> l) =
    Ok (policy_js <$> insert_policy x l).
Proof.
  induction l as [|y l IH]; [done|]. rewrite fmap_cons.
  destruct (compare_policies x y) as (c & E & Hc).
  cbn [ResourcePoliciesPage.insert_sorted insert_policy]. rewrite E. cbn [mbind outcome_bind].
  rewrite Hc. destruct (before x y); [done|]. by rewrite IH.
Qed.

Lemma sorted_policies l :
  ResourcePoliciesPage.sorted lc (policy_js <$> l) = Ok (policy_js <$> sort_policies l).
Proof.
  induction l as [|x l IH]; [done|]. rewrite fmap_cons. cbn [ResourcePoliciesPage.sorted].
  rewrite IH. cbn [mbind outcome_bind]. apply insert_policies.
Qed.

Lemma insert_policy_perm x l : insert_policy x l ≡ₚ x :: l.
Proof.
  induction l as [|y l IH]; [done|]. cbn. destruct (before x y); [done|].
  rewrite IH. apply Permutation_swap.
Qed.

Lemma sort_policies_perm l : sort_policies l ≡ₚ l.
Proof.
  induction l as [|x l IH]; [done|]. cbn. by rewrite insert_policy_perm; f_equiv.
Qed.

(** Default policies come first. *)
Definition default_first (a b : ResourcePolicy) : Prop := isDefault b = true → isDefault a = true.

Lemma insert_policy_sorted x l : StronglySorted default_first l →
  StronglySorted default_first (insert_policy x l).
Proof.
  induction 1 as [|y l Hl IH Hy]; [by repeat constructor|]. cbn.
  destruct (before x y) eqn:E.
  - constructor; [by constructor|]. constructor.
    + unfold before in E. unfold default_first. destruct (isDefault x), (isDefault y); done.
    + apply (Forall_impl _ _ _ Hy). intros z Hz Hd. specialize (Hz Hd).
      unfold before in E. rewrite Hz in E. by destruct (isDefault x).
  - constructor; [done|]. rewrite insert_policy_perm. constructor; [|done].
    unfold before in E. unfold default_first. destruct (isDefault x), (isDefault y); done.
Qed.

Lemma sort_policies_sorted l : StronglySorted default_first (sort_policies l).
Proof. induction l as [|x l IH]; [constructor|]. by apply insert_policy_sorted. Qed.

Lemma policy_row p : ∃ u, ResourcePoliciesPage.row (policy_js p) = Ok u.
Proof. by destruct p as [i n [] m]; eexists. Qed.

Lemma policy_rows l : ∃ rows, map_outcome ResourcePoliciesPage.row (policy_js <$> l) = Ok rows.
Proof.
  induction l as [|p l [rows IH]]; [by eexists|]. rewrite fmap_cons. cbn [map_outcome].
  destruct (policy_row p) as [u ->]. cbn [mbind outcome_bind]. rewrite IH. by eexists.
Qed.

(** The page shows the policies that are stored, the default policy among them. *)
Definition shows_stored (c : ResourcePoliciesPage.state * storage) : Prop :=
  ∃ m ps, c.2 = Some m ∧ holds (Some m) ps ∧ existsb (is_id DEFAULT_ID) ps = true ∧
    ResourcePoliciesPage.policies c.1 = policy_js <$> ps.

Lemma with_default_has ps : existsb (is_id DEFAULT_ID) (with_default ps) = true.
Proof. unfold with_default. by destruct (existsb (is_id DEFAULT_ID) ps) eqn:E. Qed.

Lemma with_default_same ps : existsb (is_id DEFAULT_ID) ps = true → with_default ps = ps.
Proof. intros E. unfold with_default. by rewrite E. Qed.

Lemma load_shows s m ps : holds (Some m) ps → ∃ c,
  ResourcePoliciesPage.load (s, Some m) = (c, Ok tt) ∧ shows_stored c.
Proof.
  intros Hm. destruct (ensure_run m ps Hm) as (m1 & E1 & H1).
  destruct (list_run m1 _ (proj1 H1)) as (m2 & E2 & H2). unfold ResourcePoliciesPage.load.
  rewrite (bind_storage _ _ _ _ _ _ E1), (bind_storage _ _ _ _ _ _ E2).
  eexists. split; [reflexivity|]. exists m2, (with_default (with_default ps)).
  split_and!; [done|apply H2|apply with_default_has|done].
Qed.

Lemma deletable s e q b :
  ResourcePoliciesPage.policies s = policy_js <$> q →
  offered (or_crash (ResourcePoliciesPage.render lc s)) e → e = ResourcePoliciesPage.Delete b.1 b.2 →
  ∃ p, p ∈ q ∧ b.1 = policy_js p ∧ isDefault p = false.
Proof.
  intros Hs Ho ->. unfold ResourcePoliciesPage.render in Ho. rewrite Hs, sorted_policies in Ho.
  cbn [mbind outcome_bind] in Ho.
  destruct (policy_rows (sort_policies q)) as [rows Er]. rewrite Er in Ho.
  cbn [mbind outcome_bind or_crash] in Ho. cbn in Ho.
  do 2 (destruct Ho as [[]|Ho]). destruct Ho as [[_ Ho]|Ho]; [done|].
  do 3 (destruct Ho as [[]|Ho]). destruct Ho as [Ho|[Ho|[]]].
  - destruct (rows_offer_row _ _ _ _ Er Ho) as (x & u & Hx & Hu & Ho').
    apply list_elem_of_fmap in Hx as (p & -> & Hp). exists p. rewrite sort_policies_perm in Hp.
    split; [done|]. destruct p as [i n [] md]; injection Hu as <-; cbn in Ho'; [naive_solver|].
    split; [naive_solver|done].
  - unfold show_if in Ho. destruct (ResourcePoliciesPage.isCreateOpen s); cbn in Ho; naive_solver.
Qed.

Lemma shows_step s st e : shows_stored (s, st) →
  offered (or_crash (ResourcePoliciesPage.render lc s)) e →
  shows_stored (state_of (ResourcePoliciesPage.on e) (s, st)).
Proof.
  intros (m & ps & Hst & Hm & Hd & Hp) Ho. cbn in Hst, Hp. subst st.
  destruct e as [| |ids name|p b].
  - by exists m, ps.
  - by exists m, ps.
  - cbn [ResourcePoliciesPage.on]. destruct (create_run m ps ids (trim name) Hm) as (m' & E & H).
    rewrite !(with_default_same ps Hd) in *.
    unfold state_of. unfold mbind at 1, M_bind at 1, try_catch.
    destruct (decide (trim (trim name) = "")) as [Ht|Ht];
      [|destruct (name_taken (trim (trim name)) ps) eqn:En].
    1, 2: unfold mbind at 1, M_bind at 1; rewrite (on_storage_run _ _ _ _ _ E);
      exists m', ps; split_and!; [done|apply H|done|done].
    rewrite (bind_storage _ _ _ _ _ _ E). cbn [mret M_ret].
    unfold mbind at 1, M_bind at 1. cbn [ResourcePoliciesPage.setIsCreateOpen on_page modify].
    edestruct (load_shows (ResourcePoliciesPage.mkState (ResourcePoliciesPage.policies s) false) m' _
      (proj1 H)) as (c & -> & Hc). exact Hc.
  - destruct (deletable s _ ps (p, b) Hp Ho eq_refl) as (q & _ & Eq & _). cbn in Eq. subst p.
    cbn [ResourcePoliciesPage.on]. unfold ResourcePoliciesPage.handleDelete.
    assert (lift (S:=ResourcePoliciesPage.state * storage) (field (policy_js q) "isDefault") =
      mret (JBool (isDefault q))) as -> by done.
    unfold state_of. rewrite (bind_run _ _ _ (s, Some m) (JBool (isDefault q)) eq_refl). cbn [truthy].
    destruct (isDefault q); [by exists m, ps|]. destruct b; [|by exists m, ps].
    rewrite (bind_run _ _ _ (s, Some m) (JStr (policy_id q)) eq_refl).
    destruct (delete_run m ps (policy_id q) Hm) as (m' & E & H).
    rewrite (bind_storage _ _ _ _ _ _ E).
    destruct (load_shows s m' _ (proj1 H)) as (c & -> & Hc). exact Hc.
Qed.
End Policies.

(** ** One policy *)

Section Detail.
  Import ResourcePolicies.

Lemma spread_policy q mode :
  ResourcePolicyDetailPage.with_mode (policy_js q) (mode_name mode) = policy_js (set_mode mode q).
Proof. by destruct q. Qed.

Lemma find_replaced i p q ps : find_row (is_id i) ps = Some p → policy_id q = i →
  find_row (is_id i) (replace_policy q ps) = Some q.
Proof.
  intros Hf Hq. unfold replace_policy, find_row in *. rewrite Hq.
  induction ps as [|x ps IH]; [done|]. rewrite fmap_cons, !filter_cons in *.
  destruct (is_id i x) eqn:E.
  - rewrite decide_True; [done|]. unfold is_id. by apply bool_decide_eq_true.
  - rewrite (decide_False (P:=is_id i x = true)) in * by congruence. by apply IH.
Qed.

(** The page of the policy [i] and the storage: the policy shown is the stored one, and
    the other ones are those of [ps]. *)
Definition shows_policy (i : string) (ps : list ResourcePolicy)
    (c : ResourcePolicyDetailPage.state * storage) : Prop :=
  ∃ m ps', c.2 = Some m ∧ holds (Some m) ps' ∧ existsb (is_id DEFAULT_ID) ps' = true ∧
    ResourcePolicyDetailPage.policy c.1 = from_option policy_js JNull (find_row (is_id i) ps') ∧
    filter (λ p, policy_id p ≠ i) ps' = filter (λ p, policy_id p ≠ i) (with_default ps) ∧
    policy_id <$> ps' = policy_id <$> with_default ps.

Lemma replace_others i q ps : policy_id q = i →
  filter (λ p, policy_id p ≠ i) (replace_policy q ps) = filter (λ p, policy_id p ≠ i) ps ∧
  policy_id <$> replace_policy q ps = policy_id <$> ps.
Proof.
  intros Hq. unfold replace_policy. rewrite Hq. induction ps as [|x ps [IH1 IH2]]; [done|].
  rewrite !fmap_cons, !filter_cons, IH1, IH2. unfold is_id. case_bool_decide as E.
  - by rewrite !decide_False, Hq, E by (by intros []).
  - by rewrite decide_True.
Qed.

Lemma existsb_ids ps ps' : policy_id <$> ps' = policy_id <$> ps →
  existsb (is_id DEFAULT_ID) ps = true → existsb (is_id DEFAULT_ID) ps' = true.
Proof.
  revert ps'. induction ps as [|x ps IH]; intros [|y ps'] E; try done.
  rewrite !fmap_cons in E. injection E as E1 E2. cbn. unfold is_id in *. rewrite E1.
  destruct (bool_decide _); [done|]. by apply IH.
Qed.

Lemma detail_mounted i m ps s : i ≠ "" → holds (Some m) ps → ∃ c,
  ResourcePolicyDetailPage.load (Some i) (s, Some m) = (c, Ok tt) ∧ shows_policy i ps c.
Proof.
  intros Hi Hm. destruct (ensure_run m ps Hm) as (m1 & E1 & H1).
  destruct (get_run m1 _ i (proj1 H1)) as (m2 & E2 & H2). rewrite with_default_idemp in *.
  unfold ResourcePolicyDetailPage.load, ResourcePolicyDetailPage.given_id.
  rewrite (bind_storage _ _ _ _ _ _ E1), decide_False by done.
  rewrite (bind_storage _ _ _ _ _ _ E2). eexists. split; [reflexivity|].
  exists m2, (with_default ps). split_and!; try done; [apply H2|apply with_default_has].
Qed.

Lemma detail_pick i m ps ps' s mode p : holds (Some m) ps' → existsb (is_id DEFAULT_ID) ps' = true →
  ResourcePolicyDetailPage.policy s = policy_js p → find_row (is_id i) ps' = Some p →
  filter (λ p, policy_id p ≠ i) ps' = filter (λ p, policy_id p ≠ i) (with_default ps) →
  policy_id <$> ps' = policy_id <$> with_default ps →
  ∃ c, ResourcePolicyDetailPage.setDeviceMode (mode_name mode) (s, Some m) = (c, Ok tt) ∧
    shows_policy i ps c ∧ ResourcePolicyDetailPage.policy c.1 = policy_js (set_mode mode p).
Proof.
  intros Hm Hd Hs Hf Ho Hi. unfold ResourcePolicyDetailPage.setDeviceMode.
  rewrite (bind_run _ _ _ (s, Some m) s eq_refl). rewrite Hs.
  assert (truthy (policy_js p) = true) as -> by done. cbn [negb]. cbv zeta. rewrite spread_policy.
  destruct (save_run m ps' (set_mode mode p) Hm) as (m' & E & H).
  rewrite with_default_same in H by done.
  unfold mbind, M_bind. cbn [ResourcePolicyDetailPage.setPolicy on_page modify].
  rewrite (on_storage_run _ _ _ _ _ E). eexists. split; [reflexivity|]. split; [|done].
  assert (policy_id (set_mode mode p) = i) as Hid.
  { apply find_row_Some in Hf as [_ Hf]. by apply bool_decide_eq_true in Hf. }
  destruct (replace_others i (set_mode mode p) ps' Hid) as [R1 R2].
  exists m', (replace_policy (set_mode mode p) ps'). split_and!; [done|apply H| | | |].
  - by eapply existsb_ids.
  - cbn. by rewrite (find_replaced i p).
  - by rewrite R1.
  - by rewrite R2.
Qed.

(** What the page of a policy offers. *)
Lemma detail_offers i p s e : i ≠ "" → ResourcePolicyDetailPage.policy s = policy_js p →
  offered (or_crash (ResourcePolicyDetailPage.render (Some i) s)) e →
  ∃ mode, e = ResourcePolicyDetailPage.PickMode (mode_name mode).
Proof.
  intros Hi Hs. unfold ResourcePolicyDetailPage.render, ResourcePolicyDetailPage.given_id.
  rewrite decide_False by done. rewrite Hs.
  assert (truthy (policy_js p) = true) as -> by done. cbn [negb].
  assert (shown (opt_field (policy_js p) "name") = Ok (policy_name p)) as -> by done.
  cbn [mbind outcome_bind or_crash]. intros (u & Hu & Ho)%offered_list.
  unfold ResourcePolicyDetailPage.back in Hu. repeat (apply elem_of_cons in Hu as [->|Hu];
    [try (by cbn in Ho; naive_solver)|]); [| |by apply not_elem_of_nil in Hu].
  - cbn in Ho. destruct Ho as (_ & o & Hin & ->). unfold ResourcePolicyDetailPage.modes in Hin.
    repeat (apply elem_of_cons in Hin as [->|Hin]; [|]); [| | |by apply not_elem_of_nil in Hin].
    + by exists any_mode.
    + by exists trusted_mode.
    + by exists custom_mode.
  - by apply offered_show_if in Ho as [_ []].
Qed.

Lemma detail_none i s e : i ≠ "" → ResourcePolicyDetailPage.policy s = JNull →
  ¬ offered (or_crash (ResourcePolicyDetailPage.render (Some i) s)) e.
Proof.
  intros Hi Hs. unfold ResourcePolicyDetailPage.render, ResourcePolicyDetailPage.given_id.
  rewrite decide_False, Hs by done. cbn. naive_solver.
Qed.

(** One event of the page. *)
Lemma detail_step i ps s st e : i ≠ "" → shows_policy i ps (s, st) →
  offered (or_crash (ResourcePolicyDetailPage.render (Some i) s)) e →
  ∃ mode p c, e = ResourcePolicyDetailPage.PickMode (mode_name mode) ∧
    ResourcePolicyDetailPage.policy s = policy_js p ∧
    ResourcePolicyDetailPage.on e (s, st) = (c, Ok tt) ∧ shows_policy i ps c ∧
    ResourcePolicyDetailPage.policy c.1 = policy_js (set_mode mode p).
Proof.
  intros Hi (m & ps' & Hst & Hm & Hd & Hs & Ho & Hids) He. cbn in Hst, Hs. subst st.
  destruct (find_row (is_id i) ps') as [p|] eqn:Hf; [|by apply detail_none in He].
  destruct (detail_offers i p s e Hi Hs He) as (mode & ->). exists mode, p.
  destruct (detail_pick i m ps ps' s mode p Hm Hd Hs Hf Ho Hids) as (c & E & Hc & Hp). by exists c.
Qed.
End Detail.

(** ** The properties *)



(** C32: The page of one resource policy shows the stored policy in every reachable state, or
    that there is none.  Picking one of the device modes always succeeds, changes this field
    of the policy on the page and in the storage alike, and leaves every other
    policy and the order of the list alone. *)
Theorem policy_detail : ∀ (i : string) (m : items) (ps : list ResourcePolicies.ResourcePolicy),
  i ≠ "" → ResourcePolicies.holds (Some m) ps →
  ∀ s st, local_reachable (ResourcePolicyDetailPage.page (Some i)) (Some m) (s, st) →
    shows_policy i ps (s, st) ∧
    ∀ e, offered (or_crash (ResourcePolicyDetailPage.render (Some i) s)) e →
      ∃ mode p s' st' m', e = ResourcePolicyDetailPage.PickMode (ResourcePolicies.mode_name mode) ∧
        ResourcePolicyDetailPage.policy s = ResourcePolicies.policy_js p ∧
        ResourcePolicyDetailPage.on e (s, st) = ((s', st'), Ok tt) ∧
        ResourcePolicyDetailPage.deviceMode s' = ResourcePolicies.mode_name mode ∧
        ResourcePolicies.getResourcePolicy i st' =
          (m', Ok (ResourcePolicies.policy_js (ResourcePolicies.set_mode mode p))).
Proof.
  intros i m ps Hi Hm s st Hr. assert (shows_policy i ps (s, st)) as Hc.
  { apply (local_invariant (ResourcePolicyDetailPage.page (Some i)) (Some m) (shows_policy i ps));
      [| |exact Hr].
    - intros c E. destruct (detail_mounted i m ps ResourcePolicyDetailPage.initial Hi Hm) as (c' & E' & Hc).
      cbn in E. rewrite E' in E. by injection E as <-.
    - intros s1 st1 e H1 He. cbn [pstate pevent ResourcePolicyDetailPage.page] in s1, e.
      destruct (detail_step i ps s1 st1 e Hi H1 He) as (? & ? & c & _ & _ & E & H & _).
      change (shows_policy i ps (state_of (ResourcePolicyDetailPage.on e) (s1, st1))).
      unfold state_of. by rewrite E. }
  split; [exact Hc|]. intros e He.
  destruct (detail_step i ps s st e Hi Hc He) as (mode & p & [s' st'] & -> & Hp & E & H & Hp').
  destruct H as (m1 & ps1 & Hst & Hm1 & Hd & Hs & _). cbn in Hst, Hs, Hp'. subst st'.
  destruct (ResourcePolicies.get_run m1 ps1 i Hm1) as (m2 & E2 & _).
  rewrite with_default_same in E2 by done. rewrite <- Hs, Hp' in E2.
  exists mode, p, s', (Some m1), (Some m2). split_and!; [done|done|exact E| |exact E2].
  unfold ResourcePolicyDetailPage.deviceMode. rewrite Hp'. by destruct p, mode.
Qed.

Lemma policy_detail_witness : ∃ c,
  local_reachable (ResourcePolicyDetailPage.page (Some "default")) (Some ∅) c ∧
  shows_policy "default" [] c.
Proof.
  destruct (detail_mounted "default" ∅ [] ResourcePolicyDetailPage.initial) as ([s st] & E & _);
    [done|split; [by eexists|reflexivity]|].
  assert (local_reachable (ResourcePolicyDetailPage.page (Some "default")) (Some ∅) (s, st)) as Hr.
  { exists (s, st). split; [exact E|apply rtc_refl]. }
  exists (s, st). split; [exact Hr|]. apply (policy_detail "default" ∅ []);
    [done|split; [by eexists|reflexivity]|exact Hr].
Defined.

(** ** Device profiles *)

(** The profiles on the page are the stored ones. *)
Definition shows_profiles (c : DeviceProfilesPage.state * storage) : Prop :=
  is_Some c.2 ∧ DeviceProfiles.getDeviceProfiles c.2 = (c.2, Ok (DeviceProfilesPage.memo c.1)).

Lemma profiles_refresh s m : ∃ c,
  DeviceProfilesPage.refresh (s, Some m) = (c, Ok tt) ∧ c.2 = Some m ∧ shows_profiles c.
Proof.
  destruct (DeviceProfiles.profiles_read_total m) as (v & E & _).
  exists (DeviceProfilesPage.mkState v, Some m). split; [|by split].
  unfold DeviceProfilesPage.refresh. by rewrite (bind_storage _ _ _ _ _ _ E).
Qed.

(** Each event succeeds and the page shows its effect. *)
Lemma profiles_run s st e : shows_profiles (s, st) → ∃ s' st',
  DeviceProfilesPage.on e (s, st) = ((s', st'), Ok tt) ∧ shows_profiles (s', st') ∧
  let t := DeviceProfiles.trustedProfiles (DeviceProfilesPage.memo s) in
  DeviceProfiles.trustedProfiles (DeviceProfilesPage.memo s') =
    match e with
    | DeviceProfilesPage.AddProfile p => if decide (p ∈ t) then t else p :: t
    | DeviceProfilesPage.Toggle _ _ => t
    end ∧
  ∀ q, DeviceProfiles.approved (DeviceProfilesPage.memo s') q =
    match e with
    | DeviceProfilesPage.Toggle p b =>
        if decide (q = p) then b else DeviceProfiles.approved (DeviceProfilesPage.memo s) q
    | DeviceProfilesPage.AddProfile _ => DeviceProfiles.approved (DeviceProfilesPage.memo s) q
    end.
Proof.
  intros [[m Hm] E]. cbn [fst snd] in Hm, E. subst st.
  assert (∃ m' v, (match e with
    | DeviceProfilesPage.AddProfile p => DeviceProfiles.addTrustedProfile p
    | DeviceProfilesPage.Toggle p b => DeviceProfiles.setApprovedOS p b end) (Some m) =
      (Some m', Ok tt) ∧ DeviceProfiles.getDeviceProfiles (Some m') = (Some m', Ok v) ∧
    DeviceProfiles.trustedProfiles v = match e with
      | DeviceProfilesPage.AddProfile p =>
          let t := DeviceProfiles.trustedProfiles (DeviceProfilesPage.memo s) in
          if decide (p ∈ t) then t else p :: t
      | _ => DeviceProfiles.trustedProfiles (DeviceProfilesPage.memo s) end ∧
    ∀ q, DeviceProfiles.approved v q = match e with
      | DeviceProfilesPage.Toggle p b =>
          if decide (q = p) then b else DeviceProfiles.approved (DeviceProfilesPage.memo s) q
      | _ => DeviceProfiles.approved (DeviceProfilesPage.memo s) q end)
    as (m' & v & E1 & E2 & Ht & Ha).
  { destruct e as [p|p b].
    - destruct (DeviceProfiles.profiles_effects m p true) as (v & E0 & (m1 & E1 & E2 & _) & _).
      rewrite E in E0. injection E0 as <-. eexists m1, _. by split_and!.
    - destruct (DeviceProfiles.profiles_effects m p b) as (v & E0 & _ & (m2 & v2 & E1 & E2 & Ht & Ha & _)).
      rewrite E in E0. injection E0 as <-. by exists m2, v2. }
  exists (DeviceProfilesPage.mkState v), (Some m'). cbv zeta. split_and!; [|by split|by destruct e|exact Ha].
  destruct e as [p|p b]; cbn [DeviceProfilesPage.on];
    unfold DeviceProfilesPage.handleAddProfile, DeviceProfilesPage.handleToggle;
    rewrite (bind_storage _ _ _ _ _ _ E1); unfold DeviceProfilesPage.refresh;
    by rewrite (bind_storage _ _ _ _ _ _ E2).
Qed.

(** The page of the device profiles shows the stored profiles in every reachable state, from
    any storage.  A switch changes the approval of its platform and of no other and leaves the
    trusted list alone; adding a platform puts it in front of that list once and changes no
    approval. *)
Theorem profiles_page : ∀ (m : items) (s : DeviceProfilesPage.state) (st : storage),
  local_reachable DeviceProfilesPage.page (Some m) (s, st) →
  shows_profiles (s, st) ∧
  (∀ p b, ∃ s' st', DeviceProfilesPage.on (DeviceProfilesPage.Toggle p b) (s, st) = ((s', st'), Ok tt) ∧
    shows_profiles (s', st') ∧
    DeviceProfiles.trustedProfiles (DeviceProfilesPage.memo s') =
      DeviceProfiles.trustedProfiles (DeviceProfilesPage.memo s) ∧
    ∀ q, DeviceProfiles.approved (DeviceProfilesPage.memo s') q =
      if decide (q = p) then b else DeviceProfiles.approved (DeviceProfilesPage.memo s) q) ∧
  (∀ p, ∃ s' st', DeviceProfilesPage.on (DeviceProfilesPage.AddProfile p) (s, st) = ((s', st'), Ok tt) ∧
    shows_profiles (s', st') ∧
    (let t := DeviceProfiles.trustedProfiles (DeviceProfilesPage.memo s) in
     DeviceProfiles.trustedProfiles (DeviceProfilesPage.memo s') =
       if decide (p ∈ t) then t else p :: t) ∧
    ∀ q, DeviceProfiles.approved (DeviceProfilesPage.memo s') q =
      DeviceProfiles.approved (DeviceProfilesPage.memo s) q).
Proof.
  intros m s st Hr. assert (shows_profiles (s, st)) as Hc.
  { apply (local_invariant DeviceProfilesPage.page (Some m) shows_profiles); [| |exact Hr].
    - intros c E. destruct (profiles_refresh (DeviceProfilesPage.initial (Some m)) m) as (c' & E' & _ & H).
      cbn in E. rewrite E' in E. by injection E as <-.
    - intros s1 st1 e H1 _. cbn [pstate pevent DeviceProfilesPage.page] in s1, e.
      destruct (profiles_run s1 st1 e H1) as (s2 & st2 & E & H2 & _).
      change (shows_profiles (state_of (DeviceProfilesPage.on e) (s1, st1))).
      unfold state_of. by rewrite E. }
  split; [exact Hc|]. split.
  - intros p b. destruct (profiles_run s st (DeviceProfilesPage.Toggle p b) Hc)
      as (s' & st' & E & H & Ht & Ha). by exists s', st'.
  - intros p. destruct (profiles_run s st (DeviceProfilesPage.AddProfile p) Hc)
      as (s' & st' & E & H & Ht & Ha). by exists s', st'.
Qed.

Lemma profiles_page_witness :
  local_reachable DeviceProfilesPage.page (Some ∅) (DeviceProfilesPage.initial (Some ∅), Some ∅) ∧
  ∃ c, DeviceProfilesPage.on (DeviceProfilesPage.Toggle DeviceProfiles.Linux false)
    (DeviceProfilesPage.initial (Some ∅), Some ∅) = (c, Ok tt) ∧ shows_profiles c.
Proof.
  assert (local_reachable DeviceProfilesPage.page (Some ∅)
    (DeviceProfilesPage.initial (Some ∅), Some ∅)) as Hr.
  { eexists. split; [reflexivity|apply rtc_refl]. }
  split; [exact Hr|]. destruct (profiles_page ∅ _ _ Hr) as (_ & H & _).
  destruct (H DeviceProfiles.Linux false) as (s' & st' & E & Hc & _). by exists (s', st').
Defined.

(** ** Sign-in requirements *)

Section SignIn.
  Import SignInPolicy.

(** The policy of the last rendering is the stored one. *)
Definition shows_signin (c : SignInPolicyPage.state * storage) : Prop :=
  is_Some c.2 ∧ getSignInPolicy c.2 = (c.2, Ok (SignInPolicyPage.memo c.1)).

(** The state after [setPanel]. *)
Definition with_panel (v : option SignInPolicyPage.ManagePanel) (policy : SignInPolicyState)
    (s : SignInPolicyPage.state) : SignInPolicyPage.state :=
  SignInPolicyPage.mkState v (SignInPolicyPage.days_text s) (SignInPolicyPage.hours_text s)
    (SignInPolicyPage.mfaMode s) (SignInPolicyPage.error s) policy.

Lemma setPanel_run v policy s st : getSignInPolicy st = (st, Ok policy) →
  (SignInPolicyPage.panel s = v → SignInPolicyPage.memo s = policy) →
  SignInPolicyPage.setPanel v (s, st) = ((with_panel v policy s, st), Ok tt).
Proof.
  intros E Hv. unfold SignInPolicyPage.setPanel. rewrite (bind_run _ _ _ (s, st) s eq_refl).
  destruct (decide _) as [Hp|Hp].
  - rewrite (bind_run _ _ _ (s, st) (SignInPolicyPage.memo s) eq_refl). by rewrite (Hv Hp).
  - by rewrite (bind_storage _ _ _ _ _ _ E).
Qed.

Lemma manage_run p s st : shows_signin (s, st) →
  SignInPolicyPage.on (SignInPolicyPage.Manage p) (s, st) =
    ((with_panel (if decide (SignInPolicyPage.panel s = Some p) then None else Some p)
        (SignInPolicyPage.memo s) s, st), Ok tt).
Proof.
  intros [_ E]. cbn [SignInPolicyPage.on]. unfold SignInPolicyPage.toggle.
  rewrite (bind_run _ _ _ (s, st) s eq_refl). by rewrite (setPanel_run _ (SignInPolicyPage.memo s)).
Qed.

(** What reading gives is finite and not negative. *)
Definition sane (n : jsnum) : Prop := isFinite n = true ∧ ge0 n = true.

Lemma non_negative_sane dflt n : sane dflt → sane (non_negative_or dflt n).
Proof.
  intros H. unfold non_negative_or. destruct (isFinite n && ge0 n) eqn:E; [|done].
  by apply andb_true_iff in E.
Qed.

Lemma sane_kept dflt n : sane n → non_negative_or dflt (reread n) = n.
Proof. intros [H1 H2]. unfold non_negative_or, reread. by rewrite H1, H1, H2. Qed.

Lemma read_sane st v : getSignInPolicy st = (st, Ok v) → sane (days v) ∧ sane (hours v).
Proof.
  assert (sane (Dec 30 0) ∧ sane (Dec 0 0)) as [H1 H2] by done.
  unfold getSignInPolicy, read, mbind, M_bind, no_window, gets. destruct st as [m|]; cbn;
    [|by intros [=<-]].
  destruct (m !! STORAGE_KEY) as [raw|]; [|by intros [=<-]].
  case_bool_decide; [by intros [=<-]|]. unfold try_catch, lift.
  destruct (parse_policy raw) as [w|] eqn:E; cbn; intros [=<-]; [|done].
  unfold parse_policy in E. destruct (parse raw); [|done].
  destruct (field _ _); [|done]. destruct (field _ _); [|done]. injection E as <-.
  split; by apply non_negative_sane.
Qed.

(** Saving the second factor. *)
Lemma mfa_run m v r : getSignInPolicy (Some m) = (Some m, Ok v) → ∃ m' v',
  saveMfaRequired r (Some m) = (Some m', Ok tt) ∧ getSignInPolicy (Some m') = (Some m', Ok v') ∧
  (integral_or_special (days v) → integral_or_special (hours v) →
     v' = mkSignIn (days v) (hours v) r).
Proof.
  intros E. destruct (read_sane _ _ E) as [Sd Sh]. unfold saveMfaRequired.
  assert (∃ m', write (mkSignIn (days v) (hours v) r) (Some m) = (Some m', Ok tt)) as (m' & Ew).
  { unfold write, set_json, mbind, M_bind. by eexists. }
  destruct (policy_read_total m') as (v' & E'). exists m', v'.
  rewrite (bind_run _ _ _ _ _ E). split_and!; [exact Ew|exact E'|].
  intros Hd Hh. destruct (policy_read_write m (mkSignIn (days v) (hours v) r) Hd Hh)
    as (m2 & Ew2 & Er & _). rewrite Ew in Ew2. injection Ew2 as <-. rewrite E' in Er.
  injection Er as ->. cbn [days hours required]. by rewrite !sane_kept.
Qed.

(** Both confirmations are offered by the panel that is open. *)
Lemma confirm_offered s e : offered (SignInPolicyPage.render s) e →
  (e = SignInPolicyPage.ConfirmReauth → SignInPolicyPage.panel s = Some SignInPolicyPage.reauth) ∧
  (e = SignInPolicyPage.ConfirmMfa → SignInPolicyPage.panel s = Some SignInPolicyPage.mfa).
Proof.
  unfold SignInPolicyPage.render. intros (u & Hu & Ho)%offered_list.
  repeat (apply elem_of_cons in Hu as [->|Hu];
    [try (by cbn in Ho; destruct Ho as [_ ->])|]); try (by cbn in Ho); [| |by apply not_elem_of_nil in Hu].
  - apply offered_show_if in Ho as [Hp%bool_decide_eq_true Ho]. split; [done|]. intros ->.
    unfold SignInPolicyPage.reauth_panel in Ho. cbn in Ho.
    destruct (SignInPolicyPage.error s); [|naive_solver].
    destruct (negb _) in Ho; cbn in Ho; naive_solver.
  - apply offered_show_if in Ho as [Hp%bool_decide_eq_true Ho]. split; [|done]. intros ->.
    cbn in Ho. naive_solver.
Qed.

(** The effect of confirming the first panel. *)
Definition reauth_outcome (s s' : SignInPolicyPage.state) (st st' : storage) : Prop :=
  let d := Number (JStr (SignInPolicyPage.days_text s)) in
  let h := Number (JStr (SignInPolicyPage.hours_text s)) in
  (acceptable d h ∧ SignInPolicyPage.panel s' = None ∧
     SignInPolicyPage.error s' = None ∧
     SignInPolicyPage.memo s' = mkSignIn d h (required (SignInPolicyPage.memo s))) ∨
  (¬ acceptable d h ∧ st' = st ∧ is_Some (SignInPolicyPage.error s') ∧
     SignInPolicyPage.panel s' = SignInPolicyPage.panel s ∧
     SignInPolicyPage.memo s' = SignInPolicyPage.memo s).

Lemma confirm_reauth_run s st : shows_signin (s, st) → SignInPolicyPage.panel s ≠ None → ∃ s' st',
  SignInPolicyPage.on SignInPolicyPage.ConfirmReauth (s, st) = ((s', st'), Ok tt) ∧
  shows_signin (s', st') ∧ reauth_outcome s s' st st' ∧
  SignInPolicyPage.days_text s' = SignInPolicyPage.days_text s ∧
  SignInPolicyPage.hours_text s' = SignInPolicyPage.hours_text s.
Proof.
  intros [[m Hm] E] Hp. cbn [fst snd] in Hm, E. subst st.
  destruct (reauth_form m (SignInPolicyPage.days_text s) (SignInPolicyPage.hours_text s))
    as (v & m' & r & E0 & E1 & Hr & Hs & Hn & _).
  rewrite E in E0. injection E0 as Hv. subst v.
  cbn [SignInPolicyPage.on]. unfold SignInPolicyPage.confirmReauth.
  set (s1 := SignInPolicyPage.mkState (SignInPolicyPage.panel s) (SignInPolicyPage.days_text s)
    (SignInPolicyPage.hours_text s) (SignInPolicyPage.mfaMode s) None (SignInPolicyPage.memo s)).
  rewrite (bind_run (SignInPolicyPage.setError None) _ (s, Some m) (s1, Some m) tt eq_refl). cbv beta. rewrite (bind_run (gets fst) _ (s1, Some m) (s1, Some m) s1 eq_refl).
  rewrite (bind_storage _ _ _ _ _ _ E1). destruct r as [msg|].
  - rewrite (Hs (mk_is_Some _ _ eq_refl)) in *. eexists _, (Some m). split; [reflexivity|].
    split; [by split|]. split; [|done]. right. split_and!; try done. by intros ?%Hr.
  - specialize (Hn eq_refl). eexists _, (Some m'). split.
    { apply setPanel_run; [exact Hn|done]. }
    split; [by split|]. split; [|done]. left. split; [by apply Hr|]. done.
Qed.

Lemma confirm_mfa_run s st : shows_signin (s, st) → SignInPolicyPage.panel s ≠ None → ∃ s' st',
  SignInPolicyPage.on SignInPolicyPage.ConfirmMfa (s, st) = ((s', st'), Ok tt) ∧
  shows_signin (s', st') ∧ SignInPolicyPage.panel s' = None ∧
  let v := SignInPolicyPage.memo s in
  (integral_or_special (days v) → integral_or_special (hours v) →
     SignInPolicyPage.memo s' =
       mkSignIn (days v) (hours v) (bool_decide (SignInPolicyPage.mfaMode s = "yes"))).
Proof.
  intros [[m Hm] E] Hp. cbn [fst snd] in Hm, E. subst st.
  destruct (mfa_run m _ (bool_decide (SignInPolicyPage.mfaMode s = "yes")) E) as (m' & v' & E1 & E2 & Hv).
  cbn [SignInPolicyPage.on]. unfold SignInPolicyPage.confirmMfa.
  rewrite (bind_run _ _ _ (s, Some m) s eq_refl).
  eexists _, (Some m'). split.
  { assert (handleConfirmMfa (SignInPolicyPage.mfaMode s) (Some m) = (Some m', Ok tt)) as E3 by exact E1.
    rewrite (bind_storage _ _ _ _ _ _ E3). by apply setPanel_run. }
  by split.
Qed.

(** Every offered event keeps the policy of the page current. *)
Lemma signin_step s st e : shows_signin (s, st) → offered (SignInPolicyPage.render s) e →
  shows_signin (state_of (SignInPolicyPage.on e) (s, st)).
Proof.
  intros Hc Ho. apply confirm_offered in Ho as [H1 H2].
  destruct e as [p|v|v| |v|]; try exact Hc.
  - unfold state_of. rewrite manage_run by done. by destruct Hc as [Hm E].
  - destruct (confirm_reauth_run s st Hc) as (s' & st' & E & H & _); [by rewrite H1|].
    rewrite (f_equal fst E : state_of _ _ = _). exact H.
  - destruct (confirm_mfa_run s st Hc) as (s' & st' & E & H & _); [by rewrite H2|].
    rewrite (f_equal fst E : state_of _ _ = _). exact H.
Qed.

Lemma signin_mounted m : ∃ c,
  SignInPolicyPage.loadFields (SignInPolicyPage.initial (Some m), Some m) = (c, Ok tt) ∧ shows_signin c.
Proof.
  destruct (policy_read_total m) as (v & E). unfold SignInPolicyPage.loadFields.
  rewrite (bind_storage _ _ _ _ _ _ E). eexists. split; [reflexivity|]. split; [by eexists|].
  cbn. unfold SignInPolicyPage.initial, result_of, getSignInPolicy. by rewrite E.
Qed.
End SignIn.

(** C33: The page of the sign-in requirements summarises the stored policy in every reachable
    state.  Confirming the first panel saves and closes it exactly when the two fields are
    acceptable, and otherwise stores nothing, shows a message and stays open; confirming the
    second one stores the choice and closes it; opening and closing a panel changes nothing
    but the panel, so what was typed and the last message are still there the next time. *)
Theorem signin_page : ∀ (m : items) (s : SignInPolicyPage.state) (st : storage),
  local_reachable SignInPolicyPage.page (Some m) (s, st) →
  shows_signin (s, st) ∧
  (offered (SignInPolicyPage.render s) SignInPolicyPage.ConfirmReauth → ∃ s' st',
     SignInPolicyPage.on SignInPolicyPage.ConfirmReauth (s, st) = ((s', st'), Ok tt) ∧
     shows_signin (s', st') ∧ reauth_outcome s s' st st') ∧
  (offered (SignInPolicyPage.render s) SignInPolicyPage.ConfirmMfa → ∃ s' st',
     SignInPolicyPage.on SignInPolicyPage.ConfirmMfa (s, st) = ((s', st'), Ok tt) ∧
     shows_signin (s', st') ∧ SignInPolicyPage.panel s' = None ∧
     let v := SignInPolicyPage.memo s in
     (SignInPolicy.integral_or_special (SignInPolicy.days v) →
      SignInPolicy.integral_or_special (SignInPolicy.hours v) →
      SignInPolicyPage.memo s' = SignInPolicy.mkSignIn (SignInPolicy.days v) (SignInPolicy.hours v)
        (bool_decide (SignInPolicyPage.mfaMode s = "yes")))) ∧
  (∀ p, SignInPolicyPage.on (SignInPolicyPage.Manage p) (s, st) =
     ((with_panel (if decide (SignInPolicyPage.panel s = Some p) then None else Some p)
         (SignInPolicyPage.memo s) s, st), Ok tt)).
Proof.
  intros m s st Hr. assert (shows_signin (s, st)) as Hc.
  { apply (local_invariant SignInPolicyPage.page (Some m) shows_signin); [| |exact Hr].
    - intros c E. destruct (signin_mounted m) as (c' & E' & H).
      cbn in E. rewrite E' in E. by injection E as <-.
    - intros s1 st1 e H1 H2. by apply signin_step. }
  split; [exact Hc|]. split; [|split].
  - intros Ho. apply confirm_offered in Ho as [Hp _].
    destruct (confirm_reauth_run s st Hc) as (s' & st' & E & H & Ho & _); [by rewrite Hp|].
    by exists s', st'.
  - intros Ho. apply confirm_offered in Ho as [_ Hp].
    destruct (confirm_mfa_run s st Hc) as (s' & st' & E & H & Ho & Hv); [by rewrite Hp|].
    by exists s', st'.
  - intros p. by apply manage_run.
Qed.

Lemma signin_page_witness : ∃ s st,
  local_reachable SignInPolicyPage.page (Some ∅) (s, st) ∧ shows_signin (s, st) ∧
  ∃ s' st', SignInPolicyPage.on SignInPolicyPage.ConfirmReauth (s, st) = ((s', st'), Ok tt) ∧
    reauth_outcome s s' st st'.
Proof.
  destruct (signin_mounted ∅) as ([s0 st0] & E & _).
  set (c := state_of (SignInPolicyPage.on (SignInPolicyPage.Manage SignInPolicyPage.reauth)) (s0, st0)).
  assert (local_reachable SignInPolicyPage.page (Some ∅) c) as Hr.
  { exists (s0, st0). split; [exact E|]. apply rtc_once. constructor. cbn. tauto. }
  assert (offered (SignInPolicyPage.render c.1) SignInPolicyPage.ConfirmReauth) as Ho.
  { vm_compute in E. injection E as <- <-. vm_compute. tauto. }
  clearbody c. destruct c as [s st]. exists s, st.
  destruct (signin_page ∅ s st Hr) as (Hc & H & _). split; [exact Hr|]. split; [exact Hc|].
  destruct (H Ho) as (s' & st' & E' & _ & H'). by exists s', st'.
Defined.
