(* ===== verification/DiscoveryView.v ===== *)
(** * What the discovery page shows ([src/pages/resources/NetworkDiscoveryPage.tsx])

    The rendering of the states of [Discovery], whose steps are the events offered here,
    on the reports of the controller as the server passes them on. *)
From stdpp Require Import relations.
From S2P Require Import Prelude JsString Json Types Proxy Client Ui Dynamic Discovery.
From S2P Require Routes.
From Stdlib Require Import ZArith.

Module NetworkDiscoveryPage.

(** A resource as the page reads it, and back; what lacks a field or has it of another
    type is not one of the interface [DiscoveredResource]. *)
Definition discovered_js (r : DiscoveredResource) : jsv :=
  JObj [("id", JStr (d_id r)); ("ip", JStr (ip r)); ("port", JNum (port r));
        ("protocol", JStr (d_protocol r)); ("serviceName", JStr (serviceName r));
        ("reachableFrom", JStr (reachableFrom r)); ("firstSeen", JNum (firstSeen r))].

Definition as_resource (v : jsv) : option DiscoveredResource :=
  match opt_field v "id", opt_field v "ip", opt_field v "port", opt_field v "protocol",
        opt_field v "serviceName", opt_field v "reachableFrom", opt_field v "firstSeen" with
  | JStr i, JStr a, JNum p, JStr pr, JStr n, JStr f, JNum t => Some (mkDiscovered i a p pr n f t)
  | _, _, _, _, _, _, _ => None
  end.

Inductive event :=
  | PickConnector (v : string) | TypeCidr (v : string) | TypePorts (v : string)
  | StartScan | AddResource (resource : jsv).

(** [addedResources.has(id)] *)
Definition added (s : state) (id : jsv) : bool :=
  match id with JStr i => bool_decide (i ∈ addedResources s) | _ => false end.

(** [{status.replace('_', ' ')}] *)
Definition statusBadge (status : jsv) : outcome string :=
  match status with JStr t => Ok (replace "_" " " t) | _ => Throw TypeError end.

(** [{v?.join(', ')}] *)
Fixpoint join_items (l : list jsv) : string :=
  match l with
  | [] => ""
  | [x] => if is_nullish x then "" else to_string x
  | x :: l' => (if is_nullish x then "" else to_string x) +:+ ", " +:+ join_items l'
  end.
Definition joined (v : jsv) : outcome string :=
  if is_nullish v then Ok "" else l ← array_of v; Ok (join_items l).

Definition connector_option (c : Connector) : string * string :=
  (Connector_id c,
   or_else (Connector_name c) (Connector_id c) +:+ " (" +:+
     or_else (default "" (Connector_privateIp c)) "unknown IP" +:+ ")").

Definition text_if (t : string) : ui event := show_if (negb (bool_decide (t = ""))) (Text t).

Definition form (s : state) : ui event :=
  Box [Text "Start Scan";
       Select "Connector" (selectedConnector s) false (connector_option <$> connectors s) PickConnector;
       Input "CIDR Ranges (comma-separated)" (cidrInput s) false TypeCidr;
       Input "Ports (comma-separated)" (portsInput s) false TypePorts;
       Button (if scanning s then "Scanning..." else "Start Scan") (scanning s) StartScan;
       match error s with
       | Some m => text_if m
       | None => Nothing
       end].

(** [scanJob && ...]; what is falsy is shown itself. *)
Definition status_section (job : jsv) : outcome (ui event) :=
  if negb (truthy job) then t ← shown job; Ok (text_if t)
  else
    status ← statusBadge (opt_field job "status");
    requestId ← shown (opt_field job "requestId");
    connectorId ← shown (opt_field job "connectorId");
    targets ← joined (opt_field job "targets");
    ports ← joined (opt_field job "ports");
    err ← shown (opt_field job "error");
    Ok (Box [Text "Scan Status"; Text status; Text "Request ID:"; Text requestId;
             Text "Connector:"; Text connectorId; Text "Targets:"; Text targets;
             Text "Ports:"; Text ports; text_if err]).

Section Dates.
  (** [new Date(v * 1000).toLocaleString()] *)
  Context (local_time : jsnum → string).

Definition row (s : state) (resource : jsv) : outcome (ui event) :=
  id ← field resource "id";
  address ← shown (opt_field resource "ip");
  port ← shown (opt_field resource "port");
  service ← shown (falsy_or (opt_field resource "serviceName") (JStr "Unknown"));
  protocol ← shown (opt_field resource "protocol");
  from ← shown (opt_field resource "reachableFrom");
  Ok (Box [Text address; Text port; Text service; Text protocol; Text from;
           Text (local_time (Number (opt_field resource "firstSeen")));
           Button (if added s id then "Added" else "Add as Resource") (added s id)
             (AddResource resource)]).

(** [scanJob?.status === 'completed' && scanJob.results && ...] *)
Definition results_section (s : state) (job : jsv) : outcome (ui event) :=
  let results := opt_field job "results" in
  if negb (is_str (opt_field job "status") "completed") then Ok Nothing
  else if negb (truthy results) then t ← shown results; Ok (text_if t)
  else
    match results with
    | JArr [] => Ok (Box [Text "Discovered Resources (0)";
                          Text "No resources discovered in the scanned range."])
    | JArr l =>
        rows ← map_outcome (row s) l;
        Ok (Box [Text ("Discovered Resources (" +:+ pretty (length l) +:+ ")");
                 Box (Text <$> ["IP"; "Port"; "Service"; "Protocol"; "Connector"; "First Seen"; "Actions"]);
                 Box rows])
    | v =>
        n ← shown (opt_field v "length");
        match opt_field v "length" with
        | JNum (Dec 0%Z _) => Ok (Box [Text ("Discovered Resources (" +:+ n +:+ ")");
                                       Text "No resources discovered in the scanned range."])
        | _ => Throw TypeError
        end
    end.

Definition render (s : state) : outcome (ui event) :=
  let job := default JNull (scanJob s) in
  status ← status_section job;
  results ← results_section s job;
  Ok (Box [Text "Network Discovery"; Text "Scan connector networks to discover reachable resources";
           form s; status; results]).
End Dates.

Definition on (e : event) : M state unit :=
  match e with
  | PickConnector v => modify (λ s, edit v (cidrInput s) (portsInput s) s)
  | TypeCidr v => modify (λ s, edit (selectedConnector s) v (portsInput s) s)
  | TypePorts v => modify (λ s, edit (selectedConnector s) (cidrInput s) v s)
  | StartScan => handleStartScan
  | AddResource v => match as_resource v with Some r => handleAddResource r | None => mret tt end
  end.
End NetworkDiscoveryPage.
Import NetworkDiscoveryPage.

(** ** The reports of the controller ([state/discovery.go]) *)

(** [ScanJob]; a nil slice is null, what is [omitempty] and empty is left out. *)
Record scan_report := mkReport {
  RequestID : string; ConnectorID : string; Status : string;
  Targets : option (list string); Ports : option (list Z);
  StartedAt : string; CompletedAt : option string;
  Results : list DiscoveredResource; Error : string }.

Definition resource_report (r : DiscoveredResource) : jsv :=
  JObj [("id", JStr (d_id r)); ("ip", JStr (ip r)); ("port", JNum (port r));
        ("protocol", JStr (d_protocol r)); ("service_name", JStr (serviceName r));
        ("reachable_from", JStr (reachableFrom r)); ("first_seen", JNum (firstSeen r))].

Definition slice_js {A} (f : A → jsv) (l : option (list A)) : jsv :=
  match l with Some l => JArr (f <$> l) | None => JNull end.

Definition report_js (j : scan_report) : jsv :=
  JObj ([("request_id", JStr (RequestID j)); ("connector_id", JStr (ConnectorID j));
         ("status", JStr (Status j)); ("targets", slice_js JStr (Targets j));
         ("ports", slice_js (λ p, JNum (Dec p 0)) (Ports j)); ("started_at", JStr (StartedAt j))] ++
        (match CompletedAt j with Some t => [("completed_at", JStr t)] | None => [] end) ++
        (match Results j with [] => [] | l => [("results", JArr (resource_report <$> l))] end) ++
        (if decide (Error j = "") then [] else [("error", JStr (Error j))])).

(** What the page gets of a resource: an empty name of the service is replaced. *)
Definition named (r : DiscoveredResource) : DiscoveredResource :=
  mkDiscovered (d_id r) (ip r) (port r) (d_protocol r) (or_else (serviceName r) "Unknown")
    (reachableFrom r) (firstSeen r).

(** The job the page gets of a report. *)
Definition job_of (j : scan_report) : jsv :=
  JObj [("requestId", JStr (RequestID j)); ("connectorId", JStr (ConnectorID j));
        ("status", JStr (Status j)); ("targets", slice_js JStr (Targets j));
        ("ports", slice_js (λ p, JNum (Dec p 0)) (Ports j)); ("startedAt", JStr (StartedAt j));
        ("completedAt", from_option JStr JUndef (CompletedAt j));
        ("results", match Results j with
                    | [] => JUndef
                    | l => JArr ((λ r, discovered_js (named r)) <$> l)
                    end);
        ("error", if decide (Error j = "") then JUndef else JStr (Error j))].

(** ** Lemmas *)

Lemma falsy_or_else (a b : string) : falsy_or (JStr a) (JStr b) = JStr (or_else a b).
Proof.
  unfold falsy_or, or_else. cbn [truthy].
  destruct (decide (a = "")) as [->|H]; [done|]. by destruct a.
Qed.

Lemma map_resource r tr :
  Routes.mapDiscovered (resource_report r) tr = (tr, Ok (discovered_js (named r))).
Proof.
  assert (Routes.or_str (opt_field (resource_report r) "service_name") "Unknown" =
    JStr (or_else (serviceName r) "Unknown")) as E by apply falsy_or_else.
  unfold Routes.mapDiscovered. rewrite E. done.
Qed.

Lemma map_resources l tr :
  mapEach Routes.mapDiscovered (resource_report <$> l) tr =
    (tr, Ok ((λ r, discovered_js (named r)) <$> l)).
Proof.
  induction l as [|r l IH]; [done|]. rewrite !fmap_cons. cbn [mapEach].
  rewrite (bind_run _ _ _ _ _ (map_resource r tr)), (bind_run _ _ _ _ _ IH). done.
Qed.

(** The fields of a report. *)
Lemma report_fields j :
  opt_field (report_js j) "request_id" = JStr (RequestID j) ∧
  opt_field (report_js j) "connector_id" = JStr (ConnectorID j) ∧
  opt_field (report_js j) "status" = JStr (Status j) ∧
  opt_field (report_js j) "targets" = slice_js JStr (Targets j) ∧
  opt_field (report_js j) "ports" = slice_js (λ p, JNum (Dec p 0)) (Ports j) ∧
  opt_field (report_js j) "started_at" = JStr (StartedAt j) ∧
  opt_field (report_js j) "completed_at" = from_option JStr JUndef (CompletedAt j) ∧
  opt_field (report_js j) "results" =
    match Results j with [] => JUndef | l => JArr (resource_report <$> l) end ∧
  opt_field (report_js j) "error" = (if decide (Error j = "") then JUndef else JStr (Error j)).
Proof.
  split_and!; try done; unfold report_js;
    by destruct (CompletedAt j), (Results j), (decide (Error j = "")).
Qed.

Lemma map_report j tr : Routes.mapScanJob (report_js j) tr = (tr, Ok (job_of j)).
Proof.
  destruct (report_fields j) as (E1 & E2 & E3 & E4 & E5 & E6 & E7 & E8 & E9).
  unfold Routes.mapScanJob, Routes.on_object. assert (is_nullish (report_js j) = false) as -> by done.
  rewrite E1, E2, E3, E4, E5, E6, E7, E8, E9. unfold job_of.
  destruct (Results j) as [|r rs]; [done|].
  unfold mbind at 1, M_bind at 1. rewrite (bind_run _ _ _ _ _ (map_resources (r :: rs) tr)). done.
Qed.

Lemma as_discovered r : as_resource (discovered_js r) = Some r.
Proof. by destruct r. Qed.

Lemma no_text_offered t e : ¬ offered (text_if t) e.
Proof. unfold text_if. rewrite offered_show_if. by intros [_ []]. Qed.

Lemma joined_slice {A} (f : A → jsv) l : ∃ t, joined (slice_js f l) = Ok t.
Proof. destruct l; by eexists. Qed.

Lemma status_of_job j : ∃ u, status_section (job_of j) = Ok u ∧ (∀ e, ¬ offered u e) ∧
  head (texts u) = Some "Scan Status" ∧ texts u !! 1%nat = Some (replace "_" " " (Status j)).
Proof.
  unfold status_section. assert (truthy (job_of j) = true) as -> by done. cbn [negb].
  assert (opt_field (job_of j) "status" = JStr (Status j)) as -> by done. cbn [statusBadge mbind outcome_bind].
  assert (opt_field (job_of j) "requestId" = JStr (RequestID j)) as -> by done. cbn [shown mbind outcome_bind].
  assert (opt_field (job_of j) "connectorId" = JStr (ConnectorID j)) as -> by done. cbn [shown mbind outcome_bind].
  assert (opt_field (job_of j) "targets" = slice_js JStr (Targets j)) as -> by done.
  destruct (joined_slice JStr (Targets j)) as [t1 ->]. cbn [mbind outcome_bind].
  assert (opt_field (job_of j) "ports" = slice_js (λ p, JNum (Dec p 0)) (Ports j)) as -> by done.
  destruct (joined_slice (λ p, JNum (Dec p 0)) (Ports j)) as [t2 ->]. cbn [mbind outcome_bind].
  assert (opt_field (job_of j) "error" = (if decide (Error j = "") then JUndef else JStr (Error j))) as -> by done.
  destruct (decide (Error j = "")); cbn [shown mbind outcome_bind];
    (eexists; split; [reflexivity|]; split; [|done]); intros ev;
    cbn -[text_if]; pose proof (no_text_offered (Error j) ev); cbn; tauto.
Qed.

Section View.
  Context (local_time : jsnum → string).

Lemma row_of_resource s r : ∃ u, row local_time s (discovered_js r) = Ok u ∧
  ∀ e, offered u e ↔ d_id r ∉ addedResources s ∧ e = AddResource (discovered_js r).
Proof.
  unfold row. assert (field (discovered_js r) "id" = Ok (JStr (d_id r))) as -> by done.
  assert (falsy_or (opt_field (discovered_js r) "serviceName") (JStr "Unknown") =
    JStr (or_else (serviceName r) "Unknown")) as -> by apply falsy_or_else.
  eexists. split; [reflexivity|]. intros e. cbn -[bool_decide discovered_js].
  rewrite bool_decide_eq_false. tauto.
Qed.

Lemma rows_of_resources s l : ∃ us, map_outcome (row local_time s) (discovered_js <$> l) = Ok us ∧
  ∀ e, foldr (λ u P, offered u e ∨ P) False us ↔
    ∃ r, r ∈ l ∧ d_id r ∉ addedResources s ∧ e = AddResource (discovered_js r).
Proof.
  induction l as [|r l (us & E & H)].
  - exists []. split; [done|]. intros e. split; [done|]. by intros (r & Hr%not_elem_of_nil & _).
  - destruct (row_of_resource s r) as (u & Eu & Hu). exists (u :: us).
    rewrite fmap_cons. cbn [map_outcome]. rewrite Eu. cbn [mbind outcome_bind]. rewrite E.
    split; [done|]. intros e. cbn [foldr]. rewrite Hu, H. split.
    + intros [[H1 H2]|(x & H1 & H2)]; [exists r|exists x]; (split; [|done]); by constructor.
    + intros (x & [->|Hx]%elem_of_cons & H2); [by left|right; by exists x].
Qed.

Lemma results_of_job s j : ∃ u, results_section local_time s (job_of j) = Ok u ∧
  ∀ e, offered u e ↔ Status j = "completed" ∧
    ∃ r, r ∈ named <$> Results j ∧ d_id r ∉ addedResources s ∧ e = AddResource (discovered_js r).
Proof.
  unfold results_section.
  assert (is_str (opt_field (job_of j) "status") "completed" = bool_decide (Status j = "completed"))
    as -> by done.
  case_bool_decide as Hs; cbn [negb].
  2:{ eexists. split; [reflexivity|]. intros e. cbn. tauto. }
  assert (opt_field (job_of j) "results" = match Results j with
    [] => JUndef | l => JArr ((λ r, discovered_js (named r)) <$> l) end) as -> by done.
  destruct (Results j) as [|r l]; cbn [truthy negb].
  - eexists. split; [reflexivity|]. intros e. cbn. split; [done|].
    by intros (_ & x & Hx%not_elem_of_nil & _).
  - destruct (rows_of_resources s (named <$> r :: l)) as (us & E & H).
    rewrite <- list_fmap_compose in E. cbn [fmap list_fmap] in E |- *. unfold compose in E.
    rewrite E. eexists. split; [reflexivity|]. intros e. rewrite <- H. clear -Hs. cbn. tauto.
Qed.
End View.

(** The events of the form. *)
Lemma form_offers s e : offered (form s) e ↔
  (scanning s = false ∧ e = StartScan) ∨
  (∃ c, c ∈ connectors s ∧ e = PickConnector (Connector_id c)) ∨
  (∃ v, e = TypeCidr v) ∨ ∃ v, e = TypePorts v.
Proof.
  unfold form. cbn [offered foldr]. split.
  - intros [[]|[(_ & o & Ho & ->)|[[_ Hv]|[[_ Hv]|[[H ->]|[Ho|[]]]]]]]; eauto.
    + apply list_elem_of_fmap in Ho as (c & -> & Hc). right. left. by exists c.
    + destruct (error s); [|by destruct Ho]. by apply no_text_offered in Ho.
  - intros [[H ->]|[(c & Hc & ->)|[[v ->]|[v ->]]]].
    + do 4 right. by left.
    + right. left. split; [done|]. exists (connector_option c). split; [|done].
      by apply list_elem_of_fmap_2.
    + do 2 right. left. eauto.
    + do 3 right. left. eauto.
Qed.

(** C27: A report of the controller, as the server maps it, can always be shown.  The resources
    it found are offered exactly when the scan is completed and they have not been added yet, and
    what adding one is applied to is the resource as reported, an unnamed service apart; the button
    that starts a scan is enabled exactly when none runs.  Every event that the page offers is a
    step of the machine of [Discovery].  A completed scan that found nothing shows no
    table and no message either, for its report has no results at all. *)
Theorem scan_results_shown : ∀ (local_time : jsnum → string) (engine_message : js_error → string)
    (quiet : state → Prop) (s : state) (j : scan_report) (tr : trace) (job : jsv),
  Routes.mapScanJob (report_js j) tr = (tr, Ok job) → scanJob s = Some job →
  ∃ u st res, status_section job = Ok st ∧ texts st !! 1%nat = Some (replace "_" " " (Status j)) ∧
    results_section local_time s job = Ok res ∧ (Results j = [] → res = Nothing) ∧
    render local_time s = Ok u ∧
    (∀ v, offered u (AddResource v) ↔ Status j = "completed" ∧
       ∃ r, r ∈ named <$> Results j ∧ d_id r ∉ addedResources s ∧ v = discovered_js r) ∧
    (∀ r, on (AddResource (discovered_js r)) = handleAddResource r) ∧
    (offered u StartScan ↔ scanning s = false) ∧
    (∀ e, offered u e → mounted s = true → quiet s →
       step engine_message quiet s (state_of (on e) s)).
Proof.
  intros lt em quiet s j tr job Hj Hs. rewrite map_report in Hj. injection Hj as <-.
  destruct (status_of_job j) as (st & E1 & H1 & _ & Ht).
  destruct (results_of_job lt s j) as (res & E2 & H2).
  eexists _, st, res. split; [exact E1|]. split; [exact Ht|]. split; [exact E2|].
  assert (∀ e, offered (Box [Text "Network Discovery";
    Text "Scan connector networks to discover reachable resources"; form s; st; res]) e ↔
    offered (form s) e ∨ offered res e) as Hu.
  { intros e. cbn [offered foldr]. specialize (H1 e). tauto. }
  assert (render lt s = Ok (Box [Text "Network Discovery";
    Text "Scan connector networks to discover reachable resources"; form s; st; res])) as Er.
  { unfold render. assert (default JNull (scanJob s) = job_of j) as -> by by rewrite Hs.
    rewrite E1. cbn [mbind outcome_bind]. by rewrite E2. }
  split.
  { intros Hn. unfold results_section in E2.
    assert (opt_field (job_of j) "results" = JUndef) as E3.
    { transitivity (match Results j with
        [] => JUndef | l => JArr ((λ r, discovered_js (named r)) <$> l) end); [done|by rewrite Hn]. }
    rewrite E3 in E2. destruct (negb _) in E2; by injection E2. }
  split; [exact Er|]. split_and!.
  - intros v. rewrite Hu, form_offers, H2. split.
    + intros [[[_ [=]]|[(c & _ & [=])|[[x [=]]|[x [=]]]]]|(Hc & r & Hr & Hn & [= ->])].
      split; [exact Hc|]. by exists r.
    + intros (Hc & r & Hr & Hn & ->). right. split; [exact Hc|]. by exists r.
  - intros r. cbn [on]. by rewrite as_discovered.
  - rewrite Hu, form_offers, H2. split; [|by left; left].
    by intros [[[Hsc _]|[(c & _ & [=])|[[x [=]]|[x [=]]]]]|(_ & r & _ & _ & [=])].
  - intros e He Hm Hq. rewrite Hu, form_offers, H2 in He.
    destruct He as [[[Hsc ->]|[(c & _ & ->)|[[v ->]|[v ->]]]]|(_ & r & _ & Hr & ->)].
    + by apply step_start.
    + apply step_edit.
    + apply step_edit.
    + apply step_edit.
    + cbn [on]. rewrite as_discovered. apply step_add. unfold can_add.
      by rewrite bool_decide_false.
Qed.

Definition sample_report : scan_report :=
  mkReport "r1" "c1" "completed" (Some ["10.0.0.0/24"]) (Some [22%Z]) "now" None
    [mkDiscovered "d1" "10.0.0.7" (Dec 22 0) "tcp" "" "c1" (Dec 5 0)] "".

Lemma scan_results_shown_witness :
  let s := set_shown false (Some (job_of sample_report)) None [] initial in
  ∃ u, render (λ _, "") s = Ok u ∧
    offered u (AddResource (discovered_js (mkDiscovered "d1" "10.0.0.7" (Dec 22 0) "tcp" "Unknown" "c1" (Dec 5 0)))) ∧
    offered u StartScan.
Proof.
  intros s.
  destruct (scan_results_shown (λ _, "") (λ _, "") (λ _, True) s sample_report [] (job_of sample_report)
    (map_report sample_report []) eq_refl) as (u & st & res & _ & _ & _ & _ & E & Ha & _ & Hb & _).
  exists u. split; [exact E|]. split; [|by apply Hb]. apply Ha. split; [reflexivity|].
  eexists. split; [apply list_elem_of_here|]. split; [|reflexivity]. by apply not_elem_of_nil.
Defined.
