(* ===== verification/Controller.v ===== *)
(** * The routes of the controller ([services/controller/admin])

    The controller is a parameter of the model, but which of its handlers a request
    reaches is read off its source: the patterns of its [http.ServeMux], the dispatch on
    the method and on the rest of the path at the head of each handler the server needs, and what
    each pattern asks of the caller.  The stores and the database are taken to be
    configured; the requests of the server are never OPTIONS, which [withCORS] answers.
    An endpoint is named after the Go function, the
    sub-resource and the method. *)
From S2P Require Import Prelude JsString Json Uri Proxy Server.
From Stdlib Require Import Ascii.

Inductive endpoint :=
  (* ui_*.go *)
  | handleUIUsers_GET | handleUIUsers_POST | handleUIUsers_DELETE
  | handleUIGroups_GET | handleUIGroups_POST
  | handleUIGroupsSubroutes_GET | handleUIGroupsSubroutes_PUT | handleUIGroupsSubroutes_DELETE
  | handleUIGroupsSubroutes_members_POST | handleUIGroupsSubroutes_members_DELETE
  | handleUIGroupsSubroutes_resources_POST
  | handleUIResources_GET | handleUIResources_POST
  | handleUIResourcesSubroutes_GET | handleUIResourcesSubroutes_PUT
  | handleUIResourcesSubroutes_PATCH | handleUIResourcesSubroutes_DELETE
  | handleUIAccessRules_GET | handleUIAccessRules_POST
  | handleUIAccessRulesSubroutes_DELETE | handleUIAccessRulesSubroutes_count
  | handleUIRemoteNetworks_GET | handleUIRemoteNetworks_POST
  | handleUIRemoteNetworksSubroutes_GET | handleUIRemoteNetworksSubroutes_DELETE
  | handleUIConnectors_GET | handleUIConnectors_POST
  | handleUIConnectorsSubroutes_GET | handleUIConnectorsSubroutes_DELETE
  | handleUIConnectorsSubroutes_revoke | handleUIConnectorsSubroutes_grant
  | handleUIConnectorsSubroutes_heartbeat
  | handleUIAgents_GET | handleUIAgents_POST
  | handleUIAgentsSubroutes_GET | handleUIAgentsSubroutes_DELETE
  | handleUIAgentsSubroutes_revoke | handleUIAgentsSubroutes_grant
  | handleUISubjects_GET | handleUIServiceAccounts_GET
  | handleUIPolicyCompile_GET | handleUIPolicyACL_GET
  | handleUIDiagnostics_GET | handleUIDiagnosticsPing_POST | handleUIDiagnosticsTrace_POST
  (* server.go, handlers_*.go, oauth_invite_handlers.go *)
  | handleStartScan_POST | handleScanStatus_GET | handleDiscoveryResults_GET
  | handleCreateToken_POST | handleListConnectors_GET | handleConnectorSubroutes_DELETE
  | handleListAgents_GET | handleAgentSubroutes_DELETE
  | handleUsers_GET | handleUsers_POST
  | handleUserSubroutes_GET | handleUserSubroutes_PUT | handleUserSubroutes_DELETE
  | handleUserGroups_GET | handleUserGroups_POST
  | handleUserGroupMembers_GET | handleUserGroupMembers_PUT | handleUserGroupMembers_DELETE
  | handleUserGroupMembers_members_GET | handleUserGroupMembers_members_POST
  | handleUserGroupMembers_members_DELETE
  | handleInviteUser_POST | handleAdminAuditLogs_GET | handleOAuthLogout_POST
  (* workspace_handlers.go *)
  | handleWorkspaceLookup_GET | handleListWorkspaces | handleCreateWorkspace
  | handleGetWorkspace | handleUpdateWorkspace | handleDeleteWorkspace | handleSelectWorkspace
  | handleListMembers | handleAddMember | handleUpdateMemberRole | handleRemoveMember
  (* the handlers that the server of the front end does not need *)
  | Elsewhere (handler : string).

(** What becomes of a request: an endpoint with the identifiers it takes from the path, or
    405, 400, 404 or a redirect to the clean path. *)
Inductive verdict :=
  | Serves (e : endpoint) (ids : list string)
  | NotAllowed | BadRequest | NoHandler | Moved.

Abbreviation handler := (string → list string → verdict).

(** [switch r.Method] *)
Fixpoint on_method (meth : string) (cases : list (string * endpoint)) (ids : list string) : verdict :=
  match cases with
  | [] => NotAllowed
  | (m, e) :: cases' => if decide (meth = m) then Serves e ids else on_method meth cases' ids
  end.

(** A handler of one path. *)
Definition only (cases : list (string * endpoint)) : handler := λ meth _, on_method meth cases [].

(** [strings.Split(path, "/")[0]] of a path that is not empty. *)
Definition by_head (cases : list (string * endpoint)) : handler := λ meth parts,
  match parts with
  | [] => BadRequest
  | id :: _ => on_method meth cases [id]
  end.

(** The rest of the path as it is. *)
Fixpoint join_parts (parts : list string) : string :=
  match parts with
  | [] => ""
  | [p] => p
  | p :: parts' => p +:+ "/" +:+ join_parts parts'
  end.
Definition by_rest (cases : list (string * endpoint)) : handler := λ meth parts,
  match parts with
  | [] => BadRequest
  | _ => on_method meth cases [join_parts parts]
  end.
(** The same in the handlers that look at the method first. *)
Definition by_rest_after (m : string) (e : endpoint) : handler := λ meth parts,
  if decide (meth = m) then
    match parts with [] => BadRequest | _ => Serves e [join_parts parts] end
  else NotAllowed.

Definition handleUIGroupsSubroutes : handler := λ meth parts,
  match parts with
  | [] => BadRequest
  | [g] => on_method meth [("PUT", handleUIGroupsSubroutes_PUT); ("PATCH", handleUIGroupsSubroutes_PUT);
                           ("DELETE", handleUIGroupsSubroutes_DELETE);
                           ("GET", handleUIGroupsSubroutes_GET)] [g]
  | g :: s :: rest =>
      if decide (s = "members") then
        match rest with
        | [] => on_method meth [("POST", handleUIGroupsSubroutes_members_POST)] [g]
        | [u] => on_method meth [("DELETE", handleUIGroupsSubroutes_members_DELETE)] [g; u]
        | _ => NoHandler
        end
      else if decide (s = "resources") then
        on_method meth [("POST", handleUIGroupsSubroutes_resources_POST)] [g]
      else NoHandler
  end.

Definition handleUIAccessRulesSubroutes : handler := λ meth parts,
  match parts with
  | [] => BadRequest
  | [i] => on_method meth [("DELETE", handleUIAccessRulesSubroutes_DELETE)] [i]
  | [i; s] =>
      if decide (s = "identity-count") then
        on_method meth [("GET", handleUIAccessRulesSubroutes_count)] [i]
      else NoHandler
  | _ => NoHandler
  end.

(** Connectors and agents: revoking, granting and, for connectors, the heartbeat. *)
Definition with_access (get delete revoke grant : endpoint) (more : list (string * (string * endpoint))) :
    handler := λ meth parts,
  match parts with
  | [] => BadRequest
  | [i] => on_method meth [("DELETE", delete); ("GET", get)] [i]
  | i :: s :: _ =>
      if decide (s = "revoke") then on_method meth [("POST", revoke)] [i]
      else if decide (s = "grant") then on_method meth [("POST", grant)] [i]
      else match more with
           | [(s', c)] => if decide (s = s') then on_method meth [c] [i] else NoHandler
           | _ => NoHandler
           end
  end.

Definition handleUIConnectorsSubroutes : handler :=
  with_access handleUIConnectorsSubroutes_GET handleUIConnectorsSubroutes_DELETE
    handleUIConnectorsSubroutes_revoke handleUIConnectorsSubroutes_grant
    [("heartbeat", ("PATCH", handleUIConnectorsSubroutes_heartbeat))].
Definition handleUIAgentsSubroutes : handler :=
  with_access handleUIAgentsSubroutes_GET handleUIAgentsSubroutes_DELETE
    handleUIAgentsSubroutes_revoke handleUIAgentsSubroutes_grant [].

Definition handleUserGroupMembers : handler := λ meth parts,
  match parts with
  | [] => BadRequest
  | [g] => on_method meth [("GET", handleUserGroupMembers_GET); ("PUT", handleUserGroupMembers_PUT);
                           ("PATCH", handleUserGroupMembers_PUT);
                           ("DELETE", handleUserGroupMembers_DELETE)] [g]
  | g :: s :: _ =>
      if decide (s = "members") then
        on_method meth [("GET", handleUserGroupMembers_members_GET);
                        ("POST", handleUserGroupMembers_members_POST);
                        ("DELETE", handleUserGroupMembers_members_DELETE)] [g]
      else NoHandler
  end.

Definition handleWorkspaceSubroutes : handler := λ meth parts,
  match parts with
  | [] => BadRequest
  | [w] => on_method meth [("GET", handleGetWorkspace); ("PUT", handleUpdateWorkspace);
                           ("DELETE", handleDeleteWorkspace)] [w]
  | w :: s :: rest =>
      if decide (s = "select") then on_method meth [("POST", handleSelectWorkspace)] [w]
      else if decide (s = "members") then
        match rest with
        | [] => on_method meth [("GET", handleListMembers); ("POST", handleAddMember)] [w]
        | [u] => on_method meth [("PUT", handleUpdateMemberRole); ("DELETE", handleRemoveMember)] [w; u]
        | _ => NoHandler
        end
      else NoHandler
  end.

(** What a pattern asks of the caller: nothing; nothing, but the workspace of a valid
    session token is taken into account ([withWorkspaceContext]); a session token
    ([workspaceAuth]), possibly of a workspace ([requireWorkspace]); the token of the
    administrator or the session of one ([adminAuth]); the token of the other services. *)
Inductive guard := Open | Context | Session | SessionOfWorkspace | Admin | Internal.

(** A pattern, whether it ends in a slash and so stands for a subtree, and whether its
    handler trims the slashes of the rest of the path. *)
Record mux_entry := mkMux {
  pattern : list string; subtree : bool; guarded : guard; trims : bool; handled : handler }.
Definition mkEntry (pattern : list string) (subtree : bool) (g : guard) (h : handler) : mux_entry :=
  mkMux pattern subtree g true h.
Definition untrimmed (pattern : list string) (g : guard) (h : handler) : mux_entry :=
  mkMux pattern true g false h.

Definition api (rest : list string) : list string := "api" :: rest.
Definition elsewhere (name : string) : handler := λ _ _, Serves (Elsewhere name) [].

Definition RegisterRoutes : list mux_entry :=
  [mkEntry ["ca.crt"] false Open (elsewhere "handleCACert");
   mkEntry (api ["admin"; "tokens"]) false Admin (only [("POST", handleCreateToken_POST)]);
   mkEntry (api ["admin"; "connectors"]) false Admin (only [("GET", handleListConnectors_GET)]);
   untrimmed (api ["admin"; "connectors"]) Admin
     (by_rest_after "DELETE" handleConnectorSubroutes_DELETE);
   mkEntry (api ["admin"; "agents"]) false Admin (only [("GET", handleListAgents_GET)]);
   untrimmed (api ["admin"; "agents"]) Admin (by_rest_after "DELETE" handleAgentSubroutes_DELETE);
   mkEntry (api ["admin"; "resources"]) false Admin (elsewhere "handleResources");
   mkEntry (api ["admin"; "resources"]) true Admin (elsewhere "handleResourceSubroutes");
   mkEntry (api ["admin"; "audit"]) false Admin (elsewhere "handleAuditLog");
   mkEntry (api ["admin"; "users"]) false Admin
     (only [("GET", handleUsers_GET); ("POST", handleUsers_POST)]);
   mkEntry (api ["admin"; "users"]) true Admin
     (by_rest [("GET", handleUserSubroutes_GET); ("PUT", handleUserSubroutes_PUT);
               ("PATCH", handleUserSubroutes_PUT); ("DELETE", handleUserSubroutes_DELETE)]);
   mkEntry (api ["admin"; "user-groups"]) false Admin
     (only [("GET", handleUserGroups_GET); ("POST", handleUserGroups_POST)]);
   mkEntry (api ["admin"; "user-groups"]) true Admin handleUserGroupMembers;
   mkEntry (api ["admin"; "remote-networks"]) false Admin (elsewhere "handleRemoteNetworks");
   mkEntry (api ["admin"; "remote-networks"]) true Admin (elsewhere "handleRemoteNetworkConnectors");
   mkEntry (api ["internal"; "consume-token"]) false Internal (elsewhere "handleConsumeToken")].

Definition RegisterWorkspaceRoutes : list mux_entry :=
  [mkEntry (api ["workspaces"; "lookup"]) false Open (only [("GET", handleWorkspaceLookup_GET)]);
   mkEntry (api ["workspaces"]) false Session
     (only [("GET", handleListWorkspaces); ("POST", handleCreateWorkspace)]);
   mkEntry (api ["workspaces"]) true Session handleWorkspaceSubroutes].

(** The device routes of [device_routes.go] included. *)
Definition RegisterUIRoutes : list mux_entry :=
  [mkEntry (api ["users"]) false Context
     (only [("GET", handleUIUsers_GET); ("POST", handleUIUsers_POST); ("DELETE", handleUIUsers_DELETE)]);
   mkEntry (api ["groups"]) false Context
     (only [("GET", handleUIGroups_GET); ("POST", handleUIGroups_POST)]);
   mkEntry (api ["groups"]) true Context handleUIGroupsSubroutes;
   mkEntry (api ["resources"]) false Context
     (only [("GET", handleUIResources_GET); ("POST", handleUIResources_POST)]);
   mkEntry (api ["resources"]) true Context
     (by_head [("GET", handleUIResourcesSubroutes_GET); ("PUT", handleUIResourcesSubroutes_PUT);
               ("PATCH", handleUIResourcesSubroutes_PATCH);
               ("DELETE", handleUIResourcesSubroutes_DELETE)]);
   mkEntry (api ["access-rules"]) false Context
     (only [("GET", handleUIAccessRules_GET); ("POST", handleUIAccessRules_POST)]);
   mkEntry (api ["access-rules"]) true Context handleUIAccessRulesSubroutes;
   mkEntry (api ["remote-networks"]) false Context
     (only [("GET", handleUIRemoteNetworks_GET); ("POST", handleUIRemoteNetworks_POST)]);
   mkEntry (api ["remote-networks"]) true Context
     (by_head [("DELETE", handleUIRemoteNetworksSubroutes_DELETE);
               ("GET", handleUIRemoteNetworksSubroutes_GET)]);
   mkEntry (api ["connectors"]) false Context
     (only [("GET", handleUIConnectors_GET); ("POST", handleUIConnectors_POST)]);
   mkEntry (api ["connectors"]) true Context handleUIConnectorsSubroutes;
   mkEntry (api ["agents"]) false Context
     (only [("GET", handleUIAgents_GET); ("POST", handleUIAgents_POST)]);
   mkEntry (api ["agents"]) true Context handleUIAgentsSubroutes;
   mkEntry (api ["subjects"]) false Context (only [("GET", handleUISubjects_GET)]);
   mkEntry (api ["service-accounts"]) false Context (only [("GET", handleUIServiceAccounts_GET)]);
   mkEntry (api ["policy"; "compile"]) true Context (by_rest_after "GET" handleUIPolicyCompile_GET);
   mkEntry (api ["policy"; "acl"]) true Context (by_rest_after "GET" handleUIPolicyACL_GET);
   mkEntry (api ["diagnostics"]) false Context (only [("GET", handleUIDiagnostics_GET)]);
   mkEntry (api ["diagnostics"; "ping"]) true Context
     (by_rest_after "POST" handleUIDiagnosticsPing_POST);
   mkEntry (api ["diagnostics"; "trace"]) false Context (only [("POST", handleUIDiagnosticsTrace_POST)]);
   mkEntry (api ["admin"; "discovery"; "scan"]) false Admin (only [("POST", handleStartScan_POST)]);
   untrimmed (api ["admin"; "discovery"; "scan"]) Admin (by_rest_after "GET" handleScanStatus_GET);
   mkEntry (api ["admin"; "discovery"; "results"]) false Admin
     (only [("GET", handleDiscoveryResults_GET)]);
   mkEntry (api ["admin"; "identity-providers"]) false SessionOfWorkspace
     (elsewhere "handleIdentityProviders");
   mkEntry (api ["admin"; "identity-providers"]) true SessionOfWorkspace
     (elsewhere "handleIdentityProviderSubroutes");
   mkEntry (api ["admin"; "sessions"]) false SessionOfWorkspace (elsewhere "handleSessions");
   mkEntry (api ["admin"; "sessions"]) true SessionOfWorkspace (elsewhere "handleSessionSubroutes");
   mkEntry (api ["device"; "authorize"]) false Open (elsewhere "handleDeviceAuthorize");
   mkEntry (api ["device"; "callback"]) false Open (elsewhere "handleDeviceCallback");
   mkEntry (api ["device"; "token"]) false Open (elsewhere "handleDeviceToken");
   mkEntry (api ["device"; "refresh"]) false Open (elsewhere "handleDeviceRefresh");
   mkEntry (api ["device"; "revoke"]) false Open (elsewhere "handleDeviceRevoke")].

Definition RegisterOAuthRoutes : list mux_entry :=
  [mkEntry ["oauth"; "google"; "login"] false Open (elsewhere "handleOAuthLogin");
   mkEntry ["oauth"; "google"; "callback"] false Open (elsewhere "handleOAuthCallback");
   mkEntry ["oauth"; "github"; "login"] false Open (elsewhere "handleProviderLogin");
   mkEntry ["oauth"; "github"; "callback"] false Open (elsewhere "handleProviderCallback");
   mkEntry ["oauth"; "logout"] false Open (only [("POST", handleOAuthLogout_POST)]);
   mkEntry ["invite"] false Open (elsewhere "handleInviteAccept");
   mkEntry (api ["admin"; "users"; "invite"]) false Admin (only [("POST", handleInviteUser_POST)]);
   mkEntry (api ["admin"; "audit-logs"]) false Admin (only [("GET", handleAdminAuditLogs_GET)])].

Definition mux : list mux_entry :=
  RegisterRoutes ++ RegisterWorkspaceRoutes ++ RegisterUIRoutes ++ RegisterOAuthRoutes.

(** ** Matching ([net/http]) *)

Definition raw_segments (target : string) : list string :=
  match JsString.split "/" (path_part target) with
  | "" :: segs => segs
  | segs => segs
  end.

(** The path is not its own [cleanPath]. *)
Definition unclean (segs : list string) : bool :=
  existsb (λ s, bool_decide (s ∈ ["."; ".."])) segs ||
  existsb (λ s, bool_decide (s = "")) (removelast segs).

(** What follows the pattern of a subtree, at least the empty segment after its slash. *)
Fixpoint after (pat segs : list string) : option (list string) :=
  match pat, segs with
  | [], [] => None
  | [], _ => Some segs
  | x :: pat', y :: segs' => if decide (x = y) then after pat' segs' else None
  | _ :: _, [] => None
  end.

Definition exact (segs : list string) (e : mux_entry) : bool :=
  negb (subtree e) && bool_decide (pattern e = segs).

(** The longest subtree: the one that leaves the least. *)
Fixpoint longest (es : list mux_entry) (segs : list string) : option (mux_entry * list string) :=
  match es with
  | [] => None
  | e :: es' =>
      match (if subtree e then after (pattern e) segs else None), longest es' segs with
      | Some rest, Some (e', rest') =>
          if decide (length rest' < length rest)%nat then Some (e', rest') else Some (e, rest)
      | Some rest, None => Some (e, rest)
      | None, o => o
      end
  end.

Definition find_entry (segs : list string) : option (mux_entry * list string) :=
  match find_row (exact segs) mux with
  | Some e => Some (e, [])
  | None => longest mux segs
  end.

(** [strings.Trim(path, "/")] on the parts, which the handlers see decoded. *)
Fixpoint drop_empty (parts : list string) : list string :=
  match parts with "" :: parts' => drop_empty parts' | _ => parts end.
Definition parts_of (trims : bool) (rest : list string) : list string :=
  let parts := rest ≫= JsString.split "/" in
  if trims then reverse (drop_empty (reverse (drop_empty parts)))
  else if decide (parts = [""]) then [] else parts.

Definition dispatch (meth target : string) : verdict :=
  let raw := raw_segments target in
  match mapM decodeURIComponent raw with
  | None => BadRequest
  | Some segs =>
      if unclean raw then Moved
      else
        match find_entry segs with
        | Some (e, rest) => handled e meth (parts_of (trims e) rest)
        | None => if existsb (λ e, subtree e && bool_decide (pattern e = segs)) mux then Moved else NoHandler
        end
  end.

(** What the pattern of a path asks for. *)
Definition guard_at (target : string) : option guard :=
  segs ← mapM decodeURIComponent (raw_segments target);
  e ← find_entry segs;
  Some (guarded e.1).

(** ** Who the caller is *)

(** [r.Header.Get("Authorization")] *)
Definition authorization_header (q : backend_request) : string :=
  default "" (snd <$> find_row (λ h, bool_decide (h.1 = "Authorization")) (headers q)).

Section Caller.
  (** The workspace in the claims of a session token that is valid; none for other
      strings, and none when no secret is configured ([workspaceClaimsFromJWT]). *)
  Variable claims : string → option string.

(** [strings.CutPrefix(r.Header.Get("Authorization"), "Bearer ")]; the server sends no
    cookies. *)
Definition bearer_token (q : backend_request) : string :=
  let auth := authorization_header q in
  if startsWith auth "Bearer " then slice_from 7 auth else "".

(** Also what [withWorkspaceContext] puts into the context, from the same token. *)
Definition workspaceIDFromRequest (q : backend_request) : string :=
  let token := bearer_token q in
  if bool_decide (token = "") then "" else default "" (claims token).
End Caller.

(** The restriction of a list to a workspace, and its arguments. *)
Definition wsWhereOnly (workspaceID tableAlias : string) : string * list string :=
  if bool_decide (workspaceID = "") then ("", [])
  else
    let col := if bool_decide (tableAlias = "") then "workspace_id"
               else tableAlias +:+ ".workspace_id" in
    (" WHERE " +:+ col +:+ " = ?", [workspaceID]).

(** [adminAuth] accepts the administrator's token before it looks for a session. *)
Definition is_administrator (AdminAuthToken : string) (q : backend_request) : bool :=
  negb (bool_decide (AdminAuthToken = "")) &&
  bool_decide (authorization_header q = "Bearer " +:+ AdminAuthToken).
