(* ===== verification/ControllerProps.v ===== *)
(** * The server and the controller

    Every request a route sends reaches the handler of the controller that is meant for
    it, with the identifiers of the route; and who the caller is makes no difference. *)
From S2P Require Import Prelude JsString Json Uri Proxy Routes UserRoutes WorkspaceRoutes Server ServerProps.
From S2P Require Import Client ClientProps Controller.
From stdpp Require Import gmap.
From Stdlib Require Import Ascii ZArith Lia.

(** ** Paths with identifiers *)

(** A segment that needs no encoding and stands for itself. *)
Definition segment_ok (s : string) : bool :=
  plain_id s && negb (bool_decide (s ∈ [""; "."; ".."])).

(** An identifier that is no pattern's segment either. *)
Definition path_id (s : string) : Prop := segment_ok s = true ∧ s ≠ "invite" ∧ s ≠ "lookup".

Lemma decode_plain s : plain_id s = true → decodeURIComponent s = Some s.
Proof. intros H. rewrite <- (encode_plain s H) at 1. apply decode_encode_component. Qed.

Lemma raw_segments_join segs q : segs ≠ [] → Forall clean segs → query_tail q →
  raw_segments (join_path segs +:+ q) = segs.
Proof.
  intros Hne Hc Hq. unfold raw_segments.
  assert (path_part (join_path segs +:+ q) = join_path segs) as ->.
  { unfold path_part, JsString.split. rewrite to_list_app.
    destruct Hq as [->|[q' ->]]; cbn [to_list].
    - rewrite app_nil_r, split_list_no_sep by (by apply join_path_no_query). cbn.
      by rewrite of_to_list.
    - rewrite split_list_app by (by apply join_path_no_query). cbn. by rewrite of_to_list. }
  unfold JsString.split. rewrite join_path_split by done.
  rewrite fmap_cons, <- list_fmap_compose.
  assert ((of_list ∘ to_list) <$> segs = segs) as ->; [|done].
  rewrite <- (list_fmap_id segs) at 2. apply list_fmap_ext. intros i x _. apply of_to_list.
Qed.

Lemma mapM_plain segs : Forall (λ s, plain_id s = true) segs →
  mapM decodeURIComponent segs = Some segs.
Proof.
  intros H. apply mapM_Some. induction H as [|s segs Hs H IH]; [by apply Forall2_nil_2|].
  apply Forall2_cons_2; [by apply decode_plain|done].
Qed.

Lemma split_clean s : clean s → JsString.split "/" s = [s].
Proof.
  intros [Hs _]. unfold JsString.split. rewrite split_list_no_sep by done. cbn.
  by rewrite of_to_list.
Qed.

Lemma parts_clean trims rest : Forall clean rest → Forall (λ s, s ≠ "") rest →
  parts_of trims rest = rest.
Proof.
  intros Hc Hn. unfold parts_of. cbv zeta.
  assert (rest ≫= JsString.split "/" = rest) as ->.
  { clear Hn. induction Hc as [|s rest Hs Hc IH]; [done|]. rewrite bind_cons, split_clean, IH; done. }
  assert (∀ l : list string, Forall (λ s, s ≠ "") l → drop_empty l = l) as Hd.
  { intros [|x l] H; [done|]. apply Forall_cons in H as [H _]. by destruct x. }
  destruct trims.
  - rewrite (Hd rest Hn), Hd, reverse_involutive; [done|]. by apply Forall_reverse.
  - rewrite decide_False; [done|]. intros ->. by apply Forall_cons in Hn as [? _].
Qed.

Lemma after_suffix pat segs rest : after pat segs = Some rest → rest `suffix_of` segs.
Proof.
  revert segs. induction pat as [|x pat IH]; intros [|y segs] H; cbn in H; try done.
  - by injection H as <-.
  - destruct (decide (x = y)); [|done]. by apply suffix_cons_r, IH.
Qed.

Lemma longest_suffix es segs e rest : longest es segs = Some (e, rest) → rest `suffix_of` segs.
Proof.
  revert e rest. induction es as [|e' es IH]; intros e rest; [done|]. cbn [longest].
  destruct (if subtree e' then after (pattern e') segs else None) as [rest'|] eqn:E.
  - assert (rest' `suffix_of` segs) as Hs.
    { destruct (subtree e'); [|done]. by eapply after_suffix. }
    destruct (longest es segs) as [[e2 rest2]|] eqn:E2; [|by intros [= <- <-]].
    case_decide; intros [= <- <-]; [by eapply IH|done].
  - intros H. destruct (longest es segs) as [[e2 rest2]|]; [|done]. by apply (IH e).
Qed.

Lemma find_suffix segs e rest : find_entry segs = Some (e, rest) → rest `suffix_of` segs.
Proof.
  unfold find_entry. destruct (find_row (exact segs) mux); [|by apply longest_suffix].
  intros [= _ <-]. apply suffix_nil.
Qed.

(** The verdict on segments that are the path's own. *)
Definition route_to (meth : string) (segs : list string) : verdict :=
  match find_entry segs with
  | Some (e, rest) => handled e meth rest
  | None => if existsb (λ e, subtree e && bool_decide (pattern e = segs)) mux then Moved else NoHandler
  end.

Lemma segment_ok_spec s : segment_ok s = true → plain_id s = true ∧ s ≠ "" ∧ s ≠ "." ∧ s ≠ "..".
Proof.
  unfold segment_ok. intros [H1 H2]%andb_true_iff. apply negb_true_iff in H2.
  apply bool_decide_eq_false in H2. split_and!; set_solver.
Qed.

Lemma existsb_none {A} (P : A → bool) l : Forall (λ x, P x = false) l → existsb P l = false.
Proof. induction 1 as [|x l Hx _ IH]; cbn; [done|]. by rewrite Hx. Qed.

Lemma Forall_removelast {A} (P : A → Prop) l : Forall P l → Forall P (removelast l).
Proof.
  induction 1 as [|x l Hx Hl IH]; [done|]. destruct l; [done|]. by apply Forall_cons.
Qed.

Lemma unclean_ok segs : Forall (λ s, segment_ok s = true) segs → unclean segs = false.
Proof.
  intros H. unfold unclean. apply orb_false_iff.
  split; apply existsb_none; [|apply Forall_removelast]; apply (Forall_impl _ _ _ H);
    intros s (_ & H1 & H2 & H3)%segment_ok_spec; apply bool_decide_eq_false_2; set_solver.
Qed.

(** Dispatching a path of such segments. *)
Lemma dispatch_path meth segs q : segs ≠ [] → Forall (λ s, segment_ok s = true) segs → query_tail q →
  dispatch meth (join_path segs +:+ q) = route_to meth segs.
Proof.
  intros Hne Hok Hq. unfold dispatch, route_to. pose proof (unclean_ok segs Hok) as Hu.
  assert (Forall (λ s, plain_id s = true ∧ s ≠ "") segs) as Hs.
  { apply (Forall_impl _ _ _ Hok). by intros s (H1 & H2 & _)%segment_ok_spec. }
  assert (Forall clean segs) as Hc.
  { apply (Forall_impl _ _ _ Hs). intros s [H _]. by apply plain_clean. }
  rewrite raw_segments_join by done. rewrite mapM_plain.
  2:{ apply (Forall_impl _ _ _ Hs). by intros s [H _]. }
  rewrite Hu. destruct (find_entry segs) as [[e rest]|] eqn:He; [|done]. f_equal.
  apply find_suffix in He as [pre ->].
  apply Forall_app in Hs as [_ Hs]. apply Forall_app in Hc as [_ Hc].
  apply parts_clean; [done|]. apply (Forall_impl _ _ _ Hs). by intros s [_ H].
Qed.

Lemma dispatch_join meth segs : segs ≠ [] → Forall (λ s, segment_ok s = true) segs →
  dispatch meth (join_path segs) = route_to meth segs.
Proof.
  intros Hne Hs.
  rewrite <- (of_to_list (join_path segs)), <- (app_nil_r (to_list (join_path segs))).
  rewrite of_list_app, of_to_list. apply (dispatch_path _ _ "" Hne Hs). by left.
Qed.

(** A path that is no pattern by itself belongs to the longest subtree. *)
Lemma route_to_subtree meth segs e rest :
  Forall (λ e, subtree e = false → pattern e ≠ segs) mux → longest mux segs = Some (e, rest) →
  route_to meth segs = handled e meth rest.
Proof.
  intros H Hl. unfold route_to, find_entry.
  assert (find_row (exact segs) mux = None) as ->; [|by rewrite Hl].
  unfold find_row. clear Hl. induction H as [|e' es He H IH]; [done|].
  rewrite filter_cons, decide_False; [done|]. unfold exact.
  destruct (subtree e') eqn:Es; [done|]. by rewrite bool_decide_false by auto.
Qed.

(** ** What a route asks for *)

(** The endpoints a route is meant to reach, with the identifiers they take. *)
Definition meant (r : route) (ps : list string) : list (endpoint * list string) :=
  match r with
  | GroupsList => [(handleUIGroups_GET, [])]
  | GroupsCreate => [(handleUserGroups_POST, [])]
  | GroupsGet => [(handleUIGroupsSubroutes_GET, ps)]
  | GroupsUpdate => [(handleUserGroupMembers_PUT, ps)]
  | GroupsDelete => [(handleUserGroupMembers_DELETE, ps)]
  | GroupsMembers => [(handleUserGroupMembers_members_GET, ps)]
  | GroupsAddMembers => [(handleUserGroupMembers_members_POST, ps)]
  | GroupsRemoveMember => [(handleUserGroupMembers_members_DELETE, take 1 ps)]
  | GroupsAddResources => [(handleUIGroupsSubroutes_resources_POST, ps)]
  | UsersList | SubjectsList => [(handleUsers_GET, []); (handleUserGroups_GET, [])]
  | UsersCreate => [(handleUsers_POST, [])]
  | UsersGet => [(handleUserSubroutes_GET, ps)]
  | UsersUpdate | UsersPatch => [(handleUserSubroutes_PUT, ps)]
  | UsersDelete => [(handleUserSubroutes_DELETE, ps)]
  | UsersInvite => [(handleInviteUser_POST, [])]
  | ResourcesList => [(handleUIResources_GET, [])]
  | ResourcesCreate => [(handleUIResources_POST, [])]
  | ResourcesGet => [(handleUIResourcesSubroutes_GET, ps)]
  | ResourcesUpdate => [(handleUIResourcesSubroutes_PUT, ps)]
  | ResourcesPatch => [(handleUIResourcesSubroutes_PATCH, ps)]
  | ResourcesDelete => [(handleUIResourcesSubroutes_DELETE, ps)]
  | ConnectorsList => [(handleUIConnectors_GET, [])]
  | ConnectorsCreate => [(handleUIConnectors_POST, [])]
  | ConnectorsGet => [(handleUIConnectorsSubroutes_GET, ps)]
  | ConnectorsDelete => [(handleConnectorSubroutes_DELETE, ps)]
  | ConnectorsGrant => [(handleUIConnectorsSubroutes_grant, ps)]
  | ConnectorsRevoke => [(handleUIConnectorsSubroutes_revoke, ps)]
  | NetworksList => [(handleUIRemoteNetworks_GET, [])]
  | NetworksCreate => [(handleUIRemoteNetworks_POST, [])]
  | NetworksGet => [(handleUIRemoteNetworksSubroutes_GET, ps)]
  | NetworksDelete => [(handleUIRemoteNetworksSubroutes_DELETE, ps)]
  | AccessRulesList => [(handleUIAccessRules_GET, [])]
  | AccessRulesCreate => [(handleUIAccessRules_POST, [])]
  | AccessRulesDelete => [(handleUIAccessRulesSubroutes_DELETE, ps)]
  | AccessRulesCount => [(handleUIAccessRulesSubroutes_count, ps)]
  | TokensCreate => [(handleCreateToken_POST, [])]
  | AgentsList => [(handleListAgents_GET, [])]
  | AgentsGet => [(handleUIAgentsSubroutes_GET, ps)]
  | AgentsDelete => [(handleUIAgentsSubroutes_DELETE, ps)]
  | AgentsRevoke => [(handleUIAgentsSubroutes_revoke, ps)]
  | AgentsGrant => [(handleUIAgentsSubroutes_grant, ps)]
  | PolicyAcl => [(handleUIPolicyACL_GET, ps)]
  | PolicyCompile => [(handleUIPolicyCompile_GET, ps)]
  | AuditLogs => [(handleAdminAuditLogs_GET, [])]
  | DiscoveryScan => [(handleStartScan_POST, [])]
  | DiscoveryStatus => [(handleScanStatus_GET, ps)]
  | DiscoveryResults => [(handleDiscoveryResults_GET, [])]
  | WorkspacesLookup => [(handleWorkspaceLookup_GET, [])]
  | WorkspacesList => [(handleListWorkspaces, [])]
  | WorkspacesCreate => [(handleCreateWorkspace, [])]
  | WorkspacesGet => [(handleGetWorkspace, ps)]
  | WorkspacesUpdate => [(handleUpdateWorkspace, ps)]
  | WorkspacesDelete => [(handleDeleteWorkspace, ps)]
  | WorkspacesSelect => [(handleSelectWorkspace, ps)]
  | WorkspacesMembers => [(handleListMembers, ps)]
  | WorkspacesAddMember => [(handleAddMember, ps)]
  | WorkspacesUpdateMember => [(handleUpdateMemberRole, ps)]
  | WorkspacesRemoveMember => [(handleRemoveMember, ps)]
  | DiagnosticsGet => [(handleUIDiagnostics_GET, [])]
  | DiagnosticsPing => [(handleUIDiagnosticsPing_POST, ps)]
  | DiagnosticsTrace => [(handleUIDiagnosticsTrace_POST, [])]
  | Logout => [(handleOAuthLogout_POST, [])]
  | ConnectorsHeartbeat | ServiceAccountsList => []
  end.

(** The paths that no handler has. *)
Definition unserved (r : route) : list string :=
  match r with
  | ServiceAccountsList | SubjectsList => ["/api/admin/service-accounts"]
  | _ => []
  end.

(** The request reaches such an endpoint, or has one of the paths that nobody serves; the
    members of a group that the list of users asks for are those of this group, if its
    identifier needs no encoding. *)
Definition reaches (env : environment) (r : route) (ps : list string) (q : backend_request) : Prop :=
  ∃ path, url q = getBackendUrl env +:+ path ∧
  ((∃ e ids, dispatch (method q) path = Serves e ids ∧ (e, ids) ∈ meant r ps) ∨
   (dispatch (method q) path = NoHandler ∧ path ∈ unserved r) ∨
   (r = UsersList ∧ ∃ g, path = "/api/admin/user-groups/" +:+ encodeURIComponent g +:+ "/members" ∧
      (path_id g → dispatch (method q) path = Serves handleUserGroupMembers_members_GET [g]))).

Lemma reaches_endpoint env r ps bearer path options e ids :
  dispatch (default "GET" (init_method options)) path = Serves e ids → (e, ids) ∈ meant r ps →
  reaches env r ps (request_of env bearer path options).
Proof. intros H1 H2. exists path. split; [done|]. left. by exists e, ids. Qed.

Lemma reaches_nobody env r ps bearer path options :
  dispatch (default "GET" (init_method options)) path = NoHandler → path ∈ unserved r →
  reaches env r ps (request_of env bearer path options).
Proof. intros H1 H2. exists path. split; [done|]. right. by left. Qed.

(** ** Evaluation of a path *)

(** The segments of a path made of literals and identifiers. *)
Ltac cut_first l := let x := eval vm_compute in (raw_segments l) in x.
Ltac init_of l := let x := eval vm_compute in (removelast (raw_segments l)) in x.
Ltac segs_of p :=
  match p with
  | ?a +:+ (?i +:+ (?b +:+ ?j)) =>
      let x := init_of a in let y := init_of b in
      let z := eval cbn [app] in (x ++ i :: y ++ [j]) in z
  | ?a +:+ (?i +:+ ?b) =>
      let x := init_of a in let y := cut_first b in
      let z := eval cbn [app] in (x ++ i :: y) in z
  | ?a +:+ ?i => let x := init_of a in let z := eval cbn [app] in (x ++ [i]) in z
  | ?a => cut_first a
  end.

Ltac plain_segs :=
  repeat (apply Forall_cons; split;
    [match goal with
     | |- segment_ok (String _ _) = true => vm_compute; reflexivity
     | |- _ => assumption
     end|]); apply Forall_nil; exact I.

(** What the identifiers differ from is in the context. *)
Ltac not_patterns :=
  repeat (apply Forall_cons; split;
    [cbn; intros ?; first [discriminate|let E := fresh in intros E; injection E; intros; subst; done]|]);
  apply Forall_nil; exact I.

Ltac routed :=
  first [vm_compute; reflexivity
        |etransitivity; [eapply route_to_subtree; [not_patterns|vm_compute; reflexivity]|];
         vm_compute; reflexivity].

Ltac dispatched :=
  match goal with
  | |- dispatch ?m ?p = _ =>
      let s := segs_of p in
      refine (eq_trans (dispatch_join m s _ _) _); [discriminate|plain_segs|routed]
  end.

(** ** What the routes send *)

Lemma sends_proxy_to P env backend path options :
  P (request_of env (getAdminAuthToken env) path options) →
  sends P (proxyToBackend env backend path options).
Proof. intros H. apply sends_bind; [by apply sends_send|intros; apply sends_none]. Qed.

Lemma sends_jwt_to P env backend path jwt options :
  P (request_of env jwt path options) → sends P (proxyWithJWT env backend path jwt options).
Proof. intros H. apply sends_bind; [by apply sends_send|intros; apply sends_none]. Qed.

Ltac reach_step :=
  match goal with
  | |- sends _ (proxyToBackend _ _ _ _) => apply sends_proxy_to
  | |- sends _ (proxyWithJWT _ _ _ _ _) => apply sends_jwt_to
  | |- reaches _ ?r ?ps (request_of _ _ _ _) =>
      let l := eval cbn [meant take] in (meant r ps) in
      let rec go l :=
        lazymatch l with
        | (?e, ?ids) :: ?l' =>
            first [solve [apply (reaches_endpoint _ _ _ _ _ _ e ids);
                     [cbn [init_method default with_body with_method no_options]; dispatched|cbn [meant take]; set_solver]]
                  |go l']
        end in
      first [go l | solve [apply reaches_nobody; cycle 1; [cbn [unserved]; apply list_elem_of_here|vm_compute; reflexivity]]]
  | |- sends _ (ok _) => apply sends_ret
  | _ => sends_step
  end.

(** Paths with a query. *)
Lemma reaches_query env r ps bearer segs q options e : segs ≠ [] →
  Forall (λ s, segment_ok s = true) segs → query_tail q →
  route_to (default "GET" (init_method options)) segs = Serves e [] → (e, []) ∈ meant r ps →
  reaches env r ps (request_of env bearer (join_path segs +:+ q) options).
Proof. intros H1 H2 H3 H4. apply reaches_endpoint. by rewrite dispatch_path. Qed.

Lemma reach_members env backend g l : path_id g →
  sends (reaches env GroupsAddMembers [g]) (add_members env backend g l).
Proof.
  intros []. induction l as [|v l IH]; cbn [add_members]; [apply sends_ret|].
  destruct (negb (truthy v)); [done|]. repeat reach_step. exact IH.
Qed.

Lemma reach_group env backend g ps : sends (reaches env UsersList ps) (group_reply env backend g).
Proof.
  unfold group_reply. repeat reach_step. eexists. split; [done|]. right. right. split; [done|].
  eexists. split; [done|]. intros []. rewrite encode_plain.
  2:{ by apply segment_ok_spec. }
  cbn [method request_of init_method no_options default]. dispatched.
Qed.

Lemma reach_audit env backend msg ps req :
  sends (reaches env AuditLogs ps) (audit_logs env backend msg req).
Proof.
  unfold audit_logs, forward. repeat reach_step.
  apply (reaches_query _ _ _ _ ["api"; "admin"; "audit-logs"] (String "?" _) _ handleAdminAuditLogs_GET);
    [done|plain_segs|right; by eexists|vm_compute; reflexivity|apply list_elem_of_here].
Qed.

Lemma reach_results env backend msg ps req :
  sends (reaches env DiscoveryResults ps) (discovery_results env backend msg req).
Proof.
  unfold discovery_results. cbv zeta. destruct (truthy _);
  repeat first [reach_step|progress unfold mapDiscovered];
    apply (reaches_query _ _ _ _ ["api"; "admin"; "discovery"; "results"] _ _ handleDiscoveryResults_GET);
    first [done|plain_segs|apply list_elem_of_here|by left|right; by eexists|vm_compute; reflexivity].
Qed.

Lemma reach_lookup env backend msg ps req :
  sends (reaches env WorkspacesLookup ps) (workspaces_lookup env backend msg req).
Proof.
  unfold workspaces_lookup. cbv zeta.
  apply sends_try; [|intros; apply sends_ret].
  apply sends_bind; [apply sends_send|intros; repeat reach_step].
  eexists. split; [done|]. left. exists handleWorkspaceLookup_GET, []. split; [|apply list_elem_of_here].
  cbn [method]. apply (dispatch_path "GET" ["api"; "workspaces"; "lookup"] (String "?" _));
    [done|plain_segs|right; by eexists].
Qed.

Lemma reach_logout env backend ps req : sends (reaches env Logout ps) (logout env backend req).
Proof.
  unfold logout. repeat reach_step. eexists. split; [done|]. left.
  exists handleOAuthLogout_POST, []. split; [vm_compute; reflexivity|apply list_elem_of_here].
Qed.

Lemma reach_users env backend msg uf arrival ps req :
  sends (reaches env UsersList ps) (users_list env backend msg uf arrival req).
Proof.
  unfold users_list. repeat first [apply reach_group|reach_step|progress unfold mapBackendUser].
Qed.

(** ** The parameters of a resolved route *)

(** The number of parameters in the pattern of a route. *)
Definition is_param (s : segment) : bool := match s with Param => true | Lit _ => false end.
Definition count_params (p : list segment) : nat := length (filter is_param p).
Definition arity (r : route) : nat :=
  match find_row (λ row : string * list segment * route, bool_decide (row.2 = r)) table with
  | Some row => count_params row.1.2
  | None => 0
  end.

Lemma match_path_length p segs ps : match_path p segs = Some ps → length ps = count_params p.
Proof.
  revert segs ps. induction p as [|[s|] p IH]; intros [|x segs] ps; cbn [match_path]; try done.
  - by intros [= <-].
  - case_bool_decide; [|done]. apply IH.
  - case_bool_decide; [done|]. destruct (match_path p segs) as [ps'|] eqn:E; [|done].
    intros [= <-]. unfold count_params. rewrite filter_cons_True by done. cbn. f_equal. by eapply IH.
Qed.

Lemma find_route_row t meth segs r ps : find_route t meth segs = Some (r, ps) →
  ∃ m p, (m, p, r) ∈ t ∧ length ps = count_params p.
Proof.
  induction t as [|[[m p] r'] t IH]; cbn [find_route]; [done|]. intros H.
  assert (find_route t meth segs = Some (r, ps) → ∃ m0 p0, (m0, p0, r) ∈ (m, p, r') :: t ∧ length ps = count_params p0) as Hr.
  { intros (m' & p' & Hin & Hl)%IH. exists m', p'. split; [by right|done]. }
  case_bool_decide; [|by apply Hr].
  destruct (match_path p segs) eqn:E; [|by apply Hr]. injection H as -> ->.
  exists m, p. split; [by left|]. by eapply match_path_length.
Qed.

Lemma arity_table : Forall (λ row : string * list segment * route, arity row.2 = count_params row.1.2) table.
Proof. unfold table. repeat (apply Forall_cons; split; [vm_compute; reflexivity|]). apply Forall_nil; exact I. Qed.

Lemma resolve_arity meth target r ps : resolve meth target = Handled r ps → length ps = arity r.
Proof.
  unfold resolve. destruct (find_route _ _ _) as [[r' raw]|] eqn:E; [|done].
  destruct (mapM _ raw) as [ps'|] eqn:Em; [|done]. intros [= -> ->].
  apply find_route_row in E as (m & p & Hin & Hl). apply length_mapM in Em.
  pose proof arity_table as Ht. rewrite Forall_forall in Ht. specialize (Ht _ Hin). cbn [fst snd] in Ht. congruence.
Qed.

Lemma route_reaches env backend msg uf arrival r ps q b auth :
  Forall path_id ps → length ps = arity r →
  sends (reaches env r ps) (handler_of env backend msg uf arrival r (Routes.mkRequest ps q b auth)).
Proof.
  intros Hid Ha.
  destruct r; vm_compute in Ha; destruct ps as [|i [|j [|]]]; try discriminate Ha; clear Ha;
    repeat match goal with
      | H : Forall _ [] |- _ => clear H
      | H : Forall _ (_ :: _) |- _ => apply Forall_cons in H as [[? []] H]
      end; cbn [handler_of];
    first [apply reach_audit|apply reach_results|apply reach_lookup|apply reach_logout|apply reach_users
          |autounfold with routes; autounfold with mappers; unfold param;
           cbn [Routes.params lookup list_lookup default from_option id]; unfold id;
           repeat first [reach_step|by apply reach_members|apply sends_partial_map; intros]].
Qed.



(** ** Who the caller is *)

Definition with_authorization (auth : option string) (req : express_request) : express_request :=
  Routes.mkRequest (params req) (query req) (body req) auth.

Lemma admin_token_nonempty env : getAdminAuthToken env ≠ "".
Proof. unfold getAdminAuthToken, env_or, or_else. by case_decide. Qed.

Lemma bearer_token_request env bearer q : carries env bearer q →
  authorization_header q = "Bearer " +:+ bearer ∧ bearer_token q = bearer.
Proof.
  intros [_ H]. assert (authorization_header q = "Bearer " +:+ bearer) as E.
  { unfold authorization_header. by rewrite H. }
  split; [done|]. unfold bearer_token. rewrite E, prefix_append.
  unfold slice_from. rewrite to_list_app. cbn. apply of_to_list.
Qed.

(** C5: outside the workspaces' routes who the caller is makes no difference: neither
    the answer nor any request depends on the caller's token, and if session tokens have
    the three parts of a JSON web token and the administrator's token has no dot, as the
    default one, the controller reads no workspace from any of these requests, so that its
    lists are those of all workspaces; and it takes them, but for the two public ones, for the administrator's. *)
Theorem callers_indistinguishable : ∀ env backend msg users_first arrival claims r req auth,
  is_workspace_route r = false →
  (∀ token ws, claims token = Some ws → length (JsString.split "." token) = 3) →
  "."%char ∉ to_list (getAdminAuthToken env) →
  let run := handler_of env backend msg users_first arrival r in
  (∀ tr, run (with_authorization auth req) tr = run req tr) ∧
  sends (λ q, (∀ alias, wsWhereOnly (workspaceIDFromRequest claims q) alias = ("", [])) ∧
              (r ∉ [WorkspacesLookup; Logout] → is_administrator (getAdminAuthToken env) q = true))
    (run req).
Proof.
  intros env backend msg uf arrival claims r req auth Hr Hc Hdot run. split.
  - intros tr. unfold run. by destruct r.
  - eapply sends_impl; [apply route_sends|]. intros q Hq.
    assert (carries env (getAdminAuthToken env) q ∨ (r ∈ [WorkspacesLookup; Logout] ∧ headers q = []))
      as [H|[Hin H]].
    { unfold credentials in Hq. rewrite Hr in Hq.
      destruct r; first [by left|right; destruct Hq; split; [set_solver|done]]. }
    + destruct (bearer_token_request _ _ _ H) as [E1 E2]. split.
      * intros alias. unfold workspaceIDFromRequest. rewrite E2.
        rewrite bool_decide_eq_false_2 by apply admin_token_nonempty.
        destruct (claims _) as [ws|] eqn:Ec; [|done]. apply Hc in Ec.
        unfold JsString.split in Ec. by rewrite split_list_no_sep in Ec.
      * intros _. unfold is_administrator. rewrite E1.
        rewrite bool_decide_eq_false_2 by apply admin_token_nonempty. by rewrite bool_decide_true.
    + split; [|done]. intros alias. unfold workspaceIDFromRequest, bearer_token, authorization_header.
      by rewrite H.
Qed.

Lemma callers_indistinguishable_witness :
  let claims := λ t, if bool_decide (length (JsString.split "." t) = 3) then Some "w1" else None in
  let run := handler_of ∅ (λ _ _, Reply 200 "[]") (λ _, "") true (λ n, seq 0 n) NetworksList in
  let req := Routes.mkRequest [] [] JNull (Some "Bearer a.b.c") in
  (∀ tr, run (with_authorization None req) tr = run req tr) ∧
  sends (λ q, (∀ alias, wsWhereOnly (workspaceIDFromRequest claims q) alias = ("", [])) ∧
              (NetworksList ∉ [WorkspacesLookup; Logout] →
               is_administrator (getAdminAuthToken ∅) q = true)) (run req).
Proof.
  intros claims run req. apply callers_indistinguishable; [reflexivity| |].
  - intros t ws. unfold claims. case_bool_decide; [done|discriminate].
  - vm_compute. intros H. repeat (inversion H as [|? ? ? H']; clear H; rename H' into H).
Defined.
