(* ===== verification/Contract.v ===== *)
(** * What the pages may assume of the answers

    The interfaces of [lib/types.ts] and the structs of the controller ([encoding/json]
    by their tags) as types of dynamic values; what each endpoint of the controller
    reports, what the client functions of [lib/mock-api.ts] and the pages that fetch by
    themselves declare, and what the routes of the server deliver. *)
From S2P Require Import Prelude JsString Json JsonRoundtrip Uri Proxy Server Controller.
From Stdlib Require Import Ascii ZArith Lia.

(** ** Types of dynamic values

    What a declaration of [lib/types.ts], or a struct of the controller with its JSON
    tags, says of a value: a small language of types with records, open as the interfaces
    of TypeScript are or closed as what [encoding/json] prints, and assignability. *)

(** ** Types *)

(** A field is required or may be missing; a closed record has no other fields. *)
Inductive ty :=
  | TStr | TNum | TBool | TNull
  | TLit (literals : list string)            (* 'a' | 'b' *)
  | TEmpty                                   (* the array without elements *)
  | TArr (t : ty)
  | TOr (a b : ty)
  | TObj (closed : bool) (fields : list (string * (bool * ty)))
  | TAny.

Definition req (k : string) (t : ty) : string * (bool * ty) := (k, (false, t)).
Definition opt (k : string) (t : ty) : string * (bool * ty) := (k, (true, t)).

Definition is_undef (v : jsv) : bool := match v with JUndef => true | _ => false end.
Definition get (k : string) (l : list (string * jsv)) : jsv := default JUndef (assoc k l).

Fixpoint has_type (t : ty) (v : jsv) : bool :=
  match t with
  | TStr => match v with JStr _ => true | _ => false end
  | TNum => match v with JNum n => isFinite n | _ => false end
  | TBool => match v with JBool _ => true | _ => false end
  | TNull => match v with JNull => true | _ => false end
  | TLit ls => match v with JStr s => bool_decide (s ∈ ls) | _ => false end
  | TEmpty => match v with JArr [] => true | _ => false end
  | TArr t => match v with JArr l => forallb (has_type t) l | _ => false end
  | TOr a b => has_type a v || has_type b v
  | TObj closed fs =>
      match v with
      | JObj l =>
          forallb (λ f, (f.2.1 && is_undef (get f.1 l)) || has_type f.2.2 (get f.1 l)) fs &&
          (negb closed || forallb (λ p, bool_decide (p.1 ∈ fs.*1)) l)
      | _ => false
      end
  | TAny => true
  end.

(** Induction with the hypothesis for the fields of records. *)
Section TyInd.
  Variable P : ty → Prop.
  Hypothesis HStr : P TStr.
  Hypothesis HNum : P TNum.
  Hypothesis HBool : P TBool.
  Hypothesis HNull : P TNull.
  Hypothesis HLit : ∀ ls, P (TLit ls).
  Hypothesis HEmpty : P TEmpty.
  Hypothesis HArr : ∀ t, P t → P (TArr t).
  Hypothesis HOr : ∀ a b, P a → P b → P (TOr a b).
  Hypothesis HObj : ∀ c fs, Forall (λ f, P f.2.2) fs → P (TObj c fs).
  Hypothesis HAny : P TAny.

Fixpoint ty_deep_ind (t : ty) : P t :=
  match t with
  | TStr => HStr | TNum => HNum | TBool => HBool | TNull => HNull
  | TLit ls => HLit ls | TEmpty => HEmpty
  | TArr t => HArr t (ty_deep_ind t)
  | TOr a b => HOr a b (ty_deep_ind a) (ty_deep_ind b)
  | TObj c fs => HObj c fs ((fix go fs : Forall (λ f, P f.2.2) fs :=
      match fs with
      | [] => Forall_nil_2 _
      | f :: fs' => Forall_cons_2 _ _ _ (ty_deep_ind f.2.2) (go fs')
      end) fs)
  | TAny => HAny
  end.
End TyInd.

(** ** Assignability *)

Definition declared_field (k : string) (fs : list (string * (bool * ty))) : option (bool * ty) :=
  snd <$> find_row (λ f, bool_decide (f.1 = k)) fs.

(** [assignable b a]: every value of type [a] is one of type [b].  A field that [b] may
    lack is known not to be there only when [a] is closed. *)
Fixpoint assignable (b : ty) : ty → bool :=
  fix from (a : ty) : bool :=
    match a with
    | TOr a1 a2 => from a1 && from a2
    | _ =>
        match b with
        | TAny => true
        | TOr b1 b2 => assignable b1 a || assignable b2 a
        | TStr => match a with TStr | TLit _ => true | _ => false end
        | TNum => match a with TNum => true | _ => false end
        | TBool => match a with TBool => true | _ => false end
        | TNull => match a with TNull => true | _ => false end
        | TLit ls => match a with TLit ks => forallb (λ k, bool_decide (k ∈ ls)) ks | _ => false end
        | TEmpty => match a with TEmpty => true | _ => false end
        | TArr t => match a with TEmpty => true | TArr t' => assignable t t' | _ => false end
        | TObj cb fb =>
            match a with
            | TObj ca fa =>
                forallb (λ f, match declared_field f.1 fa with
                              | Some (o, t) => (negb o || f.2.1) && assignable f.2.2 t
                              | None => ca && f.2.1
                              end) fb &&
                (negb cb || (ca && forallb (λ f, bool_decide (f.1 ∈ fb.*1)) fa))
            | _ => false
            end
        end
    end.

(** Strings instead of unions of literals. *)
Fixpoint loose (t : ty) : ty :=
  match t with
  | TLit _ => TStr
  | TArr t => TArr (loose t)
  | TOr a b => TOr (loose a) (loose b)
  | TObj c fs => TObj c ((λ f, (f.1, (f.2.1, loose f.2.2))) <$> fs)
  | t => t
  end.

(** Null where a field may be missing. *)
Fixpoint nullable (t : ty) : ty :=
  match t with
  | TArr t => TArr (nullable t)
  | TOr a b => TOr (nullable a) (nullable b)
  | TObj c fs =>
      TObj c ((λ f, (f.1, (f.2.1, if f.2.1 : bool then TOr TNull (nullable f.2.2) else nullable f.2.2))) <$> fs)
  | t => t
  end.

(** What a text of JSON keeps of a value: no members that are undefined. *)
Fixpoint wire (v : jsv) : jsv :=
  match v with
  | JArr l => JArr ((λ x, if is_undef x then JNull else wire x) <$> l)
  | JObj l => JObj (filter (λ f, is_undef f.2 = false) ((λ f, (f.1, wire f.2)) <$> l))
  | v => v
  end.

(** ** Reading a record *)

Lemma obj_fields c fs v : has_type (TObj c fs) v = true → ∃ l, v = JObj l ∧
  Forall (λ f, (f.2.1 = true ∧ get f.1 l = JUndef) ∨ has_type f.2.2 (get f.1 l) = true) fs ∧
  (c = true → Forall (λ p, p.1 ∈ fs.*1) l).
Proof.
  destruct v as [| | | | | |l]; cbn [has_type]; try done.
  intros [Hf Hc]%andb_true_iff. exists l. split_and!; [done| |].
  - apply Forall_forall. intros f Hin. rewrite forallb_forall in Hf.
    apply list_elem_of_In, Hf, orb_true_iff in Hin as [[H1 H2]%andb_true_iff|H]; [left|by right].
    split; [done|]. by destruct (get f.1 l).
  - intros ->. cbn [negb orb] in Hc. rewrite forallb_forall in Hc. apply Forall_forall.
    intros p Hp. apply list_elem_of_In, Hc in Hp. by apply bool_decide_eq_true in Hp.
Qed.

(** A key that a closed record does not declare. *)
Lemma get_absent k (ks : list string) l : Forall (λ p : string * jsv, p.1 ∈ ks) l → k ∉ ks →
  get k l = JUndef.
Proof.
  intros Hl Hk. unfold get. induction Hl as [|[k' v] l Hp _ IH]; cbn [assoc]; [done|].
  by rewrite bool_decide_eq_false_2 by (intros <-; by apply Hk).
Qed.

Lemma str_of v : has_type TStr v = true → ∃ s, v = JStr s.
Proof. destruct v; try done. by eexists. Qed.
Lemma num_of v : has_type TNum v = true → ∃ n, v = JNum n ∧ isFinite n = true.
Proof. destruct v; try done. by eexists. Qed.
Lemma bool_of v : has_type TBool v = true → ∃ b, v = JBool b.
Proof. destruct v; try done. by eexists. Qed.
Lemma lit_of ls v : has_type (TLit ls) v = true → ∃ s, v = JStr s ∧ s ∈ ls.
Proof. destruct v; try done. intros H%bool_decide_eq_true. by eexists. Qed.
Lemma arr_of t v : has_type (TArr t) v = true → ∃ l, v = JArr l ∧ Forall (λ x, has_type t x = true) l.
Proof.
  destruct v as [| | | | |l|]; try done. cbn. rewrite forallb_forall. intros H. exists l.
  split; [done|]. apply Forall_forall. intros x Hx. by apply H, list_elem_of_In.
Qed.
Lemma type_of_arr t l : Forall (λ x, has_type t x = true) l → has_type (TArr t) (JArr l) = true.
Proof.
  intros H. cbn. apply forallb_forall. intros x Hx. rewrite Forall_forall in H.
  by apply H, list_elem_of_In.
Qed.

Lemma get_opt_field k l : opt_field (JObj l) k = get k l.
Proof. done. Qed.

(** ** Assignability is inclusion *)

Lemma declared_field_elem k fs o t : declared_field k fs = Some (o, t) → (k, (o, t)) ∈ fs.
Proof.
  unfold declared_field, find_row. induction fs as [|f fs IH]; [done|]. rewrite filter_cons.
  case_decide as Hd.
  - apply bool_decide_eq_true in Hd. destruct f as [k' [o' t']]. cbn in *. subst.
    intros [= -> ->]. by left.
  - intros H. right. by apply IH.
Qed.

Lemma declared_field_None k fs : declared_field k fs = None → k ∉ fs.*1.
Proof.
  unfold declared_field, find_row. induction fs as [|f fs IH]; [set_solver|]. rewrite filter_cons.
  case_decide as Hd; [done|]. intros H. rewrite fmap_cons, not_elem_of_cons. split; [|by apply IH].
  intros ->. by rewrite bool_decide_true in Hd.
Qed.

Lemma assignable_or b a1 a2 : assignable b (TOr a1 a2) = assignable b a1 && assignable b a2.
Proof. by destruct b. Qed.

(** A field of [b] read through the fields of [a]. *)
Lemma field_from (fa : list (string * (bool * ty))) ca f l :
  (∀ a v, assignable f.2.2 a = true → has_type a v = true → has_type f.2.2 v = true) →
  Forall (λ f, (f.2.1 = true ∧ get f.1 l = JUndef) ∨ has_type f.2.2 (get f.1 l) = true) fa →
  (ca = true → Forall (λ p, p.1 ∈ fa.*1) l) →
  match declared_field f.1 fa with
  | Some (o, t) => (negb o || f.2.1) && assignable f.2.2 t
  | None => ca && f.2.1
  end = true →
  (f.2.1 && is_undef (get f.1 l)) || has_type f.2.2 (get f.1 l) = true.
Proof.
  intros IH Hfa Hc. destruct (declared_field f.1 fa) as [[o t]|] eqn:E.
  - apply declared_field_elem in E. intros [Ho Ht]%andb_true_iff.
    rewrite Forall_forall in Hfa. destruct (Hfa _ E) as [[H1 H2]|H]; cbn [fst snd] in *.
    + rewrite H2, H1 in *. cbn in Ho. by rewrite Ho.
    + rewrite (IH _ _ Ht H). apply orb_true_r.
  - apply declared_field_None in E. intros [-> ->]%andb_true_iff.
    by rewrite (get_absent _ _ _ (Hc eq_refl) E).
Qed.

Lemma assignable_sound b : ∀ a v,
  assignable b a = true → has_type a v = true → has_type b v = true.
Proof.
  induction b as [| | | |ls| |t IH|b1 b2 IH1 IH2|cb fb IH|] using ty_deep_ind;
    intros a; induction a as [| | | |ks| |t' IHa|a1 a2 IHa1 IHa2|ca fa IHa|] using ty_deep_ind;
    intros v Ha Hv;
    try (rewrite assignable_or in Ha; apply andb_true_iff in Ha as [H1 H2];
         cbn [has_type] in Hv; apply orb_true_iff in Hv as [Hv|Hv]; by auto);
    try done;
    try (cbn in Ha |- *; apply orb_true_iff; apply orb_true_iff in Ha as [Ha|Ha]; [left|right]; by eauto).
  - apply lit_of in Hv as (s & -> & _). done.
  - apply lit_of in Hv as (s & -> & Hs). cbn in Ha |- *. rewrite forallb_forall in Ha.
    apply list_elem_of_In, Ha in Hs. done.
  - by destruct v as [| | | | |[]|].
  - apply arr_of in Hv as (l & -> & Hl). apply type_of_arr. apply (Forall_impl _ _ _ Hl).
    intros x. by apply IH.
  - apply obj_fields in Hv as (l & -> & Hf & Hc). cbn [assignable] in Ha.
    apply andb_true_iff in Ha as [Ha Hcl]. cbn [has_type]. apply andb_true_iff. split.
    + rewrite forallb_forall in Ha |- *. intros f Hin. apply (field_from fa ca); [|done..|by apply Ha].
      rewrite Forall_forall in IH. apply IH. by apply list_elem_of_In.
    + apply orb_true_iff. apply orb_true_iff in Hcl as [Hcl|[-> Hs]%andb_true_iff]; [by left|right].
      rewrite forallb_forall in Hs |- *. intros p Hp. apply bool_decide_eq_true.
      specialize (Hc eq_refl). rewrite Forall_forall in Hc.
      apply list_elem_of_In, Hc, list_elem_of_fmap in Hp as (f & -> & Hf').
      apply list_elem_of_In, Hs in Hf'. by apply bool_decide_eq_true in Hf'.
Qed.

(** Strings instead of literals, and null instead of nothing, only allow more. *)
Lemma loose_sound t : ∀ v, has_type t v = true → has_type (loose t) v = true.
Proof.
  induction t as [| | | |ls| |t IH|a b IHa IHb|c fs IH|] using ty_deep_ind; intros v Hv; try done.
  - by apply lit_of in Hv as (s & -> & _).
  - apply arr_of in Hv as (l & -> & Hl). apply type_of_arr. apply (Forall_impl _ _ _ Hl). auto.
  - cbn in Hv |- *. apply orb_true_iff. apply orb_true_iff in Hv as [Hv|Hv]; auto.
  - destruct v as [| | | | | |l]; try done. cbn [loose has_type] in *.
    apply andb_true_iff in Hv as [Hf Hc]. apply andb_true_iff. split.
    + clear Hc. induction IH as [|f fs Hh _ IH2]; [done|]. cbn [forallb] in Hf.
      apply andb_true_iff in Hf as [H1 H2]. rewrite fmap_cons. cbn [forallb]. rewrite IH2 by done.
      cbn [fst snd]. apply orb_true_iff in H1 as [->|H1]; [done|]. by rewrite (Hh _ H1), orb_true_r.
    + by rewrite <- list_fmap_compose.
Qed.

(** ** Through a text *)

(** What the program builds: keys do not repeat, numbers are integers. *)
Fixpoint proper (v : jsv) : bool :=
  match v with
  | JNum (Dec _ 0) => true
  | JNum _ => false
  | JArr l => forallb proper l
  | JObj l => bool_decide (NoDup l.*1) && forallb (λ f, proper f.2) l
  | _ => true
  end.

Lemma undef_null t : has_type t JUndef = true → has_type t JNull = true.
Proof.
  induction t as [| | | |ls| |t IH|a b IHa IHb|c fs IH|] using ty_deep_ind; try done.
  cbn. intros [H|H]%orb_true_iff; apply orb_true_iff; auto.
Qed.

Lemma wire_undef v : is_undef (wire v) = is_undef v.
Proof. by destruct v. Qed.

Lemma get_wire k l : NoDup l.*1 →
  get k (filter (λ f : string * jsv, is_undef f.2 = false) ((λ f, (f.1, wire f.2)) <$> l)) = wire (get k l).
Proof.
  unfold get. induction l as [|[k' v] l IH]; [done|]. rewrite fmap_cons. cbn [fst].
  intros [Hk Hl]%NoDup_cons. rewrite fmap_cons, filter_cons. cbn [fst snd assoc].
  rewrite wire_undef. case_bool_decide as Hd.
  - subst k'. destruct (is_undef v) eqn:Ev.
    + rewrite decide_False by done. destruct v; try done. cbn [wire default]. destruct (assoc k _) as [w|] eqn:E; [|done]. exfalso. apply Hk.
      clear -E. induction l as [|[k' v] l IH]; [done|]. rewrite fmap_cons, filter_cons in E.
      rewrite fmap_cons, elem_of_cons. cbn [fst snd] in *.
      case_decide; [|right; by apply IH]. cbn [assoc fst snd] in E.
      destruct (decide (k' = k)) as [->|Hne]; [by left|].
      rewrite bool_decide_false in E by done. right. by apply IH.
    + rewrite decide_True by done. cbn [assoc]. by rewrite bool_decide_true.
  - destruct (is_undef v) eqn:Ev; [rewrite decide_False by done; by apply IH|].
    rewrite decide_True by done. cbn [assoc]. rewrite bool_decide_false by done. by apply IH.
Qed.

Lemma wire_type t : ∀ v, proper v = true → has_type t v = true → has_type t (wire v) = true.
Proof.
  induction t as [| | | |ls| |t IH|a b IHa IHb|c fs IH|] using ty_deep_ind; intros v Hp Hv;
    try (by destruct v).
  - by destruct v as [| | | | |[]|].
  - apply arr_of in Hv as (l & -> & Hl). cbn [wire]. apply type_of_arr.
    cbn [proper] in Hp. rewrite forallb_forall in Hp. apply Forall_fmap, Forall_forall.
    rewrite Forall_forall in Hl. intros x Hx. cbn. destruct (is_undef x) eqn:Ex.
    + apply undef_null. destruct x; try done. by apply Hl.
    + apply IH; [by apply Hp, list_elem_of_In|by apply Hl].
  - cbn in Hv |- *. apply orb_true_iff. apply orb_true_iff in Hv as [Hv|Hv]; auto.
  - destruct v as [| | | | | |l]; try done. cbn [proper] in Hp.
    apply andb_true_iff in Hp as [Hnd%bool_decide_eq_true Hp]. cbn [wire has_type] in *.
    apply andb_true_iff in Hv as [Hf Hc]. apply andb_true_iff. split.
    + rewrite forallb_forall in Hf |- *. intros f Hin. rewrite get_wire by done. rewrite wire_undef.
      specialize (Hf _ Hin). apply orb_true_iff in Hf as [->|Hf]; [done|].
      rewrite Forall_forall in IH. apply orb_true_iff. right. apply IH; [by apply list_elem_of_In| |done].
      unfold get. destruct (assoc f.1 l) as [w|] eqn:E; [|done]. rewrite forallb_forall in Hp.
      assert (∃ k, (k, w) ∈ l) as [k Hk].
      { clear -E. induction l as [|[k v] l IH]; [done|]. cbn [assoc] in E.
        case_bool_decide; [injection E as ->; exists k; by left|].
        destruct (IH E) as [k' ?]. exists k'. by right. }
      apply (Hp (k, w)), list_elem_of_In, Hk.
    + apply orb_true_iff. apply orb_true_iff in Hc as [Hc|Hc]; [by left|right].
      rewrite forallb_forall in Hc |- *. intros p Hin%list_elem_of_In.
      apply list_elem_of_filter in Hin as [_ (q & -> & Hq)%list_elem_of_fmap].
      by apply (Hc q), list_elem_of_In.
Qed.

Lemma print_wire v : print (wire v) = print v.
Proof.
  induction v as [| |b|n|s|l HP|l HP] using jsv_deep_ind; try done; cbn [wire print].
  - f_equal. f_equal. f_equal. f_equal. rewrite <- list_fmap_compose. apply list_fmap_ext.
    intros i x Hx. cbn. rewrite Forall_forall in HP.
    rewrite <- (HP x) by (by eapply list_elem_of_lookup_2).
    destruct x; done.
  - f_equal. f_equal. f_equal. f_equal. induction HP as [|[k v] l Hv _ IH]; [done|].
    rewrite fmap_cons, filter_cons. cbn [fst snd] in *. rewrite wire_undef.
    destruct (is_undef v) eqn:Ev.
    + rewrite decide_False by done. cbn [omap list_omap fst snd]. by destruct v.
    + rewrite decide_True by done. cbn [omap list_omap fst snd]. rewrite Hv.
      destruct (print v); [by f_equal|done].
Qed.

Lemma wire_plain v : proper v = true → is_undef v = false → plain (wire v) = true.
Proof.
  induction v as [| |b|n|s|l HP|l HP] using jsv_deep_ind; intros Hp Hu; try done; cbn [proper] in Hp.
  - cbn [wire plain]. rewrite forallb_forall in Hp |- *. intros y Hy%list_elem_of_In.
    apply list_elem_of_fmap in Hy as (x & -> & Hx). destruct (is_undef x) eqn:Ex; [done|].
    rewrite Forall_forall in HP. apply HP; [done|by apply Hp, list_elem_of_In|done].
  - apply andb_true_iff in Hp as [Hnd%bool_decide_eq_true Hp]. cbn [wire plain]. apply andb_true_iff.
    split.
    + apply bool_decide_eq_true. eapply sublist_NoDup; [exact Hnd|].
      clear. induction l as [|[k v] l IH]; [done|]. rewrite !fmap_cons, filter_cons. cbn [fst snd].
      case_decide; rewrite ?fmap_cons; cbn [fst]; [by apply sublist_skip|by apply sublist_cons].
    + rewrite forallb_forall in Hp |- *. intros y [Hy (x & -> & Hx)%list_elem_of_fmap]%list_elem_of_In%list_elem_of_filter.
      cbn [fst snd] in *. rewrite wire_undef in Hy. rewrite Forall_forall in HP.
      apply HP; [done|by apply (Hp x), list_elem_of_In|done].
Qed.

(** What is read back from the text of a proper value. *)
Lemma parse_wire v : proper v = true → is_undef v = false →
  parse (of_list (print_raw v)) = Ok (wire v).
Proof.
  intros Hp Hu. unfold print_raw. rewrite <- print_wire. apply parse_print. by apply wire_plain.
Qed.

(** ** [lib/types.ts] *)

Module Ts.
Definition SubjectType : ty := TLit ["USER"; "GROUP"; "SERVICE"].
Definition subject_fields (type : ty) : list (string * (bool * ty)) :=
  [req "id" TStr; req "name" TStr; req "type" type; req "displayLabel" TStr].
Definition Subject : ty := TObj false (subject_fields SubjectType).
Definition active_or_inactive : ty := TLit ["active"; "inactive"].
Definition User : ty := TObj false (subject_fields (TLit ["USER"]) ++
  [req "email" TStr; req "status" active_or_inactive; req "role" TStr; req "groups" (TArr TStr);
   opt "certificateIdentity" (TOr TStr TNull); req "createdAt" TStr]).
Definition Group : ty := TObj false (subject_fields (TLit ["GROUP"]) ++
  [req "description" TStr; req "memberCount" TNum; req "resourceCount" TNum; req "createdAt" TStr;
   opt "updatedAt" TStr]).
Definition ServiceAccount : ty := TObj false (subject_fields (TLit ["SERVICE"]) ++
  [req "status" active_or_inactive; req "associatedResourceCount" TNum; req "createdAt" TStr]).
Definition GroupMember : ty := TObj false [req "userId" TStr; req "userName" TStr; req "email" TStr].
Definition FirewallStatus : ty := TLit ["protected"; "unprotected"].
Definition Resource : ty := TObj false
  [req "id" TStr; req "name" TStr; req "type" (TLit ["STANDARD"; "BROWSER"; "BACKGROUND"]);
   req "address" TStr; req "protocol" (TLit ["TCP"; "UDP"]); opt "portFrom" (TOr TNum TNull);
   opt "portTo" (TOr TNum TNull); opt "alias" TStr; req "description" TStr;
   opt "remoteNetworkId" TStr; req "firewallStatus" FirewallStatus].
Definition access_status : ty := TLit ["online"; "offline"; "revoked"].
Definition Connector : ty := TObj false
  [req "id" TStr; req "name" TStr; req "status" access_status; req "version" TStr;
   req "hostname" TStr; req "remoteNetworkId" TStr; req "lastSeen" TStr; req "installed" TBool;
   req "lastPolicyVersion" TNum; opt "lastSeenAt" (TOr TStr TNull); opt "privateIp" TStr;
   opt "revoked" TBool].
Definition RemoteNetwork : ty := TObj false
  [req "id" TStr; req "name" TStr; req "location" (TLit ["AWS"; "GCP"; "AZURE"; "ON_PREM"; "OTHER"]);
   req "connectorCount" TNum; req "onlineConnectorCount" TNum; req "resourceCount" TNum;
   req "createdAt" TStr; req "updatedAt" TStr].
Definition Agent : ty := TObj false
  [req "id" TStr; req "name" TStr; req "status" access_status; req "version" TStr;
   req "hostname" TStr; req "remoteNetworkId" TStr; opt "connectorId" TStr; opt "revoked" TBool;
   opt "installed" TBool; opt "lastSeen" TStr; opt "lastSeenAt" (TOr TStr TNull)].
Definition AccessRule : ty := TObj false
  [req "id" TStr; req "name" TStr; req "resourceId" TStr; req "allowedGroups" (TArr TStr);
   req "enabled" TBool; req "createdAt" TStr; req "updatedAt" TStr].
Definition DiscoveredResource : ty := TObj false
  [req "id" TStr; req "ip" TStr; req "port" TNum; req "protocol" TStr; req "serviceName" TStr;
   req "reachableFrom" TStr; req "firstSeen" TNum].
Definition ScanJob : ty := TObj false
  [req "requestId" TStr; req "connectorId" TStr;
   req "status" (TLit ["pending"; "in_progress"; "completed"; "failed"]); req "targets" (TArr TStr);
   req "ports" (TArr TNum); req "startedAt" TStr; opt "completedAt" TStr;
   opt "results" (TArr DiscoveredResource); opt "error" TStr].
Definition Workspace : ty := TObj false
  [req "id" TStr; req "name" TStr; req "slug" TStr; req "trustDomain" TStr; opt "caCertPem" TStr;
   req "status" TStr; opt "role" TStr; req "createdAt" TStr; req "updatedAt" TStr].
Definition WorkspaceMember : ty := TObj false
  [req "workspaceId" TStr; req "userId" TStr; req "role" (TLit ["owner"; "admin"; "member"]);
   opt "email" TStr; opt "name" TStr; req "joinedAt" TStr].
Definition ConnectorDiagnostic : ty := TObj false
  [req "id" TStr; req "name" TStr; req "status" TStr; req "streamActive" TBool;
   req "stalenessSeconds" TNum; req "lastSeenAt" (TOr TStr TNull); req "remoteNetworkId" TStr].
Definition TunnelerDiagnostic : ty := TObj false
  [req "id" TStr; req "name" TStr; req "status" TStr; req "lastSeenAt" (TOr TStr TNull)].
Definition DiagnosticsData : ty := TObj false
  [req "connectors" (TArr ConnectorDiagnostic); req "tunnelers" (TArr TunnelerDiagnostic)].
Definition PingResult : ty := TObj false
  [req "connectorId" TStr; req "streamActive" TBool; req "stalenessSeconds" TNum;
   req "lastSeenAt" (TOr TStr TNull); req "message" TStr].
Definition TraceHop : ty := TObj false
  [req "type" (TLit ["user"; "group"; "resource"; "remote_network"; "connector"]); req "id" TStr;
   req "name" TStr; req "status" TStr; req "healthy" TBool].
Definition AccessTrace : ty := TObj false
  [req "allowed" TBool; req "reason" TStr; req "path" (TArr TraceHop);
   req "userGroups" (TArr (TObj false [req "id" TStr; req "name" TStr]));
   req "matchedRules" (TArr (TObj false [req "id" TStr; req "name" TStr; req "enabled" TBool]))].
End Ts.

(** ** The structs of the controller *)

Module Go.
(** A pointer without and with [omitempty]. *)
Definition ptr (k : string) (t : ty) : string * (bool * ty) := req k (TOr TNull t).
Definition omitempty (k : string) (t : ty) : string * (bool * ty) := opt k t.

Definition uiGroup : ty := TObj true
  [req "id" TStr; req "name" TStr; req "type" (TLit ["GROUP"]); req "displayLabel" TStr;
   req "description" TStr; req "memberCount" TNum; req "resourceCount" TNum; req "createdAt" TStr;
   req "updatedAt" TStr].
Definition uiGroupMember : ty := TObj true [req "userId" TStr; req "userName" TStr; req "email" TStr].
Definition uiResource : ty := TObj true
  [req "id" TStr; req "name" TStr; req "type" TStr; req "address" TStr; req "protocol" TStr;
   ptr "portFrom" TNum; ptr "portTo" TNum; omitempty "alias" TStr; req "description" TStr;
   omitempty "remoteNetworkId" TStr; req "firewallStatus" TStr].
Definition uiAccessRule : ty := TObj true
  [req "id" TStr; req "name" TStr; req "resourceId" TStr; req "allowedGroups" (TArr TStr);
   req "enabled" TBool; req "createdAt" TStr; req "updatedAt" TStr].
Definition uiConnector : ty := TObj true
  [req "id" TStr; req "name" TStr; req "status" TStr; req "version" TStr; req "hostname" TStr;
   req "remoteNetworkId" TStr; req "lastSeen" TStr; req "installed" TBool;
   req "lastPolicyVersion" TNum; ptr "lastSeenAt" TStr; req "privateIp" TStr; req "revoked" TBool].
Definition uiRemoteNetwork : ty := TObj true
  [req "id" TStr; req "name" TStr; req "location" TStr; req "connectorCount" TNum;
   req "onlineConnectorCount" TNum; req "resourceCount" TNum; req "createdAt" TStr;
   req "updatedAt" TStr].
Definition uiConnectorLog : ty := TObj true [req "id" TNum; req "timestamp" TStr; req "message" TStr].
Definition uiAgent : ty := TObj true
  [req "id" TStr; req "name" TStr; req "status" TStr; req "version" TStr; req "hostname" TStr;
   req "remoteNetworkId" TStr; req "connectorId" TStr; req "revoked" TBool; req "installed" TBool;
   req "lastSeen" TStr; ptr "lastSeenAt" TStr].
(** Local to [handleListAgents]. *)
Definition respAgent : ty := TObj true
  [req "id" TStr; req "status" (TLit ["OFFLINE"; "ONLINE"]); req "version" TStr; req "hostname" TStr;
   req "connector_id" TStr; req "remote_network_id" TStr; req "last_seen" TStr].
Definition User : ty := TObj true
  [req "id" TStr; req "name" TStr; req "email" TStr; req "status" TStr; req "role" TStr;
   req "created_at" TStr; req "updated_at" TStr].
Definition UserGroup : ty := TObj true
  [req "id" TStr; req "name" TStr; req "description" TStr; req "created_at" TStr;
   req "updated_at" TStr].
Definition workspace_fields : list (string * (bool * ty)) :=
  [req "id" TStr; req "name" TStr; req "slug" TStr; req "trust_domain" TStr;
   omitempty "ca_cert_pem" TStr; req "status" TStr; req "created_at" TStr; req "updated_at" TStr].
Definition Workspace : ty := TObj true workspace_fields.
Definition wsWithRole : ty := TObj true (workspace_fields ++ [req "role" TStr]).
Definition memberWithUser : ty := TObj true
  [req "workspace_id" TStr; req "user_id" TStr; req "role" TStr; req "joined_at" TStr;
   req "email" TStr; req "name" TStr].
Definition uiConnectorDiagnostic : ty := TObj true
  [req "id" TStr; req "name" TStr; req "status" TStr; req "streamActive" TBool;
   req "stalenessSeconds" TNum; ptr "lastSeenAt" TStr; req "remoteNetworkId" TStr].
Definition uiTunnelerDiagnostic : ty := TObj true
  [req "id" TStr; req "name" TStr; req "status" TStr; ptr "lastSeenAt" TStr].
Definition traceHop : ty := TObj true
  [req "type" (TLit ["user"; "group"; "resource"; "remote_network"; "connector"]); req "id" TStr;
   req "name" TStr; req "status" TStr; req "healthy" TBool].
Definition simpleGroup : ty := TObj true [req "id" TStr; req "name" TStr].
Definition simpleRule : ty := TObj true [req "id" TStr; req "name" TStr; req "enabled" TBool].
Definition DiscoveredResource : ty := TObj true
  [req "id" TStr; req "ip" TStr; req "port" TNum; req "protocol" TStr; req "service_name" TStr;
   req "reachable_from" TStr; req "first_seen" TNum].
Definition ScanJob : ty := TObj true
  [req "request_id" TStr; req "connector_id" TStr;
   req "status" (TLit ["pending"; "in_progress"; "completed"; "failed"]); req "targets" (TArr TStr);
   req "ports" (TArr TNum); req "started_at" TStr; omitempty "completed_at" TStr;
   omitempty "results" (TArr DiscoveredResource); omitempty "error" TStr].
End Go.

(** What an endpoint answers when it succeeds. *)
Definition ok_reply : ty := TObj true [req "ok" TBool].
Definition status_reply : ty := TObj true [req "status" TStr].
Definition report (e : endpoint) : ty :=
  match e with
  | handleUIGroups_GET => TArr Go.uiGroup
  | handleUIGroupsSubroutes_GET => TObj true
      [req "group" (TOr TNull Go.uiGroup); req "members" (TArr Go.uiGroupMember);
       req "resources" (TArr Go.uiResource)]
  | handleUIResources_GET => TArr Go.uiResource
  | handleUIResourcesSubroutes_GET => TObj true
      [req "accessRules" (TArr Go.uiAccessRule); req "resource" (TOr TNull Go.uiResource)]
  | handleUIResourcesSubroutes_PATCH =>
      TObj true [req "firewall_status" (TLit ["protected"; "unprotected"])]
  | handleUIAccessRules_GET => TArr Go.uiAccessRule
  | handleUIAccessRules_POST => Go.uiAccessRule
  | handleUIAccessRulesSubroutes_count => TObj true [req "count" TNum]
  | handleUIRemoteNetworks_GET => TArr Go.uiRemoteNetwork
  | handleUIRemoteNetworks_POST => TObj true
      [req "createdAt" TStr; req "id" TStr; req "location" TStr; req "name" TStr; req "updatedAt" TStr]
  | handleUIRemoteNetworksSubroutes_GET => TObj true
      [req "connectors" (TArr Go.uiConnector); req "network" (TOr TNull Go.uiRemoteNetwork);
       req "resources" (TArr Go.uiResource)]
  | handleUIConnectors_GET => TArr Go.uiConnector
  | handleUIConnectorsSubroutes_GET => TObj true
      [req "connector" (TOr TNull Go.uiConnector); req "logs" (TArr Go.uiConnectorLog);
       req "network" (TOr TNull Go.uiRemoteNetwork)]
  | handleUIAgentsSubroutes_GET => TObj true
      [req "agent" (TOr TNull Go.uiAgent); req "logs" (TArr Go.uiConnectorLog);
       req "network" (TOr TNull Go.uiRemoteNetwork)]
  | handleListAgents_GET => TArr Go.respAgent
  | handleUsers_GET | handleUserGroupMembers_members_GET => TArr Go.User
  | handleUsers_POST | handleUserSubroutes_GET | handleUserSubroutes_PUT => Go.User
  | handleUserGroups_GET => TArr Go.UserGroup
  | handleUserGroups_POST | handleUserGroupMembers_GET | handleUserGroupMembers_PUT => Go.UserGroup
  | handleCreateToken_POST => TObj true [req "expires_at" TStr; req "token" TStr]
  | handleInviteUser_POST => TObj true [req "email" TStr; req "invite_url" TStr; req "status" TStr]
  | handleStartScan_POST => TObj true [opt "error" TStr; req "request_id" TStr]
  | handleScanStatus_GET => Go.ScanJob
  | handleDiscoveryResults_GET => TArr Go.DiscoveredResource
  | handleUIDiagnostics_GET => TObj true
      [req "connectors" (TArr Go.uiConnectorDiagnostic); req "tunnelers" (TArr Go.uiTunnelerDiagnostic)]
  | handleUIDiagnosticsPing_POST => TObj true
      [req "connectorId" TStr; req "lastSeenAt" (TOr TNull TStr); req "message" TStr;
       req "stalenessSeconds" TNum; req "streamActive" TBool]
  | handleUIDiagnosticsTrace_POST => TObj true
      [req "allowed" TBool; req "matchedRules" (TArr Go.simpleRule); req "path" (TArr Go.traceHop);
       req "reason" TStr; req "userGroups" (TArr Go.simpleGroup)]
  | handleListWorkspaces => TArr Go.wsWithRole
  | handleGetWorkspace => Go.wsWithRole
  | handleUpdateWorkspace => Go.Workspace
  | handleListMembers => TArr Go.memberWithUser
  | handleUIGroups_POST | handleUIGroupsSubroutes_resources_POST | handleUIResources_POST
  | handleUIResourcesSubroutes_PUT | handleUIResourcesSubroutes_DELETE
  | handleUIAccessRulesSubroutes_DELETE | handleUIRemoteNetworksSubroutes_DELETE
  | handleUIConnectors_POST | handleUIConnectorsSubroutes_revoke | handleUIConnectorsSubroutes_grant
  | handleUIAgentsSubroutes_DELETE | handleUIAgentsSubroutes_revoke
  | handleUIAgentsSubroutes_grant => ok_reply
  | handleUserSubroutes_DELETE | handleUserGroupMembers_DELETE | handleConnectorSubroutes_DELETE
  | handleUserGroupMembers_members_POST | handleUserGroupMembers_members_DELETE
  | handleDeleteWorkspace | handleUpdateMemberRole | handleRemoveMember
  | handleOAuthLogout_POST => status_reply
  | handleAddMember => TObj true [req "status" TStr; req "user_id" TStr]
  | handleSelectWorkspace => TObj true [req "token" TStr]
  | _ => TAny
  end.

(** ** What is declared and what is delivered *)

(** The type argument of [request] in the client function of a route, or the type of the
    state that a page puts the answer into; [None] where the answer is not looked at. *)
Definition declared (r : route) : option ty :=
  match r with
  | NetworksGet => Some (TObj false [opt "network" Ts.RemoteNetwork;
      req "connectors" (TArr Ts.Connector); req "resources" (TArr Ts.Resource)])
  | ConnectorsGet => Some (TObj false [req "connector" (TOr Ts.Connector TNull);
      opt "network" Ts.RemoteNetwork; req "logs" (TArr TAny)])
  | AgentsGet => Some (TObj false [req "agent" (TOr Ts.Agent TNull); opt "network" Ts.RemoteNetwork;
      req "logs" (TArr TAny)])
  | NetworksList => Some (TArr Ts.RemoteNetwork)
  | ConnectorsList => Some (TArr Ts.Connector)
  | AgentsList => Some (TArr Ts.Agent)
  | SubjectsList => Some (TArr Ts.Subject)
  | GroupsList => Some (TArr Ts.Group)
  | GroupsGet => Some (TObj false [opt "group" Ts.Group; req "members" (TArr Ts.GroupMember);
      req "resources" (TArr Ts.Resource)])
  | UsersList => Some (TArr Ts.User)
  | UsersGet => Some Ts.User
  | TokensCreate => Some (TObj false [req "token" TStr; req "expires_at" TStr])
  | ServiceAccountsList => Some (TArr Ts.ServiceAccount)
  | ResourcesGet => Some (TObj false [opt "resource" Ts.Resource; req "accessRules" (TArr Ts.AccessRule)])
  | ResourcesList => Some (TArr Ts.Resource)
  | ResourcesPatch => Some (TObj false [req "firewall_status" TStr])
  | AccessRulesCreate => Some Ts.AccessRule
  | AccessRulesCount => Some (TObj false [req "count" TNum])
  | UsersInvite => Some (TObj false [req "status" TStr; opt "invite_url" TStr])
  | DiscoveryScan => Some (TObj false [req "request_id" TStr])
  | DiscoveryStatus => Some Ts.ScanJob
  | DiscoveryResults => Some (TArr Ts.DiscoveredResource)
  | DiagnosticsGet => Some Ts.DiagnosticsData
  | DiagnosticsPing => Some Ts.PingResult
  | DiagnosticsTrace => Some Ts.AccessTrace
  | WorkspacesList => Some (TArr Ts.Workspace)
  | WorkspacesGet => Some Ts.Workspace
  | WorkspacesMembers => Some (TArr Ts.WorkspaceMember)
  | _ => None
  end.

(** What the mappers of [agents.ts], [users.ts] and [subjects.ts] make of a row. *)
Definition agent_row : ty := TObj true
  [req "id" TStr; req "name" TStr; req "status" (TLit ["online"; "offline"]); req "version" TStr;
   req "hostname" TStr; req "remoteNetworkId" TStr].
Definition user_row : ty := TObj true (Ts.subject_fields (TLit ["USER"]) ++
  [req "email" TStr; req "status" TStr; req "role" TStr; req "groups" TEmpty;
   opt "certificateIdentity" TStr; req "createdAt" TStr]).
Definition subject_row (type : string) : ty := TObj false (Ts.subject_fields (TLit [type])).

(** What a route answers with status 200, as far as it is looked at: what it forwards, or
    what its mapper makes of it. *)
Definition delivered (r : route) : ty :=
  match r with
  | GroupsList => TArr Ts.Group
  | UsersList => TArr user_row
  | SubjectsList => TArr (TOr (subject_row "USER") (subject_row "GROUP"))
  | ServiceAccountsList => TEmpty
  | ResourcesList => TArr (loose Ts.Resource)
  | AgentsList => TArr agent_row
  | NetworksList => TArr (loose Ts.RemoteNetwork)
  | DiscoveryStatus => Ts.ScanJob
  | DiscoveryResults => TArr Ts.DiscoveredResource
  | WorkspacesList => TArr Ts.Workspace
  | WorkspacesGet => Ts.Workspace
  | GroupsGet => report handleUIGroupsSubroutes_GET
  | NetworksGet => report handleUIRemoteNetworksSubroutes_GET
  | ConnectorsList => report handleUIConnectors_GET
  | ConnectorsGet => report handleUIConnectorsSubroutes_GET
  | AgentsGet => report handleUIAgentsSubroutes_GET
  | UsersGet => report handleUserSubroutes_GET
  | TokensCreate => report handleCreateToken_POST
  | ResourcesGet => report handleUIResourcesSubroutes_GET
  | ResourcesPatch => report handleUIResourcesSubroutes_PATCH
  | AccessRulesCreate => report handleUIAccessRules_POST
  | AccessRulesCount => report handleUIAccessRulesSubroutes_count
  | UsersInvite => report handleInviteUser_POST
  | DiscoveryScan => report handleStartScan_POST
  | DiagnosticsGet => report handleUIDiagnostics_GET
  | DiagnosticsPing => report handleUIDiagnosticsPing_POST
  | DiagnosticsTrace => report handleUIDiagnosticsTrace_POST
  | WorkspacesMembers => report handleListMembers
  | _ => TAny
  end.
