(* ===== verification/Answers.v ===== *)
(** * What the routes answer has the declared types

    Every route whose answer is looked at, on a controller that reports what its structs
    say; and what this means for the users of groups. *)
From S2P Require Import Prelude JsString Json JsonRoundtrip Storage Uri Proxy Routes UserRoutes WorkspaceRoutes.
From S2P Require Import Server ServerProps.
From S2P Require Import Controller ControllerProps Contract.
From stdpp Require Import gmap.
From Stdlib Require Import Ascii ZArith Lia.

(** ** The answers of the server have the declared types

    On a controller that reports what its structs say, every route delivers what its
    client function declares, up to unions of literals and null; and the three places
    where it does not. *)

(** ** The controller *)

(** A reply that succeeds is of the type of the endpoint that was reached; a path that
    nobody serves does not succeed; the identifiers of groups, which the controller
    makes itself (user.go), need no encoding. *)
Definition honest (env : environment) (backend : trace → backend_request → backend_reply) : Prop :=
  ∀ tr q path status txt, url q = getBackendUrl env +:+ path → backend tr q = Reply status txt →
    ok_status status = true →
    match Controller.dispatch (method q) path with
    | Serves e ids => ∃ v, parse txt = Ok v ∧ has_type (report e) v = true ∧
        (e = handleUserGroups_GET → ∀ gs, v = JArr gs →
           Forall (λ g, ∀ s, opt_field g "id" = JStr s → path_id s) gs)
    | NoHandler => False
    | _ => True
    end.

(** No request that reaches an endpoint fails. *)
Definition available (env : environment) (backend : trace → backend_request → backend_reply) : Prop :=
  ∀ tr q path e ids, url q = getBackendUrl env +:+ path →
    Controller.dispatch (method q) path = Serves e ids →
    ∃ status txt, backend tr q = Reply status txt ∧ ok_status status = true.

(** ** Computations that meet a condition, unless a request fails *)

Definition meets {A} (P : Prop) (Q : A → Prop) (m : M trace A) : Prop :=
  ∀ tr, match (m tr).2 with Ok a => Q a | Throw _ => ¬ P end.

Section Meets.
  Context (P : Prop).

Lemma meets_ret {A} (Q : A → Prop) a : Q a → meets P Q (mret a : M trace A).
Proof. by intros H tr. Qed.

Lemma meets_bind {A B} (Q : A → Prop) (R : B → Prop) (m : M trace A) f :
  meets P Q m → (∀ a, Q a → meets P R (f a)) → meets P R (m ≫= f).
Proof.
  intros Hm Hf tr. specialize (Hm tr). unfold mbind, M_bind.
  destruct (m tr) as [tr1 [a|e]]; [|done]. by apply Hf.
Qed.

Lemma meets_impl {A} (Q R : A → Prop) (m : M trace A) :
  meets P Q m → (∀ a, Q a → R a) → meets P R m.
Proof.
  intros Hm H tr. specialize (Hm tr). destruct (m tr).2; [by apply H|done].
Qed.

Lemma meets_mapEach {A B} (Q : A → Prop) (R : B → Prop) (f : A → M trace B) l :
  (∀ x, Q x → meets P R (f x)) → Forall Q l → meets P (Forall R) (mapEach f l).
Proof.
  intros Hf Hl. induction Hl as [|x l Hx _ IH]; cbn [mapEach]; [apply meets_ret, Forall_nil_2|].
  apply (meets_bind R); [by apply Hf|]. intros y Hy. apply (meets_bind (Forall R)); [done|].
  intros ys Hys. by apply meets_ret, Forall_cons.
Qed.

Lemma meets_on_object {A} (Q : A → Prop) v (m : M trace A) :
  is_nullish v = false → meets P Q m → meets P Q (on_object v m).
Proof. intros Hv. unfold on_object. by rewrite Hv. Qed.

(** Whatever happens is caught. *)
Lemma meets_caught {A} (Q : A → Prop) (m : M trace A) h :
  (∀ tr a, (m tr).2 = Ok a → Q a) → (∀ e, meets P Q (h e)) → meets P Q (try_catch m h).
Proof.
  intros Hm Hh tr. specialize (Hm tr). unfold try_catch.
  destruct (m tr) as [tr1 [a|e]]; cbn in *; [by apply Hm|]. apply (Hh e tr1).
Qed.
End Meets.

(** ** The proxy on such a controller *)

Section Typed.
  Context (env : environment) (backend : trace → backend_request → backend_reply).
  Context (Hhonest : honest env backend).
  Abbreviation P := (available env backend).

Definition reported (e : endpoint) (v : jsv) : Prop :=
  has_type (report e) v = true ∧
  (e = handleUserGroups_GET → ∀ gs, v = JArr gs →
     Forall (λ g, ∀ s, opt_field g "id" = JStr s → path_id s) gs).

Lemma meets_send bearer path options e ids :
  Controller.dispatch (default "GET" (init_method options)) path = Serves e ids →
  meets P (reported e) (response ← send backend (request_of env bearer path options);
                        lift_outcome (reply_outcome response)).
Proof.
  intros Hd tr. unfold mbind, M_bind, send, lift_outcome. cbn [snd].
  set (q := request_of env bearer path options).
  destruct (backend tr q) as [m|s t] eqn:Er; cbn [reply_outcome].
  - intros HP. destruct (HP tr q path e ids eq_refl Hd) as (? & ? & E & _). congruence.
  - destruct (ok_status s) eqn:Es.
    + pose proof (Hhonest tr q path s t eq_refl Er Es) as H. cbn [method q request_of] in H.
      rewrite Hd in H. destruct H as (v & -> & H). exact H.
    + intros HP. destruct (HP tr q path e ids eq_refl Hd) as (? & ? & E & E').
      rewrite Er in E. injection E as <- <-. congruence.
Qed.

Lemma meets_proxy path options e ids :
  Controller.dispatch (default "GET" (init_method options)) path = Serves e ids →
  meets P (reported e) (proxyToBackend env backend path options).
Proof. apply meets_send. Qed.

Lemma meets_jwt jwt path options e ids :
  Controller.dispatch (default "GET" (init_method options)) path = Serves e ids →
  meets P (reported e) (proxyWithJWT env backend path jwt options).
Proof. apply meets_send. Qed.

Lemma unserved_throws path options tr v :
  Controller.dispatch (default "GET" (init_method options)) path = NoHandler →
  (proxyToBackend env backend path options tr).2 ≠ Ok v.
Proof.
  intros Hd. unfold proxyToBackend, mbind, M_bind, send, lift_outcome. cbn [snd].
  set (q := request_of env _ path options).
  destruct (backend tr q) as [m|s t] eqn:Er; cbn [reply_outcome]; [done|].
  destruct (ok_status s) eqn:Es; [|done].
  pose proof (Hhonest tr q path s t eq_refl Er Es) as H. cbn [method q request_of] in H.
  by rewrite Hd in H.
Qed.
End Typed.

(** ** The mappers *)

Lemma null_of v : has_type TNull v = true → v = JNull.
Proof. by destruct v. Qed.
Lemma or_of a b v : has_type (TOr a b) v = true → has_type a v = true ∨ has_type b v = true.
Proof. cbn. apply orb_true_iff. Qed.

(** What is known of the fields of a row of the controller. *)
Ltac row_facts :=
  repeat match goal with
  | H : Forall _ [] |- _ => clear H
  | H : Forall _ (_ :: _) |- _ => apply Forall_cons in H as [? H]; cbn [fst snd req opt Go.ptr Go.omitempty] in *
  | H : (false = true ∧ _) ∨ _ |- _ => destruct H as [[[=] _]|H]
  | H : (true = true ∧ _) ∨ _ |- _ => destruct H as [[_ H]|H]
  | H : has_type TStr _ = true |- _ => apply str_of in H as [? H]
  | H : has_type TNum _ = true |- _ => apply num_of in H as (? & H & ?)
  | H : has_type TBool _ = true |- _ => apply bool_of in H as [? H]
  | H : has_type (TLit _) _ = true |- _ => apply lit_of in H as (? & H & ?)
  | H : has_type TNull _ = true |- _ => apply null_of in H
  | H : has_type (TOr TNull _) _ = true |- _ => apply or_of in H as [H|H]
  end.
Ltac open_row H :=
  apply obj_fields in H; destruct H as (? & -> & H & ?);
  unfold Go.workspace_fields in *; cbn [app] in H; row_facts.
Ltac read_fields :=
  cbn [first_of]; rewrite ?get_opt_field;
  repeat match goal with
  | H : get ?k ?l = _ |- context [get ?k ?l] => rewrite H
  end;
  repeat match goal with
  | H : true = true → Forall _ ?l |- context [get ?k ?l] =>
      rewrite (get_absent k _ l (H eq_refl)) by (apply (bool_decide_eq_false_1 _); vm_compute; reflexivity)
  end;
  cbn [nullish_or is_nullish].


Ltac typed :=
  lazy -[isFinite];
  repeat match goal with H : isFinite _ = true |- _ => rewrite H end; reflexivity.
Ltac literals :=
  repeat match goal with
  | H : _ ∈ [] |- _ => by apply not_elem_of_nil in H
  | H : _ ∈ _ :: _ |- _ => apply elem_of_cons in H as [->|H]
  end.
Ltac mapped H f :=
  open_row H; unfold f; (apply meets_on_object; [done|]); cbv zeta; apply meets_ret; read_fields; typed.

Lemma group_typed P v : has_type Go.uiGroup v = true →
  meets P (λ w, has_type Ts.Group w = true) (mapBackendGroup v).
Proof. intros H. mapped H mapBackendGroup. Qed.

Lemma network_typed P v : has_type Go.uiRemoteNetwork v = true →
  meets P (λ w, has_type (loose Ts.RemoteNetwork) w = true) (mapBackendNetwork v).
Proof.
  intros H. open_row H. unfold mapBackendNetwork. apply meets_on_object; [done|]. cbv zeta.
  apply meets_ret. read_fields. unfold falsy_or. destruct (truthy _); typed.
Qed.

Lemma resource_typed P v : has_type Go.uiResource v = true →
  meets P (λ w, has_type (loose Ts.Resource) w = true) (mapResourceRow v).
Proof. intros H. mapped H mapResourceRow. Qed.

Lemma agent_typed P v : has_type Go.respAgent v = true →
  meets P (λ w, has_type agent_row w = true) (mapAgent v).
Proof.
  intros H. open_row H. unfold mapAgent. apply meets_on_object; [done|]. apply meets_ret. read_fields.
  unfold or_str, falsy_or. literals; repeat (destruct (truthy _)); typed.
Qed.

Lemma discovered_typed P v : has_type Go.DiscoveredResource v = true →
  meets P (λ w, has_type Ts.DiscoveredResource w = true) (mapDiscovered v).
Proof.
  intros H. open_row H. unfold mapDiscovered. apply meets_on_object; [done|]. apply meets_ret. read_fields.
  unfold or_str, falsy_or. destruct (truthy _); typed.
Qed.

Lemma workspace_typed P v : has_type Go.wsWithRole v = true →
  meets P (λ w, has_type Ts.Workspace w = true) (mapWorkspace v).
Proof. intros H. mapped H mapWorkspace. Qed.

Lemma subject_typed P t type label v :
  (t = Go.User ∧ type = "USER") ∨ (t = Go.UserGroup ∧ type = "GROUP") → has_type t v = true →
  meets P (λ w, has_type (Contract.subject_row type) w = true) (Routes.subject_row type label v).
Proof. intros [[-> ->]|[-> ->]] H; mapped H Routes.subject_row. Qed.

Lemma user_typed P v : has_type Go.User v = true →
  meets P (λ w, has_type user_row w = true) (mapBackendUser v []).
Proof.
  intros H. open_row H. unfold mapBackendUser. apply meets_on_object; [done|]. cbv zeta.
  read_fields. apply meets_ret. typed.
Qed.

Lemma open_record fs l :
  Forall (λ f, (f.2.1 = true ∧ get f.1 l = JUndef) ∨ has_type f.2.2 (get f.1 l) = true) fs →
  has_type (TObj false fs) (JObj l) = true.
Proof.
  intros H. cbn [has_type negb orb]. rewrite andb_true_r. apply forallb_forall. intros f Hf.
  rewrite Forall_forall in H. apply list_elem_of_In, H in Hf as [[-> ->]|Hf]; [done|].
  by rewrite Hf, orb_true_r.
Qed.

Definition scanned (v : jsv) : Prop :=
  v = JUndef ∨ has_type (TArr Ts.DiscoveredResource) v = true.

Lemma scan_typed P v : has_type Go.ScanJob v = true →
  meets P (λ w, has_type Ts.ScanJob w = true) (mapScanJob v).
Proof.
  intros H. open_row H; unfold mapScanJob; (apply meets_on_object; [done|]).
  all: read_fields; apply (meets_bind P scanned).
  all: try (apply meets_ret; by left).
  all: try (match goal with H : has_type (TArr Go.DiscoveredResource) (get "results" ?l) = true |- _ =>
      apply arr_of in H as (rs & -> & Hrs) end;
    apply (meets_bind P (Forall (λ w, has_type Ts.DiscoveredResource w = true)));
    [apply (meets_mapEach _ _ _ _ _ (discovered_typed P) Hrs)|];
    intros ws Hws; apply meets_ret; right; by apply type_of_arr).
  all: intros ws Hws; apply meets_ret, open_record.
  all: repeat (apply Forall_cons_2; [cbn [fst snd req opt get assoc]|]); try apply Forall_nil_2.
  all: first [by left | right; assumption | right; by apply bool_decide_eq_true_2 |
    destruct Hws as [-> |Hws]; [by left|by right] | by right].
Qed.

(** ** Handlers *)

(** Every run answers: with a value as promised, or with status 500 if a request may fail. *)
Definition answers (P : Prop) (Q : jsv → Prop) (m : M trace response) : Prop :=
  ∀ tr, ∃ resp, (m tr).2 = Ok resp ∧
    ((Routes.status resp = 200%Z ∧ Q (json resp)) ∨ (Routes.status resp = 500%Z ∧ ¬ P)).

Section Answers.
  Context (env : environment) (backend : trace → backend_request → backend_reply).
  Context (msg : js_error → string).
  Context (Hhonest : honest env backend).
  Abbreviation P := (available env backend).
  Abbreviation delivers r := (λ v, has_type (delivered r) v = true).
  Abbreviation typed_rows t := (Forall (λ w, has_type t w = true)).

Definition ok_with (Q : jsv → Prop) (resp : response) : Prop :=
  Routes.status resp = 200%Z ∧ Q (json resp).

Lemma answered_handler (Q : jsv → Prop) h :
  meets P (ok_with Q) h → answers P Q (Routes.handler msg h).
Proof.
  intros H tr. specialize (H tr). unfold Routes.handler, try_catch.
  destruct (h tr) as [tr1 [resp|e]]; cbn [snd] in *; eexists; (split; [done|]); [by left|by right].
Qed.

Lemma meets_ok (Q : jsv → Prop) v : Q v → meets P (ok_with Q) (ok v).
Proof. intros H. by apply meets_ret. Qed.

Lemma forward_typed path options e ids :
  Controller.dispatch (default "GET" (init_method options)) path = Serves e ids →
  answers P (λ v, has_type (report e) v = true) (forward env backend msg path options).
Proof.
  intros Hd. apply answered_handler. eapply meets_bind; [by eapply meets_proxy|].
  intros v [Hv _]. by apply meets_ok.
Qed.

Lemma jwt_forward_typed req path options e ids :
  Controller.dispatch (default "GET" (init_method options)) path = Serves e ids →
  answers P (λ v, has_type (report e) v = true) (jwt_forward env backend msg req path options).
Proof.
  intros Hd. apply answered_handler. eapply meets_bind; [by eapply meets_jwt|].
  intros v [Hv _]. by apply meets_ok.
Qed.

Lemma meets_array t v : has_type (TArr t) v = true → meets P (typed_rows t) (as_array v).
Proof. intros (l & -> & Hl)%arr_of. by apply meets_ret. Qed.

Lemma meets_rows t t' f l : (∀ v, has_type t v = true → meets P (λ w, has_type t' w = true) (f v)) →
  typed_rows t l → meets P (typed_rows t') (mapEach f l).
Proof. apply meets_mapEach. Qed.

(** A list, mapped row by row. *)
Lemma list_typed path e ids t t' f :
  Controller.dispatch "GET" path = Serves e ids → report e = TArr t →
  (∀ v, has_type t v = true → meets P (λ w, has_type t' w = true) (f v)) →
  answers P (λ v, has_type (TArr t') v = true) (Routes.handler msg
    (v ← proxyToBackend env backend path no_options; l ← as_array v; ys ← mapEach f l; ok (JArr ys))).
Proof.
  intros Hd He Hf. apply answered_handler. eapply meets_bind; [by eapply meets_proxy|].
  intros v [Hv _]. rewrite He in Hv. eapply meets_bind; [by apply meets_array|]. intros l Hl.
  eapply meets_bind; [by eapply meets_rows|]. intros ys Hys. by apply meets_ok, type_of_arr.
Qed.

(** A list, mapped row by row; what is no array counts as empty. *)
Lemma or_empty_typed path e ids t t' f :
  Controller.dispatch "GET" path = Serves e ids → report e = TArr t →
  (∀ v, has_type t v = true → meets P (λ w, has_type t' w = true) (f v)) →
  answers P (λ v, has_type (TArr t') v = true) (Routes.handler msg
    (v ← proxyToBackend env backend path no_options;
     ys ← mapEach f (match v with JArr l => l | _ => [] end); ok (JArr ys))).
Proof.
  intros Hd He Hf. apply answered_handler. eapply meets_bind; [by eapply meets_proxy|].
  intros v [Hv _]. rewrite He in Hv. apply arr_of in Hv as (l & -> & Hl).
  eapply meets_bind; [by eapply meets_rows|]. intros ys Hys. by apply meets_ok, type_of_arr.
Qed.

(** Each list of subjects is that of its type. *)
Lemma subjects_typed path e ids t type label :
  Controller.dispatch "GET" path = Serves e ids → report e = TArr t →
  (t = Go.User ∧ type = "USER") ∨ (t = Go.UserGroup ∧ type = "GROUP") →
  meets P (typed_rows (Contract.subject_row type)) (subjects_of env backend path type label).
Proof.
  intros Hd He Ht. eapply meets_bind; [by eapply meets_proxy|]. intros v [Hv _]. rewrite He in Hv.
  eapply meets_bind; [by apply meets_array|]. intros l Hl. eapply meets_rows; [|done].
  intros w. by apply subject_typed.
Qed.

(** What nobody serves is caught. *)
Lemma unserved_caught {A} (Q : A → Prop) path options (f : jsv → M trace A) h :
  Controller.dispatch (default "GET" (init_method options)) path = NoHandler →
  (∀ e, meets P Q (h e)) →
  meets P Q (try_catch (v ← proxyToBackend env backend path options; f v) h).
Proof.
  intros Hd. apply meets_caught. intros tr a. unfold mbind at 1, M_bind.
  pose proof (unserved_throws env backend Hhonest path options tr) as H.
  destruct (proxyToBackend env backend path options tr) as [tr1 [v|e]]; [|done].
  by destruct (H v).
Qed.

Lemma subjects_list_typed req :
  answers P (delivers SubjectsList) (subjects_list env backend msg req).
Proof.
  apply answered_handler. cbv zeta.
  apply (meets_bind P (typed_rows (Contract.subject_row "USER"))).
  { destruct (wanted _ _); [|by apply meets_ret]. eapply subjects_typed;
      [vm_compute; reflexivity|reflexivity|by left]. }
  intros us Hus. apply (meets_bind P (typed_rows (Contract.subject_row "GROUP"))).
  { destruct (wanted _ _); [|by apply meets_ret]. eapply subjects_typed;
      [vm_compute; reflexivity|reflexivity|by right]. }
  intros gs Hgs. apply (meets_bind P (λ l, l = [])).
  { destruct (wanted _ _); [|by apply meets_ret].
    apply unserved_caught; [vm_compute; reflexivity|]. intros e. by apply meets_ret. }
  intros ? ->. apply meets_ok, type_of_arr. rewrite app_nil_r. apply Forall_app. split;
    [apply (Forall_impl _ _ _ Hus)|apply (Forall_impl _ _ _ Hgs)]; intros w Hw; cbn [has_type] in *;
    by rewrite Hw, ?orb_true_r.
Qed.

Lemma service_accounts_typed req :
  answers P (delivers ServiceAccountsList) (service_accounts_list env backend req).
Proof.
  intros tr.
  assert (meets P (ok_with (delivers ServiceAccountsList)) (service_accounts_list env backend req)) as H.
  { apply unserved_caught; [vm_compute; reflexivity|]. intros e. by apply meets_ok. }
  specialize (H tr). unfold service_accounts_list, try_catch in *.
  match type of H with context [(proxyToBackend ?en ?b ?p ?o ≫= ?f) tr] =>
    destruct ((proxyToBackend en b p o ≫= f) tr) as [tr1 [resp|e]] end;
    cbn [snd] in *; eexists; (split; [done|]); by left.
Qed.

Lemma resources_list_typed req :
  answers P (delivers ResourcesList) (resources_list env backend msg req).
Proof.
  apply answered_handler. eapply meets_bind.
  { eapply (meets_proxy _ _ Hhonest _ _ handleUIResources_GET); vm_compute; reflexivity. }
  intros v [Hv _]. cbn [report] in Hv. apply arr_of in Hv as (l & -> & Hl).
  apply (meets_bind P (typed_rows Go.uiResource)); [by apply meets_ret|]. intros l' Hl'.
  apply (meets_bind P (typed_rows (loose Ts.Resource))).
  { eapply meets_rows; [|done]. apply resource_typed. }
  intros ys Hys. by apply meets_ok, type_of_arr.
Qed.

Lemma discovery_results_typed req :
  answers P (delivers DiscoveryResults) (discovery_results env backend msg req).
Proof.
  unfold discovery_results. cbv zeta.
  apply (or_empty_typed _ handleDiscoveryResults_GET [] Go.DiscoveredResource); [|done|apply discovered_typed].
  rewrite (dispatch_path "GET" ["api"; "admin"; "discovery"; "results"]);
    [vm_compute; reflexivity|done|plain_segs|].
  destruct (truthy _); [right; by eexists|by left].
Qed.

Lemma discovery_status_typed i req : path_id i → params req = [i] →
  answers P (delivers DiscoveryStatus) (discovery_status env backend msg req).
Proof.
  intros [? []] Hp. unfold discovery_status, param. rewrite Hp. cbn. apply answered_handler.
  eapply meets_bind.
  { eapply (meets_proxy _ _ Hhonest _ _ handleScanStatus_GET). dispatched. }
  intros v [Hv _]. eapply meets_bind; [by apply scan_typed|]. intros w Hw. by apply meets_ok.
Qed.

Lemma workspaces_list_typed req :
  answers P (delivers WorkspacesList) (workspaces_list env backend msg req).
Proof.
  apply answered_handler. eapply meets_bind.
  { eapply (meets_jwt _ _ Hhonest _ _ _ handleListWorkspaces); vm_compute; reflexivity. }
  intros v [Hv _]. eapply meets_bind; [by apply (meets_array Go.wsWithRole)|]. intros l Hl.
  eapply meets_bind; [eapply meets_rows; [|exact Hl]; apply workspace_typed|].
  intros ys Hys. by apply meets_ok, type_of_arr.
Qed.

Lemma workspaces_get_typed i req : path_id i → params req = [i] →
  answers P (delivers WorkspacesGet) (workspaces_get env backend msg req).
Proof.
  intros [? []] Hp. unfold workspaces_get, param. rewrite Hp. cbn. apply answered_handler.
  eapply meets_bind.
  { eapply (meets_jwt _ _ Hhonest _ _ _ handleGetWorkspace). dispatched. }
  intros v [Hv _]. eapply meets_bind; [by apply workspace_typed|]. intros w Hw. by apply meets_ok.
Qed.

(** *** The list of users *)

(** The members of a group as the controller lists them carry [id], neither of the
    names that the route looks for. *)
Lemma add_group_none gid ms m : typed_rows Go.User ms → add_group gid ms m = Ok m.
Proof.
  induction 1 as [|u ms Hu _ IH]; [done|]. cbn [add_group]. open_row Hu. cbn [is_nullish].
  read_fields. cbn [truthy]. exact IH.
Qed.

Definition tried {A} (Q : A → Prop) (o : outcome A) : Prop :=
  match o with Ok a => Q a | Throw _ => ¬ P end.

Lemma meets_attempt {A} (Q : A → Prop) (m : M trace A) : meets P Q m → meets P (tried Q) (attempt m).
Proof. intros H tr. specialize (H tr). unfold attempt. by destruct (m tr). Qed.

Lemma meets_lift {A} (Q : A → Prop) (o : outcome A) : tried Q o → meets P Q (lift_outcome o).
Proof. by intros H tr. Qed.

Definition listed (r : option (jsv * list jsv)) : Prop :=
  match r with Some (_, ms) => typed_rows Go.User ms | None => True end.

Lemma arrive_none results order m : Forall (tried listed) results →
  tried (λ m', m' = m) (arrive results order m).
Proof.
  intros Hr. induction order as [|i order IH]; [done|]. cbn [arrive].
  destruct (results !! i) as [o|] eqn:E; [|done]. apply (Forall_lookup_1 _ _ _ _ Hr) in E.
  destruct o as [[[gid ms]|]|e]; [|done|done]. cbn in E. by rewrite add_group_none.
Qed.

Lemma group_reply_typed g : has_type Go.UserGroup g = true →
  (∀ s, opt_field g "id" = JStr s → path_id s) → meets P listed (group_reply env backend g).
Proof.
  intros Hg Hid. open_row Hg. unfold group_reply. apply meets_on_object; [done|]. cbv zeta.
  rewrite ?get_opt_field in *.
  match goal with H : get "id" _ = JStr _ |- _ => destruct (Hid _ H) as (Hs & ? & ?); rewrite H end.
  cbn [nullish_or is_nullish text to_string]. destruct (negb _); [by apply meets_ret|].
  unfold text. cbn [to_string]. rewrite encode_plain by (by apply segment_ok_spec).
  eapply meets_bind.
  { eapply (meets_proxy _ _ Hhonest _ _ handleUserGroupMembers_members_GET). cbn. dispatched. }
  intros v [Hv _]. eapply meets_bind; [by apply (meets_array Go.User)|]. intros l Hl.
  by apply meets_ret.
Qed.

Lemma join2_tried {A B} uf (Q : A → Prop) (R : B → Prop) a b : tried Q a → tried R b →
  tried (λ p, Q p.1 ∧ R p.2) (join2 uf a b).
Proof. destruct a, b, uf; by cbn. Qed.

(** The rows of the users, whoever answers first: nobody is in a group. *)
Lemma users_list_typed uf arrival req :
  answers P (delivers UsersList) (users_list env backend msg uf arrival req).
Proof.
  apply answered_handler. eapply meets_bind.
  { apply meets_attempt. eapply (meets_proxy _ _ Hhonest _ _ handleUsers_GET); vm_compute; reflexivity. }
  intros us Hus. eapply meets_bind.
  { apply meets_attempt. eapply (meets_proxy _ _ Hhonest _ _ handleUserGroups_GET); vm_compute; reflexivity. }
  intros gs Hgs. eapply meets_bind; [apply meets_lift, join2_tried; [exact Hus|exact Hgs]|].
  clear us gs Hus Hgs. intros [us gs] [[Hus _] [Hgs Hids]]. cbn [fst snd] in *.
  specialize (Hids eq_refl). cbn [report] in *. apply arr_of in Hgs as (l & -> & Hl).
  apply (meets_bind P (λ l', l' = l)); [by apply meets_ret|]. intros ? ->.
  specialize (Hids _ eq_refl).
  eapply meets_bind.
  { apply (meets_mapEach P (λ g, has_type Go.UserGroup g = true ∧ ∀ s, opt_field g "id" = JStr s → path_id s)
      (tried listed)); [|by apply Forall_and].
    intros g [Hg Hid]. by apply meets_attempt, group_reply_typed. }
  intros results Hr. eapply meets_bind; [apply meets_lift, arrive_none, Hr|]. intros ? ->.
  eapply meets_bind; [by apply (meets_array Go.User)|]. intros rows Hrows.
  eapply meets_bind; [eapply (meets_rows Go.User user_row); [|exact Hrows]|].
  - intros u Hu. pose proof Hu as Hu'. apply obj_fields in Hu' as (? & -> & _).
    apply meets_on_object; [done|]. cbv zeta. cbn [map_get default]. by apply user_typed.
  - intros ys Hys. by apply meets_ok, type_of_arr.
Qed.
End Answers.

(** ** Every route *)

Lemma groups_list_typed env backend msg req : honest env backend →
  answers (available env backend) (λ v, has_type (delivered GroupsList) v = true)
    (groups_list env backend msg req).
Proof.
  intros Hh. apply (list_typed _ _ _ Hh _ handleUIGroups_GET [] Go.uiGroup);
    [vm_compute; reflexivity|done|apply group_typed].
Qed.

Lemma networks_list_typed env backend msg req : honest env backend →
  answers (available env backend) (λ v, has_type (delivered NetworksList) v = true)
    (networks_list env backend msg req).
Proof.
  intros Hh. apply (list_typed _ _ _ Hh _ handleUIRemoteNetworks_GET [] Go.uiRemoteNetwork);
    [vm_compute; reflexivity|done|apply network_typed].
Qed.

Lemma agents_list_typed env backend msg req : honest env backend →
  answers (available env backend) (λ v, has_type (delivered AgentsList) v = true)
    (agents_list env backend msg req).
Proof.
  intros Hh. apply (or_empty_typed _ _ _ Hh _ handleListAgents_GET [] Go.respAgent);
    [vm_compute; reflexivity|done|apply agent_typed].
Qed.

(** A route that forwards to one endpoint. *)
Ltac forwarded Hh :=
  match goal with
  | |- answers _ (λ v, has_type (delivered ?r) v = true) _ =>
      let e := match eval cbv [delivered] in (delivered r) with report ?e => e end in
      let ids := match goal with H : segment_ok ?i = true |- _ => constr:([i]) | _ => constr:(@nil string) end in
      first [apply (forward_typed _ _ _ Hh _ _ e ids)|apply (jwt_forward_typed _ _ _ Hh _ _ _ e ids)];
      cbn [init_method default with_body with_method no_options]; dispatched
  end.

Lemma route_typed env backend msg uf arrival r ps q b auth t :
  honest env backend → Forall path_id ps → length ps = arity r → declared r = Some t →
  answers (available env backend) (λ v, has_type (delivered r) v = true)
    (handler_of env backend msg uf arrival r (Routes.mkRequest ps q b auth)).
Proof.
  intros Hh Hid Ha Hd.
  destruct r; try discriminate Hd; clear Hd; vm_compute in Ha;
    destruct ps as [|i [|j [|]]]; try discriminate Ha; clear Ha;
    repeat match goal with
      | H : Forall _ [] |- _ => clear H
      | H : Forall _ (_ :: _) |- _ => apply Forall_cons in H as [? H]
      end; cbn [handler_of];
    try first [by apply groups_list_typed|by apply networks_list_typed|by apply agents_list_typed
      |by apply users_list_typed|by apply subjects_list_typed|by apply service_accounts_typed
      |by apply resources_list_typed|by apply discovery_results_typed|by eapply discovery_status_typed
      |by apply workspaces_list_typed|by eapply workspaces_get_typed];
    repeat match goal with H : path_id _ |- _ => destruct H as (? & ? & ?) end;
    autounfold with routes; unfold param;
    cbn [Routes.params lookup list_lookup default from_option id]; unfold id;
    forwarded Hh.
Qed.

(** ** What the declarations are worth *)

(** Rows of these have strings of the database where a union of literals is declared. *)
Definition unions : list route := [UsersList; ResourcesList; ConnectorsList; NetworksList].
(** These have null where the declaration lets a field be missing. *)
Definition nulls : list route := [GroupsGet; ResourcesGet; ConnectorsGet; NetworksGet; AgentsGet].
(** These forward structs of other shapes than the interfaces. *)
Definition mistyped : list route := [UsersGet; WorkspacesMembers].

(** The part of a declaration that holds. *)
Definition promised (r : route) (t : ty) : option ty :=
  if bool_decide (r ∈ mistyped) then None
  else if bool_decide (r ∈ nulls) then Some (loose (nullable t))
  else if bool_decide (r ∈ unions) then Some (loose t)
  else Some t.

(** The value has the type, and so has what is parsed from its text. *)
Definition conforms (t : ty) (v : jsv) : Prop :=
  has_type t v = true ∧
  (proper v = true → ∃ w, parse (of_list (print_raw v)) = Ok w ∧ has_type t w = true).

Lemma conforms_typed t v : is_undef v = false → has_type t v = true → conforms t v.
Proof.
  intros Hu Hv. split; [done|]. intros Hp. exists (wire v). split; [by apply parse_wire|by apply wire_type].
Qed.

Definition checked (r : route) : bool :=
  match declared r with
  | Some t => negb (has_type (delivered r) JUndef) &&
              match promised r t with Some t' => assignable t' (delivered r) | None => true end
  | None => true
  end.

Lemma all_checked r : checked r = true.
Proof. by destruct r; vm_compute. Qed.

Lemma promise_kept r t t' v : declared r = Some t → promised r t = Some t' →
  has_type (delivered r) v = true → conforms t' v.
Proof.
  intros Hd Hp Hv. pose proof (all_checked r) as H. unfold checked in H. rewrite Hd, Hp in H.
  apply andb_true_iff in H as [Hu Ha]. apply conforms_typed; [|by eapply assignable_sound].
  destruct v; try done. by rewrite Hv in Hu.
Qed.

(** A field that an interface requires and a closed record does not have. *)
Lemma lacks ca fa cb fb k t v : ca = true → has_type (TObj ca fa) v = true →
  declared_field k fa = None → (k, (false, t)) ∈ fb → has_type t JUndef = false →
  has_type (TObj cb fb) v = false.
Proof.
  intros -> (l & -> & _ & Hc)%obj_fields Hk Hf Ht. apply not_true_is_false.
  intros (l' & [= <-] & Hb & _)%obj_fields. rewrite Forall_forall in Hb. apply Hb in Hf.
  rewrite (get_absent k fa.*1) in Hf by (by first [by apply Hc|by apply declared_field_None]).
  destruct Hf as [[[=] _]|Hf]. cbn in Hf. congruence.
Qed.

(** A user as the controller prints it has no [type], a member no [userId]. *)
Lemma user_mistyped v : has_type Go.User v = true → has_type (loose (nullable Ts.User)) v = false.
Proof.
  intros H. eapply (lacks true _ _ _ "type" TStr); [done|exact H|vm_compute; reflexivity| |done].
  vm_compute. set_solver.
Qed.

Lemma member_mistyped v : has_type Go.memberWithUser v = true →
  has_type (loose (nullable Ts.WorkspaceMember)) v = false.
Proof.
  intros H. eapply (lacks true _ _ _ "userId" TStr); [done|exact H|vm_compute; reflexivity| |done].
  vm_compute. set_solver.
Qed.

(** ** A controller that reports *)

(** A value of a type, with every field and one element in every array. *)
Fixpoint inhabitant (t : ty) : jsv :=
  match t with
  | TStr => JStr "x" | TNum => JInt 1 | TBool => JBool true | TNull => JNull
  | TLit ls => JStr (default "" (ls !! 0))
  | TEmpty => JArr []
  | TArr t => JArr [inhabitant t]
  | TOr _ b => inhabitant b
  | TObj _ fs => JObj ((λ f, (f.1, inhabitant f.2.2)) <$> fs)
  | TAny => JNull
  end.

(** A controller with one row of everything. *)
Definition reporting (env : environment) (tr : trace) (q : backend_request) : backend_reply :=
  match Controller.dispatch (method q) (slice_from (length (to_list (getBackendUrl env))) (url q)) with
  | Serves e _ => Reply 200 (of_list (print_raw (inhabitant (report e))))
  | _ => Reply 404 "404 page not found"
  end.

Lemma reporting_path env q path : url q = getBackendUrl env +:+ path →
  slice_from (length (to_list (getBackendUrl env))) (url q) = path.
Proof. intros ->. unfold slice_from. rewrite to_list_app, drop_app_length. apply of_to_list. Qed.

Lemma inhabitant_reported e : ∃ v, parse (of_list (print_raw (inhabitant (report e)))) = Ok v ∧
  has_type (report e) v = true ∧
  (e = handleUserGroups_GET → ∀ gs, v = JArr gs →
     Forall (λ g, ∀ s, opt_field g "id" = JStr s → path_id s) gs).
Proof.
  destruct e; (eexists; split; [vm_compute; reflexivity|]; split; [vm_compute; reflexivity|]); try done.
  intros _ gs [= <-]. apply Forall_cons_2; [|apply Forall_nil_2]. intros s [= <-].
  split_and!; [vm_compute; reflexivity|discriminate..].
Qed.

Lemma reporting_honest env : honest env (reporting env).
Proof.
  intros tr q path status txt Hq. unfold reporting. rewrite (reporting_path _ _ _ Hq).
  destruct (Controller.dispatch _ _) as [e ids| | | |]; intros [= <- <-]; try discriminate. intros _.
  apply inhabitant_reported.
Qed.

Lemma reporting_available env : available env (reporting env).
Proof.
  intros tr q path e ids Hq Hd. unfold reporting. rewrite (reporting_path _ _ _ Hq), Hd. by eexists _, _.
Qed.

(** Nothing more holds: the others deliver a value that is not of the declared type. *)
Lemma declared_sharp r t : declared r = Some t → promised r t ≠ Some t →
  ∃ v, has_type (delivered r) v = true ∧ has_type t v = false.
Proof.
  intros Hd Hp. exists (inhabitant (delivered r)).
  assert (match declared r with
          | Some t => bool_decide (r ∈ mistyped ++ nulls ++ unions) = true →
              has_type (delivered r) (inhabitant (delivered r)) = true ∧
              has_type t (inhabitant (delivered r)) = false
          | None => True end) as H.
  { clear. by destruct r; vm_compute. }
  rewrite Hd in H. apply H, bool_decide_eq_true. unfold promised in Hp. rewrite !elem_of_app.
  repeat case_bool_decide; auto; by destruct Hp.
Qed.

(** C9: the answers have the declared types, as far as the declarations are right: on a
    controller whose replies have the types of its structs, a request for any route whose
    answer is looked at is answered, either with status 500, and then some request to the
    controller can fail, or with status 200 and a value that has the type the client
    function declares, which is also the type of what the client parses out of its text:
    exactly this type for 17 routes, this type up to unions of literals for four lists, and up to null
    for missing fields for five details; a user fetched by itself is never of the declared
    type, and the members of a workspace only when there are none. *)
Theorem server_types : ∀ env backend msg users_first arrival parse_query meth target auth b r ps t,
  honest env backend → resolve meth target = Handled r ps → Forall path_id ps →
  declared r = Some t → ∀ tr, ∃ resp,
  (Server.dispatch env backend msg users_first arrival parse_query meth target auth b tr).2 =
    Ok (Answer resp) ∧
  ((Routes.status resp = 500%Z ∧ ¬ available env backend) ∨
   (Routes.status resp = 200%Z ∧
    match promised r t with
    | Some t' => conforms t' (json resp)
    | None => has_type (loose (nullable t)) (json resp) = false ∨
              ∃ rows row_type, json resp = JArr rows ∧ t = TArr row_type ∧
                Forall (λ row, has_type (loose (nullable row_type)) row = false) rows
    end)).
Proof.
  intros env backend msg uf arrival pq meth target auth b r ps t Hh Hr Hid Hd tr.
  unfold Server.dispatch. rewrite Hr.
  destruct (route_typed env backend msg uf arrival r ps (pq (query_part target)) b auth t Hh Hid
    (resolve_arity _ _ _ _ Hr) Hd tr) as (resp & E & H).
  exists resp. split.
  { unfold mbind, M_bind. by destruct (handler_of _ _ _ _ _ _ _ tr) as [tr1 o]; cbn in E; subst o. }
  destruct H as [[Hs Hv]|H]; [right|by left]. split; [done|].
  destruct (promised r t) as [t'|] eqn:Hp; [by eapply promise_kept|].
  assert (r ∈ mistyped) as Hm.
  { unfold promised in Hp. repeat case_bool_decide; done. }
  unfold mistyped in Hm. apply elem_of_cons in Hm as [-> |Hm%list_elem_of_singleton]; [|subst r];
    cbn [declared] in Hd.
  - left. assert (t = Ts.User) as -> by congruence. by apply user_mistyped.
  - right. apply arr_of in Hv as (rows & -> & Hrows). exists rows, Ts.WorkspaceMember.
    split_and!; [done|congruence|]. apply (Forall_impl _ _ _ Hrows). apply member_mistyped.
Qed.

(** The details of a group, which has everything. *)
Lemma server_types_witness : ∃ resp,
  (Server.dispatch ∅ (reporting ∅) (λ _, "") true (λ n, seq 0 n) (λ _, []) "GET" "/api/groups/g1" None
     JNull []).2 = Ok (Answer resp) ∧ Routes.status resp = 200%Z ∧
  conforms (loose (nullable (TObj false [opt "group" Ts.Group; req "members" (TArr Ts.GroupMember);
    req "resources" (TArr Ts.Resource)]))) (json resp).
Proof.
  destruct (server_types ∅ (reporting ∅) (λ _, "") true (λ n, seq 0 n) (λ _, []) "GET" "/api/groups/g1" None
     JNull GroupsGet ["g1"] (TObj false [opt "group" Ts.Group; req "members" (TArr Ts.GroupMember);
    req "resources" (TArr Ts.Resource)])) with (tr := [] : trace) as (resp & E & [[_ H]|[Hs H]]).
  - apply reporting_honest.
  - vm_compute. reflexivity.
  - apply Forall_cons_2; [|apply Forall_nil_2]. split_and!; [vm_compute; reflexivity|discriminate|discriminate].
  - reflexivity.
  - destruct (H (reporting_available ∅)).
  - exists resp. split; [exact E|]. split; [exact Hs|exact H].
Defined.

(** ** Consequences *)

(** Nobody is shown in any group: whatever members the controller lists, the groups of
    every user are empty, since the route looks for a field [user_id] or [userId] of the
    members, which are users with an [id]. *)
Lemma users_without_groups env backend msg uf arrival rq tr resp : honest env backend →
  (users_list env backend msg uf arrival rq tr).2 = Ok resp → Routes.status resp = 200%Z →
  ∃ rows, json resp = JArr rows ∧ Forall (λ row, opt_field row "groups" = JArr []) rows.
Proof.
  intros Hh E Hs. destruct (users_list_typed env backend msg Hh uf arrival rq tr) as (resp' & E' & H).
  rewrite E in E'. injection E' as <-. destruct H as [[_ Hv]|[Hs' _]]; [|congruence].
  apply arr_of in Hv as (rows & -> & Hrows). exists rows. split; [done|].
  apply (Forall_impl _ _ _ Hrows). intros row (l & -> & Hf & _)%obj_fields.
  rewrite Forall_forall in Hf.
  destruct (Hf (Contract.req "groups" TEmpty)) as [[[=] _]|Hg]; [set_solver|].
  rewrite get_opt_field. cbn [fst snd Contract.req] in Hg. destruct (get "groups" l) as [| | | | |[]|]; done.
Qed.
