(* ===== verification/MembersPage.v ===== *)
(** * The settings page of a workspace on what the controller reports

    The composition of the controller's members, the route that forwards them and the page
    that shows them. *)
From stdpp Require Import relations.
From S2P Require Import Prelude JsString Json JsonRoundtrip Proxy Routes WorkspaceRoutes Server ServerProps.
From S2P Require Import Controller ControllerProps Contract Answers.
From S2P Require Import Dynamic Ui Async SettingsPages SettingsProps.
From Stdlib Require Import Ascii ZArith Lia.

(** A row of the members has no field [userId]. *)
Lemma member_anonymous m : has_type Go.memberWithUser m = true → opt_field m "userId" = JUndef.
Proof.
  intros H. open_row H. rewrite get_opt_field.
  apply (get_absent _ _ _ (H0 eq_refl)). apply (bool_decide_eq_false_1 _). by vm_compute.
Qed.

(** What a change of the members does to the list of the settings page, whatever the
    server answers to it. *)
Lemma anonymous_changes (p : WorkspaceSettingsPage.props) role
    (c : config WorkspaceSettingsPage.component) :
  truthy (WorkspaceSettingsPage.wsID p) = true →
  let rows := WorkspaceSettingsPage.members (its_state c) in
  Forall (λ m, opt_field m "userId" = JUndef) rows →
  let url := WorkspaceSettingsPage.members_url p +:+ "/undefined" in
  (∃ k, WorkspaceSettingsPage.handleRemoveMember p JUndef =
      Await (WorkspaceSettingsPage.fetch p "DELETE" url None) k ∧
    ∀ status body, WorkspaceSettingsPage.members
      (its_state (exec (C:=WorkspaceSettingsPage.component) (k (Ok (status, body))) c)) = []) ∧
  (∃ k, WorkspaceSettingsPage.handleChangeRole p JUndef role =
      Await (WorkspaceSettingsPage.fetch p "PUT" url (Some (JObj [("role", JStr role)]))) k ∧
    ∀ status body, Forall (λ m, opt_field m "role" = JStr role) (WorkspaceSettingsPage.members
      (its_state (exec (C:=WorkspaceSettingsPage.component) (k (Ok (status, body))) c)))).
Proof.
  intros Hp rows Hrows url. split.
  - unfold WorkspaceSettingsPage.handleRemoveMember. rewrite Hp. eexists. split; [reflexivity|].
    intros status body. cbn. fold rows. clear -Hrows. induction Hrows as [|m l Hm _ IH]; [done|].
    rewrite filter_cons, decide_False; [exact IH|]. unfold WorkspaceSettingsPage.is_member. by rewrite Hm.
  - unfold WorkspaceSettingsPage.handleChangeRole. rewrite Hp. eexists. split; [reflexivity|].
    intros status body. cbn. fold rows. apply Forall_fmap, (Forall_impl _ _ _ Hrows). intros m Hm.
    cbn. unfold WorkspaceSettingsPage.with_role, WorkspaceSettingsPage.is_member. rewrite Hm. cbn [Storage.strict_eq].
    cbn [opt_field]. by rewrite assoc_set_same.
Qed.

(** C22: from the controller to the settings page of a workspace: on a controller whose
    replies have the types of its structs, no member that the page has read has the field
    [userId] by which the page names members in its requests.  So every change of a member
    goes to the path of a member called "undefined", and when it is answered, whatever the
    answer, the removal of one member empties the list and the new role of one member is
    shown for all of them. *)
Theorem members_unidentified : ∀ env backend msg rq w tr resp (p : WorkspaceSettingsPage.props) role,
  honest env backend → path_id w → params rq = [w] →
  (workspaces_members env backend msg rq tr).2 = Ok resp → Routes.status resp = 200%Z →
  proper (json resp) = true → truthy (WorkspaceSettingsPage.wsID p) = true →
  ∃ data, parse (of_list (print_raw (json resp))) = Ok data ∧
    ∀ (c : config WorkspaceSettingsPage.component) m,
      WorkspaceSettingsPage.members (its_state c) = array_or_empty data → m ∈ array_or_empty data →
      let uid := opt_field m "userId" in
      let url := WorkspaceSettingsPage.members_url p +:+ "/undefined" in
      (∃ k, WorkspaceSettingsPage.handleRemoveMember p uid =
          Await (WorkspaceSettingsPage.fetch p "DELETE" url None) k ∧
        ∀ status body, WorkspaceSettingsPage.members
          (its_state (exec (C:=WorkspaceSettingsPage.component) (k (Ok (status, body))) c)) = []) ∧
      (∃ k, WorkspaceSettingsPage.handleChangeRole p uid role =
          Await (WorkspaceSettingsPage.fetch p "PUT" url (Some (JObj [("role", JStr role)]))) k ∧
        ∀ status body, Forall (λ m, opt_field m "role" = JStr role) (WorkspaceSettingsPage.members
          (its_state (exec (C:=WorkspaceSettingsPage.component) (k (Ok (status, body))) c)))).
Proof.
  intros env backend msg rq w tr resp p role Hh Hw Hrq E Hs Hpr Hp.
  assert (has_type (TArr Go.memberWithUser) (json resp) = true) as Hv.
  { destruct rq as [ps q b auth]. cbn in Hrq. subst ps.
    destruct (route_typed env backend msg true (λ _, []) WorkspacesMembers [w] q b auth _ Hh
      (Forall_cons_2 _ _ _ Hw (Forall_nil_2 _)) eq_refl eq_refl tr) as (resp' & E' & H).
    cbn [handler_of] in E'. rewrite E in E'. injection E' as <-.
    destruct H as [[_ H]|[H _]]; [exact H|congruence]. }
  exists (wire (json resp)). split; [apply parse_wire; [done|by destruct (json resp)]|].
  apply (wire_type _ _ Hpr) in Hv. apply arr_of in Hv as (rows & -> & Hrows). cbn [array_or_empty].
  assert (Forall (λ m, opt_field m "userId" = JUndef) rows) as Hu.
  { apply (Forall_impl _ _ _ Hrows). apply member_anonymous. }
  intros c m Hc Hm. rewrite Forall_forall in Hu. rewrite (Hu m Hm). apply anonymous_changes; [done|]. rewrite Hc. by apply Forall_forall.
Qed.

Lemma members_unidentified_witness :
  let p := WorkspaceSettingsPage.mkProps (Some w1_token) in
  let rq := Routes.mkRequest ["w1"] [] JUndef None in
  ∃ resp data, (workspaces_members ∅ (reporting ∅) (λ _, "") rq []).2 = Ok resp ∧
    parse (of_list (print_raw (json resp))) = Ok data ∧ length (array_or_empty data) = 1.
Proof.
  intros p rq. eexists.
  destruct (members_unidentified ∅ (reporting ∅) (λ _, "") rq "w1" []
    (match (workspaces_members ∅ (reporting ∅) (λ _, "") rq []).2 with Ok r => r | _ => mkResponse 0 JNull end)
    p "admin") as (data & E & _).
  - apply reporting_honest.
  - split_and!; [vm_compute; reflexivity|discriminate|discriminate].
  - reflexivity.
  - vm_compute. reflexivity.
  - vm_compute. reflexivity.
  - vm_compute. reflexivity.
  - vm_compute. reflexivity.
  - exists data. split; [|split; [exact E|]]; [vm_compute; reflexivity|].
    vm_compute in E. injection E as <-. reflexivity.
Defined.
