(* ===== verification/Jsx.v ===== *)
(** * Elements of React

    What the components of the UI kit build: elements of host tags and of components of
    libraries, with their properties.  The components of libraries are names that are not
    interpreted, the functions that join class names are parameters. *)
From S2P Require Import Prelude JsString.
From Stdlib Require Import ZArith.

(** A value of a property, or a node.  Numbers are whole; a function is what it calls, by
    name and in order. *)
Inductive pval :=
  | PUndef | PNull
  | PBool (b : bool)
  | PNum (n : Z)
  | PStr (s : string)
  | PFun (calls : list string)
  | PArr (l : list pval)
  | PObj (l : list (string * pval))
  | PElem (tag : string) (attrs : list (string * pval)).

Abbreviation props := (list (string * pval)).

(** ** Objects *)

Fixpoint assoc_prop (k : string) (l : props) : option pval :=
  match l with
  | [] => None
  | (k', v) :: l' => if bool_decide (k' = k) then Some v else assoc_prop k l'
  end.

(** [props.k] *)
Definition get (k : string) (l : props) : pval := default PUndef (assoc_prop k l).

(** [{...a, ...b}]: the members of [b] win. *)
Definition spread (a b : props) : props :=
  ((λ f, (f.1, default f.2 (assoc_prop f.1 b))) <$> a) ++
  filter (λ f, bool_decide (f.1 ∈ a.*1) = false) b.

(** [{k1, k2, ...rest}] in a pattern. *)
Definition rest (ks : list string) (l : props) : props :=
  filter (λ f, bool_decide (f.1 ∈ ks) = false) l.

Definition members (v : pval) : props := match v with PObj l => l | _ => [] end.

(** [v?.k] *)
Definition member (v : pval) (k : string) : pval :=
  match v with PObj l => get k l | _ => PUndef end.

(** [v[i]] *)
Definition item_at (v i : pval) : pval :=
  match v, i with
  | PArr l, PNum n => if (n <? 0)%Z then PUndef else default PUndef (l !! Z.to_nat n)
  | _, _ => PUndef
  end.

Definition is_array (v : pval) : bool := match v with PArr _ => true | _ => false end.
Definition elements (v : pval) : list pval := match v with PArr l => l | _ => [] end.

(** ** Operators *)

Definition truthy (v : pval) : bool :=
  match v with
  | PUndef | PNull => false
  | PBool b => b
  | PNum n => negb (bool_decide (n = 0%Z))
  | PStr s => negb (bool_decide (s = ""))
  | _ => true
  end.

Definition and_ (a b : pval) : pval := if truthy a then b else a.
Definition or_ (a b : pval) : pval := if truthy a then a else b.
Definition nullish (a b : pval) : pval := match a with PUndef | PNull => b | _ => a end.
Definition default_to (a b : pval) : pval := match a with PUndef => b | _ => a end.
Definition is_str (v : pval) (s : string) : bool :=
  match v with PStr t => bool_decide (t = s) | _ => false end.

(** [`${v}`] *)
Fixpoint text (v : pval) : string :=
  match v with
  | PUndef => "undefined"
  | PNull => "null"
  | PBool b => if b then "true" else "false"
  | PNum n => string_of_Z n
  | PStr s => s
  | PArr l => join_with "," ((λ x, match x with PUndef | PNull => "" | _ => text x end) <$> l)
  | PFun _ => "function"
  | PObj _ | PElem _ _ => "[object Object]"
  end.

(** ** Elements *)

Definition el (tag : string) (attrs : props) : pval := PElem tag attrs.

(** The nodes between the tags become the property [children]. *)
Definition with_children (attrs : props) (nodes : list pval) : props :=
  match nodes with
  | [] => attrs
  | [v] => spread attrs [("children", v)]
  | l => spread attrs [("children", PArr l)]
  end.

(** [<C ...attrs>nodes</C>] *)
Definition jsx {A} (C : props → A) (attrs : props) (nodes : list pval) : A :=
  C (with_children attrs nodes).

(** What React renders in the place of an element: its children. *)
Definition children_of (v : pval) : list pval :=
  match v with
  | PElem _ attrs => match get "children" attrs with PUndef => [] | PArr l => l | c => [c] end
  | _ => []
  end.

Fixpoint at_path (path : list nat) (v : pval) : option pval :=
  match path with
  | [] => Some v
  | i :: path' => children_of v !! i ≫= at_path path'
  end.

(** ** Class names *)

(** The choices of a [cva], by group and name, and those made when none is given. *)
Record variants := mkVariants {
  groups : list (string * list (string * pval));
  defaults : list (string * string) }.
Definition no_variants : variants := mkVariants [] [].

(** [clsx], [tailwind-merge] and [class-variance-authority]. *)
Class Styling := {
  clsx : list pval → string;
  twMerge : string → string;
  class_variance : string → variants → props → string }.

Section ClassNames.
  Context `{Styling}.

(** [lib/utils.ts] *)
Definition cn (inputs : list pval) : pval := PStr (twMerge (clsx inputs)).

Definition cva (base : string) (v : variants) (given : props) : pval :=
  PStr (class_variance base v given).
End ClassNames.

(** ** Laws *)

Lemma assoc_prop_None k l : assoc_prop k l = None ↔ k ∉ l.*1.
Proof.
  induction l as [|[k' v] l IH]; cbn; [set_solver|]. case_bool_decide; set_solver.
Qed.

Lemma assoc_prop_app k a b :
  assoc_prop k (a ++ b) = match assoc_prop k a with Some v => Some v | None => assoc_prop k b end.
Proof. induction a as [|[k' v] a IH]; cbn; [done|]. by case_bool_decide. Qed.

Lemma assoc_prop_filter (P : string → bool) k l :
  assoc_prop k (filter (λ f, P f.1 = false) l) = if P k then None else assoc_prop k l.
Proof.
  induction l as [|[k' v] l IH]; cbn [assoc_prop]; [by destruct (P k)|].
  rewrite filter_cons. cbn [fst]. case_decide as Hk; cbn [assoc_prop]; rewrite IH;
    case_bool_decide; subst; [by rewrite Hk|done| |done].
  by destruct (P k).
Qed.

Lemma assoc_prop_map k (f : string * pval → pval) l :
  assoc_prop k ((λ p, (p.1, f p)) <$> l) = (λ v, f (k, v)) <$> assoc_prop k l.
Proof.
  induction l as [|[k' v] l IH]; cbn; [done|]. case_bool_decide; [by subst|done].
Qed.

(** [b] wins. *)
Lemma assoc_spread k a b :
  assoc_prop k (spread a b) = match assoc_prop k b with Some v => Some v | None => assoc_prop k a end.
Proof.
  unfold spread. rewrite assoc_prop_app, (assoc_prop_map k (λ f, default f.2 (assoc_prop f.1 b))).
  pose proof (assoc_prop_filter (λ s, bool_decide (s ∈ a.*1)) k b) as ->.
  destruct (assoc_prop k a) as [v|] eqn:E; cbn [fmap option_fmap option_map].
  - cbn [fst snd]. by destruct (assoc_prop k b).
  - apply assoc_prop_None in E. rewrite bool_decide_false by done. by destruct (assoc_prop k b).
Qed.

Lemma assoc_rest k ks l : assoc_prop k (rest ks l) = if bool_decide (k ∈ ks) then None else assoc_prop k l.
Proof. pose proof (assoc_prop_filter (λ s, bool_decide (s ∈ ks)) k l) as E. exact E. Qed.

Lemma assoc_with_children k attrs nodes : k ≠ "children" →
  assoc_prop k (with_children attrs nodes) = assoc_prop k attrs.
Proof.
  intros Hk. unfold with_children. destruct nodes as [|v [|w nodes]]; [done|..]; rewrite assoc_spread; cbn;
    by rewrite bool_decide_false by done.
Qed.

Lemma with_no_children attrs : with_children attrs [] = attrs.
Proof. done. Qed.
