(* ===== verification/KitBasic.v ===== *)
(** * The UI kit: controls and layout

    [components/ui]: a module per file, a definition per component, from the properties to
    the element it returns. *)

From S2P Require Import Prelude JsString Jsx.

From Stdlib Require Import ZArith.

(** [button.tsx] *)
Module button.
Section Kit.
  Context `{Styling}.

Definition buttonVariants (given : props) : pval :=
  cva "inline-flex items-center justify-center gap-2 whitespace-nowrap rounded-md text-sm font-medium transition-all disabled:pointer-events-none disabled:opacity-50 [&_svg]:pointer-events-none [&_svg:not([class*='size-'])]:size-4 shrink-0 [&_svg]:shrink-0 outline-none focus-visible:border-ring focus-visible:ring-ring/50 focus-visible:ring-[3px] aria-invalid:ring-destructive/20 dark:aria-invalid:ring-destructive/40 aria-invalid:border-destructive"
    (mkVariants
    [("variant", [("default", PStr "bg-primary text-primary-foreground hover:bg-primary/90");
                  ("destructive", PStr "bg-destructive text-white hover:bg-destructive/90 focus-visible:ring-destructive/20 dark:focus-visible:ring-destructive/40 dark:bg-destructive/60");
                  ("outline", PStr "border bg-background shadow-xs hover:bg-accent hover:text-accent-foreground dark:bg-input/30 dark:border-input dark:hover:bg-input/50");
                  ("secondary", PStr "bg-secondary text-secondary-foreground hover:bg-secondary/80");
                  ("ghost", PStr "hover:bg-accent hover:text-accent-foreground dark:hover:bg-accent/50");
                  ("link", PStr "text-primary underline-offset-4 hover:underline")]);
     ("size", [("default", PStr "h-9 px-4 py-2 has-[>svg]:px-3");
               ("sm", PStr "h-8 rounded-md gap-1.5 px-3 has-[>svg]:px-2.5");
               ("lg", PStr "h-10 rounded-md px-6 has-[>svg]:px-4"); ("icon", PStr "size-9");
               ("icon-sm", PStr "size-8"); ("icon-lg", PStr "size-10")])]
    [("variant", "default"); ("size", "default")]) given.

Definition Button (ps : props) : pval :=
  let className := get "className" ps in
  let variant := get "variant" ps in
  let size := get "size" ps in
  let asChild := default_to (get "asChild" ps) (PBool false) in
  let props := rest ["className"; "variant"; "size"; "asChild"] ps in
  let Comp := if truthy asChild then "Slot" else "button" in
  jsx (el Comp)
    (spread
       [("data-slot", PStr "button");
        ("className",
          cn [buttonVariants [("variant", variant); ("size", size); ("className", className)]])]
       props)
    [].

End Kit.
End button.

(** [label.tsx] *)
Module label.
Section Kit.
  Context `{Styling}.

Definition Label (ps : props) : pval :=
  let className := get "className" ps in
  let props := rest ["className"] ps in
  jsx (el "LabelPrimitive.Root")
    (spread
       [("data-slot", PStr "label");
        ("className",
          cn [PStr "flex items-center gap-2 text-sm leading-none font-medium select-none group-data-[disabled=true]:pointer-events-none group-data-[disabled=true]:opacity-50 peer-disabled:cursor-not-allowed peer-disabled:opacity-50";
              className])]
       props)
    [].

End Kit.
End label.

(** [input.tsx] *)
Module input.
Section Kit.
  Context `{Styling}.

Definition Input (ps : props) : pval :=
  let className := get "className" ps in
  let type_ := get "type" ps in
  let props := rest ["className"; "type"] ps in
  jsx (el "input")
    (spread
       [("type", type_); ("data-slot", PStr "input");
        ("className",
          cn [PStr "file:text-foreground placeholder:text-muted-foreground selection:bg-primary selection:text-primary-foreground dark:bg-input/30 border-input h-9 w-full min-w-0 rounded-md border bg-transparent px-3 py-1 text-base shadow-xs transition-[color,box-shadow] outline-none file:inline-flex file:h-7 file:border-0 file:bg-transparent file:text-sm file:font-medium disabled:pointer-events-none disabled:cursor-not-allowed disabled:opacity-50 md:text-sm";
              PStr "focus-visible:border-ring focus-visible:ring-ring/50 focus-visible:ring-[3px]";
              PStr "aria-invalid:ring-destructive/20 dark:aria-invalid:ring-destructive/40 aria-invalid:border-destructive";
              className])]
       props)
    [].

End Kit.
End input.

(** [textarea.tsx] *)
Module textarea.
Section Kit.
  Context `{Styling}.

Definition Textarea (ps : props) : pval :=
  let className := get "className" ps in
  let props := rest ["className"] ps in
  jsx (el "textarea")
    (spread
       [("data-slot", PStr "textarea");
        ("className",
          cn [PStr "border-input placeholder:text-muted-foreground focus-visible:border-ring focus-visible:ring-ring/50 aria-invalid:ring-destructive/20 dark:aria-invalid:ring-destructive/40 aria-invalid:border-destructive dark:bg-input/30 flex field-sizing-content min-h-16 w-full rounded-md border bg-transparent px-3 py-2 text-base shadow-xs transition-[color,box-shadow] outline-none focus-visible:ring-[3px] disabled:cursor-not-allowed disabled:opacity-50 md:text-sm";
              className])]
       props)
    [].

End Kit.
End textarea.

(** [separator.tsx] *)
Module separator.
Section Kit.
  Context `{Styling}.

Definition Separator (ps : props) : pval :=
  let className := get "className" ps in
  let orientation := default_to (get "orientation" ps) (PStr "horizontal") in
  let decorative := default_to (get "decorative" ps) (PBool true) in
  let props := rest ["className"; "orientation"; "decorative"] ps in
  jsx (el "SeparatorPrimitive.Root")
    (spread
       [("data-slot", PStr "separator"); ("decorative", decorative); ("orientation", orientation);
        ("className",
          cn [PStr "bg-border shrink-0 data-[orientation=horizontal]:h-px data-[orientation=horizontal]:w-full data-[orientation=vertical]:h-full data-[orientation=vertical]:w-px";
              className])]
       props)
    [].

End Kit.
End separator.

(** [skeleton.tsx] *)
Module skeleton.
Section Kit.
  Context `{Styling}.

Definition Skeleton (ps : props) : pval :=
  let className := get "className" ps in
  let props := rest ["className"] ps in
  jsx (el "div")
    (spread
       [("data-slot", PStr "skeleton");
        ("className", cn [PStr "bg-accent animate-pulse rounded-md"; className])]
       props)
    [].

End Kit.
End skeleton.

(** [badge.tsx] *)
Module badge.
Section Kit.
  Context `{Styling}.

Definition badgeVariants (given : props) : pval :=
  cva "inline-flex items-center justify-center rounded-md border px-2 py-0.5 text-xs font-medium w-fit whitespace-nowrap shrink-0 [&>svg]:size-3 gap-1 [&>svg]:pointer-events-none focus-visible:border-ring focus-visible:ring-ring/50 focus-visible:ring-[3px] aria-invalid:ring-destructive/20 dark:aria-invalid:ring-destructive/40 aria-invalid:border-destructive transition-[color,box-shadow] overflow-hidden"
    (mkVariants
    [("variant", [("default", PStr "border-transparent bg-primary text-primary-foreground [a&]:hover:bg-primary/90");
                  ("secondary", PStr "border-transparent bg-secondary text-secondary-foreground [a&]:hover:bg-secondary/90");
                  ("destructive", PStr "border-transparent bg-destructive text-white [a&]:hover:bg-destructive/90 focus-visible:ring-destructive/20 dark:focus-visible:ring-destructive/40 dark:bg-destructive/60");
                  ("outline", PStr "text-foreground [a&]:hover:bg-accent [a&]:hover:text-accent-foreground")])]
    [("variant", "default")]) given.

Definition Badge (ps : props) : pval :=
  let className := get "className" ps in
  let variant := get "variant" ps in
  let asChild := default_to (get "asChild" ps) (PBool false) in
  let props := rest ["className"; "variant"; "asChild"] ps in
  let Comp := if truthy asChild then "Slot" else "span" in
  jsx (el Comp)
    (spread
       [("data-slot", PStr "badge");
        ("className", cn [badgeVariants [("variant", variant)]; className])]
       props)
    [].

End Kit.
End badge.

(** [accordion.tsx] *)
Module accordion.
Section Kit.
  Context `{Styling}.

Definition Accordion (ps : props) : pval :=
  jsx (el "AccordionPrimitive.Root") (spread [("data-slot", PStr "accordion")] ps) [].

Definition AccordionItem (ps : props) : pval :=
  let className := get "className" ps in
  let props := rest ["className"] ps in
  jsx (el "AccordionPrimitive.Item")
    (spread
       [("data-slot", PStr "accordion-item");
        ("className", cn [PStr "border-b last:border-b-0"; className])]
       props)
    [].

Definition AccordionTrigger (ps : props) : pval :=
  let className := get "className" ps in
  let children := get "children" ps in
  let props := rest ["className"; "children"] ps in
  jsx (el "AccordionPrimitive.Header") [("className", PStr "flex")]
    [jsx (el "AccordionPrimitive.Trigger")
       (spread
          [("data-slot", PStr "accordion-trigger");
           ("className",
             cn [PStr "focus-visible:border-ring focus-visible:ring-ring/50 flex flex-1 items-start justify-between gap-4 rounded-md py-4 text-left text-sm font-medium transition-all outline-none hover:underline focus-visible:ring-[3px] disabled:pointer-events-none disabled:opacity-50 [&[data-state=open]>svg]:rotate-180";
                 className])]
          props)
       [children;
        jsx (el "ChevronDownIcon")
          [("className", PStr "text-muted-foreground pointer-events-none size-4 shrink-0 translate-y-0.5 transition-transform duration-200")]
          []]].

Definition AccordionContent (ps : props) : pval :=
  let className := get "className" ps in
  let children := get "children" ps in
  let props := rest ["className"; "children"] ps in
  jsx (el "AccordionPrimitive.Content")
    (spread
       [("data-slot", PStr "accordion-content");
        ("className", PStr "data-[state=closed]:animate-accordion-up data-[state=open]:animate-accordion-down overflow-hidden text-sm")]
       props)
    [jsx (el "div") [("className", cn [PStr "pt-0 pb-4"; className])] [children]].

End Kit.
End accordion.

(** [alert.tsx] *)
Module alert.
Section Kit.
  Context `{Styling}.

Definition alertVariants (given : props) : pval :=
  cva "relative w-full rounded-lg border px-4 py-3 text-sm grid has-[>svg]:grid-cols-[calc(var(--spacing)*4)_1fr] grid-cols-[0_1fr] has-[>svg]:gap-x-3 gap-y-0.5 items-start [&>svg]:size-4 [&>svg]:translate-y-0.5 [&>svg]:text-current"
    (mkVariants
    [("variant", [("default", PStr "bg-card text-card-foreground");
                  ("destructive", PStr "text-destructive bg-card [&>svg]:text-current *:data-[slot=alert-description]:text-destructive/90")])]
    [("variant", "default")]) given.

Definition Alert (ps : props) : pval :=
  let className := get "className" ps in
  let variant := get "variant" ps in
  let props := rest ["className"; "variant"] ps in
  jsx (el "div")
    (spread
       [("data-slot", PStr "alert"); ("role", PStr "alert");
        ("className", cn [alertVariants [("variant", variant)]; className])]
       props)
    [].

Definition AlertTitle (ps : props) : pval :=
  let className := get "className" ps in
  let props := rest ["className"] ps in
  jsx (el "div")
    (spread
       [("data-slot", PStr "alert-title");
        ("className",
          cn [PStr "col-start-2 line-clamp-1 min-h-4 font-medium tracking-tight"; className])]
       props)
    [].

Definition AlertDescription (ps : props) : pval :=
  let className := get "className" ps in
  let props := rest ["className"] ps in
  jsx (el "div")
    (spread
       [("data-slot", PStr "alert-description");
        ("className",
          cn [PStr "text-muted-foreground col-start-2 grid justify-items-start gap-1 text-sm [&_p]:leading-relaxed";
              className])]
       props)
    [].

End Kit.
End alert.

(** [aspect-ratio.tsx] *)
Module aspect_ratio.
Section Kit.
  Context `{Styling}.

Definition AspectRatio (ps : props) : pval :=
  jsx (el "AspectRatioPrimitive.Root") (spread [("data-slot", PStr "aspect-ratio")] ps) [].

End Kit.
End aspect_ratio.

(** [avatar.tsx] *)
Module avatar.
Section Kit.
  Context `{Styling}.

Definition Avatar (ps : props) : pval :=
  let className := get "className" ps in
  let props := rest ["className"] ps in
  jsx (el "AvatarPrimitive.Root")
    (spread
       [("data-slot", PStr "avatar");
        ("className",
          cn [PStr "relative flex size-8 shrink-0 overflow-hidden rounded-full"; className])]
       props)
    [].

Definition AvatarImage (ps : props) : pval :=
  let className := get "className" ps in
  let props := rest ["className"] ps in
  jsx (el "AvatarPrimitive.Image")
    (spread
       [("data-slot", PStr "avatar-image");
        ("className", cn [PStr "aspect-square size-full"; className])]
       props)
    [].

Definition AvatarFallback (ps : props) : pval :=
  let className := get "className" ps in
  let props := rest ["className"] ps in
  jsx (el "AvatarPrimitive.Fallback")
    (spread
       [("data-slot", PStr "avatar-fallback");
        ("className",
          cn [PStr "bg-muted flex size-full items-center justify-center rounded-full"; className])]
       props)
    [].

End Kit.
End avatar.

(** [breadcrumb.tsx] *)
Module breadcrumb.
Section Kit.
  Context `{Styling}.

Definition Breadcrumb (ps : props) : pval :=
  jsx (el "nav") (spread [("aria-label", PStr "breadcrumb"); ("data-slot", PStr "breadcrumb")] ps)
    [].

Definition BreadcrumbList (ps : props) : pval :=
  let className := get "className" ps in
  let props := rest ["className"] ps in
  jsx (el "ol")
    (spread
       [("data-slot", PStr "breadcrumb-list");
        ("className",
          cn [PStr "text-muted-foreground flex flex-wrap items-center gap-1.5 text-sm break-words sm:gap-2.5";
              className])]
       props)
    [].

Definition BreadcrumbItem (ps : props) : pval :=
  let className := get "className" ps in
  let props := rest ["className"] ps in
  jsx (el "li")
    (spread
       [("data-slot", PStr "breadcrumb-item");
        ("className", cn [PStr "inline-flex items-center gap-1.5"; className])]
       props)
    [].

Definition BreadcrumbLink (ps : props) : pval :=
  let asChild := get "asChild" ps in
  let className := get "className" ps in
  let props := rest ["asChild"; "className"] ps in
  let Comp := if truthy asChild then "Slot" else "a" in
  jsx (el Comp)
    (spread
       [("data-slot", PStr "breadcrumb-link");
        ("className", cn [PStr "hover:text-foreground transition-colors"; className])]
       props)
    [].

Definition BreadcrumbPage (ps : props) : pval :=
  let className := get "className" ps in
  let props := rest ["className"] ps in
  jsx (el "span")
    (spread
       [("data-slot", PStr "breadcrumb-page"); ("role", PStr "link");
        ("aria-disabled", PStr "true"); ("aria-current", PStr "page");
        ("className", cn [PStr "text-foreground font-normal"; className])]
       props)
    [].

Definition BreadcrumbSeparator (ps : props) : pval :=
  let children := get "children" ps in
  let className := get "className" ps in
  let props := rest ["children"; "className"] ps in
  jsx (el "li")
    (spread
       [("data-slot", PStr "breadcrumb-separator"); ("role", PStr "presentation");
        ("aria-hidden", PStr "true"); ("className", cn [PStr "[&>svg]:size-3.5"; className])]
       props)
    [nullish children (jsx (el "ChevronRight") [] [])].

Definition BreadcrumbEllipsis (ps : props) : pval :=
  let className := get "className" ps in
  let props := rest ["className"] ps in
  jsx (el "span")
    (spread
       [("data-slot", PStr "breadcrumb-ellipsis"); ("role", PStr "presentation");
        ("aria-hidden", PStr "true");
        ("className", cn [PStr "flex size-9 items-center justify-center"; className])]
       props)
    [jsx (el "MoreHorizontal") [("className", PStr "size-4")] [];
     jsx (el "span") [("className", PStr "sr-only")] [PStr "More"]].

End Kit.
End breadcrumb.

(** [button-group.tsx] *)
Module button_group.
Section Kit.
  Context `{Styling}.

Definition buttonGroupVariants (given : props) : pval :=
  cva "flex w-fit items-stretch [&>*]:focus-visible:z-10 [&>*]:focus-visible:relative [&>[data-slot=select-trigger]:not([class*='w-'])]:w-fit [&>input]:flex-1 has-[select[aria-hidden=true]:last-child]:[&>[data-slot=select-trigger]:last-of-type]:rounded-r-md has-[>[data-slot=button-group]]:gap-2"
    (mkVariants
    [("orientation", [("horizontal", PStr "[&>*:not(:first-child)]:rounded-l-none [&>*:not(:first-child)]:border-l-0 [&>*:not(:last-child)]:rounded-r-none");
                      ("vertical", PStr "flex-col [&>*:not(:first-child)]:rounded-t-none [&>*:not(:first-child)]:border-t-0 [&>*:not(:last-child)]:rounded-b-none")])]
    [("orientation", "horizontal")]) given.

Definition ButtonGroup (ps : props) : pval :=
  let className := get "className" ps in
  let orientation := get "orientation" ps in
  let props := rest ["className"; "orientation"] ps in
  jsx (el "div")
    (spread
       [("role", PStr "group"); ("data-slot", PStr "button-group");
        ("data-orientation", orientation);
        ("className", cn [buttonGroupVariants [("orientation", orientation)]; className])]
       props)
    [].

Definition ButtonGroupText (ps : props) : pval :=
  let className := get "className" ps in
  let asChild := default_to (get "asChild" ps) (PBool false) in
  let props := rest ["className"; "asChild"] ps in
  let Comp := if truthy asChild then "Slot" else "div" in
  jsx (el Comp)
    (spread
       [("className",
          cn [PStr "bg-muted flex items-center gap-2 rounded-md border px-4 text-sm font-medium shadow-xs [&_svg]:pointer-events-none [&_svg:not([class*='size-'])]:size-4";
              className])]
       props)
    [].

Definition ButtonGroupSeparator (ps : props) : pval :=
  let className := get "className" ps in
  let orientation := default_to (get "orientation" ps) (PStr "vertical") in
  let props := rest ["className"; "orientation"] ps in
  jsx separator.Separator
    (spread
       [("data-slot", PStr "button-group-separator"); ("orientation", orientation);
        ("className",
          cn [PStr "bg-input relative !m-0 self-stretch data-[orientation=vertical]:h-auto";
              className])]
       props)
    [].

End Kit.
End button_group.

(** [card.tsx] *)
Module card.
Section Kit.
  Context `{Styling}.

Definition Card (ps : props) : pval :=
  let className := get "className" ps in
  let props := rest ["className"] ps in
  jsx (el "div")
    (spread
       [("data-slot", PStr "card");
        ("className",
          cn [PStr "bg-card text-card-foreground flex flex-col gap-6 rounded-xl border py-6 shadow-sm";
              className])]
       props)
    [].

Definition CardHeader (ps : props) : pval :=
  let className := get "className" ps in
  let props := rest ["className"] ps in
  jsx (el "div")
    (spread
       [("data-slot", PStr "card-header");
        ("className",
          cn [PStr "@container/card-header grid auto-rows-min grid-rows-[auto_auto] items-start gap-2 px-6 has-data-[slot=card-action]:grid-cols-[1fr_auto] [.border-b]:pb-6";
              className])]
       props)
    [].

Definition CardTitle (ps : props) : pval :=
  let className := get "className" ps in
  let props := rest ["className"] ps in
  jsx (el "div")
    (spread
       [("data-slot", PStr "card-title");
        ("className", cn [PStr "leading-none font-semibold"; className])]
       props)
    [].

Definition CardDescription (ps : props) : pval :=
  let className := get "className" ps in
  let props := rest ["className"] ps in
  jsx (el "div")
    (spread
       [("data-slot", PStr "card-description");
        ("className", cn [PStr "text-muted-foreground text-sm"; className])]
       props)
    [].

Definition CardAction (ps : props) : pval :=
  let className := get "className" ps in
  let props := rest ["className"] ps in
  jsx (el "div")
    (spread
       [("data-slot", PStr "card-action");
        ("className",
          cn [PStr "col-start-2 row-span-2 row-start-1 self-start justify-self-end"; className])]
       props)
    [].

Definition CardContent (ps : props) : pval :=
  let className := get "className" ps in
  let props := rest ["className"] ps in
  jsx (el "div")
    (spread [("data-slot", PStr "card-content"); ("className", cn [PStr "px-6"; className])] props)
    [].

Definition CardFooter (ps : props) : pval :=
  let className := get "className" ps in
  let props := rest ["className"] ps in
  jsx (el "div")
    (spread
       [("data-slot", PStr "card-footer");
        ("className", cn [PStr "flex items-center px-6 [.border-t]:pt-6"; className])]
       props)
    [].

End Kit.
End card.

(** [checkbox.tsx] *)
Module checkbox.
Section Kit.
  Context `{Styling}.

Definition Checkbox (ps : props) : pval :=
  let className := get "className" ps in
  let props := rest ["className"] ps in
  jsx (el "CheckboxPrimitive.Root")
    (spread
       [("data-slot", PStr "checkbox");
        ("className",
          cn [PStr "peer border-input dark:bg-input/30 data-[state=checked]:bg-primary data-[state=checked]:text-primary-foreground dark:data-[state=checked]:bg-primary data-[state=checked]:border-primary focus-visible:border-ring focus-visible:ring-ring/50 aria-invalid:ring-destructive/20 dark:aria-invalid:ring-destructive/40 aria-invalid:border-destructive size-4 shrink-0 rounded-[4px] border shadow-xs transition-shadow outline-none focus-visible:ring-[3px] disabled:cursor-not-allowed disabled:opacity-50";
              className])]
       props)
    [jsx (el "CheckboxPrimitive.Indicator")
       [("data-slot", PStr "checkbox-indicator");
        ("className", PStr "flex items-center justify-center text-current transition-none")]
       [jsx (el "CheckIcon") [("className", PStr "size-3.5")] []]].

End Kit.
End checkbox.

(** [collapsible.tsx] *)
Module collapsible.
Section Kit.
  Context `{Styling}.

Definition Collapsible (ps : props) : pval :=
  jsx (el "CollapsiblePrimitive.Root") (spread [("data-slot", PStr "collapsible")] ps) [].

Definition CollapsibleTrigger (ps : props) : pval :=
  jsx (el "CollapsiblePrimitive.CollapsibleTrigger")
    (spread [("data-slot", PStr "collapsible-trigger")] ps)
    [].

Definition CollapsibleContent (ps : props) : pval :=
  jsx (el "CollapsiblePrimitive.CollapsibleContent")
    (spread [("data-slot", PStr "collapsible-content")] ps)
    [].

End Kit.
End collapsible.

(** [empty.tsx] *)
Module empty.
Section Kit.
  Context `{Styling}.

Definition Empty (ps : props) : pval :=
  let className := get "className" ps in
  let props := rest ["className"] ps in
  jsx (el "div")
    (spread
       [("data-slot", PStr "empty");
        ("className",
          cn [PStr "flex min-w-0 flex-1 flex-col items-center justify-center gap-6 rounded-lg border-dashed p-6 text-center text-balance md:p-12";
              className])]
       props)
    [].

Definition EmptyHeader (ps : props) : pval :=
  let className := get "className" ps in
  let props := rest ["className"] ps in
  jsx (el "div")
    (spread
       [("data-slot", PStr "empty-header");
        ("className", cn [PStr "flex max-w-sm flex-col items-center gap-2 text-center"; className])]
       props)
    [].

Definition emptyMediaVariants (given : props) : pval :=
  cva "flex shrink-0 items-center justify-center mb-2 [&_svg]:pointer-events-none [&_svg]:shrink-0"
    (mkVariants
    [("variant", [("default", PStr "bg-transparent");
                  ("icon", PStr "bg-muted text-foreground flex size-10 shrink-0 items-center justify-center rounded-lg [&_svg:not([class*='size-'])]:size-6")])]
    [("variant", "default")]) given.

Definition EmptyMedia (ps : props) : pval :=
  let className := get "className" ps in
  let variant := default_to (get "variant" ps) (PStr "default") in
  let props := rest ["className"; "variant"] ps in
  jsx (el "div")
    (spread
       [("data-slot", PStr "empty-icon"); ("data-variant", variant);
        ("className", cn [emptyMediaVariants [("variant", variant); ("className", className)]])]
       props)
    [].

Definition EmptyTitle (ps : props) : pval :=
  let className := get "className" ps in
  let props := rest ["className"] ps in
  jsx (el "div")
    (spread
       [("data-slot", PStr "empty-title");
        ("className", cn [PStr "text-lg font-medium tracking-tight"; className])]
       props)
    [].

Definition EmptyDescription (ps : props) : pval :=
  let className := get "className" ps in
  let props := rest ["className"] ps in
  jsx (el "div")
    (spread
       [("data-slot", PStr "empty-description");
        ("className",
          cn [PStr "text-muted-foreground [&>a:hover]:text-primary text-sm/relaxed [&>a]:underline [&>a]:underline-offset-4";
              className])]
       props)
    [].

Definition EmptyContent (ps : props) : pval :=
  let className := get "className" ps in
  let props := rest ["className"] ps in
  jsx (el "div")
    (spread
       [("data-slot", PStr "empty-content");
        ("className",
          cn [PStr "flex w-full max-w-sm min-w-0 flex-col items-center gap-4 text-sm text-balance";
              className])]
       props)
    [].

End Kit.
End empty.

(** [item.tsx] *)
Module item.
Section Kit.
  Context `{Styling}.

Definition ItemGroup (ps : props) : pval :=
  let className := get "className" ps in
  let props := rest ["className"] ps in
  jsx (el "div")
    (spread
       [("role", PStr "list"); ("data-slot", PStr "item-group");
        ("className", cn [PStr "group/item-group flex flex-col"; className])]
       props)
    [].

Definition ItemSeparator (ps : props) : pval :=
  let className := get "className" ps in
  let props := rest ["className"] ps in
  jsx separator.Separator
    (spread
       [("data-slot", PStr "item-separator"); ("orientation", PStr "horizontal");
        ("className", cn [PStr "my-0"; className])]
       props)
    [].

Definition itemVariants (given : props) : pval :=
  cva "group/item flex items-center border border-transparent text-sm rounded-md transition-colors [a&]:hover:bg-accent/50 [a&]:transition-colors duration-100 flex-wrap outline-none focus-visible:border-ring focus-visible:ring-ring/50 focus-visible:ring-[3px]"
    (mkVariants
    [("variant", [("default", PStr "bg-transparent"); ("outline", PStr "border-border");
                  ("muted", PStr "bg-muted/50")]);
     ("size", [("default", PStr "p-4 gap-4 "); ("sm", PStr "py-3 px-4 gap-2.5")])]
    [("variant", "default"); ("size", "default")]) given.

Definition Item (ps : props) : pval :=
  let className := get "className" ps in
  let variant := default_to (get "variant" ps) (PStr "default") in
  let size := default_to (get "size" ps) (PStr "default") in
  let asChild := default_to (get "asChild" ps) (PBool false) in
  let props := rest ["className"; "variant"; "size"; "asChild"] ps in
  let Comp := if truthy asChild then "Slot" else "div" in
  jsx (el Comp)
    (spread
       [("data-slot", PStr "item"); ("data-variant", variant); ("data-size", size);
        ("className",
          cn [itemVariants [("variant", variant); ("size", size); ("className", className)]])]
       props)
    [].

Definition itemMediaVariants (given : props) : pval :=
  cva "flex shrink-0 items-center justify-center gap-2 group-has-[[data-slot=item-description]]/item:self-start [&_svg]:pointer-events-none group-has-[[data-slot=item-description]]/item:translate-y-0.5"
    (mkVariants
    [("variant", [("default", PStr "bg-transparent");
                  ("icon", PStr "size-8 border rounded-sm bg-muted [&_svg:not([class*='size-'])]:size-4");
                  ("image", PStr "size-10 rounded-sm overflow-hidden [&_img]:size-full [&_img]:object-cover")])]
    [("variant", "default")]) given.

Definition ItemMedia (ps : props) : pval :=
  let className := get "className" ps in
  let variant := default_to (get "variant" ps) (PStr "default") in
  let props := rest ["className"; "variant"] ps in
  jsx (el "div")
    (spread
       [("data-slot", PStr "item-media"); ("data-variant", variant);
        ("className", cn [itemMediaVariants [("variant", variant); ("className", className)]])]
       props)
    [].

Definition ItemContent (ps : props) : pval :=
  let className := get "className" ps in
  let props := rest ["className"] ps in
  jsx (el "div")
    (spread
       [("data-slot", PStr "item-content");
        ("className",
          cn [PStr "flex flex-1 flex-col gap-1 [&+[data-slot=item-content]]:flex-none"; className])]
       props)
    [].

Definition ItemTitle (ps : props) : pval :=
  let className := get "className" ps in
  let props := rest ["className"] ps in
  jsx (el "div")
    (spread
       [("data-slot", PStr "item-title");
        ("className",
          cn [PStr "flex w-fit items-center gap-2 text-sm leading-snug font-medium"; className])]
       props)
    [].

Definition ItemDescription (ps : props) : pval :=
  let className := get "className" ps in
  let props := rest ["className"] ps in
  jsx (el "p")
    (spread
       [("data-slot", PStr "item-description");
        ("className",
          cn [PStr "text-muted-foreground line-clamp-2 text-sm leading-normal font-normal text-balance";
              PStr "[&>a:hover]:text-primary [&>a]:underline [&>a]:underline-offset-4"; className])]
       props)
    [].

Definition ItemActions (ps : props) : pval :=
  let className := get "className" ps in
  let props := rest ["className"] ps in
  jsx (el "div")
    (spread
       [("data-slot", PStr "item-actions");
        ("className", cn [PStr "flex items-center gap-2"; className])]
       props)
    [].

Definition ItemHeader (ps : props) : pval :=
  let className := get "className" ps in
  let props := rest ["className"] ps in
  jsx (el "div")
    (spread
       [("data-slot", PStr "item-header");
        ("className", cn [PStr "flex basis-full items-center justify-between gap-2"; className])]
       props)
    [].

Definition ItemFooter (ps : props) : pval :=
  let className := get "className" ps in
  let props := rest ["className"] ps in
  jsx (el "div")
    (spread
       [("data-slot", PStr "item-footer");
        ("className", cn [PStr "flex basis-full items-center justify-between gap-2"; className])]
       props)
    [].

End Kit.
End item.

(** [kbd.tsx] *)
Module kbd.
Section Kit.
  Context `{Styling}.

Definition Kbd (ps : props) : pval :=
  let className := get "className" ps in
  let props := rest ["className"] ps in
  jsx (el "kbd")
    (spread
       [("data-slot", PStr "kbd");
        ("className",
          cn [PStr "bg-muted w-fit text-muted-foreground pointer-events-none inline-flex h-5 min-w-5 items-center justify-center gap-1 rounded-sm px-1 font-sans text-xs font-medium select-none";
              PStr "[&_svg:not([class*='size-'])]:size-3";
              PStr "[[data-slot=tooltip-content]_&]:bg-background/20 [[data-slot=tooltip-content]_&]:text-background dark:[[data-slot=tooltip-content]_&]:bg-background/10";
              className])]
       props)
    [].

Definition KbdGroup (ps : props) : pval :=
  let className := get "className" ps in
  let props := rest ["className"] ps in
  jsx (el "kbd")
    (spread
       [("data-slot", PStr "kbd-group");
        ("className", cn [PStr "inline-flex items-center gap-1"; className])]
       props)
    [].

End Kit.
End kbd.

(** [pagination.tsx] *)
Module pagination.
Section Kit.
  Context `{Styling}.

Definition Pagination (ps : props) : pval :=
  let className := get "className" ps in
  let props := rest ["className"] ps in
  jsx (el "nav")
    (spread
       [("role", PStr "navigation"); ("aria-label", PStr "pagination");
        ("data-slot", PStr "pagination");
        ("className", cn [PStr "mx-auto flex w-full justify-center"; className])]
       props)
    [].

Definition PaginationContent (ps : props) : pval :=
  let className := get "className" ps in
  let props := rest ["className"] ps in
  jsx (el "ul")
    (spread
       [("data-slot", PStr "pagination-content");
        ("className", cn [PStr "flex flex-row items-center gap-1"; className])]
       props)
    [].

Definition PaginationItem (ps : props) : pval :=
  jsx (el "li") (spread [("data-slot", PStr "pagination-item")] ps) [].

Definition PaginationLink (ps : props) : pval :=
  let className := get "className" ps in
  let isActive := get "isActive" ps in
  let size := default_to (get "size" ps) (PStr "icon") in
  let props := rest ["className"; "isActive"; "size"] ps in
  jsx (el "a")
    (spread
       [("aria-current", if truthy isActive then PStr "page" else PUndef);
        ("data-slot", PStr "pagination-link"); ("data-active", isActive);
        ("className",
          cn [button.buttonVariants [("variant",
                                       if truthy isActive then PStr "outline" else PStr "ghost");
                                     ("size", size)]; className])]
       props)
    [].

Definition PaginationPrevious (ps : props) : pval :=
  let className := get "className" ps in
  let props := rest ["className"] ps in
  jsx PaginationLink
    (spread
       [("aria-label", PStr "Go to previous page"); ("size", PStr "default");
        ("className", cn [PStr "gap-1 px-2.5 sm:pl-2.5"; className])]
       props)
    [jsx (el "ChevronLeftIcon") [] [];
     jsx (el "span") [("className", PStr "hidden sm:block")] [PStr "Previous"]].

Definition PaginationNext (ps : props) : pval :=
  let className := get "className" ps in
  let props := rest ["className"] ps in
  jsx PaginationLink
    (spread
       [("aria-label", PStr "Go to next page"); ("size", PStr "default");
        ("className", cn [PStr "gap-1 px-2.5 sm:pr-2.5"; className])]
       props)
    [jsx (el "span") [("className", PStr "hidden sm:block")] [PStr "Next"];
     jsx (el "ChevronRightIcon") [] []].

Definition PaginationEllipsis (ps : props) : pval :=
  let className := get "className" ps in
  let props := rest ["className"] ps in
  jsx (el "span")
    (spread
       [("aria-hidden", PBool true); ("data-slot", PStr "pagination-ellipsis");
        ("className", cn [PStr "flex size-9 items-center justify-center"; className])]
       props)
    [jsx (el "MoreHorizontalIcon") [("className", PStr "size-4")] [];
     jsx (el "span") [("className", PStr "sr-only")] [PStr "More pages"]].

End Kit.
End pagination.

(** [progress.tsx] *)
Module progress.
Section Kit.
  Context `{Styling}.

(** [100 - v] of a value that is typed as a number. *)
Definition percent_left (v : pval) : string :=
  match v with PNum n => string_of_Z (100 - n) | _ => "NaN" end.

Definition Progress (ps : props) : pval :=
  let className := get "className" ps in
  let value := get "value" ps in
  let props := rest ["className"; "value"] ps in
  jsx (el "ProgressPrimitive.Root")
    (spread
       [("data-slot", PStr "progress");
        ("className",
          cn [PStr "bg-primary/20 relative h-2 w-full overflow-hidden rounded-full"; className])]
       props)
    [jsx (el "ProgressPrimitive.Indicator")
       [("data-slot", PStr "progress-indicator");
        ("className", PStr "bg-primary h-full w-full flex-1 transition-all");
        ("style",
          PObj [("transform",
                  PStr ("translateX(-" +:+ percent_left (or_ value (PNum 0)) +:+ "%)"))])]
       []].

End Kit.
End progress.

(** [radio-group.tsx] *)
Module radio_group.
Section Kit.
  Context `{Styling}.

Definition RadioGroup (ps : props) : pval :=
  let className := get "className" ps in
  let props := rest ["className"] ps in
  jsx (el "RadioGroupPrimitive.Root")
    (spread [("data-slot", PStr "radio-group"); ("className", cn [PStr "grid gap-3"; className])]
       props)
    [].

Definition RadioGroupItem (ps : props) : pval :=
  let className := get "className" ps in
  let props := rest ["className"] ps in
  jsx (el "RadioGroupPrimitive.Item")
    (spread
       [("data-slot", PStr "radio-group-item");
        ("className",
          cn [PStr "border-input text-primary focus-visible:border-ring focus-visible:ring-ring/50 aria-invalid:ring-destructive/20 dark:aria-invalid:ring-destructive/40 aria-invalid:border-destructive dark:bg-input/30 aspect-square size-4 shrink-0 rounded-full border shadow-xs transition-[color,box-shadow] outline-none focus-visible:ring-[3px] disabled:cursor-not-allowed disabled:opacity-50";
              className])]
       props)
    [jsx (el "RadioGroupPrimitive.Indicator")
       [("data-slot", PStr "radio-group-indicator");
        ("className", PStr "relative flex items-center justify-center")]
       [jsx (el "CircleIcon")
          [("className", PStr "fill-primary absolute top-1/2 left-1/2 size-2 -translate-x-1/2 -translate-y-1/2")]
          []]].

End Kit.
End radio_group.

(** [resizable.tsx] *)
Module resizable.
Section Kit.
  Context `{Styling}.

Definition ResizablePanelGroup (ps : props) : pval :=
  let className := get "className" ps in
  let props := rest ["className"] ps in
  jsx (el "ResizablePrimitive.PanelGroup")
    (spread
       [("data-slot", PStr "resizable-panel-group");
        ("className",
          cn [PStr "flex h-full w-full data-[panel-group-direction=vertical]:flex-col"; className])]
       props)
    [].

Definition ResizablePanel (ps : props) : pval :=
  jsx (el "ResizablePrimitive.Panel") (spread [("data-slot", PStr "resizable-panel")] ps) [].

Definition ResizableHandle (ps : props) : pval :=
  let withHandle := get "withHandle" ps in
  let className := get "className" ps in
  let props := rest ["withHandle"; "className"] ps in
  jsx (el "ResizablePrimitive.PanelResizeHandle")
    (spread
       [("data-slot", PStr "resizable-handle");
        ("className",
          cn [PStr "bg-border focus-visible:ring-ring relative flex w-px items-center justify-center after:absolute after:inset-y-0 after:left-1/2 after:w-1 after:-translate-x-1/2 focus-visible:ring-1 focus-visible:ring-offset-1 focus-visible:outline-hidden data-[panel-group-direction=vertical]:h-px data-[panel-group-direction=vertical]:w-full data-[panel-group-direction=vertical]:after:left-0 data-[panel-group-direction=vertical]:after:h-1 data-[panel-group-direction=vertical]:after:w-full data-[panel-group-direction=vertical]:after:translate-x-0 data-[panel-group-direction=vertical]:after:-translate-y-1/2 [&[data-panel-group-direction=vertical]>div]:rotate-90";
              className])]
       props)
    [and_ withHandle
       (jsx (el "div")
          [("className", PStr "bg-border z-10 flex h-4 w-3 items-center justify-center rounded-xs border")]
          [jsx (el "GripVerticalIcon") [("className", PStr "size-2.5")] []])].

End Kit.
End resizable.

(** [scroll-area.tsx] *)
Module scroll_area.
Section Kit.
  Context `{Styling}.

Definition ScrollBar (ps : props) : pval :=
  let className := get "className" ps in
  let orientation := default_to (get "orientation" ps) (PStr "vertical") in
  let props := rest ["className"; "orientation"] ps in
  jsx (el "ScrollAreaPrimitive.ScrollAreaScrollbar")
    (spread
       [("data-slot", PStr "scroll-area-scrollbar"); ("orientation", orientation);
        ("className",
          cn [PStr "flex touch-none p-px transition-colors select-none";
              and_ (PBool (is_str orientation "vertical"))
                (PStr "h-full w-2.5 border-l border-l-transparent");
              and_ (PBool (is_str orientation "horizontal"))
                (PStr "h-2.5 flex-col border-t border-t-transparent"); className])]
       props)
    [jsx (el "ScrollAreaPrimitive.ScrollAreaThumb")
       [("data-slot", PStr "scroll-area-thumb");
        ("className", PStr "bg-border relative flex-1 rounded-full")]
       []].

Definition ScrollArea (ps : props) : pval :=
  let className := get "className" ps in
  let children := get "children" ps in
  let props := rest ["className"; "children"] ps in
  jsx (el "ScrollAreaPrimitive.Root")
    (spread [("data-slot", PStr "scroll-area"); ("className", cn [PStr "relative"; className])]
       props)
    [jsx (el "ScrollAreaPrimitive.Viewport")
       [("data-slot", PStr "scroll-area-viewport");
        ("className", PStr "focus-visible:ring-ring/50 size-full rounded-[inherit] transition-[color,box-shadow] outline-none focus-visible:ring-[3px] focus-visible:outline-1")]
       [children]; jsx ScrollBar [] []; jsx (el "ScrollAreaPrimitive.Corner") [] []].

End Kit.
End scroll_area.

(** [slider.tsx] *)
Module slider.
Section Kit.
  Context `{Styling}.

Definition Slider_values (value defaultValue min max : pval) : pval :=
  if is_array value then value
  else if is_array defaultValue then defaultValue
  else PArr [min; max].

Definition Slider_thumb : pval :=
  jsx (el "SliderPrimitive.Thumb")
    [("data-slot", PStr "slider-thumb");
     ("className", PStr "border-primary ring-ring/50 block size-4 shrink-0 rounded-full border bg-white shadow-sm transition-[color,box-shadow] hover:ring-4 focus-visible:ring-4 focus-visible:outline-hidden disabled:pointer-events-none disabled:opacity-50")]
    [].

Definition Slider (ps : props) : pval :=
  let className := get "className" ps in
  let defaultValue := get "defaultValue" ps in
  let value := get "value" ps in
  let min := default_to (get "min" ps) (PNum 0) in
  let max := default_to (get "max" ps) (PNum 100) in
  let props := rest ["className"; "defaultValue"; "value"; "min"; "max"] ps in
  let _values := Slider_values value defaultValue min max in
  jsx (el "SliderPrimitive.Root")
    (spread
       [("data-slot", PStr "slider"); ("defaultValue", defaultValue); ("value", value);
        ("min", min); ("max", max);
        ("className",
          cn [PStr "relative flex w-full touch-none items-center select-none data-[disabled]:opacity-50 data-[orientation=vertical]:h-full data-[orientation=vertical]:min-h-44 data-[orientation=vertical]:w-auto data-[orientation=vertical]:flex-col";
              className])]
       props)
    [jsx (el "SliderPrimitive.Track")
       [("data-slot", PStr "slider-track");
        ("className", PStr "bg-muted relative grow overflow-hidden rounded-full data-[orientation=horizontal]:h-1.5 data-[orientation=horizontal]:w-full data-[orientation=vertical]:h-full data-[orientation=vertical]:w-1.5")]
       [jsx (el "SliderPrimitive.Range")
          [("data-slot", PStr "slider-range");
           ("className", PStr "bg-primary absolute data-[orientation=horizontal]:h-full data-[orientation=vertical]:w-full")]
          []];
     PArr (replicate (length (elements _values)) Slider_thumb)].

End Kit.
End slider.

(** [spinner.tsx] *)
Module spinner.
Section Kit.
  Context `{Styling}.

Definition Spinner (ps : props) : pval :=
  let className := get "className" ps in
  let props := rest ["className"] ps in
  jsx (el "Loader2Icon")
    (spread
       [("role", PStr "status"); ("aria-label", PStr "Loading");
        ("className", cn [PStr "size-4 animate-spin"; className])]
       props)
    [].

End Kit.
End spinner.

(** [switch.tsx] *)
Module switch.
Section Kit.
  Context `{Styling}.

Definition Switch (ps : props) : pval :=
  let className := get "className" ps in
  let props := rest ["className"] ps in
  jsx (el "SwitchPrimitive.Root")
    (spread
       [("data-slot", PStr "switch");
        ("className",
          cn [PStr "peer data-[state=checked]:bg-primary data-[state=unchecked]:bg-input focus-visible:border-ring focus-visible:ring-ring/50 dark:data-[state=unchecked]:bg-input/80 inline-flex h-[1.15rem] w-8 shrink-0 items-center rounded-full border border-transparent shadow-xs transition-all outline-none focus-visible:ring-[3px] disabled:cursor-not-allowed disabled:opacity-50";
              className])]
       props)
    [jsx (el "SwitchPrimitive.Thumb")
       [("data-slot", PStr "switch-thumb");
        ("className", PStr "bg-background dark:data-[state=unchecked]:bg-foreground dark:data-[state=checked]:bg-primary-foreground pointer-events-none block size-4 rounded-full ring-0 transition-transform data-[state=checked]:translate-x-[calc(100%-2px)] data-[state=unchecked]:translate-x-0")]
       []].

End Kit.
End switch.

(** [table.tsx] *)
Module table.
Section Kit.
  Context `{Styling}.

Definition Table (ps : props) : pval :=
  let className := get "className" ps in
  let props := rest ["className"] ps in
  jsx (el "div")
    [("data-slot", PStr "table-container"); ("className", PStr "relative w-full overflow-x-auto")]
    [jsx (el "table")
       (spread
          [("data-slot", PStr "table");
           ("className", cn [PStr "w-full caption-bottom text-sm"; className])]
          props)
       []].

Definition TableHeader (ps : props) : pval :=
  let className := get "className" ps in
  let props := rest ["className"] ps in
  jsx (el "thead")
    (spread
       [("data-slot", PStr "table-header"); ("className", cn [PStr "[&_tr]:border-b"; className])]
       props)
    [].

Definition TableBody (ps : props) : pval :=
  let className := get "className" ps in
  let props := rest ["className"] ps in
  jsx (el "tbody")
    (spread
       [("data-slot", PStr "table-body");
        ("className", cn [PStr "[&_tr:last-child]:border-0"; className])]
       props)
    [].

Definition TableFooter (ps : props) : pval :=
  let className := get "className" ps in
  let props := rest ["className"] ps in
  jsx (el "tfoot")
    (spread
       [("data-slot", PStr "table-footer");
        ("className",
          cn [PStr "bg-muted/50 border-t font-medium [&>tr]:last:border-b-0"; className])]
       props)
    [].

Definition TableRow (ps : props) : pval :=
  let className := get "className" ps in
  let props := rest ["className"] ps in
  jsx (el "tr")
    (spread
       [("data-slot", PStr "table-row");
        ("className",
          cn [PStr "hover:bg-muted/50 data-[state=selected]:bg-muted border-b transition-colors";
              className])]
       props)
    [].

Definition TableHead (ps : props) : pval :=
  let className := get "className" ps in
  let props := rest ["className"] ps in
  jsx (el "th")
    (spread
       [("data-slot", PStr "table-head");
        ("className",
          cn [PStr "text-foreground h-10 px-2 text-left align-middle font-medium whitespace-nowrap [&:has([role=checkbox])]:pr-0 [&>[role=checkbox]]:translate-y-[2px]";
              className])]
       props)
    [].

Definition TableCell (ps : props) : pval :=
  let className := get "className" ps in
  let props := rest ["className"] ps in
  jsx (el "td")
    (spread
       [("data-slot", PStr "table-cell");
        ("className",
          cn [PStr "p-2 align-middle whitespace-nowrap [&:has([role=checkbox])]:pr-0 [&>[role=checkbox]]:translate-y-[2px]";
              className])]
       props)
    [].

Definition TableCaption (ps : props) : pval :=
  let className := get "className" ps in
  let props := rest ["className"] ps in
  jsx (el "caption")
    (spread
       [("data-slot", PStr "table-caption");
        ("className", cn [PStr "text-muted-foreground mt-4 text-sm"; className])]
       props)
    [].

End Kit.
End table.

(** [tabs.tsx] *)
Module tabs.
Section Kit.
  Context `{Styling}.

Definition Tabs (ps : props) : pval :=
  let className := get "className" ps in
  let props := rest ["className"] ps in
  jsx (el "TabsPrimitive.Root")
    (spread [("data-slot", PStr "tabs"); ("className", cn [PStr "flex flex-col gap-2"; className])]
       props)
    [].

Definition TabsList (ps : props) : pval :=
  let className := get "className" ps in
  let props := rest ["className"] ps in
  jsx (el "TabsPrimitive.List")
    (spread
       [("data-slot", PStr "tabs-list");
        ("className",
          cn [PStr "bg-muted text-muted-foreground inline-flex h-9 w-fit items-center justify-center rounded-lg p-[3px]";
              className])]
       props)
    [].

Definition TabsTrigger (ps : props) : pval :=
  let className := get "className" ps in
  let props := rest ["className"] ps in
  jsx (el "TabsPrimitive.Trigger")
    (spread
       [("data-slot", PStr "tabs-trigger");
        ("className",
          cn [PStr "data-[state=active]:bg-background dark:data-[state=active]:text-foreground focus-visible:border-ring focus-visible:ring-ring/50 focus-visible:outline-ring dark:data-[state=active]:border-input dark:data-[state=active]:bg-input/30 text-foreground dark:text-muted-foreground inline-flex h-[calc(100%-1px)] flex-1 items-center justify-center gap-1.5 rounded-md border border-transparent px-2 py-1 text-sm font-medium whitespace-nowrap transition-[color,box-shadow] focus-visible:ring-[3px] focus-visible:outline-1 disabled:pointer-events-none disabled:opacity-50 data-[state=active]:shadow-sm [&_svg]:pointer-events-none [&_svg]:shrink-0 [&_svg:not([class*='size-'])]:size-4";
              className])]
       props)
    [].

Definition TabsContent (ps : props) : pval :=
  let className := get "className" ps in
  let props := rest ["className"] ps in
  jsx (el "TabsPrimitive.Content")
    (spread
       [("data-slot", PStr "tabs-content");
        ("className", cn [PStr "flex-1 outline-none"; className])]
       props)
    [].

End Kit.
End tabs.

(** [toggle.tsx] *)
Module toggle.
Section Kit.
  Context `{Styling}.

Definition toggleVariants (given : props) : pval :=
  cva "inline-flex items-center justify-center gap-2 rounded-md text-sm font-medium hover:bg-muted hover:text-muted-foreground disabled:pointer-events-none disabled:opacity-50 data-[state=on]:bg-accent data-[state=on]:text-accent-foreground [&_svg]:pointer-events-none [&_svg:not([class*='size-'])]:size-4 [&_svg]:shrink-0 focus-visible:border-ring focus-visible:ring-ring/50 focus-visible:ring-[3px] outline-none transition-[color,box-shadow] aria-invalid:ring-destructive/20 dark:aria-invalid:ring-destructive/40 aria-invalid:border-destructive whitespace-nowrap"
    (mkVariants
    [("variant", [("default", PStr "bg-transparent");
                  ("outline", PStr "border border-input bg-transparent shadow-xs hover:bg-accent hover:text-accent-foreground")]);
     ("size", [("default", PStr "h-9 px-2 min-w-9"); ("sm", PStr "h-8 px-1.5 min-w-8");
               ("lg", PStr "h-10 px-2.5 min-w-10")])]
    [("variant", "default"); ("size", "default")]) given.

Definition Toggle (ps : props) : pval :=
  let className := get "className" ps in
  let variant := get "variant" ps in
  let size := get "size" ps in
  let props := rest ["className"; "variant"; "size"] ps in
  jsx (el "TogglePrimitive.Root")
    (spread
       [("data-slot", PStr "toggle");
        ("className",
          cn [toggleVariants [("variant", variant); ("size", size); ("className", className)]])]
       props)
    [].

End Kit.
End toggle.

(** [toggle-group.tsx] *)
Module toggle_group.
Section Kit.
  Context `{Styling}.

(** The context outside of a group. *)
Definition ToggleGroupContext : pval := PObj [("size", PStr "default"); ("variant", PStr "default")].

Definition ToggleGroup (ps : props) : pval :=
  let className := get "className" ps in
  let variant := get "variant" ps in
  let size := get "size" ps in
  let children := get "children" ps in
  let props := rest ["className"; "variant"; "size"; "children"] ps in
  jsx (el "ToggleGroupPrimitive.Root")
    (spread
       [("data-slot", PStr "toggle-group"); ("data-variant", variant); ("data-size", size);
        ("className",
          cn [PStr "group/toggle-group flex w-fit items-center rounded-md data-[variant=outline]:shadow-xs";
              className])]
       props)
    [jsx (el "ToggleGroupContext.Provider") [("value", PObj [("variant", variant); ("size", size)])]
       [children]].

Definition ToggleGroupItem (context : pval) (ps : props) : pval :=
  let className := get "className" ps in
  let children := get "children" ps in
  let variant := get "variant" ps in
  let size := get "size" ps in
  let props := rest ["className"; "children"; "variant"; "size"] ps in
  jsx (el "ToggleGroupPrimitive.Item")
    (spread
       [("data-slot", PStr "toggle-group-item");
        ("data-variant", or_ (member context "variant") variant);
        ("data-size", or_ (member context "size") size);
        ("className",
          cn [toggle.toggleVariants [("variant", or_ (member context "variant") variant);
                                     ("size", or_ (member context "size") size)];
              PStr "min-w-0 flex-1 shrink-0 rounded-none shadow-none first:rounded-l-md last:rounded-r-md focus:z-10 focus-visible:z-10 data-[variant=outline]:border-l-0 data-[variant=outline]:first:border-l";
              className])]
       props)
    [children].

End Kit.
End toggle_group.

(** [input-group.tsx] *)
Module input_group.
Section Kit.
  Context `{Styling}.

Definition InputGroup (ps : props) : pval :=
  let className := get "className" ps in
  let props := rest ["className"] ps in
  jsx (el "div")
    (spread
       [("data-slot", PStr "input-group"); ("role", PStr "group");
        ("className",
          cn [PStr "group/input-group border-input dark:bg-input/30 relative flex w-full items-center rounded-md border shadow-xs transition-[color,box-shadow] outline-none";
              PStr "h-9 has-[>textarea]:h-auto";
              PStr "has-[>[data-align=inline-start]]:[&>input]:pl-2";
              PStr "has-[>[data-align=inline-end]]:[&>input]:pr-2";
              PStr "has-[>[data-align=block-start]]:h-auto has-[>[data-align=block-start]]:flex-col has-[>[data-align=block-start]]:[&>input]:pb-3";
              PStr "has-[>[data-align=block-end]]:h-auto has-[>[data-align=block-end]]:flex-col has-[>[data-align=block-end]]:[&>input]:pt-3";
              PStr "has-[[data-slot=input-group-control]:focus-visible]:border-ring has-[[data-slot=input-group-control]:focus-visible]:ring-ring/50 has-[[data-slot=input-group-control]:focus-visible]:ring-[3px]";
              PStr "has-[[data-slot][aria-invalid=true]]:ring-destructive/20 has-[[data-slot][aria-invalid=true]]:border-destructive dark:has-[[data-slot][aria-invalid=true]]:ring-destructive/40";
              className])]
       props)
    [].

Definition inputGroupAddonVariants (given : props) : pval :=
  cva "text-muted-foreground flex h-auto cursor-text items-center justify-center gap-2 py-1.5 text-sm font-medium select-none [&>svg:not([class*='size-'])]:size-4 [&>kbd]:rounded-[calc(var(--radius)-5px)] group-data-[disabled=true]/input-group:opacity-50"
    (mkVariants
    [("align", [("inline-start", PStr "order-first pl-3 has-[>button]:ml-[-0.45rem] has-[>kbd]:ml-[-0.35rem]");
                ("inline-end", PStr "order-last pr-3 has-[>button]:mr-[-0.4rem] has-[>kbd]:mr-[-0.35rem]");
                ("block-start", PStr "order-first w-full justify-start px-3 pt-3 [.border-b]:pb-3 group-has-[>input]/input-group:pt-2.5");
                ("block-end", PStr "order-last w-full justify-start px-3 pb-3 [.border-t]:pt-3 group-has-[>input]/input-group:pb-2.5")])]
    [("align", "inline-start")]) given.

(** What the handler of a click focuses: nothing when a button was clicked, otherwise the
    first input of the group. *)
Definition focus_input (in_button : bool) (inputs : list string) : option string :=
  if in_button then None else head inputs.

Definition InputGroupAddon (ps : props) : pval :=
  let className := get "className" ps in
  let align := default_to (get "align" ps) (PStr "inline-start") in
  let props := rest ["className"; "align"] ps in
  jsx (el "div")
    (spread
       [("role", PStr "group"); ("data-slot", PStr "input-group-addon"); ("data-align", align);
        ("className", cn [inputGroupAddonVariants [("align", align)]; className]);
        ("onClick", PFun ["focus_input"])]
       props)
    [].

Definition inputGroupButtonVariants (given : props) : pval :=
  cva "text-sm shadow-none flex gap-2 items-center"
    (mkVariants
    [("size", [("xs", PStr "h-6 gap-1 px-2 rounded-[calc(var(--radius)-5px)] [&>svg:not([class*='size-'])]:size-3.5 has-[>svg]:px-2");
               ("sm", PStr "h-8 px-2.5 gap-1.5 rounded-md has-[>svg]:px-2.5");
               ("icon-xs", PStr "size-6 rounded-[calc(var(--radius)-5px)] p-0 has-[>svg]:p-0");
               ("icon-sm", PStr "size-8 p-0 has-[>svg]:p-0")])]
    [("size", "xs")]) given.

Definition InputGroupButton (ps : props) : pval :=
  let className := get "className" ps in
  let type_ := default_to (get "type" ps) (PStr "button") in
  let variant := default_to (get "variant" ps) (PStr "ghost") in
  let size := default_to (get "size" ps) (PStr "xs") in
  let props := rest ["className"; "type"; "variant"; "size"] ps in
  jsx button.Button
    (spread
       [("type", type_); ("data-size", size); ("variant", variant);
        ("className", cn [inputGroupButtonVariants [("size", size)]; className])]
       props)
    [].

Definition InputGroupText (ps : props) : pval :=
  let className := get "className" ps in
  let props := rest ["className"] ps in
  jsx (el "span")
    (spread
       [("className",
          cn [PStr "text-muted-foreground flex items-center gap-2 text-sm [&_svg]:pointer-events-none [&_svg:not([class*='size-'])]:size-4";
              className])]
       props)
    [].

Definition InputGroupInput (ps : props) : pval :=
  let className := get "className" ps in
  let props := rest ["className"] ps in
  jsx input.Input
    (spread
       [("data-slot", PStr "input-group-control");
        ("className",
          cn [PStr "flex-1 rounded-none border-0 bg-transparent shadow-none focus-visible:ring-0 dark:bg-transparent";
              className])]
       props)
    [].

Definition InputGroupTextarea (ps : props) : pval :=
  let className := get "className" ps in
  let props := rest ["className"] ps in
  jsx textarea.Textarea
    (spread
       [("data-slot", PStr "input-group-control");
        ("className",
          cn [PStr "flex-1 resize-none rounded-none border-0 bg-transparent py-3 shadow-none focus-visible:ring-0 dark:bg-transparent";
              className])]
       props)
    [].

End Kit.
End input_group.

(** [input-otp.tsx] *)
Module input_otp.
Section Kit.
  Context `{Styling}.

Definition InputOTP (ps : props) : pval :=
  let className := get "className" ps in
  let containerClassName := get "containerClassName" ps in
  let props := rest ["className"; "containerClassName"] ps in
  jsx (el "OTPInput")
    (spread
       [("data-slot", PStr "input-otp");
        ("containerClassName",
          cn [PStr "flex items-center gap-2 has-disabled:opacity-50"; containerClassName]);
        ("className", cn [PStr "disabled:cursor-not-allowed"; className])]
       props)
    [].

Definition InputOTPGroup (ps : props) : pval :=
  let className := get "className" ps in
  let props := rest ["className"] ps in
  jsx (el "div")
    (spread
       [("data-slot", PStr "input-otp-group");
        ("className", cn [PStr "flex items-center"; className])]
       props)
    [].

Definition InputOTPSlot (context : pval) (ps : props) : pval :=
  let index := get "index" ps in
  let className := get "className" ps in
  let props := rest ["index"; "className"] ps in
  let inputOTPContext := context in
  let slot := nullish (item_at (member inputOTPContext "slots") index) (PObj []) in
  let char := member slot "char" in
  let hasFakeCaret := member slot "hasFakeCaret" in
  let isActive := member slot "isActive" in
  jsx (el "div")
    (spread
       [("data-slot", PStr "input-otp-slot"); ("data-active", isActive);
        ("className",
          cn [PStr "data-[active=true]:border-ring data-[active=true]:ring-ring/50 data-[active=true]:aria-invalid:ring-destructive/20 dark:data-[active=true]:aria-invalid:ring-destructive/40 aria-invalid:border-destructive data-[active=true]:aria-invalid:border-destructive dark:bg-input/30 border-input relative flex h-9 w-9 items-center justify-center border-y border-r text-sm shadow-xs transition-all outline-none first:rounded-l-md first:border-l last:rounded-r-md data-[active=true]:z-10 data-[active=true]:ring-[3px]";
              className])]
       props)
    [char;
     and_ hasFakeCaret
       (jsx (el "div")
          [("className", PStr "pointer-events-none absolute inset-0 flex items-center justify-center")]
          [jsx (el "div")
             [("className", PStr "animate-caret-blink bg-foreground h-4 w-px duration-1000")] []])].

Definition InputOTPSeparator (ps : props) : pval :=
  jsx (el "div") (spread [("data-slot", PStr "input-otp-separator"); ("role", PStr "separator")] ps)
    [jsx (el "MinusIcon") [] []].

End Kit.
End input_otp.
