(* ===== verification/KitOverlays.v ===== *)
(** * The UI kit: dialogs, menus and messages

    [components/ui]: what opens above the page. *)

From S2P Require Import Prelude JsString Jsx KitBasic.

From Stdlib Require Import ZArith.

(** [dialog.tsx] *)
Module dialog.
Section Kit.
  Context `{Styling}.

Definition Dialog (ps : props) : pval :=
  jsx (el "DialogPrimitive.Root") (spread [("data-slot", PStr "dialog")] ps) [].

Definition DialogTrigger (ps : props) : pval :=
  jsx (el "DialogPrimitive.Trigger") (spread [("data-slot", PStr "dialog-trigger")] ps) [].

Definition DialogPortal (ps : props) : pval :=
  jsx (el "DialogPrimitive.Portal") (spread [("data-slot", PStr "dialog-portal")] ps) [].

Definition DialogClose (ps : props) : pval :=
  jsx (el "DialogPrimitive.Close") (spread [("data-slot", PStr "dialog-close")] ps) [].

Definition DialogOverlay (ps : props) : pval :=
  let className := get "className" ps in
  let props := rest ["className"] ps in
  jsx (el "DialogPrimitive.Overlay")
    (spread
       [("data-slot", PStr "dialog-overlay");
        ("className",
          cn [PStr "data-[state=open]:animate-in data-[state=closed]:animate-out data-[state=closed]:fade-out-0 data-[state=open]:fade-in-0 fixed inset-0 z-50";
              className])]
       props)
    [].

Definition DialogContent (ps : props) : pval :=
  let className := get "className" ps in
  let children := get "children" ps in
  let showCloseButton := default_to (get "showCloseButton" ps) (PBool true) in
  let props := rest ["className"; "children"; "showCloseButton"] ps in
  jsx DialogPortal [("data-slot", PStr "dialog-portal")]
    [jsx DialogOverlay [] [];
     jsx (el "DialogPrimitive.Content")
       (spread
          [("data-slot", PStr "dialog-content");
           ("className",
             cn [PStr "bg-background data-[state=open]:animate-in data-[state=closed]:animate-out data-[state=closed]:fade-out-0 data-[state=open]:fade-in-0 data-[state=closed]:zoom-out-95 data-[state=open]:zoom-in-95 fixed top-[50%] left-[50%] z-50 grid w-full max-w-[calc(100%-2rem)] translate-x-[-50%] translate-y-[-50%] gap-4 rounded-lg border p-6 shadow-lg duration-200 sm:max-w-lg";
                 className])]
          props)
       [children;
        and_ showCloseButton
          (jsx (el "DialogPrimitive.Close")
             [("data-slot", PStr "dialog-close");
              ("className", PStr "ring-offset-background focus:ring-ring data-[state=open]:bg-accent data-[state=open]:text-muted-foreground absolute top-4 right-4 rounded-xs opacity-70 transition-opacity hover:opacity-100 focus:ring-2 focus:ring-offset-2 focus:outline-hidden disabled:pointer-events-none [&_svg]:pointer-events-none [&_svg]:shrink-0 [&_svg:not([class*='size-'])]:size-4")]
             [jsx (el "XIcon") [] [];
              jsx (el "span") [("className", PStr "sr-only")] [PStr "Close"]])]].

Definition DialogHeader (ps : props) : pval :=
  let className := get "className" ps in
  let props := rest ["className"] ps in
  jsx (el "div")
    (spread
       [("data-slot", PStr "dialog-header");
        ("className", cn [PStr "flex flex-col gap-2 text-center sm:text-left"; className])]
       props)
    [].

Definition DialogFooter (ps : props) : pval :=
  let className := get "className" ps in
  let props := rest ["className"] ps in
  jsx (el "div")
    (spread
       [("data-slot", PStr "dialog-footer");
        ("className", cn [PStr "flex flex-col-reverse gap-2 sm:flex-row sm:justify-end"; className])]
       props)
    [].

Definition DialogTitle (ps : props) : pval :=
  let className := get "className" ps in
  let props := rest ["className"] ps in
  jsx (el "DialogPrimitive.Title")
    (spread
       [("data-slot", PStr "dialog-title");
        ("className", cn [PStr "text-lg leading-none font-semibold"; className])]
       props)
    [].

Definition DialogDescription (ps : props) : pval :=
  let className := get "className" ps in
  let props := rest ["className"] ps in
  jsx (el "DialogPrimitive.Description")
    (spread
       [("data-slot", PStr "dialog-description");
        ("className", cn [PStr "text-muted-foreground text-sm"; className])]
       props)
    [].

End Kit.
End dialog.

(** [alert-dialog.tsx] *)
Module alert_dialog.
Section Kit.
  Context `{Styling}.

Definition AlertDialog (ps : props) : pval :=
  jsx (el "AlertDialogPrimitive.Root") (spread [("data-slot", PStr "alert-dialog")] ps) [].

Definition AlertDialogTrigger (ps : props) : pval :=
  jsx (el "AlertDialogPrimitive.Trigger") (spread [("data-slot", PStr "alert-dialog-trigger")] ps)
    [].

Definition AlertDialogPortal (ps : props) : pval :=
  jsx (el "AlertDialogPrimitive.Portal") (spread [("data-slot", PStr "alert-dialog-portal")] ps) [].

Definition AlertDialogOverlay (ps : props) : pval :=
  let className := get "className" ps in
  let props := rest ["className"] ps in
  jsx (el "AlertDialogPrimitive.Overlay")
    (spread
       [("data-slot", PStr "alert-dialog-overlay");
        ("className",
          cn [PStr "data-[state=open]:animate-in data-[state=closed]:animate-out data-[state=closed]:fade-out-0 data-[state=open]:fade-in-0 fixed inset-0 z-50 bg-black/50";
              className])]
       props)
    [].

Definition AlertDialogContent (ps : props) : pval :=
  let className := get "className" ps in
  let props := rest ["className"] ps in
  jsx AlertDialogPortal []
    [jsx AlertDialogOverlay [] [];
     jsx (el "AlertDialogPrimitive.Content")
       (spread
          [("data-slot", PStr "alert-dialog-content");
           ("className",
             cn [PStr "bg-background data-[state=open]:animate-in data-[state=closed]:animate-out data-[state=closed]:fade-out-0 data-[state=open]:fade-in-0 data-[state=closed]:zoom-out-95 data-[state=open]:zoom-in-95 fixed top-[50%] left-[50%] z-50 grid w-full max-w-[calc(100%-2rem)] translate-x-[-50%] translate-y-[-50%] gap-4 rounded-lg border p-6 shadow-lg duration-200 sm:max-w-lg";
                 className])]
          props)
       []].

Definition AlertDialogHeader (ps : props) : pval :=
  let className := get "className" ps in
  let props := rest ["className"] ps in
  jsx (el "div")
    (spread
       [("data-slot", PStr "alert-dialog-header");
        ("className", cn [PStr "flex flex-col gap-2 text-center sm:text-left"; className])]
       props)
    [].

Definition AlertDialogFooter (ps : props) : pval :=
  let className := get "className" ps in
  let props := rest ["className"] ps in
  jsx (el "div")
    (spread
       [("data-slot", PStr "alert-dialog-footer");
        ("className", cn [PStr "flex flex-col-reverse gap-2 sm:flex-row sm:justify-end"; className])]
       props)
    [].

Definition AlertDialogTitle (ps : props) : pval :=
  let className := get "className" ps in
  let props := rest ["className"] ps in
  jsx (el "AlertDialogPrimitive.Title")
    (spread
       [("data-slot", PStr "alert-dialog-title");
        ("className", cn [PStr "text-lg font-semibold"; className])]
       props)
    [].

Definition AlertDialogDescription (ps : props) : pval :=
  let className := get "className" ps in
  let props := rest ["className"] ps in
  jsx (el "AlertDialogPrimitive.Description")
    (spread
       [("data-slot", PStr "alert-dialog-description");
        ("className", cn [PStr "text-muted-foreground text-sm"; className])]
       props)
    [].

Definition AlertDialogAction (ps : props) : pval :=
  let className := get "className" ps in
  let props := rest ["className"] ps in
  jsx (el "AlertDialogPrimitive.Action")
    (spread [("className", cn [button.buttonVariants []; className])] props)
    [].

Definition AlertDialogCancel (ps : props) : pval :=
  let className := get "className" ps in
  let props := rest ["className"] ps in
  jsx (el "AlertDialogPrimitive.Cancel")
    (spread [("className", cn [button.buttonVariants [("variant", PStr "outline")]; className])]
       props)
    [].

End Kit.
End alert_dialog.

(** [sheet.tsx] *)
Module sheet.
Section Kit.
  Context `{Styling}.

Definition Sheet (ps : props) : pval :=
  jsx (el "SheetPrimitive.Root") (spread [("data-slot", PStr "sheet")] ps) [].

Definition SheetTrigger (ps : props) : pval :=
  jsx (el "SheetPrimitive.Trigger") (spread [("data-slot", PStr "sheet-trigger")] ps) [].

Definition SheetClose (ps : props) : pval :=
  jsx (el "SheetPrimitive.Close") (spread [("data-slot", PStr "sheet-close")] ps) [].

Definition SheetPortal (ps : props) : pval :=
  jsx (el "SheetPrimitive.Portal") (spread [("data-slot", PStr "sheet-portal")] ps) [].

Definition SheetOverlay (ps : props) : pval :=
  let className := get "className" ps in
  let props := rest ["className"] ps in
  jsx (el "SheetPrimitive.Overlay")
    (spread
       [("data-slot", PStr "sheet-overlay");
        ("className",
          cn [PStr "data-[state=open]:animate-in data-[state=closed]:animate-out data-[state=closed]:fade-out-0 data-[state=open]:fade-in-0 fixed inset-0 z-50 bg-black/50";
              className])]
       props)
    [].

Definition SheetContent (ps : props) : pval :=
  let className := get "className" ps in
  let children := get "children" ps in
  let side := default_to (get "side" ps) (PStr "right") in
  let props := rest ["className"; "children"; "side"] ps in
  jsx SheetPortal []
    [jsx SheetOverlay [] [];
     jsx (el "SheetPrimitive.Content")
       (spread
          [("data-slot", PStr "sheet-content");
           ("className",
             cn [PStr "bg-background data-[state=open]:animate-in data-[state=closed]:animate-out fixed z-50 flex flex-col gap-4 shadow-lg transition ease-in-out data-[state=closed]:duration-300 data-[state=open]:duration-500";
                 and_ (PBool (is_str side "right"))
                   (PStr "data-[state=closed]:slide-out-to-right data-[state=open]:slide-in-from-right inset-y-0 right-0 h-full w-3/4 border-l sm:max-w-sm");
                 and_ (PBool (is_str side "left"))
                   (PStr "data-[state=closed]:slide-out-to-left data-[state=open]:slide-in-from-left inset-y-0 left-0 h-full w-3/4 border-r sm:max-w-sm");
                 and_ (PBool (is_str side "top"))
                   (PStr "data-[state=closed]:slide-out-to-top data-[state=open]:slide-in-from-top inset-x-0 top-0 h-auto border-b");
                 and_ (PBool (is_str side "bottom"))
                   (PStr "data-[state=closed]:slide-out-to-bottom data-[state=open]:slide-in-from-bottom inset-x-0 bottom-0 h-auto border-t");
                 className])]
          props)
       [children;
        jsx (el "SheetPrimitive.Close")
          [("className", PStr "ring-offset-background focus:ring-ring data-[state=open]:bg-secondary absolute top-4 right-4 rounded-xs opacity-70 transition-opacity hover:opacity-100 focus:ring-2 focus:ring-offset-2 focus:outline-hidden disabled:pointer-events-none")]
          [jsx (el "XIcon") [("className", PStr "size-4")] [];
           jsx (el "span") [("className", PStr "sr-only")] [PStr "Close"]]]].

Definition SheetHeader (ps : props) : pval :=
  let className := get "className" ps in
  let props := rest ["className"] ps in
  jsx (el "div")
    (spread
       [("data-slot", PStr "sheet-header");
        ("className", cn [PStr "flex flex-col gap-1.5 p-4"; className])]
       props)
    [].

Definition SheetFooter (ps : props) : pval :=
  let className := get "className" ps in
  let props := rest ["className"] ps in
  jsx (el "div")
    (spread
       [("data-slot", PStr "sheet-footer");
        ("className", cn [PStr "mt-auto flex flex-col gap-2 p-4"; className])]
       props)
    [].

Definition SheetTitle (ps : props) : pval :=
  let className := get "className" ps in
  let props := rest ["className"] ps in
  jsx (el "SheetPrimitive.Title")
    (spread
       [("data-slot", PStr "sheet-title");
        ("className", cn [PStr "text-foreground font-semibold"; className])]
       props)
    [].

Definition SheetDescription (ps : props) : pval :=
  let className := get "className" ps in
  let props := rest ["className"] ps in
  jsx (el "SheetPrimitive.Description")
    (spread
       [("data-slot", PStr "sheet-description");
        ("className", cn [PStr "text-muted-foreground text-sm"; className])]
       props)
    [].

End Kit.
End sheet.

(** [drawer.tsx] *)
Module drawer.
Section Kit.
  Context `{Styling}.

Definition Drawer (ps : props) : pval :=
  jsx (el "DrawerPrimitive.Root") (spread [("data-slot", PStr "drawer")] ps) [].

Definition DrawerTrigger (ps : props) : pval :=
  jsx (el "DrawerPrimitive.Trigger") (spread [("data-slot", PStr "drawer-trigger")] ps) [].

Definition DrawerPortal (ps : props) : pval :=
  jsx (el "DrawerPrimitive.Portal") (spread [("data-slot", PStr "drawer-portal")] ps) [].

Definition DrawerClose (ps : props) : pval :=
  jsx (el "DrawerPrimitive.Close") (spread [("data-slot", PStr "drawer-close")] ps) [].

Definition DrawerOverlay (ps : props) : pval :=
  let className := get "className" ps in
  let props := rest ["className"] ps in
  jsx (el "DrawerPrimitive.Overlay")
    (spread
       [("data-slot", PStr "drawer-overlay");
        ("className",
          cn [PStr "data-[state=open]:animate-in data-[state=closed]:animate-out data-[state=closed]:fade-out-0 data-[state=open]:fade-in-0 fixed inset-0 z-50 bg-black/50";
              className])]
       props)
    [].

Definition DrawerContent (ps : props) : pval :=
  let className := get "className" ps in
  let children := get "children" ps in
  let props := rest ["className"; "children"] ps in
  jsx DrawerPortal [("data-slot", PStr "drawer-portal")]
    [jsx DrawerOverlay [] [];
     jsx (el "DrawerPrimitive.Content")
       (spread
          [("data-slot", PStr "drawer-content");
           ("className",
             cn [PStr "group/drawer-content bg-background fixed z-50 flex h-auto flex-col";
                 PStr "data-[vaul-drawer-direction=top]:inset-x-0 data-[vaul-drawer-direction=top]:top-0 data-[vaul-drawer-direction=top]:mb-24 data-[vaul-drawer-direction=top]:max-h-[80vh] data-[vaul-drawer-direction=top]:rounded-b-lg data-[vaul-drawer-direction=top]:border-b";
                 PStr "data-[vaul-drawer-direction=bottom]:inset-x-0 data-[vaul-drawer-direction=bottom]:bottom-0 data-[vaul-drawer-direction=bottom]:mt-24 data-[vaul-drawer-direction=bottom]:max-h-[80vh] data-[vaul-drawer-direction=bottom]:rounded-t-lg data-[vaul-drawer-direction=bottom]:border-t";
                 PStr "data-[vaul-drawer-direction=right]:inset-y-0 data-[vaul-drawer-direction=right]:right-0 data-[vaul-drawer-direction=right]:w-3/4 data-[vaul-drawer-direction=right]:border-l data-[vaul-drawer-direction=right]:sm:max-w-sm";
                 PStr "data-[vaul-drawer-direction=left]:inset-y-0 data-[vaul-drawer-direction=left]:left-0 data-[vaul-drawer-direction=left]:w-3/4 data-[vaul-drawer-direction=left]:border-r data-[vaul-drawer-direction=left]:sm:max-w-sm";
                 className])]
          props)
       [jsx (el "div")
          [("className", PStr "bg-muted mx-auto mt-4 hidden h-2 w-[100px] shrink-0 rounded-full group-data-[vaul-drawer-direction=bottom]/drawer-content:block")]
          []; children]].

Definition DrawerHeader (ps : props) : pval :=
  let className := get "className" ps in
  let props := rest ["className"] ps in
  jsx (el "div")
    (spread
       [("data-slot", PStr "drawer-header");
        ("className",
          cn [PStr "flex flex-col gap-0.5 p-4 group-data-[vaul-drawer-direction=bottom]/drawer-content:text-center group-data-[vaul-drawer-direction=top]/drawer-content:text-center md:gap-1.5 md:text-left";
              className])]
       props)
    [].

Definition DrawerFooter (ps : props) : pval :=
  let className := get "className" ps in
  let props := rest ["className"] ps in
  jsx (el "div")
    (spread
       [("data-slot", PStr "drawer-footer");
        ("className", cn [PStr "mt-auto flex flex-col gap-2 p-4"; className])]
       props)
    [].

Definition DrawerTitle (ps : props) : pval :=
  let className := get "className" ps in
  let props := rest ["className"] ps in
  jsx (el "DrawerPrimitive.Title")
    (spread
       [("data-slot", PStr "drawer-title");
        ("className", cn [PStr "text-foreground font-semibold"; className])]
       props)
    [].

Definition DrawerDescription (ps : props) : pval :=
  let className := get "className" ps in
  let props := rest ["className"] ps in
  jsx (el "DrawerPrimitive.Description")
    (spread
       [("data-slot", PStr "drawer-description");
        ("className", cn [PStr "text-muted-foreground text-sm"; className])]
       props)
    [].

End Kit.
End drawer.

(** [popover.tsx] *)
Module popover.
Section Kit.
  Context `{Styling}.

Definition Popover (ps : props) : pval :=
  jsx (el "PopoverPrimitive.Root") (spread [("data-slot", PStr "popover")] ps) [].

Definition PopoverTrigger (ps : props) : pval :=
  jsx (el "PopoverPrimitive.Trigger") (spread [("data-slot", PStr "popover-trigger")] ps) [].

Definition PopoverContent (ps : props) : pval :=
  let className := get "className" ps in
  let align := default_to (get "align" ps) (PStr "center") in
  let sideOffset := default_to (get "sideOffset" ps) (PNum 4) in
  let props := rest ["className"; "align"; "sideOffset"] ps in
  jsx (el "PopoverPrimitive.Portal") []
    [jsx (el "PopoverPrimitive.Content")
       (spread
          [("data-slot", PStr "popover-content"); ("align", align); ("sideOffset", sideOffset);
           ("className",
             cn [PStr "bg-popover text-popover-foreground data-[state=open]:animate-in data-[state=closed]:animate-out data-[state=closed]:fade-out-0 data-[state=open]:fade-in-0 data-[state=closed]:zoom-out-95 data-[state=open]:zoom-in-95 data-[side=bottom]:slide-in-from-top-2 data-[side=left]:slide-in-from-right-2 data-[side=right]:slide-in-from-left-2 data-[side=top]:slide-in-from-bottom-2 z-50 w-72 origin-(--radix-popover-content-transform-origin) rounded-md border p-4 shadow-md outline-hidden";
                 className])]
          props)
       []].

Definition PopoverAnchor (ps : props) : pval :=
  jsx (el "PopoverPrimitive.Anchor") (spread [("data-slot", PStr "popover-anchor")] ps) [].

End Kit.
End popover.

(** [hover-card.tsx] *)
Module hover_card.
Section Kit.
  Context `{Styling}.

Definition HoverCard (ps : props) : pval :=
  jsx (el "HoverCardPrimitive.Root") (spread [("data-slot", PStr "hover-card")] ps) [].

Definition HoverCardTrigger (ps : props) : pval :=
  jsx (el "HoverCardPrimitive.Trigger") (spread [("data-slot", PStr "hover-card-trigger")] ps) [].

Definition HoverCardContent (ps : props) : pval :=
  let className := get "className" ps in
  let align := default_to (get "align" ps) (PStr "center") in
  let sideOffset := default_to (get "sideOffset" ps) (PNum 4) in
  let props := rest ["className"; "align"; "sideOffset"] ps in
  jsx (el "HoverCardPrimitive.Portal") [("data-slot", PStr "hover-card-portal")]
    [jsx (el "HoverCardPrimitive.Content")
       (spread
          [("data-slot", PStr "hover-card-content"); ("align", align); ("sideOffset", sideOffset);
           ("className",
             cn [PStr "bg-popover text-popover-foreground data-[state=open]:animate-in data-[state=closed]:animate-out data-[state=closed]:fade-out-0 data-[state=open]:fade-in-0 data-[state=closed]:zoom-out-95 data-[state=open]:zoom-in-95 data-[side=bottom]:slide-in-from-top-2 data-[side=left]:slide-in-from-right-2 data-[side=right]:slide-in-from-left-2 data-[side=top]:slide-in-from-bottom-2 z-50 w-64 origin-(--radix-hover-card-content-transform-origin) rounded-md border p-4 shadow-md outline-hidden";
                 className])]
          props)
       []].

End Kit.
End hover_card.

(** [tooltip.tsx] *)
Module tooltip.
Section Kit.
  Context `{Styling}.

Definition TooltipProvider (ps : props) : pval :=
  let delayDuration := default_to (get "delayDuration" ps) (PNum 0) in
  let props := rest ["delayDuration"] ps in
  jsx (el "TooltipPrimitive.Provider")
    (spread [("data-slot", PStr "tooltip-provider"); ("delayDuration", delayDuration)] props)
    [].

Definition Tooltip (ps : props) : pval :=
  jsx TooltipProvider []
    [jsx (el "TooltipPrimitive.Root") (spread [("data-slot", PStr "tooltip")] ps) []].

Definition TooltipTrigger (ps : props) : pval :=
  jsx (el "TooltipPrimitive.Trigger") (spread [("data-slot", PStr "tooltip-trigger")] ps) [].

Definition TooltipContent (ps : props) : pval :=
  let className := get "className" ps in
  let sideOffset := default_to (get "sideOffset" ps) (PNum 0) in
  let children := get "children" ps in
  let props := rest ["className"; "sideOffset"; "children"] ps in
  jsx (el "TooltipPrimitive.Portal") []
    [jsx (el "TooltipPrimitive.Content")
       (spread
          [("data-slot", PStr "tooltip-content"); ("sideOffset", sideOffset);
           ("className",
             cn [PStr "bg-foreground text-background animate-in fade-in-0 zoom-in-95 data-[state=closed]:animate-out data-[state=closed]:fade-out-0 data-[state=closed]:zoom-out-95 data-[side=bottom]:slide-in-from-top-2 data-[side=left]:slide-in-from-right-2 data-[side=right]:slide-in-from-left-2 data-[side=top]:slide-in-from-bottom-2 z-50 w-fit origin-(--radix-tooltip-content-transform-origin) rounded-md px-3 py-1.5 text-xs text-balance";
                 className])]
          props)
       [children;
        jsx (el "TooltipPrimitive.Arrow")
          [("className", PStr "bg-foreground fill-foreground z-50 size-2.5 translate-y-[calc(-50%_-_2px)] rotate-45 rounded-[2px]")]
          []]].

End Kit.
End tooltip.

(** [command.tsx] *)
Module command.
Section Kit.
  Context `{Styling}.

Definition Command (ps : props) : pval :=
  let className := get "className" ps in
  let props := rest ["className"] ps in
  jsx (el "CommandPrimitive")
    (spread
       [("data-slot", PStr "command");
        ("className",
          cn [PStr "bg-popover text-popover-foreground flex h-full w-full flex-col overflow-hidden rounded-md";
              className])]
       props)
    [].

Definition CommandDialog (ps : props) : pval :=
  let title := default_to (get "title" ps) (PStr "Command Palette") in
  let description := default_to (get "description" ps) (PStr "Search for a command to run...") in
  let children := get "children" ps in
  let className := get "className" ps in
  let showCloseButton := default_to (get "showCloseButton" ps) (PBool true) in
  let props := rest ["title"; "description"; "children"; "className"; "showCloseButton"] ps in
  jsx dialog.Dialog props
    [jsx dialog.DialogHeader [("className", PStr "sr-only")]
       [jsx dialog.DialogTitle [] [title]; jsx dialog.DialogDescription [] [description]];
     jsx dialog.DialogContent
       [("className", cn [PStr "overflow-hidden p-0"; className]);
        ("showCloseButton", showCloseButton)]
       [jsx Command
          [("className", PStr "[&_[cmdk-group-heading]]:text-muted-foreground **:data-[slot=command-input-wrapper]:h-12 [&_[cmdk-group-heading]]:px-2 [&_[cmdk-group-heading]]:font-medium [&_[cmdk-group]]:px-2 [&_[cmdk-group]:not([hidden])_~[cmdk-group]]:pt-0 [&_[cmdk-input-wrapper]_svg]:h-5 [&_[cmdk-input-wrapper]_svg]:w-5 [&_[cmdk-input]]:h-12 [&_[cmdk-item]]:px-2 [&_[cmdk-item]]:py-3 [&_[cmdk-item]_svg]:h-5 [&_[cmdk-item]_svg]:w-5")]
          [children]]].

Definition CommandInput (ps : props) : pval :=
  let className := get "className" ps in
  let props := rest ["className"] ps in
  jsx (el "div")
    [("data-slot", PStr "command-input-wrapper");
     ("className", PStr "flex h-9 items-center gap-2 border-b px-3")]
    [jsx (el "SearchIcon") [("className", PStr "size-4 shrink-0 opacity-50")] [];
     jsx (el "CommandPrimitive.Input")
       (spread
          [("data-slot", PStr "command-input");
           ("className",
             cn [PStr "placeholder:text-muted-foreground flex h-10 w-full rounded-md bg-transparent py-3 text-sm outline-hidden disabled:cursor-not-allowed disabled:opacity-50";
                 className])]
          props)
       []].

Definition CommandList (ps : props) : pval :=
  let className := get "className" ps in
  let props := rest ["className"] ps in
  jsx (el "CommandPrimitive.List")
    (spread
       [("data-slot", PStr "command-list");
        ("className",
          cn [PStr "max-h-[300px] scroll-py-1 overflow-x-hidden overflow-y-auto"; className])]
       props)
    [].

Definition CommandEmpty (ps : props) : pval :=
  jsx (el "CommandPrimitive.Empty")
    (spread [("data-slot", PStr "command-empty"); ("className", PStr "py-6 text-center text-sm")] ps)
    [].

Definition CommandGroup (ps : props) : pval :=
  let className := get "className" ps in
  let props := rest ["className"] ps in
  jsx (el "CommandPrimitive.Group")
    (spread
       [("data-slot", PStr "command-group");
        ("className",
          cn [PStr "text-foreground [&_[cmdk-group-heading]]:text-muted-foreground overflow-hidden p-1 [&_[cmdk-group-heading]]:px-2 [&_[cmdk-group-heading]]:py-1.5 [&_[cmdk-group-heading]]:text-xs [&_[cmdk-group-heading]]:font-medium";
              className])]
       props)
    [].

Definition CommandSeparator (ps : props) : pval :=
  let className := get "className" ps in
  let props := rest ["className"] ps in
  jsx (el "CommandPrimitive.Separator")
    (spread
       [("data-slot", PStr "command-separator");
        ("className", cn [PStr "bg-border -mx-1 h-px"; className])]
       props)
    [].

Definition CommandItem (ps : props) : pval :=
  let className := get "className" ps in
  let props := rest ["className"] ps in
  jsx (el "CommandPrimitive.Item")
    (spread
       [("data-slot", PStr "command-item");
        ("className",
          cn [PStr "data-[selected=true]:bg-accent data-[selected=true]:text-accent-foreground [&_svg:not([class*='text-'])]:text-muted-foreground relative flex cursor-default items-center gap-2 rounded-sm px-2 py-1.5 text-sm outline-hidden select-none data-[disabled=true]:pointer-events-none data-[disabled=true]:opacity-50 [&_svg]:pointer-events-none [&_svg]:shrink-0 [&_svg:not([class*='size-'])]:size-4";
              className])]
       props)
    [].

Definition CommandShortcut (ps : props) : pval :=
  let className := get "className" ps in
  let props := rest ["className"] ps in
  jsx (el "span")
    (spread
       [("data-slot", PStr "command-shortcut");
        ("className", cn [PStr "text-muted-foreground ml-auto text-xs tracking-widest"; className])]
       props)
    [].

End Kit.
End command.

(** [context-menu.tsx] *)
Module context_menu.
Section Kit.
  Context `{Styling}.

Definition ContextMenu (ps : props) : pval :=
  jsx (el "ContextMenuPrimitive.Root") (spread [("data-slot", PStr "context-menu")] ps) [].

Definition ContextMenuTrigger (ps : props) : pval :=
  jsx (el "ContextMenuPrimitive.Trigger") (spread [("data-slot", PStr "context-menu-trigger")] ps)
    [].

Definition ContextMenuGroup (ps : props) : pval :=
  jsx (el "ContextMenuPrimitive.Group") (spread [("data-slot", PStr "context-menu-group")] ps) [].

Definition ContextMenuPortal (ps : props) : pval :=
  jsx (el "ContextMenuPrimitive.Portal") (spread [("data-slot", PStr "context-menu-portal")] ps) [].

Definition ContextMenuSub (ps : props) : pval :=
  jsx (el "ContextMenuPrimitive.Sub") (spread [("data-slot", PStr "context-menu-sub")] ps) [].

Definition ContextMenuRadioGroup (ps : props) : pval :=
  jsx (el "ContextMenuPrimitive.RadioGroup")
    (spread [("data-slot", PStr "context-menu-radio-group")] ps)
    [].

Definition ContextMenuSubTrigger (ps : props) : pval :=
  let className := get "className" ps in
  let inset := get "inset" ps in
  let children := get "children" ps in
  let props := rest ["className"; "inset"; "children"] ps in
  jsx (el "ContextMenuPrimitive.SubTrigger")
    (spread
       [("data-slot", PStr "context-menu-sub-trigger"); ("data-inset", inset);
        ("className",
          cn [PStr "focus:bg-accent focus:text-accent-foreground data-[state=open]:bg-accent data-[state=open]:text-accent-foreground [&_svg:not([class*='text-'])]:text-muted-foreground flex cursor-default items-center rounded-sm px-2 py-1.5 text-sm outline-hidden select-none data-[inset]:pl-8 [&_svg]:pointer-events-none [&_svg]:shrink-0 [&_svg:not([class*='size-'])]:size-4";
              className])]
       props)
    [children; jsx (el "ChevronRightIcon") [("className", PStr "ml-auto")] []].

Definition ContextMenuSubContent (ps : props) : pval :=
  let className := get "className" ps in
  let props := rest ["className"] ps in
  jsx (el "ContextMenuPrimitive.SubContent")
    (spread
       [("data-slot", PStr "context-menu-sub-content");
        ("className",
          cn [PStr "bg-popover text-popover-foreground data-[state=open]:animate-in data-[state=closed]:animate-out data-[state=closed]:fade-out-0 data-[state=open]:fade-in-0 data-[state=closed]:zoom-out-95 data-[state=open]:zoom-in-95 data-[side=bottom]:slide-in-from-top-2 data-[side=left]:slide-in-from-right-2 data-[side=right]:slide-in-from-left-2 data-[side=top]:slide-in-from-bottom-2 z-50 min-w-[8rem] origin-(--radix-context-menu-content-transform-origin) overflow-hidden rounded-md border p-1 shadow-lg";
              className])]
       props)
    [].

Definition ContextMenuContent (ps : props) : pval :=
  let className := get "className" ps in
  let props := rest ["className"] ps in
  jsx (el "ContextMenuPrimitive.Portal") []
    [jsx (el "ContextMenuPrimitive.Content")
       (spread
          [("data-slot", PStr "context-menu-content");
           ("className",
             cn [PStr "bg-popover text-popover-foreground data-[state=open]:animate-in data-[state=closed]:animate-out data-[state=closed]:fade-out-0 data-[state=open]:fade-in-0 data-[state=closed]:zoom-out-95 data-[state=open]:zoom-in-95 data-[side=bottom]:slide-in-from-top-2 data-[side=left]:slide-in-from-right-2 data-[side=right]:slide-in-from-left-2 data-[side=top]:slide-in-from-bottom-2 z-50 max-h-(--radix-context-menu-content-available-height) min-w-[8rem] origin-(--radix-context-menu-content-transform-origin) overflow-x-hidden overflow-y-auto rounded-md border p-1 shadow-md";
                 className])]
          props)
       []].

Definition ContextMenuItem (ps : props) : pval :=
  let className := get "className" ps in
  let inset := get "inset" ps in
  let variant := default_to (get "variant" ps) (PStr "default") in
  let props := rest ["className"; "inset"; "variant"] ps in
  jsx (el "ContextMenuPrimitive.Item")
    (spread
       [("data-slot", PStr "context-menu-item"); ("data-inset", inset); ("data-variant", variant);
        ("className",
          cn [PStr "focus:bg-accent focus:text-accent-foreground data-[variant=destructive]:text-destructive data-[variant=destructive]:focus:bg-destructive/10 dark:data-[variant=destructive]:focus:bg-destructive/20 data-[variant=destructive]:focus:text-destructive data-[variant=destructive]:*:[svg]:!text-destructive [&_svg:not([class*='text-'])]:text-muted-foreground relative flex cursor-default items-center gap-2 rounded-sm px-2 py-1.5 text-sm outline-hidden select-none data-[disabled]:pointer-events-none data-[disabled]:opacity-50 data-[inset]:pl-8 [&_svg]:pointer-events-none [&_svg]:shrink-0 [&_svg:not([class*='size-'])]:size-4";
              className])]
       props)
    [].

Definition ContextMenuCheckboxItem (ps : props) : pval :=
  let className := get "className" ps in
  let children := get "children" ps in
  let checked := get "checked" ps in
  let props := rest ["className"; "children"; "checked"] ps in
  jsx (el "ContextMenuPrimitive.CheckboxItem")
    (spread
       [("data-slot", PStr "context-menu-checkbox-item");
        ("className",
          cn [PStr "focus:bg-accent focus:text-accent-foreground relative flex cursor-default items-center gap-2 rounded-sm py-1.5 pr-2 pl-8 text-sm outline-hidden select-none data-[disabled]:pointer-events-none data-[disabled]:opacity-50 [&_svg]:pointer-events-none [&_svg]:shrink-0 [&_svg:not([class*='size-'])]:size-4";
              className]); ("checked", checked)]
       props)
    [jsx (el "span")
       [("className", PStr "pointer-events-none absolute left-2 flex size-3.5 items-center justify-center")]
       [jsx (el "ContextMenuPrimitive.ItemIndicator") []
          [jsx (el "CheckIcon") [("className", PStr "size-4")] []]]; children].

Definition ContextMenuRadioItem (ps : props) : pval :=
  let className := get "className" ps in
  let children := get "children" ps in
  let props := rest ["className"; "children"] ps in
  jsx (el "ContextMenuPrimitive.RadioItem")
    (spread
       [("data-slot", PStr "context-menu-radio-item");
        ("className",
          cn [PStr "focus:bg-accent focus:text-accent-foreground relative flex cursor-default items-center gap-2 rounded-sm py-1.5 pr-2 pl-8 text-sm outline-hidden select-none data-[disabled]:pointer-events-none data-[disabled]:opacity-50 [&_svg]:pointer-events-none [&_svg]:shrink-0 [&_svg:not([class*='size-'])]:size-4";
              className])]
       props)
    [jsx (el "span")
       [("className", PStr "pointer-events-none absolute left-2 flex size-3.5 items-center justify-center")]
       [jsx (el "ContextMenuPrimitive.ItemIndicator") []
          [jsx (el "CircleIcon") [("className", PStr "size-2 fill-current")] []]]; children].

Definition ContextMenuLabel (ps : props) : pval :=
  let className := get "className" ps in
  let inset := get "inset" ps in
  let props := rest ["className"; "inset"] ps in
  jsx (el "ContextMenuPrimitive.Label")
    (spread
       [("data-slot", PStr "context-menu-label"); ("data-inset", inset);
        ("className",
          cn [PStr "text-foreground px-2 py-1.5 text-sm font-medium data-[inset]:pl-8"; className])]
       props)
    [].

Definition ContextMenuSeparator (ps : props) : pval :=
  let className := get "className" ps in
  let props := rest ["className"] ps in
  jsx (el "ContextMenuPrimitive.Separator")
    (spread
       [("data-slot", PStr "context-menu-separator");
        ("className", cn [PStr "bg-border -mx-1 my-1 h-px"; className])]
       props)
    [].

Definition ContextMenuShortcut (ps : props) : pval :=
  let className := get "className" ps in
  let props := rest ["className"] ps in
  jsx (el "span")
    (spread
       [("data-slot", PStr "context-menu-shortcut");
        ("className", cn [PStr "text-muted-foreground ml-auto text-xs tracking-widest"; className])]
       props)
    [].

End Kit.
End context_menu.

(** [dropdown-menu.tsx] *)
Module dropdown_menu.
Section Kit.
  Context `{Styling}.

Definition DropdownMenu (ps : props) : pval :=
  jsx (el "DropdownMenuPrimitive.Root") (spread [("data-slot", PStr "dropdown-menu")] ps) [].

Definition DropdownMenuPortal (ps : props) : pval :=
  jsx (el "DropdownMenuPrimitive.Portal") (spread [("data-slot", PStr "dropdown-menu-portal")] ps)
    [].

Definition DropdownMenuTrigger (ps : props) : pval :=
  jsx (el "DropdownMenuPrimitive.Trigger") (spread [("data-slot", PStr "dropdown-menu-trigger")] ps)
    [].

Definition DropdownMenuContent (ps : props) : pval :=
  let className := get "className" ps in
  let sideOffset := default_to (get "sideOffset" ps) (PNum 4) in
  let props := rest ["className"; "sideOffset"] ps in
  jsx (el "DropdownMenuPrimitive.Portal") []
    [jsx (el "DropdownMenuPrimitive.Content")
       (spread
          [("data-slot", PStr "dropdown-menu-content"); ("sideOffset", sideOffset);
           ("className",
             cn [PStr "bg-popover text-popover-foreground data-[state=open]:animate-in data-[state=closed]:animate-out data-[state=closed]:fade-out-0 data-[state=open]:fade-in-0 data-[state=closed]:zoom-out-95 data-[state=open]:zoom-in-95 data-[side=bottom]:slide-in-from-top-2 data-[side=left]:slide-in-from-right-2 data-[side=right]:slide-in-from-left-2 data-[side=top]:slide-in-from-bottom-2 z-50 max-h-(--radix-dropdown-menu-content-available-height) min-w-[8rem] origin-(--radix-dropdown-menu-content-transform-origin) overflow-x-hidden overflow-y-auto rounded-md border p-1 shadow-md";
                 className])]
          props)
       []].

Definition DropdownMenuGroup (ps : props) : pval :=
  jsx (el "DropdownMenuPrimitive.Group") (spread [("data-slot", PStr "dropdown-menu-group")] ps) [].

Definition DropdownMenuItem (ps : props) : pval :=
  let className := get "className" ps in
  let inset := get "inset" ps in
  let variant := default_to (get "variant" ps) (PStr "default") in
  let props := rest ["className"; "inset"; "variant"] ps in
  jsx (el "DropdownMenuPrimitive.Item")
    (spread
       [("data-slot", PStr "dropdown-menu-item"); ("data-inset", inset); ("data-variant", variant);
        ("className",
          cn [PStr "focus:bg-accent focus:text-accent-foreground data-[variant=destructive]:text-destructive data-[variant=destructive]:focus:bg-destructive/10 dark:data-[variant=destructive]:focus:bg-destructive/20 data-[variant=destructive]:focus:text-destructive data-[variant=destructive]:*:[svg]:!text-destructive [&_svg:not([class*='text-'])]:text-muted-foreground relative flex cursor-default items-center gap-2 rounded-sm px-2 py-1.5 text-sm outline-hidden select-none data-[disabled]:pointer-events-none data-[disabled]:opacity-50 data-[inset]:pl-8 [&_svg]:pointer-events-none [&_svg]:shrink-0 [&_svg:not([class*='size-'])]:size-4";
              className])]
       props)
    [].

Definition DropdownMenuCheckboxItem (ps : props) : pval :=
  let className := get "className" ps in
  let children := get "children" ps in
  let checked := get "checked" ps in
  let props := rest ["className"; "children"; "checked"] ps in
  jsx (el "DropdownMenuPrimitive.CheckboxItem")
    (spread
       [("data-slot", PStr "dropdown-menu-checkbox-item");
        ("className",
          cn [PStr "focus:bg-accent focus:text-accent-foreground relative flex cursor-default items-center gap-2 rounded-sm py-1.5 pr-2 pl-8 text-sm outline-hidden select-none data-[disabled]:pointer-events-none data-[disabled]:opacity-50 [&_svg]:pointer-events-none [&_svg]:shrink-0 [&_svg:not([class*='size-'])]:size-4";
              className]); ("checked", checked)]
       props)
    [jsx (el "span")
       [("className", PStr "pointer-events-none absolute left-2 flex size-3.5 items-center justify-center")]
       [jsx (el "DropdownMenuPrimitive.ItemIndicator") []
          [jsx (el "CheckIcon") [("className", PStr "size-4")] []]]; children].

Definition DropdownMenuRadioGroup (ps : props) : pval :=
  jsx (el "DropdownMenuPrimitive.RadioGroup")
    (spread [("data-slot", PStr "dropdown-menu-radio-group")] ps)
    [].

Definition DropdownMenuRadioItem (ps : props) : pval :=
  let className := get "className" ps in
  let children := get "children" ps in
  let props := rest ["className"; "children"] ps in
  jsx (el "DropdownMenuPrimitive.RadioItem")
    (spread
       [("data-slot", PStr "dropdown-menu-radio-item");
        ("className",
          cn [PStr "focus:bg-accent focus:text-accent-foreground relative flex cursor-default items-center gap-2 rounded-sm py-1.5 pr-2 pl-8 text-sm outline-hidden select-none data-[disabled]:pointer-events-none data-[disabled]:opacity-50 [&_svg]:pointer-events-none [&_svg]:shrink-0 [&_svg:not([class*='size-'])]:size-4";
              className])]
       props)
    [jsx (el "span")
       [("className", PStr "pointer-events-none absolute left-2 flex size-3.5 items-center justify-center")]
       [jsx (el "DropdownMenuPrimitive.ItemIndicator") []
          [jsx (el "CircleIcon") [("className", PStr "size-2 fill-current")] []]]; children].

Definition DropdownMenuLabel (ps : props) : pval :=
  let className := get "className" ps in
  let inset := get "inset" ps in
  let props := rest ["className"; "inset"] ps in
  jsx (el "DropdownMenuPrimitive.Label")
    (spread
       [("data-slot", PStr "dropdown-menu-label"); ("data-inset", inset);
        ("className", cn [PStr "px-2 py-1.5 text-sm font-medium data-[inset]:pl-8"; className])]
       props)
    [].

Definition DropdownMenuSeparator (ps : props) : pval :=
  let className := get "className" ps in
  let props := rest ["className"] ps in
  jsx (el "DropdownMenuPrimitive.Separator")
    (spread
       [("data-slot", PStr "dropdown-menu-separator");
        ("className", cn [PStr "bg-border -mx-1 my-1 h-px"; className])]
       props)
    [].

Definition DropdownMenuShortcut (ps : props) : pval :=
  let className := get "className" ps in
  let props := rest ["className"] ps in
  jsx (el "span")
    (spread
       [("data-slot", PStr "dropdown-menu-shortcut");
        ("className", cn [PStr "text-muted-foreground ml-auto text-xs tracking-widest"; className])]
       props)
    [].

Definition DropdownMenuSub (ps : props) : pval :=
  jsx (el "DropdownMenuPrimitive.Sub") (spread [("data-slot", PStr "dropdown-menu-sub")] ps) [].

Definition DropdownMenuSubTrigger (ps : props) : pval :=
  let className := get "className" ps in
  let inset := get "inset" ps in
  let children := get "children" ps in
  let props := rest ["className"; "inset"; "children"] ps in
  jsx (el "DropdownMenuPrimitive.SubTrigger")
    (spread
       [("data-slot", PStr "dropdown-menu-sub-trigger"); ("data-inset", inset);
        ("className",
          cn [PStr "focus:bg-accent focus:text-accent-foreground data-[state=open]:bg-accent data-[state=open]:text-accent-foreground [&_svg:not([class*='text-'])]:text-muted-foreground flex cursor-default items-center gap-2 rounded-sm px-2 py-1.5 text-sm outline-hidden select-none data-[inset]:pl-8 [&_svg]:pointer-events-none [&_svg]:shrink-0 [&_svg:not([class*='size-'])]:size-4";
              className])]
       props)
    [children; jsx (el "ChevronRightIcon") [("className", PStr "ml-auto size-4")] []].

Definition DropdownMenuSubContent (ps : props) : pval :=
  let className := get "className" ps in
  let props := rest ["className"] ps in
  jsx (el "DropdownMenuPrimitive.SubContent")
    (spread
       [("data-slot", PStr "dropdown-menu-sub-content");
        ("className",
          cn [PStr "bg-popover text-popover-foreground data-[state=open]:animate-in data-[state=closed]:animate-out data-[state=closed]:fade-out-0 data-[state=open]:fade-in-0 data-[state=closed]:zoom-out-95 data-[state=open]:zoom-in-95 data-[side=bottom]:slide-in-from-top-2 data-[side=left]:slide-in-from-right-2 data-[side=right]:slide-in-from-left-2 data-[side=top]:slide-in-from-bottom-2 z-50 min-w-[8rem] origin-(--radix-dropdown-menu-content-transform-origin) overflow-hidden rounded-md border p-1 shadow-lg";
              className])]
       props)
    [].

End Kit.
End dropdown_menu.

(** [menubar.tsx] *)
Module menubar.
Section Kit.
  Context `{Styling}.

Definition Menubar (ps : props) : pval :=
  let className := get "className" ps in
  let props := rest ["className"] ps in
  jsx (el "MenubarPrimitive.Root")
    (spread
       [("data-slot", PStr "menubar");
        ("className",
          cn [PStr "bg-background flex h-9 items-center gap-1 rounded-md border p-1 shadow-xs";
              className])]
       props)
    [].

Definition MenubarMenu (ps : props) : pval :=
  jsx (el "MenubarPrimitive.Menu") (spread [("data-slot", PStr "menubar-menu")] ps) [].

Definition MenubarGroup (ps : props) : pval :=
  jsx (el "MenubarPrimitive.Group") (spread [("data-slot", PStr "menubar-group")] ps) [].

Definition MenubarPortal (ps : props) : pval :=
  jsx (el "MenubarPrimitive.Portal") (spread [("data-slot", PStr "menubar-portal")] ps) [].

Definition MenubarRadioGroup (ps : props) : pval :=
  jsx (el "MenubarPrimitive.RadioGroup") (spread [("data-slot", PStr "menubar-radio-group")] ps) [].

Definition MenubarTrigger (ps : props) : pval :=
  let className := get "className" ps in
  let props := rest ["className"] ps in
  jsx (el "MenubarPrimitive.Trigger")
    (spread
       [("data-slot", PStr "menubar-trigger");
        ("className",
          cn [PStr "focus:bg-accent focus:text-accent-foreground data-[state=open]:bg-accent data-[state=open]:text-accent-foreground flex items-center rounded-sm px-2 py-1 text-sm font-medium outline-hidden select-none";
              className])]
       props)
    [].

Definition MenubarContent (ps : props) : pval :=
  let className := get "className" ps in
  let align := default_to (get "align" ps) (PStr "start") in
  let alignOffset := default_to (get "alignOffset" ps) (PNum (-4)) in
  let sideOffset := default_to (get "sideOffset" ps) (PNum 8) in
  let props := rest ["className"; "align"; "alignOffset"; "sideOffset"] ps in
  jsx MenubarPortal []
    [jsx (el "MenubarPrimitive.Content")
       (spread
          [("data-slot", PStr "menubar-content"); ("align", align); ("alignOffset", alignOffset);
           ("sideOffset", sideOffset);
           ("className",
             cn [PStr "bg-popover text-popover-foreground data-[state=open]:animate-in data-[state=closed]:fade-out-0 data-[state=open]:fade-in-0 data-[state=closed]:zoom-out-95 data-[state=open]:zoom-in-95 data-[side=bottom]:slide-in-from-top-2 data-[side=left]:slide-in-from-right-2 data-[side=right]:slide-in-from-left-2 data-[side=top]:slide-in-from-bottom-2 z-50 min-w-[12rem] origin-(--radix-menubar-content-transform-origin) overflow-hidden rounded-md border p-1 shadow-md";
                 className])]
          props)
       []].

Definition MenubarItem (ps : props) : pval :=
  let className := get "className" ps in
  let inset := get "inset" ps in
  let variant := default_to (get "variant" ps) (PStr "default") in
  let props := rest ["className"; "inset"; "variant"] ps in
  jsx (el "MenubarPrimitive.Item")
    (spread
       [("data-slot", PStr "menubar-item"); ("data-inset", inset); ("data-variant", variant);
        ("className",
          cn [PStr "focus:bg-accent focus:text-accent-foreground data-[variant=destructive]:text-destructive data-[variant=destructive]:focus:bg-destructive/10 dark:data-[variant=destructive]:focus:bg-destructive/20 data-[variant=destructive]:focus:text-destructive data-[variant=destructive]:*:[svg]:!text-destructive [&_svg:not([class*='text-'])]:text-muted-foreground relative flex cursor-default items-center gap-2 rounded-sm px-2 py-1.5 text-sm outline-hidden select-none data-[disabled]:pointer-events-none data-[disabled]:opacity-50 data-[inset]:pl-8 [&_svg]:pointer-events-none [&_svg]:shrink-0 [&_svg:not([class*='size-'])]:size-4";
              className])]
       props)
    [].

Definition MenubarCheckboxItem (ps : props) : pval :=
  let className := get "className" ps in
  let children := get "children" ps in
  let checked := get "checked" ps in
  let props := rest ["className"; "children"; "checked"] ps in
  jsx (el "MenubarPrimitive.CheckboxItem")
    (spread
       [("data-slot", PStr "menubar-checkbox-item");
        ("className",
          cn [PStr "focus:bg-accent focus:text-accent-foreground relative flex cursor-default items-center gap-2 rounded-xs py-1.5 pr-2 pl-8 text-sm outline-hidden select-none data-[disabled]:pointer-events-none data-[disabled]:opacity-50 [&_svg]:pointer-events-none [&_svg]:shrink-0 [&_svg:not([class*='size-'])]:size-4";
              className]); ("checked", checked)]
       props)
    [jsx (el "span")
       [("className", PStr "pointer-events-none absolute left-2 flex size-3.5 items-center justify-center")]
       [jsx (el "MenubarPrimitive.ItemIndicator") []
          [jsx (el "CheckIcon") [("className", PStr "size-4")] []]]; children].

Definition MenubarRadioItem (ps : props) : pval :=
  let className := get "className" ps in
  let children := get "children" ps in
  let props := rest ["className"; "children"] ps in
  jsx (el "MenubarPrimitive.RadioItem")
    (spread
       [("data-slot", PStr "menubar-radio-item");
        ("className",
          cn [PStr "focus:bg-accent focus:text-accent-foreground relative flex cursor-default items-center gap-2 rounded-xs py-1.5 pr-2 pl-8 text-sm outline-hidden select-none data-[disabled]:pointer-events-none data-[disabled]:opacity-50 [&_svg]:pointer-events-none [&_svg]:shrink-0 [&_svg:not([class*='size-'])]:size-4";
              className])]
       props)
    [jsx (el "span")
       [("className", PStr "pointer-events-none absolute left-2 flex size-3.5 items-center justify-center")]
       [jsx (el "MenubarPrimitive.ItemIndicator") []
          [jsx (el "CircleIcon") [("className", PStr "size-2 fill-current")] []]]; children].

Definition MenubarLabel (ps : props) : pval :=
  let className := get "className" ps in
  let inset := get "inset" ps in
  let props := rest ["className"; "inset"] ps in
  jsx (el "MenubarPrimitive.Label")
    (spread
       [("data-slot", PStr "menubar-label"); ("data-inset", inset);
        ("className", cn [PStr "px-2 py-1.5 text-sm font-medium data-[inset]:pl-8"; className])]
       props)
    [].

Definition MenubarSeparator (ps : props) : pval :=
  let className := get "className" ps in
  let props := rest ["className"] ps in
  jsx (el "MenubarPrimitive.Separator")
    (spread
       [("data-slot", PStr "menubar-separator");
        ("className", cn [PStr "bg-border -mx-1 my-1 h-px"; className])]
       props)
    [].

Definition MenubarShortcut (ps : props) : pval :=
  let className := get "className" ps in
  let props := rest ["className"] ps in
  jsx (el "span")
    (spread
       [("data-slot", PStr "menubar-shortcut");
        ("className", cn [PStr "text-muted-foreground ml-auto text-xs tracking-widest"; className])]
       props)
    [].

Definition MenubarSub (ps : props) : pval :=
  jsx (el "MenubarPrimitive.Sub") (spread [("data-slot", PStr "menubar-sub")] ps) [].

Definition MenubarSubTrigger (ps : props) : pval :=
  let className := get "className" ps in
  let inset := get "inset" ps in
  let children := get "children" ps in
  let props := rest ["className"; "inset"; "children"] ps in
  jsx (el "MenubarPrimitive.SubTrigger")
    (spread
       [("data-slot", PStr "menubar-sub-trigger"); ("data-inset", inset);
        ("className",
          cn [PStr "focus:bg-accent focus:text-accent-foreground data-[state=open]:bg-accent data-[state=open]:text-accent-foreground flex cursor-default items-center rounded-sm px-2 py-1.5 text-sm outline-none select-none data-[inset]:pl-8";
              className])]
       props)
    [children; jsx (el "ChevronRightIcon") [("className", PStr "ml-auto h-4 w-4")] []].

Definition MenubarSubContent (ps : props) : pval :=
  let className := get "className" ps in
  let props := rest ["className"] ps in
  jsx (el "MenubarPrimitive.SubContent")
    (spread
       [("data-slot", PStr "menubar-sub-content");
        ("className",
          cn [PStr "bg-popover text-popover-foreground data-[state=open]:animate-in data-[state=closed]:animate-out data-[state=closed]:fade-out-0 data-[state=open]:fade-in-0 data-[state=closed]:zoom-out-95 data-[state=open]:zoom-in-95 data-[side=bottom]:slide-in-from-top-2 data-[side=left]:slide-in-from-right-2 data-[side=right]:slide-in-from-left-2 data-[side=top]:slide-in-from-bottom-2 z-50 min-w-[8rem] origin-(--radix-menubar-content-transform-origin) overflow-hidden rounded-md border p-1 shadow-lg";
              className])]
       props)
    [].

End Kit.
End menubar.

(** [navigation-menu.tsx] *)
Module navigation_menu.
Section Kit.
  Context `{Styling}.

Definition NavigationMenuList (ps : props) : pval :=
  let className := get "className" ps in
  let props := rest ["className"] ps in
  jsx (el "NavigationMenuPrimitive.List")
    (spread
       [("data-slot", PStr "navigation-menu-list");
        ("className",
          cn [PStr "group flex flex-1 list-none items-center justify-center gap-1"; className])]
       props)
    [].

Definition NavigationMenuItem (ps : props) : pval :=
  let className := get "className" ps in
  let props := rest ["className"] ps in
  jsx (el "NavigationMenuPrimitive.Item")
    (spread
       [("data-slot", PStr "navigation-menu-item"); ("className", cn [PStr "relative"; className])]
       props)
    [].

Definition navigationMenuTriggerStyle (given : props) : pval :=
  cva "group inline-flex h-9 w-max items-center justify-center rounded-md bg-background px-4 py-2 text-sm font-medium hover:bg-accent hover:text-accent-foreground focus:bg-accent focus:text-accent-foreground disabled:pointer-events-none disabled:opacity-50 data-[state=open]:hover:bg-accent data-[state=open]:text-accent-foreground data-[state=open]:focus:bg-accent data-[state=open]:bg-accent/50 focus-visible:ring-ring/50 outline-none transition-[color,box-shadow] focus-visible:ring-[3px] focus-visible:outline-1"
    no_variants given.

Definition NavigationMenuTrigger (ps : props) : pval :=
  let className := get "className" ps in
  let children := get "children" ps in
  let props := rest ["className"; "children"] ps in
  jsx (el "NavigationMenuPrimitive.Trigger")
    (spread
       [("data-slot", PStr "navigation-menu-trigger");
        ("className", cn [navigationMenuTriggerStyle []; PStr "group"; className])]
       props)
    [children; PStr " ";
     jsx (el "ChevronDownIcon")
       [("className", PStr "relative top-[1px] ml-1 size-3 transition duration-300 group-data-[state=open]:rotate-180");
        ("aria-hidden", PStr "true")]
       []].

Definition NavigationMenuContent (ps : props) : pval :=
  let className := get "className" ps in
  let props := rest ["className"] ps in
  jsx (el "NavigationMenuPrimitive.Content")
    (spread
       [("data-slot", PStr "navigation-menu-content");
        ("className",
          cn [PStr "data-[motion^=from-]:animate-in data-[motion^=to-]:animate-out data-[motion^=from-]:fade-in data-[motion^=to-]:fade-out data-[motion=from-end]:slide-in-from-right-52 data-[motion=from-start]:slide-in-from-left-52 data-[motion=to-end]:slide-out-to-right-52 data-[motion=to-start]:slide-out-to-left-52 top-0 left-0 w-full p-2 pr-2.5 md:absolute md:w-auto";
              PStr "group-data-[viewport=false]/navigation-menu:bg-popover group-data-[viewport=false]/navigation-menu:text-popover-foreground group-data-[viewport=false]/navigation-menu:data-[state=open]:animate-in group-data-[viewport=false]/navigation-menu:data-[state=closed]:animate-out group-data-[viewport=false]/navigation-menu:data-[state=closed]:zoom-out-95 group-data-[viewport=false]/navigation-menu:data-[state=open]:zoom-in-95 group-data-[viewport=false]/navigation-menu:data-[state=open]:fade-in-0 group-data-[viewport=false]/navigation-menu:data-[state=closed]:fade-out-0 group-data-[viewport=false]/navigation-menu:top-full group-data-[viewport=false]/navigation-menu:mt-1.5 group-data-[viewport=false]/navigation-menu:overflow-hidden group-data-[viewport=false]/navigation-menu:rounded-md group-data-[viewport=false]/navigation-menu:border group-data-[viewport=false]/navigation-menu:shadow group-data-[viewport=false]/navigation-menu:duration-200 **:data-[slot=navigation-menu-link]:focus:ring-0 **:data-[slot=navigation-menu-link]:focus:outline-none";
              className])]
       props)
    [].

Definition NavigationMenuViewport (ps : props) : pval :=
  let className := get "className" ps in
  let props := rest ["className"] ps in
  jsx (el "div") [("className", PStr "absolute top-full left-0 isolate z-50 flex justify-center")]
    [jsx (el "NavigationMenuPrimitive.Viewport")
       (spread
          [("data-slot", PStr "navigation-menu-viewport");
           ("className",
             cn [PStr "origin-top-center bg-popover text-popover-foreground data-[state=open]:animate-in data-[state=closed]:animate-out data-[state=closed]:zoom-out-95 data-[state=open]:zoom-in-90 relative mt-1.5 h-[var(--radix-navigation-menu-viewport-height)] w-full overflow-hidden rounded-md border shadow md:w-[var(--radix-navigation-menu-viewport-width)]";
                 className])]
          props)
       []].

Definition NavigationMenu (ps : props) : pval :=
  let className := get "className" ps in
  let children := get "children" ps in
  let viewport := default_to (get "viewport" ps) (PBool true) in
  let props := rest ["className"; "children"; "viewport"] ps in
  jsx (el "NavigationMenuPrimitive.Root")
    (spread
       [("data-slot", PStr "navigation-menu"); ("data-viewport", viewport);
        ("className",
          cn [PStr "group/navigation-menu relative flex max-w-max flex-1 items-center justify-center";
              className])]
       props)
    [children; and_ viewport (jsx NavigationMenuViewport [] [])].

Definition NavigationMenuLink (ps : props) : pval :=
  let className := get "className" ps in
  let props := rest ["className"] ps in
  jsx (el "NavigationMenuPrimitive.Link")
    (spread
       [("data-slot", PStr "navigation-menu-link");
        ("className",
          cn [PStr "data-[active=true]:focus:bg-accent data-[active=true]:hover:bg-accent data-[active=true]:bg-accent/50 data-[active=true]:text-accent-foreground hover:bg-accent hover:text-accent-foreground focus:bg-accent focus:text-accent-foreground focus-visible:ring-ring/50 [&_svg:not([class*='text-'])]:text-muted-foreground flex flex-col gap-1 rounded-sm p-2 text-sm transition-all outline-none focus-visible:ring-[3px] focus-visible:outline-1 [&_svg:not([class*='size-'])]:size-4";
              className])]
       props)
    [].

Definition NavigationMenuIndicator (ps : props) : pval :=
  let className := get "className" ps in
  let props := rest ["className"] ps in
  jsx (el "NavigationMenuPrimitive.Indicator")
    (spread
       [("data-slot", PStr "navigation-menu-indicator");
        ("className",
          cn [PStr "data-[state=visible]:animate-in data-[state=hidden]:animate-out data-[state=hidden]:fade-out data-[state=visible]:fade-in top-full z-[1] flex h-1.5 items-end justify-center overflow-hidden";
              className])]
       props)
    [jsx (el "div")
       [("className", PStr "bg-border relative top-[60%] h-2 w-2 rotate-45 rounded-tl-sm shadow-md")]
       []].

End Kit.
End navigation_menu.

(** [select.tsx] *)
Module select.
Section Kit.
  Context `{Styling}.

Definition Select (ps : props) : pval :=
  jsx (el "SelectPrimitive.Root") (spread [("data-slot", PStr "select")] ps) [].

Definition SelectGroup (ps : props) : pval :=
  jsx (el "SelectPrimitive.Group") (spread [("data-slot", PStr "select-group")] ps) [].

Definition SelectValue (ps : props) : pval :=
  jsx (el "SelectPrimitive.Value") (spread [("data-slot", PStr "select-value")] ps) [].

Definition SelectTrigger (ps : props) : pval :=
  let className := get "className" ps in
  let size := default_to (get "size" ps) (PStr "default") in
  let children := get "children" ps in
  let props := rest ["className"; "size"; "children"] ps in
  jsx (el "SelectPrimitive.Trigger")
    (spread
       [("data-slot", PStr "select-trigger"); ("data-size", size);
        ("className",
          cn [PStr "border-input data-[placeholder]:text-muted-foreground [&_svg:not([class*='text-'])]:text-muted-foreground focus-visible:border-ring focus-visible:ring-ring/50 aria-invalid:ring-destructive/20 dark:aria-invalid:ring-destructive/40 aria-invalid:border-destructive dark:bg-input/30 dark:hover:bg-input/50 flex w-fit items-center justify-between gap-2 rounded-md border bg-transparent px-3 py-2 text-sm whitespace-nowrap shadow-xs transition-[color,box-shadow] outline-none focus-visible:ring-[3px] disabled:cursor-not-allowed disabled:opacity-50 data-[size=default]:h-9 data-[size=sm]:h-8 *:data-[slot=select-value]:line-clamp-1 *:data-[slot=select-value]:flex *:data-[slot=select-value]:items-center *:data-[slot=select-value]:gap-2 [&_svg]:pointer-events-none [&_svg]:shrink-0 [&_svg:not([class*='size-'])]:size-4";
              className])]
       props)
    [children;
     jsx (el "SelectPrimitive.Icon") [("asChild", PBool true)]
       [jsx (el "ChevronDownIcon") [("className", PStr "size-4 opacity-50")] []]].

Definition SelectLabel (ps : props) : pval :=
  let className := get "className" ps in
  let props := rest ["className"] ps in
  jsx (el "SelectPrimitive.Label")
    (spread
       [("data-slot", PStr "select-label");
        ("className", cn [PStr "text-muted-foreground px-2 py-1.5 text-xs"; className])]
       props)
    [].

Definition SelectItem (ps : props) : pval :=
  let className := get "className" ps in
  let children := get "children" ps in
  let props := rest ["className"; "children"] ps in
  jsx (el "SelectPrimitive.Item")
    (spread
       [("data-slot", PStr "select-item");
        ("className",
          cn [PStr "focus:bg-accent focus:text-accent-foreground [&_svg:not([class*='text-'])]:text-muted-foreground relative flex w-full cursor-default items-center gap-2 rounded-sm py-1.5 pr-8 pl-2 text-sm outline-hidden select-none data-[disabled]:pointer-events-none data-[disabled]:opacity-50 [&_svg]:pointer-events-none [&_svg]:shrink-0 [&_svg:not([class*='size-'])]:size-4 *:[span]:last:flex *:[span]:last:items-center *:[span]:last:gap-2";
              className])]
       props)
    [jsx (el "span")
       [("className", PStr "absolute right-2 flex size-3.5 items-center justify-center")]
       [jsx (el "SelectPrimitive.ItemIndicator") []
          [jsx (el "CheckIcon") [("className", PStr "size-4")] []]];
     jsx (el "SelectPrimitive.ItemText") [] [children]].

Definition SelectSeparator (ps : props) : pval :=
  let className := get "className" ps in
  let props := rest ["className"] ps in
  jsx (el "SelectPrimitive.Separator")
    (spread
       [("data-slot", PStr "select-separator");
        ("className", cn [PStr "bg-border pointer-events-none -mx-1 my-1 h-px"; className])]
       props)
    [].

Definition SelectScrollUpButton (ps : props) : pval :=
  let className := get "className" ps in
  let props := rest ["className"] ps in
  jsx (el "SelectPrimitive.ScrollUpButton")
    (spread
       [("data-slot", PStr "select-scroll-up-button");
        ("className", cn [PStr "flex cursor-default items-center justify-center py-1"; className])]
       props)
    [jsx (el "ChevronUpIcon") [("className", PStr "size-4")] []].

Definition SelectScrollDownButton (ps : props) : pval :=
  let className := get "className" ps in
  let props := rest ["className"] ps in
  jsx (el "SelectPrimitive.ScrollDownButton")
    (spread
       [("data-slot", PStr "select-scroll-down-button");
        ("className", cn [PStr "flex cursor-default items-center justify-center py-1"; className])]
       props)
    [jsx (el "ChevronDownIcon") [("className", PStr "size-4")] []].

Definition SelectContent (ps : props) : pval :=
  let className := get "className" ps in
  let children := get "children" ps in
  let position := default_to (get "position" ps) (PStr "popper") in
  let props := rest ["className"; "children"; "position"] ps in
  jsx (el "SelectPrimitive.Portal") []
    [jsx (el "SelectPrimitive.Content")
       (spread
          [("data-slot", PStr "select-content");
           ("className",
             cn [PStr "bg-popover text-popover-foreground data-[state=open]:animate-in data-[state=closed]:animate-out data-[state=closed]:fade-out-0 data-[state=open]:fade-in-0 data-[state=closed]:zoom-out-95 data-[state=open]:zoom-in-95 data-[side=bottom]:slide-in-from-top-2 data-[side=left]:slide-in-from-right-2 data-[side=right]:slide-in-from-left-2 data-[side=top]:slide-in-from-bottom-2 relative z-50 max-h-(--radix-select-content-available-height) min-w-[8rem] origin-(--radix-select-content-transform-origin) overflow-x-hidden overflow-y-auto rounded-md border shadow-md";
                 and_ (PBool (is_str position "popper"))
                   (PStr "data-[side=bottom]:translate-y-1 data-[side=left]:-translate-x-1 data-[side=right]:translate-x-1 data-[side=top]:-translate-y-1");
                 className]); ("position", position)]
          props)
       [jsx SelectScrollUpButton [] [];
        jsx (el "SelectPrimitive.Viewport")
          [("className",
             cn [PStr "p-1";
                 and_ (PBool (is_str position "popper"))
                   (PStr "h-[var(--radix-select-trigger-height)] w-full min-w-[var(--radix-select-trigger-width)] scroll-my-1")])]
          [children]; jsx SelectScrollDownButton [] []]].

End Kit.
End select.

(** [toast.tsx] *)
Module toast.
Section Kit.
  Context `{Styling}.

Definition ToastProvider : props → pval := el "ToastPrimitives.Provider".

Definition ToastViewport (ps : props) : pval :=
  let className := get "className" ps in
  let ref := get "ref" ps in
  let props := rest ["className"; "ref"] ps in
  jsx (el "ToastPrimitives.Viewport")
    (spread
       [("ref", ref);
        ("className",
          cn [PStr "fixed top-0 z-[100] flex max-h-screen w-full flex-col-reverse p-4 sm:bottom-0 sm:right-0 sm:top-auto sm:flex-col md:max-w-[420px]";
              className])]
       props)
    [].

Definition toastVariants (given : props) : pval :=
  cva "group pointer-events-auto relative flex w-full items-center justify-between space-x-4 overflow-hidden rounded-md border p-6 pr-8 shadow-lg transition-all data-[swipe=cancel]:translate-x-0 data-[swipe=end]:translate-x-[var(--radix-toast-swipe-end-x)] data-[swipe=move]:translate-x-[var(--radix-toast-swipe-move-x)] data-[swipe=move]:transition-none data-[state=open]:animate-in data-[state=closed]:animate-out data-[swipe=end]:animate-out data-[state=closed]:fade-out-80 data-[state=closed]:slide-out-to-right-full data-[state=open]:slide-in-from-top-full data-[state=open]:sm:slide-in-from-bottom-full"
    (mkVariants
    [("variant", [("default", PStr "border bg-background text-foreground");
                  ("destructive", PStr "destructive group border-destructive bg-destructive text-destructive-foreground")])]
    [("variant", "default")]) given.

Definition Toast (ps : props) : pval :=
  let className := get "className" ps in
  let variant := get "variant" ps in
  let ref := get "ref" ps in
  let props := rest ["className"; "variant"; "ref"] ps in
  jsx (el "ToastPrimitives.Root")
    (spread [("ref", ref); ("className", cn [toastVariants [("variant", variant)]; className])]
       props)
    [].

Definition ToastAction (ps : props) : pval :=
  let className := get "className" ps in
  let ref := get "ref" ps in
  let props := rest ["className"; "ref"] ps in
  jsx (el "ToastPrimitives.Action")
    (spread
       [("ref", ref);
        ("className",
          cn [PStr "inline-flex h-8 shrink-0 items-center justify-center rounded-md border bg-transparent px-3 text-sm font-medium ring-offset-background transition-colors hover:bg-secondary focus:outline-none focus:ring-2 focus:ring-ring focus:ring-offset-2 disabled:pointer-events-none disabled:opacity-50 group-[.destructive]:border-muted/40 group-[.destructive]:hover:border-destructive/30 group-[.destructive]:hover:bg-destructive group-[.destructive]:hover:text-destructive-foreground group-[.destructive]:focus:ring-destructive";
              className])]
       props)
    [].

Definition ToastClose (ps : props) : pval :=
  let className := get "className" ps in
  let ref := get "ref" ps in
  let props := rest ["className"; "ref"] ps in
  jsx (el "ToastPrimitives.Close")
    (spread
       [("ref", ref);
        ("className",
          cn [PStr "absolute right-2 top-2 rounded-md p-1 text-foreground/50 opacity-0 transition-opacity hover:text-foreground focus:opacity-100 focus:outline-none focus:ring-2 group-hover:opacity-100 group-[.destructive]:text-red-300 group-[.destructive]:hover:text-red-50 group-[.destructive]:focus:ring-red-400 group-[.destructive]:focus:ring-offset-red-600";
              className]); ("toast-close", PStr "")]
       props)
    [jsx (el "X") [("className", PStr "h-4 w-4")] []].

Definition ToastTitle (ps : props) : pval :=
  let className := get "className" ps in
  let ref := get "ref" ps in
  let props := rest ["className"; "ref"] ps in
  jsx (el "ToastPrimitives.Title")
    (spread [("ref", ref); ("className", cn [PStr "text-sm font-semibold"; className])] props)
    [].

Definition ToastDescription (ps : props) : pval :=
  let className := get "className" ps in
  let ref := get "ref" ps in
  let props := rest ["className"; "ref"] ps in
  jsx (el "ToastPrimitives.Description")
    (spread [("ref", ref); ("className", cn [PStr "text-sm opacity-90"; className])] props)
    [].

End Kit.
End toast.

(** [toaster.tsx] *)
Module toaster.
Section Kit.
  Context `{Styling}.

(** [toasts] is what [useToast] gives, the most recent first. *)
Definition Toaster_toast (t : pval) : pval :=
  let title := member t "title" in
  let description := member t "description" in
  let action := member t "action" in
  let props := rest ["id"; "title"; "description"; "action"] (members t) in
  jsx toast.Toast props
    [jsx (el "div") [("className", PStr "grid gap-1")]
       [and_ title (jsx toast.ToastTitle [] [title]);
        and_ description (jsx toast.ToastDescription [] [description])];
     action; jsx toast.ToastClose [] []].

Definition Toaster (toasts : list pval) : pval :=
  jsx toast.ToastProvider []
    [PArr (Toaster_toast <$> toasts); jsx toast.ToastViewport [] []].

End Kit.
End toaster.

(** [sonner.tsx] *)
Module sonner.
Section Kit.
  Context `{Styling}.

(** [context] is what [useTheme] gives. *)
Definition Toaster (context : props) (ps : props) : pval :=
  let theme := default_to (get "theme" context) (PStr "system") in
  jsx (el "Sonner")
    (spread
       [("theme", theme); ("className", PStr "toaster group");
        ("style",
          PObj [("--normal-bg", PStr "var(--popover)");
                ("--normal-text", PStr "var(--popover-foreground)");
                ("--normal-border", PStr "var(--border)")])]
       ps)
    [].

End Kit.
End sonner.
