(* ===== verification/KitWidgets.v ===== *)
(** * The UI kit: forms, carousel, charts and calendar

    [components/ui/field.tsx], [form.tsx], [carousel.tsx], [chart.tsx] and [calendar.tsx]. *)

From S2P Require Import Prelude JsString Jsx KitBasic.

From Stdlib Require Import Ascii ZArith.

(** [field.tsx] *)
Module field.
Section Kit.
  Context `{Styling}.

Definition FieldSet (ps : props) : pval :=
  let className := get "className" ps in
  let props := rest ["className"] ps in
  jsx (el "fieldset")
    (spread
       [("data-slot", PStr "field-set");
        ("className",
          cn [PStr "flex flex-col gap-6";
              PStr "has-[>[data-slot=checkbox-group]]:gap-3 has-[>[data-slot=radio-group]]:gap-3";
              className])]
       props)
    [].

Definition FieldLegend (ps : props) : pval :=
  let className := get "className" ps in
  let variant := default_to (get "variant" ps) (PStr "legend") in
  let props := rest ["className"; "variant"] ps in
  jsx (el "legend")
    (spread
       [("data-slot", PStr "field-legend"); ("data-variant", variant);
        ("className",
          cn [PStr "mb-3 font-medium"; PStr "data-[variant=legend]:text-base";
              PStr "data-[variant=label]:text-sm"; className])]
       props)
    [].

Definition FieldGroup (ps : props) : pval :=
  let className := get "className" ps in
  let props := rest ["className"] ps in
  jsx (el "div")
    (spread
       [("data-slot", PStr "field-group");
        ("className",
          cn [PStr "group/field-group @container/field-group flex w-full flex-col gap-7 data-[slot=checkbox-group]:gap-3 [&>[data-slot=field-group]]:gap-4";
              className])]
       props)
    [].

Definition fieldVariants (given : props) : pval :=
  cva "group/field flex w-full gap-3 data-[invalid=true]:text-destructive"
    (mkVariants
    [("orientation", [("vertical", PArr [PStr "flex-col [&>*]:w-full [&>.sr-only]:w-auto"]);
                      ("horizontal",
                        PArr [PStr "flex-row items-center";
                              PStr "[&>[data-slot=field-label]]:flex-auto";
                              PStr "has-[>[data-slot=field-content]]:items-start has-[>[data-slot=field-content]]:[&>[role=checkbox],[role=radio]]:mt-px"]);
                      ("responsive",
                        PArr [PStr "flex-col [&>*]:w-full [&>.sr-only]:w-auto @md/field-group:flex-row @md/field-group:items-center @md/field-group:[&>*]:w-auto";
                              PStr "@md/field-group:[&>[data-slot=field-label]]:flex-auto";
                              PStr "@md/field-group:has-[>[data-slot=field-content]]:items-start @md/field-group:has-[>[data-slot=field-content]]:[&>[role=checkbox],[role=radio]]:mt-px"])])]
    [("orientation", "vertical")]) given.

Definition Field (ps : props) : pval :=
  let className := get "className" ps in
  let orientation := default_to (get "orientation" ps) (PStr "vertical") in
  let props := rest ["className"; "orientation"] ps in
  jsx (el "div")
    (spread
       [("role", PStr "group"); ("data-slot", PStr "field"); ("data-orientation", orientation);
        ("className", cn [fieldVariants [("orientation", orientation)]; className])]
       props)
    [].

Definition FieldContent (ps : props) : pval :=
  let className := get "className" ps in
  let props := rest ["className"] ps in
  jsx (el "div")
    (spread
       [("data-slot", PStr "field-content");
        ("className",
          cn [PStr "group/field-content flex flex-1 flex-col gap-1.5 leading-snug"; className])]
       props)
    [].

Definition FieldLabel (ps : props) : pval :=
  let className := get "className" ps in
  let props := rest ["className"] ps in
  jsx label.Label
    (spread
       [("data-slot", PStr "field-label");
        ("className",
          cn [PStr "group/field-label peer/field-label flex w-fit gap-2 leading-snug group-data-[disabled=true]/field:opacity-50";
              PStr "has-[>[data-slot=field]]:w-full has-[>[data-slot=field]]:flex-col has-[>[data-slot=field]]:rounded-md has-[>[data-slot=field]]:border [&>*]:data-[slot=field]:p-4";
              PStr "has-data-[state=checked]:bg-primary/5 has-data-[state=checked]:border-primary dark:has-data-[state=checked]:bg-primary/10";
              className])]
       props)
    [].

Definition FieldTitle (ps : props) : pval :=
  let className := get "className" ps in
  let props := rest ["className"] ps in
  jsx (el "div")
    (spread
       [("data-slot", PStr "field-label");
        ("className",
          cn [PStr "flex w-fit items-center gap-2 text-sm leading-snug font-medium group-data-[disabled=true]/field:opacity-50";
              className])]
       props)
    [].

Definition FieldDescription (ps : props) : pval :=
  let className := get "className" ps in
  let props := rest ["className"] ps in
  jsx (el "p")
    (spread
       [("data-slot", PStr "field-description");
        ("className",
          cn [PStr "text-muted-foreground text-sm leading-normal font-normal group-has-[[data-orientation=horizontal]]/field:text-balance";
              PStr "last:mt-0 nth-last-2:-mt-1 [[data-variant=legend]+&]:-mt-1.5";
              PStr "[&>a:hover]:text-primary [&>a]:underline [&>a]:underline-offset-4"; className])]
       props)
    [].

Definition FieldSeparator (ps : props) : pval :=
  let children := get "children" ps in
  let className := get "className" ps in
  let props := rest ["children"; "className"] ps in
  jsx (el "div")
    (spread
       [("data-slot", PStr "field-separator");
        ("data-content", PBool (negb (negb (truthy children))));
        ("className",
          cn [PStr "relative -my-2 h-5 text-sm group-data-[variant=outline]/field-group:-mb-2";
              className])]
       props)
    [jsx separator.Separator [("className", PStr "absolute inset-0 top-1/2")] [];
     and_ children
       (jsx (el "span")
          [("className", PStr "bg-background text-muted-foreground relative mx-auto block w-fit px-2");
           ("data-slot", PStr "field-separator-content")]
          [children])].

Definition FieldError_item (error : pval) : pval :=
  and_ (member error "message") (jsx (el "li") [] [member error "message"]).

Definition FieldError_content (children errors : pval) : pval :=
  if truthy children then children
  else if negb (truthy errors) then PNull
  else if bool_decide (length (elements errors) = 1) &&
          truthy (member (item_at errors (PNum 0)) "message")
  then member (item_at errors (PNum 0)) "message"
  else jsx (el "ul") [("className", PStr "ml-4 flex list-disc flex-col gap-1")]
         [PArr (FieldError_item <$> elements errors)].

Definition FieldError (ps : props) : pval :=
  let className := get "className" ps in
  let children := get "children" ps in
  let errors := get "errors" ps in
  let props := rest ["className"; "children"; "errors"] ps in
  let content := FieldError_content children errors in
  if negb (truthy content) then
  PNull
  else
  jsx (el "div")
    (spread
       [("role", PStr "alert"); ("data-slot", PStr "field-error");
        ("className", cn [PStr "text-destructive text-sm font-normal"; className])]
       props)
    [content].

End Kit.
End field.

(** [form.tsx] *)
Module form.
Section Kit.
  Context `{Styling}.

Definition Form : props → pval := el "FormProvider".

Definition FormFieldContext : pval := PObj [].

Definition FormField (ps : props) : pval :=
  jsx (el "FormFieldContext.Provider") [("value", PObj [("name", get "name" ps)])]
    [jsx (el "Controller") ps []].

(** The state of a field of this name is that of [react-hook-form]. *)
Definition useFormField (getFieldState : pval → props) (fieldContext itemContext : pval) :
  outcome props :=
  match fieldContext with
  | PUndef | PNull => Throw TypeError
  | _ =>
      let fieldState := getFieldState (member fieldContext "name") in
      if negb (truthy fieldContext)
      then Throw (JsError "useFormField should be used within <FormField>")
      else
        match itemContext with
        | PUndef | PNull => Throw TypeError
        | _ =>
            let id := member itemContext "id" in
            Ok (spread
              [("id", id); ("name", member fieldContext "name");
               ("formItemId", PStr (text id +:+ "-form-item"));
               ("formDescriptionId", PStr (text id +:+ "-form-item-description"));
               ("formMessageId", PStr (text id +:+ "-form-item-message"))]
              fieldState)
        end
  end.

Definition FormItemContext : pval := PObj [].

(** [id] is what [React.useId] gives. *)
Definition FormItem (id : string) (ps : props) : pval :=
  let className := get "className" ps in
  let props := rest ["className"] ps in
  jsx (el "FormItemContext.Provider") [("value", PObj [("id", PStr id)])]
    [jsx (el "div")
       (spread [("data-slot", PStr "form-item"); ("className", cn [PStr "grid gap-2"; className])]
          props)
       []].

Definition FormLabel (context : props) (ps : props) : pval :=
  let className := get "className" ps in
  let props := rest ["className"] ps in
  let error := get "error" context in
  let formItemId := get "formItemId" context in
  jsx label.Label
    (spread
       [("data-slot", PStr "form-label"); ("data-error", PBool (negb (negb (truthy error))));
        ("className", cn [PStr "data-[error=true]:text-destructive"; className]);
        ("htmlFor", formItemId)]
       props)
    [].

Definition FormControl (context : props) (ps : props) : pval :=
  let error := get "error" context in
  let formItemId := get "formItemId" context in
  let formDescriptionId := get "formDescriptionId" context in
  let formMessageId := get "formMessageId" context in
  jsx (el "Slot")
    (spread
       [("data-slot", PStr "form-control"); ("id", formItemId);
        ("aria-describedby",
          if negb (truthy error)
          then PStr (text formDescriptionId)
          else PStr (text formDescriptionId +:+ " " +:+ text formMessageId));
        ("aria-invalid", PBool (negb (negb (truthy error))))]
       ps)
    [].

Definition FormDescription (context : props) (ps : props) : pval :=
  let className := get "className" ps in
  let props := rest ["className"] ps in
  let formDescriptionId := get "formDescriptionId" context in
  jsx (el "p")
    (spread
       [("data-slot", PStr "form-description"); ("id", formDescriptionId);
        ("className", cn [PStr "text-muted-foreground text-sm"; className])]
       props)
    [].

Definition FormMessage (context : props) (ps : props) : pval :=
  let className := get "className" ps in
  let props := rest ["className"] ps in
  let error := get "error" context in
  let formMessageId := get "formMessageId" context in
  let body := if truthy error
          then PStr (text (nullish (member error "message") (PStr "")))
          else get "children" props in
  if negb (truthy body) then
  PNull
  else
  jsx (el "p")
    (spread
       [("data-slot", PStr "form-message"); ("id", formMessageId);
        ("className", cn [PStr "text-destructive text-sm"; className])]
       props)
    [body].

End Kit.
End form.

(** [carousel.tsx] *)
Module carousel.
Section Kit.
  Context `{Styling}.

Definition useCarousel (context : option props) : outcome props :=
  match context with
  | Some c => Ok c
  | None => Throw (JsError "useCarousel must be used within a <Carousel />")
  end.

(** *** The state: [api] is the object of the library, by name, once there is one *)

Record state := mkState {
  api : option string;
  canScrollPrev : bool;
  canScrollNext : bool;
  listeners : list (string * string) }.   (* [onSelect] listens to this object and event *)

Definition initial : state := mkState None false false [].

(** [w]: what the objects of the library say of themselves. *)
Definition onSelect (w : string → bool * bool) (a : option string) (s : state) : state :=
  match a with
  | None => s
  | Some a => mkState (api s) (w a).1 (w a).2 (listeners s)
  end.

Definition api_on (a event : string) (s : state) : state :=
  mkState (api s) (canScrollPrev s) (canScrollNext s) ((a, event) :: listeners s).

(** The first listener of this object and event is removed. *)
Fixpoint drop_listener (x : string * string) (l : list (string * string)) : list (string * string) :=
  match l with
  | [] => []
  | y :: l' => if bool_decide (y = x) then l' else y :: drop_listener x l'
  end.
Definition api_off (a event : string) (s : state) : state :=
  mkState (api s) (canScrollPrev s) (canScrollNext s) (drop_listener (a, event) (listeners s)).

(** The effect of the object, and what it undoes. *)
Definition effect (w : string → bool * bool) (s : state) : state :=
  match api s with
  | None => s
  | Some a => api_on a "select" (api_on a "reInit" (onSelect w (Some a) s))
  end.
Definition cleanup (a : option string) (s : state) : state :=
  match a with None => s | Some a => api_off a "select" s end.

(** The hook of the library returns another object: the effects run again. *)
Definition set_api (w : string → bool * bool) (a : option string) (s : state) : state :=
  if bool_decide (api s = a) then s
  else
    let s' := cleanup (api s) s in
    effect w (mkState a (canScrollPrev s') (canScrollNext s') (listeners s')).

(** An object of the library emits an event. *)
Definition emits (w : string → bool * bool) (a event : string) (s : state) : state :=
  if bool_decide ((a, event) ∈ listeners s) then onSelect w (Some a) s else s.

(** *** The keys: the method of [api] that is called, and whether the default is prevented *)

Definition scrollPrev (s : state) : option (string * string) := (λ a, (a, "scrollPrev")) <$> api s.
Definition scrollNext (s : state) : option (string * string) := (λ a, (a, "scrollNext")) <$> api s.
Definition handleKeyDown (s : state) (key : string) : option (string * string) * bool :=
  if bool_decide (key = "ArrowLeft") then (scrollPrev s, true)
  else if bool_decide (key = "ArrowRight") then (scrollNext s, true)
  else (None, false).

(** *** What it renders *)

(** What the library is asked for. *)
Definition embla_options (orientation opts : pval) : pval :=
  PObj (spread (members opts)
    [("axis", if is_str orientation "horizontal" then PStr "x" else PStr "y")]).

Definition contextValue (orientation opts carouselRef : pval) (s : state) : props :=
  [("carouselRef", carouselRef);
   ("api", match api s with Some a => PStr a | None => PUndef end);
   ("opts", opts);
   ("orientation",
     or_ orientation
       (if is_str (member opts "axis") "y" then PStr "vertical" else PStr "horizontal"));
   ("scrollPrev", PFun ["scrollPrev"]); ("scrollNext", PFun ["scrollNext"]);
   ("canScrollPrev", PBool (canScrollPrev s)); ("canScrollNext", PBool (canScrollNext s))].

Definition Carousel (carouselRef : pval) (s : state) (ps : props) : pval :=
  let orientation := default_to (get "orientation" ps) (PStr "horizontal") in
  let opts := get "opts" ps in
  let className := get "className" ps in
  let children := get "children" ps in
  let props :=
    rest ["orientation"; "opts"; "setApi"; "plugins"; "className"; "children"] ps in
  jsx (el "CarouselContext.Provider")
    [("value", PObj (contextValue orientation opts carouselRef s))]
    [jsx (el "div")
       (spread
          [("onKeyDownCapture", PFun ["handleKeyDown"]);
           ("className", cn [PStr "relative"; className]); ("role", PStr "region");
           ("aria-roledescription", PStr "carousel"); ("data-slot", PStr "carousel")]
          props)
       [children]].

Definition CarouselContent (context : props) (ps : props) : pval :=
  let className := get "className" ps in
  let props := rest ["className"] ps in
  let carouselRef := get "carouselRef" context in
  let orientation := get "orientation" context in
  jsx (el "div")
    [("ref", carouselRef); ("className", PStr "overflow-hidden");
     ("data-slot", PStr "carousel-content")]
    [jsx (el "div")
       (spread
          [("className",
             cn [PStr "flex";
                 if is_str orientation "horizontal" then PStr "-ml-4" else PStr "-mt-4 flex-col";
                 className])]
          props)
       []].

Definition CarouselItem (context : props) (ps : props) : pval :=
  let className := get "className" ps in
  let props := rest ["className"] ps in
  let orientation := get "orientation" context in
  jsx (el "div")
    (spread
       [("role", PStr "group"); ("aria-roledescription", PStr "slide");
        ("data-slot", PStr "carousel-item");
        ("className",
          cn [PStr "min-w-0 shrink-0 grow-0 basis-full";
              if is_str orientation "horizontal" then PStr "pl-4" else PStr "pt-4"; className])]
       props)
    [].

Definition CarouselPrevious (context : props) (ps : props) : pval :=
  let className := get "className" ps in
  let variant := default_to (get "variant" ps) (PStr "outline") in
  let size := default_to (get "size" ps) (PStr "icon") in
  let props := rest ["className"; "variant"; "size"] ps in
  let orientation := get "orientation" context in
  let scrollPrev := get "scrollPrev" context in
  let canScrollPrev := get "canScrollPrev" context in
  jsx button.Button
    (spread
       [("data-slot", PStr "carousel-previous"); ("variant", variant); ("size", size);
        ("className",
          cn [PStr "absolute size-8 rounded-full";
              if is_str orientation "horizontal"
              then PStr "top-1/2 -left-12 -translate-y-1/2"
              else PStr "-top-12 left-1/2 -translate-x-1/2 rotate-90"; className]);
        ("disabled", PBool (negb (truthy canScrollPrev))); ("onClick", scrollPrev)]
       props)
    [jsx (el "ArrowLeft") [] [];
     jsx (el "span") [("className", PStr "sr-only")] [PStr "Previous slide"]].

Definition CarouselNext (context : props) (ps : props) : pval :=
  let className := get "className" ps in
  let variant := default_to (get "variant" ps) (PStr "outline") in
  let size := default_to (get "size" ps) (PStr "icon") in
  let props := rest ["className"; "variant"; "size"] ps in
  let orientation := get "orientation" context in
  let scrollNext := get "scrollNext" context in
  let canScrollNext := get "canScrollNext" context in
  jsx button.Button
    (spread
       [("data-slot", PStr "carousel-next"); ("variant", variant); ("size", size);
        ("className",
          cn [PStr "absolute size-8 rounded-full";
              if is_str orientation "horizontal"
              then PStr "top-1/2 -right-12 -translate-y-1/2"
              else PStr "-bottom-12 left-1/2 -translate-x-1/2 rotate-90"; className]);
        ("disabled", PBool (negb (truthy canScrollNext))); ("onClick", scrollNext)]
       props)
    [jsx (el "ArrowRight") [] [];
     jsx (el "span") [("className", PStr "sr-only")] [PStr "Next slide"]].

End Kit.
End carousel.

(** [chart.tsx] *)
Module chart.
Section Kit.
  Context `{Styling}.

Definition THEMES : list (string * string) := [("light", ""); ("dark", ".dark")].

Definition useChart (context : option props) : outcome props :=
  match context with
  | Some c => Ok c
  | None => Throw (JsError "useChart must be used within a <ChartContainer />")
  end.

Definition newline : string := String (ascii_of_nat 10) "".

Definition colorConfig (config : props) : props :=
  filter (λ f, truthy (or_ (member f.2 "theme") (member f.2 "color")) = true) config.

(** The line of one member of the configuration; [null] becomes an empty line. *)
Definition color_line (theme : string) (f : string * pval) : string :=
  let color := or_ (member (member f.2 "theme") theme) (member f.2 "color") in
  if truthy color then "  --color-" +:+ f.1 +:+ ": " +:+ text color +:+ ";" else "".

Definition theme_block (id : pval) (colors : props) (t : string * string) : string :=
  newline +:+ t.2 +:+ " [data-chart=" +:+ text id +:+ "] {" +:+ newline +:+
  join_with newline (color_line t.1 <$> colors) +:+ newline +:+ "}" +:+ newline.

Definition ChartStyle (id : pval) (config : props) : pval :=
  let colorConfig := colorConfig config in
  match colorConfig with
  | [] => PNull
  | _ =>
      jsx (el "style")
        [("dangerouslySetInnerHTML",
           PObj [("__html", PStr (join_with newline (theme_block id colorConfig <$> THEMES)))])]
        []
  end.

(** [s.replace(/:/g, '')] *)
Definition without_colons (s : string) : string :=
  of_list (filter (λ c, bool_decide (c = ":"%char) = false) (to_list s)).

(** [uniqueId] is what [React.useId] gives. *)
Definition chartId (uniqueId : string) (id : pval) : string :=
  "chart-" +:+ text (or_ id (PStr (without_colons uniqueId))).

Definition ChartContainer (uniqueId : string) (ps : props) : pval :=
  let id := get "id" ps in
  let className := get "className" ps in
  let children := get "children" ps in
  let config := get "config" ps in
  let props := rest ["id"; "className"; "children"; "config"] ps in
  let chartId := PStr (chartId uniqueId id) in
  jsx (el "ChartContext.Provider") [("value", PObj [("config", config)])]
    [jsx (el "div")
       (spread
          [("data-slot", PStr "chart"); ("data-chart", chartId);
           ("className",
             cn [PStr "[&_.recharts-cartesian-axis-tick_text]:fill-muted-foreground [&_.recharts-cartesian-grid_line[stroke='#ccc']]:stroke-border/50 [&_.recharts-curve.recharts-tooltip-cursor]:stroke-border [&_.recharts-polar-grid_[stroke='#ccc']]:stroke-border [&_.recharts-radial-bar-background-sector]:fill-muted [&_.recharts-rectangle.recharts-tooltip-cursor]:fill-muted [&_.recharts-reference-line_[stroke='#ccc']]:stroke-border flex aspect-video justify-center text-xs [&_.recharts-dot[stroke='#fff']]:stroke-transparent [&_.recharts-layer]:outline-hidden [&_.recharts-sector]:outline-hidden [&_.recharts-sector[stroke='#fff']]:stroke-transparent [&_.recharts-surface]:outline-hidden";
                 className])]
          props)
       [ChartStyle chartId (members config);
        jsx (el "RechartsPrimitive.ResponsiveContainer") [] [children]]].

Definition ChartTooltip : props → pval := el "RechartsPrimitive.Tooltip".

Definition ChartLegend : props → pval := el "RechartsPrimitive.Legend".

(** What every object inherits. *)
Definition inherited : list string :=
  ["constructor"; "hasOwnProperty"; "isPrototypeOf"; "propertyIsEnumerable"; "toLocaleString";
   "toString"; "valueOf"; "__defineGetter__"; "__defineSetter__"; "__lookupGetter__";
   "__lookupSetter__"; "__proto__"].

(** [k in l] and [l[k]] *)
Definition has_key (k : string) (l : props) : bool :=
  bool_decide (k ∈ l.*1) || bool_decide (k ∈ inherited).
Definition at_key (k : string) (l : props) : pval :=
  match assoc_prop k l with
  | Some v => v
  | None =>
      if bool_decide (k = "__proto__") then PObj []
      else if bool_decide (k ∈ inherited) then PFun [k] else PUndef
  end.

Definition is_string (v : pval) : bool := match v with PStr _ => true | _ => false end.

(** [typeof v === 'object' && v !== null]; no member of an array or of an element that is
    looked up below is a string. *)
Definition is_object (v : pval) : bool :=
  match v with PObj _ | PArr _ | PElem _ _ => true | _ => false end.

Definition getPayloadConfigFromPayload (config : props) (payload : pval) (key : string) : pval :=
  if is_object payload then
      let p := members payload in
      let payloadPayload :=
        if is_object (at_key "payload" p) then Some (members (at_key "payload" p)) else None in
      let configLabelKey :=
        if has_key key p && is_string (at_key key p) then text (at_key key p)
        else
          match payloadPayload with
          | Some pp => if has_key key pp && is_string (at_key key pp) then text (at_key key pp) else key
          | None => key
          end in
      if has_key configLabelKey config then at_key configLabelKey config else at_key key config
  else PUndef.

(** [label[k]] and [x?.k] of a member of the configuration, a function included. *)
Definition label_of (v : pval) : pval := member v "label".

(** The component that a value of type [React.ComponentType] is. *)
Definition component_of (v : pval) : props → pval :=
  match v with PFun (n :: _) => el n | _ => el "" end.

Definition tooltipLabel (config : props) (ps : props)
  (labelFormatter : option (pval → pval → pval)) : pval :=
  let payload := get "payload" ps in
  let hideLabel := default_to (get "hideLabel" ps) (PBool false) in
  let label := get "label" ps in
  let labelClassName := get "labelClassName" ps in
  let labelKey := get "labelKey" ps in
  if truthy hideLabel || bool_decide (elements payload = []) then PNull
  else
    let item := item_at payload (PNum 0) in
    let key := text (or_ labelKey (or_ (member item "dataKey") (or_ (member item "name") (PStr "value")))) in
    let itemConfig := getPayloadConfigFromPayload config item key in
    let value :=
      if negb (truthy labelKey) && is_string label
      then or_ (label_of (at_key (text label) config)) label
      else label_of itemConfig in
    match labelFormatter with
    | Some format =>
        jsx (el "div") [("className", cn [PStr "font-medium"; labelClassName])] [format value payload]
    | None =>
        if negb (truthy value) then PNull
        else jsx (el "div") [("className", cn [PStr "font-medium"; labelClassName])] [value]
    end.

(** The line of one item; [formatter] is called with the value, the name, the item, its
    index and its payload.  [toLocaleString] is that of the environment. *)
Definition tooltip_item (toLocaleString : pval → string) (config : props) (ps : props)
  (formatter : option (pval → pval → pval → nat → pval → pval)) (nestLabel : bool) (label : pval)
  (index : nat) (item : pval) : pval :=
  let indicator := default_to (get "indicator" ps) (PStr "dot") in
  let hideIndicator := default_to (get "hideIndicator" ps) (PBool false) in
  let key := text (or_ (get "nameKey" ps)
                     (or_ (member item "name") (or_ (member item "dataKey") (PStr "value")))) in
  let itemConfig := getPayloadConfigFromPayload config item key in
  let indicatorColor :=
    or_ (get "color" ps) (or_ (member (member item "payload") "fill") (member item "color")) in
  let plain :=
    [if truthy (member itemConfig "icon") then jsx (component_of (member itemConfig "icon")) [] []
     else and_ (PBool (negb (truthy hideIndicator)))
       (jsx (el "div")
          [("className",
             cn [PStr "shrink-0 rounded-[2px] border-(--color-border) bg-(--color-bg)";
                 PObj [("h-2.5 w-2.5", PBool (is_str indicator "dot"));
                       ("w-1", PBool (is_str indicator "line"));
                       ("w-0 border-[1.5px] border-dashed bg-transparent",
                         PBool (is_str indicator "dashed"));
                       ("my-0.5", PBool (nestLabel && is_str indicator "dashed"))]]);
           ("style", PObj [("--color-bg", indicatorColor); ("--color-border", indicatorColor)])]
          []);
     jsx (el "div")
       [("className",
          cn [PStr "flex flex-1 justify-between leading-none";
              PStr (if nestLabel then "items-end" else "items-center")])]
       [jsx (el "div") [("className", PStr "grid gap-1.5")]
          [if nestLabel then label else PNull;
           jsx (el "span") [("className", PStr "text-muted-foreground")]
             [or_ (label_of itemConfig) (member item "name")]];
        and_ (member item "value")
          (jsx (el "span")
             [("className", PStr "text-foreground font-mono font-medium tabular-nums")]
             [PStr (toLocaleString (member item "value"))])]] in
  jsx (el "div")
    [("className",
       cn [PStr "[&>svg]:text-muted-foreground flex w-full flex-wrap items-stretch gap-2 [&>svg]:h-2.5 [&>svg]:w-2.5";
           and_ (PBool (is_str indicator "dot")) (PStr "items-center")])]
    (match formatter, member item "value" with
     | Some format, v =>
         if negb (match v with PUndef => true | _ => false end) && truthy (member item "name")
         then [format v (member item "name") item index (member item "payload")]
         else plain
     | None, _ => plain
     end).

Definition ChartTooltipContent (toLocaleString : pval → string) (context : props)
  (labelFormatter : option (pval → pval → pval))
  (formatter : option (pval → pval → pval → nat → pval → pval)) (ps : props) : pval :=
  let config := members (get "config" context) in
  let payload := get "payload" ps in
  let indicator := default_to (get "indicator" ps) (PStr "dot") in
  let tooltipLabel := tooltipLabel config ps labelFormatter in
  if negb (truthy (get "active" ps)) || bool_decide (elements payload = []) then
  PNull
  else
  let nestLabel := bool_decide (length (elements payload) = 1) && negb (is_str indicator "dot") in
  jsx (el "div")
    [("className",
       cn [PStr "border-border/50 bg-background grid min-w-[8rem] items-start gap-1.5 rounded-lg border px-2.5 py-1.5 text-xs shadow-xl";
           get "className" ps])]
    [if negb nestLabel then tooltipLabel else PNull;
     jsx (el "div") [("className", PStr "grid gap-1.5")]
       [PArr (imap (tooltip_item toLocaleString config ps formatter nestLabel tooltipLabel)
                (elements payload))]].

Definition legend_item (config : props) (nameKey hideIcon : pval) (item : pval) : pval :=
  let key := text (or_ nameKey (or_ (member item "dataKey") (PStr "value"))) in
  let itemConfig := getPayloadConfigFromPayload config item key in
  jsx (el "div")
    [("className", PStr "[&>svg]:text-muted-foreground flex items-center gap-1.5 [&>svg]:h-3 [&>svg]:w-3")]
    [if truthy (member itemConfig "icon") && negb (truthy hideIcon)
     then jsx (component_of (member itemConfig "icon")) [] []
     else jsx (el "div")
            [("className", PStr "h-2 w-2 shrink-0 rounded-[2px]");
             ("style", PObj [("backgroundColor", member item "color")])]
            [];
     label_of itemConfig].

Definition ChartLegendContent (context : props) (ps : props) : pval :=
  let className := get "className" ps in
  let hideIcon := default_to (get "hideIcon" ps) (PBool false) in
  let payload := get "payload" ps in
  let verticalAlign := default_to (get "verticalAlign" ps) (PStr "bottom") in
  let nameKey := get "nameKey" ps in
  let config := members (get "config" context) in
  if bool_decide (elements payload = []) then
  PNull
  else
  jsx (el "div")
    [("className",
       cn [PStr "flex items-center justify-center gap-4";
           PStr (if is_str verticalAlign "top" then "pb-3" else "pt-3"); className])]
    [PArr (legend_item config nameKey hideIcon <$> elements payload)].

End Kit.
End chart.

(** [calendar.tsx] *)
Module calendar.
Section Kit.
  Context `{Styling}.

(** The components given to the library. *)
Definition Root (ps : props) : pval :=
  let className := get "className" ps in
  let rootRef := get "rootRef" ps in
  let props := rest ["className"; "rootRef"] ps in
  jsx (el "div")
    (spread [("data-slot", PStr "calendar"); ("ref", rootRef); ("className", cn [className])] props)
    [].

Definition Chevron (ps : props) : pval :=
  let className := get "className" ps in
  let orientation := get "orientation" ps in
  let props := rest ["className"; "orientation"] ps in
  if is_str orientation "left" then
  jsx (el "ChevronLeftIcon") (spread [("className", cn [PStr "size-4"; className])] props) []
  else if is_str orientation "right" then
  jsx (el "ChevronRightIcon") (spread [("className", cn [PStr "size-4"; className])] props) []
  else
  jsx (el "ChevronDownIcon") (spread [("className", cn [PStr "size-4"; className])] props) [].

Definition WeekNumber (ps : props) : pval :=
  let children := get "children" ps in
  let props := rest ["children"] ps in
  jsx (el "td") props
    [jsx (el "div")
       [("className", PStr "flex size-(--cell-size) items-center justify-center text-center")]
       [children]].

(** [defaultClassNames] is what [getDefaultClassNames] gives. *)
Definition Calendar (defaultClassNames : props) (ps : props) : pval :=
  let className := get "className" ps in
  let classNames := get "classNames" ps in
  let showOutsideDays := default_to (get "showOutsideDays" ps) (PBool true) in
  let captionLayout := default_to (get "captionLayout" ps) (PStr "label") in
  let buttonVariant := default_to (get "buttonVariant" ps) (PStr "ghost") in
  let formatters := get "formatters" ps in
  let components := get "components" ps in
  let props :=
    rest ["className"; "classNames"; "showOutsideDays"; "captionLayout"; "buttonVariant";
          "formatters"; "components"] ps in
  jsx (el "DayPicker")
    (spread
       [("showOutsideDays", showOutsideDays);
        ("className",
          cn [PStr "bg-background group/calendar p-3 [--cell-size:--spacing(8)] [[data-slot=card-content]_&]:bg-transparent [[data-slot=popover-content]_&]:bg-transparent";
              PStr "rtl:**:[.rdp-button\_next>svg]:rotate-180";
              PStr "rtl:**:[.rdp-button\_previous>svg]:rotate-180"; className]);
        ("captionLayout", captionLayout);
        ("formatters",
          PObj (spread [("formatMonthDropdown", PFun ["formatMonthDropdown"])] (members formatters)));
        ("classNames",
          PObj
           (spread
             [("root", cn [PStr "w-fit"; get "root" defaultClassNames]);
              ("months",
                cn [PStr "flex gap-4 flex-col md:flex-row relative"; get "months" defaultClassNames]);
              ("month", cn [PStr "flex flex-col w-full gap-4"; get "month" defaultClassNames]);
              ("nav",
                cn [PStr "flex items-center gap-1 w-full absolute top-0 inset-x-0 justify-between";
                    get "nav" defaultClassNames]);
              ("button_previous",
                cn [button.buttonVariants [("variant", buttonVariant)];
                    PStr "size-(--cell-size) aria-disabled:opacity-50 p-0 select-none";
                    get "button_previous" defaultClassNames]);
              ("button_next",
                cn [button.buttonVariants [("variant", buttonVariant)];
                    PStr "size-(--cell-size) aria-disabled:opacity-50 p-0 select-none";
                    get "button_next" defaultClassNames]);
              ("month_caption",
                cn [PStr "flex items-center justify-center h-(--cell-size) w-full px-(--cell-size)";
                    get "month_caption" defaultClassNames]);
              ("dropdowns",
                cn [PStr "w-full flex items-center text-sm font-medium justify-center h-(--cell-size) gap-1.5";
                    get "dropdowns" defaultClassNames]);
              ("dropdown_root",
                cn [PStr "relative has-focus:border-ring border border-input shadow-xs has-focus:ring-ring/50 has-focus:ring-[3px] rounded-md";
                    get "dropdown_root" defaultClassNames]);
              ("dropdown",
                cn [PStr "absolute bg-popover inset-0 opacity-0"; get "dropdown" defaultClassNames]);
              ("caption_label",
                cn [PStr "select-none font-medium";
                    if is_str captionLayout "label"
                    then PStr "text-sm"
                    else PStr "rounded-md pl-2 pr-1 flex items-center gap-1 text-sm h-8 [&>svg]:text-muted-foreground [&>svg]:size-3.5";
                    get "caption_label" defaultClassNames]);
              ("table", PStr "w-full border-collapse");
              ("weekdays", cn [PStr "flex"; get "weekdays" defaultClassNames]);
              ("weekday",
                cn [PStr "text-muted-foreground rounded-md flex-1 font-normal text-[0.8rem] select-none";
                    get "weekday" defaultClassNames]);
              ("week", cn [PStr "flex w-full mt-2"; get "week" defaultClassNames]);
              ("week_number_header",
                cn [PStr "select-none w-(--cell-size)"; get "week_number_header" defaultClassNames]);
              ("week_number",
                cn [PStr "text-[0.8rem] select-none text-muted-foreground";
                    get "week_number" defaultClassNames]);
              ("day",
                cn [PStr "relative w-full h-full p-0 text-center [&:first-child[data-selected=true]_button]:rounded-l-md [&:last-child[data-selected=true]_button]:rounded-r-md group/day aspect-square select-none";
                    get "day" defaultClassNames]);
              ("range_start",
                cn [PStr "rounded-l-md bg-accent"; get "range_start" defaultClassNames]);
              ("range_middle", cn [PStr "rounded-none"; get "range_middle" defaultClassNames]);
              ("range_end", cn [PStr "rounded-r-md bg-accent"; get "range_end" defaultClassNames]);
              ("today",
                cn [PStr "bg-accent text-accent-foreground rounded-md data-[selected=true]:rounded-none";
                    get "today" defaultClassNames]);
              ("outside",
                cn [PStr "text-muted-foreground aria-selected:text-muted-foreground";
                    get "outside" defaultClassNames]);
              ("disabled",
                cn [PStr "text-muted-foreground opacity-50"; get "disabled" defaultClassNames]);
              ("hidden", cn [PStr "invisible"; get "hidden" defaultClassNames])]
             (members classNames)));
        ("components",
          PObj (spread
            [("Root", PFun ["Root"]); ("Chevron", PFun ["Chevron"]);
             ("DayButton", PFun ["CalendarDayButton"]); ("WeekNumber", PFun ["WeekNumber"])]
            (members components)))]
       props)
    [].

(** The effect: the button takes the focus when its day gets it. *)
Definition takes_focus (before : option pval) (modifiers : pval) : bool :=
  truthy (member modifiers "focused") &&
  match before with Some old => negb (truthy (member old "focused")) | None => true end.

(** [toLocaleDateString] is that of the environment. *)
Definition CalendarDayButton (toLocaleDateString : pval → string) (defaultClassNames : props)
  (ps : props) : pval :=
  let className := get "className" ps in
  let day := get "day" ps in
  let modifiers := get "modifiers" ps in
  let props := rest ["className"; "day"; "modifiers"] ps in
  jsx button.Button
    (spread
       [("ref", PObj []); ("variant", PStr "ghost"); ("size", PStr "icon");
        ("data-day", PStr (toLocaleDateString (member day "date")));
        ("data-selected-single",
          and_ (and_ (and_ (member modifiers "selected")
                        (PBool (negb (truthy (member modifiers "range_start")))))
                  (PBool (negb (truthy (member modifiers "range_end")))))
            (PBool (negb (truthy (member modifiers "range_middle")))));
        ("data-range-start", member modifiers "range_start");
        ("data-range-end", member modifiers "range_end");
        ("data-range-middle", member modifiers "range_middle");
        ("className",
          cn [PStr "data-[selected-single=true]:bg-primary data-[selected-single=true]:text-primary-foreground data-[range-middle=true]:bg-accent data-[range-middle=true]:text-accent-foreground data-[range-start=true]:bg-primary data-[range-start=true]:text-primary-foreground data-[range-end=true]:bg-primary data-[range-end=true]:text-primary-foreground group-data-[focused=true]/day:border-ring group-data-[focused=true]/day:ring-ring/50 dark:hover:text-accent-foreground flex aspect-square size-auto w-full min-w-(--cell-size) flex-col gap-1 leading-none font-normal group-data-[focused=true]/day:relative group-data-[focused=true]/day:z-10 group-data-[focused=true]/day:ring-[3px] data-[range-end=true]:rounded-md data-[range-end=true]:rounded-r-md data-[range-middle=true]:rounded-none data-[range-start=true]:rounded-md data-[range-start=true]:rounded-l-md [&>span]:text-xs [&>span]:opacity-70";
              get "day" defaultClassNames; className])]
       props)
    [].

End Kit.
End calendar.
