(* ===== verification/KitSidebar.v ===== *)
(** * The UI kit: the sidebar

    [components/ui/sidebar.tsx] with [hooks/use-mobile.ts]. *)

From S2P Require Import Prelude JsString Jsx KitBasic KitOverlays.

From Stdlib Require Import ZArith.

(** [use-mobile.tsx] *)
Module use_mobile.
Section Kit.
  Context `{Styling}.

Definition MOBILE_BREAKPOINT : Z := 768.

(** The state: nothing before the hook is mounted.  [setIsMobile(window.innerWidth < MOBILE_BREAKPOINT)] *)
Definition measure (innerWidth : Z) : option bool := Some (innerWidth <? MOBILE_BREAKPOINT)%Z.

(** [(max-width: 767px)] *)
Definition query_matches (innerWidth : Z) : bool := (innerWidth <=? MOBILE_BREAKPOINT - 1)%Z.

(** The media query tells of changes of what it says. *)
Definition on_resize (before after : Z) (isMobile : option bool) : option bool :=
  if Bool.eqb (query_matches before) (query_matches after) then isMobile else measure after.

Definition useIsMobile (isMobile : option bool) : bool := default false isMobile.

End Kit.
End use_mobile.

(** [sidebar.tsx] *)
Module sidebar.
Section Kit.
  Context `{Styling}.

Definition SIDEBAR_COOKIE_NAME : string := "sidebar_state".
Definition SIDEBAR_COOKIE_MAX_AGE : Z := 60 * 60 * 24 * 7.

Definition SIDEBAR_WIDTH : pval := PStr "16rem".

Definition SIDEBAR_WIDTH_MOBILE : pval := PStr "18rem".

Definition SIDEBAR_WIDTH_ICON : pval := PStr "3rem".

Definition SIDEBAR_KEYBOARD_SHORTCUT : string := "b".

Definition useSidebar (context : option props) : outcome props :=
  match context with
  | Some c => Ok c
  | None => Throw (JsError "useSidebar must be used within a SidebarProvider.")
  end.

(** *** The state of the provider *)

(** The properties that matter to it: [onOpenChange] is given or not. *)
Record options := mkOptions {
  defaultOpen : bool;
  openProp : option bool;
  setOpenProp : bool }.

Record provider := mkProvider {
  isMobile : option bool;
  openMobile : bool;
  _open : bool;
  cookie : option string }.

Definition open (o : options) (s : provider) : bool := default (_open s) (openProp o).

Definition cookie_of (openState : bool) : string :=
  SIDEBAR_COOKIE_NAME +:+ "=" +:+ (if openState then "true" else "false") +:+
  "; path=/; max-age=" +:+ string_of_Z SIDEBAR_COOKIE_MAX_AGE.

(** [setOpen(value)] made while [seen] was shown: a function gets the value of that time;
    and the calls of [onOpenChange]. *)
Definition setOpen (o : options) (seen : provider) (value : bool + (bool → bool))
  (s : provider) : provider * list bool :=
  let openState := match value with inl b => b | inr f => f (open o seen) end in
  (mkProvider (isMobile s) (openMobile s) (if setOpenProp o then _open s else openState)
     (Some (cookie_of openState)),
   if setOpenProp o then [openState] else []).

Definition setOpenMobile (f : bool → bool) (s : provider) : provider :=
  mkProvider (isMobile s) (f (openMobile s)) (_open s) (cookie s).

Definition toggleSidebar (o : options) (seen s : provider) : provider * list bool :=
  if use_mobile.useIsMobile (isMobile seen) then (setOpenMobile negb s, [])
  else setOpen o seen (inr negb) s.

(** The listener of the window; the last component: [preventDefault] was called. *)
Definition handleKeyDown (o : options) (seen : provider) (key : string) (metaKey ctrlKey : bool)
  (s : provider) : provider * list bool * bool :=
  if bool_decide (key = SIDEBAR_KEYBOARD_SHORTCUT) && (metaKey || ctrlKey)
  then (toggleSidebar o seen s, true) else (s, [], false).

(** Before it is mounted, and afterwards. *)
Definition initial (o : options) (c : option string) : provider :=
  mkProvider None false (defaultOpen o) c.
Definition resized (before after : Z) (s : provider) : provider :=
  mkProvider (use_mobile.on_resize before after (isMobile s)) (openMobile s) (_open s) (cookie s).
Definition mounted (innerWidth : Z) (s : provider) : provider :=
  mkProvider (use_mobile.measure innerWidth) (openMobile s) (_open s) (cookie s).

(** *** What it renders *)

Definition state (o : options) (s : provider) : string :=
  if open o s then "expanded" else "collapsed".

Definition contextValue (o : options) (s : provider) : props :=
  [("state", PStr (state o s)); ("open", PBool (open o s)); ("setOpen", PFun ["setOpen"]);
   ("isMobile", PBool (use_mobile.useIsMobile (isMobile s))); ("openMobile", PBool (openMobile s));
   ("setOpenMobile", PFun ["setOpenMobile"]); ("toggleSidebar", PFun ["toggleSidebar"])].

Definition SidebarProvider (o : options) (s : provider) (ps : props) : pval :=
  let className := get "className" ps in
  let style := get "style" ps in
  let children := get "children" ps in
  let props :=
    rest ["defaultOpen"; "open"; "onOpenChange"; "className"; "style"; "children"] ps in
  jsx (el "SidebarContext.Provider") [("value", PObj (contextValue o s))]
    [jsx tooltip.TooltipProvider [("delayDuration", PNum 0)]
       [jsx (el "div")
          (spread
             [("data-slot", PStr "sidebar-wrapper");
              ("style",
                PObj (spread
                  [("--sidebar-width", SIDEBAR_WIDTH); ("--sidebar-width-icon", SIDEBAR_WIDTH_ICON)]
                  (members style)));
              ("className",
                cn [PStr "group/sidebar-wrapper has-data-[variant=inset]:bg-sidebar flex min-h-svh w-full";
                    className])]
             props)
          [children]]].

Definition Sidebar (context : props) (ps : props) : pval :=
  let side := default_to (get "side" ps) (PStr "left") in
  let variant := default_to (get "variant" ps) (PStr "sidebar") in
  let collapsible := default_to (get "collapsible" ps) (PStr "offcanvas") in
  let className := get "className" ps in
  let children := get "children" ps in
  let props := rest ["side"; "variant"; "collapsible"; "className"; "children"] ps in
  let isMobile := get "isMobile" context in
  let state := get "state" context in
  let openMobile := get "openMobile" context in
  let setOpenMobile := get "setOpenMobile" context in
  if is_str collapsible "none" then
  jsx (el "div")
    (spread
       [("data-slot", PStr "sidebar");
        ("className",
          cn [PStr "bg-sidebar text-sidebar-foreground flex h-full w-(--sidebar-width) flex-col";
              className])]
       props)
    [children]
  else
  if truthy isMobile then
  jsx sheet.Sheet (spread [("open", openMobile); ("onOpenChange", setOpenMobile)] props)
    [jsx sheet.SheetContent
       [("data-sidebar", PStr "sidebar"); ("data-slot", PStr "sidebar");
        ("data-mobile", PStr "true");
        ("className", PStr "bg-sidebar text-sidebar-foreground w-(--sidebar-width) p-0 [&>button]:hidden");
        ("style", PObj [("--sidebar-width", SIDEBAR_WIDTH_MOBILE)]); ("side", side)]
       [jsx sheet.SheetHeader [("className", PStr "sr-only")]
          [jsx sheet.SheetTitle [] [PStr "Sidebar"];
           jsx sheet.SheetDescription [] [PStr "Displays the mobile sidebar."]];
        jsx (el "div") [("className", PStr "flex h-full w-full flex-col")] [children]]]
  else
  jsx (el "div")
    [("className", PStr "group peer text-sidebar-foreground hidden md:block");
     ("data-state", state);
     ("data-collapsible", if is_str state "collapsed" then collapsible else PStr "");
     ("data-variant", variant); ("data-side", side); ("data-slot", PStr "sidebar")]
    [jsx (el "div")
       [("data-slot", PStr "sidebar-gap");
        ("className",
          cn [PStr "relative w-(--sidebar-width) bg-transparent transition-[width] duration-200 ease-linear";
              PStr "group-data-[collapsible=offcanvas]:w-0";
              PStr "group-data-[side=right]:rotate-180";
              if is_str variant "floating" || is_str variant "inset"
              then PStr "group-data-[collapsible=icon]:w-[calc(var(--sidebar-width-icon)+(--spacing(4)))]"
              else PStr "group-data-[collapsible=icon]:w-(--sidebar-width-icon)"])]
       [];
     jsx (el "div")
       (spread
          [("data-slot", PStr "sidebar-container");
           ("className",
             cn [PStr "fixed inset-y-0 z-10 hidden h-svh w-(--sidebar-width) transition-[left,right,width] duration-200 ease-linear md:flex";
                 if is_str side "left"
                 then PStr "left-0 group-data-[collapsible=offcanvas]:left-[calc(var(--sidebar-width)*-1)]"
                 else PStr "right-0 group-data-[collapsible=offcanvas]:right-[calc(var(--sidebar-width)*-1)]";
                 if is_str variant "floating" || is_str variant "inset"
                 then PStr "p-2 group-data-[collapsible=icon]:w-[calc(var(--sidebar-width-icon)+(--spacing(4))+2px)]"
                 else PStr "group-data-[collapsible=icon]:w-(--sidebar-width-icon) group-data-[side=left]:border-r group-data-[side=right]:border-l";
                 className])]
          props)
       [jsx (el "div")
          [("data-sidebar", PStr "sidebar"); ("data-slot", PStr "sidebar-inner");
           ("className", PStr "bg-sidebar group-data-[variant=floating]:border-sidebar-border flex h-full w-full flex-col group-data-[variant=floating]:rounded-lg group-data-[variant=floating]:border group-data-[variant=floating]:shadow-sm")]
          [children]]].

Definition calls_of (v : pval) : list string := match v with PFun l => l | _ => [] end.

Definition SidebarTrigger (context : props) (ps : props) : pval :=
  let className := get "className" ps in
  let onClick := get "onClick" ps in
  let props := rest ["className"; "onClick"] ps in
  let toggleSidebar := get "toggleSidebar" context in
  jsx button.Button
    (spread
       [("data-sidebar", PStr "trigger"); ("data-slot", PStr "sidebar-trigger");
        ("variant", PStr "ghost"); ("size", PStr "icon");
        ("className", cn [PStr "size-7"; className]);
        ("onClick", PFun (calls_of onClick ++ calls_of toggleSidebar))]
       props)
    [jsx (el "PanelLeftIcon") [] [];
     jsx (el "span") [("className", PStr "sr-only")] [PStr "Toggle Sidebar"]].

Definition SidebarRail (context : props) (ps : props) : pval :=
  let className := get "className" ps in
  let props := rest ["className"] ps in
  let toggleSidebar := get "toggleSidebar" context in
  jsx (el "button")
    (spread
       [("data-sidebar", PStr "rail"); ("data-slot", PStr "sidebar-rail");
        ("aria-label", PStr "Toggle Sidebar"); ("tabIndex", PNum (-1)); ("onClick", toggleSidebar);
        ("title", PStr "Toggle Sidebar");
        ("className",
          cn [PStr "hover:after:bg-sidebar-border absolute inset-y-0 z-20 hidden w-4 -translate-x-1/2 transition-all ease-linear group-data-[side=left]:-right-4 group-data-[side=right]:left-0 after:absolute after:inset-y-0 after:left-1/2 after:w-[2px] sm:flex";
              PStr "in-data-[side=left]:cursor-w-resize in-data-[side=right]:cursor-e-resize";
              PStr "[[data-side=left][data-state=collapsed]_&]:cursor-e-resize [[data-side=right][data-state=collapsed]_&]:cursor-w-resize";
              PStr "hover:group-data-[collapsible=offcanvas]:bg-sidebar group-data-[collapsible=offcanvas]:translate-x-0 group-data-[collapsible=offcanvas]:after:left-full";
              PStr "[[data-side=left][data-collapsible=offcanvas]_&]:-right-2";
              PStr "[[data-side=right][data-collapsible=offcanvas]_&]:-left-2"; className])]
       props)
    [].

Definition SidebarInset (ps : props) : pval :=
  let className := get "className" ps in
  let props := rest ["className"] ps in
  jsx (el "main")
    (spread
       [("data-slot", PStr "sidebar-inset");
        ("className",
          cn [PStr "bg-background relative flex w-full flex-1 flex-col";
              PStr "md:peer-data-[variant=inset]:m-2 md:peer-data-[variant=inset]:ml-0 md:peer-data-[variant=inset]:rounded-xl md:peer-data-[variant=inset]:shadow-sm md:peer-data-[variant=inset]:peer-data-[state=collapsed]:ml-2";
              className])]
       props)
    [].

Definition SidebarInput (ps : props) : pval :=
  let className := get "className" ps in
  let props := rest ["className"] ps in
  jsx input.Input
    (spread
       [("data-slot", PStr "sidebar-input"); ("data-sidebar", PStr "input");
        ("className", cn [PStr "bg-background h-8 w-full shadow-none"; className])]
       props)
    [].

Definition SidebarHeader (ps : props) : pval :=
  let className := get "className" ps in
  let props := rest ["className"] ps in
  jsx (el "div")
    (spread
       [("data-slot", PStr "sidebar-header"); ("data-sidebar", PStr "header");
        ("className", cn [PStr "flex flex-col gap-2 p-2"; className])]
       props)
    [].

Definition SidebarFooter (ps : props) : pval :=
  let className := get "className" ps in
  let props := rest ["className"] ps in
  jsx (el "div")
    (spread
       [("data-slot", PStr "sidebar-footer"); ("data-sidebar", PStr "footer");
        ("className", cn [PStr "flex flex-col gap-2 p-2"; className])]
       props)
    [].

Definition SidebarSeparator (ps : props) : pval :=
  let className := get "className" ps in
  let props := rest ["className"] ps in
  jsx separator.Separator
    (spread
       [("data-slot", PStr "sidebar-separator"); ("data-sidebar", PStr "separator");
        ("className", cn [PStr "bg-sidebar-border mx-2 w-auto"; className])]
       props)
    [].

Definition SidebarContent (ps : props) : pval :=
  let className := get "className" ps in
  let props := rest ["className"] ps in
  jsx (el "div")
    (spread
       [("data-slot", PStr "sidebar-content"); ("data-sidebar", PStr "content");
        ("className",
          cn [PStr "flex min-h-0 flex-1 flex-col gap-2 overflow-auto group-data-[collapsible=icon]:overflow-hidden";
              className])]
       props)
    [].

Definition SidebarGroup (ps : props) : pval :=
  let className := get "className" ps in
  let props := rest ["className"] ps in
  jsx (el "div")
    (spread
       [("data-slot", PStr "sidebar-group"); ("data-sidebar", PStr "group");
        ("className", cn [PStr "relative flex w-full min-w-0 flex-col p-2"; className])]
       props)
    [].

Definition SidebarGroupLabel (ps : props) : pval :=
  let className := get "className" ps in
  let asChild := default_to (get "asChild" ps) (PBool false) in
  let props := rest ["className"; "asChild"] ps in
  let Comp := if truthy asChild then "Slot" else "div" in
  jsx (el Comp)
    (spread
       [("data-slot", PStr "sidebar-group-label"); ("data-sidebar", PStr "group-label");
        ("className",
          cn [PStr "text-sidebar-foreground/70 ring-sidebar-ring flex h-8 shrink-0 items-center rounded-md px-2 text-xs font-medium outline-hidden transition-[margin,opacity] duration-200 ease-linear focus-visible:ring-2 [&>svg]:size-4 [&>svg]:shrink-0";
              PStr "group-data-[collapsible=icon]:-mt-8 group-data-[collapsible=icon]:opacity-0";
              className])]
       props)
    [].

Definition SidebarGroupAction (ps : props) : pval :=
  let className := get "className" ps in
  let asChild := default_to (get "asChild" ps) (PBool false) in
  let props := rest ["className"; "asChild"] ps in
  let Comp := if truthy asChild then "Slot" else "button" in
  jsx (el Comp)
    (spread
       [("data-slot", PStr "sidebar-group-action"); ("data-sidebar", PStr "group-action");
        ("className",
          cn [PStr "text-sidebar-foreground ring-sidebar-ring hover:bg-sidebar-accent hover:text-sidebar-accent-foreground absolute top-3.5 right-3 flex aspect-square w-5 items-center justify-center rounded-md p-0 outline-hidden transition-transform focus-visible:ring-2 [&>svg]:size-4 [&>svg]:shrink-0";
              PStr "after:absolute after:-inset-2 md:after:hidden";
              PStr "group-data-[collapsible=icon]:hidden"; className])]
       props)
    [].

Definition SidebarGroupContent (ps : props) : pval :=
  let className := get "className" ps in
  let props := rest ["className"] ps in
  jsx (el "div")
    (spread
       [("data-slot", PStr "sidebar-group-content"); ("data-sidebar", PStr "group-content");
        ("className", cn [PStr "w-full text-sm"; className])]
       props)
    [].

Definition SidebarMenu (ps : props) : pval :=
  let className := get "className" ps in
  let props := rest ["className"] ps in
  jsx (el "ul")
    (spread
       [("data-slot", PStr "sidebar-menu"); ("data-sidebar", PStr "menu");
        ("className", cn [PStr "flex w-full min-w-0 flex-col gap-1"; className])]
       props)
    [].

Definition SidebarMenuItem (ps : props) : pval :=
  let className := get "className" ps in
  let props := rest ["className"] ps in
  jsx (el "li")
    (spread
       [("data-slot", PStr "sidebar-menu-item"); ("data-sidebar", PStr "menu-item");
        ("className", cn [PStr "group/menu-item relative"; className])]
       props)
    [].

Definition sidebarMenuButtonVariants (given : props) : pval :=
  cva "peer/menu-button flex w-full items-center gap-2 overflow-hidden rounded-md p-2 text-left text-sm outline-hidden ring-sidebar-ring transition-[width,height,padding] hover:bg-sidebar-accent hover:text-sidebar-accent-foreground focus-visible:ring-2 active:bg-sidebar-accent active:text-sidebar-accent-foreground disabled:pointer-events-none disabled:opacity-50 group-has-data-[sidebar=menu-action]/menu-item:pr-8 aria-disabled:pointer-events-none aria-disabled:opacity-50 data-[active=true]:bg-sidebar-accent data-[active=true]:font-medium data-[active=true]:text-sidebar-accent-foreground data-[state=open]:hover:bg-sidebar-accent data-[state=open]:hover:text-sidebar-accent-foreground group-data-[collapsible=icon]:size-8! group-data-[collapsible=icon]:p-2! [&>span:last-child]:truncate [&>svg]:size-4 [&>svg]:shrink-0"
    (mkVariants
    [("variant", [("default", PStr "hover:bg-sidebar-accent hover:text-sidebar-accent-foreground");
                  ("outline", PStr "bg-background shadow-[0_0_0_1px_hsl(var(--sidebar-border))] hover:bg-sidebar-accent hover:text-sidebar-accent-foreground hover:shadow-[0_0_0_1px_hsl(var(--sidebar-accent))]")]);
     ("size", [("default", PStr "h-8 text-sm"); ("sm", PStr "h-7 text-xs");
               ("lg", PStr "h-12 text-sm group-data-[collapsible=icon]:p-0!")])]
    [("variant", "default"); ("size", "default")]) given.

Definition SidebarMenuButton (context : props) (ps : props) : pval :=
  let asChild := default_to (get "asChild" ps) (PBool false) in
  let isActive := default_to (get "isActive" ps) (PBool false) in
  let variant := default_to (get "variant" ps) (PStr "default") in
  let size := default_to (get "size" ps) (PStr "default") in
  let tooltip := get "tooltip" ps in
  let className := get "className" ps in
  let props := rest ["asChild"; "isActive"; "variant"; "size"; "tooltip"; "className"] ps in
  let Comp := if truthy asChild then "Slot" else "button" in
  let isMobile := get "isMobile" context in
  let state := get "state" context in
  let button :=
    jsx (el Comp)
      (spread
         [("data-slot", PStr "sidebar-menu-button"); ("data-sidebar", PStr "menu-button");
          ("data-size", size); ("data-active", isActive);
          ("className",
            cn [sidebarMenuButtonVariants [("variant", variant); ("size", size)]; className])]
         props)
      [] in
  if negb (truthy tooltip) then
  button
  else
  let tooltip := match tooltip with PStr s => PObj [("children", PStr s)] | v => v end in
  jsx tooltip.Tooltip []
    [jsx tooltip.TooltipTrigger [("asChild", PBool true)] [button];
     jsx tooltip.TooltipContent
       (spread
          [("side", PStr "right"); ("align", PStr "center");
           ("hidden", or_ (PBool (negb (is_str state "collapsed"))) isMobile)]
          (members tooltip))
       []].

Definition SidebarMenuAction (ps : props) : pval :=
  let className := get "className" ps in
  let asChild := default_to (get "asChild" ps) (PBool false) in
  let showOnHover := default_to (get "showOnHover" ps) (PBool false) in
  let props := rest ["className"; "asChild"; "showOnHover"] ps in
  let Comp := if truthy asChild then "Slot" else "button" in
  jsx (el Comp)
    (spread
       [("data-slot", PStr "sidebar-menu-action"); ("data-sidebar", PStr "menu-action");
        ("className",
          cn [PStr "text-sidebar-foreground ring-sidebar-ring hover:bg-sidebar-accent hover:text-sidebar-accent-foreground peer-hover/menu-button:text-sidebar-accent-foreground absolute top-1.5 right-1 flex aspect-square w-5 items-center justify-center rounded-md p-0 outline-hidden transition-transform focus-visible:ring-2 [&>svg]:size-4 [&>svg]:shrink-0";
              PStr "after:absolute after:-inset-2 md:after:hidden";
              PStr "peer-data-[size=sm]/menu-button:top-1";
              PStr "peer-data-[size=default]/menu-button:top-1.5";
              PStr "peer-data-[size=lg]/menu-button:top-2.5";
              PStr "group-data-[collapsible=icon]:hidden";
              and_ showOnHover
                (PStr "peer-data-[active=true]/menu-button:text-sidebar-accent-foreground group-focus-within/menu-item:opacity-100 group-hover/menu-item:opacity-100 data-[state=open]:opacity-100 md:opacity-0");
              className])]
       props)
    [].

Definition SidebarMenuBadge (ps : props) : pval :=
  let className := get "className" ps in
  let props := rest ["className"] ps in
  jsx (el "div")
    (spread
       [("data-slot", PStr "sidebar-menu-badge"); ("data-sidebar", PStr "menu-badge");
        ("className",
          cn [PStr "text-sidebar-foreground pointer-events-none absolute right-1 flex h-5 min-w-5 items-center justify-center rounded-md px-1 text-xs font-medium tabular-nums select-none";
              PStr "peer-hover/menu-button:text-sidebar-accent-foreground peer-data-[active=true]/menu-button:text-sidebar-accent-foreground";
              PStr "peer-data-[size=sm]/menu-button:top-1";
              PStr "peer-data-[size=default]/menu-button:top-1.5";
              PStr "peer-data-[size=lg]/menu-button:top-2.5";
              PStr "group-data-[collapsible=icon]:hidden"; className])]
       props)
    [].

(** [random] is [Math.floor(Math.random() * 40)]. *)
Definition SidebarMenuSkeleton (random : Z) (ps : props) : pval :=
  let className := get "className" ps in
  let showIcon := default_to (get "showIcon" ps) (PBool false) in
  let props := rest ["className"; "showIcon"] ps in
  let width := PStr (string_of_Z (random + 50) +:+ "%") in
  jsx (el "div")
    (spread
       [("data-slot", PStr "sidebar-menu-skeleton"); ("data-sidebar", PStr "menu-skeleton");
        ("className", cn [PStr "flex h-8 items-center gap-2 rounded-md px-2"; className])]
       props)
    [and_ showIcon
       (jsx skeleton.Skeleton
          [("className", PStr "size-4 rounded-md"); ("data-sidebar", PStr "menu-skeleton-icon")] []);
     jsx skeleton.Skeleton
       [("className", PStr "h-4 max-w-(--skeleton-width) flex-1");
        ("data-sidebar", PStr "menu-skeleton-text");
        ("style", PObj [("--skeleton-width", width)])]
       []].

Definition SidebarMenuSub (ps : props) : pval :=
  let className := get "className" ps in
  let props := rest ["className"] ps in
  jsx (el "ul")
    (spread
       [("data-slot", PStr "sidebar-menu-sub"); ("data-sidebar", PStr "menu-sub");
        ("className",
          cn [PStr "border-sidebar-border mx-3.5 flex min-w-0 translate-x-px flex-col gap-1 border-l px-2.5 py-0.5";
              PStr "group-data-[collapsible=icon]:hidden"; className])]
       props)
    [].

Definition SidebarMenuSubItem (ps : props) : pval :=
  let className := get "className" ps in
  let props := rest ["className"] ps in
  jsx (el "li")
    (spread
       [("data-slot", PStr "sidebar-menu-sub-item"); ("data-sidebar", PStr "menu-sub-item");
        ("className", cn [PStr "group/menu-sub-item relative"; className])]
       props)
    [].

Definition SidebarMenuSubButton (ps : props) : pval :=
  let asChild := default_to (get "asChild" ps) (PBool false) in
  let size := default_to (get "size" ps) (PStr "md") in
  let isActive := default_to (get "isActive" ps) (PBool false) in
  let className := get "className" ps in
  let props := rest ["asChild"; "size"; "isActive"; "className"] ps in
  let Comp := if truthy asChild then "Slot" else "a" in
  jsx (el Comp)
    (spread
       [("data-slot", PStr "sidebar-menu-sub-button"); ("data-sidebar", PStr "menu-sub-button");
        ("data-size", size); ("data-active", isActive);
        ("className",
          cn [PStr "text-sidebar-foreground ring-sidebar-ring hover:bg-sidebar-accent hover:text-sidebar-accent-foreground active:bg-sidebar-accent active:text-sidebar-accent-foreground [&>svg]:text-sidebar-accent-foreground flex h-7 min-w-0 -translate-x-px items-center gap-2 overflow-hidden rounded-md px-2 outline-hidden focus-visible:ring-2 disabled:pointer-events-none disabled:opacity-50 aria-disabled:pointer-events-none aria-disabled:opacity-50 [&>span:last-child]:truncate [&>svg]:size-4 [&>svg]:shrink-0";
              PStr "data-[active=true]:bg-sidebar-accent data-[active=true]:text-sidebar-accent-foreground";
              and_ (PBool (is_str size "sm")) (PStr "text-xs");
              and_ (PBool (is_str size "md")) (PStr "text-sm");
              PStr "group-data-[collapsible=icon]:hidden"; className])]
       props)
    [].

End Kit.
End sidebar.
