(* ===== verification/KitProps.v ===== *)
(** * The UI kit hands on what it is given

    The components of the kit that wrap one element, with the properties they take for
    themselves, and what holds of all of them. *)
From S2P Require Import Prelude JsString Jsx KitBasic KitOverlays KitWidgets KitSidebar.
From Stdlib Require Import Ascii.

(** A component, where in its result the element is that gets its properties, the ones it
    keeps (or replaces), the mark of this element, and whether the class of the caller is
    the last one that is merged. *)
Record wrapper := mkWrapper {
  wname : string;
  render : props → pval;
  path : list nat;
  own : list string;
  slot : option string;
  merges : bool }.

Section Kit.
  Context `{Styling} (toggle_context : pval).
  Context (form_context sidebar_context carousel_context : props).

Definition kit_1 : list wrapper :=
  [mkWrapper "Button" button.Button [] ["className"; "variant"; "size"; "asChild"] (Some "button") false;
   mkWrapper "Label" label.Label [] ["className"] (Some "label") true;
   mkWrapper "Input" input.Input [] ["className"; "type"] (Some "input") true;
   mkWrapper "Textarea" textarea.Textarea [] ["className"] (Some "textarea") true;
   mkWrapper "Separator" separator.Separator [] ["className"; "orientation"; "decorative"] (Some "separator") true;
   mkWrapper "Skeleton" skeleton.Skeleton [] ["className"] (Some "skeleton") true;
   mkWrapper "Badge" badge.Badge [] ["className"; "variant"; "asChild"] (Some "badge") true;
   mkWrapper "Accordion" accordion.Accordion [] [] (Some "accordion") false;
   mkWrapper "AccordionItem" accordion.AccordionItem [] ["className"] (Some "accordion-item") true;
   mkWrapper "AccordionTrigger" accordion.AccordionTrigger [0] ["className"; "children"] (Some "accordion-trigger") true;
   mkWrapper "AccordionContent" accordion.AccordionContent [] ["className"; "children"] (Some "accordion-content") false;
   mkWrapper "Alert" alert.Alert [] ["className"; "variant"] (Some "alert") true;
   mkWrapper "AlertTitle" alert.AlertTitle [] ["className"] (Some "alert-title") true;
   mkWrapper "AlertDescription" alert.AlertDescription [] ["className"] (Some "alert-description") true;
   mkWrapper "AspectRatio" aspect_ratio.AspectRatio [] [] (Some "aspect-ratio") false;
   mkWrapper "Avatar" avatar.Avatar [] ["className"] (Some "avatar") true;
   mkWrapper "AvatarImage" avatar.AvatarImage [] ["className"] (Some "avatar-image") true;
   mkWrapper "AvatarFallback" avatar.AvatarFallback [] ["className"] (Some "avatar-fallback") true;
   mkWrapper "Breadcrumb" breadcrumb.Breadcrumb [] [] (Some "breadcrumb") false;
   mkWrapper "BreadcrumbList" breadcrumb.BreadcrumbList [] ["className"] (Some "breadcrumb-list") true;
   mkWrapper "BreadcrumbItem" breadcrumb.BreadcrumbItem [] ["className"] (Some "breadcrumb-item") true;
   mkWrapper "BreadcrumbLink" breadcrumb.BreadcrumbLink [] ["asChild"; "className"] (Some "breadcrumb-link") true;
   mkWrapper "BreadcrumbPage" breadcrumb.BreadcrumbPage [] ["className"] (Some "breadcrumb-page") true;
   mkWrapper "BreadcrumbSeparator" breadcrumb.BreadcrumbSeparator [] ["children"; "className"] (Some "breadcrumb-separator") true;
   mkWrapper "BreadcrumbEllipsis" breadcrumb.BreadcrumbEllipsis [] ["className"; "children"] (Some "breadcrumb-ellipsis") true;
   mkWrapper "ButtonGroup" button_group.ButtonGroup [] ["className"; "orientation"] (Some "button-group") true;
   mkWrapper "ButtonGroupText" button_group.ButtonGroupText [] ["className"; "asChild"] None true;
   mkWrapper "ButtonGroupSeparator" button_group.ButtonGroupSeparator [] ["className"; "orientation"; "decorative"] (Some "button-group-separator") false;
   mkWrapper "Card" card.Card [] ["className"] (Some "card") true;
   mkWrapper "CardHeader" card.CardHeader [] ["className"] (Some "card-header") true;
   mkWrapper "CardTitle" card.CardTitle [] ["className"] (Some "card-title") true;
   mkWrapper "CardDescription" card.CardDescription [] ["className"] (Some "card-description") true;
   mkWrapper "CardAction" card.CardAction [] ["className"] (Some "card-action") true;
   mkWrapper "CardContent" card.CardContent [] ["className"] (Some "card-content") true;
   mkWrapper "CardFooter" card.CardFooter [] ["className"] (Some "card-footer") true;
   mkWrapper "Checkbox" checkbox.Checkbox [] ["className"; "children"] (Some "checkbox") true;
   mkWrapper "Collapsible" collapsible.Collapsible [] [] (Some "collapsible") false;
   mkWrapper "CollapsibleTrigger" collapsible.CollapsibleTrigger [] [] (Some "collapsible-trigger") false;
   mkWrapper "CollapsibleContent" collapsible.CollapsibleContent [] [] (Some "collapsible-content") false;
   mkWrapper "Empty" empty.Empty [] ["className"] (Some "empty") true;
   mkWrapper "EmptyHeader" empty.EmptyHeader [] ["className"] (Some "empty-header") true;
   mkWrapper "EmptyMedia" empty.EmptyMedia [] ["className"; "variant"] (Some "empty-icon") false;
   mkWrapper "EmptyTitle" empty.EmptyTitle [] ["className"] (Some "empty-title") true;
   mkWrapper "EmptyDescription" empty.EmptyDescription [] ["className"] (Some "empty-description") true;
   mkWrapper "EmptyContent" empty.EmptyContent [] ["className"] (Some "empty-content") true;
   mkWrapper "ItemGroup" item.ItemGroup [] ["className"] (Some "item-group") true;
   mkWrapper "ItemSeparator" item.ItemSeparator [] ["className"; "orientation"; "decorative"] (Some "item-separator") false;
   mkWrapper "Item" item.Item [] ["className"; "variant"; "size"; "asChild"] (Some "item") false;
   mkWrapper "ItemMedia" item.ItemMedia [] ["className"; "variant"] (Some "item-media") false;
   mkWrapper "ItemContent" item.ItemContent [] ["className"] (Some "item-content") true;
   mkWrapper "ItemTitle" item.ItemTitle [] ["className"] (Some "item-title") true;
   mkWrapper "ItemDescription" item.ItemDescription [] ["className"] (Some "item-description") true;
   mkWrapper "ItemActions" item.ItemActions [] ["className"] (Some "item-actions") true;
   mkWrapper "ItemHeader" item.ItemHeader [] ["className"] (Some "item-header") true;
   mkWrapper "ItemFooter" item.ItemFooter [] ["className"] (Some "item-footer") true;
   mkWrapper "Kbd" kbd.Kbd [] ["className"] (Some "kbd") true;
   mkWrapper "KbdGroup" kbd.KbdGroup [] ["className"] (Some "kbd-group") true;
   mkWrapper "Pagination" pagination.Pagination [] ["className"] (Some "pagination") true;
   mkWrapper "PaginationContent" pagination.PaginationContent [] ["className"] (Some "pagination-content") true;
   mkWrapper "PaginationItem" pagination.PaginationItem [] [] (Some "pagination-item") false;
   mkWrapper "PaginationLink" pagination.PaginationLink [] ["className"; "isActive"; "size"] (Some "pagination-link") true;
   mkWrapper "PaginationPrevious" pagination.PaginationPrevious [] ["className"; "children"; "isActive"; "size"] (Some "pagination-link") false;
   mkWrapper "PaginationNext" pagination.PaginationNext [] ["className"; "children"; "isActive"; "size"] (Some "pagination-link") false;
   mkWrapper "PaginationEllipsis" pagination.PaginationEllipsis [] ["className"; "children"] (Some "pagination-ellipsis") true;
   mkWrapper "RadioGroup" radio_group.RadioGroup [] ["className"] (Some "radio-group") true;
   mkWrapper "RadioGroupItem" radio_group.RadioGroupItem [] ["className"; "children"] (Some "radio-group-item") true].

Definition kit_2 : list wrapper :=
  [mkWrapper "ResizablePanelGroup" resizable.ResizablePanelGroup [] ["className"] (Some "resizable-panel-group") true;
   mkWrapper "ResizablePanel" resizable.ResizablePanel [] [] (Some "resizable-panel") false;
   mkWrapper "ResizableHandle" resizable.ResizableHandle [] ["withHandle"; "className"; "children"] (Some "resizable-handle") true;
   mkWrapper "ScrollArea" scroll_area.ScrollArea [] ["className"; "children"] (Some "scroll-area") true;
   mkWrapper "ScrollBar" scroll_area.ScrollBar [] ["className"; "orientation"; "children"] (Some "scroll-area-scrollbar") true;
   mkWrapper "Spinner" spinner.Spinner [] ["className"] None true;
   mkWrapper "Switch" switch.Switch [] ["className"; "children"] (Some "switch") true;
   mkWrapper "Table" table.Table [0] ["className"] (Some "table") true;
   mkWrapper "TableHeader" table.TableHeader [] ["className"] (Some "table-header") true;
   mkWrapper "TableBody" table.TableBody [] ["className"] (Some "table-body") true;
   mkWrapper "TableFooter" table.TableFooter [] ["className"] (Some "table-footer") true;
   mkWrapper "TableRow" table.TableRow [] ["className"] (Some "table-row") true;
   mkWrapper "TableHead" table.TableHead [] ["className"] (Some "table-head") true;
   mkWrapper "TableCell" table.TableCell [] ["className"] (Some "table-cell") true;
   mkWrapper "TableCaption" table.TableCaption [] ["className"] (Some "table-caption") true;
   mkWrapper "Tabs" tabs.Tabs [] ["className"] (Some "tabs") true;
   mkWrapper "TabsList" tabs.TabsList [] ["className"] (Some "tabs-list") true;
   mkWrapper "TabsTrigger" tabs.TabsTrigger [] ["className"] (Some "tabs-trigger") true;
   mkWrapper "TabsContent" tabs.TabsContent [] ["className"] (Some "tabs-content") true;
   mkWrapper "Toggle" toggle.Toggle [] ["className"; "variant"; "size"] (Some "toggle") false;
   mkWrapper "ToggleGroup" toggle_group.ToggleGroup [] ["className"; "variant"; "size"; "children"] (Some "toggle-group") true;
   mkWrapper "ToggleGroupItem" (toggle_group.ToggleGroupItem toggle_context) [] ["className"; "children"; "variant"; "size"] (Some "toggle-group-item") true;
   mkWrapper "InputGroup" input_group.InputGroup [] ["className"] (Some "input-group") true;
   mkWrapper "InputGroupButton" input_group.InputGroupButton [] ["className"; "type"; "variant"; "size"; "asChild"] (Some "button") false;
   mkWrapper "InputGroupText" input_group.InputGroupText [] ["className"] None true;
   mkWrapper "InputGroupInput" input_group.InputGroupInput [] ["className"; "type"] (Some "input-group-control") false;
   mkWrapper "InputGroupTextarea" input_group.InputGroupTextarea [] ["className"] (Some "input-group-control") false;
   mkWrapper "InputOTP" input_otp.InputOTP [] ["className"; "containerClassName"] (Some "input-otp") true;
   mkWrapper "InputOTPGroup" input_otp.InputOTPGroup [] ["className"] (Some "input-otp-group") true;
   mkWrapper "InputOTPSeparator" input_otp.InputOTPSeparator [] ["children"] (Some "input-otp-separator") false;
   mkWrapper "Dialog" dialog.Dialog [] [] (Some "dialog") false;
   mkWrapper "DialogTrigger" dialog.DialogTrigger [] [] (Some "dialog-trigger") false;
   mkWrapper "DialogPortal" dialog.DialogPortal [] [] (Some "dialog-portal") false;
   mkWrapper "DialogClose" dialog.DialogClose [] [] (Some "dialog-close") false;
   mkWrapper "DialogOverlay" dialog.DialogOverlay [] ["className"] (Some "dialog-overlay") true;
   mkWrapper "DialogContent" dialog.DialogContent [1] ["className"; "children"; "showCloseButton"] (Some "dialog-content") true;
   mkWrapper "DialogHeader" dialog.DialogHeader [] ["className"] (Some "dialog-header") true;
   mkWrapper "DialogFooter" dialog.DialogFooter [] ["className"] (Some "dialog-footer") true;
   mkWrapper "DialogTitle" dialog.DialogTitle [] ["className"] (Some "dialog-title") true;
   mkWrapper "DialogDescription" dialog.DialogDescription [] ["className"] (Some "dialog-description") true;
   mkWrapper "AlertDialog" alert_dialog.AlertDialog [] [] (Some "alert-dialog") false;
   mkWrapper "AlertDialogTrigger" alert_dialog.AlertDialogTrigger [] [] (Some "alert-dialog-trigger") false;
   mkWrapper "AlertDialogPortal" alert_dialog.AlertDialogPortal [] [] (Some "alert-dialog-portal") false;
   mkWrapper "AlertDialogOverlay" alert_dialog.AlertDialogOverlay [] ["className"] (Some "alert-dialog-overlay") true;
   mkWrapper "AlertDialogContent" alert_dialog.AlertDialogContent [1] ["className"] (Some "alert-dialog-content") true;
   mkWrapper "AlertDialogHeader" alert_dialog.AlertDialogHeader [] ["className"] (Some "alert-dialog-header") true;
   mkWrapper "AlertDialogFooter" alert_dialog.AlertDialogFooter [] ["className"] (Some "alert-dialog-footer") true;
   mkWrapper "AlertDialogTitle" alert_dialog.AlertDialogTitle [] ["className"] (Some "alert-dialog-title") true;
   mkWrapper "AlertDialogDescription" alert_dialog.AlertDialogDescription [] ["className"] (Some "alert-dialog-description") true;
   mkWrapper "AlertDialogAction" alert_dialog.AlertDialogAction [] ["className"] None true;
   mkWrapper "AlertDialogCancel" alert_dialog.AlertDialogCancel [] ["className"] None true;
   mkWrapper "Sheet" sheet.Sheet [] [] (Some "sheet") false;
   mkWrapper "SheetTrigger" sheet.SheetTrigger [] [] (Some "sheet-trigger") false;
   mkWrapper "SheetClose" sheet.SheetClose [] [] (Some "sheet-close") false;
   mkWrapper "SheetPortal" sheet.SheetPortal [] [] (Some "sheet-portal") false;
   mkWrapper "SheetOverlay" sheet.SheetOverlay [] ["className"] (Some "sheet-overlay") true;
   mkWrapper "SheetContent" sheet.SheetContent [1] ["className"; "children"; "side"] (Some "sheet-content") true;
   mkWrapper "SheetHeader" sheet.SheetHeader [] ["className"] (Some "sheet-header") true;
   mkWrapper "SheetFooter" sheet.SheetFooter [] ["className"] (Some "sheet-footer") true;
   mkWrapper "SheetTitle" sheet.SheetTitle [] ["className"] (Some "sheet-title") true;
   mkWrapper "SheetDescription" sheet.SheetDescription [] ["className"] (Some "sheet-description") true;
   mkWrapper "Drawer" drawer.Drawer [] [] (Some "drawer") false;
   mkWrapper "DrawerTrigger" drawer.DrawerTrigger [] [] (Some "drawer-trigger") false;
   mkWrapper "DrawerPortal" drawer.DrawerPortal [] [] (Some "drawer-portal") false;
   mkWrapper "DrawerClose" drawer.DrawerClose [] [] (Some "drawer-close") false;
   mkWrapper "DrawerOverlay" drawer.DrawerOverlay [] ["className"] (Some "drawer-overlay") true].

Definition kit_3 : list wrapper :=
  [mkWrapper "DrawerContent" drawer.DrawerContent [1] ["className"; "children"] (Some "drawer-content") true;
   mkWrapper "DrawerHeader" drawer.DrawerHeader [] ["className"] (Some "drawer-header") true;
   mkWrapper "DrawerFooter" drawer.DrawerFooter [] ["className"] (Some "drawer-footer") true;
   mkWrapper "DrawerTitle" drawer.DrawerTitle [] ["className"] (Some "drawer-title") true;
   mkWrapper "DrawerDescription" drawer.DrawerDescription [] ["className"] (Some "drawer-description") true;
   mkWrapper "Popover" popover.Popover [] [] (Some "popover") false;
   mkWrapper "PopoverTrigger" popover.PopoverTrigger [] [] (Some "popover-trigger") false;
   mkWrapper "PopoverContent" popover.PopoverContent [0] ["className"; "align"; "sideOffset"] (Some "popover-content") true;
   mkWrapper "PopoverAnchor" popover.PopoverAnchor [] [] (Some "popover-anchor") false;
   mkWrapper "HoverCard" hover_card.HoverCard [] [] (Some "hover-card") false;
   mkWrapper "HoverCardTrigger" hover_card.HoverCardTrigger [] [] (Some "hover-card-trigger") false;
   mkWrapper "HoverCardContent" hover_card.HoverCardContent [0] ["className"; "align"; "sideOffset"] (Some "hover-card-content") true;
   mkWrapper "TooltipProvider" tooltip.TooltipProvider [] ["delayDuration"] (Some "tooltip-provider") false;
   mkWrapper "Tooltip" tooltip.Tooltip [0] [] (Some "tooltip") false;
   mkWrapper "TooltipTrigger" tooltip.TooltipTrigger [] [] (Some "tooltip-trigger") false;
   mkWrapper "TooltipContent" tooltip.TooltipContent [0] ["className"; "sideOffset"; "children"] (Some "tooltip-content") true;
   mkWrapper "Command" command.Command [] ["className"] (Some "command") true;
   mkWrapper "CommandDialog" command.CommandDialog [] ["title"; "description"; "children"; "className"; "showCloseButton"] (Some "dialog") false;
   mkWrapper "CommandInput" command.CommandInput [1] ["className"] (Some "command-input") true;
   mkWrapper "CommandList" command.CommandList [] ["className"] (Some "command-list") true;
   mkWrapper "CommandEmpty" command.CommandEmpty [] [] (Some "command-empty") false;
   mkWrapper "CommandGroup" command.CommandGroup [] ["className"] (Some "command-group") true;
   mkWrapper "CommandSeparator" command.CommandSeparator [] ["className"] (Some "command-separator") true;
   mkWrapper "CommandItem" command.CommandItem [] ["className"] (Some "command-item") true;
   mkWrapper "CommandShortcut" command.CommandShortcut [] ["className"] (Some "command-shortcut") true;
   mkWrapper "ContextMenu" context_menu.ContextMenu [] [] (Some "context-menu") false;
   mkWrapper "ContextMenuTrigger" context_menu.ContextMenuTrigger [] [] (Some "context-menu-trigger") false;
   mkWrapper "ContextMenuGroup" context_menu.ContextMenuGroup [] [] (Some "context-menu-group") false;
   mkWrapper "ContextMenuPortal" context_menu.ContextMenuPortal [] [] (Some "context-menu-portal") false;
   mkWrapper "ContextMenuSub" context_menu.ContextMenuSub [] [] (Some "context-menu-sub") false;
   mkWrapper "ContextMenuRadioGroup" context_menu.ContextMenuRadioGroup [] [] (Some "context-menu-radio-group") false;
   mkWrapper "ContextMenuSubTrigger" context_menu.ContextMenuSubTrigger [] ["className"; "inset"; "children"] (Some "context-menu-sub-trigger") true;
   mkWrapper "ContextMenuSubContent" context_menu.ContextMenuSubContent [] ["className"] (Some "context-menu-sub-content") true;
   mkWrapper "ContextMenuContent" context_menu.ContextMenuContent [0] ["className"] (Some "context-menu-content") true;
   mkWrapper "ContextMenuItem" context_menu.ContextMenuItem [] ["className"; "inset"; "variant"] (Some "context-menu-item") true;
   mkWrapper "ContextMenuCheckboxItem" context_menu.ContextMenuCheckboxItem [] ["className"; "children"; "checked"] (Some "context-menu-checkbox-item") true;
   mkWrapper "ContextMenuRadioItem" context_menu.ContextMenuRadioItem [] ["className"; "children"] (Some "context-menu-radio-item") true;
   mkWrapper "ContextMenuLabel" context_menu.ContextMenuLabel [] ["className"; "inset"] (Some "context-menu-label") true;
   mkWrapper "ContextMenuSeparator" context_menu.ContextMenuSeparator [] ["className"] (Some "context-menu-separator") true;
   mkWrapper "ContextMenuShortcut" context_menu.ContextMenuShortcut [] ["className"] (Some "context-menu-shortcut") true;
   mkWrapper "DropdownMenu" dropdown_menu.DropdownMenu [] [] (Some "dropdown-menu") false;
   mkWrapper "DropdownMenuPortal" dropdown_menu.DropdownMenuPortal [] [] (Some "dropdown-menu-portal") false;
   mkWrapper "DropdownMenuTrigger" dropdown_menu.DropdownMenuTrigger [] [] (Some "dropdown-menu-trigger") false;
   mkWrapper "DropdownMenuContent" dropdown_menu.DropdownMenuContent [0] ["className"; "sideOffset"] (Some "dropdown-menu-content") true;
   mkWrapper "DropdownMenuGroup" dropdown_menu.DropdownMenuGroup [] [] (Some "dropdown-menu-group") false;
   mkWrapper "DropdownMenuItem" dropdown_menu.DropdownMenuItem [] ["className"; "inset"; "variant"] (Some "dropdown-menu-item") true;
   mkWrapper "DropdownMenuCheckboxItem" dropdown_menu.DropdownMenuCheckboxItem [] ["className"; "children"; "checked"] (Some "dropdown-menu-checkbox-item") true;
   mkWrapper "DropdownMenuRadioGroup" dropdown_menu.DropdownMenuRadioGroup [] [] (Some "dropdown-menu-radio-group") false;
   mkWrapper "DropdownMenuRadioItem" dropdown_menu.DropdownMenuRadioItem [] ["className"; "children"] (Some "dropdown-menu-radio-item") true;
   mkWrapper "DropdownMenuLabel" dropdown_menu.DropdownMenuLabel [] ["className"; "inset"] (Some "dropdown-menu-label") true;
   mkWrapper "DropdownMenuSeparator" dropdown_menu.DropdownMenuSeparator [] ["className"] (Some "dropdown-menu-separator") true;
   mkWrapper "DropdownMenuShortcut" dropdown_menu.DropdownMenuShortcut [] ["className"] (Some "dropdown-menu-shortcut") true;
   mkWrapper "DropdownMenuSub" dropdown_menu.DropdownMenuSub [] [] (Some "dropdown-menu-sub") false;
   mkWrapper "DropdownMenuSubTrigger" dropdown_menu.DropdownMenuSubTrigger [] ["className"; "inset"; "children"] (Some "dropdown-menu-sub-trigger") true;
   mkWrapper "DropdownMenuSubContent" dropdown_menu.DropdownMenuSubContent [] ["className"] (Some "dropdown-menu-sub-content") true;
   mkWrapper "Menubar" menubar.Menubar [] ["className"] (Some "menubar") true;
   mkWrapper "MenubarMenu" menubar.MenubarMenu [] [] (Some "menubar-menu") false;
   mkWrapper "MenubarGroup" menubar.MenubarGroup [] [] (Some "menubar-group") false;
   mkWrapper "MenubarPortal" menubar.MenubarPortal [] [] (Some "menubar-portal") false;
   mkWrapper "MenubarRadioGroup" menubar.MenubarRadioGroup [] [] (Some "menubar-radio-group") false;
   mkWrapper "MenubarTrigger" menubar.MenubarTrigger [] ["className"] (Some "menubar-trigger") true;
   mkWrapper "MenubarContent" menubar.MenubarContent [0] ["className"; "align"; "alignOffset"; "sideOffset"] (Some "menubar-content") true;
   mkWrapper "MenubarItem" menubar.MenubarItem [] ["className"; "inset"; "variant"] (Some "menubar-item") true;
   mkWrapper "MenubarCheckboxItem" menubar.MenubarCheckboxItem [] ["className"; "children"; "checked"] (Some "menubar-checkbox-item") true;
   mkWrapper "MenubarRadioItem" menubar.MenubarRadioItem [] ["className"; "children"] (Some "menubar-radio-item") true;
   mkWrapper "MenubarLabel" menubar.MenubarLabel [] ["className"; "inset"] (Some "menubar-label") true].

Definition kit_4 : list wrapper :=
  [mkWrapper "MenubarSeparator" menubar.MenubarSeparator [] ["className"] (Some "menubar-separator") true;
   mkWrapper "MenubarShortcut" menubar.MenubarShortcut [] ["className"] (Some "menubar-shortcut") true;
   mkWrapper "MenubarSub" menubar.MenubarSub [] [] (Some "menubar-sub") false;
   mkWrapper "MenubarSubTrigger" menubar.MenubarSubTrigger [] ["className"; "inset"; "children"] (Some "menubar-sub-trigger") true;
   mkWrapper "MenubarSubContent" menubar.MenubarSubContent [] ["className"] (Some "menubar-sub-content") true;
   mkWrapper "NavigationMenu" navigation_menu.NavigationMenu [] ["className"; "children"; "viewport"] (Some "navigation-menu") true;
   mkWrapper "NavigationMenuList" navigation_menu.NavigationMenuList [] ["className"] (Some "navigation-menu-list") true;
   mkWrapper "NavigationMenuItem" navigation_menu.NavigationMenuItem [] ["className"] (Some "navigation-menu-item") true;
   mkWrapper "NavigationMenuTrigger" navigation_menu.NavigationMenuTrigger [] ["className"; "children"] (Some "navigation-menu-trigger") true;
   mkWrapper "NavigationMenuContent" navigation_menu.NavigationMenuContent [] ["className"] (Some "navigation-menu-content") true;
   mkWrapper "NavigationMenuViewport" navigation_menu.NavigationMenuViewport [0] ["className"] (Some "navigation-menu-viewport") true;
   mkWrapper "NavigationMenuLink" navigation_menu.NavigationMenuLink [] ["className"] (Some "navigation-menu-link") true;
   mkWrapper "NavigationMenuIndicator" navigation_menu.NavigationMenuIndicator [] ["className"; "children"] (Some "navigation-menu-indicator") true;
   mkWrapper "Select" select.Select [] [] (Some "select") false;
   mkWrapper "SelectGroup" select.SelectGroup [] [] (Some "select-group") false;
   mkWrapper "SelectValue" select.SelectValue [] [] (Some "select-value") false;
   mkWrapper "SelectTrigger" select.SelectTrigger [] ["className"; "size"; "children"] (Some "select-trigger") true;
   mkWrapper "SelectContent" select.SelectContent [0] ["className"; "children"; "position"] (Some "select-content") true;
   mkWrapper "SelectLabel" select.SelectLabel [] ["className"] (Some "select-label") true;
   mkWrapper "SelectItem" select.SelectItem [] ["className"; "children"] (Some "select-item") true;
   mkWrapper "SelectSeparator" select.SelectSeparator [] ["className"] (Some "select-separator") true;
   mkWrapper "SelectScrollUpButton" select.SelectScrollUpButton [] ["className"; "children"] (Some "select-scroll-up-button") true;
   mkWrapper "SelectScrollDownButton" select.SelectScrollDownButton [] ["className"; "children"] (Some "select-scroll-down-button") true;
   mkWrapper "ToastViewport" toast.ToastViewport [] ["className"; "ref"] None true;
   mkWrapper "Toast" toast.Toast [] ["className"; "variant"; "ref"] None true;
   mkWrapper "ToastAction" toast.ToastAction [] ["className"; "ref"] None true;
   mkWrapper "ToastClose" toast.ToastClose [] ["className"; "ref"; "children"] None true;
   mkWrapper "ToastTitle" toast.ToastTitle [] ["className"; "ref"] None true;
   mkWrapper "ToastDescription" toast.ToastDescription [] ["className"; "ref"] None true;
   mkWrapper "FieldSet" field.FieldSet [] ["className"] (Some "field-set") true;
   mkWrapper "FieldLegend" field.FieldLegend [] ["className"; "variant"] (Some "field-legend") true;
   mkWrapper "FieldGroup" field.FieldGroup [] ["className"] (Some "field-group") true;
   mkWrapper "Field" field.Field [] ["className"; "orientation"] (Some "field") true;
   mkWrapper "FieldContent" field.FieldContent [] ["className"] (Some "field-content") true;
   mkWrapper "FieldLabel" field.FieldLabel [] ["className"] (Some "field-label") false;
   mkWrapper "FieldTitle" field.FieldTitle [] ["className"] (Some "field-label") true;
   mkWrapper "FieldDescription" field.FieldDescription [] ["className"] (Some "field-description") true;
   mkWrapper "FieldSeparator" field.FieldSeparator [] ["children"; "className"] (Some "field-separator") true;
   mkWrapper "FormLabel" (form.FormLabel form_context) [] ["className"] (Some "form-label") false;
   mkWrapper "FormControl" (form.FormControl form_context) [] [] (Some "form-control") false;
   mkWrapper "FormDescription" (form.FormDescription form_context) [] ["className"] (Some "form-description") true;
   mkWrapper "CarouselContent" (carousel.CarouselContent carousel_context) [0] ["className"] None true;
   mkWrapper "CarouselItem" (carousel.CarouselItem carousel_context) [] ["className"] (Some "carousel-item") true;
   mkWrapper "CarouselPrevious" (carousel.CarouselPrevious carousel_context) [] ["className"; "variant"; "size"; "children"; "asChild"] (Some "carousel-previous") false;
   mkWrapper "CarouselNext" (carousel.CarouselNext carousel_context) [] ["className"; "variant"; "size"; "children"; "asChild"] (Some "carousel-next") false;
   mkWrapper "SidebarRail" (sidebar.SidebarRail sidebar_context) [] ["className"] (Some "sidebar-rail") true;
   mkWrapper "SidebarInset" sidebar.SidebarInset [] ["className"] (Some "sidebar-inset") true;
   mkWrapper "SidebarInput" sidebar.SidebarInput [] ["className"; "type"] (Some "sidebar-input") false;
   mkWrapper "SidebarHeader" sidebar.SidebarHeader [] ["className"] (Some "sidebar-header") true;
   mkWrapper "SidebarFooter" sidebar.SidebarFooter [] ["className"] (Some "sidebar-footer") true;
   mkWrapper "SidebarSeparator" sidebar.SidebarSeparator [] ["className"; "orientation"; "decorative"] (Some "sidebar-separator") false;
   mkWrapper "SidebarContent" sidebar.SidebarContent [] ["className"] (Some "sidebar-content") true;
   mkWrapper "SidebarGroup" sidebar.SidebarGroup [] ["className"] (Some "sidebar-group") true;
   mkWrapper "SidebarGroupLabel" sidebar.SidebarGroupLabel [] ["className"; "asChild"] (Some "sidebar-group-label") true;
   mkWrapper "SidebarGroupAction" sidebar.SidebarGroupAction [] ["className"; "asChild"] (Some "sidebar-group-action") true;
   mkWrapper "SidebarGroupContent" sidebar.SidebarGroupContent [] ["className"] (Some "sidebar-group-content") true;
   mkWrapper "SidebarMenu" sidebar.SidebarMenu [] ["className"] (Some "sidebar-menu") true;
   mkWrapper "SidebarMenuItem" sidebar.SidebarMenuItem [] ["className"] (Some "sidebar-menu-item") true;
   mkWrapper "SidebarMenuAction" sidebar.SidebarMenuAction [] ["className"; "asChild"; "showOnHover"] (Some "sidebar-menu-action") true;
   mkWrapper "SidebarMenuBadge" sidebar.SidebarMenuBadge [] ["className"] (Some "sidebar-menu-badge") true;
   mkWrapper "SidebarMenuSub" sidebar.SidebarMenuSub [] ["className"] (Some "sidebar-menu-sub") true;
   mkWrapper "SidebarMenuSubItem" sidebar.SidebarMenuSubItem [] ["className"] (Some "sidebar-menu-sub-item") true;
   mkWrapper "SidebarMenuSubButton" sidebar.SidebarMenuSubButton [] ["asChild"; "size"; "isActive"; "className"] (Some "sidebar-menu-sub-button") true].

Definition kit : list wrapper := kit_1 ++ kit_2 ++ kit_3 ++ kit_4.

(** The components whose mark is not their name. *)
Definition other_slots : list (string * option string) :=
  [("ButtonGroupText", None);
   ("EmptyMedia", Some "empty-icon");
   ("PaginationPrevious", Some "pagination-link");
   ("PaginationNext", Some "pagination-link");
   ("ScrollBar", Some "scroll-area-scrollbar");
   ("Spinner", None);
   ("InputGroupButton", Some "button");
   ("InputGroupText", None);
   ("InputGroupInput", Some "input-group-control");
   ("InputGroupTextarea", Some "input-group-control");
   ("AlertDialogAction", None);
   ("AlertDialogCancel", None);
   ("CommandDialog", Some "dialog");
   ("ToastViewport", None);
   ("Toast", None);
   ("ToastAction", None);
   ("ToastClose", None);
   ("ToastTitle", None);
   ("ToastDescription", None);
   ("FieldTitle", Some "field-label");
   ("CarouselContent", None)].
End Kit.

(** ** Names *)

Definition is_upper (c : ascii) : bool := (65 <=? nat_of_ascii c) && (nat_of_ascii c <=? 90).
Definition to_lower (c : ascii) : ascii := if is_upper c then ascii_of_nat (nat_of_ascii c + 32) else c.

(** A word starts at a capital that follows a small letter or comes before one. *)
Fixpoint kebab_after (small : bool) (s : string) : string :=
  match s with
  | EmptyString => EmptyString
  | String c s' =>
      let before := match s' with String d _ => negb (is_upper d) | EmptyString => false end in
      let tail := String (to_lower c) (kebab_after (negb (is_upper c)) s') in
      if is_upper c && (small || before) then String "-"%char tail else tail
  end.

(** [AlertDialogTitle] is [alert-dialog-title], [InputOTPGroup] is [input-otp-group]. *)
Definition kebab (s : string) : string :=
  match s with
  | EmptyString => EmptyString
  | String c s' => String (to_lower c) (kebab_after (negb (is_upper c)) s')
  end.

(** The mark that the name of a component calls for. *)
Definition expected_slot (name : string) : option string :=
  match list_find (λ x, x.1 = name) other_slots with
  | Some (_, (_, s)) => s
  | None => Some (kebab name)
  end.

(** ** What a wrapper promises *)

Section Laws.
  Context `{Styling}.

Definition hands_on (w : wrapper) : Prop := ∀ ps, ∃ tag attrs,
  at_path (path w) (render w ps) = Some (PElem tag attrs) ∧
  (∀ k v, k ∉ own w → assoc_prop k ps = Some v → assoc_prop k attrs = Some v) ∧
  (assoc_prop "data-slot" ps = None → assoc_prop "data-slot" attrs = PStr <$> slot w) ∧
  (merges w = true → ∃ classes, assoc_prop "className" attrs = Some (cn classes) ∧
     last classes = Some (get "className" ps)).

Lemma rest_other (ks ks' : list string) k l : k ∉ ks → forallb (λ x, bool_decide (x ∈ ks)) ks' = true →
  assoc_prop k (rest ks' l) = assoc_prop k l.
Proof.
  rewrite forallb_forall. intros Hk Hs. rewrite assoc_rest, bool_decide_eq_false_2; [done|].
  intros Hin. apply Hk. apply list_elem_of_In, Hs, bool_decide_eq_true in Hin. done.
Qed.

Lemma children_other (ks : list string) k attrs nodes : k ∉ ks → bool_decide ("children" ∈ ks) = true →
  assoc_prop k (with_children attrs nodes) = assoc_prop k attrs.
Proof. intros Hk Hc%bool_decide_eq_true. apply assoc_with_children. intros ->. done. Qed.
End Laws.

Ltac handed_on :=
  intros ps; eexists _, _; split; [reflexivity|];
  split; [|split];
  [intros k v Hk Hv; cbn [own] in Hk;
   repeat first
     [rewrite assoc_spread
     |rewrite with_no_children
     |erewrite rest_other; [|exact Hk|vm_compute; reflexivity]
     |erewrite children_other; [|exact Hk|vm_compute; reflexivity]];
   rewrite Hv; reflexivity
  |intros Hs;
   repeat first
     [rewrite assoc_spread
     |rewrite with_no_children
     |rewrite assoc_rest
     |rewrite assoc_with_children by discriminate];
   rewrite ?Hs; reflexivity
  |first [discriminate
     |intros _; eexists; split;
       [repeat first
          [rewrite assoc_spread
          |rewrite with_no_children
          |rewrite assoc_rest
          |rewrite assoc_with_children by discriminate]; reflexivity
       |reflexivity]]].

Section Kit.
  Context `{Styling} (toggle_context : pval).
  Context (form_context sidebar_context carousel_context : props).

Abbreviation kit := (kit toggle_context form_context sidebar_context carousel_context).

Lemma kit_forwards : Forall hands_on kit.
Proof.
  unfold KitProps.kit. rewrite !Forall_app. split_and!.
  all: unfold kit_1, kit_2, kit_3, kit_4.
  all: repeat (apply Forall_cons_2; [handed_on|]); apply Forall_nil_2.
Qed.

Lemma kit_slots : Forall (λ w, slot w = expected_slot (wname w)) kit.
Proof.
  unfold KitProps.kit. rewrite !Forall_app. split_and!.
  all: unfold kit_1, kit_2, kit_3, kit_4.
  all: repeat (apply Forall_cons_2; [vm_compute; reflexivity|]); apply Forall_nil_2.
Qed.

End Kit.
