(* ===== verification/KitBehaviour.v ===== *)
(** * How the stateful components of the UI kit behave

    The provider of the sidebar, the carousel and the fields of a form, over all sequences
    of events. *)
From S2P Require Import Prelude JsString Jsx KitBasic KitOverlays KitWidgets KitSidebar.
From Stdlib Require Import Ascii ZArith Lia.

(** ** The sidebar *)

Module Sidebar.
Import sidebar.

(** What may happen: [n] calls of [toggleSidebar] in one event, [setOpen(b)], the sheet
    closing, a key, a change of the width of the window. *)
Inductive event :=
  | Toggles (n : nat)
  | Sets (b : bool)
  | SheetSets (b : bool)
  | Key (key : string) (metaKey ctrlKey : bool)
  | Resize (innerWidth : Z).

(** The calls of one event see what was rendered before it. *)
Fixpoint toggles (o : options) (seen : provider) (n : nat) (s : provider) : provider :=
  match n with
  | 0 => s
  | S n' => toggles o seen n' (toggleSidebar o seen s).1
  end.

Definition handle (o : options) (sc : Z * provider) (e : event) : Z * provider :=
  let '(w, s) := sc in
  match e with
  | Toggles n => (w, toggles o s n s)
  | Sets b => (w, (setOpen o s (inl b) s).1)
  | SheetSets b => (w, setOpenMobile (λ _, b) s)
  | Key key metaKey ctrlKey => (w, (handleKeyDown o s key metaKey ctrlKey s).1.1)
  | Resize w' => (w', resized w w' s)
  end.

(** From the first rendering in a window of width [w], with no cookie. *)
Definition run (o : options) (w : Z) (es : list event) : Z * provider :=
  foldl (handle o) (w, mounted w (initial o None)) es.

Lemma run_snoc o w es e : run o w (es ++ [e]) = handle o (run o w es) e.
Proof. apply foldl_snoc. Qed.

(** Induction over the events, for a property of what is reached. *)
Lemma run_ind (P : Z * provider → Prop) o w :
  P (w, mounted w (initial o None)) → (∀ sc e, P sc → P (handle o sc e)) → ∀ es, P (run o w es).
Proof.
  intros H0 Hs es. induction es as [|e es IH] using rev_ind; [exact H0|]. rewrite run_snoc. by apply Hs.
Qed.

Lemma toggles_known o seen n : ∀ s, isMobile (toggles o seen n s) = isMobile s.
Proof.
  induction n as [|n IH]; intros s; [done|]. cbn. rewrite IH. unfold toggleSidebar.
  by destruct (use_mobile.useIsMobile _).
Qed.

(** A key is nothing or one call of [toggleSidebar]. *)
Lemma key_toggles o s key m c : (handleKeyDown o s key m c s).1.1 =
  toggles o s (if bool_decide (key = SIDEBAR_KEYBOARD_SHORTCUT) && (m || c) then 1 else 0) s.
Proof. unfold handleKeyDown. by destruct (_ && _). Qed.

(** The sidebar knows whether the window is narrow. *)
Lemma run_mobile o w es : let '(w', s) := run o w es in isMobile s = Some (w' <? 768)%Z.
Proof.
  apply (run_ind (λ sc, let '(w', s) := sc in isMobile s = Some (w' <? 768)%Z)); [done|].
  intros [w1 s] e Hs. destruct e as [n|b|b|key m c|w2]; cbn [handle]; try done.
  - by rewrite toggles_known.
  - by rewrite key_toggles, toggles_known.
  - cbn. unfold use_mobile.on_resize, use_mobile.query_matches, use_mobile.measure, use_mobile.MOBILE_BREAKPOINT.
    destruct (Bool.eqb _ _) eqn:E; [|done]. apply eqb_prop in E. rewrite Hs. f_equal. lia.
Qed.

(** Several calls in one event on a narrow window: every one counts. *)
Lemma toggles_narrow o seen n : use_mobile.useIsMobile (isMobile seen) = true → ∀ s,
  toggles o seen n s = setOpenMobile (xorb (Nat.odd n)) s.
Proof.
  intros Hm. induction n as [|n IH]; intros s; [by destruct s|]. cbn [toggles].
  unfold toggleSidebar. rewrite Hm. cbn [fst]. rewrite IH. unfold setOpenMobile. cbn [isMobile openMobile _open cookie].
  f_equal. rewrite Nat.odd_succ, <- Nat.negb_odd. by destruct (Nat.odd n), (openMobile s).
Qed.

(** On a wide one they all see the same state: they count as one. *)
Lemma toggles_wide o seen n : use_mobile.useIsMobile (isMobile seen) = false → ∀ s,
  toggles o seen (S n) s = (setOpen o seen (inr negb) s).1.
Proof.
  intros Hm. assert (∀ s, (toggleSidebar o seen s).1 = (setOpen o seen (inr negb) s).1) as E.
  { intros s. unfold toggleSidebar. by rewrite Hm. }
  induction n as [|n IH]; intros s; [exact (E s)|].
  change (toggles o seen (S (S n)) s) with (toggles o seen (S n) (toggleSidebar o seen s).1).
  rewrite IH, E. unfold setOpen. cbn. by destruct (setOpenProp o).
Qed.

(** What the calls in one event do to the open state and the cookie. *)
Lemma toggles_cases o s n : let s' := toggles o s n s in
  (_open s' = _open s ∧ cookie s' = cookie s) ∨
  (_open s' = (if setOpenProp o then _open s else negb (open o s)) ∧
   cookie s' = Some (cookie_of (negb (open o s)))).
Proof.
  cbv zeta. destruct (use_mobile.useIsMobile (isMobile s)) eqn:Hm.
  - left. by rewrite toggles_narrow.
  - destruct n as [|n]; [by left|]. right. rewrite toggles_wide by done. done.
Qed.

(** Without [open] and [onOpenChange] the cookie says what is shown. *)
Definition cookie_true (o : options) (s : provider) : Prop :=
  (cookie s = None ∧ open o s = defaultOpen o) ∨ cookie s = Some (cookie_of (open o s)).

Lemma run_cookie o w es : openProp o = None → setOpenProp o = false → cookie_true o (run o w es).2.
Proof.
  intros Ho Hs. apply (run_ind (λ sc, cookie_true o sc.2)).
  { left. unfold open. by rewrite Ho. }
  assert (∀ s n, cookie_true o s → cookie_true o (toggles o s n s)) as Ht.
  { intros s n H. destruct (toggles_cases o s n) as [[E1 E2]|[E1 E2]]; unfold cookie_true, open in *;
      rewrite ?Ho, ?Hs in *; cbn [default from_option id] in *; rewrite E1, E2; [done|by right]. }
  intros [w1 s] e H. destruct e as [n|b|b|key m c|w2]; cbn [handle snd]; [by apply Ht| |exact H| |exact H].
  - right. unfold setOpen, open. cbn. by rewrite Hs, Ho.
  - rewrite key_toggles. by apply Ht.
Qed.

(** With [onOpenChange] but without [open] the sidebar never moves, whatever the cookie
    says. *)
Lemma run_stuck o w es : openProp o = None → setOpenProp o = true →
  open o (run o w es).2 = defaultOpen o.
Proof.
  intros Ho Hs. unfold open. rewrite Ho. cbn [default]. apply (run_ind (λ sc, _open sc.2 = defaultOpen o)); [done|].
  assert (∀ s n, _open s = defaultOpen o → _open (toggles o s n s) = defaultOpen o) as Ht.
  { intros s n H. destruct (toggles_cases o s n) as [[E1 _]|[E1 _]]; rewrite ?Hs in E1; congruence. }
  intros [w1 s] e H. destruct e as [n|b|b|key m c|w2]; cbn [handle snd]; [by apply Ht| |exact H| |exact H].
  - unfold setOpen. cbn. by rewrite Hs.
  - rewrite key_toggles. by apply Ht.
Qed.

End Sidebar.

(** ** The carousel *)

Module Carousel.
Import carousel.

(** The hook of the library returns another object (or none), an object emits an event. *)
Inductive event :=
  | Returns (a : option string)
  | Emits (a name : string).

(** What the objects say of themselves may change from event to event. *)
Definition handle (s : state) (x : (string → bool * bool) * event) : state :=
  match x.2 with
  | Returns a => set_api x.1 a s
  | Emits a name => emits x.1 a name s
  end.

Definition run (xs : list ((string → bool * bool) * event)) : state := foldl handle initial xs.

(** The objects that have been returned. *)
Definition returned (xs : list ((string → bool * bool) * event)) : list string :=
  omap (λ x, match x.2 with Returns a => a | Emits _ _ => None end) xs.

Definition listens (s : state) (a name : string) : Prop := (a, name) ∈ listeners s.

Lemma drop_listener_other x y l : x ≠ y → x ∈ drop_listener y l ↔ x ∈ l.
Proof.
  intros Hne. induction l as [|z l IH]; [done|]. cbn [drop_listener].
  case_bool_decide; [subst; set_solver|]. rewrite !elem_of_cons. by rewrite IH.
Qed.

Definition selecting (l : list (string * string)) : list (string * string) :=
  filter (λ x, x.2 = "select") l.

Lemma selecting_drop a l :
  selecting (drop_listener (a, "select") l) = drop_listener (a, "select") (selecting l).
Proof.
  unfold selecting. induction l as [|[b n] l IH]; [done|]. cbn [drop_listener]. rewrite filter_cons. cbn [snd].
  case_bool_decide as E; [injection E as -> ->; by rewrite decide_True; cbn; rewrite ?bool_decide_true|].
  rewrite filter_cons. cbn [snd]. case_decide; [|done]. cbn [drop_listener]. by rewrite bool_decide_false, IH.
Qed.

(** The listeners, in every reachable state: one for the selections of the present object,
    and those for the changes of every object there has been. *)
Definition listening (xs : list ((string → bool * bool) * event)) (s : state) : Prop :=
  selecting (listeners s) = match api s with Some a => [(a, "select")] | None => [] end ∧
  (∀ a, listens s a "reInit" ↔ a ∈ returned xs) ∧
  (∀ a, api s = Some a → a ∈ returned xs).

Lemma returned_snoc xs x : returned (xs ++ [x]) =
  returned xs ++ match x.2 with Returns (Some a) => [a] | _ => [] end.
Proof. unfold returned. rewrite omap_app. by destruct x as [w [[a|]|]]. Qed.

Lemma emits_listeners w a name s : listeners (emits w a name s) = listeners s ∧ api (emits w a name s) = api s.
Proof. unfold emits. by case_bool_decide. Qed.

Lemma listens_drop s a b : listens (api_off a "select" s) b "reInit" ↔ listens s b "reInit".
Proof. unfold listens, api_off. cbn. by apply drop_listener_other. Qed.

(** One step of the hook keeps the listeners right. *)
Lemma set_api_listening w a xs s : listening xs s → listening (xs ++ [(w, Returns a)]) (set_api w a s).
Proof.
  intros (Hs & Hr & Ha). unfold listening. rewrite returned_snoc. cbn [snd]. unfold set_api.
  case_bool_decide as E.
  { subst a. split_and!; [done| |]; intros b; destruct (api s) as [c|] eqn:Ec; try done;
      rewrite ?app_nil_r; [rewrite (Hr b)|by apply Hr|intros H; injection H as <-; set_solver].
    pose proof (Ha c eq_refl). set_solver. }
  assert (selecting (listeners (cleanup (api s) s)) = []) as Hc.
  { destruct (api s) as [c|]; [|done]. cbn [cleanup api_off listeners]. rewrite selecting_drop, Hs.
    cbn [drop_listener]. by rewrite bool_decide_true. }
  assert (∀ b, listens (cleanup (api s) s) b "reInit" ↔ b ∈ returned xs) as Hl.
  { intros b. rewrite <- Hr. destruct (api s) as [c|]; [|done]. apply listens_drop. }
  destruct a as [a|]; cbn [effect api].
  - split_and!.
    + cbn [api_on onSelect listeners api]. unfold selecting in *. rewrite !filter_cons. cbn [snd].
      by rewrite decide_True, decide_False, Hc.
    + intros b. rewrite elem_of_app, <- Hl, list_elem_of_singleton. unfold listens.
      cbn [api_on onSelect listeners]. rewrite !elem_of_cons. split.
      * intros [H|[H|H]]; [discriminate|injection H as ->; by right|by left].
      * intros [H| ->]; [by right; right|by right; left].
    + intros b H. injection H as <-. rewrite elem_of_app, list_elem_of_singleton. by right.
  - split_and!; [done| |done]. intros b. rewrite app_nil_r, <- Hl. done.
Qed.

Lemma run_listening xs : listening xs (run xs).
Proof.
  induction xs as [|[w e] xs IH] using rev_ind;
    [split_and!; [done| |done]; intros a; unfold listens; cbn; set_solver|].
  unfold run in *. rewrite foldl_snoc. set (s := foldl handle initial xs) in *. unfold handle at 1.
  cbn [fst snd]. destruct e as [a|a name]; [by apply set_api_listening|].
  destruct IH as (Hs & Hr & Ha). unfold listening, listens. rewrite returned_snoc. cbn [snd].
  destruct (emits_listeners w a name s) as [-> ->]. rewrite app_nil_r. by split_and!.
Qed.

Lemma listens_select xs a : listens (run xs) a "select" ↔ api (run xs) = Some a.
Proof.
  destruct (run_listening xs) as (Hs & _).
  assert (listens (run xs) a "select" ↔ (a, "select") ∈ selecting (listeners (run xs))) as ->.
  { unfold listens, selecting. rewrite list_elem_of_filter. cbn. tauto. }
  rewrite Hs. destruct (api (run xs)) as [b|].
  - rewrite list_elem_of_singleton. split; intros H; injection H as <-; done.
  - split; [by intros ?%not_elem_of_nil|done].
Qed.

(** The carousel, after any sequence of objects returned by the library and of events
    they emit: it can scroll back and forth as the present object says at the moment it
    has been returned and whenever it emits "select" or "reInit"; a selection in an object
    that was replaced changes nothing; but a "reInit" of such an object makes the carousel
    show what that object says, since only the listener for selections is removed.  The
    arrow keys move the present object. *)
Theorem carousel_listens : ∀ xs w, let s := run xs in
  (∀ a, api s ≠ Some a → let s' := handle s (w, Returns (Some a)) in
     api s' = Some a ∧ canScrollPrev s' = (w a).1 ∧ canScrollNext s' = (w a).2) ∧
  (∀ a name, api s = Some a → name ∈ ["select"; "reInit"] → let s' := handle s (w, Emits a name) in
     api s' = Some a ∧ canScrollPrev s' = (w a).1 ∧ canScrollNext s' = (w a).2) ∧
  (∀ a, api s ≠ Some a → handle s (w, Emits a "select") = s) ∧
  (∀ a, a ∈ returned xs → let s' := handle s (w, Emits a "reInit") in
     canScrollPrev s' = (w a).1 ∧ canScrollNext s' = (w a).2) ∧
  (∀ a, api s = Some a →
     handleKeyDown s "ArrowLeft" = (Some (a, "scrollPrev"), true) ∧
     handleKeyDown s "ArrowRight" = (Some (a, "scrollNext"), true)).
Proof.
  intros xs w s. pose proof (listens_select xs) as Hsel. destruct (run_listening xs) as (_ & Hr & Ha).
  fold s in Hsel, Hr, Ha. unfold handle, emits. cbn [fst snd]. split_and!.
  - intros a Hne. unfold set_api. by rewrite bool_decide_false by done.
  - intros a name Hs Hn. rewrite bool_decide_true; [done|].
    apply elem_of_cons in Hn as [-> | ->%list_elem_of_singleton]; [by apply Hsel|by apply Hr, Ha].
  - intros a Hne. rewrite bool_decide_false; [done|]. by intros ?%Hsel.
  - intros a Hin. rewrite bool_decide_true; [done|]. by apply Hr.
  - intros a Hs. unfold handleKeyDown, scrollPrev, scrollNext. rewrite Hs. done.
Qed.
End Carousel.

(** ** The fields of a form *)

Module Form.
Import form.

Section Form.
  Context `{Styling} (getFieldState : pval → props).

(** What [useFormField] gives inside of a field and an item. *)
Definition field_of (name : pval) (id : string) : props :=
  spread [("id", PStr id); ("name", name); ("formItemId", PStr (id +:+ "-form-item"));
    ("formDescriptionId", PStr (id +:+ "-form-item-description"));
    ("formMessageId", PStr (id +:+ "-form-item-message"))] (getFieldState name).

(** The identifiers are not among the state of a field. *)
Definition no_identifiers (st : props) : Prop :=
  Forall (λ k, assoc_prop k st = None) ["formItemId"; "formDescriptionId"; "formMessageId"].

Lemma in_field name id : useFormField getFieldState (PObj [("name", name)]) (PObj [("id", PStr id)]) =
  Ok (field_of name id).
Proof. done. Qed.

Lemma get_field name id k s : no_identifiers (getFieldState name) →
  (k, s) ∈ [("formItemId", "-form-item"); ("formDescriptionId", "-form-item-description");
            ("formMessageId", "-form-item-message")] →
  get k (field_of name id) = PStr (id +:+ s).
Proof.
  intros Hn Hk. unfold get, field_of. rewrite assoc_spread. unfold no_identifiers in Hn.
  rewrite !Forall_cons in Hn. destruct Hn as (H1 & H2 & H3 & _).
  repeat (apply elem_of_cons in Hk as [[= -> ->]|Hk]; [by rewrite ?H1, ?H2, ?H3|]).
  by apply not_elem_of_nil in Hk.
Qed.

Lemma get_error name id : get "error" (field_of name id) = get "error" (getFieldState name).
Proof. unfold get, field_of. rewrite assoc_spread. by destruct (assoc_prop "error" _). Qed.

(** A property that the caller does not give is that of the component. *)
Lemma get_own a b k : assoc_prop k b = None → get k (spread a b) = get k a.
Proof. intros E. unfold get. by rewrite assoc_spread, E. Qed.

Lemma rest_none ks k l : assoc_prop k l = None → assoc_prop k (rest ks l) = None.
Proof. intros E. rewrite assoc_rest. by case_bool_decide. Qed.

(** The attributes of an element. *)
Definition attrs_of (v : pval) : props := match v with PElem _ a => a | _ => [] end.

(** The attribute [k] of what a part of a form builds. *)
Definition attr (k : string) (v : pval) : pval := get k (attrs_of v).

(** None of these are given by the caller. *)
Definition leaves (ks : list string) (ps : props) : Prop := Forall (λ k, assoc_prop k ps = None) ks.

Lemma leaves_none ks ps k : leaves ks ps → k ∈ ks → assoc_prop k ps = None.
Proof. unfold leaves. rewrite Forall_forall. auto. Qed.

(** An attribute that the caller leaves is found under the spreads. *)
Ltac own_attr Hl :=
  unfold attr, jsx, el, with_children, get at 1; cbv zeta; cbn [attrs_of];
  repeat first [rewrite assoc_spread | rewrite assoc_rest];
  rewrite ?(leaves_none _ _ _ Hl) by set_solver; cbn; try reflexivity.

Section Parts.
  Context (c ps : props).

Lemma label_for : leaves ["htmlFor"] ps → attr "htmlFor" (FormLabel c ps) = get "formItemId" c.
Proof. intros Hl. unfold FormLabel, label.Label. own_attr Hl. Qed.

Lemma control_attrs : leaves ["id"; "aria-describedby"; "aria-invalid"] ps →
  attr "id" (FormControl c ps) = get "formItemId" c ∧
  attr "aria-invalid" (FormControl c ps) = PBool (truthy (get "error" c)) ∧
  attr "aria-describedby" (FormControl c ps) =
    PStr (if truthy (get "error" c)
          then text (get "formDescriptionId" c) +:+ " " +:+ text (get "formMessageId" c)
          else text (get "formDescriptionId" c)).
Proof.
  intros Hl. unfold FormControl. split_and!; own_attr Hl; [by rewrite negb_involutive|by destruct (truthy _)].
Qed.

Lemma description_id : leaves ["id"] ps → attr "id" (FormDescription c ps) = get "formDescriptionId" c.
Proof. intros Hl. unfold FormDescription. own_attr Hl. Qed.

(** What the message says. *)
Definition said : pval :=
  if truthy (get "error" c) then PStr (text (nullish (member (get "error" c) "message") (PStr "")))
  else get "children" ps.

Lemma message_shown : leaves ["id"] ps →
  (truthy said = false → FormMessage c ps = PNull) ∧
  (truthy said = true → attr "id" (FormMessage c ps) = get "formMessageId" c ∧
     attr "children" (FormMessage c ps) = said).
Proof.
  intros Hl.
  assert (get "children" (rest ["className"] ps) = get "children" ps) as E by (unfold get; by rewrite assoc_rest).
  unfold FormMessage, said. cbv zeta. rewrite E. split; intros Ht; rewrite Ht; cbn [negb]; [done|].
  split; own_attr Hl.
Qed.
End Parts.
(** What a part gives to those inside of it. *)
Lemma field_gives fps : attr "value" (FormField fps) = PObj [("name", get "name" fps)].
Proof. done. Qed.

Lemma item_gives id ps : attr "value" (FormItem id ps) = PObj [("id", PStr id)].
Proof. done. Qed.

(** C37: inside of a field and an item of a form, when the parts are not given other
    identifiers: the label is for the control; the control is described by the description
    and, exactly when the field has an error, also by the message, and says so in
    [aria-invalid]; the message shows the error's text (or its own children, if there is
    no error) under its identifier, and is not there when that is empty, though an error
    without text still makes the control name it.  Outside of a field and an item the
    guard of [useFormField] never throws: the identifiers come out as undefined ones. *)
Theorem form_wiring (fps ips lps cps dps mps : props) (id : string)
  (Hn : no_identifiers (getFieldState (get "name" fps)))
  (Hl : leaves ["htmlFor"] lps) (Hc : leaves ["id"; "aria-describedby"; "aria-invalid"] cps)
  (Hd : leaves ["id"] dps) (Hm : leaves ["id"] mps) :
  let error := get "error" (getFieldState (get "name" fps)) in
  let shown := if truthy error then PStr (text (nullish (member error "message") (PStr "")))
               else get "children" mps in
  (∃ c, useFormField getFieldState (attr "value" (FormField fps)) (attr "value" (FormItem id ips)) = Ok c ∧
    let label := FormLabel c lps in
    let control := FormControl c cps in
    let description := FormDescription c dps in
    let message := FormMessage c mps in
    attr "htmlFor" label = attr "id" control ∧
    attr "id" control = PStr (id +:+ "-form-item") ∧
    attr "aria-invalid" control = PBool (truthy error) ∧
    attr "id" description = PStr (id +:+ "-form-item-description") ∧
    attr "aria-describedby" control =
      (if truthy error
       then PStr (text (attr "id" description) +:+ " " +:+ id +:+ "-form-item-message")
       else attr "id" description) ∧
    (truthy shown = true → attr "id" message = PStr (id +:+ "-form-item-message") ∧
       attr "children" message = shown) ∧
    (truthy shown = false → message = PNull)) ∧
  (∃ c, useFormField getFieldState FormFieldContext FormItemContext = Ok c ∧
    (no_identifiers (getFieldState PUndef) → get "formItemId" c = PStr "undefined-form-item")).
Proof.
  cbv zeta. split.
  - rewrite field_gives, item_gives, in_field. set (c := field_of _ _). exists c. split; [done|].
    pose proof (λ k s, get_field _ id k s Hn) as Hg. fold c in Hg.
    assert (get "error" c = get "error" (getFieldState (get "name" fps))) as He by apply get_error.
    destruct (control_attrs c cps Hc) as (E1 & E2 & E3). destruct (message_shown c mps Hm) as [M1 M2].
    unfold said in M1, M2. rewrite (label_for c lps Hl), (description_id c dps Hd), E1, E2, E3, !He in *.
    rewrite (Hg "formItemId" "-form-item"), (Hg "formDescriptionId" "-form-item-description"),
      (Hg "formMessageId" "-form-item-message") in * by set_solver.
    split_and!; try done. by destruct (truthy _).
  - eexists. split; [reflexivity|]. intros Hu. unfold no_identifiers in Hu.
    rewrite Forall_cons in Hu. destruct Hu as [Hu _]. unfold get. rewrite assoc_spread.
    change (member FormFieldContext "name") with PUndef. by rewrite Hu.
Qed.
End Form.

(** For the witness: class names joined by blanks. *)
Definition joined : Styling := {|
  clsx l := join_with " " (text <$> filter (λ v, truthy v = true) l);
  twMerge s := s;
  class_variance base _ _ := base |}.

Lemma form_wiring_witness :
  let st := λ _ : pval, [("error", PObj [("message", PStr "Required")])] in
  no_identifiers (st (PStr "email")) ∧
  attr "aria-describedby" (FormControl (field_of st (PStr "email") "r1") []) =
    PStr "r1-form-item-description r1-form-item-message" ∧
  ∃ c, useFormField st (attr "value" (FormField [("name", PStr "email")]))
         (attr "value" (@FormItem joined "r1" [])) = Ok c ∧
    attr "children" (@FormMessage joined c []) = PStr "Required".
Proof.
  cbv zeta. split; [by repeat constructor|]. split; [reflexivity|].
  destruct (@form_wiring joined (λ _, [("error", PObj [("message", PStr "Required")])])
    [("name", PStr "email")] [] [] [] [] [] "r1") as [(c & Hu & H) _]; try by repeat constructor.
  exists c. split; [exact Hu|]. apply H. reflexivity.
Defined.
End Form.

(** ** Smaller points *)

Module Details.

Section Details.
  Context `{Styling}.

(** Without errors the alert is still there, with an empty list; only when [errors] is not
    given it is not. *)
Lemma no_errors_alert :
  (∃ attrs, field.FieldError [("errors", PArr [])] = PElem "div" attrs ∧
     get "role" attrs = PStr "alert" ∧
     get "children" attrs = PElem "ul" [("className", PStr "ml-4 flex list-disc flex-col gap-1");
                                        ("children", PArr [])]) ∧
  field.FieldError [] = PNull.
Proof. split; [|done]. eexists. split; [reflexivity|]. done. Qed.

(** The trigger of the sidebar calls the caller's handler and toggles, the rail only calls
    the caller's. *)
Lemma rail_and_trigger (toggles : list string) (f : string) :
  let context := [("toggleSidebar", PFun toggles)] in
  let given := [("onClick", PFun [f])] in
  Form.attr "onClick" (sidebar.SidebarTrigger context given) = PFun (f :: toggles) ∧
  Form.attr "onClick" (sidebar.SidebarRail context given) = PFun [f] ∧
  Form.attr "onClick" (sidebar.SidebarRail context []) = PFun toggles.
Proof. done. Qed.

(** A series of a chart named like a member that all objects inherit has this member for
    its configuration, though the chart does not configure it. *)
Lemma inherited_config config item :
  assoc_prop "constructor" config = None → assoc_prop "constructor" item = None →
  assoc_prop "payload" item = None →
  chart.getPayloadConfigFromPayload config (PObj item) "constructor" = PFun ["constructor"].
Proof.
  intros Hc Hi Hp.
  assert (∀ l, assoc_prop "constructor" l = None → chart.at_key "constructor" l = PFun ["constructor"]) as Ha.
  { intros l E. unfold chart.at_key. by rewrite E. }
  assert (∀ l, chart.has_key "constructor" l = true) as Hh.
  { intros l. unfold chart.has_key. by apply orb_true_r. }
  assert (chart.at_key "payload" item = PUndef) as Hu by (unfold chart.at_key; by rewrite Hp).
  unfold chart.getPayloadConfigFromPayload. cbn [chart.is_object members].
  rewrite Hu, (Ha item), !Hh by done. cbn. by rewrite ?Hh, Ha.
Qed.

(** [axis] among the options is not looked at: without [orientation] the carousel is
    horizontal. *)
Lemma axis_ignored axis opts : let asked := PObj (spread opts [("axis", PStr axis)]) in
  member (carousel.embla_options (PStr "horizontal") asked) "axis" = PStr "x" ∧
  ∀ r s ps, get "orientation" ps = PUndef →
    ∃ c, Form.attr "value" (carousel.Carousel r s ps) = PObj c ∧ get "orientation" c = PStr "horizontal".
Proof.
  cbv zeta. split; [unfold carousel.embla_options, member, get; by rewrite assoc_spread|].
  intros r s ps Ho. eexists. split; [reflexivity|]. rewrite Ho. done.
Qed.
End Details.
End Details.
